(* ===== verification/_CoqProject ===== *)
-Q . S2P
Prelude.v
Machine.v
Ipc.v
Kbc.v
Keyboard.v
MouseDrv.v
Timer.v
Calendar.v
Format.v
Rtc.v
Leaderboard.v
Geometry.v
Picture.v
Gpu.v
Heap.v
LinkedList.v
Sprite.v
SpritesUi.v
SpritesAlphabet.v
Xpm.v
Demo.v
UiElement.v
Menu.v
Gamestate.v
KeyboardManager.v
MouseManager.v
Proj.v
Startup.v
Shell.v
Reach.v
Clicks.v
Frame.v
Liveness.v
Lab2.v
Lab3.v
Lab4.v
SpritesLab.v
Lab5Gpu.v
Lab5.v
Rows.v
Grid.v
Screen.v
Level.v
Player.v
SpritesLevel.v
Assets.v
SpritesOther.v
Types.v
TypesApp.v
