(* ===== verification/Prelude.v ===== *)
(** * A verification of the LCOM project (proj/src, lab2 to lab5)

    The program is a game's shell for MINIX 3: it talks to the i8042
    controller, the PS/2 mouse, the i8254 timer, the real-time clock and a VBE
    graphics card, and shows two menus, a main menu and a leaderboard, with a
    mouse cursor.  [proj.c] subscribes the interrupts, sets the card up, builds
    the menus, and loops over the kernel's messages: a mouse interrupt moves
    the cursor, a keyboard interrupt updates the keys (ESC quits), every second
    timer interrupt draws a frame and acts on a click.  The labs are programs
    of their own that test the drivers one by one, each with its own loop over
    the messages.  Beside them lie the parts of a platform game the program
    does not call yet: the grid of a level read from a file, the screen that
    shows a part of it, the squares around the player, and their pictures.

    ** How the code is modelled

    Every C function is a definition of the same name.  It lives in the
    state-and-fault monad [M] of this file: a state is threaded through, an
    error code is a value, and undefined behaviour (signed overflow, an access
    outside a block, a NULL or stale pointer, a division by zero) is a
    [Fault], as are [panic] and [exit].  Integers are [Z] with the conversions
    of their width written out ([u8], [u16], [i16], ...) and [int] arithmetic
    checked by [int].  Static variables are records; a file's functions run on
    its own record and are lifted into the whole program by [zoom].  Heap
    objects live in typed stores (Heap.v), so that aliasing, frees and NULL are
    those of the code.  Loops are structural where their count is fixed and
    have fuel otherwise, running out of which is the fault [OutOfFuel]:

    - the polling loops have their retry counter as fuel, as in the source;
    - a loop over a linked list has one more than the number of live nodes,
      which any list without a cycle fits in; the theorems on lists and menus
      conclude [Ok], so the fuel is enough;
    - reading the rows of a level has the length of the file, as every line
      takes a character at least ([grid_init_reads] concludes [Ok]);
    - the loop of [assets_manager_draw_player_vis] never ends in the source:
      fifteen rounds are enough to reach its fault;
    - the loops over the kernel's messages ([proj_loop], and [iter] in the
      labs) have a number of rounds, since only the outside world ends them.
      Their safety theorems hold for every number of rounds; the termination
      theorems ([ends], [proj_main_loop_ends]) give a number from which on
      every number gives the result, under the law that the awaited interrupt
      keeps arriving ([Rings]), for the program that ESC is typed
      ([EscTyped]).

    What is not code of the repository is a parameter: the port instructions,
    kernel calls, [malloc] and the contents of uninitialised objects (class
    [Machine]), VBE and the mapping of video memory ([Video]), [xpm_load]
    ([XpmLoader]), the leaderboard file ([Files]), the level files
    ([LevelFiles]) and [driver_receive] ([Ipc]), in Player.v the three
    variables player.c declares and no file defines, and in the labs [counter],
    which lab2.c, lab3.c and lab5.c declare [extern] and no file defines: it is a
    function of the timer driver's statics.  The theorems on lab 3 and lab 5 hold
    for any such function; that on lab 2 assumes it is [timer_counter], as the
    runs of the examples do.  Their documented behaviour
    is in separate classes of laws ([VideoLaws], [XpmLaws], [FilesLaws],
    [MallocOk], [Surroundings], [DeviceTypes], [HoldsLevel], and for the labs
    [Rings], [Unheard], [SysHz], [Mode105] and [Loads], and for the end of the
    program [EscTyped]), which the theorems that
    need it name; Demo.v and Ipc.v have machines on which they hold.  The
    conversions of [printf] and [scanf] and the calendar functions of the C
    library are defined (Format.v, Calendar.v).  [printf] diagnostics are left
    out.

    ** Files

    - Prelude.v: outcomes, the monad and its weakest preconditions ([wp], and
      [wpe] with a condition on the fault), machine integers, byte blocks.
    - Machine.v: the machine, its events, the trace logic ([io_spec],
      [drv_spec]), the scripted machines of the concrete runs.
    - Ipc.v: messages, the loops over them, and their rules.
    - Kbc.v: drivers/utils.c, i8042.h, kbc.c, and what a trace says of the
      bytes that crossed the ports.  Keyboard.v: keyboard.c.
      MouseDrv.v: mouse.c.  Timer.v: i8254.h, timer.c.  Rtc.v: rtc.c.
    - Leaderboard.v: leaderboard/leaderboard.c.
    - Geometry.v: vec2.h, aabb/aabb.c.  Picture.v: pictures, the common
      specification of drawing.  Gpu.v: drivers/gpu.c.
    - Heap.v: typed stores.  LinkedList.v: data_structs/linked_list.c.
    - Sprite.v: sprite/sprite.c.  SpritesUi.v, SpritesAlphabet.v: the XPM
      arrays of assets/sprites/.  Xpm.v: their headers and
      alphabet_sprites_cord.h.
    - UiElement.v: ui/ui_element.c.  Menu.v: ui/menu.c.
    - Gamestate.v: gamestate/gamestate_manager.c (and [ui_element_on_click],
      which calls into it).
    - KeyboardManager.v, MouseManager.v: input/.
    - Proj.v: proj.c, the running program.  Startup.v: start-up and the
      whole program.  Shell.v: the abstract shell it implements.  Reach.v: the
      program as a state machine.  Clicks.v: clicks over several interrupts.
      Frame.v: what the program does to the machine.  Liveness.v: ESC ends it.
    - Lab2.v to Lab5.v: lab2/lab2.c to lab5/lab5.c.  Lab5Gpu.v: lab5/gpu.c.
      SpritesLab.v: the picture of lab 5.
    - Rows.v: the [char **] of the level on the heap.  Grid.v: grid/grid.c.
      Screen.v: screen/screen.c.  Level.v: the two together, from the file to
      the screen.  Player.v: player/player.c.  Assets.v:
      assets/assets_manager.c, with its pictures in SpritesLevel.v.
      SpritesOther.v: the sprites no code refers to.
    - Types.v, TypesApp.v: what it is for a state to be well typed, and that
      the program keeps it.

    The state of the whole program, [app], nests as the files use each other:
    [app] has the cursor, the keys and the drivers; the cursor has the front
    ([front]: interface and game state); the interface ([ui]) has the card and
    the sprites ([gfx]) and the stores of elements, list nodes and menus.

    ** What is proved

    The program (Startup.v, Proj.v): started on its initial statics the
    program never has undefined behaviour; a successful start-up establishes
    the invariant [running] (card set up, both menus built of the intended
    items, cursor on the screen), every interrupt keeps it, and the loop ends
    only by quitting, at once when ESC is read; a frame puts on the screen the
    cursor over the menu over the old back buffer.

    The refinement (Shell.v): a shell of a dozen lines (a pointer, a button, a
    key, a screen, a flag that halves the frames) reacts to three events, a
    mouse byte, a scan code and a tick; every interrupt of the program is
    those of its events, and a run that answers 0 is the shell's, from the
    main menu to the event that quits.  The events are read off the trace of the
    ports: the mouse byte is the one taken right after a status that announced a
    valid mouse byte ([valid_bytes] of Kbc.v), so none that counts is dropped.

    The state machine (Reach.v): a state is the statics between two rounds of
    the loop, a step a round on any machine state.  By rule induction every
    reachable state is sound (menus intact, pointer on the screen, ESC up until
    the end, the shell after some events) and has a step or has quit; the
    screens only go from the main menu to the leaderboard to the end.

    Liveness (Frame.v, Liveness.v): every property of the machine that the
    calls keep is kept by start-up and by every interrupt; so, where ESC is
    typed within some number of messages whatever the program does, and its
    code repeats before another key's, the program ends.  One code is not
    enough: it may be taken for the second byte of a longer one.

    Clicks (Clicks.v): a press is acted on if a frame is drawn before the next
    packet of the mouse, and lost otherwise.

    The interface (MouseManager.v, KeyboardManager.v, Menu.v, Sprite.v,
    UiElement.v): packets move the cursor, clamped to the screen; the callback
    of the first element under the pointer is called exactly when the button
    goes down; key states follow the last code of each key; the two menus are
    linked lists of exactly the intended elements, and drawing paints them in
    order; an animated sprite shows each frame for [delay + 1] draws.

    The card (Gpu.v): the drawing functions paint exactly the visible part of
    what they are asked for and never leave their buffers; the two ways to
    draw an image agree.  Pictures (Picture.v) are partial functions from
    pixels to colours up to pointwise equality, a monoid under [over], in which
    what does not meet commutes; [painted] says that a card is another with a
    picture on it.  So a menu whose elements do not meet, as the main menu, is
    drawn alike in any order.

    Data (LinkedList.v, Leaderboard.v, Geometry.v, Xpm.v): the heap list
    implements a pure list; the leaderboard keeps the best three; the file
    round trip (with the 2000-year shift of its dates); boxes; glyphs.

    The drivers (Kbc.v to Rtc.v): which bytes are read from and written to
    which port, in which order, and what is returned, for every device; the
    packet parser; the decoding of packets, BCD and control words.

    The labs (Lab2.v to Lab5.v): how many lines [timer_test_int] prints and
    that it ends; that the lines of the three scanners are the codes of the valid
    bytes of their whole traces, why each stops, and that the timed one ends when
    the keyboard is idle; that the packets printed were framed; what the
    rectangles and the pattern put on the screen, and the moving picture, a
    pixel further for each timer interrupt at which a frame was due
    ([due_ticks] of Timer.v counts them).

    The level (Grid.v, Screen.v, Player.v, Assets.v): which grid a level file
    makes and exactly when reading it succeeds, its failures, and that the heap
    is as before after [grid_cleanup]; which part of the grid the screen and
    the player show, and exactly when they stay inside their arrays; which
    characters of a file end up where on the screen; what the squares paint.
    These are for rows of fewer than 99 characters, which [char line[100]] holds
    with their newline ([row_ok]); longer ones are split over several rows of the
    grid, as an example of Grid.v computes.  These parts have more faults than
    the program has, and the theorems say where: a row as long as the level is
    wide overflows, the screen needs odd numbers of squares, the player's column is tested with his
    row, the player's picture is read past its end and drawing all squares
    never returns.

    Types (TypesApp.v): integers are [Z] here and have widths in the source;
    every integer, string of bytes and table of the program's static variables
    and heap objects holds values of its C type at the start, after start-up,
    after every interrupt and at the end.  A pointer is an address of the model's
    heap and has no width.

    ** What is not modelled

    The vendored headers under .minix-src are left out but for the structures
    and the picture the code reads.  [lcf_start], which calls [proj_main_loop] and
    the tests of the labs, is a library call in the five [main]s. *)

From stdpp Require Export prelude gmap strings list.
From Stdlib Require Export ZArith Lia.

Open Scope Z_scope.

(** ** Machine integers

    A C integer is a [Z]; a conversion to a [w]-bit type is written out. *)

Definition u8 (z : Z) : Z := z mod 256.
Definition u16 (z : Z) : Z := z mod 65536.
Definition u32 (z : Z) : Z := z mod 4294967296.
Definition i16 (z : Z) : Z := (z + 32768) mod 65536 - 32768.
Definition i32 (z : Z) : Z := (z + 2147483648) mod 4294967296 - 2147483648.
Definition INT_MIN : Z := -2147483648.
Definition INT_MAX : Z := 2147483647.
Definition fits_int (z : Z) : bool := (INT_MIN <=? z) && (z <=? INT_MAX).
Definition fits_i64 (z : Z) : bool :=
  (-9223372036854775808 <=? z) && (z <=? 9223372036854775807).

Definition BIT (n : Z) : Z := Z.shiftl 1 n.

(** A C integer as a condition, and a C comparison as an integer. *)
Definition tst (z : Z) : bool := negb (z =? 0).

(** ** Outcomes

    [Fault] is where the C program has no defined continuation (or leaves
    through [exit]/[panic]); an ordinary error code is a value. *)

Inductive fault : Type :=
  | SignedOverflow
  | OutOfBounds
  | NullDeref
  | BadPointer
  | DivByZero
  | BadConversion
  | Panic
  | ExitProgram (code : Z)
  | OutOfFuel.

Inductive res (A : Type) : Type :=
  | Ok (a : A)
  | Fault (f : fault).
Arguments Ok {A} _.
Arguments Fault {A} _.

Definition rbind {A B} (r : res A) (k : A -> res B) : res B :=
  match r with Ok a => k a | Fault f => Fault f end.
Notation "'let?' x := r 'in' k" := (rbind r (fun x => k))
  (at level 10, x pattern, k at level 200).

(** ** The state-and-fault monad every effectful function lives in. *)

Definition M (S A : Type) : Type := S -> res (A * S).

#[export] Instance M_ret {S} : MRet (M S) := fun A a s => Ok (a, s).
#[export] Instance M_bind {S} : MBind (M S) :=
  fun A B k m s => match m s with
                   | Ok (a, s') => k a s'
                   | Fault f => Fault f
                   end.

Definition fail {S A} (f : fault) : M S A := fun _ => Fault f.
Definition get {S} : M S S := fun s => Ok (s, s).
Definition gets {S A} (p : S -> A) : M S A := fun s => Ok (p s, s).
Definition put {S} (s : S) : M S unit := fun _ => Ok (tt, s).
Definition modify {S} (f : S -> S) : M S unit := fun s => Ok (tt, f s).
Definition lift_res {S A} (r : res A) : M S A :=
  fun s => match r with Ok a => Ok (a, s) | Fault f => Fault f end.

(** Run a computation on a part of a larger state. *)
Definition zoom {S C A} (gt : S -> C) (st : C -> S -> S) (m : M C A) : M S A :=
  fun s => match m (gt s) with
           | Ok (a, c) => Ok (a, st c s)
           | Fault f => Fault f
           end.

(** Signed [int] arithmetic: the value, or a fault on overflow. *)
Definition int {S} (z : Z) : M S Z :=
  if fits_int z then mret z else fail SignedOverflow.

(** [for (int i = a; i < b; i++) body(i)] for a body that does not leave the
    loop: [for_up (Z.to_nat (b - a)) a body]. *)
Fixpoint for_up {S} (n : nat) (i : Z) (body : Z -> M S unit) : M S unit :=
  match n with
  | O => mret tt
  | S n => body i ;; for_up n (i + 1) body
  end.

(** The same loop when the body may [return] from the function: the body
    answers [Some r] to return [r] and [None] to go on. *)
Fixpoint for_ret {S R} (n : nat) (i : Z) (body : Z -> M S (option R))
  : M S (option R) :=
  match n with
  | O => mret None
  | S n => o ← body i;
           match o with
           | Some r => mret (Some r)
           | None => for_ret n (i + 1) body
           end
  end.

(** ** Byte buffers: [memcpy] into and out of a block, bounds included. *)

Definition block_read (src : list Z) (off n : Z) : res (list Z) :=
  if (0 <=? off) && (0 <=? n) && (off + n <=? Z.of_nat (length src))
  then Ok (take (Z.to_nat n) (drop (Z.to_nat off) src))
  else Fault OutOfBounds.

Definition block_write (dst : list Z) (off : Z) (bs : list Z) : res (list Z) :=
  if (0 <=? off) && (off + Z.of_nat (length bs) <=? Z.of_nat (length dst))
  then Ok (take (Z.to_nat off) dst ++ bs
           ++ drop (Z.to_nat off + length bs) dst)
  else Fault OutOfBounds.

(** [a[i]] and [a[i] = v] on a C array. *)
Definition array_get {A} (l : list A) (i : Z) : res A :=
  if i <? 0 then Fault OutOfBounds
  else match l !! Z.to_nat i with
       | Some x => Ok x
       | None => Fault OutOfBounds
       end.

Definition array_set {A} (l : list A) (i : Z) (v : A) : res (list A) :=
  if (0 <=? i) && (i <? Z.of_nat (length l))
  then Ok (<[Z.to_nat i := v]> l)
  else Fault OutOfBounds.

(** Little-endian bytes of an unsigned value. *)
Fixpoint le_bytes (n : nat) (v : Z) : list Z :=
  match n with
  | O => []
  | S n => v mod 256 :: le_bytes n (v / 256)
  end.

(** ** Total-correctness weakest precondition

    [wp m Q s]: from [s], [m] does not fault and ends with [Q]. *)

Definition wp {S A} (m : M S A) (Q : A -> S -> Prop) (s : S) : Prop :=
  match m s with
  | Ok (a, s') => Q a s'
  | Fault _ => False
  end.

Section WP.
Context {S : Type}.

Lemma wp_ret {A} (a : A) (Q : A -> S -> Prop) s : Q a s -> wp (mret a) Q s.
Proof. exact id. Qed.

Lemma wp_bind {A B} (m : M S A) (k : A -> M S B) (Q : B -> S -> Prop) s :
  wp m (fun a => wp (k a) Q) s -> wp (m ≫= k) Q s.
Proof. unfold wp, mbind, M_bind. by destruct (m s) as [[]|]. Qed.

Lemma wp_bind_inv {A B} (m : M S A) (k : A -> M S B) (Q : B -> S -> Prop) s :
  wp (m ≫= k) Q s -> wp m (fun a => wp (k a) Q) s.
Proof. unfold wp, mbind, M_bind. by destruct (m s) as [[]|]. Qed.

Lemma wp_mono {A} (m : M S A) (P Q : A -> S -> Prop) s :
  wp m P s -> (forall a s', P a s' -> Q a s') -> wp m Q s.
Proof. unfold wp. destruct (m s) as [[]|]; auto. Qed.

Lemma wp_get (Q : S -> S -> Prop) s : Q s s -> wp get Q s.
Proof. exact id. Qed.

Lemma wp_gets {A} (p : S -> A) (Q : A -> S -> Prop) s :
  Q (p s) s -> wp (gets p) Q s.
Proof. exact id. Qed.

Lemma wp_put s' (Q : unit -> S -> Prop) s : Q tt s' -> wp (put s') Q s.
Proof. exact id. Qed.

Lemma wp_modify f (Q : unit -> S -> Prop) s : Q tt (f s) -> wp (modify f) Q s.
Proof. exact id. Qed.

Lemma wp_lift_res {A} (r : res A) a (Q : A -> S -> Prop) s :
  r = Ok a -> Q a s -> wp (lift_res r) Q s.
Proof. intros ->. exact id. Qed.

Lemma wp_int z (Q : Z -> S -> Prop) s :
  INT_MIN <= z <= INT_MAX -> Q z s -> wp (int z) Q s.
Proof.
  intros Hz HQ. unfold int, fits_int.
  destruct (Z.leb_spec INT_MIN z), (Z.leb_spec z INT_MAX); try lia. exact HQ.
Qed.

Lemma wp_zoom {C A} (gt : S -> C) st (m : M C A) (Q : A -> S -> Prop) s :
  wp m (fun a c => Q a (st c s)) (gt s) -> wp (zoom gt st m) Q s.
Proof. unfold wp, zoom. by destruct (m (gt s)) as [[]|]. Qed.

(** The loop rules: an invariant indexed by the loop variable. *)
Lemma wp_for_up (Inv : Z -> S -> Prop) n i body (Q : unit -> S -> Prop) s :
  Inv i s ->
  (forall j s', i <= j < i + Z.of_nat n -> Inv j s' ->
     wp (body j) (fun _ => Inv (j + 1)) s') ->
  (forall s', Inv (i + Z.of_nat n) s' -> Q tt s') ->
  wp (for_up n i body) Q s.
Proof.
  revert i s. induction n as [|n IH]; intros i s HI Hb HQ; cbn.
  - apply HQ. by replace (i + Z.of_nat 0) with i by lia.
  - apply wp_bind. eapply wp_mono; [apply Hb; [lia|done]|].
    intros [] s' HI'. apply IH; [done|..].
    + intros j s'' Hj. apply Hb. lia.
    + intros s'' HI''. apply HQ.
      by replace (i + Z.of_nat (Datatypes.S n)) with (i + 1 + Z.of_nat n) by lia.
Qed.

Lemma wp_for_ret {R} (Inv : Z -> S -> Prop) n i body
  (Q : option R -> S -> Prop) s :
  Inv i s ->
  (forall j s', i <= j < i + Z.of_nat n -> Inv j s' ->
     wp (body j) (fun o s'' => match o with
                               | Some r => Q (Some r) s''
                               | None => Inv (j + 1) s''
                               end) s') ->
  (forall s', Inv (i + Z.of_nat n) s' -> Q None s') ->
  wp (for_ret n i body) Q s.
Proof.
  revert i s. induction n as [|n IH]; intros i s HI Hb HQ; cbn.
  - apply HQ. by replace (i + Z.of_nat 0) with i by lia.
  - apply wp_bind. eapply wp_mono; [apply Hb; [lia|done]|].
    intros [r|] s' HI'; [done|]. apply IH; [done|..].
    + intros j s'' Hj. apply Hb. lia.
    + intros s'' HI''. apply HQ.
      by replace (i + Z.of_nat (Datatypes.S n)) with (i + 1 + Z.of_nat n) by lia.
Qed.
End WP.

Lemma wp_run {S A} (m : M S A) (Q : A -> S -> Prop) s :
  wp m Q s -> exists a s', m s = Ok (a, s') /\ Q a s'.
Proof. unfold wp. destruct (m s) as [[a s']|]; [eauto|done]. Qed.

Lemma run_wp {S A} (m : M S A) (Q : A -> S -> Prop) s a s' :
  m s = Ok (a, s') -> Q a s' -> wp m Q s.
Proof. unfold wp. by intros ->. Qed.

(** The same for a computation that may also leave with a fault in [E]. *)
Definition wpe {S A} (m : M S A) (E : fault -> Prop) (Q : A -> S -> Prop) (s : S)
  : Prop :=
  match m s with
  | Ok (a, s') => Q a s'
  | Fault f => E f
  end.

Section WPE.
Context {S : Type} (E : fault -> Prop).

Lemma wpe_bind {A B} (m : M S A) (k : A -> M S B) (Q : B -> S -> Prop) s :
  wpe m E (fun a => wpe (k a) E Q) s -> wpe (m ≫= k) E Q s.
Proof. unfold wpe, mbind, M_bind. by destruct (m s) as [[]|]. Qed.

Lemma wpe_mono {A} (m : M S A) (P Q : A -> S -> Prop) s :
  wpe m E P s -> (forall a s', P a s' -> Q a s') -> wpe m E Q s.
Proof. unfold wpe. destruct (m s) as [[]|]; auto. Qed.

Lemma wpe_wp {A} (m : M S A) (Q : A -> S -> Prop) s : wp m Q s -> wpe m E Q s.
Proof. unfold wpe, wp. by destruct (m s) as [[]|]. Qed.

Lemma wpe_fail {A} f (Q : A -> S -> Prop) s : E f -> wpe (fail f) E Q s.
Proof. exact id. Qed.

Lemma wpe_zoom {C A} (gt : S -> C) st (m : M C A) (Q : A -> S -> Prop) s :
  wpe m E (fun a c => Q a (st c s)) (gt s) -> wpe (zoom gt st m) E Q s.
Proof. unfold wpe, zoom. by destruct (m (gt s)) as [[]|]. Qed.

Lemma wpe_for_up (Inv : Z -> S -> Prop) n i body (Q : unit -> S -> Prop) s :
  Inv i s ->
  (forall j s', i <= j < i + Z.of_nat n -> Inv j s' ->
     wpe (body j) E (fun _ => Inv (j + 1)) s') ->
  (forall s', Inv (i + Z.of_nat n) s' -> Q tt s') ->
  wpe (for_up n i body) E Q s.
Proof.
  revert i s. induction n as [|n IH]; intros i s HI Hb HQ; cbn.
  - apply HQ. by replace (i + Z.of_nat 0) with i by lia.
  - apply wpe_bind. eapply wpe_mono; [apply Hb; [lia|done]|].
    intros [] s' HI'. apply IH; [done|..].
    + intros j s'' Hj. apply Hb. lia.
    + intros s'' HI''. apply HQ.
      by replace (i + Z.of_nat (Datatypes.S n)) with (i + 1 + Z.of_nat n) by lia.
Qed.

(** The result, with where it comes from. *)
Lemma wpe_eqn {A} (m : M S A) (Q : A -> S -> Prop) s :
  wpe m E Q s -> wpe m E (fun a s' => Q a s' /\ m s = Ok (a, s')) s.
Proof. unfold wpe. by destruct (m s) as [[]|]. Qed.

Lemma wpe_run {A} (m : M S A) (Q : A -> S -> Prop) s a s' :
  wpe m E Q s -> m s = Ok (a, s') -> Q a s'.
Proof. unfold wpe. intros H Hm. by rewrite Hm in H. Qed.
End WPE.

Lemma wpe_weaken {S A} (E1 E2 : fault -> Prop) (m : M S A) (Q : A -> S -> Prop) s :
  (forall f, E1 f -> E2 f) -> wpe m E1 Q s -> wpe m E2 Q s.
Proof. unfold wpe. destruct (m s) as [[a s']|f]; auto. Qed.

(** One step of symbolic execution; [wp_steps] repeats it. *)
Ltac wp_step :=
  lazymatch goal with
  | |- wp (mbind _ _) _ _ => apply wp_bind
  | |- wp (mret _) _ _ => apply wp_ret
  | |- wp get _ _ => apply wp_get
  | |- wp (gets _) _ _ => apply wp_gets
  | |- wp (put _) _ _ => apply wp_put
  | |- wp (modify _) _ _ => apply wp_modify
  | |- wp (zoom _ _ _) _ _ => apply wp_zoom
  | |- wp (let '(_, _) := ?p in _) _ _ => destruct p
  | |- wpe (mbind _ _) _ _ _ => apply wpe_bind
  | |- wpe (mret _) _ _ _ => apply wpe_wp, wp_ret
  | |- wpe get _ _ _ => apply wpe_wp, wp_get
  | |- wpe (gets _) _ _ _ => apply wpe_wp, wp_gets
  | |- wpe (put _) _ _ _ => apply wpe_wp, wp_put
  | |- wpe (modify _) _ _ _ => apply wpe_wp, wp_modify
  | |- wpe (fail _) _ _ _ => apply wpe_fail
  | |- wpe (zoom _ _ _) _ _ _ => apply wpe_zoom
  | |- wpe (let '(_, _) := ?p in _) _ _ _ => destruct p
  end; cbn beta iota.
Ltac wp_steps := repeat wp_step.

(** A checked [int] operation that does not overflow. *)
Ltac int_step :=
  wp_step; apply wp_int; [unfold INT_MIN, INT_MAX in *; cbn; first [lia|nia]|].

(** ** Integers *)

Create HintDb width.

Lemma u8_range z : 0 <= u8 z < 256.
Proof. apply Z.mod_pos_bound; lia. Qed.
Lemma u16_range z : 0 <= u16 z < 65536.
Proof. apply Z.mod_pos_bound; lia. Qed.
Lemma u32_range z : 0 <= u32 z < 4294967296.
Proof. apply Z.mod_pos_bound; lia. Qed.
Lemma i16_range z : -32768 <= i16 z < 32768.
Proof. unfold i16. pose proof (Z.mod_pos_bound (z + 32768) 65536). lia. Qed.
Lemma i32_range z : INT_MIN <= i32 z <= INT_MAX.
Proof.
  unfold i32, INT_MIN, INT_MAX.
  pose proof (Z.mod_pos_bound (z + 2147483648) 4294967296). lia.
Qed.

Lemma u8_id z : 0 <= z < 256 -> u8 z = z.
Proof. apply Z.mod_small. Qed.
Lemma u16_id z : 0 <= z < 65536 -> u16 z = z.
Proof. apply Z.mod_small. Qed.
Lemma u32_id z : 0 <= z < 4294967296 -> u32 z = z.
Proof. apply Z.mod_small. Qed.
Lemma i16_id z : -32768 <= z < 32768 -> i16 z = z.
Proof. intros H. unfold i16. rewrite Z.mod_small; lia. Qed.
Lemma i32_id z : INT_MIN <= z <= INT_MAX -> i32 z = z.
Proof. unfold INT_MIN, INT_MAX. intros H. unfold i32. rewrite Z.mod_small; lia. Qed.

#[export] Hint Resolve u8_range u16_range u32_range i16_range i32_range : width.

(** Testing a mask of one bit is testing that bit. *)
Lemma tst_land_bit z n : 0 <= n -> tst (Z.land z (BIT n)) = Z.testbit z n.
Proof.
  intros Hn. unfold tst, BIT. rewrite Z.shiftl_1_l.
  destruct (Z.testbit z n) eqn:E.
  - apply negb_true_iff, Z.eqb_neq. intros H0.
    assert (Z.testbit (Z.land z (2 ^ n)) n = true) as Ht.
    { by rewrite Z.land_spec, E, Z.pow2_bits_true. }
    by rewrite H0, Z.bits_0 in Ht.
  - apply negb_false_iff, Z.eqb_eq, Z.bits_inj'. intros m Hm.
    rewrite Z.land_spec, Z.pow2_bits_eqb, Z.bits_0 by lia.
    destruct (Z.eqb_spec n m) as [<-|]; [by rewrite E|by rewrite andb_false_r].
Qed.

(** ** Buffers *)

Lemma block_write_ok dst off bs :
  0 <= off -> off + Z.of_nat (length bs) <= Z.of_nat (length dst) ->
  block_write dst off bs
  = Ok (take (Z.to_nat off) dst ++ bs ++ drop (Z.to_nat off + length bs) dst).
Proof.
  intros H1 H2. unfold block_write.
  destruct (Z.leb_spec 0 off); [|lia].
  destruct (Z.leb_spec (off + Z.of_nat (length bs)) (Z.of_nat (length dst)));
    [done|lia].
Qed.

Lemma block_read_ok src off n :
  0 <= off -> 0 <= n -> off + n <= Z.of_nat (length src) ->
  block_read src off n = Ok (take (Z.to_nat n) (drop (Z.to_nat off) src)).
Proof.
  intros H1 H2 H3. unfold block_read.
  destruct (Z.leb_spec 0 off), (Z.leb_spec 0 n); try lia.
  destruct (Z.leb_spec (off + n) (Z.of_nat (length src))); [done|lia].
Qed.

Lemma block_write_length dst off bs dst' :
  block_write dst off bs = Ok dst' -> length dst' = length dst.
Proof.
  unfold block_write. case_match eqn:E; intros; simplify_eq.
  apply andb_prop in E as [E1%Z.leb_le E2%Z.leb_le].
  rewrite !length_app, length_take, length_drop. lia.
Qed.

Lemma block_write_lookup dst off bs dst' (i : nat) :
  block_write dst off bs = Ok dst' ->
  dst' !! i =
    if decide (off <= Z.of_nat i < off + Z.of_nat (length bs))
    then bs !! (i - Z.to_nat off)%nat
    else dst !! i.
Proof.
  unfold block_write. case_match eqn:E; intros; simplify_eq.
  apply andb_prop in E as [E1%Z.leb_le E2%Z.leb_le].
  case_decide as Hd.
  - rewrite lookup_app_r; rewrite length_take; [|lia].
    rewrite lookup_app_l; [f_equal; lia|lia].
  - destruct (decide (Z.of_nat i < off)).
    + rewrite lookup_app_l; [|rewrite length_take; lia].
      rewrite lookup_take_lt; [done|lia].
    + rewrite lookup_app_r; rewrite length_take; [|lia].
      rewrite lookup_app_r; [|lia]. rewrite lookup_drop. f_equal. lia.
Qed.

Lemma array_get_ok {A} (l : list A) i x :
  0 <= i -> l !! Z.to_nat i = Some x -> array_get l i = Ok x.
Proof.
  intros Hi Hx. unfold array_get. destruct (Z.ltb_spec i 0); [lia|by rewrite Hx].
Qed.

Lemma array_get_inv {A} (l : list A) i x :
  array_get l i = Ok x -> 0 <= i /\ l !! Z.to_nat i = Some x.
Proof.
  unfold array_get. destruct (Z.ltb_spec i 0); [done|].
  case_match; intros; simplify_eq. auto.
Qed.

Lemma array_set_ok {A} (l : list A) i v :
  0 <= i < Z.of_nat (length l) -> array_set l i v = Ok (<[Z.to_nat i := v]> l).
Proof.
  intros H. unfold array_set.
  destruct (Z.leb_spec 0 i), (Z.ltb_spec i (Z.of_nat (length l))); (done || lia).
Qed.
