(* ===== verification/Machine.v ===== *)
(** * The machine under the program

    The kernel calls, port instructions and C allocation the drivers rely on
    are not code of the repository: they are the operations of the class
    [Machine], over an arbitrary type [W] of machine states.  Every call
    leaves an event in a trace, so that what a driver does to the hardware is
    a statement about the events it emits, for every machine.

    The last part is a trace logic: [io_spec m P] says that [m] never faults
    and that its result and the events it emits satisfy [P]. *)

From S2P Require Import Prelude.

Class Machine (W : Type) : Type := {
  (** [sys_inb(port, &v)]: the call's result and the value stored in [v]. *)
  dev_inb : Z -> W -> (Z * Z) * W;
  (** [sys_outb(port, v)] *)
  dev_outb : Z -> Z -> W -> Z * W;
  (** [tickdelay(ticks)] and [micros_to_ticks(us)] *)
  dev_tickdelay : Z -> W -> W;
  dev_micros_to_ticks : Z -> W -> Z;
  (** [sys_irqsetpolicy(irq, policy, &hook)]: result and new [hook]. *)
  dev_irqsetpolicy : Z -> Z -> Z -> W -> (Z * Z) * W;
  (** [sys_irqrmpolicy(&hook)] *)
  dev_irqrmpolicy : Z -> W -> Z * W;
  (** Whether the next [malloc] succeeds. *)
  dev_malloc : W -> bool * W;
  (** Any other call into the kernel or the LCF library that only answers
      a status: its name and its integer arguments. *)
  dev_call : string -> list Z -> W -> Z * W;
  (** What an object that was never written holds when it is read. *)
  dev_indeterminate : W -> Z * W;
}.

Inductive io_event : Type :=
  | EvIn (port status value : Z)
  | EvOut (port value status : Z)
  | EvDelay (ticks : Z)
  | EvIrqSet (irq policy hook status : Z)
  | EvIrqRm (hook status : Z)
  | EvCall (name : string) (args : list Z) (status : Z).

#[export] Instance io_event_eq_dec : EqDecision io_event.
Proof. solve_decision. Defined.

Record iost (W : Type) : Type := mkIo {
  io_world : W;
  io_trace : list io_event;
}.
Arguments mkIo {W} _ _.
Arguments io_world {W} _.
Arguments io_trace {W} _.

(** [io A]: a computation that only talks to the machine.  [drv X A]: one
    that also owns the static variables [X] of a driver. *)
Abbreviation io W := (M (iost W)).
Abbreviation drv W X := (M (X * iost W)).

Section Ops.
Context {W : Type} `{Machine W}.

Definition emit {A} (ev : A -> io_event) (step : W -> A * W) : io W A :=
  fun s => let '(a, w) := step (io_world s) in
           Ok (a, mkIo w (io_trace s ++ [ev a])).

Definition oracle {A} (step : W -> A * W) : io W A :=
  fun s => let '(a, w) := step (io_world s) in Ok (a, mkIo w (io_trace s)).

Definition sys_inb (port : Z) : io W (Z * Z) :=
  emit (fun '(r, v) => EvIn port r v) (dev_inb port).
Definition sys_outb (port v : Z) : io W Z :=
  emit (fun r => EvOut port v r) (dev_outb port v).
Definition tickdelay (ticks : Z) : io W unit :=
  emit (fun _ => EvDelay ticks) (fun w => (tt, dev_tickdelay ticks w)).
Definition micros_to_ticks (us : Z) : io W Z :=
  oracle (fun w => (dev_micros_to_ticks us w, w)).
Definition sys_irqsetpolicy (irq policy hook : Z) : io W (Z * Z) :=
  emit (fun '(r, _) => EvIrqSet irq policy hook r)
       (dev_irqsetpolicy irq policy hook).
Definition sys_irqrmpolicy (hook : Z) : io W Z :=
  emit (fun r => EvIrqRm hook r) (dev_irqrmpolicy hook).
Definition lib_call (name : string) (args : list Z) : io W Z :=
  emit (fun r => EvCall name args r) (dev_call name args).
Definition malloc_ok : io W bool := oracle dev_malloc.
Definition indeterminate : io W Z := oracle dev_indeterminate.
End Ops.

(** The machine part of a driver's state. *)
Definition on_io {W X A} (m : io W A) : drv W X A :=
  zoom snd (fun io st => (st.1, io)) m.
Definition statics {W X} : drv W X X := gets fst.
Definition set_statics {W X} (f : X -> X) : drv W X unit :=
  modify (fun st => (f st.1, st.2)).

Definition on_statics {W X A} (m : M X A) : drv W X A :=
  zoom fst (fun x st => (x, st.2)) m.

(** [BIT(n)], that is [1 << n] on an [int]: undefined outside [0..30]. *)
Definition bit_int {S} (n : Z) : M S Z :=
  if (0 <=? n) && (n <? 31) then mret (BIT n) else fail SignedOverflow.

(** Constants of the MINIX headers the drivers pass to the kernel. *)
Definition IRQ_REENABLE : Z := 1.
Definition IRQ_EXCLUSIVE : Z := 2.

(** ** The trace logic *)

Definition io_spec {W A} (m : io W A) (P : A -> list io_event -> Prop) : Prop :=
  forall s, wp m (fun a s' => exists evs,
    io_trace s' = io_trace s ++ evs /\ P a evs) s.

Definition drv_spec {W X A} (x : X) (m : drv W X A)
  (P : A -> X -> list io_event -> Prop) : Prop :=
  forall s, wp m (fun a st => exists evs,
    io_trace st.2 = io_trace s ++ evs /\ P a st.1 evs) (x, s).

Section Logic.
Context {W : Type} `{Machine W}.

Lemma io_ret {A} (a : A) (P : A -> list io_event -> Prop) :
  P a [] -> io_spec (W := W) (mret a) P.
Proof. intros HP s. apply wp_ret. exists []. by rewrite app_nil_r. Qed.

Lemma io_bind {A B} (m : io W A) (k : A -> io W B) P :
  io_spec m (fun a evs => io_spec (k a) (fun b evs' => P b (evs ++ evs'))) ->
  io_spec (m ≫= k) P.
Proof.
  intros Hm s. apply wp_bind. eapply wp_mono; [apply Hm|].
  intros a s1 (evs & E & Hk). eapply wp_mono; [apply Hk|].
  intros b s2 (evs' & E' & HP). exists (evs ++ evs').
  by rewrite E', E, app_assoc.
Qed.

Lemma io_mono {A} (m : io W A) (P Q : A -> list io_event -> Prop) :
  io_spec m P -> (forall a evs, P a evs -> Q a evs) -> io_spec m Q.
Proof.
  intros Hm HPQ s. eapply wp_mono; [apply Hm|].
  intros a s' (evs & ? & ?). eauto.
Qed.

Lemma io_and {A} (m : io W A) P Q :
  io_spec m P -> io_spec m Q -> io_spec m (fun a evs => P a evs /\ Q a evs).
Proof.
  intros HP HQ s. specialize (HP s). specialize (HQ s). unfold wp in *.
  destruct (m s) as [[a s']|]; [|done]. destruct HP as (evs & E & HP), HQ as (evs' & E' & HQ).
  rewrite E in E'. apply app_inv_head in E' as ->. eauto.
Qed.

Lemma io_emit {A} (ev : A -> io_event) (step : W -> A * W) P :
  (forall a, P a [ev a]) -> io_spec (emit ev step) P.
Proof.
  intros HP s. unfold wp, emit. destruct (step (io_world s)) as [a w]. cbn.
  eauto.
Qed.

Lemma io_oracle {A} (step : W -> A * W) P :
  (forall a, P a []) -> io_spec (oracle step) P.
Proof.
  intros HP s. unfold wp, oracle. destruct (step (io_world s)) as [a w]. cbn.
  exists []. by rewrite app_nil_r.
Qed.

Lemma drv_ret {X A} (x : X) (a : A) P :
  P a x [] -> drv_spec (W := W) x (mret a) P.
Proof. intros HP s. apply wp_ret. exists []. by rewrite app_nil_r. Qed.

Lemma drv_bind {X A B} (x : X) (m : drv W X A) (k : A -> drv W X B) P :
  drv_spec x m (fun a x' evs =>
    drv_spec x' (k a) (fun b x'' evs' => P b x'' (evs ++ evs'))) ->
  drv_spec x (m ≫= k) P.
Proof.
  intros Hm s. apply wp_bind. eapply wp_mono; [apply Hm|].
  intros a [x1 s1] (evs & E & Hk). eapply wp_mono; [apply Hk|].
  intros b [x2 s2] (evs' & E' & HP). exists (evs ++ evs'). cbn in *.
  by rewrite E', E, app_assoc.
Qed.

Lemma drv_mono {X A} (x : X) (m : drv W X A) P Q :
  drv_spec x m P -> (forall a x' evs, P a x' evs -> Q a x' evs) ->
  drv_spec x m Q.
Proof.
  intros Hm HPQ s. eapply wp_mono; [apply Hm|].
  intros a s' (evs & ? & ?). eauto.
Qed.

Lemma drv_io {X A} (x : X) (m : io W A) P :
  io_spec m (fun a evs => P a x evs) -> drv_spec x (on_io m) P.
Proof. intros Hm s. apply wp_zoom. cbn. apply Hm. Qed.

Lemma drv_statics {X} (x : X) P : P x x [] -> drv_spec (W := W) x statics P.
Proof. intros HP s. apply wp_gets. exists []. by rewrite app_nil_r. Qed.

Lemma drv_set {X} (x : X) f P :
  P tt (f x) [] -> drv_spec (W := W) x (set_statics f) P.
Proof. intros HP s. apply wp_modify. exists []. cbn. by rewrite app_nil_r. Qed.
End Logic.

(** A library call, and any computation with a trace, inside a driver. *)
Lemma wp_lib_call {W X} `{Machine W} name args (Q : Z -> X * iost W -> Prop) x io :
  (forall r io', io_trace io' = io_trace io ++ [EvCall name args r] -> Q r (x, io')) ->
  wp (on_io (lib_call name args)) Q (x, io).
Proof.
  intros HQ. unfold on_io. apply wp_zoom. unfold wp, lib_call, emit. cbn [snd].
  destruct (dev_call name args (io_world io)) as [a w]. by apply HQ.
Qed.

Lemma wp_on_io {W X A} (m : io W A) P (Q : A -> X * iost W -> Prop) x io :
  io_spec m P -> (forall a evs io', P a evs -> Q a (x, io')) -> wp (on_io m) Q (x, io).
Proof.
  intros Hm HQ. unfold on_io. apply wp_zoom. eapply wp_mono; [apply Hm|].
  intros a io' (evs & _ & HP). by eapply HQ.
Qed.

Lemma wp_drv {W X A} (x : X) (m : drv W X A) P (Q : A -> X * iost W -> Prop) io :
  drv_spec x m P ->
  (forall a x' io' evs, io_trace io' = io_trace io ++ evs -> P a x' evs -> Q a (x', io')) ->
  wp m Q (x, io).
Proof.
  intros Hm HQ. eapply wp_mono; [apply Hm|]. intros a [x' io'] (evs & Ht & HP). by eapply HQ.
Qed.

(** One step of a trace proof; the primitive calls are stepped through, a
    call of another driver function needs its own lemma ([io_call]). *)
Ltac io_step :=
  lazymatch goal with
  | |- io_spec (mbind _ _) _ => apply io_bind
  | |- io_spec (mret _) _ => apply io_ret
  | |- io_spec (sys_inb _) _ => apply io_emit; intros [? ?]
  | |- io_spec (sys_outb _ _) _ => apply io_emit; intros ?
  | |- io_spec (tickdelay _) _ => apply io_emit; intros []
  | |- io_spec (sys_irqsetpolicy _ _ _) _ => apply io_emit; intros [? ?]
  | |- io_spec (sys_irqrmpolicy _) _ => apply io_emit; intros ?
  | |- io_spec (lib_call _ _) _ => apply io_emit; intros ?
  | |- io_spec (micros_to_ticks _) _ => apply io_oracle; intros ?
  | |- io_spec malloc_ok _ => apply io_oracle; intros ?
  | |- io_spec indeterminate _ => apply io_oracle; intros ?
  | |- io_spec (if ?b then _ else _) _ => let E := fresh "E" in destruct b eqn:E
  | |- io_spec (let '(_, _) := ?p in _) _ => destruct p
  | |- drv_spec _ (mbind _ _) _ => apply drv_bind
  | |- drv_spec _ (mret _) _ => apply drv_ret
  | |- drv_spec _ (on_io _) _ => apply drv_io
  | |- drv_spec _ statics _ => apply drv_statics
  | |- drv_spec _ (set_statics _) _ => apply drv_set
  | |- drv_spec _ (if ?b then _ else _) _ => let E := fresh "E" in destruct b eqn:E
  end; cbn beta iota.
Ltac io_steps := repeat io_step.
Tactic Notation "io_call" constr(lem) :=
  first [apply io_bind | apply drv_bind | idtac];
  first [eapply io_mono; [apply lem|] | eapply drv_mono; [apply lem|]
        | apply drv_io; eapply io_mono; [apply lem|]];
  cbn beta iota.

(** ** A scripted machine, for the concrete runs

    Each port read, port write, allocation and indeterminate read takes the
    next answer of its script; an exhausted script answers a failure. *)

Record script : Type := mkScript {
  sc_in : list (Z * Z);
  sc_out : list Z;
  sc_irq : list (Z * Z);
  sc_malloc : list bool;
  sc_junk : list Z;
  sc_call : list Z;
}.

Definition next {A} (d : A) (l : list A) : A * list A :=
  match l with [] => (d, []) | a :: l => (a, l) end.

#[export] Instance scripted : Machine script := {
  dev_inb _ w := let '(a, l) := next (1, 0) (sc_in w) in
    (a, mkScript l (sc_out w) (sc_irq w) (sc_malloc w) (sc_junk w) (sc_call w));
  dev_outb _ _ w := let '(a, l) := next 1 (sc_out w) in
    (a, mkScript (sc_in w) l (sc_irq w) (sc_malloc w) (sc_junk w) (sc_call w));
  dev_tickdelay _ w := w;
  dev_micros_to_ticks us _ := us / 16666;
  dev_irqsetpolicy _ _ h w := let '(a, l) := next (1, h) (sc_irq w) in
    ((a.1, i32 a.2), mkScript (sc_in w) (sc_out w) l (sc_malloc w) (sc_junk w) (sc_call w));
  dev_irqrmpolicy _ w := let '(a, l) := next (1, 0) (sc_irq w) in
    (a.1, mkScript (sc_in w) (sc_out w) l (sc_malloc w) (sc_junk w) (sc_call w));
  dev_malloc w := let '(a, l) := next false (sc_malloc w) in
    (a, mkScript (sc_in w) (sc_out w) (sc_irq w) l (sc_junk w) (sc_call w));
  dev_call _ _ w := let '(a, l) := next 1 (sc_call w) in
    (a, mkScript (sc_in w) (sc_out w) (sc_irq w) (sc_malloc w) (sc_junk w) l);
  dev_indeterminate w := let '(a, l) := next 0 (sc_junk w) in
    (a, mkScript (sc_in w) (sc_out w) (sc_irq w) (sc_malloc w) l (sc_call w));
}.

(** A machine on which every allocation succeeds. *)
Class MallocOk (W : Type) `{Machine W} : Prop :=
  malloc_succeeds : forall w, (dev_malloc w).1 = true.

Lemma wp_oracle {W A} (step : W -> A * W) (Q : A -> iost W -> Prop) s :
  (forall a w, step (io_world s) = (a, w) -> Q a (mkIo w (io_trace s))) ->
  wp (oracle step) Q s.
Proof. unfold wp, oracle. destruct (step _) as [a w] eqn:E. auto. Qed.

Lemma wp_malloc_ok `{Machine W, !MallocOk W} (Q : bool -> iost W -> Prop) s :
  (forall s', io_trace s' = io_trace s -> Q true s') -> wp malloc_ok Q s.
Proof.
  intros HQ. apply wp_oracle. intros a w E. pose proof (malloc_succeeds (io_world s)) as Hm.
  rewrite E in Hm. cbn in Hm. subst a. by apply HQ.
Qed.

Record roomy (W : Type) : Type := mkRoomy { narrow : W }.
Arguments mkRoomy {W} _.
Arguments narrow {W} _.

Definition in_room {W A} (step : W -> A * W) (p : roomy W) : A * roomy W :=
  let '(a, w) := step (narrow p) in (a, mkRoomy w).

#[export] Instance machine_roomy {W} `{Machine W} : Machine (roomy W) := {
  dev_inb port := in_room (dev_inb port);
  dev_outb port v := in_room (dev_outb port v);
  dev_tickdelay t p := mkRoomy (dev_tickdelay t (narrow p));
  dev_micros_to_ticks us p := dev_micros_to_ticks us (narrow p);
  dev_irqsetpolicy irq policy hook := in_room (dev_irqsetpolicy irq policy hook);
  dev_irqrmpolicy hook := in_room (dev_irqrmpolicy hook);
  dev_malloc p := (true, p);
  dev_call name args := in_room (dev_call name args);
  dev_indeterminate := in_room dev_indeterminate;
}.

#[export] Instance roomy_malloc {W} `{Machine W} : MallocOk (roomy W).
Proof. done. Qed.

(** Run a driver function on a script; the answer and the events. *)
Definition run_io {A} (m : io script A) (w : script) : res (A * list io_event) :=
  match m (mkIo w []) with
  | Ok (a, s) => Ok (a, io_trace s)
  | Fault f => Fault f
  end.

Definition run_drv {X A} (m : drv script X A) (x : X) (w : script)
  : res (A * X * list io_event) :=
  match m (x, mkIo w []) with
  | Ok (a, (x', s)) => Ok (a, x', io_trace s)
  | Fault f => Fault f
  end.

(** A machine with more state beside it (a file, a screen, a mail box) is
    still a machine. *)
Definition beside {W X A} (step : W -> A * W) (p : W * X) : A * (W * X) :=
  let '(a, w) := step p.1 in (a, (w, p.2)).

#[export] Instance machine_beside {W X} `{Machine W} : Machine (W * X) := {
  dev_inb port := beside (dev_inb port);
  dev_outb port v := beside (dev_outb port v);
  dev_tickdelay t p := (dev_tickdelay t p.1, p.2);
  dev_micros_to_ticks us p := dev_micros_to_ticks us p.1;
  dev_irqsetpolicy irq policy hook := beside (dev_irqsetpolicy irq policy hook);
  dev_irqrmpolicy hook := beside (dev_irqrmpolicy hook);
  dev_malloc := beside dev_malloc;
  dev_call name args := beside (dev_call name args);
  dev_indeterminate := beside dev_indeterminate;
}.
