(* ===== verification/Ipc.v ===== *)
(** * Waiting for messages: the kernel's IPC and the interrupt loops

    Every program of the repository ends in a loop around [driver_receive].
    What it fills in is a parameter, the class [Ipc].  A loop whose end is
    decided by its messages is an [iter]: a body that answers the next value
    of the loop's local variables or the loop's result, with a number of
    rounds as fuel.  [wpe_iter] is the rule for any number of rounds; [wp_iter]
    is the one for a loop that ends, by a measure on its states. *)

From Stdlib Require Import Lexicographic_Product Relation_Operators.
From S2P Require Import Prelude Machine.

Definition HARDWARE : Z := -1.

(** What [driver_receive] fills in, as far as the loops look at it. *)
Record message : Type := mkMessage {
  is_notify : bool;
  source_p : Z;
  interrupts : Z;
}.

Class Ipc (W : Type) : Type := {
  driver_receive : W -> (Z * message) * W;
}.

(** The interrupt mask of a message that is a hardware notification. *)
Definition hardware (msg : message) : option Z :=
  if is_notify msg && (source_p msg =? HARDWARE) then Some (interrupts msg) else None.

(** One [driver_receive] of a loop that only looks at hardware notifications. *)
Definition receive {W} `{Ipc W} : io W (option Z) :=
  '(r, msg) ← oracle driver_receive;
  mret (if tst r then None else hardware msg).

(** ** Loops *)

Fixpoint iter {S A B} (rounds : nat) (body : A -> M S (A + B)) (a : A) : M S B :=
  match rounds with
  | O => fail OutOfFuel
  | S rounds =>
      r ← body a;
      match r with
      | inl a => iter rounds body a
      | inr b => mret b
      end
  end.

(** [m] with enough fuel ends with [Q], and more fuel changes nothing of it. *)
Definition ends {S A} (m : nat -> M S A) (Q : A -> S -> Prop) (s : S) : Prop :=
  exists n, forall k, (n <= k)%nat -> wp (m k) Q s.

Section Loops.
Context {S A B : Type} (body : A -> M S (A + B)).

Lemma wpe_iter (E : fault -> Prop) (I : A -> S -> Prop) (Q : B -> S -> Prop) n a s :
  E OutOfFuel -> I a s ->
  (forall a s, I a s ->
     wpe (body a) E (fun r s' => match r with inl a' => I a' s' | inr b => Q b s' end) s) ->
  wpe (iter n body a) E Q s.
Proof.
  intros HE HI Hb. revert a s HI. induction n as [|n IH]; intros a s HI; cbn [iter].
  { by apply wpe_fail. }
  wp_step. eapply wpe_mono; [by apply Hb|]. intros [a'|b] s' Hr; [by apply IH|exact Hr].
Qed.

(** The same with an invariant that knows how many rounds there have been. *)
Lemma wpe_iter_count (E : fault -> Prop) (I : nat -> A -> S -> Prop) (Q : B -> S -> Prop) n a s :
  E OutOfFuel -> I 0%nat a s ->
  (forall i a s, (i < n)%nat -> I i a s ->
     wpe (body a) E (fun r s' => match r with inl a' => I (1 + i)%nat a' s' | inr b => Q b s' end) s) ->
  wpe (iter n body a) E Q s.
Proof.
  intros HE HI Hb.
  cut (forall k i a s, (i + k)%nat = n -> I i a s -> wpe (iter k body a) E Q s);
    [intros Hc; by apply (Hc n 0%nat)|].
  clear a s HI. induction k as [|k IH]; intros i a s Hn HI; cbn [iter]; [by apply wpe_fail|].
  wp_step. eapply wpe_mono; [apply (Hb i); [lia|done]|].
  intros [a'|b] s' Hr; [by apply (IH (1 + i)%nat); [lia|]|exact Hr].
Qed.

(** Every round answers, or goes on with a smaller state. *)
Lemma wp_iter {D} (R : D -> D -> Prop) (mu : A -> S -> D) (I : A -> S -> Prop)
  (Q : B -> S -> Prop) a s :
  well_founded R -> I a s ->
  (forall a s, I a s ->
     wp (body a) (fun r s' => match r with
                              | inl a' => I a' s' /\ R (mu a' s') (mu a s)
                              | inr b => Q b s'
                              end) s) ->
  ends (fun n => iter n body a) Q s.
Proof.
  intros Hwf HI Hb. remember (mu a s) as d eqn:Ed. revert a s Ed HI.
  induction (Hwf d) as [d _ IH]. intros a s -> HI.
  pose proof (Hb a s HI) as Hr. apply wp_run in Hr as ([a'|b] & s' & E & Hr).
  - destruct Hr as [HI' HR]. destruct (IH _ HR a' s' eq_refl HI') as [n Hn].
    exists (Datatypes.S n). intros [|k] Hk; [lia|]. cbn [iter]. apply wp_bind.
    eapply run_wp; [exact E|]. apply Hn. lia.
  - exists 1%nat. intros [|k] Hk; [lia|]. cbn [iter]. apply wp_bind.
    eapply run_wp; [exact E|exact Hr].
Qed.
End Loops.

Lemma ends_mono {S A} (m : nat -> M S A) (P Q : A -> S -> Prop) s :
  ends m P s -> (forall a s', P a s' -> Q a s') -> ends m Q s.
Proof. intros [n Hn] HPQ. exists n. intros k Hk. eapply wp_mono; [by apply Hn|done]. Qed.

(** A part with fuel inside a straight-line program. *)
Lemma ends_bind {S A B} (m : nat -> M S A) (k : A -> M S B) (Q : B -> S -> Prop) s :
  ends m (fun a => wp (k a) Q) s -> ends (fun n => m n ≫= k) Q s.
Proof. intros [n Hn]. exists n. intros j Hj. apply wp_bind. by apply Hn. Qed.

Lemma ends_after {S A B} (m : M S A) (k : nat -> A -> M S B) (Q : B -> S -> Prop) s :
  wp m (fun a s' => ends (fun n => k n a) Q s') s -> ends (fun n => m ≫= k n) Q s.
Proof.
  intros Hm. apply wp_run in Hm as (a & s' & E & n & Hn). exists n. intros j Hj.
  apply wp_bind. eapply run_wp; [exact E|]. by apply Hn.
Qed.

Lemma ends_const {S A} (m : M S A) (Q : A -> S -> Prop) s :
  wp m Q s -> ends (fun _ => m) Q s.
Proof. intros Hm. by exists 0%nat. Qed.

(** ** A mail box *)

(** Messages from a list beside the machine; receiving fails when it is empty. *)
#[export] Instance mailbox {W} : Ipc (W * list message) := {
  driver_receive w :=
    match w.2 with
    | [] => ((1, mkMessage false 0 0), w)
    | m :: ms => ((0, m), (w.1, ms))
    end;
}.

#[export] Instance ipc_roomy {W} `{Ipc W} : Ipc (roomy W) := {
  driver_receive := in_room driver_receive;
}.

(** A hardware notification. *)
Definition interrupt (mask : Z) : message := mkMessage true HARDWARE mask.

(** ** An interrupt that keeps arriving

    A loop that counts ticks ends only if the ticks arrive: [due] bounds how
    many more messages come before the next one with [bit] set.  It may be
    anything after that one, and after the program did something else. *)

Definition rings_at (bit : Z) (a : Z * message) : bool :=
  negb (tst a.1) &&
  match hardware a.2 with Some mask => tst (Z.land mask bit) | None => false end.

Class Rings (W : Type) `{Ipc W} (bit : Z) : Type := {
  due : W -> nat;
  due_drops w : rings_at bit (driver_receive w).1 = true \/
    (due (driver_receive w).2 < due w)%nat;
}.

Section Receive.
Context {W : Type} `{Ipc W}.

Lemma wp_receive (Q : option Z -> iost W -> Prop) s :
  (forall o w, Q o (mkIo w (io_trace s))) -> wp receive Q s.
Proof.
  intros HQ. unfold receive. wp_step. apply wp_oracle. intros [r msg] w _. by wp_step.
Qed.

Lemma wp_receive_due bit `{!Rings W bit} (Q : option Z -> iost W -> Prop) s :
  (forall o w,
     match o with Some mask => tst (Z.land mask bit) = true | None => False end \/
     (due w < due (io_world s))%nat ->
     Q o (mkIo w (io_trace s))) ->
  wp receive Q s.
Proof.
  intros HQ. unfold receive. wp_step. apply wp_oracle. intros [r msg] w E.
  destruct (due_drops (io_world s)) as [Hr|Hd]; rewrite E in *; wp_step; apply HQ; [left|by right].
  unfold rings_at in Hr. cbn [fst snd] in Hr. destruct (tst r); [done|].
  by destruct (hardware msg).
Qed.
End Receive.

(** A loop whose every round has less left to do, or waits for the interrupt. *)
Lemma wp_iter_due {W X A B} `{Ipc W} bit `{!Rings W bit} (body : A -> M (X * iost W) (A + B))
  (I : A -> X * iost W -> Prop) (left : A -> X -> Z) (Q : B -> X * iost W -> Prop) a s :
  I a s ->
  (forall a s, I a s -> wp (body a) (fun r s' => match r with
     | inl a' => I a' s' /\ (0 <= left a' s'.1 < left a s.1 \/
         (left a' s'.1 = left a s.1 /\ (due (io_world s'.2) < due (io_world s.2))%nat))
     | inr b => Q b s'
     end) s) ->
  ends (fun n => iter n body a) Q s.
Proof.
  intros HI Hb. apply (wp_iter body (slexprod nat nat lt lt)
    (fun a s => (Z.to_nat (left a s.1), due (io_world s.2))) I); [|done|].
  - apply wf_slexprod; apply lt_wf.
  - intros a1 s1 HI1. eapply wp_mono; [by apply Hb|]. intros [a2|b] s2; [|done].
    intros [HI2 [Hl|[-> Hd]]]; (split; [done|]); [left; lia|by right].
Qed.

(** An interrupt that never arrives. *)
Class Unheard (W : Type) `{Ipc W} (bit : Z) : Prop :=
  unheard w : rings_at bit (driver_receive w).1 = false.

Lemma wp_receive_clock {W} `{Ipc W} bit other `{!Rings W bit, !Unheard W other}
  (Q : option Z -> iost W -> Prop) s :
  (forall o w,
     match o with Some mask => tst (Z.land mask other) = false | None => True end ->
     match o with Some mask => tst (Z.land mask bit) = true | None => False end \/
     (due w < due (io_world s))%nat ->
     Q o (mkIo w (io_trace s))) ->
  wp receive Q s.
Proof.
  intros HQ. unfold receive. wp_step. apply wp_oracle. intros [r msg] w E.
  pose proof (due_drops (io_world s)) as Hr. pose proof (unheard (io_world s)) as Hn.
  rewrite E in Hr, Hn. unfold rings_at in Hr, Hn. cbn [fst snd] in Hr, Hn.
  wp_step. destruct (tst r); cbn [negb andb] in *; apply HQ; destruct (hardware msg); auto;
    destruct Hr; auto; done.
Qed.

(** ** Seconds

    The ticks it takes to see [n] multiples of [period], starting after tick
    [c]. *)
Definition ticks_for (period n c : Z) : Z := if n =? 0 then 0 else period * n - c mod period.

Section Seconds.
Context (period : Z) (Hperiod : 0 < period).

Lemma ticks_for_pos n c : 0 < n -> 0 < ticks_for period n c <= period * n.
Proof.
  intros Hn. unfold ticks_for. rewrite (proj2 (Z.eqb_neq _ _)) by lia.
  pose proof (Z.mod_pos_bound c period Hperiod). nia.
Qed.

Lemma ticks_for_bound n c : 0 <= n -> 0 <= ticks_for period n c <= period * n.
Proof.
  intros Hn. destruct (Z.eq_dec n 0) as [->|]; [unfold ticks_for; cbn; lia|].
  pose proof (ticks_for_pos n c). lia.
Qed.

Lemma mod_succ c :
  (c + 1) mod period = if c mod period =? period - 1 then 0 else c mod period + 1.
Proof.
  pose proof (Z.mod_pos_bound c period Hperiod). pose proof (Z.div_mod c period ltac:(lia)).
  destruct (Z.eqb_spec (c mod period) (period - 1)) as [E|E]; symmetry.
  - apply (Z.mod_unique_pos _ _ (c / period + 1)); lia.
  - apply (Z.mod_unique_pos _ _ (c / period)); lia.
Qed.

(** One tick. *)
Lemma ticks_for_next n c :
  0 < n ->
  ticks_for period (if (c + 1) mod period =? 0 then n - 1 else n) (c + 1)
  = ticks_for period n c - 1.
Proof.
  intros Hn. unfold ticks_for. rewrite (proj2 (Z.eqb_neq n 0)) by lia.
  pose proof (Z.mod_pos_bound c period Hperiod). rewrite mod_succ.
  destruct (Z.eqb_spec (c mod period) (period - 1)) as [E|E].
  - change (0 =? 0) with true. cbn iota. destruct (Z.eqb_spec (n - 1) 0); nia.
  - rewrite (proj2 (Z.eqb_neq (c mod period + 1) 0)) by lia.
    rewrite (proj2 (Z.eqb_neq n 0)) by lia. lia.
Qed.
End Seconds.

(** A metronome beside the machine: [mn_left] other messages, then a timer
    interrupt, over and over. *)
Record metronome : Type := mkMetronome { mn_period : nat; mn_left : nat }.

#[export] Instance metronome_ipc {W} : Ipc (W * metronome) := {
  driver_receive w :=
    match mn_left w.2 with
    | O => ((0, interrupt 1), (w.1, mkMetronome (mn_period w.2) (mn_period w.2)))
    | S n => ((0, mkMessage false 0 0), (w.1, mkMetronome (mn_period w.2) n))
    end;
}.

#[export] Program Instance metronome_rings {W} : Rings (W * metronome) 1 := {
  due w := mn_left w.2;
}.
Next Obligation. intros W [w [p [|n]]]; cbn; [by left|right; lia]. Qed.

#[export] Instance metronome_unheard {W bit} : tst (Z.land 1 bit) = false ->
  Unheard (W * metronome) bit.
Proof. intros Hb [w [p [|n]]]; cbn; [exact Hb|done]. Qed.

#[export] Program Instance rings_roomy {W bit} `{Rings W bit} : Rings (roomy W) bit := {
  due w := due (narrow w);
}.
Next Obligation.
  intros W bit Hi Hr [w]. destruct (due_drops (bit := bit) w) as [Hd|Hd]; cbn;
    unfold in_room; cbn [narrow]; destruct (driver_receive w); auto.
Qed.
