(* ===== verification/Kbc.v ===== *)
(** * The i8042 keyboard controller: utils.c, i8042.h and kbc.c

    [kbc_read_outbuff] and [kbc_write] poll the status register a bounded
    number of times.  Their contracts are stated on the events they emit. *)

From S2P Require Import Prelude Machine.

(** ** i8042.h *)

Definition KBC_IRQ_KBD : Z := 0x01.
Definition KBC_IRQ_MOUSE : Z := 0x0C.
Definition KBC_REG_IN_BUF : Z := 0x60.
Definition KBC_REG_OUT_BUF : Z := 0x60.
Definition KBC_REG_STAT : Z := 0x64.
Definition KBC_REG_COMMAND : Z := 0x64.
Definition KBC_STAT_PARITY : Z := BIT 7.
Definition KBC_STAT_TIMEOUT : Z := BIT 6.
Definition KBC_STAT_AUX : Z := BIT 5.
Definition KBC_STAT_IBF : Z := BIT 1.
Definition KBC_STAT_OBF : Z := BIT 0.
Definition KBC_COMM_READ_BYTE : Z := 0x20.
Definition KBC_COMM_WRITE_BYTE : Z := 0x60.
Definition KBC_COMM_DISABLE_KBD_INTERFACE : Z := 0xAD.
Definition KBC_COMM_ENABLE_KBD_INTERFACE : Z := 0xAE.
Definition KBC_COMM_WRITE_MOUSE_COMM_BYTE : Z := 0xD4.
Definition MOUSE_COMM_DISABLE_DATA_REPORTING : Z := 0xF5.
Definition MOUSE_COMM_ENABLE_DATA_REPORTING : Z := 0xF4.
Definition MOUSE_RES_ACK : Z := 0xFA.
Definition KBC_COMM_B_INT_KBD : Z := BIT 0.
Definition MOUSE_DP_Y_OVFL : Z := BIT 7.
Definition MOUSE_DP_X_OVFL : Z := BIT 6.
Definition MOUSE_DP_MSB_Y : Z := BIT 5.
Definition MOUSE_DP_MSB_X : Z := BIT 4.
Definition MOUSE_DP_MB : Z := BIT 2.
Definition MOUSE_DP_RB : Z := BIT 1.
Definition MOUSE_DP_LB : Z := BIT 0.
Definition W_MAKECODE : Z := 0x11.
Definition W_BREAKCODE : Z := 0x91.
Definition A_MAKECODE : Z := 0x1e.
Definition A_BREAKCODE : Z := 0x9e.
Definition S_MAKECODE : Z := 0x1f.
Definition S_BREAKCODE : Z := 0x9f.
Definition D_MAKECODE : Z := 0x20.
Definition D_BREAKCODE : Z := 0xa0.
Definition ESC_BREAKCODE : Z := 0x81.
Definition SHIFT_MAKECODE : Z := 0x2a.
Definition SHIFT_BREAKCODE : Z := 0xaa.
Definition DOUBLE_BYTE : Z := 0xE0.
Definition BREAK_BIT : Z := BIT 7.
Definition DELAY_US : Z := 20000.
Definition MAX_ATTEMPTS : Z := 0x14.

Section Kbc.
Context {W : Type} `{Machine W}.

(** ** utils.c: an out-parameter is passed as its old content and returned
    as its new one. *)

Definition util_sys_inb (port value : Z) : io W (Z * Z) :=
  '(r, val) ← sys_inb port;
  if tst r then mret (1, value) else mret (0, u8 val).

Definition util_get_16_LSB (val : Z) : Z * Z := (0, u8 val).

Definition util_get_16_MSB (val : Z) : Z * Z := (1, u8 (Z.shiftr val 8)).

(** [tickdelay(micros_to_ticks(DELAY_US))] *)
Definition delay : io W unit :=
  ticks ← micros_to_ticks DELAY_US; tickdelay ticks.

(** ** kbc.c *)

Definition kbc_read_status (status : Z) : io W (Z * Z) :=
  '(r, status) ← util_sys_inb KBC_REG_STAT status;
  if tst r then mret (1, status) else mret (0, status).

(** The body of [while (attempts)], with the attempts left. *)
Fixpoint kbc_read_outbuff_loop (attempts : nat) (status data : Z)
  (mouse : bool) : io W (Z * Z) :=
  match attempts with
  | O => mret (1, data)
  | S attempts =>
      '(r, status) ← kbc_read_status status;
      if tst r then
        delay ;; kbc_read_outbuff_loop attempts status data mouse
      else if tst (Z.land status KBC_STAT_AUX) && negb mouse then
        delay ;; kbc_read_outbuff_loop attempts status data mouse
      else if negb (tst (Z.land status KBC_STAT_AUX)) && mouse then
        delay ;; kbc_read_outbuff_loop attempts status data mouse
      else if tst (Z.land status KBC_STAT_OBF) then
        '(r, data) ← util_sys_inb KBC_REG_OUT_BUF data;
        if tst r then
          delay ;; kbc_read_outbuff_loop attempts status data mouse
        else if tst (Z.land status (Z.lor KBC_STAT_PARITY KBC_STAT_TIMEOUT))
        then mret (1, data)
        else mret (0, data)
      else
        delay ;; kbc_read_outbuff_loop attempts status data mouse
  end.

Definition kbc_read_outbuff (data : Z) (mouse : bool) : io W (Z * Z) :=
  status ← indeterminate;
  kbc_read_outbuff_loop 8 (u8 status) data mouse.

Fixpoint kbc_write_loop (cnt : nat) (status port command : Z) : io W Z :=
  match cnt with
  | O => mret 1
  | S cnt =>
      '(r, status) ← kbc_read_status status;
      if tst r then mret 1
      else if tst (Z.land status KBC_STAT_IBF) then
        delay ;; kbc_write_loop cnt status port command
      else
        r ← sys_outb port command;
        if tst r then mret 1 else mret 0
  end.

Definition kbc_write (port command : Z) : io W Z :=
  status ← indeterminate;
  kbc_write_loop (Z.to_nat MAX_ATTEMPTS) (u8 status) port command.
End Kbc.

(** ** Reading a trace *)

(** The bytes taken out of the output buffer, in order. *)
Definition bytes_taken (evs : list io_event) : list Z :=
  omap (fun e => match e with
                 | EvIn port r v =>
                     if (port =? KBC_REG_OUT_BUF) && (r =? 0)
                     then Some (u8 v) else None
                 | _ => None
                 end) evs.

(** The number of times a port is read. *)
Definition reads_of (port : Z) (evs : list io_event) : nat :=
  length (omap (fun e => match e with
                         | EvIn p _ _ =>
                             if p =? port then Some tt else None
                         | _ => None
                         end) evs).

(** The successful port writes, in order. *)
Definition outs (evs : list io_event) : list (Z * Z) :=
  omap (fun e => match e with
                 | EvOut port v r =>
                     if r =? 0 then Some (port, v) else None
                 | _ => None
                 end) evs.

(** A status byte that announces a valid byte from the wanted device. *)
Definition status_valid (mouse : bool) (v : Z) : bool :=
  Z.testbit v 0 && Bool.eqb (Z.testbit v 5) mouse
  && negb (Z.testbit v 6) && negb (Z.testbit v 7).

(** ** Facts *)

Lemma bytes_taken_app e1 e2 : bytes_taken (e1 ++ e2) = bytes_taken e1 ++ bytes_taken e2.
Proof. apply omap_app. Qed.
Lemma reads_of_app p e1 e2 : reads_of p (e1 ++ e2) = (reads_of p e1 + reads_of p e2)%nat.
Proof. unfold reads_of. by rewrite omap_app, length_app. Qed.
Lemma outs_app e1 e2 : outs (e1 ++ e2) = outs e1 ++ outs e2.
Proof. apply omap_app. Qed.

Lemma u8_testbit v n : 0 <= n < 8 -> Z.testbit (u8 v) n = Z.testbit v n.
Proof. intros. unfold u8. change 256 with (2 ^ 8). by rewrite Z.mod_pow2_bits_low by lia. Qed.

Lemma tst_error_bits v :
  tst (Z.land v (Z.lor KBC_STAT_PARITY KBC_STAT_TIMEOUT))
  = Z.testbit v 7 || Z.testbit v 6.
Proof.
  rewrite Z.land_lor_distr_r.
  unfold KBC_STAT_PARITY, KBC_STAT_TIMEOUT.
  rewrite <-!tst_land_bit by lia. unfold tst.
  destruct (Z.eqb_spec (Z.lor (Z.land v (BIT 7)) (Z.land v (BIT 6))) 0) as [E|E].
  - apply Z.lor_eq_0_iff in E as [-> ->]. done.
  - destruct (Z.eqb_spec (Z.land v (BIT 7)) 0) as [E1|]; [|done].
    destruct (Z.eqb_spec (Z.land v (BIT 6)) 0) as [E2|]; [|done].
    by rewrite E1, E2 in E.
Qed.

Lemma reads_of_delay p t : reads_of p [EvDelay t] = 0%nat.
Proof. done. Qed.
Lemma bytes_taken_delay t : bytes_taken [EvDelay t] = [].
Proof. done. Qed.
Lemma outs_delay t : outs [EvDelay t] = [].
Proof. done. Qed.

Create Rewrite HintDb trace.
#[export] Hint Rewrite bytes_taken_app reads_of_app outs_app reads_of_delay
  bytes_taken_delay outs_delay app_nil_l app_nil_r : trace.

(** What a round of the [kbc_read_outbuff] loop leaves when it does not
    settle the call: one status read at most, and no byte taken. *)
Definition fruitless (evs : list io_event) : Prop :=
  bytes_taken evs = [] /\ (reads_of KBC_REG_STAT evs <= 1)%nat /\ outs evs = [].

(** The contract of the loop with [n] attempts left: at most [n] status
    reads and no port write; either nothing was taken, or one byte was, right
    after a status that announced it for the wanted device. *)
Definition outbuff_post (n : nat) (data : Z) (mouse : bool)
  (p : Z * Z) (evs : list io_event) : Prop :=
  (reads_of KBC_REG_STAT evs <= n)%nat /\ outs evs = [] /\
  ((p.1 = 1 /\ p.2 = data /\ bytes_taken evs = [])
   \/ exists pre v x,
       evs = pre ++ [EvIn KBC_REG_STAT 0 v; EvIn KBC_REG_OUT_BUF 0 x]
       /\ bytes_taken pre = [] /\ p.2 = u8 x
       /\ Z.testbit v 0 = true /\ Z.testbit v 5 = mouse
       /\ p.1 = Z.b2z (Z.testbit v 7 || Z.testbit v 6)).

(** A round of [kbc_write] that found the input buffer full. *)
Definition busy_poll (evs : list io_event) : Prop :=
  exists v t, evs = [EvIn KBC_REG_STAT 0 v; EvDelay t] /\ Z.testbit v 1 = true.

Definition write_post (n : nat) (port command : Z) (r : Z)
  (evs : list io_event) : Prop :=
  (reads_of KBC_REG_STAT evs <= n)%nat /\ bytes_taken evs = [] /\
  exists polls tail, Forall busy_poll polls /\ evs = concat polls ++ tail /\
  ((r = 0 /\ exists v, tail = [EvIn KBC_REG_STAT 0 v; EvOut port command 0]
                      /\ Z.testbit v 1 = false)
   \/ (r = 1 /\ outs tail = [])).

Lemma tst_true r : tst r = true -> r <> 0.
Proof. unfold tst. destruct (Z.eqb_spec r 0); done. Qed.
Lemma tst_false r : tst r = false -> r = 0.
Proof. unfold tst. destruct (Z.eqb_spec r 0); done. Qed.

(** The answer of a kernel call is 0 or it is not. *)
Ltac ret_cases r :=
  let E := fresh "E" in
  destruct (tst r) eqn:E; [apply tst_true in E|apply tst_false in E; subst r].

Section Specs.
Context {W : Type} `{Machine W}.

Lemma util_sys_inb_spec port value :
  io_spec (W := W) (util_sys_inb port value) (fun '(r, value') evs =>
    exists st v, evs = [EvIn port st v] /\
      ((r = 1 /\ st <> 0 /\ value' = value)
       \/ (r = 0 /\ st = 0 /\ value' = u8 v))).
Proof.
  unfold util_sys_inb. io_steps.
  - eexists _, _. split; [done|]. left. apply tst_true in E. auto.
  - eexists _, _. split; [done|]. right. apply tst_false in E. auto.
Qed.

Lemma kbc_read_status_spec status :
  io_spec (W := W) (kbc_read_status status) (fun '(r, status') evs =>
    exists st v, evs = [EvIn KBC_REG_STAT st v] /\
      ((r = 1 /\ st <> 0) \/ (r = 0 /\ st = 0 /\ status' = u8 v))).
Proof.
  unfold kbc_read_status. io_call util_sys_inb_spec.
  intros [r s] evs (st & v & -> & Hr).
  destruct Hr as [(-> & ? & ->)|(-> & ? & ->)]; cbn; io_steps; eauto 10.
Qed.

Lemma delay_spec :
  io_spec (W := W) delay (fun _ evs => exists t, evs = [EvDelay t]).
Proof. unfold delay. io_steps. eauto. Qed.

Lemma outbuff_again n data mouse status evs1 :
  (forall st d, io_spec (W := W) (kbc_read_outbuff_loop n st d mouse)
                  (outbuff_post n d mouse)) ->
  fruitless evs1 ->
  io_spec (W := W) (delay ;; kbc_read_outbuff_loop n status data mouse)
    (fun p evs2 => outbuff_post (S n) data mouse p (evs1 ++ evs2)).
Proof.
  intros IH (F1 & F2 & F3). io_call delay_spec. intros [] evs (t & ->).
  eapply io_mono; [apply IH|]. intros p evs2 (Hn & Ho & Hc). unfold outbuff_post.
  autorewrite with trace. rewrite F3. split; [lia|split; [done|]].
  destruct Hc as [(-> & -> & Hb)|(pre & v & x & -> & Hb & Hrest)].
  - left. by rewrite F1.
  - right. exists (evs1 ++ [EvDelay t] ++ pre), v, x.
    autorewrite with trace. by rewrite F1, Hb, <-!app_assoc.
Qed.

Lemma kbc_read_outbuff_loop_spec n status data mouse :
  io_spec (W := W) (kbc_read_outbuff_loop n status data mouse)
    (outbuff_post n data mouse).
Proof.
  revert status data. induction n as [|n IH]; intros status data; cbn [kbc_read_outbuff_loop].
  { io_steps. split; [cbn; lia|]. auto. }
  io_call kbc_read_status_spec. intros [r st] evs (k & v & -> & Hr).
  destruct Hr as [(-> & Hk)|(-> & -> & ->)];
    [by apply (outbuff_again _ _ _ _ [EvIn KBC_REG_STAT k v]) | cbn [tst Z.eqb negb]].
  assert (fruitless [EvIn KBC_REG_STAT 0 v]) as Hf by (by repeat split).
  pose proof (fun d => outbuff_again n d mouse (u8 v) _ (fun st => IH st) Hf) as Hagain.
  unfold KBC_STAT_AUX, KBC_STAT_OBF.
  rewrite !tst_land_bit, tst_error_bits, !u8_testbit by lia.
  destruct (Bool.eqb (Z.testbit v 5) mouse) eqn:E5;
    [apply eqb_prop in E5; subst mouse
    |destruct (Z.testbit v 5), mouse; try done; apply Hagain].
  rewrite andb_negb_r, andb_comm, andb_negb_r.
  destruct (Z.testbit v 0) eqn:E0; [|apply Hagain].
  io_call util_sys_inb_spec. intros [r d] evs (k' & x & -> & Hr).
  destruct Hr as [(-> & Hk & ->)|(-> & -> & ->)]; cbn [tst Z.eqb negb].
  - apply (outbuff_again _ _ _ _ [EvIn KBC_REG_STAT 0 v; EvIn KBC_REG_OUT_BUF k' x]);
      [done|]. split; [|done]. cbn. by destruct (Z.eqb_spec k' 0).
  - destruct (Z.testbit v 7 || Z.testbit v 6) eqn:E7; apply io_ret;
      (split; [cbn; lia|split; [done|right; exists [], v, x; by rewrite E7]]).
Qed.

Lemma kbc_write_loop_spec n status port command :
  io_spec (W := W) (kbc_write_loop n status port command)
    (write_post n port command).
Proof.
  revert status. induction n as [|n IH]; intros status; cbn [kbc_write_loop].
  { io_steps. split; [cbn; lia|split; [done|]]. exists [], []. auto. }
  io_call kbc_read_status_spec. intros [r st] evs (k & v & -> & Hr).
  destruct Hr as [(-> & Hk)|(-> & -> & ->)]; cbn [tst Z.eqb negb].
  { apply io_ret. split; [cbn; lia|split; [by cbn|]].
    exists [], [EvIn KBC_REG_STAT k v]. auto. }
  unfold KBC_STAT_IBF. rewrite tst_land_bit, u8_testbit by lia.
  destruct (Z.testbit v 1) eqn:E1.
  - io_call delay_spec. intros [] evs (t & ->). eapply io_mono; [apply IH|].
    intros r evs2 (Hn & Hb & polls & tail & Hp & -> & Hc).
    set (l := concat polls ++ tail) in *.
    split; [change (S (reads_of KBC_REG_STAT l) <= S n)%nat; lia|split; [done|]].
    exists ([EvIn KBC_REG_STAT 0 v; EvDelay t] :: polls), tail.
    split; [|done]. constructor; [|done]. by exists v, t.
  - io_step. io_step. io_step; apply io_ret;
      (split; [cbn; lia|split; [done|]]; eexists [], _;
       split; [constructor|split; [reflexivity|]]).
    + right. split; [done|]. cbn. by rewrite (proj2 (Z.eqb_neq _ _) (tst_true _ E)).
    + left. apply tst_false in E as ->. eauto.
Qed.

Lemma kbc_write_spec port command :
  io_spec (W := W) (kbc_write port command) (write_post 20 port command).
Proof. unfold kbc_write. io_step. io_step. apply kbc_write_loop_spec. Qed.

Lemma kbc_read_outbuff_spec data mouse :
  io_spec (W := W) (kbc_read_outbuff data mouse) (outbuff_post 8 data mouse).
Proof. unfold kbc_read_outbuff. io_step. io_step. apply kbc_read_outbuff_loop_spec. Qed.

Lemma concat_polls_outs polls : Forall busy_poll polls -> outs (concat polls) = [].
Proof.
  induction 1 as [|p l (v & t & -> & _) _ IH]; [done|]. cbn [concat].
  by rewrite outs_app, IH.
Qed.

(** The same contracts, reduced to the bytes that crossed the ports. *)
Lemma kbc_write_outs port command :
  io_spec (W := W) (kbc_write port command) (fun r evs =>
    bytes_taken evs = [] /\
    ((r = 0 /\ outs evs = [(port, command)]) \/ (r = 1 /\ outs evs = []))).
Proof.
  eapply io_mono; [apply kbc_write_spec|].
  intros r evs (_ & Hb & polls & tail & Hp & -> & Hc). split; [done|].
  rewrite outs_app, concat_polls_outs by done.
  destruct Hc as [(-> & v & -> & _)|(-> & ->)]; auto.
Qed.

Lemma kbc_read_outbuff_bytes data mouse :
  io_spec (W := W) (kbc_read_outbuff data mouse) (fun p evs =>
    outs evs = [] /\
    ((p.1 = 0 /\ bytes_taken evs = [p.2])
     \/ (p.1 = 1 /\ (bytes_taken evs = [] /\ p.2 = data
                     \/ bytes_taken evs = [p.2])))).
Proof.
  eapply io_mono; [apply kbc_read_outbuff_spec|].
  intros [r d] evs (_ & Ho & Hc). split; [done|]. cbn [fst snd] in *.
  destruct Hc as [(-> & -> & Hb)|(pre & v & x & -> & Hb & -> & _ & _ & ->)]; [auto|].
  rewrite bytes_taken_app, Hb.
  destruct (Z.testbit v 7 || Z.testbit v 6); auto.
Qed.
End Specs.

(** Step through a [kbc_write] in a sequence that stops at the first error. *)
Ltac write_step :=
  io_step; eapply io_mono; [apply kbc_write_outs|];
  let r := fresh "r" in let evs := fresh "evs" in
  let Hb := fresh "Hb" in let Ho := fresh "Ho" in
  intros r evs [Hb [[-> Ho]|[-> Ho]]]; cbn [tst Z.eqb negb].

(** Close a branch that stopped after a proper prefix of the writes. *)
Ltac stopped c :=
  apply io_ret; exists c; autorewrite with trace;
  repeat match goal with H : outs _ = _ |- _ => rewrite H; clear H end;
  split; [by eexists|right; split; [done|by intros ?]].

(** ** The contracts *)

Section Contracts.
Context {W : Type} `{Machine W}.

(** C38: on every machine, [kbc_read_outbuff] terminates after at most eight
    status reads and never writes a port.  It returns 0
    exactly when it took one byte, immediately after a status byte that announces
    it (output buffer full, right device, no parity or timeout error), and the
    out-parameter is that byte.  Otherwise it returns 1, and then either no byte
    was taken and the out-parameter is unchanged, or one byte was taken,
    immediately after a status that announced it for the right device with a
    parity or timeout error, and the out-parameter is that byte all the same.
    So at most one byte is taken, and it is always handed back. *)
Theorem kbc_read_outbuff_contract data mouse :
  io_spec (W := W) (kbc_read_outbuff data mouse) (fun p evs =>
    (reads_of KBC_REG_STAT evs <= 8)%nat /\ outs evs = [] /\
    ((p.1 = 0 /\ exists pre v x,
        evs = pre ++ [EvIn KBC_REG_STAT 0 v; EvIn KBC_REG_OUT_BUF 0 x]
        /\ status_valid mouse v = true /\ bytes_taken evs = [p.2] /\ p.2 = u8 x)
     \/ (p.1 = 1 /\ bytes_taken evs = [] /\ p.2 = data)
     \/ (p.1 = 1 /\ exists pre v x,
        evs = pre ++ [EvIn KBC_REG_STAT 0 v; EvIn KBC_REG_OUT_BUF 0 x]
        /\ Z.testbit v 0 = true /\ Z.testbit v 5 = mouse
        /\ Z.testbit v 7 || Z.testbit v 6 = true
        /\ bytes_taken evs = [p.2] /\ p.2 = u8 x))).
Proof.
  eapply io_mono; [apply kbc_read_outbuff_spec|].
  intros [r d] evs (Hn & Ho & Hc). cbn [fst snd] in *. split; [done|split; [done|]].
  destruct Hc as [(-> & -> & Hb)|(pre & v & x & -> & Hb & -> & E0 & E5 & ->)]; [auto|].
  assert (bytes_taken (pre ++ [EvIn KBC_REG_STAT 0 v; EvIn KBC_REG_OUT_BUF 0 x])
          = [u8 x]) as Ht by (by rewrite bytes_taken_app, Hb).
  destruct (Z.testbit v 7 || Z.testbit v 6) eqn:E; [right; right|left].
  - eauto 10.
  - split; [done|]. exists pre, v, x. unfold status_valid.
    apply orb_false_iff in E as [-> ->]. by rewrite E0, E5, eqb_reflx.
Qed.

(** C39: on every machine, [kbc_write] terminates after at most twenty status
    reads and never takes a byte from the output buffer.  It returns 0
    exactly when it wrote the command once, to the given port, immediately
    after a status byte with the input buffer free; every earlier poll saw
    the input buffer full.  Otherwise it returns 1 and nothing was written. *)
Theorem kbc_write_contract port command :
  io_spec (W := W) (kbc_write port command) (fun r evs =>
    (reads_of KBC_REG_STAT evs <= 20)%nat /\ bytes_taken evs = [] /\
    ((r = 0 /\ outs evs = [(port, command)] /\ exists polls v,
        Forall busy_poll polls /\ Z.testbit v 1 = false /\
        evs = concat polls ++ [EvIn KBC_REG_STAT 0 v; EvOut port command 0])
     \/ (r = 1 /\ outs evs = []))).
Proof.
  eapply io_mono; [apply kbc_write_spec|].
  intros r evs (Hn & Hb & polls & tail & Hp & -> & Hc).
  split; [done|split; [done|]]. rewrite outs_app, concat_polls_outs by done.
  destruct Hc as [(-> & v & -> & Hv)|(-> & Ht)]; [left; eauto 10|right; auto].
Qed.
End Contracts.

(** ** The bytes that count

    A byte is valid for a device when the status read just before it announced
    it so. *)

Fixpoint valid_bytes (mouse : bool) (last : option Z) (evs : list io_event) : list Z :=
  match evs with
  | [] => []
  | EvIn port r x :: evs =>
      if port =? KBC_REG_STAT then valid_bytes mouse (if r =? 0 then Some x else None) evs
      else
        (if (port =? KBC_REG_OUT_BUF) && (r =? 0) then
           match last with
           | Some v => if status_valid mouse v then [u8 x] else []
           | None => []
           end
         else []) ++ valid_bytes mouse None evs
  | _ :: evs => valid_bytes mouse None evs
  end.

(** Events whose valid bytes do not depend on what came before. *)
Definition detached (evs : list io_event) : Prop :=
  forall mouse last, valid_bytes mouse last evs = valid_bytes mouse None evs.

Lemma valid_bytes_app mouse last e1 e2 :
  detached e2 ->
  valid_bytes mouse last (e1 ++ e2) = valid_bytes mouse last e1 ++ valid_bytes mouse None e2.
Proof.
  intros Hd. revert last. induction e1 as [|ev e1 IH]; intros last; [apply Hd|].
  destruct ev; cbn [valid_bytes app]; try apply IH.
  destruct (port =? KBC_REG_STAT); [apply IH|]. by rewrite IH, app_assoc.
Qed.

Lemma detached_app e1 e2 : detached e1 -> detached e2 -> detached (e1 ++ e2).
Proof. intros H1 H2 mouse last. by rewrite !(valid_bytes_app mouse _ e1), (H1 mouse last). Qed.

Lemma valid_bytes_untaken mouse last evs :
  bytes_taken evs = [] -> valid_bytes mouse last evs = [].
Proof.
  revert last. induction evs as [|ev evs IH]; intros last Hb; [done|].
  destruct ev; cbn [valid_bytes]; try by apply IH.
  unfold bytes_taken in Hb. cbn in Hb.
  destruct (port =? KBC_REG_STAT) eqn:E.
  - apply IH. apply Z.eqb_eq in E. subst port. exact Hb.
  - destruct ((port =? KBC_REG_OUT_BUF) && (status =? 0)); [done|]. by apply IH.
Qed.

Lemma valid_bytes_pair mouse pre v x last :
  bytes_taken pre = [] ->
  valid_bytes mouse last (pre ++ [EvIn KBC_REG_STAT 0 v; EvIn KBC_REG_OUT_BUF 0 x])
  = if status_valid mouse v then [u8 x] else [].
Proof.
  intros Hp. rewrite valid_bytes_app by done. rewrite valid_bytes_untaken by done. cbn.
  by destruct (status_valid mouse v).
Qed.

(** ** Only ports

    The controller code makes no call into the library. *)

(** No library call at all. *)
Definition silent (evs : list io_event) : Prop :=
  Forall (fun ev => match ev with EvCall _ _ _ => False | _ => True end) evs.

Lemma silent_app e1 e2 : silent e1 -> silent e2 -> silent (e1 ++ e2).
Proof. intros. by apply Forall_app. Qed.

Section Silent.
Context {W : Type} `{Machine W}.

Lemma outbuff_silent n status data mouse :
  io_spec (W := W) (kbc_read_outbuff_loop n status data mouse) (fun _ evs => silent evs).
Proof.
  revert status data. induction n as [|n IH]; intros status data; cbn [kbc_read_outbuff_loop].
  { io_steps. constructor. }
  unfold kbc_read_status, util_sys_inb, delay.
  io_steps; try (eapply io_mono; [apply IH|]; intros ? ? Hs);
    unfold silent in *; repeat (apply Forall_app; split);
    (exact Hs || by repeat constructor).
Qed.

Lemma kbc_read_outbuff_silent data mouse :
  io_spec (W := W) (kbc_read_outbuff data mouse) (fun _ evs => silent evs).
Proof. unfold kbc_read_outbuff. io_step. io_step. apply outbuff_silent. Qed.

(** A round starts with a status byte, so what a call hears is its own. *)
Lemma outbuff_detached n status data mouse :
  io_spec (W := W) (kbc_read_outbuff_loop n status data mouse) (fun _ evs => detached evs).
Proof.
  destruct n as [|n]; cbn [kbc_read_outbuff_loop]; [by io_steps|].
  unfold kbc_read_status, util_sys_inb, delay.
  io_steps; try (eapply io_mono; [apply outbuff_silent|]; intros ? ? _);
    by intros [] [].
Qed.

Lemma kbc_read_outbuff_detached data mouse :
  io_spec (W := W) (kbc_read_outbuff data mouse) (fun _ evs => detached evs).
Proof. unfold kbc_read_outbuff. io_step. io_step. apply outbuff_detached. Qed.

(** The byte of a successful call is the valid one, and there is no other. *)
Lemma kbc_read_outbuff_heard data mouse :
  io_spec (W := W) (kbc_read_outbuff data mouse) (fun p evs =>
    outs evs = [] /\ detached evs /\
    ((p.1 = 0 /\ bytes_taken evs = [p.2] /\ valid_bytes mouse None evs = [p.2])
     \/ (p.1 = 1 /\ valid_bytes mouse None evs = []))).
Proof.
  eapply io_mono; [apply (io_and _ _ _ (kbc_read_outbuff_spec _ _)
    (kbc_read_outbuff_detached _ _))|].
  intros [r d] evs ((_ & Ho & Hc) & Hd). do 2 (split; [done|]). cbn [fst snd] in *.
  destruct Hc as [(-> & -> & Hb)|(pre & v & x & -> & Hb & -> & E0 & E5 & ->)].
  { right. split; [done|]. by apply valid_bytes_untaken. }
  rewrite valid_bytes_pair, bytes_taken_app, Hb by done. unfold status_valid.
  rewrite E0, E5, eqb_reflx. destruct (Z.testbit v 7), (Z.testbit v 6); auto.
Qed.

Lemma kbc_write_silent port command :
  io_spec (W := W) (kbc_write port command) (fun _ evs => silent evs).
Proof.
  unfold kbc_write. io_step. io_step. cbn [app].
  generalize (Z.to_nat MAX_ATTEMPTS) (u8 a). intros n. induction n as [|n IH]; intros status;
    cbn [kbc_write_loop]; [io_steps; constructor|].
  unfold kbc_read_status, util_sys_inb, delay.
  io_steps; try (eapply io_mono; [apply IH|]; intros ? ? Hs);
    unfold silent in *; repeat (apply Forall_app; split);
    (exact Hs || by repeat constructor).
Qed.

Lemma silent_step {A} (m : io W Z) (a : A) (k : io W A) :
  io_spec m (fun _ evs => silent evs) -> io_spec k (fun _ evs => silent evs) ->
  io_spec (r ← m; if tst r then mret a else k) (fun _ evs => silent evs).
Proof.
  intros Hm Hk. io_step. eapply io_mono; [exact Hm|]. intros r evs Hs.
  destruct (tst r); [apply io_ret, silent_app; [done|constructor]|].
  eapply io_mono; [exact Hk|]. intros. by apply silent_app.
Qed.
End Silent.
