(* ===== verification/Keyboard.v ===== *)
(** * The keyboard driver: drivers/keyboard.c

    Its static variables are [kbd_statics]; every function is a computation
    over them and the machine. *)

From S2P Require Import Prelude Machine Kbc.

Record kbd_statics : Type := mkKbd {
  kbd_hook_id : Z;
  kbd_ih_valid : bool;
  scan_code : Z;
}.

Definition kbd_init : kbd_statics := mkKbd 1 false 0.

Section Keyboard.
Context {W : Type} `{Machine W}.

Definition keyboard_subscribe (bit_no : Z) : drv W kbd_statics (Z * Z) :=
  k ← statics;
  bit ← bit_int (kbd_hook_id k);
  let bit_no := u8 bit in
  '(r, hook) ← on_io (sys_irqsetpolicy KBC_IRQ_KBD
                        (Z.lor IRQ_REENABLE IRQ_EXCLUSIVE) (kbd_hook_id k));
  set_statics (fun k => mkKbd hook (kbd_ih_valid k) (scan_code k)) ;;
  if tst r then mret (1, bit_no) else mret (0, bit_no).

Definition keyboard_unsubscribe : drv W kbd_statics Z :=
  k ← statics;
  r ← on_io (sys_irqrmpolicy (kbd_hook_id k));
  if tst r then mret 1 else mret 0.

Definition keyboard_read_scancode (scancode : Z) : io W (Z * Z) :=
  status ← indeterminate;
  '(r, status) ← kbc_read_status (u8 status);
  if tst r then mret (1, scancode)
  else if negb (tst (Z.land status KBC_STAT_OBF)) then mret (1, scancode)
  else if tst (Z.land status (Z.lor KBC_STAT_PARITY KBC_STAT_TIMEOUT))
  then mret (1, scancode)
  else
    '(r, scancode) ← kbc_read_outbuff scancode false;
    if tst r then mret (1, scancode) else mret (0, scancode).

Definition kbc_ih : drv W kbd_statics unit :=
  let invalid := Z.lor KBC_STAT_PARITY KBC_STAT_TIMEOUT in
  status ← on_io indeterminate;
  '(r, status) ← on_io (kbc_read_status (u8 status));
  if tst r then mret tt
  else if negb (tst (Z.land status KBC_STAT_OBF)) then mret tt
  else if tst (Z.land status invalid) then mret tt
  else
    k ← statics;
    '(r, data) ← on_io (kbc_read_outbuff (scan_code k) false);
    set_statics (fun k => mkKbd (kbd_hook_id k) (kbd_ih_valid k) data) ;;
    if tst r then mret tt
    else set_statics (fun k => mkKbd (kbd_hook_id k) true (scan_code k)).

Definition keyboard_enable_interrupts : io W Z :=
  command ← indeterminate;
  r ← kbc_write KBC_REG_COMMAND KBC_COMM_DISABLE_KBD_INTERFACE;
  if tst r then mret 1 else
  r ← kbc_write KBC_REG_COMMAND KBC_COMM_READ_BYTE;
  if tst r then mret 1 else
  '(r, command) ← kbc_read_outbuff (u8 command) false;
  if tst r then mret 1 else
  let command := Z.lor command KBC_COMM_B_INT_KBD in
  r ← kbc_write KBC_REG_COMMAND KBC_COMM_WRITE_BYTE;
  if tst r then mret 1 else
  r ← kbc_write KBC_REG_IN_BUF command;
  if tst r then mret 1 else
  r ← kbc_write KBC_REG_COMMAND KBC_COMM_ENABLE_KBD_INTERFACE;
  if tst r then mret 1 else mret 0.
End Keyboard.

Section Answers.
Context {W : Type} `{Machine W}.

Lemma keyboard_subscribe_spec k bit_no :
  0 <= kbd_hook_id k < 31 ->
  drv_spec (W := W) k (keyboard_subscribe bit_no) (fun p k' evs =>
    p.2 = u8 (BIT (kbd_hook_id k)) /\
    exists h s, k' = mkKbd h (kbd_ih_valid k) (scan_code k) /\
      evs = [EvIrqSet KBC_IRQ_KBD (Z.lor IRQ_REENABLE IRQ_EXCLUSIVE) (kbd_hook_id k) s] /\
      p.1 = if s =? 0 then 0 else 1).
Proof.
  intros Hh. unfold keyboard_subscribe, bit_int. io_step. io_step.
  destruct (Z.leb_spec 0 (kbd_hook_id k)), (Z.ltb_spec (kbd_hook_id k) 31); try lia.
  cbn [andb]. io_steps; (split; [done|]); do 2 eexists;
    (split; [reflexivity|]); (split; [reflexivity|]); unfold tst in *; by destruct (_ =? 0).
Qed.

Lemma keyboard_unsubscribe_spec k :
  drv_spec (W := W) k keyboard_unsubscribe (fun r k' evs => (r = 0 \/ r = 1) /\ k' = k /\
    exists s, evs = [EvIrqRm (kbd_hook_id k) s]).
Proof. unfold keyboard_unsubscribe. io_steps; cbn; eauto 6. Qed.

Lemma keyboard_subscribe_01 k bit_no :
  0 <= kbd_hook_id k < 31 ->
  drv_spec (W := W) k (keyboard_subscribe bit_no) (fun p _ _ => (p.1 = 0 \/ p.1 = 1) /\
    p.2 = u8 (BIT (kbd_hook_id k))).
Proof.
  intros Hh. unfold keyboard_subscribe, bit_int. io_step. io_step.
  destruct (Z.leb_spec 0 (kbd_hook_id k)), (Z.ltb_spec (kbd_hook_id k) 31); try lia.
  cbn [andb]. io_steps; cbn; auto.
Qed.

Lemma keyboard_unsubscribe_01 k :
  drv_spec (W := W) k keyboard_unsubscribe (fun r _ _ => r = 0 \/ r = 1).
Proof. unfold keyboard_unsubscribe. io_steps; auto. Qed.
End Answers.

Section Facts.
Context {W : Type} `{Machine W}.

(** The two readers share their shape: one status byte, then the output
    buffer.  What they leave when they answer [r] and [d]. *)
Definition scancode_post (scancode r d : Z) (evs : list io_event) : Prop :=
  outs evs = [] /\ (reads_of KBC_REG_STAT evs <= 9)%nat /\
  ((r = 0 /\ bytes_taken evs = [d] /\ exists pre v x,
      evs = pre ++ [EvIn KBC_REG_STAT 0 v; EvIn KBC_REG_OUT_BUF 0 x]
      /\ d = u8 x /\ status_valid false v = true)
   \/ (r = 1 /\ (bytes_taken evs = [] /\ d = scancode
                \/ exists x, bytes_taken evs = [x] /\ d = x))).

Lemma outbuff_after_status scancode v p evs :
  outbuff_post 8 scancode false p evs ->
  scancode_post scancode p.1 p.2 (EvIn KBC_REG_STAT 0 v :: evs).
Proof.
  intros (Hn & Ho & Hc). split; [exact Ho|split].
  { change (S (reads_of KBC_REG_STAT evs) <= 9)%nat. lia. }
  destruct Hc as [(-> & -> & Hb)|(pre & v' & x & -> & Hb & -> & E0 & E5 & ->)].
  - right. split; [done|]. left. by split.
  - assert (bytes_taken ([EvIn KBC_REG_STAT 0 v] ++ pre ++
      [EvIn KBC_REG_STAT 0 v'; EvIn KBC_REG_OUT_BUF 0 x]) = [u8 x]) as Ht
      by (by autorewrite with trace; rewrite Hb).
    destruct (Z.testbit v' 7 || Z.testbit v' 6) eqn:E.
    + right. eauto.
    + left. split; [done|split; [exact Ht|]].
      exists (EvIn KBC_REG_STAT 0 v :: pre), v', x. split; [done|split; [done|]].
      unfold status_valid. apply orb_false_iff in E as [-> ->]. by rewrite E0, E5.
Qed.

Lemma keyboard_read_scancode_spec scancode :
  io_spec (W := W) (keyboard_read_scancode scancode)
    (fun p => scancode_post scancode p.1 p.2).
Proof.
  unfold keyboard_read_scancode. io_step. io_step.
  io_call kbc_read_status_spec. intros [r st] evs (k & v & -> & Hr).
  assert (scancode_post scancode 1 scancode [EvIn KBC_REG_STAT k v]) as Hnone.
  { split; [done|split; [cbn; lia|]]. right. split; [done|]. by left. }
  destruct Hr as [(-> & Hk)|(-> & -> & ->)]; cbn [tst Z.eqb negb].
  { by apply io_ret. }
  io_step; [by apply io_ret|]. io_step; [by apply io_ret|].
  io_call kbc_read_outbuff_spec. intros [r d] evs Hp.
  pose proof (outbuff_after_status _ v _ _ Hp) as Hs. cbn [fst snd] in Hs.
  cbn. assert (r = 0 \/ r = 1) as [-> | ->].
  { destruct Hs as (_ & _ & [[-> _]|[-> _]]); auto. }
  all: cbn; apply io_ret; cbn; by rewrite app_nil_r.
Qed.
End Facts.

(** The port writes of a successful [keyboard_enable_interrupts]: the
    interface is disabled around the read-modify-write of the command byte. *)
Definition enable_writes (command : Z) : list (Z * Z) :=
  [(KBC_REG_COMMAND, KBC_COMM_DISABLE_KBD_INTERFACE);
   (KBC_REG_COMMAND, KBC_COMM_READ_BYTE);
   (KBC_REG_COMMAND, KBC_COMM_WRITE_BYTE);
   (KBC_REG_IN_BUF, Z.lor command KBC_COMM_B_INT_KBD);
   (KBC_REG_COMMAND, KBC_COMM_ENABLE_KBD_INTERFACE)].

Section Contracts.
Context {W : Type} `{Machine W}.

(** The interrupt handler [kbc_ih] raises [kbd_ih_valid] exactly when it
    stored in [scan_code] a byte that the controller announced as a valid
    keyboard byte, the only byte it took; otherwise the flag keeps its value,
    and [scan_code] changes only to a byte taken with an error.  It never
    writes a port, reads the status at most nine times and keeps the hook. *)
Theorem kbc_ih_contract (k : kbd_statics) :
  drv_spec (W := W) k kbc_ih (fun _ k' evs =>
    outs evs = [] /\ (reads_of KBC_REG_STAT evs <= 9)%nat /\
    ((exists pre v x,
        evs = pre ++ [EvIn KBC_REG_STAT 0 v; EvIn KBC_REG_OUT_BUF 0 x]
        /\ status_valid false v = true /\ bytes_taken evs = [u8 x]
        /\ k' = mkKbd (kbd_hook_id k) true (u8 x))
     \/ (exists data, k' = mkKbd (kbd_hook_id k) (kbd_ih_valid k) data /\
          (bytes_taken evs = [] /\ data = scan_code k
           \/ bytes_taken evs = [data])))).
Proof.
  unfold kbc_ih. io_step. io_step. io_step.
  io_step. eapply drv_io, io_mono; [apply kbc_read_status_spec|].
  intros [r st] evs (e & v & -> & Hr).
  assert (forall evs', evs' = [EvIn KBC_REG_STAT e v] ->
    outs evs' = [] /\ (reads_of KBC_REG_STAT evs' <= 9)%nat /\
    ((exists pre v x,
        evs' = pre ++ [EvIn KBC_REG_STAT 0 v; EvIn KBC_REG_OUT_BUF 0 x]
        /\ status_valid false v = true /\ bytes_taken evs' = [u8 x]
        /\ k = mkKbd (kbd_hook_id k) true (u8 x))
     \/ (exists data, k = mkKbd (kbd_hook_id k) (kbd_ih_valid k) data /\
          (bytes_taken evs' = [] /\ data = scan_code k
           \/ bytes_taken evs' = [data])))) as Hnone.
  { intros ? ->. split; [done|split; [cbn; lia|]]. right.
    exists (scan_code k). split; [by destruct k|]. by left. }
  destruct Hr as [(-> & Hk)|(-> & -> & ->)]; cbn [tst Z.eqb negb].
  { by apply drv_ret, Hnone. }
  io_step; [by apply drv_ret, Hnone|]. io_step; [by apply drv_ret, Hnone|].
  io_step. io_step. io_step. eapply drv_io, io_mono; [apply kbc_read_outbuff_spec|].
  intros [r d] evs Hp. apply (outbuff_after_status _ v) in Hp. cbn [fst snd] in Hp.
  destruct Hp as (Ho & Hn & Hc). io_step. io_step.
  destruct Hc as [(-> & Hb & pre & v' & x & Ev & -> & Hv)|(-> & Hc)]; cbn [tst Z.eqb negb].
  - apply drv_set. cbn. rewrite !app_nil_r. split; [done|split; [done|]].
    left. eauto 10.
  - apply drv_ret. cbn. rewrite !app_nil_r. split; [done|split; [done|]].
    right. exists d. split; [done|].
    destruct Hc as [[Hb ->]|(? & Hb & ->)]; auto.
Qed.

(** [keyboard_enable_interrupts] answers 0 only after it wrote exactly
    the five bytes of the protocol in order, the fourth being the command
    byte it read with the keyboard-interrupt bit set; when it answers 1 it
    stopped after a proper prefix of that sequence. *)
Theorem keyboard_enable_interrupts_sequence :
  io_spec (W := W) keyboard_enable_interrupts (fun r evs =>
    exists command, outs evs `prefix_of` enable_writes command /\
      ((r = 0 /\ outs evs = enable_writes command /\ bytes_taken evs = [command])
       \/ (r = 1 /\ outs evs <> enable_writes command))).
Proof.
  unfold keyboard_enable_interrupts. io_step. io_step.
  write_step; [|stopped 0]. write_step; [|stopped 0].
  io_step. eapply io_mono; [apply kbc_read_outbuff_bytes|].
  intros [r c] evs' [Ho' Hr]. cbn [fst snd] in Hr.
  destruct Hr as [[-> Hc]|[-> _]]; cbn [tst Z.eqb negb]; [|stopped c].
  write_step; [|stopped c]. write_step; [|stopped c]. write_step; [|stopped c].
  apply io_ret. exists c. autorewrite with trace. rewrite Ho, Ho0, Ho', Ho1, Ho2, Ho3.
  rewrite Hb, Hb0, Hc, Hb1, Hb2, Hb3. split; [done|]. by left.
Qed.
End Contracts.

(** ** The bytes the handler accepts *)

Section Handler.
Context {W : Type} `{Machine W}.

(** What one call of the handler did. *)
Definition heard (k k' : kbd_statics) (evs : list io_event) : Prop :=
  silent evs /\ detached evs /\
  ((kbd_ih_valid k' = true /\ valid_bytes false None evs = [scan_code k']) \/
   (kbd_ih_valid k' = kbd_ih_valid k /\ valid_bytes false None evs = [])).

Lemma kbc_ih_heard k : drv_spec (W := W) k kbc_ih (fun _ k' evs => heard k k' evs).
Proof.
  unfold kbc_ih. io_step. io_step. io_step.
  io_step. eapply drv_io, io_mono; [apply kbc_read_status_spec|].
  intros [r st] evs (e & v & -> & Hr).
  assert (heard k k [EvIn KBC_REG_STAT e v]) as Hnone.
  { split; [by repeat constructor|]. split; [done|]. by right. }
  destruct Hr as [(-> & Hk)|(-> & -> & ->)]; cbn [tst Z.eqb negb]; [by apply drv_ret|].
  io_step; [by apply drv_ret|]. io_step; [by apply drv_ret|].
  io_step. io_step. io_step.
  eapply drv_io, io_mono; [apply (io_and _ _ _ (kbc_read_outbuff_spec _ _)
    (kbc_read_outbuff_silent _ _))|].
  intros [r d] evs ((_ & _ & Hc) & Hs). cbn [fst snd] in Hc. io_step. io_step.
  assert (silent (EvIn KBC_REG_STAT 0 v :: evs)) as Hs' by (by constructor).
  assert (detached (EvIn KBC_REG_STAT 0 v :: evs)) as Hd by done.
  destruct Hc as [(-> & -> & Hb)|(pre & v' & x & -> & Hb & -> & F0 & F5 & ->)].
  - change (tst 1) with true. cbn iota. apply drv_ret. rewrite !app_nil_r.
    split; [done|]. split; [done|]. right. split; [done|]. by apply valid_bytes_untaken.
  - assert (valid_bytes false None ((EvIn KBC_REG_STAT 0 v :: pre) ++
        [EvIn KBC_REG_STAT 0 v'; EvIn KBC_REG_OUT_BUF 0 x])
      = if Z.testbit v' 7 || Z.testbit v' 6 then [] else [u8 x]) as Hv.
    { rewrite valid_bytes_pair by done. unfold status_valid. rewrite F0, F5.
      by destruct (Z.testbit v' 7), (Z.testbit v' 6). }
    destruct (Z.testbit v' 7 || Z.testbit v' 6); cbn [Z.b2z tst Z.eqb negb].
    + apply drv_ret. rewrite !app_nil_r. split; [done|]. split; [done|]. by right.
    + apply drv_set. rewrite !app_nil_r. split; [done|]. split; [done|]. by left.
Qed.
End Handler.
