(* ===== verification/MouseDrv.v ===== *)
(** * The mouse driver: drivers/mouse.c

    A PS/2 packet arrives as three bytes.  [mouse_read_packet] assembles
    them, [mouse_get_packet] decodes them; the rest of the file sends
    commands to the mouse through the controller.

    [mouse_ih_valid] and [data_packet] of the source are never used and have
    no field here. *)

From S2P Require Import Prelude Machine Kbc.

(** [struct packet] of lcom/lab4.h; [bytes] has three elements. *)
Record packet : Type := mkPacket {
  pk_bytes : Z * Z * Z;
  rb : bool;
  mb : bool;
  lb : bool;
  delta_x : Z;
  delta_y : Z;
  x_ov : bool;
  y_ov : bool;
}.

Record mouse_statics : Type := mkMouseDrv {
  mouse_hook_id : Z;
  current_byte_index : Z;
  current_byte : Z;
  bytes : Z * Z * Z;
  packet_ready : bool;
  last_packet : packet;
}.

Definition packet0 : packet := mkPacket (0, 0, 0) false false false 0 0 false false.
Definition mouse_drv_init : mouse_statics := mkMouseDrv 2 0 0 (0, 0, 0) false packet0.

Definition set_hook (h : Z) (m : mouse_statics) : mouse_statics :=
  mkMouseDrv h (current_byte_index m) (current_byte m) (bytes m)
    (packet_ready m) (last_packet m).
Definition set_current_byte (b : Z) (m : mouse_statics) : mouse_statics :=
  mkMouseDrv (mouse_hook_id m) (current_byte_index m) b (bytes m)
    (packet_ready m) (last_packet m).
Definition set_last_packet (p : packet) (m : mouse_statics) : mouse_statics :=
  mkMouseDrv (mouse_hook_id m) (current_byte_index m) (current_byte m) (bytes m)
    (packet_ready m) p.

(** The part of [mouse_read_packet] after the byte is in [current_byte]. *)
Definition assemble (m : mouse_statics) : mouse_statics :=
  let '(b0, b1, b2) := bytes m in
  let c := current_byte m in
  if (current_byte_index m =? 0) && tst (Z.land c (BIT 3)) then
    mkMouseDrv (mouse_hook_id m) (u8 (current_byte_index m + 1)) c (c, b1, b2)
      false (last_packet m)
  else if current_byte_index m =? 1 then
    mkMouseDrv (mouse_hook_id m) (u8 (current_byte_index m + 1)) c (b0, c, b2)
      (packet_ready m) (last_packet m)
  else if current_byte_index m =? 2 then
    mkMouseDrv (mouse_hook_id m) 0 c (b0, b1, c) true (last_packet m)
  else m.

(** The packet [mouse_get_packet] builds from the three bytes; a displacement
    is the value stored in an [int16_t]. *)
Definition decode (bs : Z * Z * Z) : packet :=
  let '(b0, b1, b2) := bs in
  mkPacket bs
    (tst (Z.land b0 MOUSE_DP_RB))
    (tst (Z.land b0 MOUSE_DP_MB))
    (tst (Z.land b0 MOUSE_DP_LB))
    (i16 (if tst (Z.land b0 MOUSE_DP_MSB_X) then Z.lor 0xFF00 b1 else b1))
    (i16 (if tst (Z.land b0 MOUSE_DP_MSB_Y) then Z.lor 0xFF00 b2 else b2))
    (tst (Z.land b0 MOUSE_DP_X_OVFL))
    (tst (Z.land b0 MOUSE_DP_Y_OVFL)).

Section MouseDrv.
Context {W : Type} `{Machine W}.

Definition mouse_subscribe (bit_no : Z) : drv W mouse_statics (Z * Z) :=
  m ← statics;
  bit ← bit_int (mouse_hook_id m);
  let bit_no := u8 bit in
  '(r, hook) ← on_io (sys_irqsetpolicy KBC_IRQ_MOUSE
                        (Z.lor IRQ_REENABLE IRQ_EXCLUSIVE) (mouse_hook_id m));
  set_statics (set_hook hook) ;;
  if tst r then mret (1, bit_no) else mret (0, bit_no).

Definition mouse_unsubscribe : drv W mouse_statics Z :=
  m ← statics;
  r ← on_io (sys_irqrmpolicy (mouse_hook_id m));
  if tst r then mret 1 else mret 0.

Definition mouse_packet_ready (m : mouse_statics) : bool := packet_ready m.

Definition mouse_read_packet : drv W mouse_statics Z :=
  m ← statics;
  '(r, byte) ← on_io (kbc_read_outbuff (current_byte m) true);
  set_statics (set_current_byte byte) ;;
  if tst r then mret 1
  else set_statics assemble ;; mret 0.

Definition mouse_get_packet (out : packet) : drv W mouse_statics (Z * packet) :=
  m ← statics;
  if negb (packet_ready m) then mret (1, out)
  else
    let p := decode (bytes m) in
    set_statics (set_last_packet p) ;; mret (0, p).

Fixpoint mouse_read_response_loop (cnt : nat) (status response : Z)
  : io W (Z * Z) :=
  match cnt with
  | O => mret (1, response)
  | S cnt =>
      '(r, status) ← kbc_read_status status;
      if tst r then mret (1, response)
      else if negb (tst (Z.land status KBC_STAT_OBF)) then
        delay ;; mouse_read_response_loop cnt status response
      else
        '(r, response) ← kbc_read_outbuff response true;
        if tst r then mret (1, response) else mret (0, response)
  end.

Definition mouse_read_response (response : Z) : io W (Z * Z) :=
  status ← indeterminate;
  mouse_read_response_loop (Z.to_nat MAX_ATTEMPTS) (u8 status) response.

(** [while (cnt && aknl != MOUSE_RES_ACK)] *)
Fixpoint mouse_write_command_loop (cnt : nat) (aknl command : Z) : io W Z :=
  match cnt with
  | O => mret 1
  | S cnt =>
      if aknl =? MOUSE_RES_ACK then mret 1 else
      r ← kbc_write KBC_REG_COMMAND KBC_COMM_WRITE_MOUSE_COMM_BYTE;
      if tst r then mret 1 else
      r ← kbc_write KBC_REG_IN_BUF command;
      if tst r then mret 1 else
      delay ;;
      '(r, aknl) ← util_sys_inb KBC_REG_OUT_BUF aknl;
      if tst r then mret 1
      else if aknl =? MOUSE_RES_ACK then mret 0
      else mouse_write_command_loop cnt aknl command
  end.

(** [aknl] is read by the loop condition before anything is stored in it. *)
Definition mouse_write_command (command : Z) : io W Z :=
  aknl ← indeterminate;
  mouse_write_command_loop (Z.to_nat MAX_ATTEMPTS) (u8 aknl) command.

Definition mouse_enable_data : io W Z :=
  r ← mouse_write_command MOUSE_COMM_ENABLE_DATA_REPORTING;
  if tst r then mret 1 else mret 0.

Definition mouse_disable_data : io W Z :=
  r ← mouse_write_command MOUSE_COMM_DISABLE_DATA_REPORTING;
  if tst r then mret 1 else mret 0.

Definition mouse_stream_mode_command (command : Z) : io W Z :=
  r ← mouse_disable_data;
  if tst r then mret 1 else
  r ← mouse_write_command command;
  if tst r then mret 1 else
  r ← mouse_enable_data;
  if tst r then mret 1 else mret 0.
End MouseDrv.

(** ** Packet framing *)

(** The specification of a packet: nine-bit two's complement displacements. *)
Definition sign9 (sign : bool) (byte : Z) : Z := byte - 256 * Z.b2z sign.

Definition packet_spec (b0 b1 b2 : Z) : packet :=
  mkPacket (b0, b1, b2) (Z.testbit b0 1) (Z.testbit b0 2) (Z.testbit b0 0)
    (sign9 (Z.testbit b0 4) b1) (sign9 (Z.testbit b0 5) b2)
    (Z.testbit b0 6) (Z.testbit b0 7).

(** Feed one byte, as a successful [mouse_read_packet] does. *)
Definition feed (m : mouse_statics) (b : Z) : mouse_statics :=
  assemble (set_current_byte b m).

(** What the assembler guarantees in every reachable state. *)
Definition framing_inv (m : mouse_statics) : Prop :=
  0 <= current_byte_index m <= 2 /\
  (current_byte_index m <> 0 -> packet_ready m = false) /\
  (current_byte_index m <> 0 \/ packet_ready m = true ->
   Z.testbit (bytes m).1.1 3 = true).

(** The driver's stream parser as a specification: skip to a byte with bit 3
    set, take it and the next two, go on. *)
Fixpoint parse_stream (bs : list Z) : list (Z * Z * Z) :=
  match bs with
  | [] => []
  | b0 :: bs' =>
      if Z.testbit b0 3 then
        match bs' with
        | b1 :: b2 :: bs'' => (b0, b1, b2) :: parse_stream bs''
        | _ => []
        end
      else parse_stream bs'
  end.

(** The packets the driver completes while it is fed a stream. *)
Fixpoint completed (m : mouse_statics) (bs : list Z) : list (Z * Z * Z) :=
  match bs with
  | [] => []
  | b :: bs =>
      let m' := feed m b in
      (if (current_byte_index m =? 2) && packet_ready m' then [bytes m'] else [])
      ++ completed m' bs
  end.

Lemma lor_ff00 b : 0 <= b < 256 -> Z.lor 0xFF00 b = 65280 + b.
Proof.
  intros Hb. rewrite <-Z.lxor_lor, <-Z.add_nocarry_lxor; [done|..];
    apply Z.bits_inj'; intros n Hn; rewrite Z.land_spec, Z.bits_0;
    (destruct (Z.lt_ge_cases n 8) as [Hl|Hg];
     [ change 65280 with (Z.shiftl 255 8);
       rewrite Z.shiftl_spec_low by lia; done
     | rewrite (Z.bits_above_log2 b n), andb_false_r; [done|lia|];
       destruct (Z.eq_dec b 0) as [->|]; [cbn; lia|];
       apply Z.log2_lt_pow2; [lia|];
       apply Z.lt_le_trans with (2 ^ 8); [lia|apply Z.pow_le_mono_r; lia] ]).
Qed.

Lemma decode_sign9 s b :
  0 <= b < 256 -> i16 (if s : bool then Z.lor 0xFF00 b else b) = sign9 s b.
Proof.
  intros Hb. unfold sign9. destruct s; cbn [Z.b2z].
  - rewrite lor_ff00 by done. unfold i16.
    replace (65280 + b + 32768) with (b + 32512 + 1 * 65536) by lia.
    rewrite Z.mod_add, Z.mod_small by lia. lia.
  - rewrite i16_id by lia. lia.
Qed.

Lemma framing_init : framing_inv mouse_drv_init.
Proof. unfold framing_inv. cbn. intuition (lia || done). Qed.

Lemma feed_framing m b : framing_inv m -> framing_inv (feed m b).
Proof.
  intros (Hi & Hr & Hb). unfold feed, assemble, framing_inv. cbn.
  destruct (bytes m) as [[b0 b1] b2] eqn:Eb. rewrite tst_land_bit by lia.
  destruct (Z.eqb_spec (current_byte_index m) 0) as [E0|E0]; cbn [andb].
  - destruct (Z.testbit b 3) eqn:E3; cbn.
    + rewrite E0. cbn. intuition (lia || done).
    + rewrite E0. cbn. rewrite Eb. cbn in *. intuition (lia || done).
  - destruct (Z.eqb_spec (current_byte_index m) 1) as [E1|E1]; cbn;
      [rewrite E1; cbn; intuition (lia || done)|].
    destruct (Z.eqb_spec (current_byte_index m) 2) as [E2|E2]; cbn;
      [intuition (lia || done)|lia].
Qed.

Lemma completed_cons m b bs :
  completed m (b :: bs)
  = (if (current_byte_index m =? 2) && packet_ready (feed m b)
     then [bytes (feed m b)] else []) ++ completed (feed m b) bs.
Proof. done. Qed.

Lemma feed_skip m b :
  current_byte_index m = 0 -> Z.testbit b 3 = false ->
  feed m b = set_current_byte b m.
Proof.
  intros Hi Hb. unfold feed, assemble. cbn. destruct (bytes m) as [[? ?] ?].
  rewrite Hi, tst_land_bit, Hb by lia. done.
Qed.

Lemma feed_first m b :
  current_byte_index m = 0 -> Z.testbit b 3 = true ->
  let m' := feed m b in
  current_byte_index m' = 1 /\ packet_ready m' = false /\ (bytes m').1.1 = b.
Proof.
  intros Hi Hb. unfold feed, assemble. cbn. destruct (bytes m) as [[? ?] ?].
  rewrite Hi, tst_land_bit, Hb by lia. done.
Qed.

Lemma feed_second m b :
  current_byte_index m = 1 ->
  let m' := feed m b in
  current_byte_index m' = 2 /\ (bytes m').1 = ((bytes m).1.1, b).
Proof.
  intros Hi. unfold feed, assemble. cbn. destruct (bytes m) as [[? ?] ?].
  by rewrite Hi.
Qed.

Lemma feed_third m b :
  current_byte_index m = 2 ->
  let m' := feed m b in
  current_byte_index m' = 0 /\ packet_ready m' = true /\ bytes m' = ((bytes m).1, b).
Proof.
  intros Hi. unfold feed, assemble. cbn. destruct (bytes m) as [[? ?] ?].
  by rewrite Hi.
Qed.

Lemma parse_stream_cons b bs :
  parse_stream (b :: bs)
  = if Z.testbit b 3 then
      match bs with
      | b1 :: b2 :: bs' => (b, b1, b2) :: parse_stream bs'
      | _ => []
      end
    else parse_stream bs.
Proof. by destruct bs as [|? [|? ?]]. Qed.

Lemma completed_parse n m bs :
  (length bs <= n)%nat -> current_byte_index m = 0 -> completed m bs = parse_stream bs.
Proof.
  revert m bs. induction n as [|n IH]; intros m [|b0 bs] Hlen Hi;
    [done|cbn in Hlen; lia|done|].
  cbn [length] in Hlen. rewrite completed_cons, parse_stream_cons, Hi. cbn [Z.eqb Pos.eqb andb app].
  destruct (Z.testbit b0 3) eqn:E3.
  - destruct (feed_first m b0 Hi E3) as (I1 & R1 & B1).
    destruct bs as [|b1 [|b2 bs]]; [done|by rewrite completed_cons, I1|].
    rewrite completed_cons, I1. cbn [Z.eqb Pos.eqb andb app].
    destruct (feed_second (feed m b0) b1 I1) as (I2 & B2).
    rewrite completed_cons, I2. cbn [Z.eqb Pos.eqb].
    destruct (feed_third _ b2 I2) as (I3 & -> & B3). cbn [andb app].
    rewrite B3, B2, B1. f_equal. apply IH; [cbn in Hlen; lia|done].
  - apply IH; [lia|]. by rewrite feed_skip.
Qed.

Section Facts.
Context {W : Type} `{Machine W}.

(** One call of [mouse_read_packet]: a byte is fed, or nothing but
    [current_byte] changes. *)
Lemma mouse_read_packet_spec (m : mouse_statics) :
  drv_spec (W := W) m mouse_read_packet (fun r m' evs =>
    outs evs = [] /\ detached evs /\
    ((r = 0 /\ exists b, bytes_taken evs = [b] /\ valid_bytes true None evs = [b] /\ m' = feed m b)
     \/ (r = 1 /\ valid_bytes true None evs = [] /\ exists b, m' = set_current_byte b m))).
Proof.
  unfold mouse_read_packet. io_step. io_step. io_step.
  eapply drv_io, io_mono; [apply kbc_read_outbuff_heard|].
  intros [r b] evs (Ho & Hd & Hc). cbn [fst snd] in Hc. io_step. io_step.
  destruct Hc as [(-> & Hb & Hv)|[-> Hv]]; cbn [tst Z.eqb negb].
  - apply drv_bind, drv_set, drv_ret. cbn. rewrite !app_nil_r. do 2 (split; [done|]).
    left. split; [done|]. by exists b.
  - apply drv_ret. cbn. rewrite app_nil_r. do 2 (split; [done|]).
    right. do 2 (split; [done|]). by exists b.
Qed.

(** The writes of [n] attempts at a mouse command. *)
Definition command_attempts (n : nat) (command : Z) : list (Z * Z) :=
  mjoin (replicate n [(KBC_REG_COMMAND, KBC_COMM_WRITE_MOUSE_COMM_BYTE);
                      (KBC_REG_IN_BUF, command)]).

Definition command_post (cnt : nat) (command r : Z) (evs : list io_event) : Prop :=
  exists n partial, (n <= cnt)%nat /\
    outs evs = command_attempts n command ++ partial /\
    ((r = 0 /\ (1 <= n)%nat /\ partial = [] /\
      last (bytes_taken evs) = Some MOUSE_RES_ACK)
     \/ (r = 1 /\ (partial = [] \/
          partial = [(KBC_REG_COMMAND, KBC_COMM_WRITE_MOUSE_COMM_BYTE)]))).

Lemma mouse_write_command_loop_spec cnt aknl command :
  io_spec (W := W) (mouse_write_command_loop cnt aknl command)
    (command_post cnt command).
Proof.
  revert aknl. induction cnt as [|cnt IH]; intros aknl;
    cbn [mouse_write_command_loop].
  { io_steps. exists O, []. split; [lia|split; [done|]]. auto. }
  io_step; [io_steps; exists O, []; split; [lia|split; [done|]]; auto|].
  write_step;
    [|apply io_ret; exists O, []; rewrite app_nil_r, Ho; split; [lia|split; [done|]]; auto].
  write_step;
    [|apply io_ret; exists O, [(KBC_REG_COMMAND, KBC_COMM_WRITE_MOUSE_COMM_BYTE)];
      autorewrite with trace; rewrite Ho, Ho0;
      split; [lia|split; [done|]]; auto].
  io_call delay_spec. intros [] evs1 (t & ->).
  io_call util_sys_inb_spec. intros [r a] evs2 (st & x & -> & Hr).
  assert (outs [EvIn KBC_REG_OUT_BUF st x] = []) as Hin by done.
  destruct Hr as [(-> & Hst & ->)|(-> & -> & ->)]; cbn [tst Z.eqb negb].
  { apply io_ret. exists 1%nat, []. autorewrite with trace. rewrite Ho, Ho0, ?Hin.
    split; [lia|split; [done|]]. auto. }
  io_step.
  - apply io_ret. exists 1%nat, []. autorewrite with trace. rewrite Ho, Ho0, ?Hin, Hb, Hb0.
    split; [lia|split; [done|]]. left. apply Z.eqb_eq in E0 as <-. cbn. auto.
  - eapply io_mono; [apply IH|]. intros r evs3 (n & partial & Hn & He & Hc).
    exists (S n), partial. autorewrite with trace. rewrite Ho, Ho0, ?Hin, He.
    split; [lia|split; [done|]].
    destruct Hc as [(-> & Hn1 & -> & Hl)|Hc]; [left|by right].
    split; [done|split; [lia|split; [done|]]]. rewrite Hb, Hb0, !app_nil_l.
    by rewrite last_app, Hl.
Qed.
End Facts.

(** Every function answers 0 or 1, without a fault. *)
Section Answers.
Context {W : Type} `{Machine W}.

Lemma mouse_write_command_01 command :
  io_spec (W := W) (mouse_write_command command) (fun r _ => r = 0 \/ r = 1).
Proof.
  unfold mouse_write_command. io_step. io_step. eapply io_mono.
  { apply mouse_write_command_loop_spec. }
  intros r evs (n & partial & _ & _ & [[-> _]|[-> _]]); auto.
Qed.

Lemma mouse_enable_data_01 : io_spec (W := W) mouse_enable_data (fun r _ => r = 0 \/ r = 1).
Proof.
  unfold mouse_enable_data. io_call mouse_write_command_01. intros r evs _.
  io_step; apply io_ret; auto.
Qed.

Lemma mouse_disable_data_01 : io_spec (W := W) mouse_disable_data (fun r _ => r = 0 \/ r = 1).
Proof.
  unfold mouse_disable_data. io_call mouse_write_command_01. intros r evs _.
  io_step; apply io_ret; auto.
Qed.

Lemma mouse_subscribe_01 m bit_no :
  0 <= mouse_hook_id m < 31 ->
  drv_spec (W := W) m (mouse_subscribe bit_no) (fun p m' _ => (p.1 = 0 \/ p.1 = 1) /\
    p.2 = u8 (BIT (mouse_hook_id m)) /\ exists h, m' = set_hook h m).
Proof.
  intros Hh. unfold mouse_subscribe, bit_int. io_step. io_step.
  destruct (Z.leb_spec 0 (mouse_hook_id m)), (Z.ltb_spec (mouse_hook_id m) 31); try lia.
  cbn [andb]. io_steps; cbn; eauto.
Qed.

Lemma mouse_subscribe_spec m bit_no :
  0 <= mouse_hook_id m < 31 ->
  drv_spec (W := W) m (mouse_subscribe bit_no) (fun p m' evs => exists h s,
    m' = set_hook h m /\
    evs = [EvIrqSet KBC_IRQ_MOUSE (Z.lor IRQ_REENABLE IRQ_EXCLUSIVE) (mouse_hook_id m) s]).
Proof.
  intros Hh. unfold mouse_subscribe, bit_int. io_step. io_step.
  destruct (Z.leb_spec 0 (mouse_hook_id m)), (Z.ltb_spec (mouse_hook_id m) 31); try lia.
  cbn [andb]. io_steps; eauto.
Qed.

Lemma mouse_unsubscribe_spec m :
  drv_spec (W := W) m mouse_unsubscribe (fun r m' evs => (r = 0 \/ r = 1) /\ m' = m /\
    exists s, evs = [EvIrqRm (mouse_hook_id m) s]).
Proof. unfold mouse_unsubscribe. io_steps; cbn; eauto 6. Qed.

Lemma mouse_unsubscribe_01 m :
  drv_spec (W := W) m mouse_unsubscribe (fun r _ _ => r = 0 \/ r = 1).
Proof. unfold mouse_unsubscribe. io_steps; auto. Qed.
End Answers.

Section Contracts.
Context {W : Type} `{Machine W}.

(** C40: a completed packet is decoded as the PS/2 protocol says: the buttons
    and overflow flags are bits of the first byte, and each displacement is
    the nine-bit two's complement number made of the sign bit in the first
    byte and the eight bits of its own byte, so it lies in [-256..255].  The
    16-bit sign extension with [0xFF00 |] computes exactly that. *)
Theorem mouse_get_packet_decodes (m : mouse_statics) (out : packet) b0 b1 b2 s
  (Hready : packet_ready m = true) (Hbytes : bytes m = (b0, b1, b2))
  (H1 : 0 <= b1 < 256) (H2 : 0 <= b2 < 256) :
  let p := packet_spec b0 b1 b2 in
  mouse_get_packet (W := W) out (m, s) = Ok ((0, p), (set_last_packet p m, s)) /\
  -256 <= delta_x p <= 255 /\ -256 <= delta_y p <= 255.
Proof.
  assert (decode (b0, b1, b2) = packet_spec b0 b1 b2) as Hd.
  { unfold decode, packet_spec. unfold MOUSE_DP_RB, MOUSE_DP_MB, MOUSE_DP_LB,
      MOUSE_DP_MSB_X, MOUSE_DP_MSB_Y, MOUSE_DP_X_OVFL, MOUSE_DP_Y_OVFL.
    rewrite !tst_land_bit by lia. rewrite (decode_sign9 _ b1), (decode_sign9 _ b2) by lia.
    done. }
  cbv zeta. split.
  - unfold mouse_get_packet, mbind, M_bind, statics, gets. cbn.
    rewrite Hready. cbn. by rewrite Hbytes, Hd.
  - unfold packet_spec, sign9. cbn [delta_x delta_y].
    destruct (Z.testbit b0 4), (Z.testbit b0 5); cbn [Z.b2z]; lia.
Qed.

(** C13: starting between packets, the packets the driver completes while it
    is fed any stream of bytes are exactly those of the stream parser: bytes
    without bit 3 are skipped until a first byte, which takes the next two
    bytes with it, whatever they are. *)
Theorem mouse_stream_framing (m : mouse_statics) (stream : list Z)
  (Hbetween : current_byte_index m = 0) :
  completed m stream = parse_stream stream.
Proof. by apply (completed_parse (length stream)). Qed.

(** [mouse_write_command] is a bounded retry: on every machine it writes
    the pair (0xD4 to port 0x64, the command to port 0x60) at most twenty
    times, followed at most by a lone prefix byte when the second write
    fails; it answers 0 only if the last byte it read from the mouse is the
    acknowledgement 0xFA, and 1 otherwise. *)
Theorem mouse_write_command_contract command :
  io_spec (W := W) (mouse_write_command command) (fun r evs =>
    exists n partial, (n <= 20)%nat /\
      outs evs = command_attempts n command ++ partial /\
      ((r = 0 /\ (1 <= n)%nat /\ partial = [] /\
        last (bytes_taken evs) = Some MOUSE_RES_ACK)
       \/ (r = 1 /\ (partial = [] \/
            partial = [(KBC_REG_COMMAND, KBC_COMM_WRITE_MOUSE_COMM_BYTE)])))).
Proof.
  unfold mouse_write_command. io_step. io_step.
  apply mouse_write_command_loop_spec.
Qed.

(** [mouse_write_command] reads its local [aknl] before it is set: when
    the byte the stack happens to hold there is 0xFA, the loop does not run,
    no port is touched and the answer is 1, so the command is never sent. *)
Theorem mouse_write_command_uninitialised command (w : W) tr
  (Hstack : u8 (dev_indeterminate w).1 = MOUSE_RES_ACK) :
  mouse_write_command command (mkIo w tr)
  = Ok (1, mkIo (dev_indeterminate w).2 tr).
Proof.
  unfold mouse_write_command, mbind, M_bind, indeterminate, oracle. cbn.
  destruct (dev_indeterminate w) as [j w']. cbn in *. rewrite Hstack. done.
Qed.
End Contracts.

Lemma mouse_get_packet_decodes_witness :
  let m := mkMouseDrv 2 0 3 (0x29, 0xFE, 0x03) true packet0 in
  mouse_get_packet packet0 (m, mkIo (mkScript [] [] [] [] [] []) [])
  = Ok ((0, packet_spec 0x29 0xFE 0x03),
        (set_last_packet (packet_spec 0x29 0xFE 0x03) m,
         mkIo (mkScript [] [] [] [] [] []) [])) /\
  delta_y (packet_spec 0x29 0xFE 0x03) = -253.
Proof.
  cbv zeta. split; [|reflexivity].
  apply (mouse_get_packet_decodes (mkMouseDrv 2 0 3 (0x29, 0xFE, 0x03) true packet0)
           packet0 0x29 0xFE 0x03); [reflexivity|reflexivity|lia|lia].
Defined.

Lemma mouse_stream_framing_witness :
  completed mouse_drv_init [0x00; 0x08; 0x05; 0xFB; 0x01; 0x29; 0x10; 0x20]
  = [(0x08, 0x05, 0xFB); (0x29, 0x10, 0x20)].
Proof.
  rewrite (mouse_stream_framing mouse_drv_init
             [0x00; 0x08; 0x05; 0xFB; 0x01; 0x29; 0x10; 0x20]); reflexivity.
Defined.

Lemma mouse_write_command_uninitialised_witness :
  let w := mkScript [(0, 0)] [0; 0] [] [] [0xFA; 0xFA] [] in
  mouse_write_command 0xF4 (mkIo w []) = Ok (1, mkIo (dev_indeterminate w).2 []).
Proof.
  cbv zeta. apply (mouse_write_command_uninitialised 0xF4
    (mkScript [(0, 0)] [0; 0] [] [] [0xFA; 0xFA] []) []). reflexivity.
Defined.
