(* ===== verification/Timer.v ===== *)
(** * The i8254 timer driver: drivers/i8254.h and drivers/timer.c *)

From S2P Require Import Prelude Machine Kbc.

(** ** i8254.h *)

Definition TIMER_FREQ : Z := 1193182.
Definition TIMER0_IRQ : Z := 0.
Definition TIMER_0 : Z := 0x40.
Definition TIMER_CTRL : Z := 0x43.
Definition TIMER_RB_CMD : Z := Z.lor (BIT 7) (BIT 6).
Definition TIMER_LSB : Z := BIT 4.
Definition TIMER_MSB : Z := BIT 5.
Definition TIMER_LSB_MSB : Z := Z.lor TIMER_LSB TIMER_MSB.
Definition TIMER_RB_COUNT_ : Z := BIT 5.

(** ** lcom/timer.h *)

Inductive timer_status_field : Type := tsf_all | tsf_initial | tsf_mode | tsf_base.

Inductive timer_status_field_val : Type :=
  | val_byte (b : Z)
  | val_in_mode (m : Z)
  | val_count_mode (c : Z)
  | val_bcd (b : bool).

(** ** timer.c *)

Record timer_statics : Type := mkTimer {
  timer_counter : Z;
  timer_hook_id : Z;
}.

Definition timer_init : timer_statics := mkTimer 0 0.

(** The arguments of the LCF printer, flattened. *)
Definition field_code (f : timer_status_field) : Z :=
  match f with tsf_all => 0 | tsf_initial => 1 | tsf_mode => 2 | tsf_base => 3 end.
Definition val_code (v : timer_status_field_val) : Z :=
  match v with
  | val_byte b | val_in_mode b | val_count_mode b => b
  | val_bcd b => Z.b2z b
  end.

(** The field of the status byte that [timer_display_conf] selects. *)
Definition select_field (st : Z) (field : timer_status_field)
  : timer_status_field_val :=
  match field with
  | tsf_all => val_byte st
  | tsf_initial => val_in_mode (Z.land (Z.shiftr st 4) 0x3)
  | tsf_mode => val_count_mode (Z.land (Z.shiftr st 1) 0x07)
  | tsf_base => val_bcd (tst (Z.land st 0x01))
  end.

(** The control word, as stored in a [uint8_t]. *)
Definition control_word (timer st : Z) : Z :=
  u8 (Z.lor (Z.lor TIMER_LSB_MSB (Z.shiftl timer 6)) (Z.land st 0x0f)).

Section Timer.
Context {W : Type} `{Machine W}.

Definition timer_get_conf (timer st : Z) : io W (Z * Z) :=
  sel ← bit_int (timer + 1);
  let control := u8 (Z.lor (Z.lor TIMER_RB_CMD TIMER_RB_COUNT_) sel) in
  r ← sys_outb TIMER_CTRL control;
  if tst r then mret (1, st) else
  '(r, st) ← util_sys_inb (TIMER_0 + timer) st;
  if tst r then mret (1, st) else mret (0, st).

Definition timer_set_frequency (timer freq : Z) : io W Z :=
  if (freq <? 19) || (TIMER_FREQ <? freq) then mret 1 else
  let timerADDR := u8 (TIMER_0 + timer) in
  st ← indeterminate;
  '(r, st) ← timer_get_conf timer (u8 st);
  if tst r then mret 1 else
  let control := control_word timer st in
  let f := u16 (TIMER_FREQ / freq) in
  let '(_, lsb) := util_get_16_LSB f in
  let '(_, msb) := util_get_16_MSB f in
  r ← sys_outb TIMER_CTRL control;
  if tst r then mret 1 else
  r ← sys_outb timerADDR lsb;
  if tst r then mret 1 else
  r ← sys_outb timerADDR msb;
  if tst r then mret 1 else mret 0.

Definition timer_subscribe (bit_no : Z) : drv W timer_statics (Z * Z) :=
  t ← statics;
  bit ← bit_int (timer_hook_id t);
  let bit_no := u8 bit in
  '(r, hook) ← on_io (sys_irqsetpolicy TIMER0_IRQ IRQ_REENABLE (timer_hook_id t));
  set_statics (fun t => mkTimer (timer_counter t) hook) ;;
  if tst r then mret (1, bit_no) else mret (0, bit_no).

Definition timer_unsubscribe : drv W timer_statics Z :=
  t ← statics;
  r ← on_io (sys_irqrmpolicy (timer_hook_id t));
  if tst r then mret 1 else mret 0.

(** [size_t] has 32 bits on i386. *)
Definition timer_int_handler : drv W timer_statics unit :=
  set_statics (fun t => mkTimer (u32 (timer_counter t + 1)) (timer_hook_id t)).

Definition timer_display_conf (timer st : Z) (field : timer_status_field)
  : io W Z :=
  let value := select_field st field in
  r ← lib_call "timer_print_config" [timer; field_code field; val_code value];
  if tst r then mret 1 else mret 0.
End Timer.

Section Answers.
Context {W : Type} `{Machine W}.

Lemma timer_subscribe_spec t bit_no :
  0 <= timer_hook_id t < 8 ->
  drv_spec (W := W) t (timer_subscribe bit_no) (fun p t' evs =>
    p.2 = u8 (BIT (timer_hook_id t)) /\ timer_counter t' = timer_counter t /\
    exists h s, t' = mkTimer (timer_counter t) h /\
      evs = [EvIrqSet TIMER0_IRQ IRQ_REENABLE (timer_hook_id t) s] /\
      p.1 = if s =? 0 then 0 else 1).
Proof.
  intros Hh. unfold timer_subscribe, bit_int. io_step. io_step.
  destruct (Z.leb_spec 0 (timer_hook_id t)), (Z.ltb_spec (timer_hook_id t) 31); try lia.
  cbn [andb]. io_steps; (split; [done|]); (split; [done|]); do 2 eexists;
    (split; [reflexivity|]); (split; [reflexivity|]); unfold tst in *; by destruct (_ =? 0).
Qed.

Lemma timer_unsubscribe_spec t :
  drv_spec (W := W) t timer_unsubscribe (fun r t' evs => (r = 0 \/ r = 1) /\ t' = t /\
    exists s, evs = [EvIrqRm (timer_hook_id t) s]).
Proof. unfold timer_unsubscribe. io_steps; cbn; eauto 6. Qed.

Lemma timer_subscribe_01 t bit_no :
  0 <= timer_hook_id t < 31 ->
  drv_spec (W := W) t (timer_subscribe bit_no) (fun p _ _ => (p.1 = 0 \/ p.1 = 1) /\
    p.2 = u8 (BIT (timer_hook_id t))).
Proof.
  intros Hh. unfold timer_subscribe, bit_int. io_step. io_step.
  destruct (Z.leb_spec 0 (timer_hook_id t)), (Z.ltb_spec (timer_hook_id t) 31); try lia.
  cbn [andb]. io_steps; cbn; auto.
Qed.

Lemma timer_unsubscribe_01 t :
  drv_spec (W := W) t timer_unsubscribe (fun r _ _ => r = 0 \/ r = 1).
Proof. unfold timer_unsubscribe. io_steps; auto. Qed.
End Answers.

(** ** The programming sequence *)

(** The successful port writes of [timer_set_frequency] when the status byte
    is [st]: read-back command, control word, divisor low byte, high byte. *)
Definition frequency_writes (timer freq st : Z) : list (Z * Z) :=
  [(TIMER_CTRL, Z.lor 0xE0 (BIT (timer + 1)));
   (TIMER_CTRL, control_word timer st);
   (TIMER_0 + timer, (TIMER_FREQ / freq) mod 256);
   (TIMER_0 + timer, (TIMER_FREQ / freq) / 256)].

(** What the hardware needs of the control word: the timer number in the two
    top bits, the access mode LSB-then-MSB, and the mode and base the timer
    already had. *)
Definition control_word_ok (timer st c : Z) : bool :=
  (Z.shiftr c 6 =? timer) && (Z.land c 0x30 =? 0x30)
  && (Z.land c 0x0f =? Z.land st 0x0f).

Lemma timer_cases timer : 0 <= timer <= 2 -> timer = 0 \/ timer = 1 \/ timer = 2.
Proof. lia. Qed.

Lemma control_word_correct timer st :
  0 <= timer <= 2 -> control_word_ok timer st (control_word timer st) = true.
Proof.
  intros Ht. unfold control_word.
  assert (Z.land st 0x0f = st mod 16) as -> by (apply (Z.land_ones st 4); lia).
  assert (control_word_ok timer st = control_word_ok timer (st mod 16)) as ->.
  { unfold control_word_ok.
    assert (forall z, Z.land z 0x0f = z mod 16) as E
      by (intros; apply (Z.land_ones _ 4); lia).
    by rewrite !(E st), !(E (st mod 16)), Z.mod_mod by lia. }
  assert (forallb (fun s => forallb (fun t => control_word_ok t s
      (u8 (Z.lor (Z.lor TIMER_LSB_MSB (Z.shiftl t 6)) s))) [0; 1; 2])
      (seqZ 0 16) = true) as Hall by (vm_compute; reflexivity).
  rewrite forallb_forall in Hall. specialize (Hall (st mod 16)).
  rewrite forallb_forall in Hall. apply Hall.
  - apply list_elem_of_In, elem_of_seqZ. pose proof (Z.mod_pos_bound st 16). lia.
  - cbn. lia.
Qed.

Lemma divisor_range freq :
  19 <= freq <= TIMER_FREQ -> 1 <= TIMER_FREQ / freq < 65536.
Proof.
  unfold TIMER_FREQ. intros [H1 H2]. split.
  - apply Z.div_le_lower_bound; lia.
  - apply Z.div_lt_upper_bound; lia.
Qed.

(** Close a branch that stopped after a proper prefix of the writes. *)
Ltac stop Hend :=
  apply io_ret, Hend; autorewrite with trace; cbn [outs omap list_omap app];
  repeat match goal with
    | H : outs _ = _ |- _ => rewrite H; clear H
    | H : tst ?r = true |- _ => apply tst_true, Z.eqb_neq in H; rewrite ?H
    end;
  [left; split; [done|by intros ?]|by eexists].

Section Contracts.
Context {W : Type} `{Machine W}.

Lemma timer_get_conf_spec timer st (Ht : 0 <= timer <= 2) :
  io_spec (W := W) (timer_get_conf timer st) (fun p evs =>
    (p.1 = 0 /\ outs evs = [(TIMER_CTRL, Z.lor 0xE0 (BIT (timer + 1)))])
    \/ (p.1 = 1 /\ (outs evs = [] \/
                    outs evs = [(TIMER_CTRL, Z.lor 0xE0 (BIT (timer + 1)))]))).
Proof.
  unfold timer_get_conf, bit_int.
  destruct (timer_cases timer Ht) as [-> | [-> | ->]]; cbn [andb Z.leb Z.ltb];
    (io_step; apply io_ret; io_step; io_step; io_step;
     [ apply io_ret; right; split; [done|]; left; cbn; apply tst_true, Z.eqb_neq in E;
       by rewrite E
     | apply tst_false in E as ->; io_call util_sys_inb_spec;
       intros [r' s'] evs (k & v & -> & Hr);
       destruct Hr as [(-> & _)|(-> & _)]; cbn [tst Z.eqb negb]; apply io_ret;
       [right; split; [done|]; by right|left; by split] ]).
Qed.

(** For timers 0 to 2, [timer_set_frequency] rejects a frequency outside
    [19..TIMER_FREQ] without touching the hardware; otherwise it answers 0
    only after it wrote the read-back command, the control word and the two
    bytes of the divisor, low byte first, and 1 after a proper prefix of
    these writes.  The divisor [TIMER_FREQ / freq] fits the 16-bit counter,
    and the control word selects the timer and keeps the low four bits of
    the status byte it read. *)
Theorem timer_set_frequency_contract timer freq (Ht : 0 <= timer <= 2) :
  io_spec (W := W) (timer_set_frequency timer freq) (fun r evs =>
    if (19 <=? freq) && (freq <=? TIMER_FREQ) then
      1 <= TIMER_FREQ / freq < 65536 /\
      exists st, outs evs `prefix_of` frequency_writes timer freq st /\
        control_word_ok timer st (control_word timer st) = true /\
        ((r = 0 /\ outs evs = frequency_writes timer freq st)
         \/ (r = 1 /\ outs evs <> frequency_writes timer freq st))
    else r = 1 /\ evs = []).
Proof.
  unfold timer_set_frequency.
  destruct (Z.ltb_spec freq 19), (Z.ltb_spec TIMER_FREQ freq),
    (Z.leb_spec 19 freq), (Z.leb_spec freq TIMER_FREQ); try lia;
    cbn [orb andb]; try (by apply io_ret).
  pose proof (divisor_range freq ltac:(lia)) as Hd.
  io_step. io_step. io_step. eapply io_mono; [by apply timer_get_conf_spec|].
  intros [r st] evs Hc. cbn [fst snd] in Hc.
  assert (forall l r', (r' = 1 /\ l <> frequency_writes timer freq st \/
                        r' = 0 /\ l = frequency_writes timer freq st) ->
    l `prefix_of` frequency_writes timer freq st ->
    1 <= TIMER_FREQ / freq < 65536 /\
    exists st, l `prefix_of` frequency_writes timer freq st /\
        control_word_ok timer st (control_word timer st) = true /\
        ((r' = 0 /\ l = frequency_writes timer freq st)
         \/ (r' = 1 /\ l <> frequency_writes timer freq st))) as Hend.
  { intros l r' Hl Hp. split; [done|]. exists st. split; [done|].
    split; [by apply control_word_correct|]. tauto. }
  destruct Hc as [[-> Hc]|[-> [Hc|Hc]]]; cbn [tst Z.eqb negb];
    [|stop Hend|stop Hend].
  rewrite (u16_id (TIMER_FREQ / freq)) by lia. cbn [util_get_16_LSB util_get_16_MSB].
  assert (u8 (TIMER_0 + timer) = TIMER_0 + timer) as ->
    by (unfold TIMER_0; apply u8_id; lia).
  assert (u8 (Z.shiftr (TIMER_FREQ / freq) 8) = (TIMER_FREQ / freq) / 256) as ->.
  { rewrite Z.shiftr_div_pow2 by lia. change (2 ^ 8) with 256. apply u8_id.
    split; [apply Z.div_pos; lia|apply Z.div_lt_upper_bound; lia]. }
  do 3 (io_step; io_step; io_step; [stop Hend|apply tst_false in E as ->]).
  apply io_ret, Hend; autorewrite with trace; rewrite Hc;
    [right; split; [done|]|]; [|exists []]; reflexivity.
Qed.
End Contracts.

(** A run: 60 Hz on timer 0 whose status byte is 0x36. *)
Lemma timer_set_frequency_contract_witness :
  io_spec (W := script) (timer_set_frequency 0 60) (fun r evs =>
      1 <= TIMER_FREQ / 60 < 65536 /\
      exists st, outs evs `prefix_of` frequency_writes 0 60 st /\
          control_word_ok 0 st (control_word 0 st) = true /\
          ((r = 0 /\ outs evs = frequency_writes 0 60 st)
           \/ (r = 1 /\ outs evs <> frequency_writes 0 60 st))) /\
  run_io (timer_set_frequency 0 60) (mkScript [(0, 0x36)] [0; 0; 0; 0] [] [] [] [])
  = Ok (0, [EvOut 0x43 0xE2 0; EvIn 0x40 0 0x36; EvOut 0x43 0x36 0;
            EvOut 0x40 0xAE 0; EvOut 0x40 0x4D 0]).
Proof.
  split; [|reflexivity].
  apply (timer_set_frequency_contract (W := script) 0 60). lia.
Defined.

(** ** Counting interrupts *)

(** The counter after [ticks] interrupts, from [c]. *)
Definition count_up (c : Z) (ticks : nat) : Z :=
  match ticks with O => c | S _ => u32 (c + Z.of_nat ticks) end.

(** The interrupts among the next [ticks] at which [period] divides [counter]. *)
Fixpoint due_ticks (counter : timer_statics -> Z) (period hook c : Z) (ticks : nat) : nat :=
  match ticks with
  | O => O
  | S i => due_ticks counter period hook c i +
      (if counter (mkTimer (count_up c (S i)) hook) mod period =? 0%Z then 1 else 0)
  end.

(** [ticks] interrupts after [t]. *)
Definition ticked (t : timer_statics) (ticks : nat) (t' : timer_statics) : Prop :=
  timer_hook_id t' = timer_hook_id t /\ timer_counter t' = count_up (timer_counter t) ticks.

Lemma count_up_next c i : u32 (count_up c i + 1) = count_up c (S i).
Proof.
  unfold count_up, u32. destruct i; [done|]. rewrite Zplus_mod_idemp_l. f_equal. lia.
Qed.

Lemma ticked_next t i t' :
  ticked t i t' ->
  ticked t (S i) (mkTimer (u32 (timer_counter t' + 1)) (timer_hook_id t')).
Proof. intros [Hh Hc]. split; [done|]. cbn [timer_counter]. by rewrite Hc, count_up_next. Qed.
