(* ===== verification/Calendar.v ===== *)
(** * The C calendar functions the program calls: [gmtime] and [mktime]

    These are standard-library functions; they are defined here as the
    standard says (proleptic Gregorian calendar, seconds since 1970), and
    proved inverse of each other.  Years run from March so that the leap day
    is the last one; a 400-year era has 146097 days.

    [mktime] works in local time: the zone is a fixed offset [tz], in seconds
    east of UTC. *)

From S2P Require Import Prelude.

(** [lia] below also knows division and remainder by constants. *)
#[local] Ltac Zify.zify_post_hook ::= Z.div_mod_to_equations.

Record tm : Type := mkTm {
  tm_sec : Z;
  tm_min : Z;
  tm_hour : Z;
  tm_mday : Z;
  tm_mon : Z;
  tm_year : Z;
}.

(** Day of a March-based year of an era, and back. *)
Definition doe_of (yoe doy : Z) : Z := 365 * yoe + yoe / 4 - yoe / 100 + doy.

Definition year_of_doe (doe : Z) : Z * Z :=
  let c := Z.min 3 (doe / 36524) in
  let r := doe - 36524 * c in
  let q := r / 1461 in
  let r := r - 1461 * q in
  let a := Z.min 3 (r / 365) in
  (100 * c + 4 * q + a, r - 365 * a).

(** Day of the March-based year for month [mp] (0 is March) and day [d]. *)
Definition doy_of (mp d : Z) : Z := (153 * mp + 2) / 5 + d - 1.

Definition month_of_doy (doy : Z) : Z * Z :=
  let mp := (5 * doy + 2) / 153 in (mp, doy - (153 * mp + 2) / 5 + 1).

Definition days_from_civil (y m d : Z) : Z :=
  let y := if m <=? 2 then y - 1 else y in
  let mp := if m <=? 2 then m + 9 else m - 3 in
  (y / 400) * 146097 + doe_of (y mod 400) (doy_of mp d) - 719468.

Definition civil_from_days (n : Z) : Z * Z * Z :=
  let z := n + 719468 in
  let '(yoe, doy) := year_of_doe (z mod 146097) in
  let '(mp, d) := month_of_doy doy in
  let m := if mp <? 10 then mp + 3 else mp - 9 in
  let y := yoe + 400 * (z / 146097) in
  ((if m <=? 2 then y + 1 else y), m, d).

(** [gmtime(&t)]: [NULL] when the year does not fit an [int]. *)
Definition gmtime (t : Z) : option tm :=
  let '(y, m, d) := civil_from_days (t / 86400) in
  let s := t mod 86400 in
  if fits_int (y - 1900)
  then Some (mkTm (s mod 60) ((s / 60) mod 60) (s / 3600) d (m - 1) (y - 1900))
  else None.

(** [mktime(&t)]: out-of-range fields are carried over, as the standard
    asks. *)
Definition mktime (tz : Z) (t : tm) : Z :=
  let y := tm_year t + 1900 + tm_mon t / 12 in
  let days := days_from_civil y (tm_mon t mod 12 + 1) 1 + (tm_mday t - 1) in
  days * 86400 + tm_hour t * 3600 + tm_min t * 60 + tm_sec t - tz.

(** ** Valid dates *)

Definition leap (y : Z) : bool :=
  (y mod 4 =? 0) && (negb (y mod 100 =? 0) || (y mod 400 =? 0)).

Definition days_in_month (y m : Z) : Z :=
  if m =? 2 then (if leap y then 29 else 28)
  else if (m =? 4) || (m =? 6) || (m =? 9) || (m =? 11) then 30 else 31.

Definition valid_date (y m d : Z) : Prop :=
  1 <= m <= 12 /\ 1 <= d <= days_in_month y m.

(** ** The calendar is a bijection *)

(** The length of a March-based year of an era. *)
Definition year_length (yoe : Z) : Z :=
  if (yoe mod 4 =? 3) && (negb (yoe mod 100 =? 99) || (yoe =? 399)) then 366 else 365.

Lemma year_of_doe_spec doe :
  0 <= doe < 146097 ->
  let '(yoe, doy) := year_of_doe doe in
  0 <= yoe < 400 /\ 0 <= doy < year_length yoe /\ doe_of yoe doy = doe.
Proof.
  intros H. unfold year_of_doe, doe_of, year_length.
  set (c := Z.min 3 (doe / 36524)). set (r := doe - 36524 * c).
  set (q := r / 1461). set (r' := r - 1461 * q). set (a := Z.min 3 (r' / 365)).
  assert (0 <= c <= 3 /\ 0 <= r /\ (r < 36524 \/ c = 3 /\ r < 36525)) as (Hc & Hr0 & Hr1)
    by (subst c r; lia).
  assert (0 <= q <= 24 /\ 0 <= r' < 1461 /\ (q = 24 -> r' < 1460 \/ c = 3)) as (Hq & Hr' & Hq24)
    by (subst q r'; lia).
  assert (0 <= a <= 3 /\ 0 <= r' - 365 * a /\ (r' - 365 * a < 365 \/ a = 3 /\ r' = 1460))
    as (Ha & Hd0 & Hd1) by (subst a; lia).
  assert ((100 * c + 4 * q + a) / 4 = 25 * c + q) as E4 by lia.
  assert ((100 * c + 4 * q + a) / 100 = c) as E100 by lia.
  rewrite E4, E100. split; [lia|split; [|lia]].
  destruct (Z.eqb_spec ((100 * c + 4 * q + a) mod 4) 3),
    (Z.eqb_spec ((100 * c + 4 * q + a) mod 100) 99),
    (Z.eqb_spec (100 * c + 4 * q + a) 399); cbn [andb orb negb]; lia.
Qed.

Lemma year_of_doe_of yoe doy :
  0 <= yoe < 400 -> 0 <= doy < year_length yoe ->
  0 <= doe_of yoe doy < 146097 /\ year_of_doe (doe_of yoe doy) = (yoe, doy).
Proof.
  intros Hy Hd. unfold year_length in Hd.
  set (c := yoe / 100). set (q := yoe mod 100 / 4). set (a := yoe mod 4).
  assert (yoe = 100 * c + 4 * q + a /\ 0 <= c <= 3 /\ 0 <= q <= 24 /\ 0 <= a <= 3)
    as (Ey & Hc & Hq & Ha) by (subst c q a; lia).
  assert (yoe / 4 = 25 * c + q) as E4 by lia.
  assert (doy < 365 \/ doy = 365 /\ a = 3 /\ (q < 24 \/ c = 3)) as Hd'.
  { destruct (Z.eqb_spec (yoe mod 4) 3), (Z.eqb_spec (yoe mod 100) 99),
      (Z.eqb_spec yoe 399); cbn [andb orb negb] in Hd; lia. }
  unfold doe_of. rewrite E4. fold c.
  replace (365 * yoe + (25 * c + q) - c + doy)
    with (36524 * c + 1461 * q + 365 * a + doy) by lia.
  split; [lia|]. unfold year_of_doe.
  set (doe := 36524 * c + 1461 * q + 365 * a + doy).
  assert (Z.min 3 (doe / 36524) = c) as -> by (subst doe; lia).
  assert (doe - 36524 * c = 1461 * q + 365 * a + doy) as -> by (subst doe; lia).
  assert ((1461 * q + 365 * a + doy) / 1461 = q) as -> by lia.
  replace (1461 * q + 365 * a + doy - 1461 * q) with (365 * a + doy) by lia.
  assert (Z.min 3 ((365 * a + doy) / 365) = a) as -> by lia.
  f_equal; lia.
Qed.

Lemma month_of_doy_spec doy :
  0 <= doy < 366 ->
  let '(mp, d) := month_of_doy doy in
  0 <= mp <= 11 /\ 1 <= d <= 31 /\ doy_of mp d = doy.
Proof. intros H. unfold month_of_doy, doy_of. lia. Qed.

(** The length of a March-based month; the last one is cut by the year. *)
Definition month_length (mp : Z) : Z := (153 * (mp + 1) + 2) / 5 - (153 * mp + 2) / 5.

Lemma month_of_doy_of mp d :
  0 <= mp <= 11 -> 1 <= d <= month_length mp ->
  month_of_doy (doy_of mp d) = (mp, d).
Proof.
  intros Hm Hd. unfold month_length in Hd. unfold month_of_doy, doy_of.
  assert ((5 * ((153 * mp + 2) / 5 + d - 1) + 2) / 153 = mp) as -> by lia.
  f_equal. lia.
Qed.

Lemma days_from_civil_from_days n :
  let '(y, m, d) := civil_from_days n in
  1 <= m <= 12 /\ 1 <= d <= 31 /\ days_from_civil y m d = n.
Proof.
  unfold civil_from_days. set (z := n + 719468).
  pose proof (year_of_doe_spec (z mod 146097) ltac:(lia)) as Hy.
  destruct (year_of_doe (z mod 146097)) as [yoe doy]. destruct Hy as (Hy & Hd & E).
  assert (0 <= doy < 366) as Hd'.
  { unfold year_length in Hd. destruct (_ && _) in Hd; lia. }
  pose proof (month_of_doy_spec doy Hd') as Hm.
  destruct (month_of_doy doy) as [mp d]. destruct Hm as (Hm & Hd1 & E').
  unfold days_from_civil.
  destruct (Z.ltb_spec mp 10).
  - destruct (Z.leb_spec (mp + 3) 2); [lia|]. split; [lia|split; [lia|]].
    rewrite (Z.mul_comm 400), Z.div_add, Z.mod_add, Z.div_small, Z.mod_small by lia.
    replace (mp + 3 - 3) with mp by lia. rewrite E', E. lia.
  - destruct (Z.leb_spec (mp - 9) 2); [|lia]. split; [lia|split; [lia|]].
    replace (yoe + 400 * (z / 146097) + 1 - 1) with (yoe + z / 146097 * 400) by lia.
    rewrite Z.div_add, Z.mod_add, Z.div_small, Z.mod_small by lia.
    replace (mp - 9 + 9) with mp by lia. rewrite E', E. lia.
Qed.

Lemma leap_year_length y :
  year_length ((y - 1) mod 400) = if leap y then 366 else 365.
Proof.
  unfold year_length, leap. set (k := (y - 1) mod 400).
  assert (y mod 4 = (k + 1) mod 4 /\ y mod 100 = (k + 1) mod 100 /\
          y mod 400 = (k + 1) mod 400 /\ 0 <= k < 400) as (-> & -> & -> & Hk)
    by (subst k; lia).
  destruct (Z.eqb_spec (k mod 4) 3), (Z.eqb_spec (k mod 100) 99), (Z.eqb_spec k 399),
    (Z.eqb_spec ((k + 1) mod 4) 0), (Z.eqb_spec ((k + 1) mod 100) 0),
    (Z.eqb_spec ((k + 1) mod 400) 0); cbn [andb orb negb]; lia.
Qed.

Lemma civil_from_days_from_civil y m d :
  valid_date y m d -> civil_from_days (days_from_civil y m d) = (y, m, d).
Proof.
  intros [Hm Hd]. unfold civil_from_days, days_from_civil.
  set (y' := if m <=? 2 then y - 1 else y).
  set (mp := if m <=? 2 then m + 9 else m - 3).
  assert (0 <= mp <= 11 /\ 1 <= d <= month_length mp /\
          0 <= doy_of mp d < year_length (y' mod 400)) as (Hmp & Hml & Hdoy).
  { pose proof (leap_year_length y) as Hl. subst y' mp.
    unfold days_in_month in Hd. unfold month_length, doy_of.
    assert (365 <= year_length (y mod 400)) as Hy
      by (unfold year_length; destruct (_ && _); lia).
    assert (m = 1 \/ m = 2 \/ m = 3 \/ m = 4 \/ m = 5 \/ m = 6 \/ m = 7 \/ m = 8 \/
            m = 9 \/ m = 10 \/ m = 11 \/ m = 12) as Hcases by lia.
    destruct (leap y);
    destruct Hcases as [->|[->|[->|[->|[->|[->|[->|[->|[->|[->|[->| ->]]]]]]]]]]];
      cbn in Hd |- *; lia. }
  destruct (year_of_doe_of (y' mod 400) (doy_of mp d) ltac:(lia) Hdoy) as [Hr E].
  set (doe := doe_of (y' mod 400) (doy_of mp d)) in *.
  replace (y' / 400 * 146097 + doe - 719468 + 719468) with (doe + y' / 400 * 146097) by lia.
  rewrite Z.mod_add, Z.div_add, Z.mod_small, Z.div_small, E by lia.
  rewrite month_of_doy_of by done. subst y' mp.
  destruct (Z.leb_spec m 2).
  - destruct (Z.ltb_spec (m + 9) 10); [lia|]. replace (m + 9 - 9) with m by lia.
    destruct (Z.leb_spec m 2); [|lia]. repeat f_equal. lia.
  - destruct (Z.ltb_spec (m - 3) 10); [|lia]. replace (m - 3 + 3) with m by lia.
    destruct (Z.leb_spec m 2); [lia|]. repeat f_equal. lia.
Qed.

(** Two thousand years are five eras. *)
Lemma days_from_civil_2000 y m d :
  days_from_civil (y + 2000) m d = days_from_civil y m d + 730485.
Proof.
  unfold days_from_civil.
  replace (if m <=? 2 then y + 2000 - 1 else y + 2000)
    with ((if m <=? 2 then y - 1 else y) + 5 * 400) by (destruct (m <=? 2); lia).
  rewrite Z.div_add, Z.mod_add by lia. lia.
Qed.

Lemma days_from_civil_day y m d :
  days_from_civil y m d = days_from_civil y m 1 + (d - 1).
Proof. unfold days_from_civil, doe_of, doy_of. lia. Qed.

Lemma days_from_civil_bounds y m d :
  0 <= y <= 100000 -> 1 <= m <= 12 -> 1 <= d <= 31 ->
  -1000000 <= days_from_civil y m d <= 40000000.
Proof.
  intros Hy Hm Hd. unfold days_from_civil, doe_of, doy_of.
  destruct (Z.leb_spec m 2); lia.
Qed.

(** ** [gmtime] and [mktime] *)

Lemma gmtime_fields t x :
  gmtime t = Some x ->
  let '(y, m, d) := civil_from_days (t / 86400) in
  x = mkTm (t mod 86400 mod 60) (t mod 86400 / 60 mod 60) (t mod 86400 / 3600)
        d (m - 1) (y - 1900) /\
  1 <= m <= 12 /\ 1 <= d <= 31 /\ days_from_civil y m d = t / 86400.
Proof.
  unfold gmtime. pose proof (days_from_civil_from_days (t / 86400)) as Hd.
  destruct (civil_from_days (t / 86400)) as [[y m] d].
  case_match; [|done]. intros [= <-]. auto.
Qed.

Lemma seconds_split s :
  0 <= s < 86400 -> s / 3600 * 3600 + (s / 60) mod 60 * 60 + s mod 60 = s.
Proof. lia. Qed.

Lemma mktime_fields tz y m d hh mm ss :
  1 <= m <= 12 ->
  mktime tz (mkTm ss mm hh d (m - 1) (y - 1900))
  = days_from_civil y m d * 86400 + hh * 3600 + mm * 60 + ss - tz.
Proof.
  intros Hm. unfold mktime. cbn.
  rewrite (Z.mod_small (m - 1) 12), (Z.div_small (m - 1) 12) by lia.
  replace (y - 1900 + 1900 + 0) with y by lia. replace (m - 1 + 1) with m by lia.
  rewrite (days_from_civil_day y m d). lia.
Qed.

Lemma gmtime_civil y m d hh mm ss :
  valid_date y m d -> 0 <= hh < 24 -> 0 <= mm < 60 -> 0 <= ss < 60 ->
  INT_MIN <= y - 1900 <= INT_MAX ->
  gmtime (days_from_civil y m d * 86400 + hh * 3600 + mm * 60 + ss)
  = Some (mkTm ss mm hh d (m - 1) (y - 1900)).
Proof.
  intros Hv Hh Hmm Hs Hy. unfold gmtime.
  remember (hh * 3600 + mm * 60 + ss) as s eqn:Es.
  assert (0 <= s < 86400) as Hs' by lia.
  assert (forall n, (n * 86400 + s) / 86400 = n /\ (n * 86400 + s) mod 86400 = s)
    as Hn by lia.
  replace (days_from_civil y m d * 86400 + hh * 3600 + mm * 60 + ss)
    with (days_from_civil y m d * 86400 + s) by lia.
  destruct (Hn (days_from_civil y m d)) as [-> ->].
  rewrite civil_from_days_from_civil by done. cbv zeta.
  unfold fits_int. destruct (Z.leb_spec INT_MIN (y - 1900)),
    (Z.leb_spec (y - 1900) INT_MAX); try lia. cbn [andb].
  repeat f_equal; lia.
Qed.
