(* ===== verification/Format.v ===== *)
(** * Text: the conversions of [printf] and [scanf] the program uses

    A C string is the list of its character codes, without the terminating
    NUL.  [%d], [%u], [%lld] and their zero-padded forms are printed by [dec]
    and [zpad]; [%s], [%lld] and white space are scanned by [scan_word],
    [scan_int] and [skip_space], as the C standard describes them. *)

From S2P Require Import Prelude.

Abbreviation text := (list Z).

(** A string literal. *)
Definition txt (s : string) : text :=
  (fun c => Z.of_N (Ascii.N_of_ascii c)) <$> String.list_ascii_of_string s.

(** ** Printing *)

Fixpoint udec_acc (fuel : nat) (n : Z) (acc : text) : text :=
  let acc := (48 + n mod 10) :: acc in
  match fuel with
  | O => acc
  | S fuel => if n / 10 =? 0 then acc else udec_acc fuel (n / 10) acc
  end.

(** Twenty digits are enough for a 64-bit integer. *)
Definition udec (n : Z) : text := udec_acc 20 n [].
Definition dec (n : Z) : text := if n <? 0 then 45 :: udec (- n) else udec n.

(** [%0wd] for a number without a sign. *)
Definition zpad (w : nat) (n : Z) : text :=
  replicate (w - length (dec n)) 48 ++ dec n.

(** [snprintf(buf, size, ...)]: what the buffer then holds. *)
Definition snprintf (size : nat) (out : text) : text := take (size - 1) out.

(** ** Scanning *)

Definition isspace (c : Z) : bool := (c =? 32) || (9 <=? c) && (c <=? 13).
Definition isdigit (c : Z) : bool := (48 <=? c) && (c <=? 57).

Fixpoint skip_space (s : text) : text :=
  match s with
  | c :: s' => if isspace c then skip_space s' else s
  | [] => []
  end.

Fixpoint span_word (s : text) : text * text :=
  match s with
  | c :: s' => if isspace c then ([], s)
               else let '(w, r) := span_word s' in (c :: w, r)
  | [] => ([], [])
  end.

(** [%s]: a maximal non-empty run of non-space characters. *)
Definition scan_word (s : text) : option (text * text) :=
  match span_word (skip_space s) with
  | ([], _) => None
  | p => Some p
  end.

Fixpoint scan_digits (s : text) (acc : Z) : Z * text :=
  match s with
  | c :: s' => if isdigit c then scan_digits s' (10 * acc + (c - 48)) else (acc, s)
  | [] => (acc, [])
  end.

Definition scan_udec (s : text) : option (Z * text) :=
  match s with
  | c :: _ => if isdigit c then Some (scan_digits s 0) else None
  | [] => None
  end.

(** [%lld]: [None] is a matching failure; the standard leaves a number that
    does not fit undefined. *)
Definition clamp (p : Z * text) : res Z * text :=
  (if fits_i64 p.1 then Ok p.1 else Fault BadConversion, p.2).

Definition scan_int (s : text) : option (res Z * text) :=
  match skip_space s with
  | c :: s' =>
      if c =? 45 then (fun p => clamp (- p.1, p.2)) <$> scan_udec s'
      else if c =? 43 then clamp <$> scan_udec s'
      else clamp <$> scan_udec (c :: s')
  | [] => None
  end.

(** ** Printing then scanning *)

Definition word_ok (w : text) : Prop := w <> [] /\ Forall (fun c => isspace c = false) w.

(** [rest] does not continue a number. *)
Definition no_digit (rest : text) : Prop :=
  match rest with c :: _ => isdigit c = false | [] => True end.

Lemma isdigit_mod n : isdigit (48 + n mod 10) = true.
Proof.
  unfold isdigit. pose proof (Z.mod_pos_bound n 10 eq_refl).
  destruct (Z.leb_spec 48 (48 + n mod 10)), (Z.leb_spec (48 + n mod 10) 57); (done || lia).
Qed.

Lemma udec_acc_digits fuel n acc :
  0 <= n -> Forall (fun c => isdigit c = true) acc ->
  Forall (fun c => isdigit c = true) (udec_acc fuel n acc).
Proof.
  revert n acc. induction fuel as [|fuel IH]; intros n acc Hn Ha; cbn;
    pose proof (isdigit_mod n) as Hd.
  - by constructor.
  - case_match; [by constructor|]. apply IH; [apply Z.div_pos; lia|by constructor].
Qed.

(** Scanning what [udec_acc] prints multiplies the accumulator and adds [n]. *)
Lemma scan_udec_acc fuel n tail :
  0 <= n < 10 ^ (Z.of_nat fuel + 1) ->
  scan_digits (udec_acc fuel n tail) 0 = scan_digits tail n.
Proof.
  revert n tail. induction fuel as [|fuel IH]; intros n tail Hn.
  - change (10 ^ (Z.of_nat 0 + 1)) with 10 in Hn. cbn.
    rewrite Z.mod_small by lia. unfold isdigit.
    destruct (Z.leb_spec 48 (48 + n)), (Z.leb_spec (48 + n) 57); try lia.
    cbn [andb]. f_equal. lia.
  - cbn [udec_acc]. pose proof (Z.mod_pos_bound n 10 eq_refl) as Hm.
    pose proof (isdigit_mod n) as Hd.
    pose proof (Z.div_mod n 10 ltac:(lia)) as E.
    destruct (Z.eqb_spec (n / 10) 0) as [E0|E0].
    + cbn [scan_digits]. rewrite Hd. f_equal. lia.
    + rewrite IH.
      * cbn [scan_digits]. rewrite Hd. f_equal. lia.
      * split; [apply Z.div_pos; lia|]. apply Z.div_lt_upper_bound; [lia|].
        rewrite <-Z.pow_succ_r by lia. replace (Z.succ (Z.of_nat fuel + 1))
          with (Z.of_nat (S fuel) + 1) by lia. lia.
Qed.

Lemma udec_acc_app fuel n acc rest :
  udec_acc fuel n acc ++ rest = udec_acc fuel n (acc ++ rest).
Proof.
  revert n acc. induction fuel as [|fuel IH]; intros n acc; cbn; [done|].
  destruct (n / 10 =? 0); [done|apply IH].
Qed.

Lemma udec_acc_nonempty fuel n acc : exists c r,
  udec_acc fuel n acc = c :: r /\ isdigit c = true.
Proof.
  revert n acc. induction fuel as [|fuel IH]; intros n acc; cbn;
    [eauto using isdigit_mod|]. destruct (n / 10 =? 0); eauto using isdigit_mod.
Qed.

Lemma scan_digits_stop rest n : no_digit rest -> scan_digits rest n = (n, rest).
Proof. destruct rest as [|c r]; cbn; [done|by intros ->]. Qed.

Lemma scan_udec_udec n rest :
  0 <= n < 10 ^ 21 -> no_digit rest -> scan_udec (udec n ++ rest) = Some (n, rest).
Proof.
  intros Hn Hr. unfold udec. rewrite udec_acc_app. cbn [app].
  pose proof (scan_udec_acc 20 n rest Hn) as E.
  destruct (udec_acc_nonempty 20 n rest) as (c & r & Ec & Hc).
  rewrite Ec in *. unfold scan_udec. by rewrite Hc, E, scan_digits_stop.
Qed.

Lemma isdigit_not_sign c :
  isdigit c = true -> isspace c = false /\ c <> 45 /\ c <> 43.
Proof.
  unfold isdigit, isspace. intros [H1%Z.leb_le H2%Z.leb_le]%andb_prop.
  destruct (Z.eqb_spec c 32), (Z.leb_spec 9 c), (Z.leb_spec c 13); (lia || done || auto with lia).
Qed.

Lemma fits_i64_spec v :
  fits_i64 v = true <-> -9223372036854775808 <= v <= 9223372036854775807.
Proof. unfold fits_i64. rewrite andb_true_iff, !Z.leb_le. done. Qed.

(** What [%lld] printed, [%lld] reads back. *)
Lemma scan_int_dec n rest :
  fits_i64 n = true -> no_digit rest ->
  scan_int (dec n ++ rest) = Some (Ok n, rest).
Proof.
  intros Hf Hr. pose proof (proj1 (fits_i64_spec n) Hf) as Hn.
  unfold dec, scan_int. destruct (Z.ltb_spec n 0).
  - change (skip_space ((45 :: udec (- n)) ++ rest)) with (45 :: (udec (- n) ++ rest)).
    cbv iota. change (45 =? 45) with true. cbv iota.
    rewrite scan_udec_udec by (lia || done). unfold clamp. cbn.
    by rewrite Z.opp_involutive, Hf.
  - pose proof (scan_udec_udec n rest ltac:(lia) Hr) as E.
    unfold udec in *. rewrite udec_acc_app in *. cbn [app] in *.
    destruct (udec_acc_nonempty 20 n rest) as (c & r & Ec & Hc). rewrite Ec in *.
    destruct (isdigit_not_sign c Hc) as (Hs & H45 & H43).
    cbn [skip_space]. rewrite Hs.
    rewrite (proj2 (Z.eqb_neq c 45)), (proj2 (Z.eqb_neq c 43)), E by done.
    unfold clamp. cbn. by rewrite Hf.
Qed.

Lemma skip_space_nonspace w rest :
  word_ok w -> skip_space (w ++ rest) = w ++ rest.
Proof.
  intros [Hne Hall]. destruct w as [|c w]; [done|]. cbn.
  apply Forall_cons in Hall as [Hc _]. by rewrite Hc.
Qed.

(** What [%s] printed, followed by a space, [%s] reads back. *)
Lemma scan_word_word w rest :
  word_ok w -> scan_word (w ++ 32 :: rest) = Some (w, 32 :: rest).
Proof.
  intros Hw. unfold scan_word. rewrite skip_space_nonspace by done.
  destruct Hw as [Hne Hall].
  assert (span_word (w ++ 32 :: rest) = (w, 32 :: rest)) as ->.
  { clear Hne. induction Hall as [|c w Hc _ IH]; [done|]. cbn. by rewrite Hc, IH. }
  by destruct w.
Qed.

(** ** How long a number is printed *)

Lemma udec_acc_length k fuel n acc :
  0 <= n < 10 ^ Z.of_nat (S k) -> (k <= fuel)%nat ->
  (length (udec_acc fuel n acc) <= S k + length acc)%nat.
Proof.
  revert fuel n acc. induction k as [|k IH]; intros fuel n acc Hn Hf.
  - change (10 ^ Z.of_nat 1) with 10 in Hn.
    assert (n / 10 = 0) as E by (by apply Z.div_small).
    destruct fuel; cbn [udec_acc]; rewrite ?E; cbn; lia.
  - destruct fuel as [|fuel]; [lia|]. cbn [udec_acc].
    destruct (n / 10 =? 0); [cbn; lia|].
    specialize (IH fuel (n / 10) (48 + n mod 10 :: acc)). cbn [length] in IH.
    apply Nat.le_trans with (S k + S (length acc))%nat; [apply IH; [|lia]|lia].
    rewrite (Nat2Z.inj_succ (S k)), Z.pow_succ_r in Hn by lia.
    split; [apply Z.div_pos; lia|]. apply Z.div_lt_upper_bound; lia.
Qed.

(** A number that fits is printed in exactly the width asked for, in digits. *)
Lemma zpad_length k n :
  (k < 20)%nat -> 0 <= n < 10 ^ Z.of_nat (S k) -> length (zpad (S k) n) = S k.
Proof.
  intros Hk Hn. unfold zpad, dec. destruct (Z.ltb_spec n 0); [lia|].
  pose proof (udec_acc_length k 20 n [] Hn ltac:(lia)) as Hl. cbn [length] in Hl.
  fold (udec n) in Hl. rewrite length_app, length_replicate. lia.
Qed.

Lemma zpad_digits w n : 0 <= n -> Forall (fun c => 48 <= c <= 57) (zpad w n).
Proof.
  intros Hn. unfold zpad, dec. destruct (Z.ltb_spec n 0); [lia|].
  apply Forall_app. split; [apply Forall_replicate; lia|].
  eapply Forall_impl; [apply (udec_acc_digits 20 n []); [done|constructor]|].
  intros c Hc. unfold isdigit in Hc.
  destruct (Z.leb_spec 48 c), (Z.leb_spec c 57); (done || lia).
Qed.
