(* ===== verification/Rtc.v ===== *)
(** * The real-time clock: drivers/rtc.h and drivers/rtc.c *)

From S2P Require Import Prelude Machine Kbc Calendar Format.

(** ** rtc.h *)

Definition RTC_ADDR_REG : Z := 0x70.
Definition RTC_DATA_REG : Z := 0x71.
Definition RTC_SECONDS_REG : Z := 0x00.
Definition RTC_MINUTES_REG : Z := 0x02.
Definition RTC_HOURS_REG : Z := 0x04.
Definition RTC_DAY_WEEK_REG : Z := 0x06.
Definition RTC_DAY_MONTH_REG : Z := 0x07.
Definition RTC_MONTH_REG : Z := 0x08.
Definition RTC_YEAR_REG : Z := 0x09.
Definition RTC_STATUS_A_REG : Z := 0x0A.
Definition RTC_STATUS_B_REG : Z := 0x0B.
Definition RTC_STATUS_C_REG : Z := 0x0C.
Definition RTC_STATUS_D_REG : Z := 0x0D.
Definition RTC_UPDATING : Z := 1.

Record rtc_date_time : Type := mkRtc {
  rtc_seconds : Z;
  rtc_minutes : Z;
  rtc_hours : Z;
  rtc_day_week : Z;
  rtc_day : Z;
  rtc_month : Z;
  rtc_year : Z;
}.

(** ** rtc.c *)

Definition bcd_to_dec (bcd : Z) : Z := u8 (Z.shiftr bcd 4 * 10 + Z.land bcd 0x0F).

(** [mktime] in the zone [tz]; the fields are unsigned, so none overflows. *)
Definition rtc_date_time_to_unix (tz : Z) (dt : rtc_date_time) : Z :=
  mktime tz (mkTm (rtc_seconds dt) (rtc_minutes dt) (rtc_hours dt) (rtc_day dt)
               (rtc_month dt - 1) (rtc_year dt + 100)).

(** [rtc_day_week] is left as it was. *)
Definition unix_to_rtc_date_time (unix_time : Z) (dt : rtc_date_time)
  : res rtc_date_time :=
  match gmtime unix_time with
  | Some t =>
      Ok (mkRtc (u8 (tm_sec t)) (u8 (tm_min t)) (u8 (tm_hour t))
            (rtc_day_week dt) (u8 (tm_mday t)) (u8 (tm_mon t + 1))
            (u16 (tm_year t + 1900)))
  | None => Fault NullDeref
  end.

Definition weekdays : list text :=
  txt <$> ["Sun"; "Mon"; "Tue"; "Wed"; "Thu"; "Fri"; "Sat"]%string.

(** What is printed. *)
Definition rtc_display_date_time (dt : option rtc_date_time) : res text :=
  match dt with
  | None => Ok (txt "Invalid date/time data." ++ [10])
  | Some dt =>
      match array_get weekdays (rtc_day_week dt) with
      | Ok wd =>
          Ok (zpad 2 (rtc_hours dt) ++ txt ":" ++ zpad 2 (rtc_minutes dt)
              ++ txt ":" ++ zpad 2 (rtc_seconds dt) ++ txt " " ++ wd ++ txt ", "
              ++ zpad 2 (rtc_day dt) ++ txt "/" ++ zpad 2 (rtc_month dt)
              ++ txt "/20" ++ zpad 2 (rtc_year dt) ++ [10])
      | Fault f => Fault f
      end
  end.

Section Rtc.
Context {W : Type} `{Machine W}.

Definition rtc_read_register (register_addr register_data : Z)
  : io W (Z * Z) :=
  r ← sys_outb RTC_ADDR_REG register_addr;
  if tst r then mret (1, register_data) else
  '(r, register_data) ← util_sys_inb RTC_DATA_REG register_data;
  if tst r then mret (1, register_data) else mret (0, register_data).

Definition rtc_update_in_progress : io W Z :=
  rtc_status ← indeterminate;
  '(r, rtc_status) ← rtc_read_register RTC_STATUS_A_REG (u8 rtc_status);
  if tst r then mret 1
  else mret (if tst (Z.land rtc_status (BIT 7)) then RTC_UPDATING
             else Z.b2z (negb (tst RTC_UPDATING))).

(** A register read whose failure makes the caller return 1. *)
Definition read_or_1 (addr : Z) (k : Z -> io W (Z * option rtc_date_time))
  (dt : option rtc_date_time) : io W (Z * option rtc_date_time) :=
  data ← indeterminate;
  '(r, data) ← rtc_read_register addr (u8 data);
  if tst r then mret (1, dt) else k data.

(** The argument is the object behind the pointer, [None] for [NULL]. *)
Definition rtc_read_date_time (dt : option rtc_date_time)
  : io W (Z * option rtc_date_time) :=
  u ← rtc_update_in_progress;
  if u =? RTC_UPDATING then mret (1, dt) else
  match dt with
  | None => mret (1, dt)
  | Some _ =>
      read_or_1 RTC_SECONDS_REG (fun seconds =>
      read_or_1 RTC_MINUTES_REG (fun minutes =>
      read_or_1 RTC_HOURS_REG (fun hours =>
      read_or_1 RTC_DAY_WEEK_REG (fun day_of_week =>
      read_or_1 RTC_DAY_MONTH_REG (fun day =>
      read_or_1 RTC_MONTH_REG (fun month =>
      read_or_1 RTC_YEAR_REG (fun year =>
        mret (0, Some (mkRtc (bcd_to_dec seconds) (bcd_to_dec minutes)
                         (bcd_to_dec hours) (bcd_to_dec day_of_week)
                         (bcd_to_dec day) (bcd_to_dec month)
                         (bcd_to_dec year))))
      dt) dt) dt) dt) dt) dt) dt
  end.

Definition rtc_test_conf : io W Z :=
  let test addr (k : io W Z) : io W Z :=
    reg ← indeterminate;
    '(r, _) ← rtc_read_register addr (u8 reg);
    if tst r then mret 1 else k in
  test RTC_STATUS_A_REG (test RTC_STATUS_B_REG
    (test RTC_STATUS_C_REG (test RTC_STATUS_D_REG (mret 0)))).
End Rtc.

(** ** Specifications *)

(** The registers of a date, in the order they are selected. *)
Definition date_registers : list Z :=
  [RTC_SECONDS_REG; RTC_MINUTES_REG; RTC_HOURS_REG; RTC_DAY_WEEK_REG;
   RTC_DAY_MONTH_REG; RTC_MONTH_REG; RTC_YEAR_REG].

Definition select (reg : Z) : Z * Z := (RTC_ADDR_REG, reg).

(** The bytes read from the data port. *)
Definition rtc_bytes (evs : list io_event) : list Z :=
  omap (fun e => match e with
                 | EvIn port r v =>
                     if (port =? RTC_DATA_REG) && (r =? 0) then Some (u8 v) else None
                 | _ => None
                 end) evs.

Definition date_of_bytes (bs : list Z) : option rtc_date_time :=
  match bcd_to_dec <$> bs with
  | [s; m; h; w; d; mo; y] => Some (mkRtc s m h w d mo y)
  | _ => None
  end.

Definition bcd_of (n : Z) : Z := 16 * (n / 10) + n mod 10.

(** A date as it stands in an [rtc_date_time], with its year taken as the
    offset from [base] ([rtc_year] is documented with two digits by the clock,
    and with the full year by [unix_to_rtc_date_time]). *)
Definition rtc_valid (base : Z) (dt : rtc_date_time) : Prop :=
  valid_date (base + rtc_year dt) (rtc_month dt) (rtc_day dt) /\
  0 <= rtc_hours dt < 24 /\ 0 <= rtc_minutes dt < 60 /\ 0 <= rtc_seconds dt < 60.

Definition set_year (y : Z) (dt : rtc_date_time) : rtc_date_time :=
  mkRtc (rtc_seconds dt) (rtc_minutes dt) (rtc_hours dt) (rtc_day_week dt)
    (rtc_day dt) (rtc_month dt) y.
Definition set_day_week (w : Z) (dt : rtc_date_time) : rtc_date_time :=
  mkRtc (rtc_seconds dt) (rtc_minutes dt) (rtc_hours dt) w
    (rtc_day dt) (rtc_month dt) (rtc_year dt).

Lemma rtc_bytes_app e1 e2 : rtc_bytes (e1 ++ e2) = rtc_bytes e1 ++ rtc_bytes e2.
Proof. apply omap_app. Qed.
#[export] Hint Rewrite rtc_bytes_app : trace.

Lemma days_in_month_le y m : days_in_month y m <= 31.
Proof. unfold days_in_month. destruct (m =? 2), (leap y); try lia; destruct (_ || _); lia. Qed.

Lemma rtc_to_unix_fields tz dt :
  1 <= rtc_month dt <= 12 ->
  rtc_date_time_to_unix tz dt
  = days_from_civil (rtc_year dt + 2000) (rtc_month dt) (rtc_day dt) * 86400
    + rtc_hours dt * 3600 + rtc_minutes dt * 60 + rtc_seconds dt - tz.
Proof.
  intros Hm. unfold rtc_date_time_to_unix.
  replace (rtc_year dt + 100) with (rtc_year dt + 2000 - 1900) by lia.
  by apply mktime_fields.
Qed.

(** Storing a date and reading it back adds 2000 to the year. *)
Lemma rtc_unix_there_and_back dt old :
  rtc_valid 2000 dt -> 0 <= rtc_year dt -> rtc_year dt + 2000 < 65536 ->
  unix_to_rtc_date_time (rtc_date_time_to_unix 0 dt) old
  = Ok (set_year (rtc_year dt + 2000) (set_day_week (rtc_day_week old) dt)).
Proof.
  intros ((Hm & Hd) & Hh & Hmi & Hs) Hy0 Hy. rewrite rtc_to_unix_fields, Z.sub_0_r by done.
  pose proof (days_in_month_le (2000 + rtc_year dt) (rtc_month dt)).
  unfold unix_to_rtc_date_time. rewrite gmtime_civil; unfold valid_date, INT_MIN, INT_MAX;
    try lia; [|by rewrite (Z.add_comm _ 2000)].
  cbn. unfold set_year, set_day_week. cbn.
  rewrite !u8_id, u16_id by lia. do 2 f_equal; lia.
Qed.

Section Specs.
Context {W : Type} `{Machine W}.

Lemma rtc_read_register_spec addr data :
  io_spec (W := W) (rtc_read_register addr data) (fun p evs =>
    (p.1 = 0 /\ outs evs = [select addr] /\ rtc_bytes evs = [p.2])
    \/ (p.1 = 1 /\ (outs evs = [] \/ outs evs = [select addr]))).
Proof.
  unfold rtc_read_register. io_step. io_step. io_step.
  - apply io_ret. right. split; [done|]. left. cbn.
    by rewrite (proj2 (Z.eqb_neq _ _) (tst_true _ E)).
  - apply tst_false in E as ->. io_call util_sys_inb_spec.
    intros [r d] evs (st & v & -> & Hr).
    destruct Hr as [(-> & Hst & ->)|(-> & -> & ->)]; cbn [tst Z.eqb negb];
      apply io_ret; cbn; auto.
Qed.

Lemma rtc_update_in_progress_spec :
  io_spec (W := W) rtc_update_in_progress (fun r evs =>
    (r = 0 /\ outs evs = [select RTC_STATUS_A_REG] /\
     exists b, rtc_bytes evs = [b] /\ Z.testbit b 7 = false)
    \/ (r = RTC_UPDATING /\ outs evs `prefix_of` [select RTC_STATUS_A_REG])).
Proof.
  unfold rtc_update_in_progress. io_step. io_step.
  io_call rtc_read_register_spec. intros [r b] evs Hr. cbn [fst snd] in Hr.
  destruct Hr as [(-> & Ho & Hb)|(-> & Ho)]; cbn [tst Z.eqb negb]; apply io_ret.
  - rewrite tst_land_bit by lia. autorewrite with trace. rewrite Ho, Hb.
    destruct (Z.testbit b 7) eqn:E; [by right|left; eauto].
  - right. split; [done|]. autorewrite with trace.
    destruct Ho as [-> | ->]; [by eexists|done].
Qed.

(** What the rest of a date read may do when [regs] are still to be read
    and the bytes of [done_] have been. *)
Definition date_post (dt : option rtc_date_time) (done_ regs : list Z)
  (p : Z * option rtc_date_time) (evs : list io_event) : Prop :=
  outs evs `prefix_of` (select <$> regs) /\
  ((p.1 = 0 /\ outs evs = select <$> regs /\
    p.2 = date_of_bytes (done_ ++ rtc_bytes evs) /\ is_Some p.2)
   \/ (p.1 = 1 /\ p.2 = dt)).

Lemma read_or_1_spec addr k dt done_ regs :
  (forall b, io_spec (W := W) (k b) (date_post dt (done_ ++ [b]) regs)) ->
  io_spec (W := W) (read_or_1 addr k dt) (date_post dt done_ (addr :: regs)).
Proof.
  intros Hk. unfold read_or_1. io_step. io_step.
  io_call rtc_read_register_spec. intros [r b] evs Hr. cbn [fst snd] in Hr.
  destruct Hr as [(-> & Ho & Hb)|(-> & Ho)]; cbn [tst Z.eqb negb].
  - eapply io_mono; [apply Hk|]. intros p evs' (Hp & Hc). unfold date_post.
    autorewrite with trace. rewrite Ho, Hb, <-app_assoc in *. cbn [fmap list_fmap app] in *.
    split; [by apply prefix_cons|].
    destruct Hc as [(? & E & ?)|?]; [left|by right]. rewrite E.
    split; [done|split; [done|done]].
  - apply io_ret. unfold date_post. autorewrite with trace.
    split; [|by right]. destruct Ho as [-> | ->]; by eexists.
Qed.

Lemma date_post_last dt s m h w d mo y :
  io_spec (W := W) (mret (0, Some (mkRtc (bcd_to_dec s) (bcd_to_dec m) (bcd_to_dec h)
    (bcd_to_dec w) (bcd_to_dec d) (bcd_to_dec mo) (bcd_to_dec y))))
    (date_post dt [s; m; h; w; d; mo; y] []).
Proof. apply io_ret. split; [done|]. left. split; [done|]. cbn. eauto. Qed.
End Specs.

Section Contracts.
Context {W : Type} `{Machine W}.

(** [rtc_read_date_time] selects no date register while the clock
    reports an update in progress (or cannot be read); it answers 0 only
    after it read the seven date registers in order, and then the date is
    made of their BCD values; otherwise it answers 1 and the caller's object
    is unchanged, even when the failure is in the middle. *)
Theorem rtc_read_date_time_contract (dt : rtc_date_time) :
  io_spec (W := W) (rtc_read_date_time (Some dt)) (fun p evs =>
    outs evs `prefix_of` (select <$> (RTC_STATUS_A_REG :: date_registers)) /\
    ((p.1 = 0 /\ outs evs = (select <$> (RTC_STATUS_A_REG :: date_registers)) /\
      exists a bs, rtc_bytes evs = a :: bs /\ Z.testbit a 7 = false /\
        p.2 = date_of_bytes bs /\ is_Some p.2)
     \/ (p.1 = 1 /\ p.2 = Some dt))).
Proof.
  unfold rtc_read_date_time. io_call rtc_update_in_progress_spec.
  intros u evs [(-> & Ho & a & Ha & H7)|(-> & Ho)].
  - cbn [Z.eqb]. eapply io_mono with (P := date_post (Some dt) [] date_registers).
    { repeat (apply read_or_1_spec; intros ?). apply date_post_last. }
    intros p evs' (Hp & Hc). autorewrite with trace. rewrite Ho, Ha.
    split; [by apply prefix_cons|]. destruct Hc as [(? & E & ? & ?)|?]; [left|by right].
    rewrite E. split; [done|split; [done|]]. eauto 10.
  - apply io_ret. autorewrite with trace. split; [|by right].
    etrans; [exact Ho|]. by exists (select <$> date_registers).
Qed.

(** The two conversions of the clock driver do not agree on the meaning
    of [rtc_year]: [unix_to_rtc_date_time] stores the full year and
    [rtc_date_time_to_unix] adds 2000 to it.  Converting any timestamp of
    the years 0 to 65535 to a date and back, in UTC, gives the timestamp of
    the same instant 2000 years later. *)
Theorem unix_rtc_unix_shift (t y m d : Z) (old : rtc_date_time)
  (Hcivil : civil_from_days (t / 86400) = (y, m, d)) (Hy : 0 <= y < 65536) :
  exists dt, unix_to_rtc_date_time t old = Ok dt /\
    rtc_date_time_to_unix 0 dt = t + 730485 * 86400.
Proof.
  assert (exists x, gmtime t = Some x) as [x Hx].
  { unfold gmtime. rewrite Hcivil. unfold fits_int.
    destruct (Z.leb_spec INT_MIN (y - 1900)), (Z.leb_spec (y - 1900) INT_MAX);
      unfold INT_MIN, INT_MAX in *; (lia || (cbn; eauto)). }
  pose proof (gmtime_fields _ _ Hx) as Hf. rewrite Hcivil in Hf.
  destruct Hf as (-> & Hm & Hd & Hn).
  unfold unix_to_rtc_date_time. rewrite Hx. eexists. split; [done|].
  pose proof (Z.mod_pos_bound t 86400 eq_refl) as Hs.
  pose proof (Z.div_mod t 86400 ltac:(lia)) as Et.
  set (s := t mod 86400) in *.
  assert (0 <= s mod 60 < 60 /\ 0 <= (s / 60) mod 60 < 60 /\ 0 <= s / 3600 < 24)
    as (H1 & H2 & H3).
  { repeat split; try apply Z.mod_pos_bound; try apply Z.div_pos; try lia.
    apply Z.div_lt_upper_bound; lia. }
  rewrite rtc_to_unix_fields; cbn; rewrite !u8_id, ?u16_id by lia; [|lia].
  replace (m - 1 + 1) with m by lia. replace (y - 1900 + 1900) with y by lia.
  rewrite days_from_civil_2000, Hn.
  pose proof (seconds_split s Hs). lia.
Qed.
End Contracts.

Lemma unix_rtc_unix_shift_witness :
  exists dt, unix_to_rtc_date_time 1716336000 (mkRtc 0 0 0 0 0 0 0) = Ok dt /\
    rtc_date_time_to_unix 0 dt = 1716336000 + 730485 * 86400.
Proof.
  apply (unix_rtc_unix_shift 1716336000 2024 5 22 (mkRtc 0 0 0 0 0 0 0));
    [reflexivity|lia].
Defined.

(** [bcd_to_dec] decodes the two-digit BCD encoding of every number from
    0 to 99, and its 8-bit result never wraps on any byte. *)
Theorem bcd_to_dec_correct :
  (forall n, 0 <= n <= 99 -> 0 <= bcd_of n < 256 /\ bcd_to_dec (bcd_of n) = n) /\
  (forall b, 0 <= b < 256 -> bcd_to_dec b = b / 16 * 10 + b mod 16 /\
                             0 <= bcd_to_dec b <= 165).
Proof.
  assert (forall b, 0 <= b < 256 ->
    bcd_to_dec b = b / 16 * 10 + b mod 16 /\ 0 <= bcd_to_dec b <= 165) as Hb.
  { intros b Hb. unfold bcd_to_dec. rewrite Z.shiftr_div_pow2 by lia.
    assert (Z.land b 0x0F = b mod 16) as -> by (apply (Z.land_ones b 4); lia).
    change (2 ^ 4) with 16. pose proof (Z.mod_pos_bound b 16 eq_refl).
    pose proof (Z.div_mod b 16 ltac:(lia)). rewrite u8_id; lia. }
  split; [|done]. intros n Hn. unfold bcd_of.
  pose proof (Z.mod_pos_bound n 10 eq_refl). pose proof (Z.div_mod n 10 ltac:(lia)).
  assert (0 <= 16 * (n / 10) + n mod 10 < 256) as Hr by lia.
  split; [done|]. rewrite (proj1 (Hb _ Hr)).
  rewrite (Z.mul_comm 16), Z.div_add_l, (Z.div_small (n mod 10)),
    (Z.add_comm (_ * 16)), Z.mod_add, (Z.mod_small (n mod 10)) by lia. lia.
Qed.
