(* ===== verification/Leaderboard.v ===== *)
(** * The leaderboard: leaderboard/leaderboard.h and leaderboard/leaderboard.c

    At most three entries, kept by increasing time, stored in a text file.
    The file is reached through the class [Files]; [tz] is the local time
    zone [mktime] works in. *)

From S2P Require Import Prelude Machine Calendar Format Rtc.

(** The file behind leaderboard.txt: open for reading (its contents, or a
    failure), open for writing, append, close. *)
Class Files (W : Type) : Type := {
  file_open_r : W -> option text * W;
  file_open_w : W -> bool * W;
  file_append : text -> W -> W;
  file_close : W -> W;
}.

(** What the C library documents about a regular file: opening for writing
    truncates it, output is appended, and a later reader sees it. *)
Class FilesLaws (W : Type) `{Files W} : Type := {
  file_text : W -> option text;
  open_r_law : forall w, (file_open_r w).1 = file_text w;
  open_w_law : forall w, (file_open_w w).1 = true ->
    file_text (file_open_w w).2 = Some [];
  append_law : forall w t s, file_text w = Some s ->
    file_text (file_append t w) = Some (s ++ t);
  close_law : forall w, file_text (file_close w) = file_text w;
}.

(** [name] is the array [char name\[4\]], terminating NUL included. *)
Record LeaderboardEntry : Type := mkEntry {
  name : list Z;
  dt_of_entry : rtc_date_time;
  time_entry : Z;
}.

Record Leaderboard : Type := mkBoard {
  entries : list LeaderboardEntry;
  entry_count : Z;
}.

Definition ENTRIES : Z := 3.
Definition NAME_SIZE : nat := 4.

(** The C string in an array; an array without a NUL is read past its end. *)
Fixpoint c_string (a : list Z) : res text :=
  match a with
  | [] => Fault OutOfBounds
  | c :: a => if c =? 0 then Ok []
              else match c_string a with
                   | Ok s => Ok (c :: s)
                   | Fault f => Fault f
                   end
  end.

(** [strcpy] (and the store of [%s]) into an array. *)
Definition store_string (s : text) (a : list Z) : res (list Z) :=
  block_write a 0 (s ++ [0]).

(** [fscanf(file, "%s %lld %lld", e.name, &dt, &e.time_entry)]: the number of
    conversions made, the objects after it and the input left. *)
Definition scan_entry (s : text) (e : LeaderboardEntry) (dt : Z)
  : res (Z * LeaderboardEntry * Z * text) :=
  match scan_word s with
  | None => Ok (-1, e, dt, s)
  | Some (w, s) =>
      let? nm := store_string w (name e) in
      let e := mkEntry nm (dt_of_entry e) (time_entry e) in
      match scan_int s with
      | None => Ok (1, e, dt, s)
      | Some (v, s) =>
          let? dt := v in
          match scan_int s with
          | None => Ok (2, e, dt, s)
          | Some (v, s) =>
              let? t := v in
              Ok (3, mkEntry (name e) (dt_of_entry e) t, dt, s)
          end
      end
  end.

(** The [while] loop of [Leaderboard_read_file]; it runs at most three times,
    [fuel] being the rounds left. *)
Fixpoint read_entries (fuel : nat) (s : text) (dt : Z) (lb : Leaderboard)
  : res Leaderboard :=
  match fuel with
  | O => Fault OutOfFuel
  | S fuel =>
      let? e := array_get (entries lb) (entry_count lb) in
      let? (n, e, dt, s) := scan_entry s e dt in
      let? es := array_set (entries lb) (entry_count lb) e in
      if n =? 3 then
        let? d := unix_to_rtc_date_time dt (dt_of_entry e) in
        let? es := array_set es (entry_count lb)
                     (mkEntry (name e) d (time_entry e)) in
        let lb := mkBoard es (u8 (entry_count lb + 1)) in
        if 3 <=? entry_count lb then Ok lb else read_entries fuel s dt lb
      else Ok (mkBoard es (entry_count lb))
  end.

(** [for (uint8_t i = 0; i < entry_count; i++)] looking for the first entry
    with a larger time; [n] rounds are left. *)
Fixpoint find_position (n : nat) (i : Z) (time : Z) (lb : Leaderboard) : res Z :=
  match n with
  | O => Ok (entry_count lb)
  | S n =>
      let? e := array_get (entries lb) i in
      if time <? time_entry e then Ok i else find_position n (i + 1) time lb
  end.

(** [for (int i = entry_count; i > insert_position; i--)] moving entries up;
    [n] rounds are left. *)
Fixpoint shift_entries (n : nat) (i : Z) (es : list LeaderboardEntry)
  : res (list LeaderboardEntry) :=
  match n with
  | O => Ok es
  | S n =>
      let? es :=
        if i <? 3 then let? e := array_get es (i - 1) in array_set es i e
        else Ok es in
      shift_entries n (i - 1) es
  end.

Definition Leaderboard_add_entry (lb : Leaderboard) (nm : text)
  (dt : rtc_date_time) (time : Z) (stack : list Z) : res Leaderboard :=
  let? nm := store_string nm stack in
  let new_entry := mkEntry nm dt time in
  let? insert_position :=
    find_position (Z.to_nat (entry_count lb)) 0 time lb in
  let? es := shift_entries (Z.to_nat (entry_count lb - insert_position))
               (entry_count lb) (entries lb) in
  if insert_position <? 3 then
    let? es := array_set es insert_position new_entry in
    Ok (mkBoard es (if entry_count lb <? 3 then u8 (entry_count lb + 1)
                    else entry_count lb))
  else Ok (mkBoard es (entry_count lb)).

(** The line [fprintf] writes for an entry. *)
Definition entry_line (tz : Z) (e : LeaderboardEntry) : res text :=
  let timestamp := rtc_date_time_to_unix tz (dt_of_entry e) in
  let? nm := c_string (name e) in
  Ok (nm ++ txt " " ++ dec timestamp ++ txt " " ++ dec (time_entry e) ++ [10]).

Section Leaderboard.
Context {W : Type} `{Machine W} `{Files W} (tz : Z).

(** The answer and the board after the call. *)
Definition Leaderboard_read_file (lb : Leaderboard) : io W (Z * Leaderboard) :=
  file ← oracle file_open_r;
  match file with
  | None => mret (1, lb)
  | Some s =>
      dt_entry ← indeterminate;
      lb ← lift_res (read_entries 3 s dt_entry (mkBoard (entries lb) 0));
      oracle (fun w => (tt, file_close w)) ;;
      mret (0, lb)
  end.

Definition write_entry (lb : Leaderboard) (i : Z) : io W unit :=
  e ← lift_res (array_get (entries lb) i);
  line ← lift_res (entry_line tz e);
  oracle (fun w => (tt, file_append line w)).

Definition Leaderboard_write_file (lb : Leaderboard) : io W Z :=
  ok ← oracle file_open_w;
  if negb ok then mret 1
  else
    for_up 3 0 (write_entry lb) ;;
    oracle (fun w => (tt, file_close w)) ;;
    mret 0.
End Leaderboard.

(** ** Specification of the ranking *)

(** The entries in use. *)
Definition live (lb : Leaderboard) : list LeaderboardEntry :=
  take (Z.to_nat (entry_count lb)) (entries lb).

Definition times_sorted (es : list LeaderboardEntry) : Prop :=
  forall i j a b, (i <= j)%nat -> es !! i = Some a -> es !! j = Some b ->
    time_entry a <= time_entry b.

(** Three slots, a count that fits, and the entries in use ranked by time. *)
Definition board_ok (lb : Leaderboard) : Prop :=
  length (entries lb) = 3%nat /\ 0 <= entry_count lb <= 3 /\
  times_sorted (live lb).

(** Insertion behind the entries with the same time or a better one. *)
Fixpoint rank (e : LeaderboardEntry) (es : list LeaderboardEntry)
  : list LeaderboardEntry :=
  match es with
  | [] => [e]
  | x :: es => if time_entry e <? time_entry x then e :: x :: es
               else x :: rank e es
  end.

(** A name a player can have: one to three characters, no white space. *)
Definition name_ok (nm : text) : Prop :=
  word_ok nm /\ (length nm <= 3)%nat /\ Forall (fun c => c <> 0) nm.

(** An entry the file can hold: a name that is a word, a date of the clock,
    a time that is a 64-bit integer. *)
Definition entry_ok (nm : text) (e : LeaderboardEntry) : Prop :=
  name_ok nm /\ c_string (name e) = Ok nm /\
  rtc_valid 2000 (dt_of_entry e) /\ 0 <= rtc_year (dt_of_entry e) < 63536 /\
  fits_i64 (time_entry e) = true.

(** What a written entry [e] is read back as: the year is 2000 too large and
    the day of the week is whatever the slot held before. *)
Definition read_back (nm : text) (e e' : LeaderboardEntry) : Prop :=
  c_string (name e') = Ok nm /\ time_entry e' = time_entry e /\
  exists w, dt_of_entry e'
    = set_year (rtc_year (dt_of_entry e) + 2000) (set_day_week w (dt_of_entry e)).

(** ** Facts *)

Lemma store_string_fits s a :
  (length s < length a)%nat ->
  exists a', store_string s a = Ok a' /\ length a' = length a.
Proof.
  intros Hs. unfold store_string. rewrite block_write_ok by
    (rewrite ?length_app; cbn; lia).
  eexists. split; [done|].
  rewrite !length_app, length_take, length_drop, ?length_app. cbn. lia.
Qed.

Lemma c_string_app s rest :
  Forall (fun c => c <> 0) s -> c_string (s ++ 0 :: rest) = Ok s.
Proof.
  induction 1 as [|c s Hc _ IH]; [done|]. cbn.
  rewrite (proj2 (Z.eqb_neq c 0)) by done. by rewrite IH.
Qed.

Lemma store_string_read s a a' :
  Forall (fun c => c <> 0) s -> store_string s a = Ok a' -> c_string a' = Ok s.
Proof.
  unfold store_string, block_write. intros Hs. case_match; [|done].
  intros [= <-]. cbn [Z.to_nat take app]. rewrite <-app_assoc. by apply c_string_app.
Qed.

Lemma rank_perm e es : rank e es ≡ₚ e :: es.
Proof.
  induction es as [|x es IH]; [done|]. cbn.
  destruct (_ <? _); [done|]. by rewrite IH, Permutation_swap.
Qed.

Lemma rank_length e es : length (rank e es) = S (length es).
Proof. by rewrite rank_perm. Qed.

Lemma times_sorted_cons x es :
  times_sorted (x :: es) <->
  (forall y, y ∈ es -> time_entry x <= time_entry y) /\ times_sorted es.
Proof.
  split.
  - intros Hs. split.
    + intros y [j Hj]%list_elem_of_lookup. by apply (Hs 0%nat (S j)); [lia|..].
    + intros i j a b Hij Ha Hb. apply (Hs (S i) (S j)); [lia|done..].
  - intros [Hx Hs] [|i] [|j] a b Hij Ha Hb; cbn in *; simplify_eq; try lia.
    + apply Hx, list_elem_of_lookup. eauto.
    + eapply Hs; [|done..]. lia.
Qed.

Lemma rank_sorted e es : times_sorted es -> times_sorted (rank e es).
Proof.
  induction es as [|x es IH]; intros Hs; cbn.
  { apply times_sorted_cons. split; [by intros ? ?%not_elem_of_nil|done]. }
  pose proof Hs as [Hx Hs']%times_sorted_cons.
  destruct (Z.ltb_spec (time_entry e) (time_entry x)).
  - apply times_sorted_cons. split; [|done].
    intros y [-> |Hy]%elem_of_cons; [lia|]. specialize (Hx y Hy). lia.
  - apply times_sorted_cons. split; [|by apply IH].
    intros y. rewrite rank_perm. intros [-> |Hy]%elem_of_cons; [lia|auto].
Qed.

Lemma times_sorted_take n es : times_sorted es -> times_sorted (take n es).
Proof.
  intros Hs i j a b Hij Ha Hb.
  apply lookup_take_Some in Ha as [Ha _]. apply lookup_take_Some in Hb as [Hb _].
  by eapply Hs.
Qed.

Lemma board_shape lb :
  board_ok lb -> exists a b c n,
    lb = mkBoard [a; b; c] (Z.of_nat n) /\ (n = 0 \/ n = 1 \/ n = 2 \/ n = 3)%nat.
Proof.
  intros (Hl & Hc & _). destruct lb as [es n]. cbn in *.
  destruct es as [|a [|b [|c [|]]]]; try done.
  exists a, b, c, (Z.to_nat n). rewrite Z2Nat.id by lia. split; [done|lia].
Qed.

(** The insertion itself, on the finitely many shapes of a board. *)
Lemma add_entry_rank lb nm dt time stack nm' :
  board_ok lb -> store_string nm stack = Ok nm' ->
  let e := mkEntry nm' dt time in
  exists es, Leaderboard_add_entry lb nm dt time stack
    = Ok (mkBoard es (Z.min 3 (entry_count lb + 1))) /\ length es = 3%nat /\
  take (Z.to_nat (Z.min 3 (entry_count lb + 1))) es = take 3 (rank e (live lb)).
Proof.
  intros Hb Hnm e.
  destruct (board_shape lb Hb) as (a & b & c & n & -> & Hn).
  unfold Leaderboard_add_entry. rewrite Hnm. cbn [rbind].
  destruct Hn as [-> | [-> | [-> | ->]]];
    cbv -[Z.compare]; cbn [Z.compare Pos.compare Pos.compare_cont];
    repeat (destruct (time ?= _); cbn); eexists; by repeat split.
Qed.

(** The line of an entry, up to its end of line. *)
Definition line_body (nm : text) (ts time : Z) : text :=
  nm ++ 32 :: dec ts ++ 32 :: dec time.

Lemma entry_line_body tz nm e :
  c_string (name e) = Ok nm ->
  entry_line tz e = Ok (line_body nm (rtc_date_time_to_unix tz (dt_of_entry e))
                          (time_entry e) ++ [10]).
Proof.
  intros E. unfold entry_line, line_body. rewrite E. cbn [rbind].
  change (txt " ") with [32]. f_equal. cbn [app].
  rewrite <-app_assoc. cbn [app]. by rewrite <-app_assoc.
Qed.

Lemma timestamp_fits dt :
  rtc_valid 2000 dt -> 0 <= rtc_year dt < 63536 ->
  fits_i64 (rtc_date_time_to_unix 0 dt) = true.
Proof.
  intros ((Hm & Hd) & Hh & Hmi & Hs) Hy. apply fits_i64_spec.
  rewrite rtc_to_unix_fields by done.
  pose proof (days_in_month_le (2000 + rtc_year dt) (rtc_month dt)).
  pose proof (days_from_civil_bounds (rtc_year dt + 2000) (rtc_month dt) (rtc_day dt)
    ltac:(lia) ltac:(lia) ltac:(lia)). lia.
Qed.

Lemma scan_entry_line nm ts time rest pre old dt :
  name_ok nm -> fits_i64 ts = true -> fits_i64 time = true ->
  length (name old) = 4%nat -> pre = [] \/ pre = [10] ->
  exists nm', store_string nm (name old) = Ok nm' /\
    scan_entry (pre ++ line_body nm ts time ++ 10 :: rest) old dt
    = Ok (3, mkEntry nm' (dt_of_entry old) time, ts, 10 :: rest).
Proof.
  intros (Hw & Hlen & Hz) Hts Htime Hold Hpre.
  destruct (store_string_fits nm (name old) ltac:(lia)) as (nm' & E & _).
  exists nm'. split; [done|]. unfold scan_entry, line_body.
  assert (scan_word (pre ++ (nm ++ 32 :: dec ts ++ 32 :: dec time) ++ 10 :: rest)
    = Some (nm, 32 :: dec ts ++ 32 :: dec time ++ 10 :: rest)) as ->.
  { transitivity (scan_word (nm ++ 32 :: dec ts ++ 32 :: dec time ++ 10 :: rest));
      [|by apply scan_word_word].
    rewrite <-app_assoc. cbn [app]. rewrite <-app_assoc. cbn [app].
    by destruct Hpre as [-> | ->]. }
  rewrite E. cbn [rbind].
  assert (forall v r, fits_i64 v = true -> no_digit r ->
    scan_int (32 :: dec v ++ r) = Some (Ok v, r)) as Hint.
  { intros v r Hv Hr. rewrite <-(scan_int_dec v r Hv Hr). done. }
  rewrite Hint by done. cbn [rbind]. by rewrite Hint.
Qed.

Lemma read_entries_step fuel pre nm e rest es n old dt :
  entry_ok nm e -> es !! Z.to_nat n = Some old -> length (name old) = 4%nat ->
  0 <= n < 3 -> pre = [] \/ pre = [10] ->
  let ts := rtc_date_time_to_unix 0 (dt_of_entry e) in
  exists e', read_back nm e e' /\
    read_entries (S fuel) (pre ++ line_body nm ts (time_entry e) ++ 10 :: rest) dt
      (mkBoard es n)
    = if 3 <=? n + 1 then Ok (mkBoard (<[Z.to_nat n := e']> es) (n + 1))
      else read_entries fuel (10 :: rest) ts (mkBoard (<[Z.to_nat n := e']> es) (n + 1)).
Proof.
  intros (Hnm & Hc & Hv & Hy & Ht) Hold Hlen Hn Hpre ts.
  destruct (scan_entry_line nm ts (time_entry e) rest pre old dt)
    as (nm' & Hst & Hscan); try done; [by apply timestamp_fits|].
  exists (mkEntry nm' (set_year (rtc_year (dt_of_entry e) + 2000)
    (set_day_week (rtc_day_week (dt_of_entry old)) (dt_of_entry e))) (time_entry e)).
  split.
  - split; [|split; [done|by eexists]]. destruct Hnm as (_ & _ & Hz).
    by eapply store_string_read.
  - cbn [read_entries entries entry_count].
    rewrite (array_get_ok _ _ _ (proj1 Hn) Hold). cbn [rbind].
    rewrite Hscan. cbn [rbind].
    pose proof (lookup_lt_Some _ _ _ Hold).
    rewrite !array_set_ok by (rewrite ?length_insert; lia). cbn [rbind].
    change (3 =? 3) with true. cbv iota. unfold ts at 1.
    rewrite rtc_unix_there_and_back by (done || lia). cbn [rbind].
    rewrite array_set_ok by (rewrite length_insert; lia). cbn [rbind].
    by rewrite list_insert_insert_eq, u8_id by lia.
Qed.

Section Files.
Context {W : Type} `{Machine W} `{F : Files W} `{!FilesLaws W}.

Lemma write_entry_append lb i e nm (s : iost W) txt0 :
  array_get (entries lb) i = Ok e -> c_string (name e) = Ok nm ->
  file_text (io_world s) = Some txt0 ->
  wp (write_entry 0 lb i) (fun _ s' => file_text (io_world s')
    = Some (txt0 ++ line_body nm (rtc_date_time_to_unix 0 (dt_of_entry e)) (time_entry e)
            ++ [10])) s.
Proof.
  intros Hg Hc Hf. unfold write_entry. wp_step. eapply wp_lift_res; [exact Hg|].
  wp_step. eapply wp_lift_res; [by apply entry_line_body|].
  unfold wp, oracle. cbn. by apply append_law.
Qed.

(** The text of a full board. *)
Definition file_lines (es : list (text * LeaderboardEntry)) : text :=
  mjoin ((fun '(nm, e) => line_body nm (rtc_date_time_to_unix 0 (dt_of_entry e))
                            (time_entry e) ++ [10]) <$> es).

Lemma Leaderboard_write_file_text a b c n na nb nc (s : iost W) :
  c_string (name a) = Ok na -> c_string (name b) = Ok nb -> c_string (name c) = Ok nc ->
  (file_open_w (io_world s)).1 = true ->
  wp (Leaderboard_write_file 0 (mkBoard [a; b; c] n)) (fun r s' => r = 0 /\
    file_text (io_world s') = Some (file_lines [(na, a); (nb, b); (nc, c)])) s.
Proof.
  intros Ha Hb Hc Ho. unfold Leaderboard_write_file. wp_step.
  unfold wp at 1, oracle at 1. pose proof (open_w_law _ Ho) as Ht.
  destruct (file_open_w (io_world s)) as [ok w1]. cbn in Ho, Ht. subst ok. cbn [negb].
  wp_step. cbn [for_up]. set (s1 := mkIo w1 (io_trace s)).
  assert (file_text (io_world s1) = Some []) as Ht1 by done. clearbody s1.
  wp_step. eapply wp_mono; [by eapply write_entry_append|]. intros [] s2 Ht2.
  wp_step. eapply wp_mono; [by eapply write_entry_append|]. intros [] s3 Ht3.
  wp_step. eapply wp_mono; [by eapply write_entry_append|]. intros [] s4 Ht4.
  wp_step. wp_step. unfold wp at 1, oracle. wp_step. split; [done|]. cbn.
  rewrite close_law, Ht4. unfold file_lines. cbn. by rewrite app_nil_r, <-!app_assoc.
Qed.
End Files.

(** A file that can always be opened for writing. *)
#[export] Instance plain_file {W} : Files (W * option text) := {
  file_open_r p := (p.2, p);
  file_open_w p := (true, (p.1, Some []));
  file_append t p := (p.1, (fun s => s ++ t) <$> p.2);
  file_close p := p;
}.

#[export] Instance plain_file_laws {W} : FilesLaws (W * option text).
Proof.
  refine {| file_text := snd |}; try done. by intros [w f] t s; cbn; intros ->.
Defined.

(** ** The properties *)

(** C30: on a ranked board, [Leaderboard_add_entry] with a name that fits keeps
    the ranking: the entries in use become the first three of the old ones
    with the new one inserted behind every entry of the same or a better time;
    the count grows up to three; no entry is duplicated or lost except the one
    that drops off the end.  A name of four characters or more overflows
    [new_entry.name]. *)
Theorem Leaderboard_add_entry_ranks lb nm dt time stack
  (Hboard : board_ok lb) (Hz : Forall (fun c => c <> 0) nm)
  (Hstack : length stack = NAME_SIZE) :
  if decide (length nm <= 3)%nat then
    exists e lb', Leaderboard_add_entry lb nm dt time stack = Ok lb' /\
      c_string (name e) = Ok nm /\ dt_of_entry e = dt /\ time_entry e = time /\
      board_ok lb' /\ entry_count lb' = Z.min 3 (entry_count lb + 1) /\
      live lb' = take 3 (rank e (live lb)) /\ rank e (live lb) ≡ₚ e :: live lb
  else Leaderboard_add_entry lb nm dt time stack = Fault OutOfBounds.
Proof.
  case_decide as Hlen.
  - destruct (store_string_fits nm stack) as (nm' & E & _); [rewrite Hstack; unfold NAME_SIZE; lia|].
    destruct (add_entry_rank lb nm dt time stack nm' Hboard E) as (es & Ha & Hl & Hr).
    eexists (mkEntry nm' dt time), _. split; [exact Ha|].
    split; [by eapply store_string_read|]. do 2 (split; [done|]).
    destruct Hboard as (_ & Hc & Hs). split; [split; [done|split]|].
    + cbn. lia.
    + unfold live. cbn. rewrite Hr. by apply times_sorted_take, rank_sorted.
    + split; [done|]. split; [exact Hr|apply rank_perm].
  - unfold Leaderboard_add_entry, store_string, block_write.
    rewrite length_app, Hstack. cbn [length].
    destruct (Z.leb_spec (0 + Z.of_nat (length nm + 1)) (Z.of_nat NAME_SIZE)) as [Hle|];
      [unfold NAME_SIZE in Hle; lia|done].
Qed.

Lemma Leaderboard_add_entry_ranks_witness :
  let dt := mkRtc 0 0 0 1 1 1 24 in
  let lb := mkBoard [mkEntry [65; 65; 65; 0] dt 100; mkEntry [66; 66; 66; 0] dt 120;
                     mkEntry [67; 67; 67; 0] dt 200] 3 in
  board_ok lb /\
  exists e lb', Leaderboard_add_entry lb (txt "TIA") dt 120 [9; 9; 9; 9] = Ok lb' /\
    c_string (name e) = Ok (txt "TIA") /\ dt_of_entry e = dt /\ time_entry e = 120 /\
    board_ok lb' /\ entry_count lb' = Z.min 3 (3 + 1) /\
    live lb' = take 3 (rank e (live lb)) /\ rank e (live lb) ≡ₚ e :: live lb.
Proof.
  intros dt lb. assert (board_ok lb) as Hb.
  { split; [reflexivity|split; [cbn; lia|]]. intros i j a b Hij Ha Hb.
    destruct i as [|[|[|i]]], j as [|[|[|j]]]; vm_compute in Ha, Hb;
      simplify_eq; cbn; lia. }
  split; [exact Hb|].
  refine (Leaderboard_add_entry_ranks lb (txt "TIA") dt 120 [9; 9; 9; 9] Hb _ _).
  - repeat constructor; discriminate.
  - reflexivity.
Defined.

(** C37: in the time zone UTC ([tz = 0]), writing a board and reading the file
    again, when the file opens and the file system keeps what it is given: from
    three entries with names of one to three characters that are no white space,
    valid dates of the years 2000 to 65535 (stored less 2000, as the clock has
    them) and times of 64 bits, into slots whose names have their size, it always
    yields three entries, whatever the counts were; names and times come back
    unchanged, but every date comes back with its year 2000 larger, and the day of
    the week is the slot's.
    (In another zone [mktime] and [gmtime] disagree by its offset as well.) *)
Theorem leaderboard_file_roundtrip {W} `{Machine W} `{F : Files W} `{!FilesLaws W}
  (s : iost W) (a b c x y z : LeaderboardEntry) (na nb nc : text) n m
  (Ha : entry_ok na a) (Hb : entry_ok nb b) (Hc : entry_ok nc c)
  (Hslots : Forall (fun e => length (name e) = NAME_SIZE) [x; y; z])
  (Hopen : (file_open_w (io_world s)).1 = true) :
  wp (Leaderboard_write_file 0 (mkBoard [a; b; c] n)) (fun r s1 => r = 0 /\
    wp (Leaderboard_read_file (mkBoard [x; y; z] m)) (fun p _ => p.1 = 0 /\
      exists a' b' c', p.2 = mkBoard [a'; b'; c'] 3 /\
        read_back na a a' /\ read_back nb b b' /\ read_back nc c c') s1) s.
Proof.
  eapply wp_mono; [apply (Leaderboard_write_file_text a b c n na nb nc);
    [apply Ha|apply Hb|apply Hc|done]|].
  intros r s1 [-> Ht]. split; [done|]. unfold Leaderboard_read_file. wp_step.
  unfold wp at 1, oracle. rewrite <-open_r_law in Ht.
  destruct (file_open_r (io_world s1)) as [o w]. cbn in Ht. subst o.
  wp_step. unfold wp at 1, indeterminate, oracle. cbn [io_world io_trace].
  destruct (dev_indeterminate w) as [dt w2]. wp_step.
  rewrite !Forall_cons in Hslots. destruct Hslots as (Hx & Hy & Hz & _).
  unfold file_lines. cbn [fmap list_fmap mjoin list_join entries]. rewrite app_nil_r.
  destruct (read_entries_step 2 [] na a
    ((line_body nb (rtc_date_time_to_unix 0 (dt_of_entry b)) (time_entry b) ++ [10]) ++
     line_body nc (rtc_date_time_to_unix 0 (dt_of_entry c)) (time_entry c) ++ [10])
    [x; y; z] 0 x dt Ha eq_refl Hx ltac:(lia) (or_introl eq_refl)) as (a' & Hra & E1).
  destruct (read_entries_step 1 [10] nb b
    (line_body nc (rtc_date_time_to_unix 0 (dt_of_entry c)) (time_entry c) ++ [10])
    [a'; y; z] 1 y (rtc_date_time_to_unix 0 (dt_of_entry a)) Hb eq_refl Hy ltac:(lia)
    (or_intror eq_refl)) as (b' & Hrb & E2).
  destruct (read_entries_step 0 [10] nc c [] [a'; b'; z] 2 z
    (rtc_date_time_to_unix 0 (dt_of_entry b)) Hc eq_refl Hz ltac:(lia)
    (or_intror eq_refl)) as (c' & Hrc & E3).
  eapply wp_lift_res with (a := mkBoard [a'; b'; c'] 3).
  - rewrite <-!app_assoc in *. cbn [app] in *. rewrite E1. exact (eq_trans E2 E3).
  - wp_step. unfold wp at 1, oracle. wp_step. split; [done|]. eauto 10.
Qed.

Lemma leaderboard_file_roundtrip_witness :
  let dt := mkRtc 30 20 10 4 22 5 24 in
  let e nm t := mkEntry nm dt t in
  let junk := mkEntry [7; 7; 7; 7] (mkRtc 9 9 9 9 9 9 9) 5 in
  let s := mkIo (mkScript [] [] [] [] [] [], None : option text) [] in
  wp (Leaderboard_write_file 0
        (mkBoard [e [65; 65; 65; 0] 100; e [66; 66; 0; 0] 120; e [67; 0; 0; 0] 200] 1))
    (fun r s1 => r = 0 /\
     wp (Leaderboard_read_file (mkBoard [junk; junk; junk] 77)) (fun p _ => p.1 = 0 /\
      exists a' b' c', p.2 = mkBoard [a'; b'; c'] 3 /\
        read_back (txt "AAA") (e [65; 65; 65; 0] 100) a' /\
        read_back (txt "BB") (e [66; 66; 0; 0] 120) b' /\
        read_back (txt "C") (e [67; 0; 0; 0] 200) c') s1) s.
Proof.
  intros dt e junk s. unfold e.
  apply (leaderboard_file_roundtrip s); cbn;
    try (repeat split; try reflexivity; try lia; try discriminate;
         repeat constructor; discriminate).
Defined.
