(* ===== verification/Geometry.v ===== *)
(** * Points and boxes: vec2/vec2.h, aabb/aabb.h and aabb/aabb.c

    Coordinates are [int]s; a sum that overflows is a fault, and the
    comparisons short-circuit as in the source. *)

From S2P Require Import Prelude.

Record vec2 : Type := VEC2 { vx : Z; vy : Z }.

Record aabb : Type := AABB { position : vec2; size : vec2 }.

#[export] Instance vec2_eq_dec : EqDecision vec2.
Proof. solve_decision. Defined.

Definition int_add (a b : Z) : res Z :=
  if fits_int (a + b) then Ok (a + b) else Fault SignedOverflow.

(** [a || b] where [b] is only evaluated when [a] is false. *)
Definition or_else (a : bool) (b : res bool) : res bool :=
  if a then Ok true else b.

Definition AABB_contains (box : aabb) (point : vec2) : res bool :=
  let? out_x := or_else (vx point <? vx (position box))
                  (let? xmax := int_add (vx (position box)) (vx (size box)) in
                   Ok (xmax <? vx point)) in
  if out_x then Ok false else
  let? out_y := or_else (vy point <? vy (position box))
                  (let? ymax := int_add (vy (position box)) (vy (size box)) in
                   Ok (ymax <? vy point)) in
  if out_y then Ok false else Ok true.

Definition AABB_overlaps (first second : aabb) : res bool :=
  let? xmax1 := int_add (vx (position first)) (vx (size first)) in
  let? out_x := or_else (xmax1 <? vx (position second))
                  (let? xmax2 := int_add (vx (position second)) (vx (size second)) in
                   Ok (xmax2 <? vx (position first))) in
  if out_x then Ok false else
  let? ymax1 := int_add (vy (position first)) (vy (size first)) in
  let? out_y := or_else (ymax1 <? vy (position second))
                  (let? ymax2 := int_add (vy (position second)) (vy (size second)) in
                   Ok (ymax2 <? vy (position first))) in
  if out_y then Ok false else Ok true.

(** ** Specification *)

(** The box's far corner is representable. *)
Definition box_fits (b : aabb) : Prop :=
  INT_MIN <= vx (position b) + vx (size b) <= INT_MAX /\
  INT_MIN <= vy (position b) + vy (size b) <= INT_MAX.

(** Both sides are closed: the far edges belong to the box. *)
Definition in_box (b : aabb) (p : vec2) : Prop :=
  vx (position b) <= vx p <= vx (position b) + vx (size b) /\
  vy (position b) <= vy p <= vy (position b) + vy (size b).

Definition boxes_meet (b1 b2 : aabb) : Prop := exists p, in_box b1 p /\ in_box b2 p.

Definition solid (b : aabb) : Prop := 0 <= vx (size b) /\ 0 <= vy (size b).

#[export] Instance in_box_dec b p : Decision (in_box b p).
Proof. unfold in_box. apply _. Defined.

Lemma int_add_ok a b :
  INT_MIN <= a + b <= INT_MAX -> int_add a b = Ok (a + b).
Proof.
  intros H. unfold int_add, fits_int.
  destruct (Z.leb_spec INT_MIN (a + b)), (Z.leb_spec (a + b) INT_MAX); (done || lia).
Qed.

Lemma AABB_contains_in_box b p :
  box_fits b -> AABB_contains b p = Ok (bool_decide (in_box b p)).
Proof.
  intros [Hx Hy]. unfold AABB_contains, or_else.
  rewrite !int_add_ok by done. cbn [rbind].
  case_bool_decide as Hin; unfold in_box in Hin;
  destruct (Z.ltb_spec (vx p) (vx (position b))),
    (Z.ltb_spec (vx (position b) + vx (size b)) (vx p)),
    (Z.ltb_spec (vy p) (vy (position b))),
    (Z.ltb_spec (vy (position b) + vy (size b)) (vy p)); cbn; (done || lia).
Qed.

Lemma boxes_meet_intervals b1 b2 :
  solid b1 -> solid b2 ->
  boxes_meet b1 b2 <->
  vx (position b2) <= vx (position b1) + vx (size b1) /\
  vx (position b1) <= vx (position b2) + vx (size b2) /\
  vy (position b2) <= vy (position b1) + vy (size b1) /\
  vy (position b1) <= vy (position b2) + vy (size b2).
Proof.
  unfold solid, boxes_meet, in_box. intros H1 H2. split.
  - intros [p [? ?]]. lia.
  - intros H. exists (VEC2 (Z.max (vx (position b1)) (vx (position b2)))
                        (Z.max (vy (position b1)) (vy (position b2)))).
    cbn. lia.
Qed.

(** On boxes whose far corners are representable, [AABB_contains] decides
    membership in the closed box and, for boxes of non-negative size,
    [AABB_overlaps] decides whether the two boxes share a point, so it is
    symmetric, and the two functions agree: the boxes overlap exactly when
    some point is contained in both. *)
Theorem AABB_decide_geometry (b1 b2 : aabb) (p : vec2)
  (F1 : box_fits b1) (F2 : box_fits b2) (S1 : solid b1) (S2 : solid b2) :
  AABB_contains b1 p = Ok (bool_decide (in_box b1 p)) /\
  exists o, AABB_overlaps b1 b2 = Ok o /\ AABB_overlaps b2 b1 = Ok o /\
    (o = true <-> exists q, AABB_contains b1 q = Ok true /\
                            AABB_contains b2 q = Ok true).
Proof.
  split; [by apply AABB_contains_in_box|].
  assert ((exists q, AABB_contains b1 q = Ok true /\ AABB_contains b2 q = Ok true)
    <-> boxes_meet b1 b2) as Hmeet.
  { unfold boxes_meet. split; intros [q Hq]; exists q;
      rewrite ?AABB_contains_in_box in * by done;
      do 2 case_bool_decide; intuition congruence. }
  rewrite boxes_meet_intervals in Hmeet by done.
  destruct F1 as [F1x F1y], F2 as [F2x F2y].
  unfold AABB_overlaps, or_else. rewrite !int_add_ok by done. cbn [rbind].
  destruct (Z.ltb_spec (vx (position b1) + vx (size b1)) (vx (position b2))),
    (Z.ltb_spec (vx (position b2) + vx (size b2)) (vx (position b1))),
    (Z.ltb_spec (vy (position b1) + vy (size b1)) (vy (position b2))),
    (Z.ltb_spec (vy (position b2) + vy (size b2)) (vy (position b1)));
    cbn [rbind]; eexists; (split; [done|split; [done|]]); rewrite Hmeet;
    split; (done || lia).
Qed.

Lemma AABB_decide_geometry_witness :
  let play := AABB (VEC2 311 340) (VEC2 402 97) in
  let quit := AABB (VEC2 311 620) (VEC2 402 97) in
  AABB_contains play (VEC2 713 437) = Ok (bool_decide (in_box play (VEC2 713 437))) /\
  exists o, AABB_overlaps play quit = Ok o /\ AABB_overlaps quit play = Ok o /\
    (o = true <-> exists q, AABB_contains play q = Ok true /\
                            AABB_contains quit q = Ok true).
Proof.
  cbv zeta. apply AABB_decide_geometry; unfold box_fits, solid, INT_MIN, INT_MAX;
    cbn; lia.
Defined.
