(* ===== verification/Picture.v ===== *)
(** * Pictures

    What drawing means: a picture gives some pixels of the plane a colour.  Two
    pictures are equivalent when they agree on every pixel; up to this [over] is
    a monoid, and pictures that do not meet commute.  The drawing functions of
    the card, the sprites and the menus are specified by pictures. *)

From S2P Require Import Prelude Geometry.

Definition picture : Type := Z -> Z -> option Z.

#[export] Instance picture_equiv : Equiv picture := fun f g => forall px py, f px py = g px py.

#[export] Instance picture_equivalence : Equivalence (≡@{picture}).
Proof.
  split; [by intros f px py|by intros f g E px py; rewrite E|].
  intros f g h E1 E2 px py. by rewrite E1.
Qed.

(** Nothing, one over another, a list of them from the lowest to the highest. *)
Definition blank : picture := fun _ _ => None.
Definition over (f1 f2 : picture) : picture :=
  fun px py => match f1 px py with Some c => Some c | None => f2 px py end.
Definition layers (ps : list picture) : picture := foldr (fun p above => over above p) blank ps.

(** No pixel has a colour in both. *)
Definition apart (f g : picture) : Prop := forall px py, f px py = None \/ g px py = None.

(** No pixel outside the box has a colour; two boxes that do not meet. *)
Definition confined (b : aabb) (f : picture) : Prop :=
  forall px py,
    ~ (vx (position b) <= px < vx (position b) + vx (size b) /\
       vy (position b) <= py < vy (position b) + vy (size b)) -> f px py = None.

Definition boxes_apart (b c : aabb) : Prop :=
  vx (position b) + vx (size b) <= vx (position c) \/
  vx (position c) + vx (size c) <= vx (position b) \/
  vy (position b) + vy (size b) <= vy (position c) \/
  vy (position c) + vy (size c) <= vy (position b).

#[export] Instance boxes_apart_dec b c : Decision (boxes_apart b c).
Proof. unfold boxes_apart. apply _. Defined.

#[export] Instance over_proper : Proper ((≡) ==> (≡) ==> (≡)) over.
Proof. intros f f' Ef g g' Eg px py. unfold over. by rewrite Ef, Eg. Qed.

#[export] Instance over_assoc : Assoc (≡) over.
Proof. intros f g h px py. unfold over. by destruct (f px py). Qed.

#[export] Instance over_blank_l : LeftId (≡) blank over.
Proof. by intros f px py. Qed.

#[export] Instance over_blank_r : RightId (≡) blank over.
Proof. intros f px py. unfold over, blank. by destruct (f px py). Qed.

#[export] Instance apart_proper : Proper ((≡) ==> (≡) ==> iff) apart.
Proof.
  intros f f' Ef g g' Eg. unfold apart. by split; intros Ha px py; [rewrite <- Ef, <- Eg|rewrite Ef, Eg].
Qed.

#[export] Instance apart_symmetric : Symmetric apart.
Proof. intros f g Ha px py. destruct (Ha px py); auto. Qed.

Lemma over_comm f g : apart f g -> over f g ≡ over g f.
Proof.
  intros Ha px py. unfold over. destruct (Ha px py) as [-> | ->]; [by destruct (g px py)|].
  by destruct (f px py).
Qed.

Lemma layers_app ps qs : layers (ps ++ qs) ≡ over (layers qs) (layers ps).
Proof.
  induction ps as [|p ps IH]; cbn; [by rewrite (right_id blank over)|].
  change (foldr _ blank (ps ++ qs)) with (layers (ps ++ qs)).
  change (foldr _ blank ps) with (layers ps). by rewrite IH, (assoc over).
Qed.

(** Pictures that do not meet may be painted in any order. *)
Lemma layers_permutation ps qs :
  (forall i j p q, i <> j -> ps !! i = Some p -> ps !! j = Some q -> apart p q) ->
  ps ≡ₚ qs -> layers ps ≡ layers qs.
Proof.
  intros Ha Hp.
  apply (foldr_permutation (≡) (fun p above => over above p)); [|intros i p j q f Hij Hi Hj|exact Hp].
  - by intros p f g ->.
  - rewrite <- !(assoc over). f_equiv. by apply over_comm, (Ha j i); auto.
Qed.

Lemma confined_apart b c f g : boxes_apart b c -> confined b f -> confined c g -> apart f g.
Proof.
  intros Hbc Hf Hg px py. unfold confined, boxes_apart in *.
  destruct (decide (vx (position b) <= px < vx (position b) + vx (size b) /\
    vy (position b) <= py < vy (position b) + vy (size b))); [right; apply Hg; lia|left; by apply Hf].
Qed.
