(* ===== verification/Gpu.v ===== *)
(** * The graphics card: drivers/gpu.h and drivers/gpu.c

    The driver draws into a back buffer in memory and copies it to the mapped
    video memory once per frame.  The static variables are the record [gpu];
    the two buffers are lists of bytes and every [memcpy] is checked against
    their bounds.

    [x_res] and [y_res] are the fields of [gpu_res_info]; the file-level
    statics with the same names are never assigned, which is why [aux_clear]
    passes two zeros. *)

From S2P Require Import Prelude Machine Geometry Picture.

Definition INDEX_MODE : Z := 0.
Definition DIRECT_MODE : Z := 1.

(** The fields of lcom/vbe.h's [vbe_mode_info_t] the driver reads. *)
Record vbe_mode_info : Type := mkVbe {
  XResolution : Z;
  YResolution : Z;
  BitsPerPixel : Z;
  MemoryModel : Z;
  RedMaskSize : Z;
  RedFieldPosition : Z;
  GreenMaskSize : Z;
  GreenFieldPosition : Z;
  BlueMaskSize : Z;
  BlueFieldPosition : Z;
  PhysBasePtr : Z;
}.

(** lcom/xpm.h *)
Inductive xpm_image_type : Type :=
  | XPM_INDEXED | XPM_1_5_5_5 | XPM_5_6_5 | XPM_8_8_8 | XPM_8_8_8_8
  | XPM_GRAY_1_5_5_5 | XPM_GRAY_5_6_5 | XPM_GRAY_8_8_8 | XPM_GRAY_8_8_8_8
  | INVALID_XPM.

#[export] Instance xpm_image_type_eq_dec : EqDecision xpm_image_type.
Proof. solve_decision. Defined.

Record xpm_image : Type := mkImage {
  img_type : xpm_image_type;
  img_width : Z;
  img_height : Z;
  img_size : Z;
  img_bytes : list Z;
}.

Record gpu : Type := mkGpu {
  x_res : Z;
  y_res : Z;
  bits_per_pixel : Z;
  bytes_per_pixel : Z;
  red_mask : Z * Z;
  green_mask : Z * Z;
  blue_mask : Z * Z;
  color_mode : Z;
  mem_range : Z * Z;
  vram_size : Z;
  video_mem : list Z;
  backbuffer : list Z;
}.

Definition gpu_zero : gpu :=
  mkGpu 0 0 0 0 (0, 0) (0, 0) (0, 0) 0 (0, 0) 0 [] [].

Definition set_backbuffer (b : list Z) (g : gpu) : gpu :=
  mkGpu (x_res g) (y_res g) (bits_per_pixel g) (bytes_per_pixel g) (red_mask g)
    (green_mask g) (blue_mask g) (color_mode g) (mem_range g) (vram_size g)
    (video_mem g) b.
Definition set_video_mem (v : list Z) (g : gpu) : gpu :=
  mkGpu (x_res g) (y_res g) (bits_per_pixel g) (bytes_per_pixel g) (red_mask g)
    (green_mask g) (blue_mask g) (color_mode g) (mem_range g) (vram_size g)
    v (backbuffer g).

(** The video calls that answer more than a status. *)
Class Video (W : Type) : Type := {
  video_mode_info : Z -> W -> (Z * vbe_mode_info) * W;
  (** [vm_map_phys]: the mapped bytes, or [MAP_FAILED]. *)
  video_map : Z -> Z -> W -> option (list Z) * W;
}.

Definition memcpy_to_backbuffer (location : Z) (bs : list Z) : M gpu unit :=
  g ← get;
  b ← lift_res (block_write (backbuffer g) location bs);
  put (set_backbuffer b g).

(** The parameters are already converted: [uint16_t], [uint16_t], [uint32_t]. *)
Definition gpu_draw_pixel (x y color : Z) : M gpu Z :=
  g ← get;
  if (x_res g <=? x) || (y_res g <=? y) then mret 0
  else if (x <? 0) || (y <? 0) then mret 0
  else
    row ← int (y * x_res g);
    index ← int (row + x);
    offset ← int (index * bytes_per_pixel g);
    let location := u32 offset in
    if 4 <? bytes_per_pixel g then fail OutOfBounds else
    memcpy_to_backbuffer location (le_bytes (Z.to_nat (bytes_per_pixel g)) color) ;;
    mret 0.

(** [bytes] is the block behind the pointer. *)
Definition gpu_draw_line (pos : vec2) (bytes : list Z) (pixelsc : Z) : M gpu Z :=
  g ← get;
  if x_res g <? vx pos then mret 0 else
  past ← int (vx pos + pixelsc);
  if past <? 0 then mret 0
  else if (vy pos <? 0) || (y_res g <=? vy pos) then mret 0
  else
    let start := Z.max (vx pos) 0 in
    last ← int (past - 1);
    let end_ := Z.min (x_res g - 1) last in
    len ← int (end_ - start);
    count ← int (len + 1);
    row ← int (vy pos * x_res g);
    index ← int (row + start);
    location ← int (index * bytes_per_pixel g);
    let skip := if vx pos <? 0 then - vx pos else 0 in
    n ← int (count * bytes_per_pixel g);
    bs ← lift_res (block_read bytes skip n);
    memcpy_to_backbuffer location bs ;;
    mret 0.

Definition gpu_draw_rect (pos size : vec2) (color : Z) : M gpu Z :=
  g ← get;
  if color_mode g =? INDEX_MODE then
    bottom ← int (vy pos + vy size);
    for_up (Z.to_nat (bottom - vy pos)) (vy pos) (fun y =>
      (* a variable-length array needs a positive size *)
      if vx size <=? 0 then fail OutOfBounds else
      let bytes := replicate (Z.to_nat (vx size)) color in
      _ ← gpu_draw_line (VEC2 (vx pos) y) bytes (vx size);
      mret tt) ;;
    mret 0
  else mret 0.

Definition gpu_draw_transparent_xpm (xpm : xpm_image) (pos offset size : vec2)
  : M gpu Z :=
  for_up (Z.to_nat (vy size)) 0 (fun y =>
    for_up (Z.to_nat (vx size)) 0 (fun x =>
      sy ← int (y + vy offset);
      row ← int (sy * img_width xpm);
      sx ← int (x + vx offset);
      index ← int (row + sx);
      byte ← lift_res (array_get (img_bytes xpm) index);
      if byte =? 99 then mret tt
      else
        px ← int (vx pos + x);
        py ← int (vy pos + y);
        _ ← gpu_draw_pixel (u16 px) (u16 py) byte;
        mret tt)) ;;
  mret 0.

(** lcom/xpm.h's [xpm_load]: whether it answers a pixel map (and not [NULL]),
    and what it leaves in the [xpm_image_t] it was given. *)
Definition xpm_map : Type := list string.

Class XpmLoader (W : Type) : Type := {
  xpm_load : xpm_map -> xpm_image_type -> W -> (bool * xpm_image) * W;
}.

(** The converted colour is one byte per pixel for [XPM_INDEXED]. *)
Fixpoint draw_pixels (n : nat) (ix x y : Z) (colors : list Z)
  : M gpu (option (list Z)) :=
  match n with
  | O => mret (Some colors)
  | S n =>
      px ← int (x + ix);
      c ← lift_res (array_get colors 0);
      r ← gpu_draw_pixel (u16 px) (u16 y) c;
      if tst r then mret None else draw_pixels n (ix + 1) x y (drop 1 colors)
  end.

Fixpoint draw_pixel_rows (n : nat) (iy x y width : Z) (colors : list Z)
  : M gpu Z :=
  match n with
  | O => mret 0
  | S n =>
      py ← int (y + iy);
      rest ← draw_pixels (Z.to_nat width) 0 x py colors;
      match rest with
      | None => mret 1
      | Some colors => draw_pixel_rows n (iy + 1) x y width colors
      end
  end.

Section Gpu.
Context {W : Type} `{Machine W}.

Definition gpu_set_mode (mode : Z) : io W Z :=
  r ← lib_call "sys_int86" [0x4F02; u16 (Z.lor (BIT 14) mode); 0x10];
  if tst r then mret 1 else mret 0.

Fixpoint indeterminate_bytes (n : nat) : io W (list Z) :=
  match n with
  | O => mret []
  | S n => b ← indeterminate; bs ← indeterminate_bytes n; mret (u8 b :: bs)
  end.

Definition gpu_init_mem_indexation `{Video W} (mode : Z) : drv W gpu Z :=
  '(r, vmi) ← on_io (oracle (video_mode_info mode));
  if tst r then mret 1 else
  let bpp := u8 ((BitsPerPixel vmi + 7) / 8) in
  set_statics (fun g =>
    mkGpu (XResolution vmi) (YResolution vmi) (BitsPerPixel vmi) bpp
      (RedMaskSize vmi, RedFieldPosition vmi)
      (GreenMaskSize vmi, GreenFieldPosition vmi)
      (BlueMaskSize vmi, BlueFieldPosition vmi)
      (if MemoryModel vmi =? 0x06 then DIRECT_MODE else INDEX_MODE)
      (mem_range g) (vram_size g) (video_mem g) (backbuffer g)) ;;
  let vram_base := u32 (PhysBasePtr vmi) in
  pixels ← int (XResolution vmi * YResolution vmi);
  bytes ← int (pixels * bpp);
  let vram := u32 bytes in
  let range := (vram_base, u32 (vram_base + vram)) in
  set_statics (fun g =>
    mkGpu (x_res g) (y_res g) (bits_per_pixel g) (bytes_per_pixel g) (red_mask g)
      (green_mask g) (blue_mask g) (color_mode g) range vram (video_mem g)
      (backbuffer g)) ;;
  r ← on_io (lib_call "sys_privctl" [range.1; range.2]);
  if tst r then fail Panic else
  mapped ← on_io (oracle (video_map vram_base vram));
  match mapped with
  | None => fail Panic
  | Some vm =>
      set_statics (set_video_mem vm) ;;
      ok ← on_io malloc_ok;
      if negb ok then fail Panic else
      b ← on_io (indeterminate_bytes (Z.to_nat vram));
      set_statics (set_backbuffer b) ;;
      mret 0
  end.

(** [malloc] may answer [NULL]; copying a row to it is then a fault. *)
Definition gpu_draw_xpm (xpm : xpm_image) (pos offset size : vec2) : drv W gpu Z :=
  g ← statics;
  _ ← int (vx size * bytes_per_pixel g);
  ok ← on_io malloc_ok;
  bottom ← int (vy offset + vy size);
  for_up (Z.to_nat (bottom - vy offset)) (vy offset) (fun y =>
    n ← int (vx size * bytes_per_pixel g);
    row ← int (y * img_width xpm);
    index ← int (row + vx offset);
    from ← int (index * bytes_per_pixel g);
    bytes ← lift_res (block_read (img_bytes xpm) from n);
    if negb ok then fail NullDeref else
    down ← int (vy pos + y);
    py ← int (down - vy offset);
    _ ← on_statics (gpu_draw_line (VEC2 (vx pos) py) bytes (vx size));
    mret tt) ;;
  mret 0.

(** A pixel of a pixel map that was not loaded is read through [NULL]. *)
Definition aux_draw_xpm `{XpmLoader W} (xpm : xpm_map) (x y : Z) : drv W gpu Z :=
  '(ok, img) ← on_io (oracle (xpm_load xpm XPM_INDEXED));
  if negb ok && (0 <? img_height img) && (0 <? img_width img) then fail NullDeref
  else
    on_statics (draw_pixel_rows (Z.to_nat (img_height img)) 0 x y
                  (img_width img) (img_bytes img)).

Definition gpu_buffer_commit : M gpu unit :=
  g ← get;
  bs ← lift_res (block_read (backbuffer g) 0 (vram_size g));
  v ← lift_res (block_write (video_mem g) 0 bs);
  put (set_video_mem v g).

Definition gpu_buffer_clear : M gpu unit :=
  g ← get;
  b ← lift_res (block_write (backbuffer g) 0
                  (replicate (Z.to_nat (vram_size g)) 0));
  put (set_backbuffer b g).

Definition aux_clear : io W Z :=
  r ← lib_call "vg_draw_rectangle" [0; 0; 0; 0; 0];
  if tst r then mret 1 else mret 0.
End Gpu.

(** ** Reading the back buffer as a picture *)

(** The byte of a pixel in indexed mode. *)
Definition pixel (g : gpu) (px py : Z) : option Z :=
  backbuffer g !! Z.to_nat (py * x_res g + px).

Definition on_screen (g : gpu) (px py : Z) : Prop :=
  0 <= px < x_res g /\ 0 <= py < y_res g.

(** An initialised card in an indexed mode of at most 32768 by 32768 pixels. *)
Definition indexed (g : gpu) : Prop :=
  bytes_per_pixel g = 1 /\ color_mode g = INDEX_MODE /\
  0 < x_res g <= 32768 /\ 0 < y_res g <= 32768 /\
  x_res g * y_res g <= INT_MAX /\ vram_size g = x_res g * y_res g /\
  length (backbuffer g) = Z.to_nat (x_res g * y_res g) /\
  length (video_mem g) = Z.to_nat (x_res g * y_res g).

(** [g'] is [g] with the picture [f] painted over its back buffer: where [f]
    has a colour the pixel has it, elsewhere nothing changes. *)
Definition painted (f : picture) (g g' : gpu) : Prop :=
  exists b, g' = set_backbuffer b g /\ length b = length (backbuffer g) /\
  forall px py, on_screen g px py ->
    pixel g' px py = match f px py with Some c => Some c | None => pixel g px py end.

(** A row, a frame of an image. *)
Definition row_picture (pos : vec2) (bytes : list Z) (n : Z) : picture :=
  fun px py =>
    if decide (py = vy pos /\ vx pos <= px < vx pos + n)
    then bytes !! Z.to_nat (px - vx pos) else None.

(** The byte of an image. *)
Definition img_byte (xpm : xpm_image) (sx sy : Z) : option Z :=
  img_bytes xpm !! Z.to_nat (sy * img_width xpm + sx).

(** A frame of an image at a position; [opaque] keeps the colour 99. *)
Definition frame_picture (opaque : bool) (xpm : xpm_image) (pos offset size : vec2)
  : picture :=
  fun px py =>
    if decide (vx pos <= px < vx pos + vx size /\ vy pos <= py < vy pos + vy size)
    then
      b ← img_byte xpm (px - vx pos + vx offset) (py - vy pos + vy offset);
      if negb opaque && (b =? 99) then None else Some b
    else None.

Definition rect_picture (pos size : vec2) (color : Z) : picture :=
  fun px py =>
    if decide (vx pos <= px < vx pos + vx size /\ vy pos <= py < vy pos + vy size)
    then Some color else None.

(** The frame lies in the image, and the image in its bytes. *)
Definition frame_ok (xpm : xpm_image) (offset size : vec2) : Prop :=
  0 <= vx offset /\ 0 <= vy offset /\ 0 <= vx size /\ 0 <= vy size /\
  vx offset + vx size <= img_width xpm /\ vy offset + vy size <= img_height xpm /\
  img_width xpm <= 65535 /\ img_height xpm <= 65535 /\
  img_width xpm * img_height xpm <= INT_MAX /\
  Z.of_nat (length (img_bytes xpm)) = img_width xpm * img_height xpm /\
  Forall (fun b => 0 <= b < 256) (img_bytes xpm).

(** Coordinates that survive the conversion to [uint16_t]. *)
Definition coord_ok (pos size : vec2) : Prop :=
  -32768 <= vx pos /\ vx pos + vx size <= 32768 /\
  -32768 <= vy pos /\ vy pos + vy size <= 32768.

(** ** Painting *)

Lemma set_backbuffer_twice b1 b2 g :
  set_backbuffer b2 (set_backbuffer b1 g) = set_backbuffer b2 g.
Proof. done. Qed.

Lemma painted_refl g : painted blank g g.
Proof. exists (backbuffer g). by destruct g. Qed.

Lemma painted_ext f f' g g' :
  painted f g g' ->
  (forall px py, on_screen g px py -> f px py = f' px py) ->
  painted f' g g'.
Proof.
  intros (b & -> & Hl & Hp) Hf. exists b. split; [done|split; [done|]].
  intros px py Hs. by rewrite Hp, Hf.
Qed.

Lemma painted_trans f1 f2 g g1 g2 :
  painted f1 g g1 -> painted f2 g1 g2 -> painted (over f2 f1) g g2.
Proof.
  intros (b1 & -> & Hl1 & H1) (b2 & -> & Hl2 & H2).
  exists b2. split; [done|split; [by rewrite Hl2|]].
  intros px py Hs. rewrite H2, H1 by done. unfold over. by destruct (f2 px py).
Qed.

#[export] Instance painted_proper : Proper ((≡) ==> (=) ==> (=) ==> iff) painted.
Proof.
  intros f f' E g ? <- g' ? <-. by split; intros Hp; (eapply painted_ext; [exact Hp|]); intros.
Qed.

Lemma painted_nothing f g :
  (forall px py, on_screen g px py -> f px py = None) -> painted f g g.
Proof. intros Hf. eapply painted_ext; [apply painted_refl|]. intros. by rewrite Hf. Qed.

Lemma indexed_painted f g g' : indexed g -> painted f g g' -> indexed g'.
Proof.
  intros (H1 & H2 & H3 & H4 & H5 & H6 & H7 & H8) (b & -> & Hl & _).
  unfold indexed. cbn. by rewrite Hl.
Qed.

Lemma painted_screen f g g' px py :
  painted f g g' -> on_screen g' px py <-> on_screen g px py.
Proof. by intros (b & -> & _). Qed.

(** Two ways to paint the same picture give the same state. *)
Lemma painted_det f g g1 g2 :
  indexed g -> painted f g g1 -> painted f g g2 -> g1 = g2.
Proof.
  intros (_ & _ & Hx & Hy & _ & _ & Hlen & _) (b1 & -> & Hl1 & H1) (b2 & -> & Hl2 & H2).
  f_equal. apply list_eq. intros i.
  destruct (decide (i < length (backbuffer g))%nat) as [Hi|Hi].
  - set (px := Z.of_nat i mod x_res g). set (py := Z.of_nat i / x_res g).
    assert (on_screen g px py) as Hs.
    { split; [apply Z.mod_pos_bound; lia|]. split; [apply Z.div_pos; lia|].
      apply Z.div_lt_upper_bound; [lia|]. rewrite Hlen in Hi. lia. }
    specialize (H1 px py Hs). specialize (H2 px py Hs). unfold pixel in H1, H2.
    cbn in H1, H2.
    assert (Z.to_nat (py * x_res g + px) = i) as E.
    { subst px py. pose proof (Z.div_mod (Z.of_nat i) (x_res g) ltac:(lia)). lia. }
    rewrite E in H1, H2. by rewrite H1, H2.
  - rewrite !lookup_ge_None_2; [done|lia|lia].
Qed.

(** Writing a run of bytes inside one row of the screen. *)
Lemma write_row_painted g start y bs :
  indexed g -> 0 <= y < y_res g -> 0 <= start ->
  start + Z.of_nat (length bs) <= x_res g ->
  wp (memcpy_to_backbuffer (y * x_res g + start) bs)
     (fun _ g' => painted (row_picture (VEC2 start y) bs (Z.of_nat (length bs))) g g') g.
Proof.
  intros (_ & _ & Hx & Hyr & Hmax & _ & Hlen & _) Hy Hs Hn.
  assert (y * x_res g + x_res g <= x_res g * y_res g) as Hrow by nia.
  unfold memcpy_to_backbuffer. wp_step. wp_step. wp_step.
  destruct (block_write (backbuffer g) (y * x_res g + start) bs) as [b|] eqn:E.
  2:{ exfalso. rewrite block_write_ok in E; [done|nia|rewrite Hlen; lia]. }
  eapply wp_lift_res; [done|]. wp_step.
  exists b. split; [done|]. split; [by eapply block_write_length|].
  intros px py [Hpx Hpy]. unfold pixel, row_picture. cbn.
  rewrite (block_write_lookup _ _ _ _ _ E). rewrite Z2Nat.id by nia.
  destruct (decide (py = y)) as [-> |Hne].
  - destruct (decide (start <= px < start + Z.of_nat (length bs))).
    + rewrite !decide_True by lia.
      replace (Z.to_nat (y * x_res g + px) - Z.to_nat (y * x_res g + start))%nat
        with (Z.to_nat (px - start)) by nia.
      destruct (lookup_lt_is_Some_2 bs (Z.to_nat (px - start)) ltac:(lia)) as [c ->].
      done.
    + by rewrite !decide_False by lia.
  - rewrite !decide_False; [done|tauto|]. destruct (Z.lt_total py y) as [?|[?|?]]; nia.
Qed.

(** The part of a row from [x0] to [x1]. *)
Lemma row_clipped pos bytes n x0 x1 px py :
  vx pos <= x0 <= x1 -> x1 <= vx pos + n -> (vx pos <= px < vx pos + n -> x0 <= px < x1) ->
  row_picture (VEC2 x0 (vy pos)) (take (Z.to_nat (x1 - x0)) (drop (Z.to_nat (x0 - vx pos)) bytes))
    (x1 - x0) px py
  = row_picture pos bytes n px py.
Proof.
  intros H1 H2 H3. unfold row_picture. cbn.
  destruct (decide (py = vy pos)) as [-> |]; [|by rewrite !decide_False by tauto].
  destruct (decide (x0 <= px < x1)).
  - rewrite !decide_True by lia. rewrite lookup_take_lt, lookup_drop by lia. f_equal. lia.
  - by rewrite !decide_False by lia.
Qed.

Lemma gpu_draw_line_painted g pos bytes n :
  indexed g -> 0 <= n <= Z.of_nat (length bytes) ->
  INT_MIN <= vx pos -> vx pos + n <= INT_MAX ->
  wp (gpu_draw_line pos bytes n)
     (fun r g' => r = 0 /\ painted (row_picture pos bytes n) g g') g.
Proof.
  intros Hg Hn Hmin Hmax. pose proof Hg as (Hb & _ & Hx & Hyr & Harea & _ & Hlen & _).
  assert (forall px py, on_screen g px py ->
    vx pos + n < 0 \/ x_res g < vx pos \/ vy pos < 0 \/ y_res g <= vy pos ->
    row_picture pos bytes n px py = None) as Hout.
  { intros px py [? ?] Hc. unfold row_picture. apply decide_False. lia. }
  unfold INT_MIN, INT_MAX in *. unfold gpu_draw_line. wp_step. wp_step.
  destruct (Z.ltb_spec (x_res g) (vx pos)).
  { wp_step. split; [done|]. apply painted_nothing. auto. }
  int_step.
  destruct (Z.ltb_spec (vx pos + n) 0).
  { wp_step. split; [done|]. apply painted_nothing. auto. }
  destruct (Z.ltb_spec (vy pos) 0), (Z.leb_spec (y_res g) (vy pos));
    cbn [orb]; try (wp_step; split; [done|]; apply painted_nothing; auto; fail).
  set (start := Z.max (vx pos) 0). set (fin := Z.min (x_res g) (vx pos + n)).
  assert (0 <= start <= fin /\ fin <= x_res g) as Hsf by lia.
  assert (0 <= vy pos * x_res g /\ vy pos * x_res g + x_res g <= x_res g * y_res g)
    as Hrow by nia.
  rewrite Hb. int_step.
  replace (Z.min (x_res g - 1) (vx pos + n - 1)) with (fin - 1) by lia.
  do 6 int_step.
  replace ((fin - 1 - start + 1) * 1) with (fin - start) by lia.
  rewrite Z.mul_1_r.
  set (skip := if vx pos <? 0 then - vx pos else 0).
  assert (skip = start - vx pos) as Hskip
    by (subst skip; destruct (Z.ltb_spec (vx pos) 0); lia).
  wp_step. eapply wp_lift_res; [apply block_read_ok; lia|].
  set (bs := take (Z.to_nat (fin - start)) (drop (Z.to_nat skip) bytes)).
  assert (Z.of_nat (length bs) = fin - start) as Hbs.
  { subst bs. rewrite length_take, length_drop. lia. }
  wp_step. eapply wp_mono; [apply write_row_painted; [done|lia|lia|lia]|].
  intros [] g' Hp. wp_step. split; [done|].
  eapply painted_ext; [exact Hp|]. intros px py [Hpx Hpy]. rewrite Hbs.
  subst bs. rewrite Hskip. apply row_clipped; lia.
Qed.

(** Painting row by row: the picture up to row [k] of a box. *)
Definition above (f : picture) (k : Z) : picture :=
  fun px py => if decide (py < k) then f px py else None.

(** The pixels of a box before [(x, y)] in reading order. *)
Definition before (f : picture) (x y : Z) : picture :=
  fun px py => if decide (py < y \/ py = y /\ px < x) then f px py else None.

Lemma gpu_draw_rect_painted g pos size color :
  indexed g -> 0 < vx size -> 0 <= vy size ->
  INT_MIN <= vx pos -> vx pos + vx size <= INT_MAX ->
  INT_MIN <= vy pos -> vy pos + vy size <= INT_MAX ->
  wp (gpu_draw_rect pos size color)
     (fun r g' => r = 0 /\ painted (rect_picture pos size color) g g') g.
Proof.
  intros Hg Hw Hh Hx1 Hx2 Hy1 Hy2. unfold gpu_draw_rect.
  wp_step. wp_step. rewrite (proj1 (proj2 Hg)). cbn [Z.eqb INDEX_MODE].
  int_step. wp_step.
  apply wp_for_up with (Inv := fun y g' =>
    painted (above (rect_picture pos size color) y) g g').
  - apply painted_nothing. intros px py _. unfold above, rect_picture.
    repeat case_decide; (done || lia).
  - intros y g1 Hy Hp. destruct (Z.leb_spec (vx size) 0); [lia|].
    wp_step. eapply wp_mono.
    + apply gpu_draw_line_painted; cbn; rewrite ?length_replicate;
        [by eapply indexed_painted|lia..].
    + intros r g2 [-> Hp2]. wp_step.
      eapply painted_ext; [by eapply painted_trans|]. intros px py _.
      unfold over, above, row_picture, rect_picture. cbn.
      repeat case_decide; try lia; rewrite ?lookup_replicate_2 by lia; done.
  - intros g1 Hp. wp_step. split; [done|]. eapply painted_ext; [exact Hp|].
    intros px py _. unfold above, rect_picture. repeat case_decide; (done || lia).
Qed.

(** The index arithmetic of a frame stays in the image. *)
Lemma frame_index xpm offset size x y :
  frame_ok xpm offset size -> 0 <= x < vx size -> 0 <= y < vy size ->
  0 <= (y + vy offset) * img_width xpm + (x + vx offset)
     < Z.of_nat (length (img_bytes xpm)) /\
  0 <= (y + vy offset) * img_width xpm.
Proof.
  intros (H1 & H2 & H3 & H4 & H5 & H6 & _ & _ & H7 & H8 & _) Hx Hy. rewrite H8.
  assert ((y + vy offset) * img_width xpm <= (img_height xpm - 1) * img_width xpm)
    by (apply Z.mul_le_mono_nonneg_r; lia). nia.
Qed.

Lemma frame_byte xpm offset size x y :
  frame_ok xpm offset size -> 0 <= x < vx size -> 0 <= y < vy size ->
  exists b, img_byte xpm (x + vx offset) (y + vy offset) = Some b /\ 0 <= b < 256.
Proof.
  intros Hf Hx Hy. destruct (frame_index _ _ _ _ _ Hf Hx Hy) as [Hi _].
  destruct (lookup_lt_is_Some_2 (img_bytes xpm)
    (Z.to_nat ((y + vy offset) * img_width xpm + (x + vx offset))) ltac:(lia)) as [b Hb].
  exists b. split; [exact Hb|]. destruct Hf as (_ & _ & _ & _ & _ & _ & _ & _ & _ & _ & HF).
  by eapply Forall_lookup_1 in HF.
Qed.

(** Row [y] of a frame over the rows before it. *)
Lemma above_next xpm pos offset size y px py :
  frame_ok xpm offset size -> 0 <= y < vy size ->
  over (row_picture (VEC2 (vx pos) (vy pos + y))
          (take (Z.to_nat (vx size))
             (drop (Z.to_nat ((y + vy offset) * img_width xpm + vx offset)) (img_bytes xpm)))
          (vx size))
    (above (frame_picture true xpm pos offset size) (vy pos + y)) px py
  = above (frame_picture true xpm pos offset size) (vy pos + y + 1) px py.
Proof.
  intros Hf Hy. pose proof Hf as (F1 & F2 & F3 & F4 & _).
  unfold over, above, row_picture, frame_picture. cbn.
  destruct (decide (py = vy pos + y /\ vx pos <= px < vx pos + vx size)) as [[-> ?]|].
  - destruct (frame_byte xpm offset size (px - vx pos) y Hf) as (b & Eb & _); [lia..|].
    replace (vy pos + y - vy pos) with y by lia. rewrite Eb.
    repeat case_decide; try lia. cbn. unfold img_byte in Eb.
    rewrite lookup_take_lt, lookup_drop by lia.
    match goal with |- match ?l !! ?i with _ => _ end = _ =>
      replace (l !! i) with (Some b); [done|] end.
    rewrite <- Eb. f_equal. destruct (frame_index xpm offset size 0 y Hf) as [? ?];
      [lia..|]. rewrite <- Z2Nat.inj_add by lia. f_equal. lia.
  - repeat case_decide; (done || lia).
Qed.

Section Blit.
Context {W : Type} `{Machine W}.

(** [gpu_draw_xpm] when its [malloc] succeeds. *)
Lemma gpu_draw_xpm_painted g (s : iost W) xpm pos offset size :
  indexed g -> frame_ok xpm offset size -> coord_ok pos size ->
  (dev_malloc (io_world s)).1 = true ->
  wp (gpu_draw_xpm xpm pos offset size) (fun r st => r = 0 /\
        painted (frame_picture true xpm pos offset size) g st.1 /\
        io_trace st.2 = io_trace s) (g, s).
Proof.
  intros Hg Hf (Hx1 & Hx2 & Hy1 & Hy2) Hm.
  pose proof Hf as (F1 & F2 & F3 & F4 & F5 & F6 & F7 & F8 & F9 & F10 & _).
  pose proof Hg as (Hb & _). 
  unfold gpu_draw_xpm, statics. wp_step. wp_step. cbn [fst]. rewrite Hb.
  int_step.
  wp_step. apply wp_zoom. unfold wp at 1, malloc_ok, oracle. cbn [snd].
  destruct (dev_malloc (io_world s)) as [ok w]. cbn in Hm. subst ok. cbn [fst].
  int_step. wp_step.
  apply wp_for_up with (Inv := fun y st =>
    painted (above (frame_picture true xpm pos offset size) (vy pos + y - vy offset))
      g st.1 /\ io_trace st.2 = io_trace s).
  - split; [|done]. apply painted_nothing. intros px py _. unfold above, frame_picture.
    repeat case_decide; (done || lia).
  - intros y [g1 s1] Hy [Hp Ht]. cbn [fst snd] in *.
    assert (exists y', y = y' + vy offset /\ 0 <= y' < vy size) as (y' & -> & Hy')
      by (exists (y - vy offset); lia).
    do 4 int_step.
    rewrite !Z.mul_1_r. wp_step. eapply wp_lift_res; [apply block_read_ok; nia|].
    cbn [negb]. int_step.
    int_step.
    wp_step. unfold on_statics. apply wp_zoom. cbn [fst].
    eapply wp_mono; [apply gpu_draw_line_painted; cbn; unfold INT_MIN, INT_MAX|].
    { by eapply indexed_painted. }
    { rewrite length_take, length_drop. nia. }
    1,2: lia.
    intros r g2 [_ Hp2]. wp_step. cbn [fst snd]. split; [|done].
    eapply painted_ext; [by eapply painted_trans|]. intros px py _.
    replace (vy pos + (y' + vy offset + 1) - vy offset) with (vy pos + y' + 1) by lia.
    replace (vy pos + (y' + vy offset) - vy offset) with (vy pos + y') by lia.
    by apply (above_next xpm pos offset size y').
  - intros [g1 s1] [Hp Ht]. wp_step. split; [done|]. split; [|done].
    eapply painted_ext; [exact Hp|].
    intros px py _. unfold above, frame_picture. repeat case_decide; (done || lia).
Qed.
End Blit.

Lemma gpu_draw_pixel_byte g x y c :
  indexed g -> 0 <= x -> 0 <= y ->
  wp (gpu_draw_pixel x y c)
     (fun r g' => r = 0 /\ painted (row_picture (VEC2 x y) [u8 c] 1) g g') g.
Proof.
  intros Hg Hx Hy. pose proof Hg as (Hb & _ & Hxr & Hyr & Harea & _).
  unfold gpu_draw_pixel. wp_step. wp_step.
  destruct (Z.leb_spec (x_res g) x), (Z.leb_spec (y_res g) y); cbn [orb];
    try (wp_step; split; [done|]; apply painted_nothing; intros px py [? ?];
         unfold row_picture; cbn; apply decide_False; lia).
  destruct (Z.ltb_spec x 0), (Z.ltb_spec y 0); cbn [orb]; try lia.
  unfold INT_MAX in *. rewrite Hb.
  do 3 int_step.
  rewrite Z.mul_1_r, u32_id by nia. cbn [Z.ltb Z.compare Pos.compare Pos.compare_cont].
  change (le_bytes (Z.to_nat 1) c) with [u8 c].
  wp_step. eapply wp_mono; [apply write_row_painted; [done|lia|lia|cbn; lia]|].
  intros [] g' Hp. by wp_step.
Qed.

Lemma gpu_draw_pixel_painted g x y c :
  indexed g -> 0 <= x -> 0 <= y -> 0 <= c < 256 ->
  wp (gpu_draw_pixel x y c)
     (fun r g' => r = 0 /\ painted (row_picture (VEC2 x y) [c] 1) g g') g.
Proof.
  intros Hg Hx Hy Hc. pose proof (gpu_draw_pixel_byte g x y c Hg Hx Hy) as Hp.
  by rewrite u8_id in Hp.
Qed.

(** A signed coordinate that goes through [uint16_t] and misses the screen
    does so as an unsigned one too. *)
Lemma gpu_draw_pixel_signed g x y c :
  indexed g -> -32768 <= x < 32768 -> -32768 <= y < 32768 -> 0 <= c < 256 ->
  wp (gpu_draw_pixel (u16 x) (u16 y) c)
     (fun r g' => r = 0 /\ painted (row_picture (VEC2 x y) [c] 1) g g') g.
Proof.
  intros Hg Hx Hy Hc. pose proof (u16_range x). pose proof (u16_range y).
  eapply wp_mono; [apply gpu_draw_pixel_painted; (done || lia)|].
  intros r g' [-> Hp]. split; [done|]. eapply painted_ext; [exact Hp|].
  intros px py [? ?]. destruct Hg as (_ & _ & ? & ? & _).
  assert (forall z, -32768 <= z < 32768 -> u16 z = if decide (0 <= z) then z else z + 65536)
    as E.
  { intros z Hz. unfold u16. case_decide; [apply Z.mod_small; lia|].
    rewrite <- (Z.mod_add z 1) by lia. rewrite Z.mod_small; lia. }
  unfold row_picture. cbn. rewrite !E by done. repeat case_decide; try (done || lia).
Qed.

(** The loop's picture one pixel further in reading order. *)
Lemma before_next xpm pos offset size x y px py b :
  0 <= x < vx size -> 0 <= y < vy size ->
  img_byte xpm (x + vx offset) (y + vy offset) = Some b ->
  before (frame_picture false xpm pos offset size) (vx pos + x + 1) (vy pos + y) px py
  = over (if b =? 99 then blank else row_picture (VEC2 (vx pos + x) (vy pos + y)) [b] 1)
      (before (frame_picture false xpm pos offset size) (vx pos + x) (vy pos + y)) px py.
Proof.
  intros Hx Hy Hb. unfold over, before.
  destruct (decide (px = vx pos + x /\ py = vy pos + y)) as [[-> ->]|Hne].
  - rewrite decide_True by lia. rewrite (decide_False (P := _ \/ _)) by lia.
    unfold frame_picture. rewrite decide_True by lia.
    replace (vx pos + x - vx pos) with x by lia.
    replace (vy pos + y - vy pos) with y by lia. rewrite Hb. cbn [mbind option_bind negb andb].
    destruct (b =? 99); [done|]. unfold row_picture. cbn. rewrite decide_True by lia.
    by replace (vx pos + x - (vx pos + x)) with 0 by lia.
  - assert ((if b =? 99 then blank
             else row_picture (VEC2 (vx pos + x) (vy pos + y)) [b] 1) px py = None) as ->.
    { destruct (b =? 99); [done|]. apply decide_False. cbn. lia. }
    repeat case_decide; (done || lia).
Qed.

Lemma before_row xpm pos offset size y px py :
  before (frame_picture false xpm pos offset size) (vx pos + vx size) y px py
  = before (frame_picture false xpm pos offset size) (vx pos) (y + 1) px py.
Proof. unfold before, frame_picture. repeat case_decide; (done || lia). Qed.

Lemma gpu_draw_transparent_xpm_painted g xpm pos offset size :
  indexed g -> frame_ok xpm offset size -> coord_ok pos size ->
  wp (gpu_draw_transparent_xpm xpm pos offset size) (fun r g' => r = 0 /\
        painted (frame_picture false xpm pos offset size) g g') g.
Proof.
  intros Hg Hf (Hx1 & Hx2 & Hy1 & Hy2).
  pose proof Hf as (F1 & F2 & F3 & F4 & F5 & F6 & F7 & F8 & F9 & F10 & _).
  set (pic := frame_picture false xpm pos offset size).
  unfold gpu_draw_transparent_xpm. wp_step.
  apply wp_for_up with (Inv := fun y g' =>
    painted (before pic (vx pos) (vy pos + y)) g g').
  - apply painted_nothing. intros px py _. unfold before, pic, frame_picture.
    repeat case_decide; (done || lia).
  - intros y g1 Hy Hp1.
    apply wp_for_up with (Inv := fun x g' =>
      painted (before pic (vx pos + x) (vy pos + y)) g g').
    + by rewrite Z.add_0_r.
    + intros x g2 Hx Hp2.
      destruct (frame_byte xpm offset size x y Hf) as (b & Eb & Hb); [lia..|].
      destruct (frame_index xpm offset size x y Hf) as [Hi1 Hi2]; [lia..|].
      unfold INT_MAX in *.
      do 4 int_step.
      wp_step. eapply wp_lift_res; [apply array_get_ok; [lia|exact Eb]|].
      replace (vx pos + (x + 1)) with (vx pos + x + 1) by lia.
      pose proof (before_next xpm pos offset size x y) as Hnext. fold pic in Hnext.
      destruct (Z.eqb_spec b 99) as [E99|E99].
      * wp_step. eapply painted_ext; [eapply painted_trans; [exact Hp2|apply painted_refl]|].
        intros px py _. rewrite (Hnext px py b) by (done || lia). by rewrite E99.
      * int_step.
        int_step.
        wp_step. eapply wp_mono; [apply gpu_draw_pixel_signed; [|lia..]|].
        { by eapply indexed_painted. }
        intros r g3 [_ Hp3]. wp_step.
        eapply painted_ext; [eapply painted_trans; [exact Hp2|exact Hp3]|].
        intros px py _. rewrite (Hnext px py b) by (done || lia).
        by rewrite (proj2 (Z.eqb_neq b 99)).
    + intros g2 Hp2. eapply painted_ext; [exact Hp2|]. intros px py _.
      replace (0 + Z.of_nat (Z.to_nat (vx size))) with (vx size) by lia.
      rewrite (before_row xpm pos offset size). fold pic. f_equal. lia.
  - intros g1 Hp. wp_step. split; [done|]. eapply painted_ext; [exact Hp|].
    intros px py _. unfold before, pic, frame_picture.
    repeat case_decide; (done || lia).
Qed.

(** The mapping the kernel promises: as many bytes as were asked for. *)
Class VideoLaws (W : Type) `{Video W} : Prop := {
  video_map_length base len w m w' :
    video_map base len w = (Some m, w') -> length m = Z.to_nat len;
}.

Section Init.
Context {W : Type} `{Machine W}.

Lemma indeterminate_bytes_length n (s : iost W) :
  wp (indeterminate_bytes n) (fun bs s' => length bs = n /\ io_trace s' = io_trace s) s.
Proof.
  revert s. induction n as [|n IH]; intros s; cbn; [by apply wp_ret|].
  apply wp_bind. unfold wp at 1, indeterminate, oracle.
  destruct (dev_indeterminate (io_world s)) as [b w].
  wp_step. eapply wp_mono; [apply IH|]. intros bs s' [Hbs Ht]. wp_step.
  cbn [length]. split; [by f_equal|exact Ht].
Qed.

Lemma wpe_oracle {A} (step : W -> A * W) E (Q : A -> iost W -> Prop) s :
  (forall a w, step (io_world s) = (a, w) -> Q a (mkIo w (io_trace s))) ->
  wpe (oracle step) E Q s.
Proof. unfold wpe, oracle. destruct (step _) as [a w] eqn:E1. auto. Qed.

Lemma wpe_lib_call name args E (Q : Z -> iost W -> Prop) (s : iost W) :
  (forall r s', io_trace s' = io_trace s ++ [EvCall name args r] -> Q r s') ->
  wpe (lib_call name args) E Q s.
Proof. unfold wpe, lib_call, emit. destruct (dev_call _ _ _). auto. Qed.

(** A mode of at most 8 bits per pixel that is not direct colour. *)
Definition indexed_mode (vmi : vbe_mode_info) : Prop :=
  0 < XResolution vmi <= 32768 /\ 0 < YResolution vmi <= 32768 /\
  XResolution vmi * YResolution vmi <= INT_MAX /\
  0 < BitsPerPixel vmi <= 8 /\ MemoryModel vmi <> 6.

(** The three ways [gpu_init_mem_indexation] ends: an error of the BIOS call,
    an initialised card, or a panic. *)
Lemma gpu_init_outcomes `{Video W, !VideoLaws W} mode g (s : iost W) :
  (forall r vmi w, video_mode_info mode (io_world s) = ((r, vmi), w) ->
     indexed_mode vmi) ->
  wpe (gpu_init_mem_indexation mode) (fun f => f = Panic)
    (fun r st => (r = 1 /\ st.1 = g) \/ (r = 0 /\ indexed st.1 /\
       io_trace s `prefix_of` io_trace st.2 /\
       exists q vmi w, video_mode_info mode (io_world s) = ((q, vmi), w) /\
         x_res st.1 = XResolution vmi /\ y_res st.1 = YResolution vmi)) (g, s).
Proof.
  intros Hmode. unfold gpu_init_mem_indexation, on_io, set_statics.
  do 2 wp_step. apply wpe_oracle. intros [r vmi] w1 E1.
  destruct (Hmode _ _ _ E1) as (Hx & Hy & Ha & Hb & Hm). cbn beta iota.
  destruct (tst r); [wp_step; auto|].
  assert ((BitsPerPixel vmi + 7) / 8 = 1) as ->.
  { symmetry. apply (Z.div_unique _ 8 _ (BitsPerPixel vmi - 1)); lia. }
  change (u8 1) with 1. unfold INT_MAX in *. do 2 wp_step.
  assert (0 < XResolution vmi * YResolution vmi) by (apply Z.mul_pos_pos; lia).
  wp_step. apply wpe_wp, wp_int; [unfold INT_MIN, INT_MAX; lia|].
  wp_step. apply wpe_wp, wp_int; [unfold INT_MIN, INT_MAX; lia|].
  rewrite !Z.mul_1_r, !(u32_id (XResolution vmi * _)) by lia.
  do 2 wp_step. do 2 wp_step. apply wpe_lib_call. intros r2 s2 T2. cbn beta iota.
  destruct (tst r2); [by wp_step|].
  do 2 wp_step. apply wpe_oracle. intros [m|] w3 E3; cbn beta iota; [|by wp_step].
  do 2 wp_step. do 2 wp_step. apply wpe_oracle. intros ok w4 _. cbn beta iota.
  destruct ok; cbn [negb]; [|by wp_step].
  do 2 wp_step. apply wpe_wp. eapply wp_mono; [apply indeterminate_bytes_length|].
  intros bs s5 [Hbs T5]. cbn beta iota. do 2 wp_step. wp_step. right. split; [done|].
  split; [|split; [|by exists r, vmi, w1]].
  2:{ cbn [fst snd io_trace] in *. rewrite T5, T2. by eexists. }
  apply video_map_length in E3. unfold indexed. cbn. unfold INT_MAX.
  destruct (Z.eqb_spec (MemoryModel vmi) 6); [done|].
  repeat split; (done || lia).
Qed.
End Init.

(** ** Presenting a frame *)

Lemma gpu_buffer_clear_painted g :
  indexed g ->
  wp gpu_buffer_clear (fun _ g' => painted (fun _ _ => Some 0) g g') g.
Proof.
  intros (_ & _ & Hx & Hy & _ & Hv & Hlen & _). unfold gpu_buffer_clear.
  wp_step. wp_step. wp_step. rewrite Hv.
  destruct (block_write (backbuffer g) 0 (replicate (Z.to_nat (x_res g * y_res g)) 0))
    as [b|] eqn:E.
  2:{ rewrite block_write_ok in E; [done|lia|rewrite length_replicate; lia]. }
  eapply wp_lift_res; [done|]. wp_step. exists b. split; [done|].
  split; [by eapply block_write_length|]. intros px py [? ?]. unfold pixel. cbn.
  rewrite (block_write_lookup _ _ _ _ _ E), length_replicate.
  assert (py * x_res g + px < x_res g * y_res g) by nia.
  rewrite decide_True by nia. rewrite lookup_replicate_2; [done|]. nia.
Qed.

Lemma gpu_buffer_commit_copies g :
  indexed g ->
  wp gpu_buffer_commit (fun _ g' => g' = set_video_mem (backbuffer g) g) g.
Proof.
  intros (_ & _ & Hx & Hy & _ & Hv & Hlen & Hlen2). unfold gpu_buffer_commit.
  assert (0 <= x_res g * y_res g) by (apply Z.mul_nonneg_nonneg; lia).
  wp_step. wp_step. rewrite Hv. wp_step.
  eapply wp_lift_res; [apply block_read_ok; lia|]. wp_step.
  eapply wp_lift_res; [apply block_write_ok|]; rewrite ?length_take, ?length_drop; try lia.
  wp_step. f_equal. change (Z.to_nat 0) with 0%nat.
  rewrite take_0, drop_0, take_ge by lia. rewrite drop_ge by lia.
  by rewrite app_nil_r.
Qed.

(** ** The driver's contract *)

(** [gpu_draw_line] on an initialised card never writes outside the back
    buffer or reads outside its bytes, whatever its position: it answers 0 and
    a pixel of the screen takes its byte exactly when the line covers it. *)
Theorem gpu_draw_line_clips g pos bytes n :
  indexed g -> 0 <= n <= Z.of_nat (length bytes) ->
  INT_MIN <= vx pos -> vx pos + n <= INT_MAX ->
  exists g', gpu_draw_line pos bytes n g = Ok (0, g') /\ indexed g' /\
    video_mem g' = video_mem g /\
    forall px py, on_screen g px py ->
      pixel g' px py =
        if decide (py = vy pos /\ vx pos <= px < vx pos + n)
        then bytes !! Z.to_nat (px - vx pos) else pixel g px py.
Proof.
  intros Hg Hn H1 H2.
  destruct (wp_run _ _ _ (gpu_draw_line_painted g pos bytes n Hg Hn H1 H2))
    as (r & g' & E & -> & Hp).
  exists g'. split; [done|]. split; [by eapply indexed_painted|].
  destruct Hp as (b & -> & Hl & Hp). split; [done|]. intros px py Hs. rewrite Hp by done.
  unfold row_picture. case_decide; [|done].
  destruct (lookup_lt_is_Some_2 bytes (Z.to_nat (px - vx pos)) ltac:(lia)) as [c ->].
  done.
Qed.

Lemma gpu_draw_line_clips_witness :
  exists g', gpu_draw_line (VEC2 (-1) 1) [7; 8; 9] 3
    (mkGpu 4 2 8 1 (0, 0) (0, 0) (0, 0) INDEX_MODE (0, 0) 8
       (replicate 8 0) (replicate 8 5)) = Ok (0, g') /\
    pixel g' 0 1 = Some 8 /\ pixel g' 1 1 = Some 9 /\ pixel g' 2 1 = Some 5.
Proof.
  destruct (gpu_draw_line_clips
    (mkGpu 4 2 8 1 (0, 0) (0, 0) (0, 0) INDEX_MODE (0, 0) 8
       (replicate 8 0) (replicate 8 5)) (VEC2 (-1) 1) [7; 8; 9] 3)
    as (g' & E & _ & _ & Hp).
  - repeat split; cbn; unfold INT_MAX; lia.
  - cbn. lia.
  - unfold INT_MIN. cbn. lia.
  - unfold INT_MAX. cbn. lia.
  - exists g'. split; [exact E|].
    rewrite !Hp by (split; cbn; lia). by repeat split.
Defined.

(** Drawing a frame of an image paints exactly its bytes at the asked
    position, clipped to the screen, and touches nothing else; [malloc]
    failing is the only way it can fault. *)
Theorem gpu_draw_xpm_blits {W} `{Machine W} g (s : iost W) xpm pos offset size :
  indexed g -> frame_ok xpm offset size -> coord_ok pos size ->
  (dev_malloc (io_world s)).1 = true ->
  exists g' s', gpu_draw_xpm xpm pos offset size (g, s) = Ok (0, (g', s')) /\
    indexed g' /\ io_trace s' = io_trace s /\
    forall px py, on_screen g px py ->
      pixel g' px py =
        if decide (vx pos <= px < vx pos + vx size /\ vy pos <= py < vy pos + vy size)
        then img_byte xpm (px - vx pos + vx offset) (py - vy pos + vy offset)
        else pixel g px py.
Proof.
  intros Hg Hf Hc Hm.
  destruct (wp_run _ _ _ (gpu_draw_xpm_painted g s xpm pos offset size Hg Hf Hc Hm))
    as (r & [g' s'] & E & -> & Hp & Ht).
  cbn [fst snd] in Hp, Ht.
  exists g', s'. split; [done|]. split; [by eapply indexed_painted|]. split; [done|].
  destruct Hp as (b & -> & Hl & Hp). intros px py Hs. rewrite Hp by done.
  unfold frame_picture. case_decide; [|done].
  destruct (frame_byte xpm offset size (px - vx pos) (py - vy pos) Hf) as (c & -> & _);
    [lia..|done].
Qed.

(** C31: the transparent draw paints exactly the bytes of the frame that are not
    the colour 99: where the frame has 99, or outside it, the screen keeps its
    pixel, and coordinates left of or above the screen are clipped although
    [gpu_draw_pixel] takes unsigned ones. *)
Theorem gpu_draw_transparent_xpm_blits g xpm pos offset size :
  indexed g -> frame_ok xpm offset size -> coord_ok pos size ->
  exists g', gpu_draw_transparent_xpm xpm pos offset size g = Ok (0, g') /\
    indexed g' /\
    forall px py, on_screen g px py ->
      pixel g' px py =
        if decide ((vx pos <= px < vx pos + vx size /\ vy pos <= py < vy pos + vy size)
                   /\ img_byte xpm (px - vx pos + vx offset) (py - vy pos + vy offset)
                      <> Some 99)
        then img_byte xpm (px - vx pos + vx offset) (py - vy pos + vy offset)
        else pixel g px py.
Proof.
  intros Hg Hf Hc.
  destruct (wp_run _ _ _ (gpu_draw_transparent_xpm_painted g xpm pos offset size Hg Hf Hc))
    as (r & g' & E & -> & Hp).
  exists g'. split; [done|]. split; [by eapply indexed_painted|].
  destruct Hp as (b & -> & Hl & Hp). intros px py Hs. rewrite Hp by done.
  unfold frame_picture. destruct (decide (_ /\ _)) as [Hin|Hin].
  - destruct (frame_byte xpm offset size (px - vx pos) (py - vy pos) Hf) as (c & -> & _);
      [lia..|]. cbn. destruct (Z.eqb_spec c 99) as [->|].
    + by rewrite decide_False by tauto.
    + rewrite decide_True; [done|]. split; [done|]. congruence.
  - by rewrite decide_False by tauto.
Qed.

(** C32: where the frame does not hold the colour 99 the row-by-row draw and the
    pixel-by-pixel draw leave the same card behind. *)
Theorem gpu_draws_agree {W} `{Machine W} g (s : iost W) xpm pos offset size :
  indexed g -> frame_ok xpm offset size -> coord_ok pos size ->
  (dev_malloc (io_world s)).1 = true ->
  (forall sx sy, 0 <= sx < vx size -> 0 <= sy < vy size ->
     img_byte xpm (sx + vx offset) (sy + vy offset) <> Some 99) ->
  exists g' s', gpu_draw_xpm xpm pos offset size (g, s) = Ok (0, (g', s')) /\
    gpu_draw_transparent_xpm xpm pos offset size g = Ok (0, g').
Proof.
  intros Hg Hf Hc Hm Hno.
  destruct (wp_run _ _ _ (gpu_draw_xpm_painted g s xpm pos offset size Hg Hf Hc Hm))
    as (r & [g1 s1] & E1 & -> & Hp1 & _).
  destruct (wp_run _ _ _ (gpu_draw_transparent_xpm_painted g xpm pos offset size Hg Hf Hc))
    as (r & g2 & E2 & -> & Hp2).
  cbn [fst] in Hp1. exists g1, s1. split; [done|]. rewrite E2. repeat f_equal.
  eapply painted_det; [done|exact Hp2|]. eapply painted_ext; [exact Hp1|].
  intros px py _. unfold frame_picture. case_decide; [|done].
  specialize (Hno (px - vx pos) (py - vy pos) ltac:(lia) ltac:(lia)).
  destruct (img_byte _ _ _) as [c|]; [|done]. cbn.
  destruct (Z.eqb_spec c 99) as [->|]; done.
Qed.

(** [gpu_init_mem_indexation] for an indexed mode either answers 1 and leaves
    the card as it was (the mode query failed), or answers 0 with a card whose
    two buffers hold exactly one byte per pixel, or panics; it never goes on
    with a missing buffer. *)
Theorem gpu_init_establishes_indexed {W} `{Machine W, Video W, !VideoLaws W}
  mode g (s : iost W) :
  (forall r vmi w, video_mode_info mode (io_world s) = ((r, vmi), w) ->
     indexed_mode vmi) ->
  match gpu_init_mem_indexation mode (g, s) with
  | Ok (r, (g', _)) => (r = 1 /\ g' = g) \/ (r = 0 /\ indexed g')
  | Fault f => f = Panic
  end.
Proof.
  intros Hmode. pose proof (gpu_init_outcomes mode g s Hmode) as Ho. unfold wpe in Ho.
  destruct (gpu_init_mem_indexation mode (g, s)) as [[r [g' s']]|]; [|done].
  destruct Ho as [?|(? & ? & _)]; auto.
Qed.

(** ** Runs on a card of four pixels by two *)

Definition tiny_gpu : gpu :=
  mkGpu 4 2 8 1 (0, 0) (0, 0) (0, 0) INDEX_MODE (0, 0) 8 (replicate 8 0)
    (replicate 8 5).
Definition tiny_image (mid : Z) : xpm_image := mkImage XPM_INDEXED 3 2 6 [1; mid; 3; 4; 5; 6].

Lemma tiny_indexed : indexed tiny_gpu.
Proof. repeat split; cbn; unfold INT_MAX; lia. Qed.

Lemma tiny_frame mid : 0 <= mid < 256 -> frame_ok (tiny_image mid) (VEC2 1 0) (VEC2 2 2).
Proof. repeat split; cbn; unfold INT_MAX; try lia. repeat constructor; lia. Qed.

Lemma gpu_draw_xpm_blits_witness :
  exists g' s', gpu_draw_xpm (tiny_image 2) (VEC2 3 0) (VEC2 1 0) (VEC2 2 2)
    (tiny_gpu, mkIo (mkScript [] [] [] [true] [] []) []) = Ok (0, (g', s')) /\
    pixel g' 3 0 = Some 2 /\ pixel g' 3 1 = Some 5 /\ pixel g' 2 0 = Some 5.
Proof.
  destruct (gpu_draw_xpm_blits tiny_gpu (mkIo (mkScript [] [] [] [true] [] []) [])
    (tiny_image 2) (VEC2 3 0) (VEC2 1 0) (VEC2 2 2)) as (g' & s' & E & _ & _ & Hp).
  - apply tiny_indexed.
  - apply tiny_frame. lia.
  - repeat split; cbn; lia.
  - reflexivity.
  - exists g', s'. split; [exact E|]. rewrite !Hp by (split; cbn; lia). by repeat split.
Defined.

Lemma gpu_draw_transparent_xpm_blits_witness :
  exists g', gpu_draw_transparent_xpm (tiny_image 99) (VEC2 (-1) 1) (VEC2 1 0) (VEC2 2 2)
    tiny_gpu = Ok (0, g') /\ pixel g' 0 1 = Some 3 /\ pixel g' 1 1 = Some 5.
Proof.
  destruct (gpu_draw_transparent_xpm_blits tiny_gpu (tiny_image 99) (VEC2 (-1) 1)
    (VEC2 1 0) (VEC2 2 2)) as (g' & E & _ & Hp).
  - apply tiny_indexed.
  - apply tiny_frame. lia.
  - repeat split; cbn; lia.
  - exists g'. split; [exact E|]. rewrite !Hp by (split; cbn; lia). by repeat split.
Defined.

Lemma gpu_draws_agree_witness :
  exists g' s', gpu_draw_xpm (tiny_image 2) (VEC2 0 0) (VEC2 1 0) (VEC2 2 2)
      (tiny_gpu, mkIo (mkScript [] [] [] [true] [] []) []) = Ok (0, (g', s')) /\
    gpu_draw_transparent_xpm (tiny_image 2) (VEC2 0 0) (VEC2 1 0) (VEC2 2 2) tiny_gpu
      = Ok (0, g').
Proof.
  apply (gpu_draws_agree tiny_gpu).
  - apply tiny_indexed.
  - apply tiny_frame. lia.
  - repeat split; cbn; lia.
  - reflexivity.
  - intros sx sy Hx Hy. cbn in Hx, Hy.
    assert (sx = 0 \/ sx = 1) as [-> | ->] by lia;
      assert (sy = 0 \/ sy = 1) as [-> | ->] by lia; by compute.
Defined.

(** Video memory of any length that is asked for. *)
#[export] Instance tiny_video : Video script := {
  video_mode_info _ w := ((0, mkVbe 4 2 8 4 0 0 0 0 0 0 4096), w);
  video_map _ n w := (Some (replicate (Z.to_nat n) 0), w);
}.

#[export] Instance tiny_video_laws : VideoLaws script.
Proof. constructor. intros ? ? ? ? ? [= <- <-]. apply length_replicate. Qed.

Lemma gpu_init_establishes_indexed_witness :
  exists g' s', gpu_init_mem_indexation 0x105
    (gpu_zero, mkIo (mkScript [] [] [] [true] [] [0]) []) = Ok (0, (g', s')) /\ indexed g'.
Proof.
  pose proof (gpu_init_establishes_indexed 0x105 gpu_zero
    (mkIo (mkScript [] [] [] [true] [] [0]) [])) as Ho.
  destruct (gpu_init_mem_indexation 0x105
    (gpu_zero, mkIo (mkScript [] [] [] [true] [] [0]) [])) as [[r [g' s']]|f] eqn:E.
  - assert (r = 0) as -> by (vm_compute in E; congruence).
    exists g', s'. split; [done|]. destruct Ho as [[? ?]|[_ Hi]]; [|done|exact Hi].
    intros r vmi w [= <- <- <-]. repeat split; cbn; unfold INT_MAX; lia.
  - vm_compute in E. discriminate.
Defined.
