(* ===== verification/Heap.v ===== *)
(** * The C heap, one typed store per kind of object

    A pointer is its address, [NULL] is 0, and an address that was freed or
    never allocated faults when it is followed.  The program compares only
    pointers to objects of one kind, so each kind has its own store; addresses
    are never reused, which [free] allows and no code here observes. *)

From S2P Require Import Prelude Machine.

Definition NULL : Z := 0.

Record store (A : Type) : Type := mkStore {
  cells : gmap Z A;
  brk : Z;
}.
Arguments mkStore {A} _ _.
Arguments cells {A} _.
Arguments brk {A} _.

Definition store_empty {A} : store A := mkStore ∅ 1.

(** Every live address is a non-null one below the break. *)
Definition store_ok {A} (h : store A) : Prop :=
  0 < brk h /\ forall p a, cells h !! p = Some a -> 0 < p < brk h.

Definition load {A} (p : Z) : M (store A) A :=
  h ← get;
  if p =? NULL then fail NullDeref else
  match cells h !! p with Some a => mret a | None => fail BadPointer end.

Definition assign {A} (p : Z) (a : A) : M (store A) unit :=
  _ ← load p;
  modify (fun h => mkStore (<[p := a]> (cells h)) (brk h)).

(** [free(NULL)] does nothing. *)
Definition free {A} (p : Z) : M (store A) unit :=
  if p =? NULL then mret tt else
  _ ← load p;
  modify (fun h => mkStore (delete p (cells h)) (brk h)).

Definition fresh {A} (a : A) : M (store A) Z :=
  h ← get;
  put (mkStore (<[brk h := a]> (cells h)) (brk h + 1)) ;;
  mret (brk h).

(** [malloc]; the contents are what the caller goes on to write. *)
Definition alloc {W A} `{Machine W} (a : A) : drv W (store A) Z :=
  ok ← on_io malloc_ok;
  if negb ok then mret NULL
  else on_statics (fresh a).

Section Store.
Context {A : Type}.
Implicit Types (h : store A) (p : Z) (a : A).

Lemma wp_load p a (Q : A -> store A -> Prop) h :
  p <> NULL -> cells h !! p = Some a -> Q a h -> wp (load p) Q h.
Proof.
  intros Hp Ha HQ. unfold load. wp_step. wp_step.
  rewrite (proj2 (Z.eqb_neq p NULL) Hp), Ha. by wp_step.
Qed.

Lemma wp_assign p a b (Q : unit -> store A -> Prop) h :
  p <> NULL -> cells h !! p = Some a ->
  Q tt (mkStore (<[p := b]> (cells h)) (brk h)) -> wp (assign p b) Q h.
Proof.
  intros Hp Ha HQ. unfold assign. wp_step. eapply wp_load; [done..|]. by wp_step.
Qed.

Lemma wp_free p a (Q : unit -> store A -> Prop) h :
  p <> NULL -> cells h !! p = Some a ->
  Q tt (mkStore (delete p (cells h)) (brk h)) -> wp (free p) Q h.
Proof.
  intros Hp Ha HQ. unfold free. rewrite (proj2 (Z.eqb_neq p NULL) Hp).
  wp_step. eapply wp_load; [done..|]. by wp_step.
Qed.

Lemma store_ok_empty : store_ok (store_empty (A := A)).
Proof. split; [cbn; lia|]. intros p a Hp. cbn in Hp. by rewrite lookup_empty in Hp. Qed.

Lemma store_ok_insert h p a b :
  store_ok h -> cells h !! p = Some a ->
  store_ok (mkStore (<[p := b]> (cells h)) (brk h)).
Proof.
  intros [Hb Hc] Hp. split; [done|]. intros q c. cbn.
  rewrite lookup_insert. case_decide; [subst; intros _; eauto|eauto].
Qed.

Lemma store_ok_delete h p : store_ok h -> store_ok (mkStore (delete p (cells h)) (brk h)).
Proof.
  intros [Hb Hc]. split; [done|]. intros q c. cbn.
  rewrite lookup_delete_Some. intros [_ ?]. eauto.
Qed.

Lemma store_ok_fresh h a :
  store_ok h -> store_ok (mkStore (<[brk h := a]> (cells h)) (brk h + 1)).
Proof.
  intros [Hb Hc]. split; cbn; [lia|]. intros q c. rewrite lookup_insert.
  case_decide; [lia|]. intros ?%Hc. lia.
Qed.

Lemma fresh_not_live h : store_ok h -> cells h !! brk h = None.
Proof.
  intros [Hb Hc]. destruct (cells h !! brk h) eqn:E; [|done]. apply Hc in E. lia.
Qed.

(** An allocation either answers [NULL] and changes nothing, or a new address. *)
Lemma wp_alloc {W} `{Machine W} a (Q : Z -> store A * iost W -> Prop) h (s : iost W) :
  (forall s', (dev_malloc (io_world s)).1 = false -> io_trace s' = io_trace s ->
     Q NULL (h, s')) ->
  (forall s', (dev_malloc (io_world s)).1 = true -> io_trace s' = io_trace s ->
     Q (brk h) (mkStore (<[brk h := a]> (cells h)) (brk h + 1), s')) ->
  wp (alloc a) Q (h, s).
Proof.
  intros Hno Hyes. unfold alloc, on_io, on_statics. do 2 wp_step.
  unfold wp at 1, malloc_ok, oracle. cbn [snd].
  destruct (dev_malloc (io_world s)) as [[] w]; cbn [negb fst snd] in *.
  - wp_step. unfold fresh. do 3 wp_step. wp_step. by apply Hyes.
  - wp_step. by apply Hno.
Qed.

Lemma wp_alloc_ok {W} `{Machine W, !MallocOk W} a (Q : Z -> store A * iost W -> Prop) h
  (s : iost W) :
  (forall s', io_trace s' = io_trace s ->
     Q (brk h) (mkStore (<[brk h := a]> (cells h)) (brk h + 1), s')) ->
  wp (alloc a) Q (h, s).
Proof.
  intros HQ. apply wp_alloc; intros s' Hm Ht; [|by apply HQ].
  by rewrite malloc_succeeds in Hm.
Qed.
End Store.
