(* ===== verification/LinkedList.v ===== *)
(** * The linked list: data_structs/linked_list.h and linked_list.c

    Nodes live in a typed store; a [Node **] parameter is the head that comes
    in and the head that goes out.  The loops over a list have as fuel the
    number of live nodes, which every list without a cycle fits in. *)

From S2P Require Import Prelude Machine Heap.

Record Node : Type := mkNode { data : Z; next : Z }.

Definition set_next (q : Z) (n : Node) : Node := mkNode (data n) q.

(** [while (temp->next != NULL) temp = temp->next;] *)
Fixpoint last_node (fuel : nat) (temp : Z) : M (store Node) Z :=
  match fuel with
  | O => fail OutOfFuel
  | S fuel =>
      n ← load temp;
      if next n =? NULL then mret temp else last_node fuel (next n)
  end.

(** [while (temp != NULL && temp->data != data) ...]: [prev] and [temp]. *)
Fixpoint find_node (fuel : nat) (prev temp d : Z) : M (store Node) (Z * Z) :=
  match fuel with
  | O => fail OutOfFuel
  | S fuel =>
      if temp =? NULL then mret (prev, temp) else
      n ← load temp;
      if data n =? d then mret (prev, temp) else find_node fuel temp (next n) d
  end.

Definition list_fuel : M (store Node) nat := gets (fun h => S (size (cells h))).

Definition Node_remove (head d : Z) : M (store Node) Z :=
  if head =? NULL then mret head else
  t ← load head;
  if data t =? d then
    free head ;;
    mret (next t)
  else
    fuel ← list_fuel;
    '(prev, temp) ← find_node fuel NULL head d;
    if temp =? NULL then mret head else
    t ← load temp;
    p ← load prev;
    assign prev (set_next (next t) p) ;;
    free temp ;;
    mret head.

Section LinkedList.
Context {W : Type} `{Machine W}.

Definition Node_create (d : Z) : drv W (store Node) Z :=
  newNode ← alloc (mkNode NULL NULL);
  if newNode =? NULL then fail (ExitProgram 1) else
  on_statics (assign newNode (mkNode d NULL)) ;;
  mret newNode.

Definition Node_append (head d : Z) : drv W (store Node) Z :=
  newNode ← Node_create d;
  if head =? NULL then mret newNode else
  on_statics (
    fuel ← list_fuel;
    temp ← last_node fuel head;
    t ← load temp;
    assign temp (set_next newNode t)) ;;
  mret head.

Fixpoint print_nodes (print : Z -> io W unit) (fuel : nat) (temp : Z)
  : drv W (store Node) unit :=
  match fuel with
  | O => fail OutOfFuel
  | S fuel =>
      if temp =? NULL then mret tt else
      n ← on_statics (load temp);
      on_io (print (data n)) ;;
      print_nodes print fuel (next n)
  end.

Definition List_print (head : Z) (print : Z -> io W unit)
  : drv W (store Node) unit :=
  fuel ← on_statics list_fuel;
  print_nodes print fuel head.
End LinkedList.

(** ** Chains of nodes

    [lseg m p ns q]: from [p] the nodes [ns], each its address and its data,
    lead to [q].  A list is a chain to [NULL]. *)
Fixpoint lseg (m : gmap Z Node) (p : Z) (ns : list (Z * Z)) (q : Z) : Prop :=
  match ns with
  | [] => p = q
  | (a, d) :: ns => p = a /\ a <> NULL /\
      exists r, m !! a = Some (mkNode d r) /\ lseg m r ns q
  end.
Abbreviation linked m p ns := (lseg m p ns NULL).

(** The list with its first [d] taken out. *)
Fixpoint remove_first (d : Z) (ns : list (Z * Z)) : list (Z * Z) :=
  match ns with
  | [] => []
  | n :: ns => if n.2 =? d then ns else n :: remove_first d ns
  end.

Lemma lseg_app m p ns1 ns2 q :
  lseg m p (ns1 ++ ns2) q <-> exists r, lseg m p ns1 r /\ lseg m r ns2 q.
Proof.
  revert p. induction ns1 as [|[a d] ns1 IH]; intros p; cbn.
  - split; [eauto|by intros (r & -> & ?)].
  - split.
    + intros (-> & Ha & r & E & (q' & ? & ?)%IH). eauto 8.
    + intros (q' & (-> & Ha & r & E & ?) & ?). split; [done|split; [done|]].
      exists r. split; [done|]. apply IH. eauto.
Qed.

Lemma lseg_frame m m' p ns q :
  lseg m p ns q -> (forall a, a ∈ ns.*1 -> m' !! a = m !! a) -> lseg m' p ns q.
Proof.
  revert p. induction ns as [|[a d] ns IH]; intros p; cbn; [done|].
  intros (-> & Ha & r & E & Hs) Hf. split; [done|split; [done|]]. exists r.
  split; [rewrite Hf; [done|left]|]. apply IH; [done|]. intros. apply Hf. by right.
Qed.

Lemma lseg_live m p ns q a :
  lseg m p ns q -> a ∈ ns.*1 -> is_Some (m !! a) /\ a <> NULL.
Proof.
  revert p. induction ns as [|[b d] ns IH]; intros p; cbn.
  - intros _ Ha. by apply not_elem_of_nil in Ha.
  - intros (-> & Hb & r & E & Hs) [->|Ha]%elem_of_cons; [rewrite E; eauto|eauto].
Qed.

(** A list is determined by its head. *)
Lemma linked_det m p ns1 ns2 : linked m p ns1 -> linked m p ns2 -> ns1 = ns2.
Proof.
  revert p ns2. induction ns1 as [|[a d] ns1 IH]; intros p [|[a2 d2] ns2]; cbn.
  - done.
  - by intros -> (-> & ? & _).
  - by intros (-> & ? & _) ->.
  - intros (-> & _ & r & E & Hs) (<- & _ & r2 & E2 & Hs2).
    rewrite E in E2. injection E2 as <- <-. f_equal. eauto.
Qed.

(** So it has no cycle, and it fits in the heap. *)
Lemma linked_nodup m p ns : linked m p ns -> NoDup ns.*1.
Proof.
  revert p. induction ns as [|[a d] ns IH]; intros p; [constructor|].
  intros (-> & Ha & r & E & Hs). rewrite fmap_cons. cbn [fst]. constructor; [|eauto].
  intros (ns1 & ns2 & Heq)%list_elem_of_split.
  assert (exists n1 d2 n2, ns = n1 ++ (a, d2) :: n2) as (n1 & d2 & n2 & ->).
  { apply fmap_app_inv in Heq as (n1 & n2 & -> & E2 & ->).
    destruct n2 as [|[a2 d2] n2]; [done|]. injection E2 as -> ->. eauto. }
  assert (linked m a ((a, d) :: n1 ++ (a, d2) :: n2)) as H1 by (cbn; eauto).
  apply lseg_app in Hs as (r2 & _ & Hs2).
  assert (linked m a ((a, d2) :: n2)) as H2 by (by destruct Hs2 as (-> & ?)).
  pose proof (linked_det _ _ _ _ H1 H2) as Hd. apply (f_equal length) in Hd.
  cbn in Hd. rewrite length_app in Hd. cbn in Hd. lia.
Qed.

Lemma linked_length m p ns : linked m p ns -> (length ns <= size m)%nat.
Proof.
  intros Hl. pose proof (linked_nodup _ _ _ Hl) as Hnd.
  rewrite <- size_dom, <- (length_fmap fst ns), <- (size_list_to_set (C := gset Z)) by done.
  apply subseteq_size. intros a Ha%elem_of_list_to_set.
  apply elem_of_dom. by eapply lseg_live.
Qed.

Lemma lseg_redirect m p ns a d q r :
  lseg m p (ns ++ [(a, d)]) q -> a ∉ ns.*1 ->
  lseg (<[a := mkNode d r]> m) p (ns ++ [(a, d)]) r.
Proof.
  intros (b & Hs & -> & Ha & _)%lseg_app Hn. apply lseg_app. exists a. split.
  - eapply lseg_frame; [exact Hs|]. intros c Hc. apply lookup_insert_ne. congruence.
  - cbn. repeat split; [done|]. exists r. by rewrite lookup_insert_eq.
Qed.

(** ** The loops *)

Section Loops.
Implicit Types h : store Node.

Lemma last_node_ends fuel h p ns a d :
  lseg (cells h) p (ns ++ [(a, d)]) NULL -> (length ns < fuel)%nat ->
  wp (last_node fuel p) (fun temp h' => temp = a /\ h' = h) h.
Proof.
  revert p ns. induction fuel as [|fuel IH]; intros p ns; [lia|].
  intros Hs Hf. cbn [last_node]. destruct ns as [|[b e] ns]; cbn in Hs.
  - destruct Hs as (-> & Ha & r & E & <-). wp_step. eapply wp_load; [done..|].
    cbn beta. cbn [next]. rewrite Z.eqb_refl. by wp_step.
  - destruct Hs as (-> & Hb & r & E & Hs). wp_step. eapply wp_load; [done..|].
    cbn [next]. destruct (Z.eqb_spec r NULL) as [->|].
    + destruct ns as [|[? ?] ?]; cbn in Hs; by destruct Hs as (<- & ? & _).
    + eapply IH; [done|cbn in Hf; lia].
Qed.

Lemma find_node_finds fuel h prev p ns d :
  linked (cells h) p ns -> (length ns < fuel)%nat ->
  wp (find_node fuel prev p d) (fun r h' => h' = h /\
    (((forall n, n ∈ ns -> n.2 <> d) /\ r.2 = NULL) \/
     exists ns1 a ns2, ns = ns1 ++ (a, d) :: ns2 /\ (forall n, n ∈ ns1 -> n.2 <> d) /\
       r = (default prev (last ns1.*1), a))) h.
Proof.
  revert prev p ns. induction fuel as [|fuel IH]; intros prev p ns; [lia|].
  intros Hs Hf. destruct ns as [|[a e] ns]; cbn [find_node].
  - cbn in Hs. subst p. rewrite Z.eqb_refl. wp_step. split; [done|]. left.
    split; [|done]. intros n Hn. by apply not_elem_of_nil in Hn.
  - destruct Hs as (-> & Ha & r & E & Hs). rewrite (proj2 (Z.eqb_neq a NULL)) by done.
    wp_step. eapply wp_load; [done..|]. cbn [data next].
    destruct (Z.eqb_spec e d) as [->|Hne].
    + wp_step. split; [done|]. right. exists [], a, ns. split; [done|].
      split; [|done]. intros n Hn. by apply not_elem_of_nil in Hn.
    + eapply wp_mono; [apply IH; [done|cbn in Hf; lia]|].
      intros [pr t] h' [-> [[Hno Ht]|(ns1 & b & ns2 & -> & Hno & [= -> ->])]].
      * split; [done|]. left. split; [|done].
        by intros n [->|Hn]%elem_of_cons; [|apply Hno].
      * split; [done|]. right. exists ((a, e) :: ns1), b, ns2. split; [done|]. split.
        { by intros n [->|Hn]%elem_of_cons; [|apply Hno]. }
        rewrite fmap_cons, last_cons. by destruct (last ns1.*1).
Qed.
End Loops.

Lemma remove_first_absent d ns : (forall n, n ∈ ns -> n.2 <> d) -> remove_first d ns = ns.
Proof.
  induction ns as [|n ns IH]; intros Hno; cbn; [done|].
  destruct (Z.eqb_spec n.2 d) as [E|].
  - exfalso. by eapply Hno; [left|].
  - f_equal. apply IH. intros m Hm. apply Hno. by right.
Qed.

Lemma remove_first_present d a ns1 ns2 :
  (forall n, n ∈ ns1 -> n.2 <> d) -> remove_first d (ns1 ++ (a, d) :: ns2) = ns1 ++ ns2.
Proof.
  induction ns1 as [|n ns1 IH]; intros Hno; cbn.
  - by rewrite Z.eqb_refl.
  - destruct (Z.eqb_spec n.2 d) as [E|].
    + exfalso. by eapply Hno; [left|].
    + f_equal. apply IH. intros m Hm. apply Hno. by right.
Qed.

(** Unlinking a node that is not the head. *)
Lemma lseg_unlink m p ns1 pr dp a d ns2 :
  linked m p (ns1 ++ (pr, dp) :: (a, d) :: ns2) ->
  exists r, m !! pr = Some (mkNode dp a) /\ m !! a = Some (mkNode d r) /\ a <> NULL /\
    pr <> NULL /\
    linked (delete a (<[pr := mkNode dp r]> m)) p (ns1 ++ (pr, dp) :: ns2).
Proof.
  intros Hs. pose proof (linked_nodup _ _ _ Hs) as Hnd.
  rewrite fmap_app, !fmap_cons in Hnd. cbn [fst] in Hnd.
  apply NoDup_app in Hnd as (Hnd1 & Hd1 & [Hpr [Ha Hnd2]%NoDup_cons]%NoDup_cons).
  apply lseg_app in Hs as (b & H1 & -> & Hp0 & c & E1 & -> & Ha0 & r & E2 & H2).
  exists r. split; [done|split; [done|split; [done|split; [done|]]]].
  apply lseg_app. exists pr. split; [|cbn; split; [done|split; [done|]]].
  - eapply lseg_frame; [exact H1|]. intros x Hx. specialize (Hd1 x Hx).
    rewrite lookup_delete_ne, lookup_insert_ne; [done| |].
    + intros ->. apply Hd1. by left.
    + intros ->. apply Hd1. right. by left.
  - exists r. split.
    + rewrite lookup_delete_ne by set_solver. apply lookup_insert_eq.
    + eapply lseg_frame; [exact H2|]. intros x Hx.
      rewrite lookup_delete_ne, lookup_insert_ne; [done| |by intros ->].
      intros ->. apply Hpr. by right.
Qed.

(** ** The operations *)

(** The addresses of a list. *)
Abbreviation addrs ns := (list_to_set (C := gset Z) ns.*1).

(** What an operation on the list at [head] leaves alone: the cells of the
    nodes of every other list. *)
Definition others_kept (ns : list (Z * Z)) (h h' : store Node) : Prop :=
  forall a, a ∉ ns.*1 -> is_Some (cells h !! a) -> cells h' !! a = cells h !! a.

Lemma unlink_dom (m : gmap Z Node) n (pr dp b d : Z) ns1 ns2 :
  pr ∈ dom m -> NoDup (ns1 ++ (pr, dp) :: (b, d) :: ns2).*1 ->
  dom (delete b (<[pr := n]> m)) =
    dom m ∖ (addrs (ns1 ++ (pr, dp) :: (b, d) :: ns2) ∖ addrs (ns1 ++ (pr, dp) :: ns2)).
Proof.
  intros Hpr Hnd. rewrite dom_delete_L, dom_insert_L, !fmap_app, !fmap_cons in *.
  cbn [fst] in *. apply NoDup_app in Hnd as (_ & Hd & [Hp [Hb _]%NoDup_cons]%NoDup_cons).
  assert (b ∉ ns1.*1) as Hb1 by (intros Hx; apply (Hd b Hx); right; left).
  rewrite !list_to_set_app_L, !list_to_set_cons. set_solver.
Qed.

Section Operations.
Context {W : Type} `{Machine W}.

Lemma Node_create_spec d h (s : iost W) :
  store_ok h ->
  wpe (Node_create d) (fun f => f = ExitProgram 1 /\ (dev_malloc (io_world s)).1 = false)
    (fun p st => p = brk h /\ p <> NULL /\ (dev_malloc (io_world s)).1 = true /\
       io_trace st.2 = io_trace s /\
       st.1 = mkStore (<[brk h := mkNode d NULL]> (cells h)) (brk h + 1)) (h, s).
Proof.
  intros Hok. pose proof Hok as [Hb _]. unfold Node_create, on_statics.
  wp_step. apply wpe_wp. apply wp_alloc; intros s' Hm Ht.
  - by apply wpe_fail.
  - rewrite (proj2 (Z.eqb_neq (brk h) NULL)) by (unfold NULL; lia).
    do 2 wp_step. apply wpe_wp. cbn [fst].
    eapply wp_assign; [unfold NULL; lia|apply lookup_insert_eq|].
    cbn [cells brk]. rewrite insert_insert_eq. apply wpe_wp, wp_ret.
    unfold NULL. repeat split; (done || lia).
Qed.

(** A new last node, linked from the last one. *)
Lemma linked_append m head ns a e p d :
  linked m head (ns ++ [(a, e)]) -> p <> NULL -> p ∉ (ns ++ [(a, e)]).*1 ->
  m !! p = Some (mkNode d NULL) ->
  linked (<[a := mkNode e p]> m) head ((ns ++ [(a, e)]) ++ [(p, d)]).
Proof.
  intros Hl Hp0 Hp Hm. pose proof (linked_nodup _ _ _ Hl) as Hnd. rewrite fmap_app in Hnd.
  apply NoDup_app in Hnd as (_ & Hd & _).
  assert (a <> p) as Hap.
  { intros ->. apply Hp. rewrite fmap_app. apply elem_of_app. right. by left. }
  assert (a ∉ ns.*1) as Han by (intros Hx; apply (Hd a Hx); cbn; by left).
  apply lseg_app. exists p. split; [by eapply lseg_redirect|].
  cbn. split; [done|split; [done|]]. exists NULL. split; [|done]. by rewrite lookup_insert_ne.
Qed.

Lemma Node_append_spec head ns d h (s : iost W) :
  store_ok h -> linked (cells h) head ns ->
  wpe (Node_append head d)
    (fun f => f = ExitProgram 1 /\ (dev_malloc (io_world s)).1 = false)
    (fun head' st => store_ok st.1 /\ linked (cells st.1) head' (ns ++ [(brk h, d)]) /\
       (ns <> [] -> head' = head) /\ (dev_malloc (io_world s)).1 = true /\
       io_trace st.2 = io_trace s /\
       dom (cells st.1) = {[brk h]} ∪ dom (cells h) /\ others_kept ns h st.1) (h, s).
Proof.
  intros Hok Hl. unfold Node_append. wp_step.
  eapply wpe_mono; [by apply Node_create_spec|].
  intros p [h1 s1] (-> & Hp & Hm & Ht & Eh). cbn [fst snd] in *.
  pose proof (fresh_not_live h Hok) as Hnew.
  assert (store_ok h1) as Hok1 by (subst h1; by apply store_ok_fresh).
  assert (forall a, a <> brk h -> cells h1 !! a = cells h !! a) as Hold.
  { intros a Ha. subst h1. by apply lookup_insert_ne. }
  assert (cells h1 !! brk h = Some (mkNode d NULL)) as Hn by (subst h1; apply lookup_insert_eq).
  assert (dom (cells h1) = {[brk h]} ∪ dom (cells h)) as Hdom
    by (subst h1; apply dom_insert_L).
  clear Eh. destruct (Z.eqb_spec head NULL) as [->|Hhead].
  - apply wpe_wp, wp_ret. cbn [fst snd]. destruct ns as [|[a e] ns].
    2:{ by destruct Hl as (<- & ? & _). }
    split; [done|]. split.
    { cbn. eauto 8. }
    repeat (split; [done|]). intros a _ [n Ha]. apply Hold. congruence.
  - destruct ns as [|[a e] ns' _] using rev_ind; [done|].
    assert (brk h ∉ (ns' ++ [(a, e)]).*1) as Hfresh.
    { intros Hin. destruct (lseg_live _ _ _ _ _ Hl Hin) as [[? ?] _]. congruence. }
    assert (linked (cells h1) head (ns' ++ [(a, e)])) as Hl1.
    { eapply lseg_frame; [exact Hl|]. intros c Hc. apply Hold. congruence. }
    destruct (proj1 (lseg_app _ _ _ _ _) Hl1) as (b & _ & -> & Ha & r & Ea & ->).
    unfold on_statics, list_fuel. do 2 wp_step. apply wpe_wp. cbn [fst]. wp_step. wp_step.
    wp_step. eapply wp_mono; [eapply last_node_ends; [exact Hl1|]|].
    { apply linked_length in Hl1. rewrite length_app in Hl1. cbn in Hl1. lia. }
    intros temp h2 [-> ->]. wp_step. eapply wp_load; [done..|]. cbn beta.
    eapply wp_assign; [done..|]. apply wpe_wp, wp_ret. cbn [fst snd cells brk].
    unfold set_next. cbn [data]. split; [by eapply store_ok_insert|].
    assert (a <> brk h) as Hab.
    { intros ->. apply Hfresh. rewrite fmap_app. apply elem_of_app. right. by left. }
    split; [by apply linked_append|].
    split; [done|]. split; [done|]. split; [done|]. split.
    { rewrite dom_insert_L, Hdom. apply subseteq_union_L.
      apply singleton_subseteq_l. rewrite <- Hdom. apply elem_of_dom. eauto. }
    intros c Hc [n Hcn]. rewrite fmap_app, not_elem_of_app in Hc.
    cbn [cells]. rewrite lookup_insert_ne; [apply Hold; congruence|].
    intros ->. apply (proj2 Hc). by left.
Qed.

(** The node removed is not the first. *)
Lemma remove_first_later a e d ns ns1 pr b ns2 :
  e <> d -> (forall n, n ∈ ns1 ++ [pr] -> n.2 <> d) ->
  (a, e) :: ns = ns1 ++ pr :: (b, d) :: ns2 ->
  (a, e) :: remove_first d ns = ns1 ++ pr :: ns2.
Proof.
  intros Hne Hno E.
  assert (remove_first d ((a, e) :: ns) = (a, e) :: remove_first d ns) as <-.
  { cbn [remove_first snd]. by rewrite (proj2 (Z.eqb_neq e d)). }
  rewrite E, (cons_middle pr ns1), app_assoc.
  rewrite remove_first_present by done. by rewrite <- app_assoc.
Qed.

Lemma Node_remove_spec head ns d h :
  store_ok h -> linked (cells h) head ns ->
  wp (Node_remove head d)
    (fun head' h' => store_ok h' /\ linked (cells h') head' (remove_first d ns) /\
       dom (cells h') = dom (cells h) ∖ (addrs ns ∖ addrs (remove_first d ns)) /\
       others_kept ns h h') h.
Proof.
  intros Hok Hl. pose proof (linked_nodup _ _ _ Hl) as Hnd. unfold Node_remove.
  destruct (Z.eqb_spec head NULL) as [->|Hhead].
  { destruct ns as [|[a e] ns]; [|by destruct Hl as (<- & ? & _)].
    wp_step. split; [done|split; [done|split; [cbn; set_solver|done]]]. }
  destruct ns as [|[a e] ns]; [done|]. pose proof Hl as (-> & Ha & r & Ea & Hl').
  rewrite fmap_cons in Hnd. cbn [fst] in Hnd. apply NoDup_cons in Hnd as [Han Hnd].
  wp_step. eapply wp_load; [done..|]. cbn [data next remove_first snd].
  destruct (Z.eqb_spec e d) as [->|Hne].
  { wp_step. eapply wp_free; [done..|]. wp_step. split; [by apply store_ok_delete|].
    cbn [cells]. split.
    { eapply lseg_frame; [exact Hl'|]. intros c Hc. apply lookup_delete_ne. congruence. }
    split.
    { rewrite dom_delete_L. rewrite fmap_cons. cbn. set_solver. }
    intros c Hc _. apply lookup_delete_ne. intros ->. apply Hc. by left. }
  unfold list_fuel. wp_step. wp_step. wp_step.
  eapply wp_mono; [eapply find_node_finds; [exact Hl|]|].
  { apply linked_length in Hl. lia. }
  intros [pr temp] h2 [-> [[Hno Ht]|(ns1 & b & ns2 & E & Hno & [= -> ->])]]; cbn [snd] in *.
  { subst temp. rewrite Z.eqb_refl. wp_step.
    rewrite remove_first_absent by (intros n Hn; apply Hno; by right).
    split; [done|split; [done|split; [set_solver|done]]]. }
  destruct ns1 as [|[pr dp] ns1 _] using rev_ind; [by injection E as -> ->|].
  rewrite <- app_assoc in E. cbn [app] in E.
  rewrite (remove_first_later a e d ns ns1 (pr, dp) b ns2) by done.
  rewrite E in Hl |- *. rewrite fmap_app, last_app. cbn.
  destruct (lseg_unlink _ _ _ _ _ _ _ _ Hl) as (q & Ep & Eb & Hb0 & Hp0 & Hl2).
  pose proof (linked_nodup _ _ _ Hl) as Hnd2.
  rewrite (proj2 (Z.eqb_neq b NULL)) by done.
  wp_step. eapply wp_load; [done..|]. cbn [next].
  wp_step. eapply wp_load; [done..|]. unfold set_next. cbn [data].
  assert (pr <> b) as Hpb.
  { rewrite fmap_app, !fmap_cons in Hnd2. apply NoDup_app in Hnd2 as (_ & _ & Hn3).
    apply NoDup_cons in Hn3 as [Hn3 _]. intros ->. apply Hn3. by left. }
  wp_step. eapply wp_assign; [done..|]. wp_step.
  eapply wp_free; [done|cbn [cells]; by rewrite lookup_insert_ne|]. cbn [cells brk].
  wp_step. cbn [cells]. split.
  { apply (store_ok_delete (mkStore _ _)). by eapply store_ok_insert. }
  split; [done|]. split.
  { apply unlink_dom; [by eapply elem_of_dom_2|done]. }
  intros c Hc _. rewrite fmap_app, !fmap_cons in Hc. cbn [cells].
  rewrite lookup_delete_ne, lookup_insert_ne; [done|set_solver..].
Qed.
End Operations.

(** ** The list as an abstract data type *)

Inductive list_op : Type :=
  | Append (d : Z)
  | Remove (d : Z).

(** The abstract list of data the operations are about. *)
Fixpoint list_remove_first (d : Z) (l : list Z) : list Z :=
  match l with
  | [] => []
  | x :: l => if x =? d then l else x :: list_remove_first d l
  end.

Definition op_spec (l : list Z) (op : list_op) : list Z :=
  match op with
  | Append d => l ++ [d]
  | Remove d => list_remove_first d l
  end.

Section Refinement.
Context {W : Type} `{Machine W}.

Definition run_op (head : Z) (op : list_op) : drv W (store Node) Z :=
  match op with
  | Append d => Node_append head d
  | Remove d => on_statics (Node_remove head d)
  end.

Fixpoint run_ops (head : Z) (ops : list list_op) : drv W (store Node) Z :=
  match ops with
  | [] => mret head
  | op :: ops => head ← run_op head op; run_ops head ops
  end.

Fixpoint visit (print : Z -> io W unit) (l : list Z) : io W unit :=
  match l with
  | [] => mret tt
  | d :: l => print d ;; visit print l
  end.

(** The list at [head] holds [l] and is all there is in the heap. *)
Definition represents (h : store Node) (head : Z) (l : list Z) : Prop :=
  store_ok h /\ exists ns, linked (cells h) head ns /\ ns.*2 = l /\
    dom (cells h) = addrs ns.

Lemma remove_first_abstract d ns : (remove_first d ns).*2 = list_remove_first d ns.*2.
Proof.
  induction ns as [|n ns IH]; cbn; [done|]. destruct (n.2 =? d); [done|].
  cbn. by rewrite IH.
Qed.

Lemma remove_first_addrs d ns : addrs (remove_first d ns) ⊆ addrs ns.
Proof.
  induction ns as [|n ns IH]; cbn; [done|]. destruct (n.2 =? d); cbn; set_solver.
Qed.

Lemma run_op_refines head l op h (s : iost W) :
  represents h head l ->
  wpe (run_op head op) (fun f => f = ExitProgram 1)
    (fun head' st => represents st.1 head' (op_spec l op)) (h, s).
Proof.
  intros (Hok & ns & Hl & <- & Hdom). destruct op as [d|d]; cbn [run_op op_spec].
  - pose proof (Node_append_spec head ns d h s Hok Hl) as Ha.
    unfold wpe in *. destruct (Node_append head d (h, s)) as [[p [h' s']]|f]; [|tauto].
    destruct Ha as (Hok' & Hl' & _ & _ & _ & Hd' & _). split; [done|].
    exists (ns ++ [(brk h, d)]). split; [done|]. split; [by rewrite fmap_app|].
    cbn [fst] in Hd' |- *. rewrite Hd', Hdom, fmap_app, list_to_set_app_L. cbn. set_solver.
  - unfold on_statics. apply wpe_zoom, wpe_wp. cbn [fst].
    eapply wp_mono; [by apply Node_remove_spec|].
    intros p h' (Hok' & Hl' & Hd' & _). split; [done|].
    exists (remove_first d ns). split; [done|]. split; [apply remove_first_abstract|].
    pose proof (remove_first_addrs d ns). cbn [fst]. rewrite Hd', Hdom.
    apply set_eq. intros x. destruct (decide (x ∈ addrs (remove_first d ns))); set_solver.
Qed.

Lemma run_ops_refine head l ops h (s : iost W) :
  represents h head l ->
  wpe (run_ops head ops) (fun f => f = ExitProgram 1)
    (fun head' st => represents st.1 head' (foldl op_spec l ops)) (h, s).
Proof.
  revert head l h s. induction ops as [|op ops IH]; intros head l h s Hr; cbn [run_ops foldl].
  - by apply wpe_wp, wp_ret.
  - wp_step. eapply wpe_mono; [by apply run_op_refines|]. intros p [h' s']. apply IH.
Qed.

Lemma print_nodes_visits print fuel ns p h (s : iost W) :
  linked (cells h) p ns -> (length ns < fuel)%nat ->
  print_nodes print fuel p (h, s) = on_io (visit print ns.*2) (h, s).
Proof.
  revert ns p s. induction fuel as [|fuel IH]; intros ns p s; [lia|]. intros Hl Hf.
  destruct ns as [|[a d] ns]; cbn [print_nodes].
  - cbn in Hl. subst p. by rewrite Z.eqb_refl.
  - destruct Hl as (-> & Ha & r & E & Hl). rewrite (proj2 (Z.eqb_neq a NULL)) by done.
    assert (load a h = Ok (mkNode d r, h)) as Hload.
    { unfold load, mbind, M_bind, get. rewrite (proj2 (Z.eqb_neq a NULL)) by done.
      by rewrite E. }
    unfold mbind at 1, M_bind, on_statics, zoom. cbn [fst]. rewrite Hload. cbn [snd data next].
    unfold on_io, zoom. cbn [snd fst fmap list_fmap visit].
    unfold mbind at 1, M_bind. cbn [snd].
    unfold mbind, M_bind. destruct (print d s) as [[[] s1]|f]; [|done]. cbn [fst].
    rewrite (IH ns r s1 Hl) by (cbn in Hf; lia). done.
Qed.
End Refinement.

(** C14: any sequence of [Node_append]s and [Node_remove]s on an empty list behaves
    as the same operations on an abstract list (append at the end, take out the
    first equal element or nothing): every loop ends, no freed or null pointer
    is followed, and the nodes allocated and not freed are exactly those of the
    list.  A failed [malloc] is the only way out, through [exit(1)]. *)
Theorem list_ops_refine {W} `{Machine W} ops (s : iost W) :
  match run_ops NULL ops (store_empty, s) with
  | Ok (head, (h, _)) => represents h head (foldl op_spec [] ops)
  | Fault f => f = ExitProgram 1
  end.
Proof.
  assert (represents store_empty NULL []) as Hr.
  { split; [apply store_ok_empty|]. exists []. split; [done|]. split; [done|].
    cbn. by rewrite dom_empty_L. }
  pose proof (run_ops_refine NULL [] ops store_empty s Hr) as Ho. unfold wpe in Ho.
  by destruct (run_ops NULL ops (store_empty, s)) as [[p [h' s']]|].
Qed.

(** [List_print] calls its argument on every element of the list once, in
    order, ends, and leaves the list as it was, whatever the argument does. *)
Theorem List_print_visits {W} `{Machine W} head l h (s : iost W) print :
  represents h head l ->
  List_print head print (h, s) = on_io (visit print l) (h, s).
Proof.
  intros (Hok & ns & Hl & <- & _). unfold List_print, mbind, M_bind, on_statics, list_fuel.
  unfold zoom at 1, gets. cbn [fst snd]. apply print_nodes_visits; [done|].
  apply linked_length in Hl. lia.
Qed.

Lemma List_print_visits_witness :
  run_drv (head ← run_ops NULL [Append 7; Append 8; Append 9; Remove 8];
           List_print head (fun d => _ ← lib_call "print" [d]; mret tt))
    store_empty (mkScript [] [] [] [true; true; true] [] [0; 0])
  = Ok (tt, mkStore (list_to_map [(1, mkNode 7 3); (3, mkNode 9 0)]) 4,
        [EvCall "print" [7] 0; EvCall "print" [9] 0]).
Proof.
  pose (s := mkIo (mkScript [] [] [] [] [] [0; 0]) []).
  pose (h := mkStore (list_to_map [(1, mkNode 7 3); (3, mkNode 9 0)]) 4).
  assert (represents h 1 [7; 9]) as Hr.
  { split.
    - split; [cbn; lia|]. intros p a Hp%elem_of_list_to_map_2. subst h. cbn [brk].
      apply elem_of_cons in Hp as [[= -> ->]|[[= -> ->]|Hp]%elem_of_cons]; [lia..|].
      by apply not_elem_of_nil in Hp.
    - exists [(1, 7); (3, 9)]. split; [|split; [done|by vm_compute]].
      cbn. repeat (split; [done|]). eexists. split; [by vm_compute|].
      repeat (split; [done|]). by eexists. }
  pose proof (List_print_visits 1 [7; 9] h s
    (fun d => _ ← lib_call "print" [d]; mret tt) Hr) as Hp.
  unfold run_drv.
  assert (run_ops NULL [Append 7; Append 8; Append 9; Remove 8]
    (store_empty, mkIo (mkScript [] [] [] [true; true; true] [] [0; 0]) [])
    = Ok (1, (h, s))) as E by (by vm_compute).
  unfold mbind, M_bind. rewrite E. unfold mbind, M_bind in Hp. rewrite Hp. by vm_compute.
Defined.

(** The operations that allocate, where allocation cannot fail. *)
Section Total.
Context {W : Type} `{Machine W, !MallocOk W}.

Lemma wpe_total {X A} (m : drv W X A) (E : fault -> Prop) Q st :
  wpe m E Q st -> (forall f, E f -> False) -> wp m Q st.
Proof. unfold wpe, wp. intros Hm HE. destruct (m st) as [[? ?]|f]; [done|eauto]. Qed.

Lemma Node_create_ok d h (s : iost W) :
  store_ok h ->
  wp (Node_create d) (fun p st => p = brk h /\ p <> NULL /\
       io_trace st.2 = io_trace s /\
       st.1 = mkStore (<[brk h := mkNode d NULL]> (cells h)) (brk h + 1)) (h, s).
Proof.
  intros Hok. eapply wpe_total.
  - eapply wpe_mono; [by apply Node_create_spec|].
    by intros p st (? & ? & _ & ? & ?).
  - intros f [_ Hm]. by rewrite malloc_succeeds in Hm.
Qed.

Lemma Node_append_ok head ns d h (s : iost W) :
  store_ok h -> linked (cells h) head ns ->
  wp (Node_append head d) (fun head' st =>
    store_ok st.1 /\ linked (cells st.1) head' (ns ++ [(brk h, d)]) /\
    io_trace st.2 = io_trace s /\ dom (cells st.1) = {[brk h]} ∪ dom (cells h) /\
    others_kept ns h st.1) (h, s).
Proof.
  intros Hok Hl. eapply wpe_total.
  - eapply wpe_mono; [by apply Node_append_spec|].
    by intros p st (? & ? & _ & _ & ? & ? & ?).
  - intros f [_ Hm]. by rewrite malloc_succeeds in Hm.
Qed.
End Total.
