(* ===== verification/Sprite.v ===== *)
(** * Sprites: sprite/sprite.h and sprite/sprite.c

    A sprite owns its image, which is [None] where the program stores [NULL]
    in [img], and its two frame tables.  Sprites live in a typed store;
    drawing one goes to the card, so the state of this file is both. *)

From S2P Require Import Prelude Machine Geometry Picture Gpu Heap.

Record Sprite : Type := mkSprite {
  img : option xpm_image;
  offsets : list vec2;
  sizes : list vec2;
  framesc : Z;
  delay : Z;
  current_frame : Z;
  current_delay : Z;
  transparent : bool;
}.

Definition set_img (i : option xpm_image) (s : Sprite) : Sprite :=
  mkSprite i (offsets s) (sizes s) (framesc s) (delay s) (current_frame s)
    (current_delay s) (transparent s).
Definition set_tables (os ss : list vec2) (s : Sprite) : Sprite :=
  mkSprite (img s) os ss (framesc s) (delay s) (current_frame s)
    (current_delay s) (transparent s).
Definition set_timing (n d f c : Z) (s : Sprite) : Sprite :=
  mkSprite (img s) (offsets s) (sizes s) n d f c (transparent s).
Definition set_frame (f : Z) (s : Sprite) : Sprite :=
  set_timing (framesc s) (delay s) f (current_delay s) s.
Definition set_transparent (b : bool) (s : Sprite) : Sprite :=
  mkSprite (img s) (offsets s) (sizes s) (framesc s) (delay s) (current_frame s)
    (current_delay s) b.

Record gfx : Type := mkGfx { gfx_gpu : gpu; gfx_sprites : store Sprite }.

Definition on_gpu {S A} (m : M (gpu * S) A) : M (gfx * S) A :=
  zoom (fun st => (gfx_gpu st.1, st.2))
       (fun c st => (mkGfx c.1 (gfx_sprites st.1), c.2)) m.
Definition on_sprites {S A} (m : M (store Sprite * S) A) : M (gfx * S) A :=
  zoom (fun st => (gfx_sprites st.1, st.2))
       (fun c st => (mkGfx (gfx_gpu st.1) c.1, c.2)) m.

(** The step of the animation that ends [Sprite_draw]. *)
Definition animate (s : Sprite) : res Sprite :=
  if delay s =? 0 then Ok s
  else if current_delay s =? delay s then
    if framesc s =? 0 then Fault DivByZero else
    Ok (set_timing (framesc s) (delay s) (u32 (current_frame s + 1) mod framesc s) 0 s)
  else
    Ok (set_timing (framesc s) (delay s) (current_frame s)
          (u32 (current_delay s + 1)) s).

Section Sprite.
Context {W : Type} `{Machine W, XpmLoader W}.

(** [*sprite], read and written in place. *)
Definition sprite_load (p : Z) : drv W gfx Sprite := on_sprites (on_statics (load p)).
Definition sprite_store (p : Z) (s : Sprite) : drv W gfx unit :=
  on_sprites (on_statics (assign p s)).

(** The library writes through the image pointer it is given. *)
Definition Sprite_xpm_load (sprite : Z) (xpm : xpm_map) : drv W gfx unit :=
  s ← sprite_load sprite;
  match img s with
  | None => fail NullDeref
  | Some _ =>
      '(_loaded, image) ← on_io (oracle (xpm_load xpm XPM_INDEXED));
      sprite_store sprite (set_img (Some image) s)
  end.

(** A table of [framesc] vectors, copied to a fresh block. *)
Definition copy_table (table : list vec2) (n : Z) : drv W gfx (list vec2) :=
  ok ← on_io malloc_ok;
  if negb ok then fail NullDeref
  else if Z.of_nat (length table) <? n then fail OutOfBounds
  else mret (take (Z.to_nat n) table).

Definition blank_image : xpm_image := mkImage INVALID_XPM 0 0 0 [].

(** [transparent] keeps what the allocated memory held. *)
Definition Sprite_init (sprite : Z) (xpm : xpm_map) (os ss : list vec2) (n d : Z)
  : drv W gfx unit :=
  if sprite =? NULL then mret tt else
  s ← sprite_load sprite;
  ok ← on_io malloc_ok;
  sprite_store sprite (set_img (if negb ok then None else Some blank_image) s) ;;
  Sprite_xpm_load sprite xpm ;;
  os' ← copy_table os n;
  ss' ← copy_table ss n;
  s ← sprite_load sprite;
  sprite_store sprite (set_timing n d 0 0 (set_tables os' ss' s)).

Definition Sprite_create (xpm : xpm_map) (os ss : list vec2) (n d : Z)
  : drv W gfx Z :=
  junk ← on_io indeterminate;
  sprite ← on_sprites (alloc (mkSprite None [] [] 0 0 0 0 (tst junk)));
  if sprite =? NULL then mret NULL else
  Sprite_init sprite xpm os ss n d ;;
  mret sprite.

Definition Sprite_draw (sprite : Z) (pos : vec2) : drv W gfx unit :=
  s ← sprite_load sprite;
  match img s with
  | None => mret tt
  | Some image =>
      if decide (img_type image = INVALID_XPM) then
        sprite_store sprite (set_img None s)
      else
        o ← lift_res (array_get (offsets s) (current_frame s));
        sz ← lift_res (array_get (sizes s) (current_frame s));
        (if transparent s
         then on_gpu (on_statics (gpu_draw_transparent_xpm image pos o sz))
         else on_gpu (gpu_draw_xpm image pos o sz)) ;;
        s' ← lift_res (animate s);
        sprite_store sprite s'
  end.
End Sprite.

(** ** What a sprite must satisfy to be drawn *)

Definition sprite_ok (s : Sprite) : Prop :=
  0 < framesc s < 4294967296 /\ 0 <= delay s < 4294967296 /\
  0 <= current_frame s < framesc s /\ 0 <= current_delay s <= delay s /\
  framesc s <= Z.of_nat (length (offsets s)) /\
  framesc s <= Z.of_nat (length (sizes s)).

(** The frame on show. *)
Definition frame_table (s : Sprite) (i : Z) : vec2 * vec2 :=
  (nth (Z.to_nat i) (offsets s) (VEC2 0 0), nth (Z.to_nat i) (sizes s) (VEC2 0 0)).

Definition frames_ok (image : xpm_image) (s : Sprite) : Prop :=
  forall i, 0 <= i < framesc s ->
    frame_ok image (frame_table s i).1 (frame_table s i).2.

(** Every frame may be drawn at [pos]. *)
Definition place_ok (s : Sprite) (pos : vec2) : Prop :=
  forall i, 0 <= i < framesc s -> coord_ok pos (frame_table s i).2.

(** The picture a draw of the sprite at [pos] paints. *)
Definition sprite_picture (s : Sprite) (pos : vec2) : picture :=
  match img s with
  | None => blank
  | Some image =>
      if decide (img_type image = INVALID_XPM) then blank else
      let f := frame_table s (current_frame s) in
      frame_picture (negb (transparent s)) image pos f.1 f.2
  end.

Lemma sprite_confined s pos :
  confined (AABB pos (frame_table s (current_frame s)).2) (sprite_picture s pos).
Proof.
  unfold sprite_picture. destruct (img s) as [image|]; [|done]. case_decide; [done|].
  intros px py Hn. by apply decide_False.
Qed.

(** A sprite after a draw. *)
Definition drawn (s : Sprite) : Sprite :=
  match img s with
  | None => s
  | Some image =>
      if decide (img_type image = INVALID_XPM) then set_img None s
      else match animate s with Ok s' => s' | Fault _ => s end
  end.

Definition drawable (s : Sprite) (pos : vec2) : Prop :=
  sprite_ok s /\ forall image, img s = Some image -> img_type image <> INVALID_XPM ->
    frames_ok image s /\ place_ok s pos.

(** ** Animation *)

Lemma animate_ok s :
  sprite_ok s -> exists s', animate s = Ok s' /\ sprite_ok s' /\
    img s' = img s /\ offsets s' = offsets s /\ sizes s' = sizes s /\
    framesc s' = framesc s /\ delay s' = delay s /\ transparent s' = transparent s.
Proof.
  intros (Hn & Hd & Hf & Hc & Ho & Hs). unfold animate.
  destruct (Z.eqb_spec (delay s) 0); [by exists s|].
  destruct (Z.eqb_spec (current_delay s) (delay s)) as [E|E].
  - destruct (Z.eqb_spec (framesc s) 0); [lia|]. eexists. split; [done|].
    split; [|done]. unfold sprite_ok. cbn.
    pose proof (Z.mod_pos_bound (u32 (current_frame s + 1)) (framesc s)). lia.
  - eexists. split; [done|]. split; [|done]. unfold sprite_ok. cbn.
    rewrite u32_id by lia. lia.
Qed.

(** The state of the animation as one number. *)
Definition phase (s : Sprite) : Z := current_frame s * (delay s + 1) + current_delay s.

Lemma animate_phase s s' :
  sprite_ok s -> delay s <> 0 -> animate s = Ok s' ->
  phase s' = (phase s + 1) mod (framesc s * (delay s + 1)).
Proof.
  intros (Hn & Hd & Hf & Hc & _) H0 E. unfold animate, phase in *.
  rewrite (proj2 (Z.eqb_neq _ _) H0) in E.
  destruct (Z.eqb_spec (current_delay s) (delay s)) as [Ec|Ec].
  - destruct (Z.eqb_spec (framesc s) 0); [lia|]. injection E as <-. cbn.
    replace (current_frame s * (delay s + 1) + current_delay s + 1)
      with ((current_frame s + 1) * (delay s + 1)) by lia.
    rewrite Z.mul_mod_distr_r by lia. rewrite Z.add_0_r. f_equal.
    destruct (Z.eq_dec (current_frame s + 1) 4294967296) as [Ew|].
    + rewrite Ew. replace (framesc s) with 4294967296 by lia. done.
    + by rewrite u32_id by lia.
  - injection E as <-. cbn. rewrite u32_id by lia.
    rewrite Z.mod_small; [lia|]. split; [lia|].
    assert (current_frame s * (delay s + 1) <= (framesc s - 1) * (delay s + 1))
      by (apply Z.mul_le_mono_nonneg_r; lia). lia.
Qed.

Fixpoint animate_n (k : nat) (s : Sprite) : res Sprite :=
  match k with
  | O => Ok s
  | S k => let? s' := animate s in animate_n k s'
  end.

Lemma animate_n_phase k s :
  sprite_ok s -> delay s <> 0 -> exists s', animate_n k s = Ok s' /\ sprite_ok s' /\
    framesc s' = framesc s /\ delay s' = delay s /\
    phase s' = (phase s + Z.of_nat k) mod (framesc s * (delay s + 1)).
Proof.
  revert s. induction k as [|k IH]; intros s Hok H0; cbn [animate_n].
  - exists s. pose proof Hok as (Hn & Hd & Hf & Hc & _). repeat (split; [done|]).
    rewrite Z.add_0_r. symmetry. unfold phase. apply Z.mod_small. split; [nia|].
    assert (current_frame s * (delay s + 1) <= (framesc s - 1) * (delay s + 1))
      by (apply Z.mul_le_mono_nonneg_r; lia). lia.
  - destruct (animate_ok s Hok) as (s1 & E1 & Hok1 & _ & _ & _ & Hn1 & Hd1 & _).
    rewrite E1. cbn [rbind]. destruct (IH s1 Hok1) as (s2 & E2 & Hok2 & Hn2 & Hd2 & Hp2).
    { by rewrite Hd1. }
    exists s2. split; [done|]. split; [done|]. rewrite Hn2, Hd2, Hp2, Hn1, Hd1.
    split; [done|]. split; [done|]. rewrite (animate_phase s s1) by done.
    pose proof Hok as (Hn & Hd & _). rewrite Zplus_mod_idemp_l. f_equal. lia.
Qed.

(** ** Drawing *)

Section Draw.
Context {W : Type} `{Machine W, XpmLoader W}.
Implicit Types (x : gfx) (io : iost W).

Lemma wp_sprite_load p s (Q : Sprite -> gfx * iost W -> Prop) x io :
  p <> NULL -> cells (gfx_sprites x) !! p = Some s -> Q s (x, io) ->
  wp (sprite_load p) Q (x, io).
Proof.
  intros Hp Hs HQ. unfold sprite_load, on_sprites, on_statics. do 2 apply wp_zoom. cbn.
  eapply wp_load; [done..|]. by destruct x.
Qed.

Lemma wp_sprite_store p s s' (Q : unit -> gfx * iost W -> Prop) x io :
  p <> NULL -> cells (gfx_sprites x) !! p = Some s ->
  Q tt (mkGfx (gfx_gpu x) (mkStore (<[p := s']> (cells (gfx_sprites x)))
          (brk (gfx_sprites x))), io) ->
  wp (sprite_store p s') Q (x, io).
Proof.
  intros Hp Hs HQ. unfold sprite_store, on_sprites, on_statics. do 2 apply wp_zoom. cbn.
  by eapply wp_assign.
Qed.

Lemma frame_table_lookup s i :
  sprite_ok s -> 0 <= i < framesc s ->
  array_get (offsets s) i = Ok (frame_table s i).1 /\
  array_get (sizes s) i = Ok (frame_table s i).2.
Proof.
  intros (_ & _ & _ & _ & Ho & Hs) Hi. unfold frame_table. cbn [fst snd].
  destruct (lookup_lt_is_Some_2 (offsets s) (Z.to_nat i) ltac:(lia)) as [o Eo].
  destruct (lookup_lt_is_Some_2 (sizes s) (Z.to_nat i) ltac:(lia)) as [z Ez].
  rewrite !nth_lookup, Eo, Ez. split; apply array_get_ok; (lia || done).
Qed.

Lemma Sprite_draw_spec `{!MallocOk W} p pos s x io :
  indexed (gfx_gpu x) -> p <> NULL -> cells (gfx_sprites x) !! p = Some s ->
  drawable s pos ->
  wp (Sprite_draw p pos) (fun _ st =>
    painted (sprite_picture s pos) (gfx_gpu x) (gfx_gpu st.1) /\
    gfx_sprites st.1 =
      mkStore (<[p := drawn s]> (cells (gfx_sprites x))) (brk (gfx_sprites x)) /\
    io_trace st.2 = io_trace io) (x, io).
Proof.
  intros Hg Hp Hs [Hok Hd]. unfold Sprite_draw, sprite_picture, drawn.
  wp_step. eapply wp_sprite_load; [done..|].
  destruct (img s) as [image|] eqn:Ei.
  2:{ wp_step. split; [apply painted_refl|]. split; [|done]. cbn.
      rewrite insert_id by done. by destruct (gfx_sprites x). }
  destruct (decide (img_type image = INVALID_XPM)) as [Ev|Ev].
  { eapply wp_sprite_store; [done..|]. split; [apply painted_refl|done]. }
  destruct (Hd _ eq_refl Ev) as [Hfr Hpl]. pose proof Hok as (_ & _ & Hcf & _).
  specialize (Hfr _ Hcf). specialize (Hpl _ Hcf).
  destruct (frame_table_lookup s (current_frame s) Hok Hcf) as [Eo Es].
  destruct (animate_ok s Hok) as (s' & Ea & _).
  wp_step. eapply wp_lift_res; [exact Eo|]. wp_step. eapply wp_lift_res; [exact Es|].
  wp_step. rewrite Ea.
  apply wp_mono with (P := fun _ st =>
    painted (frame_picture (negb (transparent s)) image pos
      (frame_table s (current_frame s)).1 (frame_table s (current_frame s)).2)
      (gfx_gpu x) (gfx_gpu st.1) /\ gfx_sprites st.1 = gfx_sprites x /\
    io_trace st.2 = io_trace io).
  - destruct (transparent s); unfold on_gpu, on_statics; apply wp_zoom.
    + apply wp_zoom. cbn [fst snd gfx_gpu gfx_sprites].
      eapply wp_mono; [by apply gpu_draw_transparent_xpm_painted|]. intros r g' [_ Hp']. done.
    + cbn [fst snd gfx_gpu gfx_sprites]. eapply wp_mono.
      { apply gpu_draw_xpm_painted; [done..|apply malloc_succeeds]. }
      intros r [g' io'] (_ & Hp' & Ht). done.
  - intros _ [x1 io1] (Hpt & Hsp & Ht). cbn [fst snd] in *. wp_step.
    eapply wp_lift_res; [done|]. eapply wp_sprite_store; [done|by rewrite Hsp|].
    cbn. by rewrite Hsp.
Qed.

(** ** Creating *)

Lemma Sprite_create_spec `{!MallocOk W} xpm os ss n d x io :
  store_ok (gfx_sprites x) -> 0 <= n ->
  n <= Z.of_nat (length os) -> n <= Z.of_nat (length ss) ->
  wp (Sprite_create xpm os ss n d) (fun p st =>
    p = brk (gfx_sprites x) /\ p <> NULL /\ gfx_gpu st.1 = gfx_gpu x /\
    io_trace st.2 = io_trace io /\ store_ok (gfx_sprites st.1) /\
    brk (gfx_sprites st.1) = brk (gfx_sprites x) + 1 /\
    exists w ok image w' b, xpm_load xpm XPM_INDEXED w = ((ok, image), w') /\
      cells (gfx_sprites st.1) = <[p := mkSprite (Some image) (take (Z.to_nat n) os)
        (take (Z.to_nat n) ss) n d 0 0 b]> (cells (gfx_sprites x))) (x, io).
Proof.
  intros Hok Hn Ho Hs. pose proof Hok as [Hb _]. unfold Sprite_create, on_io.
  do 2 wp_step. apply wp_oracle. intros junk w0 _. cbn [snd fst].
  wp_step. unfold on_sprites. wp_step. apply wp_alloc_ok. intros io1 Ht1. cbn [fst snd] in *.
  set (p := brk (gfx_sprites x)).
  assert (p <> NULL) as Hp by (subst p; unfold NULL; lia).
  rewrite (proj2 (Z.eqb_neq p NULL)) by done. wp_step.
  unfold Sprite_init. rewrite (proj2 (Z.eqb_neq p NULL)) by done.
  wp_step. eapply wp_sprite_load; [done|cbn; apply lookup_insert_eq|].
  unfold on_io. do 2 wp_step. apply wp_malloc_ok. intros io2 Ht2. cbn [negb fst snd] in *.
  wp_step. eapply wp_sprite_store; [done|cbn; apply lookup_insert_eq|]. cbn [gfx_sprites gfx_gpu cells brk].
  rewrite insert_insert_eq. wp_step. unfold Sprite_xpm_load.
  wp_step. eapply wp_sprite_load; [done|cbn; apply lookup_insert_eq|]. cbn [img set_img].
  unfold on_io. do 2 wp_step. apply wp_oracle. intros [ok image] w1 E1. cbn [fst snd].
  eapply wp_sprite_store; [done|cbn; apply lookup_insert_eq|]. cbn [gfx_sprites gfx_gpu cells brk].
  rewrite insert_insert_eq. unfold copy_table, on_io.
  do 3 wp_step. apply wp_malloc_ok. intros io3 Ht3. cbn [negb fst snd].
  rewrite (proj2 (Z.ltb_ge _ _) Ho). do 4 wp_step. apply wp_malloc_ok.
  intros io4 Ht4. cbn [negb fst snd]. rewrite (proj2 (Z.ltb_ge _ _) Hs). do 2 wp_step.
  eapply wp_sprite_load; [done|cbn; apply lookup_insert_eq|].
  eapply wp_sprite_store; [done|cbn; apply lookup_insert_eq|]. cbn [gfx_sprites gfx_gpu cells brk].
  rewrite insert_insert_eq. wp_step. cbn [fst snd gfx_sprites gfx_gpu cells brk].
  repeat (split; [done|]). split; [cbn in *; congruence|].
  split; [by apply (store_ok_fresh (gfx_sprites x))|]. split; [done|].
  by exists (io_world io2), ok, image, w1, (tst junk).
Qed.
End Draw.

(** An animated sprite that starts at its first frame shows, after [k] draws,
    frame [(k / (delay + 1)) mod framesc]: each frame stays for exactly
    [delay + 1] draws and the frames repeat in order, without ever leaving the
    tables, whatever the 32-bit counters do. *)
Theorem Sprite_animation_schedule s k :
  sprite_ok s -> delay s <> 0 -> current_frame s = 0 -> current_delay s = 0 ->
  exists s', animate_n k s = Ok s' /\
    current_frame s' = (Z.of_nat k / (delay s + 1)) mod framesc s /\
    current_delay s' = Z.of_nat k mod (delay s + 1).
Proof.
  intros Hok H0 Hf Hc. destruct (animate_n_phase k s Hok H0) as (s' & E & Hok' & Hn & Hd & Hp).
  exists s'. split; [done|]. pose proof Hok as (Hn0 & Hd0 & _).
  pose proof Hok' as (_ & _ & _ & Hc' & _).
  unfold phase in Hp. rewrite Hf, Hc, Hd, (Z.mul_comm (framesc s)), Z.mul_0_l, !Z.add_0_l in Hp.
  rewrite Z.rem_mul_r in Hp by lia. rewrite Hd in Hc'.
  pose proof (Z.mod_pos_bound (Z.of_nat k) (delay s + 1) ltac:(lia)) as Hm.
  set (q := (Z.of_nat k / (delay s + 1)) mod framesc s) in *.
  set (r := Z.of_nat k mod (delay s + 1)) in *.
  assert (current_frame s' = q /\ current_delay s' = r) as [-> ->]; [|done].
  apply (Z.div_mod_unique (delay s + 1)); [lia..|lia].
Qed.

Lemma Sprite_animation_schedule_witness :
  exists s', animate_n 8 (mkSprite None (replicate 3 (VEC2 0 0)) (replicate 3 (VEC2 4 4))
      3 1 0 0 false) = Ok s' /\ current_frame s' = 1 /\ current_delay s' = 0.
Proof.
  apply (Sprite_animation_schedule (mkSprite None (replicate 3 (VEC2 0 0))
    (replicate 3 (VEC2 4 4)) 3 1 0 0 false) 8).
  - repeat split; cbn; lia.
  - by cbn.
  - reflexivity.
  - reflexivity.
Defined.

(** [Sprite_draw] of a sprite whose frames lie in its image paints the
    current frame at the given place (all of it, or the bytes that are not 99
    when the sprite is transparent), paints nothing when the image is missing
    or invalid, and moves only this sprite to its next state. *)
Theorem Sprite_draw_paints {W} `{Machine W, XpmLoader W, !MallocOk W} p pos s x (io : iost W) :
  indexed (gfx_gpu x) -> p <> NULL -> cells (gfx_sprites x) !! p = Some s ->
  drawable s pos ->
  exists g' io', Sprite_draw p pos (x, io) = Ok (tt, (mkGfx g'
      (mkStore (<[p := drawn s]> (cells (gfx_sprites x))) (brk (gfx_sprites x))), io')) /\
    io_trace io' = io_trace io /\ indexed g' /\
    forall px py, on_screen (gfx_gpu x) px py ->
      pixel g' px py = over (sprite_picture s pos) (pixel (gfx_gpu x)) px py.
Proof.
  intros Hg Hp Hs Hd.
  destruct (wp_run _ _ _ (Sprite_draw_spec p pos s x io Hg Hp Hs Hd))
    as ([] & [[g' sp] io'] & E & Hpt & Hsp & Ht). cbn [fst snd gfx_gpu gfx_sprites] in *.
  subst sp. exists g', io'. split; [done|]. split; [done|].
  split; [by eapply indexed_painted|]. by destruct Hpt as (b & -> & Hl & Hpx).
Qed.

(** A loader with one answer, for the concrete runs. *)
Definition one_image (image : xpm_image) {W} : XpmLoader W :=
  {| xpm_load _ _ w := ((true, image), w) |}.

Lemma Sprite_draw_paints_witness :
  exists g' io', @Sprite_draw _ _ 1 (VEC2 1 0)
    (mkGfx tiny_gpu (mkStore {[1 := mkSprite (Some (tiny_image 99)) [VEC2 1 0] [VEC2 2 2]
       1 0 0 0 true]} 2), mkIo (mkRoomy (mkScript [] [] [] [] [] [])) [])
    = Ok (tt, (mkGfx g' (mkStore {[1 := mkSprite (Some (tiny_image 99)) [VEC2 1 0] [VEC2 2 2]
       1 0 0 0 true]} 2), io')) /\
    pixel g' 1 0 = Some 5 /\ pixel g' 2 0 = Some 3.
Proof.
  pose (s := mkSprite (Some (tiny_image 99)) [VEC2 1 0] [VEC2 2 2] 1 0 0 0 true).
  pose (x := mkGfx tiny_gpu (mkStore {[1 := s]} 2)).
  pose (io := mkIo (mkRoomy (mkScript [] [] [] [] [] [])) ([] : list io_event)).
  pose (ld := one_image (tiny_image 99) (W := roomy script)).
  destruct (Sprite_draw_paints (H0 := ld) 1 (VEC2 1 0) s x io) as (g' & io' & E & _ & _ & Hp).
  - apply tiny_indexed.
  - done.
  - apply lookup_singleton_eq.
  - split; [repeat split; cbn; lia|]. intros image [= <-] _.
    split; intros i Hi; cbn in Hi; assert (i = 0) as -> by lia.
    + apply tiny_frame. lia.
    + change (coord_ok (VEC2 1 0) (VEC2 2 2)). repeat split; cbn; lia.
  - exists g', io'. split.
    + refine (eq_trans E _). by vm_compute.
    + rewrite !Hp by (split; cbn; lia). by repeat split.
Defined.

(** Drawing keeps a sprite drawable. *)
Lemma drawn_drawable s pos : drawable s pos -> drawable (drawn s) pos.
Proof.
  intros [Hok Hd]. unfold drawn. destruct (img s) as [image|] eqn:Ei.
  - destruct (decide (img_type image = INVALID_XPM)).
    + split; [exact Hok|]. intros i Hi. discriminate.
    + destruct (animate_ok s Hok) as (s' & -> & Hok' & E1 & E2 & E3 & E4 & _ & _).
      split; [done|]. intros i Hi Hv. rewrite E1, Ei in Hi. injection Hi as <-.
      destruct (Hd _ eq_refl Hv) as [Hf Hp].
      unfold frames_ok, place_ok, frame_table in *. by rewrite E2, E3, E4.
  - split; [done|]. intros i Hi. congruence.
Qed.
