(* ===== verification/SpritesAlphabet.v ===== *)
(** * The alphabet: assets/sprites/alphabet/alphabet_sprites.h

    One XPM column of 42 characters, 83 rows each, one definition per
    character. *)

From S2P Require Import Prelude.

#[local] Open Scope string_scope.

Definition alphabet_head : list string := [
"44 3486 2";
"  0";
". 63"
].

Definition glyph_comma : list string := [
"                                            ";
"                                            ";
"                                            ";
"                                            ";
"                                            ";
"                                            ";
"                                            ";
"                                            ";
"                                            ";
"                                            ";
"                                            ";
"                                            ";
"                                            ";
"                                            ";
"                                            ";
"                                            ";
"                                            ";
"                                            ";
"                                            ";
"                                            ";
"                                            ";
"                                            ";
"                                            ";
"                                            ";
"                                            ";
"                                            ";
"                                            ";
"                                            ";
"                                            ";
"                                            ";
"                                            ";
"                                            ";
"                                            ";
"                                            ";
"                                            ";
"                                            ";
"                                            ";
"                                            ";
"                                            ";
"                                            ";
"                                            ";
"                                            ";
"                                            ";
"                                            ";
"                                            ";
"                                            ";
"                                            ";
"                                            ";
"                                            ";
"                                            ";
"                                            ";
"                                            ";
"                       ... ..               ";
"                  ...........               ";
"                  ............              ";
"                  ...........               ";
"                  ............              ";
"                  ...........               ";
"                  ............              ";
"                 ............               ";
"                 ........ ....              ";
"                  ...........               ";
"                  ............              ";
"                  ...........               ";
"            ............                    ";
"            ............                    ";
"            ...........                     ";
"            ............                    ";
"            ............                    ";
"            ...........                     ";
"                                            ";
"                                            ";
"                                            ";
"                                            ";
"                                            ";
"                                            ";
"                                            ";
"                                            ";
"                                            ";
"                                            ";
"                                            ";
"                                            ";
"                                            "
].

Definition glyph_dash : list string := [
"                                            ";
"                                            ";
"                                            ";
"                                            ";
"                                            ";
"                                            ";
"                                            ";
"                                            ";
"                                            ";
"                                            ";
"                                            ";
"                                            ";
"                                            ";
"                                            ";
"                                            ";
"                                            ";
"                                            ";
"                                            ";
"                                            ";
"                                            ";
"                                            ";
"                                            ";
"                                            ";
"                                            ";
"                                            ";
"                                            ";
"                                            ";
"                                            ";
"                                            ";
"                                            ";
"                                            ";
"                                            ";
"                                            ";
"                                            ";
"                                            ";
"                                            ";
"                                            ";
"                                            ";
"             ............... ......         ";
"            .......................         ";
"           ........................         ";
"            .......................         ";
"            .......................         ";
"            .......................         ";
"                                            ";
"                                            ";
"                                            ";
"                                            ";
"                                            ";
"                                            ";
"                                            ";
"                                            ";
"                                            ";
"                                            ";
"                                            ";
"                                            ";
"                                            ";
"                                            ";
"                                            ";
"                                            ";
"                                            ";
"                                            ";
"                                            ";
"                                            ";
"                                            ";
"                                            ";
"                                            ";
"                                            ";
"                                            ";
"                                            ";
"                                            ";
"                                            ";
"                                            ";
"                                            ";
"                                            ";
"                                            ";
"                                            ";
"                                            ";
"                                            ";
"                                            ";
"                                            ";
"                                            ";
"                                            "
].

Definition glyph_dot : list string := [
"                                            ";
"                                            ";
"                                            ";
"                                            ";
"                                            ";
"                                            ";
"                                            ";
"                                            ";
"                                            ";
"                                            ";
"                                            ";
"                                            ";
"                                            ";
"                                            ";
"                                            ";
"                                            ";
"                                            ";
"                                            ";
"                                            ";
"                                            ";
"                                            ";
"                                            ";
"                                            ";
"                                            ";
"                                            ";
"                                            ";
"                                            ";
"                                            ";
"                                            ";
"                                            ";
"                                            ";
"                                            ";
"                                            ";
"                                            ";
"                                            ";
"                                            ";
"                                            ";
"                                            ";
"                                            ";
"                                            ";
"                                            ";
"                                            ";
"                                            ";
"                                            ";
"                                            ";
"                                            ";
"                                            ";
"                                            ";
"                                            ";
"                                            ";
"                                            ";
"                                            ";
"                       .. ...               ";
"                  ...........               ";
"                  ............              ";
"                  ...........               ";
"                  ............              ";
"                  ...........               ";
"                  ............              ";
"                 ............               ";
"                 .............              ";
"                  ...........               ";
"                  ............              ";
"                  ...........               ";
"                                            ";
"                                            ";
"                                            ";
"                                            ";
"                                            ";
"                                            ";
"                                            ";
"                                            ";
"                                            ";
"                                            ";
"                                            ";
"                                            ";
"                                            ";
"                                            ";
"                                            ";
"                                            ";
"                                            ";
"                                            ";
"                                            "
].

Definition glyph_slash : list string := [
"                                            ";
"                                            ";
"                                            ";
"                                            ";
"                                            ";
"                                            ";
"                                            ";
"                                            ";
"                                            ";
"                                            ";
"                                            ";
"                                            ";
"                                            ";
"                                            ";
"                                            ";
"                                            ";
"                                            ";
"                                            ";
"                                ........... ";
"                                ............";
"                                ............";
"                                ........... ";
"                                ............";
"                                ........... ";
"                                ........... ";
"                                ............";
"                                ............";
"                                ........... ";
"                                ............";
"                          ...........   .   ";
"                          ............      ";
"                          ............      ";
"                          ............      ";
"                          ............      ";
"                          ............      ";
"                    ............            ";
"                    ............            ";
"                    ............            ";
"                    ............            ";
"                    ............            ";
"                    ...........             ";
"              ............                  ";
"               ...........                  ";
"              ............                  ";
"               ...........                  ";
"              ............                  ";
"             .......... ..                  ";
"         ...........                        ";
"        ............                        ";
"         ............                       ";
"        ............                        ";
"         ...........                        ";
"     . ........                             ";
"   ............                             ";
"   ...........                              ";
"   ............                             ";
"   ............                             ";
"   ...........                              ";
"     ..........                             ";
"  ............                              ";
"  .............                             ";
"   ...........                              ";
"   ............                             ";
"   ...........                              ";
"                                            ";
"                                            ";
"                                            ";
"                                            ";
"                                            ";
"                                            ";
"                                            ";
"                                            ";
"                                            ";
"                                            ";
"                                            ";
"                                            ";
"                                            ";
"                                            ";
"                                            ";
"                                            ";
"                                            ";
"                                            ";
"                                            "
].

Definition glyph_0 : list string := [
"                                            ";
"                                            ";
"                                            ";
"                                            ";
"                                            ";
"                                            ";
"                                            ";
"                                            ";
"                                            ";
"                                            ";
"                                            ";
"                                            ";
"                                            ";
"                                            ";
"                                            ";
"                                            ";
"                                            ";
"                                            ";
"         .............................      ";
"         .............................      ";
"        ..............................      ";
"         ............................       ";
"         .............................      ";
"   ............ ...... .....................";
"   ............                 ........... ";
"   ...........                  ............";
"   ............                 ............";
"   ...........                  ........... ";
"   ...........                  ............";
"   ............           ................. ";
"   ............           ................. ";
"   ...........            ..................";
"   ............           ................. ";
"   ...........            ..................";
"   ...........            ..................";
"   ............      ...................... ";
"   ............     ........................";
"   ...........      ....................... ";
"   ............     ....................... ";
"   ...........      ........................";
"   ...........      ........ .. ............";
"   .......................      ........... ";
"   .......................      ............";
"   .......................      ........... ";
"   .......................      ........... ";
"   .......................      ............";
"   ...................  ..      ............";
"   .................            ........... ";
"   .................            ............";
"   ..................           ........... ";
"   .................            ........... ";
"   .................            ............";
"   ............   ..            ............";
"   ............                 ........... ";
"   ...........                  ............";
"   ............                 ........... ";
"   ............                 ........... ";
"   ...........                  ............";
"        ..............................      ";
"         .............................      ";
"         .............................      ";
"         .............................      ";
"        ..............................      ";
"         .............................      ";
"                                            ";
"                                            ";
"                                            ";
"                                            ";
"                                            ";
"                                            ";
"                                            ";
"                                            ";
"                                            ";
"                                            ";
"                                            ";
"                                            ";
"                                            ";
"                                            ";
"                                            ";
"                                            ";
"                                            ";
"                                            ";
"                                            "
].

Definition glyph_1 : list string := [
"                                            ";
"                                            ";
"                                            ";
"                                            ";
"                                            ";
"                                            ";
"                                            ";
"                                            ";
"                                            ";
"                                            ";
"                                            ";
"                                            ";
"                                            ";
"                                            ";
"                                            ";
"                                            ";
"                                            ";
"                                            ";
"                  ...........               ";
"                  ...........               ";
"                 ............               ";
"                  ...........               ";
"                  ...........               ";
"            .................               ";
"            .................               ";
"            .................               ";
"            .................               ";
"            .................               ";
"            .................               ";
"                  ............              ";
"                 ............               ";
"                  ...........               ";
"                  ...........               ";
"                  ...........               ";
"                 ............               ";
"                  ............              ";
"                 ............               ";
"                  ...........               ";
"                  ...........               ";
"                 ............               ";
"                  ...........               ";
"                 ............               ";
"                  ...........               ";
"                  ...........               ";
"                 ............               ";
"                  ...........               ";
"                 ............               ";
"                  ...........               ";
"                  ...........               ";
"                  ............              ";
"                 ............               ";
"                  ...........               ";
"                  ............              ";
"                  ...........               ";
"                 ............               ";
"                  ...........               ";
"                  ...........               ";
"                  ...........               ";
"            .......................         ";
"            .......................         ";
"            .......................         ";
"            .......................         ";
"            .......................         ";
"            .......................         ";
"                                            ";
"                                            ";
"                                            ";
"                                            ";
"                                            ";
"                                            ";
"                                            ";
"                                            ";
"                                            ";
"                                            ";
"                                            ";
"                                            ";
"                                            ";
"                                            ";
"                                            ";
"                                            ";
"                                            ";
"                                            ";
"                                            "
].

Definition glyph_2 : list string := [
"                                            ";
"                                            ";
"                                            ";
"                                            ";
"                                            ";
"                                            ";
"                                            ";
"                                            ";
"                                            ";
"                                            ";
"                                            ";
"                                            ";
"                                            ";
"                                            ";
"                                            ";
"                                            ";
"                                            ";
"                                            ";
"         .............................      ";
"         .............................      ";
"        ..............................      ";
"         ............................       ";
"         .............................      ";
"      ......... ..... ................. ... ";
"  .............                 ........... ";
"   ...........                  ............";
"   ............                 ............";
"   ...........                  ........... ";
"   ...........                  ............";
"                                ........... ";
"                                ........... ";
"                                ............";
"                                ........... ";
"                                ............";
"                                ............";
"         .............................      ";
"        ..............................      ";
"         .............................      ";
"         .............................      ";
"        ..............................      ";
"        .............................       ";
"   ...........                              ";
"   ...........                              ";
"   ............                             ";
"  .............                             ";
"   ...........                              ";
"   ...........                              ";
"   ............                             ";
"  .............                             ";
"   ...........                              ";
"   ............                             ";
"   ...........                              ";
"   ............                 .. ... ...  ";
"   ...........                  ............";
"   ............                 ............";
"   ...........                  ........... ";
"   ............                 ........... ";
"   ...........                  ............";
"   .........................................";
"  ......................................... ";
"  ..........................................";
"   ........................................ ";
"   ........................................ ";
"   .........................................";
"                                            ";
"                                            ";
"                                            ";
"                                            ";
"                                            ";
"                                            ";
"                                            ";
"                                            ";
"                                            ";
"                                            ";
"                                            ";
"                                            ";
"                                            ";
"                                            ";
"                                            ";
"                                            ";
"                                            ";
"                                            ";
"                                            "
].

Definition glyph_3 : list string := [
"                                            ";
"                                            ";
"                                            ";
"                                            ";
"                                            ";
"                                            ";
"                                            ";
"                                            ";
"                                            ";
"                                            ";
"                                            ";
"                                            ";
"                                            ";
"                                            ";
"                                            ";
"                                            ";
"                                            ";
"                                            ";
"   ........................................ ";
"   .........................................";
"  ......................................... ";
"   .........................................";
"   .........................................";
"   .. ......... ........................... ";
"                          ............      ";
"                          ............      ";
"                          ............      ";
"                          ............      ";
"                          ............      ";
"                        ........  ..        ";
"                    ............            ";
"                    ............            ";
"                    ............            ";
"                    ............            ";
"                    ............            ";
"              ........................      ";
"               .......................      ";
"              ........................      ";
"               .......................      ";
"              ........................      ";
"              ........................      ";
"                                ............";
"                                ............";
"                                ........... ";
"                                ........... ";
"                                ............";
"                                ............";
"                                ........... ";
"                                ............";
"                                ....... ... ";
"                                ........... ";
"                                ............";
"   ...........                  ............";
"   ...........                  ........... ";
"   ............                 ............";
"   ...........                  ........... ";
"   ............                 ........... ";
"   ...........                  ............";
"        ..............................      ";
"         .............................      ";
"        ..............................      ";
"         .............................      ";
"        ..............................      ";
"         .............................      ";
"                                            ";
"                                            ";
"                                            ";
"                                            ";
"                                            ";
"                                            ";
"                                            ";
"                                            ";
"                                            ";
"                                            ";
"                                            ";
"                                            ";
"                                            ";
"                                            ";
"                                            ";
"                                            ";
"                                            ";
"                                            ";
"                                            "
].

Definition glyph_4 : list string := [
"                                            ";
"                                            ";
"                                            ";
"                                            ";
"                                            ";
"                                            ";
"                                            ";
"                                            ";
"                                            ";
"                                            ";
"                                            ";
"                                            ";
"                                            ";
"                                            ";
"                                            ";
"                                            ";
"                                            ";
"                                            ";
"                    ....................... ";
"                    ........................";
"                    ........................";
"                    ....................... ";
"                    ........................";
"                 .. ....................... ";
"              ............      ........... ";
"              ............      ............";
"              ............      ............";
"               ...........      ........... ";
"              ............       ...........";
"         ............           ........... ";
"        ............            ........... ";
"         ...........            ............";
"         ............           ........... ";
"        ............            ............";
"         ...........            ............";
"   ............                 ........... ";
"  .............                 ............";
"   ...........                  ........... ";
"   ............                 ........... ";
"   ...........                  ............";
"   ...........                  ............";
"   ........................................ ";
"   .........................................";
"   ........................................ ";
"  ......................................... ";
"   .........................................";
"   .........................................";
"                                ........... ";
"                                ............";
"                                ........... ";
"                                ........... ";
"                                ............";
"                                ............";
"                                .... ...... ";
"                                ............";
"                                ........... ";
"                                ........... ";
"                                ............";
"                                ............";
"                                ........... ";
"                                ............";
"                                ........... ";
"                                ........... ";
"                                ............";
"                                            ";
"                                            ";
"                                            ";
"                                            ";
"                                            ";
"                                            ";
"                                            ";
"                                            ";
"                                            ";
"                                            ";
"                                            ";
"                                            ";
"                                            ";
"                                            ";
"                                            ";
"                                            ";
"                                            ";
"                                            ";
"                                            "
].

Definition glyph_5 : list string := [
"                                            ";
"                                            ";
"                                            ";
"                                            ";
"                                            ";
"                                            ";
"                                            ";
"                                            ";
"                                            ";
"                                            ";
"                                            ";
"                                            ";
"                                            ";
"                                            ";
"                                            ";
"                                            ";
"                                            ";
"                                            ";
"   ...................................      ";
"   ...................................      ";
"  ....................................      ";
"   ..................................       ";
"   ...................................      ";
"   ............ ...... ..............       ";
"  .............                             ";
"   ...........                              ";
"   ............                             ";
"   ...........                              ";
"   ...........                              ";
"   ............                             ";
"  .............                             ";
"   ...........                              ";
"   ............                             ";
"   ...........                              ";
"   ...........                              ";
"  ....................................      ";
"  ....................................      ";
"   ...................................      ";
"   ...................................      ";
"   ...................................      ";
"   ...................................      ";
"                                ............";
"                                ............";
"                                ........... ";
"                                ........... ";
"                                ............";
"                                ............";
"                                ........... ";
"                                ............";
"                                ........... ";
"                                ........... ";
"                                ............";
"   .. ........                  ............";
"   ...........                  ........... ";
"   ............                 ............";
"   ...........                  ........... ";
"   ............                 ........... ";
"   ...........                  ............";
"        ..............................      ";
"         .............................      ";
"         .............................      ";
"         .............................      ";
"        ..............................      ";
"         .............................      ";
"                                            ";
"                                            ";
"                                            ";
"                                            ";
"                                            ";
"                                            ";
"                                            ";
"                                            ";
"                                            ";
"                                            ";
"                                            ";
"                                            ";
"                                            ";
"                                            ";
"                                            ";
"                                            ";
"                                            ";
"                                            ";
"                                            "
].

Definition glyph_6 : list string := [
"                                            ";
"                                            ";
"                                            ";
"                                            ";
"                                            ";
"                                            ";
"                                            ";
"                                            ";
"                                            ";
"                                            ";
"                                            ";
"                                            ";
"                                            ";
"                                            ";
"                                            ";
"                                            ";
"                                            ";
"                                            ";
"         .............................      ";
"         .............................      ";
"        ..............................      ";
"         ............................       ";
"         .............................      ";
"   ............. ..... .....................";
"   ............                 ........... ";
"   ...........                  ............";
"   ............                 ............";
"   ...........                  ........... ";
"   ...........                  ............";
"   ............                             ";
"   ............                             ";
"   ...........                              ";
"   ............                             ";
"   ...........                              ";
"   ...........                              ";
"   ...................................      ";
"   ...................................      ";
"   ...................................      ";
"   ...................................      ";
"   ...................................      ";
"   ...................................      ";
"   ...........                  ............";
"   ...........                  ............";
"   ............                 ........... ";
"   ............                 ........... ";
"   ...........                  ............";
"   ...........                  ............";
"   ............                 ........... ";
"   ...........                  ............";
"   ............                 ........... ";
"   ...........                  ........... ";
"   ............                 ............";
"   ...........                  ............";
"   ...........                  ........... ";
"   ............                 ............";
"   ...........                  ........... ";
"   ............                 ............";
"   ...........                  ............";
"        ..............................      ";
"        ..............................      ";
"         .............................      ";
"         .............................      ";
"        ..............................      ";
"         .............................      ";
"                                            ";
"                                            ";
"                                            ";
"                                            ";
"                                            ";
"                                            ";
"                                            ";
"                                            ";
"                                            ";
"                                            ";
"                                            ";
"                                            ";
"                                            ";
"                                            ";
"                                            ";
"                                            ";
"                                            ";
"                                            ";
"                                            "
].

Definition glyph_7 : list string := [
"                                            ";
"                                            ";
"                                            ";
"                                            ";
"                                            ";
"                                            ";
"                                            ";
"                                            ";
"                                            ";
"                                            ";
"                                            ";
"                                            ";
"                                            ";
"                                            ";
"                                            ";
"                                            ";
"                                            ";
"                                            ";
"   ........................................ ";
"   .........................................";
"  ..........................................";
"   ........................................ ";
"   .........................................";
"   ............ ..... ..................... ";
"  .............                 ........... ";
"   ...........                  ............";
"   ............                 ............";
"   ...........                  ........... ";
"   ...........                  ............";
"                          ............      ";
"                          ............      ";
"                          ............      ";
"                          ............      ";
"                          ............      ";
"                          ............      ";
"                    ............            ";
"                    ............            ";
"                    ............            ";
"                    ............            ";
"                    ............            ";
"                    ........ ..             ";
"              ............                  ";
"               ...........                  ";
"              ............                  ";
"               ...........                  ";
"              ............                  ";
"              ............                  ";
"               ...........                  ";
"              ............                  ";
"              ............                  ";
"               ...........                  ";
"              ............                  ";
"              ............                  ";
"               ...........                  ";
"              ............                  ";
"              ............                  ";
"              ............                  ";
"              ............                  ";
"               ...........                  ";
"              ............                  ";
"              ............                  ";
"               ...........                  ";
"              ............                  ";
"              ............                  ";
"                                            ";
"                                            ";
"                                            ";
"                                            ";
"                                            ";
"                                            ";
"                                            ";
"                                            ";
"                                            ";
"                                            ";
"                                            ";
"                                            ";
"                                            ";
"                                            ";
"                                            ";
"                                            ";
"                                            ";
"                                            ";
"                                            "
].

Definition glyph_8 : list string := [
"                                            ";
"                                            ";
"                                            ";
"                                            ";
"                                            ";
"                                            ";
"                                            ";
"                                            ";
"                                            ";
"                                            ";
"                                            ";
"                                            ";
"                                            ";
"                                            ";
"                                            ";
"                                            ";
"                                            ";
"                                            ";
"         .............................      ";
"         .............................      ";
"        ..............................      ";
"         ............................       ";
"         .............................      ";
"      ......... ...... ................ ... ";
"   ............                 ........... ";
"   ...........                  ............";
"   ............                 ............";
"   ...........                  ........... ";
"   ...........                  ............";
"   ............                 ........... ";
"   ............                 ........... ";
"   ...........                  ............";
"   ............                 ........... ";
"   ...........                  ............";
"   ...........                  ............";
"         .............................      ";
"         .............................      ";
"        ..............................      ";
"         .............................      ";
"        ..............................      ";
"         .............................      ";
"   ...........                  ............";
"   ...........                  ............";
"   ............                 ........... ";
"   ............                 ........... ";
"   ...........                  ............";
"   ...........                  ............";
"   ............                 ........... ";
"   ............                 ............";
"   ...........                  ........... ";
"   ............                 ........... ";
"   ...........                  ............";
"   ............                 ............";
"   ...........                  ........... ";
"   ............                 ............";
"   ...........                  ........... ";
"   ............                 ............";
"   ...........                  ............";
"        ..............................      ";
"        ..............................      ";
"         .............................      ";
"         .............................      ";
"        ..............................      ";
"         .............................      ";
"                                            ";
"                                            ";
"                                            ";
"                                            ";
"                                            ";
"                                            ";
"                                            ";
"                                            ";
"                                            ";
"                                            ";
"                                            ";
"                                            ";
"                                            ";
"                                            ";
"                                            ";
"                                            ";
"                                            ";
"                                            ";
"                                            "
].

Definition glyph_9 : list string := [
"                                            ";
"                                            ";
"                                            ";
"                                            ";
"                                            ";
"                                            ";
"                                            ";
"                                            ";
"                                            ";
"                                            ";
"                                            ";
"                                            ";
"                                            ";
"                                            ";
"                                            ";
"                                            ";
"                                            ";
"                                            ";
"        ..............................      ";
"         .............................      ";
"         .............................      ";
"        .............................       ";
"         .............................      ";
"        ....... ...... ...............      ";
"   ............                 ........... ";
"   ...........                  ............";
"   ............                 ............";
"   ...........                  ........... ";
"   ...........                  ............";
"   ............                 ........... ";
"   ............                 ........... ";
"   ...........                  ............";
"   ............                 ........... ";
"   ...........                  ............";
"   ...........                  ............";
"   ............                 ........... ";
"   ............                 ............";
"   ...........                  ........... ";
"   ............                 ........... ";
"   ...........                  ............";
"   ...........                  ............";
"         .................................. ";
"        ....................................";
"         .................................. ";
"        ................................... ";
"         ...................................";
"         ...................................";
"                                ........... ";
"                                ............";
"                                ........... ";
"                                ........... ";
"                                ............";
"   .. ........                  ............";
"   ...........                  ........... ";
"   ............                 ............";
"   ...........                  ........... ";
"   ............                 ........... ";
"   ...........                  ............";
"        ..............................      ";
"         .............................      ";
"         .............................      ";
"         .............................      ";
"        ..............................      ";
"         .............................      ";
"                                            ";
"                                            ";
"                                            ";
"                                            ";
"                                            ";
"                                            ";
"                                            ";
"                                            ";
"                                            ";
"                                            ";
"                                            ";
"                                            ";
"                                            ";
"                                            ";
"                                            ";
"                                            ";
"                                            ";
"                                            ";
"                                            "
].

Definition glyph_colon : list string := [
"                                            ";
"                                            ";
"                                            ";
"                                            ";
"                                            ";
"                                            ";
"                                            ";
"                                            ";
"                                            ";
"                                            ";
"                                            ";
"                                            ";
"                                            ";
"                                            ";
"                                            ";
"                                            ";
"                                            ";
"                                            ";
"                                            ";
"                                            ";
"                                            ";
"                                            ";
"                                            ";
"                                            ";
"                                            ";
"                                            ";
"                                            ";
"                                            ";
"                                            ";
"                  ...........               ";
"                  ...........               ";
"                  ............              ";
"                  ............              ";
"                  ...........               ";
"                  ...........               ";
"                 .............              ";
"                  ............              ";
"                  ...........               ";
"                  ............              ";
"                  ...........               ";
"                    . .. ..                 ";
"                                            ";
"                                            ";
"                                            ";
"                                            ";
"                                            ";
"                                            ";
"                                            ";
"                                            ";
"                                            ";
"                                            ";
"                                            ";
"                       .. ...               ";
"                  ...........               ";
"                  ............              ";
"                  ...........               ";
"                  ............              ";
"                  ...........               ";
"                  ............              ";
"                 ............               ";
"                  ............              ";
"                  ...........               ";
"                  ............              ";
"                  ...........               ";
"                                            ";
"                                            ";
"                                            ";
"                                            ";
"                                            ";
"                                            ";
"                                            ";
"                                            ";
"                                            ";
"                                            ";
"                                            ";
"                                            ";
"                                            ";
"                                            ";
"                                            ";
"                                            ";
"                                            ";
"                                            ";
"                                            "
].

Definition glyph_A : list string := [
"                                            ";
"                                            ";
"                                            ";
"                                            ";
"                                            ";
"                                            ";
"                                            ";
"                                            ";
"                                            ";
"                                            ";
"                                            ";
"                                            ";
"                                            ";
"                                            ";
"                                            ";
"                                            ";
"                                            ";
"                                            ";
"               .................            ";
"              ..................            ";
"               .................            ";
"              ..................            ";
"              ..................            ";
"               ...... ..........            ";
"         ...........      ............      ";
"        ............      ............      ";
"         ...........      ............      ";
"        .............     ............      ";
"         ...........      ............      ";
"   ............                 ........... ";
"   ............                 ........... ";
"   ...........                  ............";
"   ............                 ........... ";
"   ...........                  ............";
"   ...........                  ............";
"   ............                 ........... ";
"   ............                 ............";
"   ...........                  ........... ";
"   ............                 ........... ";
"   ...........                  ............";
"   ...........                  ............";
"   ........................................ ";
"   .........................................";
"   ........................................ ";
"   ........................................ ";
"   .........................................";
"   .........................................";
"   ...........                  ........... ";
"   ...........                  ............";
"   ............                 ........... ";
"   ...........                  ........... ";
"   ............                 ............";
"   ...........                  ............";
"   ...........                  ........... ";
"   ............                 ............";
"   ...........                  ........... ";
"   ...........                  ........... ";
"   ............                 ............";
"   ...........                  ............";
"   ............                 ........... ";
"   ...........                  ............";
"   ...........                  ........... ";
"   ............                 ........... ";
"   ...........                  ............";
"                                            ";
"                                            ";
"                                            ";
"                                            ";
"                                            ";
"                                            ";
"                                            ";
"                                            ";
"                                            ";
"                                            ";
"                                            ";
"                                            ";
"                                            ";
"                                            ";
"                                            ";
"                                            ";
"                                            ";
"                                            ";
"                                            "
].

Definition glyph_B : list string := [
"                                            ";
"                                            ";
"                                            ";
"                                            ";
"                                            ";
"                                            ";
"                                            ";
"                                            ";
"                                            ";
"                                            ";
"                                            ";
"                                            ";
"                                            ";
"                                            ";
"                                            ";
"                                            ";
"                                            ";
"                                            ";
"   ...................................      ";
"   ...................................      ";
"   ...................................      ";
"   ..................................       ";
"   ...................................      ";
"   ............. ..... ................ ... ";
"   ............                 ........... ";
"   ...........                  ............";
"   ............                 ............";
"   ...........                  ........... ";
"   ...........                  ............";
"   ............                 ........... ";
"   ............                 ........... ";
"   ...........                  ............";
"   ............                 ........... ";
"   ...........                  ............";
"   ...........                  ............";
"   ...................................      ";
"   ...................................      ";
"   ...................................      ";
"   ...................................      ";
"   ...................................      ";
"   ...................................      ";
"   ...........                  ............";
"   ............                 ............";
"   ...........                  ........... ";
"   ............                 ........... ";
"   ...........                  ............";
"   ...........                  ............";
"   ............                 ........... ";
"   ...........                  ............";
"   ............                 ........... ";
"   ...........                  ........... ";
"   ............                 ............";
"   ...........                  ............";
"   ...........                  ........... ";
"   ............                 ............";
"   ...........                  ........... ";
"   ...........                  ............";
"   ...........                  ............";
"   ...................................      ";
"   ...................................      ";
"   ...................................      ";
"   ...................................      ";
"   ...................................      ";
"   ...................................      ";
"                                            ";
"                                            ";
"                                            ";
"                                            ";
"                                            ";
"                                            ";
"                                            ";
"                                            ";
"                                            ";
"                                            ";
"                                            ";
"                                            ";
"                                            ";
"                                            ";
"                                            ";
"                                            ";
"                                            ";
"                                            ";
"                                            "
].

Definition glyph_C : list string := [
"                                            ";
"                                            ";
"                                            ";
"                                            ";
"                                            ";
"                                            ";
"                                            ";
"                                            ";
"                                            ";
"                                            ";
"                                            ";
"                                            ";
"                                            ";
"                                            ";
"                                            ";
"                                            ";
"                                            ";
"                                            ";
"               .......................      ";
"              ........................      ";
"               .......................      ";
"              .......................       ";
"              ........................      ";
"         ............ ......................";
"         ...........            ........... ";
"        ............            ............";
"         ............           ............";
"        ............            ........... ";
"         ...........            ............";
"   ...........                              ";
"   ...........                              ";
"   ............                             ";
"   ............                             ";
"   ...........                              ";
"   ...........                              ";
"  .............                             ";
"  .............                             ";
"   ...........                              ";
"   ............                             ";
"   ...........                              ";
"   ...........                              ";
"   ............                             ";
"   ............                             ";
"   ...........                              ";
"  .............                             ";
"   ...........                              ";
"   ...........                              ";
"   ............                             ";
"  .............                             ";
"   ...........                              ";
"   ............                             ";
"   ...........                              ";
"        ............            ........... ";
"         ............           ............";
"        ............            ............";
"         ...........            ........... ";
"         ...........            ........... ";
"        ............            ............";
"              ........................      ";
"               .......................      ";
"              ........................      ";
"               .......................      ";
"              ........................      ";
"              ........................      ";
"                                            ";
"                                            ";
"                                            ";
"                                            ";
"                                            ";
"                                            ";
"                                            ";
"                                            ";
"                                            ";
"                                            ";
"                                            ";
"                                            ";
"                                            ";
"                                            ";
"                                            ";
"                                            ";
"                                            ";
"                                            ";
"                                            "
].

Definition glyph_D : list string := [
"                                            ";
"                                            ";
"                                            ";
"                                            ";
"                                            ";
"                                            ";
"                                            ";
"                                            ";
"                                            ";
"                                            ";
"                                            ";
"                                            ";
"                                            ";
"                                            ";
"                                            ";
"                                            ";
"                                            ";
"                                            ";
"   .............................            ";
"   .............................            ";
"   .............................            ";
"   .............................            ";
"   .............................            ";
"   ............. .... ................      ";
"   ............           ............      ";
"   ...........            ............      ";
"   ............           ............      ";
"   ...........            ............      ";
"   ...........            ............      ";
"   ............                 ............";
"   ............                 ........... ";
"   ...........                  ............";
"   ............                 ........... ";
"   ...........                  ............";
"   ...........                  ............";
"   ............                 ........... ";
"   ............                 ............";
"   ...........                  ........... ";
"   ............                 ........... ";
"   ...........                  ............";
"   ...........                  ............";
"   ............                 ........... ";
"   ............                 ............";
"   ...........                  ........... ";
"   ............                 ........... ";
"   ...........                  ............";
"   ...........                  ............";
"   ............                 ........... ";
"   ...........                  ............";
"   ............                 ........... ";
"   ...........                  ............";
"   ............                 ............";
"   ...........            ............      ";
"   ...........            ............      ";
"   ............           ............      ";
"   ...........            ............      ";
"   ...........            ............      ";
"   ...........            ............      ";
"   .............................            ";
"   .............................            ";
"   .............................            ";
"   .............................            ";
"   .............................            ";
"   .............................            ";
"                                            ";
"                                            ";
"                                            ";
"                                            ";
"                                            ";
"                                            ";
"                                            ";
"                                            ";
"                                            ";
"                                            ";
"                                            ";
"                                            ";
"                                            ";
"                                            ";
"                                            ";
"                                            ";
"                                            ";
"                                            ";
"                                            "
].

Definition glyph_E : list string := [
"                                            ";
"                                            ";
"                                            ";
"                                            ";
"                                            ";
"                                            ";
"                                            ";
"                                            ";
"                                            ";
"                                            ";
"                                            ";
"                                            ";
"                                            ";
"                                            ";
"                                            ";
"                                            ";
"                                            ";
"                                            ";
"   ........................................ ";
"   .........................................";
"   ........................................ ";
"   .........................................";
"   .........................................";
"   ............. ...... ............ ...... ";
"   ............                             ";
"   ...........                              ";
"   ............                             ";
"   ...........                              ";
"   ...........                              ";
"   ............                             ";
"   ............                             ";
"   ...........                              ";
"   ............                             ";
"   ...........                              ";
"   ...........                              ";
"   .............................            ";
"   .............................            ";
"   .............................            ";
"   .............................            ";
"   .............................            ";
"   .............................            ";
"   ...........                              ";
"   ............                             ";
"   ...........                              ";
"   ............                             ";
"   ...........                              ";
"   ...........                              ";
"   ............                             ";
"   ...........                              ";
"   ............                             ";
"   ...........                              ";
"   ............                             ";
"   ...........                              ";
"   ...........                              ";
"   ............                             ";
"   ...........                              ";
"   ...........                              ";
"   ...........                              ";
"   ........................................ ";
"   .........................................";
"   .........................................";
"   ........................................ ";
"   ........................................ ";
"   .........................................";
"                                            ";
"                                            ";
"                                            ";
"                                            ";
"                                            ";
"                                            ";
"                                            ";
"                                            ";
"                                            ";
"                                            ";
"                                            ";
"                                            ";
"                                            ";
"                                            ";
"                                            ";
"                                            ";
"                                            ";
"                                            ";
"                                            "
].

Definition glyph_F : list string := [
"                                            ";
"                                            ";
"                                            ";
"                                            ";
"                                            ";
"                                            ";
"                                            ";
"                                            ";
"                                            ";
"                                            ";
"                                            ";
"                                            ";
"                                            ";
"                                            ";
"                                            ";
"                                            ";
"                                            ";
"                                            ";
"   ........................................ ";
"   .........................................";
"   ........................................ ";
"   .........................................";
"   .........................................";
"   ............. ...... ............ ...... ";
"   ............                             ";
"   ...........                              ";
"   ............                             ";
"   ...........                              ";
"   ...........                              ";
"   ............                             ";
"   ............                             ";
"   ...........                              ";
"   ............                             ";
"   ...........                              ";
"   ...........                              ";
"   .............................            ";
"   .............................            ";
"   .............................            ";
"   .............................            ";
"   .............................            ";
"   .............................            ";
"   ...........                              ";
"   ............                             ";
"   ...........                              ";
"   ............                             ";
"   ...........                              ";
"   ...........                              ";
"   ............                             ";
"   ...........                              ";
"   ............                             ";
"   ...........                              ";
"   ............                             ";
"   ...........                              ";
"   ...........                              ";
"   ............                             ";
"   ...........                              ";
"   ...........                              ";
"   ............                             ";
"   ...........                              ";
"   ............                             ";
"   ...........                              ";
"   ...........                              ";
"   ............                             ";
"   ...........                              ";
"                                            ";
"                                            ";
"                                            ";
"                                            ";
"                                            ";
"                                            ";
"                                            ";
"                                            ";
"                                            ";
"                                            ";
"                                            ";
"                                            ";
"                                            ";
"                                            ";
"                                            ";
"                                            ";
"                                            ";
"                                            ";
"                                            "
].

Definition glyph_G : list string := [
"                                            ";
"                                            ";
"                                            ";
"                                            ";
"                                            ";
"                                            ";
"                                            ";
"                                            ";
"                                            ";
"                                            ";
"                                            ";
"                                            ";
"                                            ";
"                                            ";
"                                            ";
"                                            ";
"                                            ";
"                                            ";
"               .......................      ";
"              ........................      ";
"               .......................      ";
"              .......................       ";
"              ........................      ";
"         ............ ......................";
"         ...........            ........... ";
"        ............            ............";
"         ............           ............";
"        ............            ........... ";
"         ...........            ............";
"   ...........                              ";
"   ...........                              ";
"   ............                             ";
"   ............                             ";
"   ...........                              ";
"   ...........                              ";
"  .............                             ";
"   ............                             ";
"   ...........                              ";
"   ............     ....................... ";
"   ...........      ........................";
"   ...........      ........................";
"   ............     ....................... ";
"   ............     ........................";
"   ...........       ....... .............. ";
"  .............                 ........... ";
"   ...........                  ............";
"   ...........                  ............";
"   ............                 ........... ";
"  .............                 ............";
"   ...........                  ........... ";
"   ............                 ........... ";
"   ...........                  ............";
"        ............            ............";
"         ............           ........... ";
"        ............            ............";
"         ...........            ........... ";
"         ...........            ........... ";
"        ............            ............";
"              ..............................";
"               ............................ ";
"              ..............................";
"               ............................ ";
"              ............................. ";
"              ..............................";
"                                            ";
"                                            ";
"                                            ";
"                                            ";
"                                            ";
"                                            ";
"                                            ";
"                                            ";
"                                            ";
"                                            ";
"                                            ";
"                                            ";
"                                            ";
"                                            ";
"                                            ";
"                                            ";
"                                            ";
"                                            ";
"                                            "
].

Definition glyph_H : list string := [
"                                            ";
"                                            ";
"                                            ";
"                                            ";
"                                            ";
"                                            ";
"                                            ";
"                                            ";
"                                            ";
"                                            ";
"                                            ";
"                                            ";
"                                            ";
"                                            ";
"                                            ";
"                                            ";
"                                            ";
"                                            ";
"   ............                 ........... ";
"   ...........                  ............";
"   ............                 ............";
"   ...........                  ........... ";
"   ...........                  ............";
"   ............                 ........... ";
"   ............                 ........... ";
"   ...........                  ............";
"   ............                 ............";
"   ...........                  ........... ";
"   ...........                  ............";
"   ............                 ........... ";
"   ............                 ........... ";
"   ...........                  ............";
"   ............                 ........... ";
"   ...........                  ............";
"   ...........                  ............";
"   ........................................ ";
"   .........................................";
"   ........................................ ";
"   ........................................ ";
"   .........................................";
"   .........................................";
"   ...........                  ........... ";
"   ...........                  ............";
"   ............                 ........... ";
"   ............                 ........... ";
"   ...........                  ............";
"   ...........                  ............";
"   ............                 ........... ";
"   ...........                  ............";
"   ............                 ........... ";
"   ...........                  ........... ";
"   ............                 ............";
"   ...........                  ............";
"   ...........                  ........... ";
"   ............                 ............";
"   ...........                  ........... ";
"   ...........                  ........... ";
"   ............                 ............";
"   ...........                  ............";
"   ............                 ........... ";
"   ...........                  ............";
"   ...........                  ........... ";
"   ............                 ........... ";
"   ...........                  ............";
"                                            ";
"                                            ";
"                                            ";
"                                            ";
"                                            ";
"                                            ";
"                                            ";
"                                            ";
"                                            ";
"                                            ";
"                                            ";
"                                            ";
"                                            ";
"                                            ";
"                                            ";
"                                            ";
"                                            ";
"                                            ";
"                                            "
].

Definition glyph_I : list string := [
"                                            ";
"                                            ";
"                                            ";
"                                            ";
"                                            ";
"                                            ";
"                                            ";
"                                            ";
"                                            ";
"                                            ";
"                                            ";
"                                            ";
"                                            ";
"                                            ";
"                                            ";
"                                            ";
"                                            ";
"                                            ";
"      ...................................   ";
"      ...................................   ";
"     ....................................   ";
"      ..................................    ";
"      ...................................   ";
"      .. ............................ ...   ";
"                  ...........               ";
"                 ............               ";
"                  ...........               ";
"                 ............               ";
"                 ............               ";
"                  ...........               ";
"                 ............               ";
"                 ............               ";
"                  ...........               ";
"                 ............               ";
"                 ............               ";
"                  ...........               ";
"                 ............               ";
"                 ............               ";
"                 ............               ";
"                  ...........               ";
"                 ............               ";
"                  ...........               ";
"                  ...........               ";
"                 ............               ";
"                  ...........               ";
"                 ............               ";
"                 ............               ";
"                  ...........               ";
"                 ............               ";
"                  ...........               ";
"                 ............               ";
"                 ............               ";
"                 ............               ";
"                  ...........               ";
"                 ............               ";
"                 ............               ";
"                 ............               ";
"                  ...........               ";
"      ..................................    ";
"      ...................................   ";
"     ....................................   ";
"      ...................................   ";
"      ...................................   ";
"      ...................................   ";
"                                            ";
"                                            ";
"                                            ";
"                                            ";
"                                            ";
"                                            ";
"                                            ";
"                                            ";
"                                            ";
"                                            ";
"                                            ";
"                                            ";
"                                            ";
"                                            ";
"                                            ";
"                                            ";
"                                            ";
"                                            ";
"                                            "
].

Definition glyph_J : list string := [
"                                            ";
"                                            ";
"                                            ";
"                                            ";
"                                            ";
"                                            ";
"                                            ";
"                                            ";
"                                            ";
"                                            ";
"                                            ";
"                                            ";
"                                            ";
"                                            ";
"                                            ";
"                                            ";
"                                            ";
"                                            ";
"               ............................ ";
"              ..............................";
"               .............................";
"              ............................. ";
"              ..............................";
"                ..... ..................... ";
"                                ........... ";
"                                ............";
"                                ............";
"                                ........... ";
"                                ............";
"                                ........... ";
"                                ....... ... ";
"                                ............";
"                                ........... ";
"                                ............";
"                                ............";
"                                ........... ";
"                                ............";
"                                ........... ";
"                                ........... ";
"                                ............";
"                                ............";
"                                ........... ";
"                                ............";
"                                ........... ";
"                                ........... ";
"                                ....... ....";
"     .   ...                    ............";
"   ...........                  ........... ";
"  .............                 ............";
"   ...........                  ........... ";
"   ............                 ........... ";
"   ...........                  ............";
"   ............                 ............";
"   ...........                  ........... ";
"  .............                 ............";
"   ...........                  ........... ";
"   ............                 ........... ";
"   ...........                  ............";
"        ..............................      ";
"         .............................      ";
"        ..............................      ";
"         .............................      ";
"        ..............................      ";
"         .............................      ";
"                                            ";
"                                            ";
"                                            ";
"                                            ";
"                                            ";
"                                            ";
"                                            ";
"                                            ";
"                                            ";
"                                            ";
"                                            ";
"                                            ";
"                                            ";
"                                            ";
"                                            ";
"                                            ";
"                                            ";
"                                            ";
"                                            "
].

Definition glyph_K : list string := [
"                                            ";
"                                            ";
"                                            ";
"                                            ";
"                                            ";
"                                            ";
"                                            ";
"                                            ";
"                                            ";
"                                            ";
"                                            ";
"                                            ";
"                                            ";
"                                            ";
"                                            ";
"                                            ";
"                                            ";
"                                            ";
"   ............                 ........... ";
"   ...........                  ............";
"   ............                 ........... ";
"   ...........                  ............";
"   ...........                  ............";
"   ............             .. ............ ";
"   ............           ............      ";
"   ...........            ............      ";
"   ............           ............      ";
"   ...........            ............      ";
"   ...........            ............      ";
"   ............      ...........            ";
"   ............     ............            ";
"   ...........      ............            ";
"   ............     ............            ";
"   ...........      ............            ";
"   ...........      ............            ";
"   .......................                  ";
"   .......................                  ";
"   .......................                  ";
"   .......................                  ";
"   .......................                  ";
"   .......................                  ";
"   ...........       ...........            ";
"   ...........      ............            ";
"   ............     ............            ";
"   ............     ............            ";
"   ...........      ............            ";
"   ...........        ..  ........ ..       ";
"   ............           ............      ";
"   ...........            ............      ";
"   ............           ............      ";
"   ...........            ...........       ";
"   ............           ............      ";
"   ...........                  ....... ..  ";
"   ...........                  ............";
"   ............                 ............";
"   ...........                  ........... ";
"   ...........                  ........... ";
"   ............                 ............";
"   ...........                  ............";
"   ............                 ........... ";
"   ...........                  ............";
"   ...........                  ........... ";
"   ............                 ........... ";
"   ...........                  ............";
"                                            ";
"                                            ";
"                                            ";
"                                            ";
"                                            ";
"                                            ";
"                                            ";
"                                            ";
"                                            ";
"                                            ";
"                                            ";
"                                            ";
"                                            ";
"                                            ";
"                                            ";
"                                            ";
"                                            ";
"                                            ";
"                                            "
].

Definition glyph_L : list string := [
"                                            ";
"                                            ";
"                                            ";
"                                            ";
"                                            ";
"                                            ";
"                                            ";
"                                            ";
"                                            ";
"                                            ";
"                                            ";
"                                            ";
"                                            ";
"                                            ";
"                                            ";
"                                            ";
"                                            ";
"                                            ";
"      ............                          ";
"      ...........                           ";
"      ............                          ";
"      ...........                           ";
"      ...........                           ";
"      ............                          ";
"      ............                          ";
"      ...........                           ";
"      ............                          ";
"      ...........                           ";
"      ...........                           ";
"      ............                          ";
"      ............                          ";
"      ...........                           ";
"      ............                          ";
"      ...........                           ";
"      ...........                           ";
"      ............                          ";
"      ............                          ";
"      ...........                           ";
"      ............                          ";
"      ...........                           ";
"      ...........                           ";
"      ............                          ";
"      ............                          ";
"      ...........                           ";
"      ............                          ";
"      ...........                           ";
"      ...........                           ";
"      ............                          ";
"      ...........                           ";
"      ............                          ";
"      ...........                           ";
"      ............                          ";
"      ...........                           ";
"      ...........                           ";
"      ............                          ";
"      ...........                           ";
"      ...........                           ";
"      ...........                           ";
"      ..................................    ";
"      ...................................   ";
"      ...................................   ";
"      ...................................   ";
"      ...................................   ";
"      ...................................   ";
"                                            ";
"                                            ";
"                                            ";
"                                            ";
"                                            ";
"                                            ";
"                                            ";
"                                            ";
"                                            ";
"                                            ";
"                                            ";
"                                            ";
"                                            ";
"                                            ";
"                                            ";
"                                            ";
"                                            ";
"                                            ";
"                                            "
].

Definition glyph_M : list string := [
"                                            ";
"                                            ";
"                                            ";
"                                            ";
"                                            ";
"                                            ";
"                                            ";
"                                            ";
"                                            ";
"                                            ";
"                                            ";
"                                            ";
"                                            ";
"                                            ";
"                                            ";
"                                            ";
"                                            ";
"                                            ";
"   ......                             ..... ";
"   ......                             ......";
"   .....                              ......";
"   ......                            ...... ";
"   .....                              ......";
"   ........ ..                  .. ........ ";
"   ............                 ........... ";
"   ...........                  ............";
"   ............                 ............";
"   ...........                  ........... ";
"   ...........                  ............";
"   ..................     ................. ";
"   .................      ................. ";
"   .................      ..................";
"   ..................     ................. ";
"   .................      ..................";
"   .................      ..................";
"   ........................................ ";
"   .........................................";
"   ........................................ ";
"   ........................................ ";
"   .........................................";
"   ............. .. ........ .. ............";
"   ...........      ......      ........... ";
"   ............     ......      ............";
"   ...........      ......      ........... ";
"   ...........      ......      ........... ";
"   ............     ......      ............";
"   ...........          ..      ............";
"   ............                 ........... ";
"   ...........                  ............";
"   ............                 ........... ";
"   ...........                  ........... ";
"   ............                 ............";
"   ...........                  ............";
"   ...........                  ........... ";
"   ............                 ............";
"   ...........                  ........... ";
"   ...........                  ........... ";
"   ............                 ............";
"   ...........                  ............";
"   ............                 ........... ";
"   ...........                  ............";
"   ...........                  ........... ";
"   ............                 ........... ";
"   ...........                  ............";
"                                            ";
"                                            ";
"                                            ";
"                                            ";
"                                            ";
"                                            ";
"                                            ";
"                                            ";
"                                            ";
"                                            ";
"                                            ";
"                                            ";
"                                            ";
"                                            ";
"                                            ";
"                                            ";
"                                            ";
"                                            ";
"                                            "
].

Definition glyph_N : list string := [
"                                            ";
"                                            ";
"                                            ";
"                                            ";
"                                            ";
"                                            ";
"                                            ";
"                                            ";
"                                            ";
"                                            ";
"                                            ";
"                                            ";
"                                            ";
"                                            ";
"                                            ";
"                                            ";
"                                            ";
"                                            ";
"   ......                       ........... ";
"   ......                       ............";
"   .....                        ............";
"   ......                       ........... ";
"   .....                        ............";
"   ........ ..                  ........... ";
"   ............                 ........... ";
"   ...........                  ............";
"   ............                 ............";
"   ...........                  ........... ";
"   ...........                  ............";
"   ..................           ........... ";
"   .................            ........... ";
"   .................            ............";
"   ..................           ........... ";
"   .................            ............";
"   .................            ............";
"   .......................      ........... ";
"   .......................      ............";
"   .......................      ........... ";
"   .......................      ........... ";
"   .......................      ............";
"   ............. .. ......      ............";
"   ...........      ....................... ";
"   ............     ........................";
"   ...........      ....................... ";
"   ...........      ....................... ";
"   ............     ........................";
"   ...........          ....................";
"   ............           ................. ";
"   ...........            ..................";
"   ............           ................. ";
"   ...........            ................. ";
"   ............           ..................";
"   ...........            .. .. ............";
"   ...........                  ........... ";
"   ............                 ............";
"   ...........                  ........... ";
"   ...........                  ........... ";
"   ............                 ............";
"   ...........                  .... .......";
"   ............                       ..... ";
"   ...........                       .......";
"   ...........                        ..... ";
"   ............                       ..... ";
"   ...........                        ......";
"                                            ";
"                                            ";
"                                            ";
"                                            ";
"                                            ";
"                                            ";
"                                            ";
"                                            ";
"                                            ";
"                                            ";
"                                            ";
"                                            ";
"                                            ";
"                                            ";
"                                            ";
"                                            ";
"                                            ";
"                                            ";
"                                            "
].

Definition glyph_O : list string := [
"                                            ";
"                                            ";
"                                            ";
"                                            ";
"                                            ";
"                                            ";
"                                            ";
"                                            ";
"                                            ";
"                                            ";
"                                            ";
"                                            ";
"                                            ";
"                                            ";
"                                            ";
"                                            ";
"                                            ";
"                                            ";
"         .............................      ";
"         .............................      ";
"        ..............................      ";
"         ............................       ";
"         .............................      ";
"   ............. ..... .....................";
"   ............                 ........... ";
"   ...........                  ............";
"   ............                 ............";
"   ...........                  ........... ";
"   ...........                  ............";
"   ............                 ........... ";
"   ............                 ........... ";
"   ...........                  ............";
"   ............                 ........... ";
"   ...........                  ............";
"   ...........                  ............";
"   ............                 ........... ";
"   ............                 ............";
"   ...........                  ........... ";
"   ............                 ........... ";
"   ...........                  ............";
"   ...........                  ............";
"   ............                 ........... ";
"   ............                 ............";
"   ...........                  ........... ";
"   ............                 ........... ";
"   ...........                  ............";
"   ...........                  ............";
"   ............                 ........... ";
"   ...........                  ............";
"   ............                 ........... ";
"   ...........                  ........... ";
"   ............                 ............";
"   ...........                  ............";
"   ...........                  ........... ";
"   ............                 ............";
"   ...........                  ........... ";
"   ...........                  ........... ";
"   ...........                  ............";
"        ..............................      ";
"         .............................      ";
"         .............................      ";
"         .............................      ";
"        ..............................      ";
"         .............................      ";
"                                            ";
"                                            ";
"                                            ";
"                                            ";
"                                            ";
"                                            ";
"                                            ";
"                                            ";
"                                            ";
"                                            ";
"                                            ";
"                                            ";
"                                            ";
"                                            ";
"                                            ";
"                                            ";
"                                            ";
"                                            ";
"                                            "
].

Definition glyph_P : list string := [
"                                            ";
"                                            ";
"                                            ";
"                                            ";
"                                            ";
"                                            ";
"                                            ";
"                                            ";
"                                            ";
"                                            ";
"                                            ";
"                                            ";
"                                            ";
"                                            ";
"                                            ";
"                                            ";
"                                            ";
"                                            ";
"   ...................................      ";
"   ...................................      ";
"   ...................................      ";
"   ..................................       ";
"   ...................................      ";
"   ............. ...... ............... ... ";
"   ............                 ........... ";
"   ...........                  ............";
"   ............                 ............";
"   ...........                  ........... ";
"   ...........                  ............";
"   ............                 ........... ";
"   ............                 ........... ";
"   ...........                  ............";
"   ............                 ........... ";
"   ...........                  ............";
"   ...........                  ............";
"   ...................................      ";
"   ...................................      ";
"   ...................................      ";
"   ...................................      ";
"   ...................................      ";
"   ..................................       ";
"   ...........                              ";
"   ...........                              ";
"   ............                             ";
"   ............                             ";
"   ...........                              ";
"   ...........                              ";
"   ............                             ";
"   ...........                              ";
"   ............                             ";
"   ...........                              ";
"   ............                             ";
"   ...........                              ";
"   ...........                              ";
"   ............                             ";
"   ...........                              ";
"   ...........                              ";
"   ............                             ";
"   ...........                              ";
"   ............                             ";
"   ...........                              ";
"   ...........                              ";
"   ............                             ";
"   ...........                              ";
"                                            ";
"                                            ";
"                                            ";
"                                            ";
"                                            ";
"                                            ";
"                                            ";
"                                            ";
"                                            ";
"                                            ";
"                                            ";
"                                            ";
"                                            ";
"                                            ";
"                                            ";
"                                            ";
"                                            ";
"                                            ";
"                                            "
].

Definition glyph_Q : list string := [
"                                            ";
"                                            ";
"                                            ";
"                                            ";
"                                            ";
"                                            ";
"                                            ";
"                                            ";
"                                            ";
"                                            ";
"                                            ";
"                                            ";
"                                            ";
"                                            ";
"                                            ";
"                                            ";
"                                            ";
"                                            ";
"         .............................      ";
"         .............................      ";
"        ..............................      ";
"         ............................       ";
"         .............................      ";
"   ............. ..... .....................";
"   ............                 ........... ";
"   ...........                  ............";
"   ............                 ............";
"   ...........                  ........... ";
"   ...........                  ............";
"   ............                 ........... ";
"   ............                 ........... ";
"   ...........                  ............";
"   ............                 ........... ";
"   ...........                  ............";
"   ...........                  ............";
"   ............                 ........... ";
"   ............                 ............";
"   ...........                  ........... ";
"   ............                 ........... ";
"   ...........                  ............";
"   ...........                  ............";
"   ............                 ........... ";
"   ............                 ............";
"   ...........                  ........... ";
"   ............                 ........... ";
"   ...........                  ............";
"   ...........                  ............";
"   ............     ....................... ";
"   ...........      ........................";
"   ............     ....................... ";
"   ...........      ....................... ";
"   ............     ........................";
"   ...........      ....................... ";
"   ...........            ............      ";
"   ............           ............      ";
"   ...........            ............      ";
"   ...........            ............      ";
"   ...........            ............      ";
"        ........................      ..... ";
"         .......................      ......";
"         .......................     .......";
"         .......................      ..... ";
"        ........................      ..... ";
"         .......................      ......";
"                                            ";
"                                            ";
"                                            ";
"                                            ";
"                                            ";
"                                            ";
"                                            ";
"                                            ";
"                                            ";
"                                            ";
"                                            ";
"                                            ";
"                                            ";
"                                            ";
"                                            ";
"                                            ";
"                                            ";
"                                            ";
"                                            "
].

Definition glyph_R : list string := [
"                                            ";
"                                            ";
"                                            ";
"                                            ";
"                                            ";
"                                            ";
"                                            ";
"                                            ";
"                                            ";
"                                            ";
"                                            ";
"                                            ";
"                                            ";
"                                            ";
"                                            ";
"                                            ";
"                                            ";
"                                            ";
"   ...................................      ";
"   ...................................      ";
"   ...................................      ";
"   ..................................       ";
"   ...................................      ";
"   ............. ..... ................ ... ";
"   ............                 ........... ";
"   ...........                  ............";
"   ............                 ............";
"   ...........                  ........... ";
"   ...........                  ............";
"   ............                 ........... ";
"   ............                 ........... ";
"   ...........                  ............";
"   ............                 ........... ";
"   ...........                  ............";
"   ...........                  ............";
"   ...................................      ";
"   ...................................      ";
"   ...................................      ";
"   ...................................      ";
"   ...................................      ";
"   ...................................      ";
"   ...........                  ............";
"   ...........                  ............";
"   ............                 ........... ";
"   ............                 ........... ";
"   ...........                  ............";
"   ...........                  ............";
"   ............                 ........... ";
"   ...........                  ............";
"   ............                 ........... ";
"   ...........                  ........... ";
"   ............                 ............";
"   ...........                  ............";
"   ...........                  ........... ";
"   ............                 ............";
"   ...........                  ........... ";
"   ...........                  ........... ";
"   ............                 ............";
"   ...........                  ............";
"   ............                 ........... ";
"   ...........                  ............";
"   ...........                  ........... ";
"   ............                 ........... ";
"   ...........                  ............";
"                                            ";
"                                            ";
"                                            ";
"                                            ";
"                                            ";
"                                            ";
"                                            ";
"                                            ";
"                                            ";
"                                            ";
"                                            ";
"                                            ";
"                                            ";
"                                            ";
"                                            ";
"                                            ";
"                                            ";
"                                            ";
"                                            "
].

Definition glyph_S : list string := [
"                                            ";
"                                            ";
"                                            ";
"                                            ";
"                                            ";
"                                            ";
"                                            ";
"                                            ";
"                                            ";
"                                            ";
"                                            ";
"                                            ";
"                                            ";
"                                            ";
"                                            ";
"                                            ";
"                                            ";
"                                            ";
"         .............................      ";
"         .............................      ";
"        ..............................      ";
"         ............................       ";
"         .............................      ";
"      ......... ..... ................. ... ";
"  .............                 ........... ";
"   ...........                  ............";
"   ............                 ............";
"   ...........                  ........... ";
"   ...........                  ............";
"   ............                             ";
"   ............                             ";
"   ...........                              ";
"   ............                             ";
"   ...........                              ";
"   ...........                              ";
"         .............................      ";
"         .............................      ";
"        ..............................      ";
"         .............................      ";
"        ..............................      ";
"         .............................      ";
"                                ............";
"                                ............";
"                                ........... ";
"                                ........... ";
"                                ............";
"                                ........... ";
"                                ........... ";
"                                ............";
"                                ........... ";
"                                ........... ";
"                                ............";
"   ...........                  ............";
"   ...........                  ........... ";
"   ............                 ............";
"   ...........                  ........... ";
"   ............                 ........... ";
"   ...........                  ............";
"        ..............................      ";
"         .............................      ";
"         .............................      ";
"         .............................      ";
"        ..............................      ";
"         .............................      ";
"                                            ";
"                                            ";
"                                            ";
"                                            ";
"                                            ";
"                                            ";
"                                            ";
"                                            ";
"                                            ";
"                                            ";
"                                            ";
"                                            ";
"                                            ";
"                                            ";
"                                            ";
"                                            ";
"                                            ";
"                                            ";
"                                            "
].

Definition glyph_T : list string := [
"                                            ";
"                                            ";
"                                            ";
"                                            ";
"                                            ";
"                                            ";
"                                            ";
"                                            ";
"                                            ";
"                                            ";
"                                            ";
"                                            ";
"                                            ";
"                                            ";
"                                            ";
"                                            ";
"                                            ";
"                                            ";
"   ........................................ ";
"   .........................................";
"  ......................................... ";
"   .........................................";
"   .........................................";
"   .. ............................. ....... ";
"                 ............               ";
"                  ...........               ";
"                 ............               ";
"                 ............               ";
"                 ............               ";
"                 ............               ";
"                  ...........               ";
"                 ............               ";
"                 ............               ";
"                 ............               ";
"                  ...........               ";
"                 ............               ";
"                 ............               ";
"                  ...........               ";
"                 ............               ";
"                 ............               ";
"                 ............               ";
"                  ...........               ";
"                 ............               ";
"                 ............               ";
"                  ...........               ";
"                 ............               ";
"                 ............               ";
"                 ............               ";
"                 ............               ";
"                 ............               ";
"                  ...........               ";
"                 ............               ";
"                 ............               ";
"                 ............               ";
"                  ...........               ";
"                 ............               ";
"                 ............               ";
"                 ............               ";
"                  ...........               ";
"                 ............               ";
"                 ............               ";
"                 ............               ";
"                  ...........               ";
"                 ............               ";
"                                            ";
"                                            ";
"                                            ";
"                                            ";
"                                            ";
"                                            ";
"                                            ";
"                                            ";
"                                            ";
"                                            ";
"                                            ";
"                                            ";
"                                            ";
"                                            ";
"                                            ";
"                                            ";
"                                            ";
"                                            ";
"                                            "
].

Definition glyph_U : list string := [
"                                            ";
"                                            ";
"                                            ";
"                                            ";
"                                            ";
"                                            ";
"                                            ";
"                                            ";
"                                            ";
"                                            ";
"                                            ";
"                                            ";
"                                            ";
"                                            ";
"                                            ";
"                                            ";
"                                            ";
"                                            ";
"   ............                 ........... ";
"   ...........                  ............";
"   ............                 ............";
"   ...........                  ........... ";
"   ...........                  ............";
"   ............                 ........... ";
"   ............                 ........... ";
"   ...........                  ............";
"   ............                 ............";
"   ...........                  ........... ";
"   ...........                  ............";
"   ............                 ........... ";
"   ............                 ........... ";
"   ...........                  ............";
"   ............                 ........... ";
"   ...........                  ............";
"   ...........                  ............";
"   ............                 ........... ";
"   ............                 ............";
"   ...........                  ........... ";
"   ............                 ........... ";
"   ...........                  ............";
"   ...........                  ............";
"   ............                 ........... ";
"   ............                 ............";
"   ...........                  ........... ";
"   ............                 ........... ";
"   ...........                  ............";
"   ...........                  ............";
"   ............                 ........... ";
"   ...........                  ............";
"   ............                 ........... ";
"   ...........                  ........... ";
"   ............                 ............";
"   ...........                  ............";
"   ...........                  ........... ";
"   ............                 ............";
"   ...........                  ........... ";
"   ............                 ........... ";
"   ...........                  ............";
"   .... ............................... ... ";
"         .............................      ";
"         .............................      ";
"         .............................      ";
"        ..............................      ";
"         .............................      ";
"                                            ";
"                                            ";
"                                            ";
"                                            ";
"                                            ";
"                                            ";
"                                            ";
"                                            ";
"                                            ";
"                                            ";
"                                            ";
"                                            ";
"                                            ";
"                                            ";
"                                            ";
"                                            ";
"                                            ";
"                                            ";
"                                            "
].

Definition glyph_V : list string := [
"                                            ";
"                                            ";
"                                            ";
"                                            ";
"                                            ";
"                                            ";
"                                            ";
"                                            ";
"                                            ";
"                                            ";
"                                            ";
"                                            ";
"                                            ";
"                                            ";
"                                            ";
"                                            ";
"                                            ";
"                                            ";
"   ............                 ........... ";
"   ...........                  ............";
"   ............                 ............";
"   ...........                  ........... ";
"   ...........                  ............";
"   ............                 ........... ";
"   ............                 ........... ";
"   ...........                  ............";
"   ............                 ............";
"   ...........                  ........... ";
"   ...........                  ............";
"   ............                 ........... ";
"   ............                 ........... ";
"   ...........                  ............";
"   ............                 ........... ";
"   ...........                  ............";
"   ...........                  ............";
"   ............                 ........... ";
"   ............                 ............";
"   ...........                  ........... ";
"   ............                 ........... ";
"   ...........                  ............";
"   ...........                  ............";
"   ............                 ........... ";
"   ............                 ............";
"   ...........                  ........... ";
"   ...........                  ........... ";
"   ............                 ............";
"   .............  ..      .. .. ............";
"         ...........      ............      ";
"         ...........      ............      ";
"         ............     ............      ";
"        ............      ...........       ";
"         ...........      ............      ";
"            . ........   .......    .       ";
"              ..................            ";
"               .................            ";
"              ..................            ";
"               .................            ";
"              ..................            ";
"                    ......                  ";
"                    ......                  ";
"                     .....                  ";
"                    ......                  ";
"                    ......                  ";
"                    ......                  ";
"                                            ";
"                                            ";
"                                            ";
"                                            ";
"                                            ";
"                                            ";
"                                            ";
"                                            ";
"                                            ";
"                                            ";
"                                            ";
"                                            ";
"                                            ";
"                                            ";
"                                            ";
"                                            ";
"                                            ";
"                                            ";
"                                            "
].

Definition glyph_W : list string := [
".                                           ";
"                                            ";
"                                            ";
"                                            ";
"                                            ";
"                                            ";
"                                            ";
"                                            ";
"                                            ";
"                                            ";
"                                            ";
"                                            ";
"                                            ";
"                                            ";
"                                            ";
"                                            ";
"                                            ";
"                                            ";
"............        ......         .........";
"...........         ......         .........";
"............        ......         .........";
"...........         ......        ..........";
"...........         ......         .........";
"............        ......         .........";
"............        ......         .........";
"...........         ......         .........";
"............        ......         .........";
"...........         ......         .........";
"...........         ......         .........";
"............        ......         .........";
"............        ......         .........";
"...........         ......         .........";
"............        ......         .........";
"...........         ......         .........";
"...........         ......         .........";
"............        ......         .........";
"............        ......         .........";
"...........         ......         .........";
"............        ......         .........";
"...........         ......         .........";
"...........         ......         .........";
"............        ......         .........";
"............        ......         .........";
"...........         ......         .........";
"............        ......        ..........";
"...........         ......         .........";
"...........         ......         .........";
"............................................";
"............................................";
"............................................";
"............................................";
"............................................";
"............................................";
".................            ...............";
".................            ...............";
".................            ...............";
".................            ...............";
".................            ...............";
". .. ...........             .... ......... ";
"      .....                        .....    ";
"      .....                        ......   ";
"      .....                        .....    ";
"     .......                       .....    ";
"      .....                        ......   ";
"                                            ";
"                                            ";
"                                            ";
"                                            ";
"                                            ";
"                                            ";
"                                            ";
"                                            ";
"                                            ";
"                                            ";
"                                            ";
"                                            ";
"                                            ";
"                                            ";
"                                            ";
"                                            ";
"                                            ";
"                                            ";
"                                            "
].

Definition glyph_X : list string := [
"                                            ";
"                                            ";
"                                            ";
"                                            ";
"                                            ";
"                                            ";
"                                            ";
"                                            ";
"                                            ";
"                                            ";
"                                            ";
"                                            ";
"                                            ";
"                                            ";
"                                            ";
"                                            ";
"                                            ";
"                                            ";
"   ............                 ........... ";
"   ...........                  ............";
"   ............                 ............";
"   ...........                  ........... ";
"   ...........                  ............";
"   ............                 ........... ";
"   ............                 ........... ";
"   ...........                  ............";
"   ............                 ............";
"   ...........                  ........... ";
"   ...........                  ............";
"      . .............     ............      ";
"        ............      ............      ";
"         ...........      ............      ";
"         ............     ............      ";
"        ............      ............      ";
"         ...........      ............      ";
"              ..................            ";
"               .................            ";
"              ..................            ";
"               .................            ";
"              ..................            ";
"              ..................            ";
"        ............      ............      ";
"         ...........      ............      ";
"         ...........      ............      ";
"        ............      ............      ";
"         ...........      ............      ";
"      . ....... ..            . ......      ";
"   ...........                  ............";
"   ...........                  ............";
"   ............                 ........... ";
"   ...........                  ........... ";
"   ............                 ............";
"   ...........                  ............";
"   ...........                  ........... ";
"   ............                 ............";
"   ...........                  ........... ";
"   ...........                  ........... ";
"   ............                 ............";
"   ...........                  ............";
"   ............                 ........... ";
"   ...........                  ............";
"   ...........                  ........... ";
"   ............                 ........... ";
"   ...........                  ............";
"                                            ";
"                                            ";
"                                            ";
"                                            ";
"                                            ";
"                                            ";
"                                            ";
"                                            ";
"                                            ";
"                                            ";
"                                            ";
"                                            ";
"                                            ";
"                                            ";
"                                            ";
"                                            ";
"                                            ";
"                                            ";
"                                            "
].

Definition glyph_Y : list string := [
"                                            ";
"                                            ";
"                                            ";
"                                            ";
"                                            ";
"                                            ";
"                                            ";
"                                            ";
"                                            ";
"                                            ";
"                                            ";
"                                            ";
"                                            ";
"                                            ";
"                                            ";
"                                            ";
"                                            ";
"                                            ";
"   ............                 ........... ";
"   ...........                  ............";
"   ............                 ............";
"   ...........                  ........... ";
"   ...........                  ............";
"   ............                 ........... ";
"   ............                 ........... ";
"   ...........                  ............";
"   ............                 ............";
"   ...........                  ........... ";
"   ...........                  ............";
"   ............                 ........... ";
"  .............                 ........... ";
"   ...........                  ............";
"   ............                 ............";
"   ...........                  ............";
"   ...........                  ........... ";
"     .  .............     .............     ";
"         ...........      ............      ";
"        ............      ............      ";
"         ...........      ............      ";
"        ............      ............      ";
"         ...........      ...........       ";
"               .................            ";
"              ..................            ";
"              ..................            ";
"               .................            ";
"              ..................            ";
"                 ..............             ";
"                 ............               ";
"                 ............               ";
"                  ...........               ";
"                 ............               ";
"                 ............               ";
"                 ............               ";
"                  ...........               ";
"                 ............               ";
"                 ............               ";
"                 ............               ";
"                  ...........               ";
"                 ............               ";
"                 ............               ";
"                 ............               ";
"                  ...........               ";
"                 ............               ";
"                 ............               ";
"                                            ";
"                                            ";
"                                            ";
"                                            ";
"                                            ";
"                                            ";
"                                            ";
"                                            ";
"                                            ";
"                                            ";
"                                            ";
"                                            ";
"                                            ";
"                                            ";
"                                            ";
"                                            ";
"                                            ";
"                                            ";
"                                            "
].

Definition glyph_Z : list string := [
"                                            ";
"                                            ";
"                                            ";
"                                            ";
"                                            ";
"                                            ";
"                                            ";
"                                            ";
"                                            ";
"                                            ";
"                                            ";
"                                            ";
"                                            ";
"                                            ";
"                                            ";
"                                            ";
"                                            ";
"                                            ";
"   ........................................ ";
"   .........................................";
"  ..........................................";
"   ........................................ ";
"   .........................................";
"   .. ......... ..... ..................... ";
"                                ........... ";
"                                ............";
"                                ............";
"                                ........... ";
"                                ............";
"                          ............      ";
"                          ............      ";
"                          ............      ";
"                          ............      ";
"                          ............      ";
"                          ............      ";
"                    ............            ";
"                    ............            ";
"                    ............            ";
"                    ............            ";
"                    ............            ";
"                    ...........             ";
"              ............                  ";
"               ...........                  ";
"              ............                  ";
"               ...........                  ";
"              ............                  ";
"             .......... ..                  ";
"         ...........                        ";
"        ............                        ";
"         ............                       ";
"         ...........                        ";
"        ............                        ";
"     . ........                             ";
"   ............                             ";
"   ...........                              ";
"   ............                             ";
"   ............                             ";
"   ...........                              ";
"   ........................................ ";
"  ..........................................";
"  ..........................................";
"   ........................................ ";
"   ........................................ ";
"   .........................................";
"                                            ";
"                                            ";
"                                            ";
"                                            ";
"                                            ";
"                                            ";
"                                            ";
"                                            ";
"                                            ";
"                                            ";
"                                            ";
"                                            ";
"                                            ";
"                                            ";
"                                            ";
"                                            ";
"                                            ";
"                                            ";
"                                            "
].

Definition glyph_bar : list string := [
"                                            ";
"                                            ";
"                                            ";
"                                            ";
"                                            ";
"                                            ";
"                                            ";
"                                            ";
"                                            ";
"                                            ";
"                                            ";
"                                            ";
"                                            ";
"                                            ";
"                                            ";
"                                            ";
"                                            ";
"                                            ";
"                  ............              ";
"                  ...........               ";
"                  ............              ";
"                  ...........               ";
"                  ...........               ";
"                  ............              ";
"                  ...........               ";
"                  ...........               ";
"                  ...........               ";
"                  ............              ";
"                  ...........               ";
"                  ............              ";
"                  ............              ";
"                  ...........               ";
"                  ............              ";
"                  ...........               ";
"                  ...........               ";
"                  ............              ";
"                  ...........               ";
"                  ...........               ";
"                  ...........               ";
"                  ............              ";
"                  ...........               ";
"                  ............              ";
"                  ............              ";
"                  ...........               ";
"                  ............              ";
"                  ...........               ";
"                  ...........               ";
"                  ............              ";
"                  ...........               ";
"                  ...........               ";
"                  ............              ";
"                  ...........               ";
"                  ...........               ";
"                  ............              ";
"                  ...........               ";
"                  ...........               ";
"                  ...........               ";
"                  ...........               ";
"                  ............              ";
"                  ...........               ";
"                  ...........               ";
"                  ............              ";
"                  ...........               ";
"                  ...........               ";
"                  ............              ";
"                  ...........               ";
"                  ............              ";
"                  ...........               ";
"                  ...........               ";
"                  ............              ";
"                  ...........               ";
"                  ...........               ";
"                  ............              ";
"                  ...........               ";
"                  ...........               ";
"                  ............              ";
"                                            ";
"                                            ";
"                                            ";
"                                            ";
"                                            ";
"                                            ";
"                                            "
].

Definition glyphs : list (list string) := [
  glyph_comma;
  glyph_dash;
  glyph_dot;
  glyph_slash;
  glyph_0;
  glyph_1;
  glyph_2;
  glyph_3;
  glyph_4;
  glyph_5;
  glyph_6;
  glyph_7;
  glyph_8;
  glyph_9;
  glyph_colon;
  glyph_A;
  glyph_B;
  glyph_C;
  glyph_D;
  glyph_E;
  glyph_F;
  glyph_G;
  glyph_H;
  glyph_I;
  glyph_J;
  glyph_K;
  glyph_L;
  glyph_M;
  glyph_N;
  glyph_O;
  glyph_P;
  glyph_Q;
  glyph_R;
  glyph_S;
  glyph_T;
  glyph_U;
  glyph_V;
  glyph_W;
  glyph_X;
  glyph_Y;
  glyph_Z;
  glyph_bar
].

Definition alphabet_sprites : list string := alphabet_head ++ concat glyphs.
