(* ===== verification/Xpm.v ===== *)
(** * XPM images and the characters of the menus

    What the program relies on when it hands an XPM array to [xpm_load]: the
    header's numbers are those of the rows, and every frame a sprite is made
    of lies inside the image.  [CharSprite] and [calculate_char_coord] are
    assets/sprites/alphabet/alphabet_sprites_cord.h. *)

From S2P Require Import Prelude Format Geometry Gpu SpritesUi SpritesAlphabet.

(** ** The format *)

Definition scan_number (s : text) : option (Z * text) :=
  match scan_int s with
  | Some (Ok v, rest) => Some (v, rest)
  | _ => None
  end.

(** The header line: columns, rows, colours. *)
Definition xpm_dims (map : xpm_map) : option (Z * Z * Z) :=
  match map with
  | [] => None
  | head :: _ =>
      '(w, r) ← scan_number (txt head);
      '(h, r) ← scan_number r;
      '(n, _) ← scan_number r;
      Some (w, h, n)
  end.

Definition xpm_colour_ok (line : string) : bool :=
  match line with
  | EmptyString => false
  | String _ rest =>
      match scan_number (txt rest) with
      | Some (v, _) => (0 <=? v) && (v <? 256)
      | None => false
      end
  end.

Definition xpm_wellformed (map : xpm_map) : bool :=
  match xpm_dims map with
  | None => false
  | Some (w, h, n) =>
      (0 <? w) && (0 <? h) && (0 <? n) &&
      (Z.of_nat (length map) =? 1 + n + h) &&
      forallb xpm_colour_ok (take (Z.to_nat n) (drop 1 map)) &&
      forallb (fun row => Nat.eqb (String.length row) (Z.to_nat w))
        (drop (Z.to_nat (1 + n)) map)
  end.

(** What lcom/xpm.h documents of [xpm_load]: the image information it stores,
    and [INVALID_XPM] when the pixmap is not valid. *)
Class XpmLaws (W : Type) `{XpmLoader W} : Prop := {
  xpm_load_info map wd ht n w image w' :
    xpm_load map XPM_INDEXED w = ((true, image), w') ->
    xpm_dims map = Some (wd, ht, n) ->
    img_type image = XPM_INDEXED /\ img_width image = wd /\ img_height image = ht /\
    Z.of_nat (length (img_bytes image)) = wd * ht /\
    Forall (fun b => 0 <= b < 256) (img_bytes image);
  xpm_load_invalid map w image w' :
    xpm_load map XPM_INDEXED w = ((false, image), w') ->
    img_type image = INVALID_XPM;
}.

(** A loaded image holds every frame inside the header's dimensions. *)
Lemma loaded_frame_ok `{XpmLoader W, !XpmLaws W} map wd ht n w ok image w' off sz :
  xpm_load map XPM_INDEXED w = ((ok, image), w') ->
  xpm_dims map = Some (wd, ht, n) -> wd <= 65535 -> ht <= 65535 -> wd * ht <= INT_MAX ->
  0 <= vx off -> 0 <= vy off -> 0 <= vx sz -> 0 <= vy sz ->
  vx off + vx sz <= wd -> vy off + vy sz <= ht ->
  img_type image <> INVALID_XPM -> frame_ok image off sz.
Proof.
  intros E Hd Hw Hh Ha ? ? ? ? ? ? Hv. destruct ok.
  - destruct (xpm_load_info _ _ _ _ _ _ _ E Hd) as (_ & <- & <- & Hl & Hb).
    unfold frame_ok. tauto.
  - by apply xpm_load_invalid in E.
Qed.

(** ** The characters *)

Record CharSprite : Type := mkChar { x : Z; y : Z; width : Z; height : Z }.

Definition CHAR_HEIGHT : Z := 83.
Definition CHAR_WIDTH : Z := 44.

Definition calculate_char_coord (c : Z) : CharSprite :=
  let at_index index := mkChar 0 (index * CHAR_HEIGHT) CHAR_WIDTH CHAR_HEIGHT in
  if c =? 44 then at_index 0
  else if c =? 45 then at_index 1
  else if c =? 46 then at_index 2
  else if c =? 47 then at_index 3
  else if (48 <=? c) && (c <=? 57) then at_index (4 + (c - 48))
  else if c =? 58 then at_index 14
  else if (65 <=? c) && (c <=? 90) then at_index (15 + (c - 65))
  else if c =? 124 then at_index 41
  else mkChar 0 0 0 0.

(** The characters of the sheet, from top to bottom. *)
Definition charset : text := txt ",-./0123456789:ABCDEFGHIJKLMNOPQRSTUVWXYZ|".

Definition sheet_rows : list string := drop 3 alphabet_sprites.

(** The rows of the sheet a character's frame covers. *)
Definition glyph_rows (c : CharSprite) : list string :=
  take (Z.to_nat (height c)) (drop (Z.to_nat (y c)) sheet_rows).

Lemma take_drop_concat {A} (n : nat) (ls : list (list A)) i l :
  Forall (fun l => length l = n) ls -> ls !! i = Some l ->
  take n (drop (i * n) (concat ls)) = l.
Proof.
  revert i. induction ls as [|l1 ls IH]; intros i HF Hi; [done|].
  apply Forall_cons in HF as [H1 HF]. destruct i as [|i]; cbn [concat].
  - injection Hi as ->. rewrite Nat.mul_0_l, drop_0, take_app_le by lia.
    by rewrite take_ge by lia.
  - rewrite drop_app_ge by lia. cbn in Hi.
    replace (S i * n - length l1)%nat with (i * n)%nat by lia. by apply IH.
Qed.

Lemma glyphs_83 : Forall (fun l => length l = 83%nat) glyphs.
Proof. by repeat constructor. Qed.

Lemma alphabet_dims : xpm_dims alphabet_sprites = Some (44, 3486, 2).
Proof. reflexivity. Qed.

Lemma char_coord_at c i :
  charset !! i = Some c ->
  calculate_char_coord c = mkChar 0 (Z.of_nat i * 83) 44 83.
Proof.
  intros Hi. assert (i < 42)%nat as Hlt by (apply lookup_lt_Some in Hi; exact Hi).
  do 42 (destruct i as [|i]; [by injection Hi as <-|]). lia.
Qed.

Lemma charset_ranges c :
  44 <= c <= 58 \/ 65 <= c <= 90 \/ c = 124 -> c ∈ charset.
Proof.
  assert (Forall (fun c => c ∈ charset) (seqZ 44 15 ++ seqZ 65 26 ++ [124])) as HF
    by (apply (bool_decide_unpack _); by vm_compute).
  rewrite Forall_forall in HF. intros Hc. apply HF.
  rewrite !elem_of_app, !elem_of_seqZ, elem_of_cons. lia.
Qed.

Lemma char_coord_outside c :
  c ∉ charset -> calculate_char_coord c = mkChar 0 0 0 0.
Proof.
  intros Hc. pose proof (charset_ranges c) as Hr. unfold calculate_char_coord.
  repeat match goal with
  | |- context [Z.eqb ?a ?b] => destruct (Z.eqb_spec a b); [exfalso; apply Hc, Hr; lia|]
  | |- context [Z.leb ?a ?b && Z.leb ?d ?e] =>
      destruct (Z.leb_spec a b), (Z.leb_spec d e); cbn [andb];
      try (exfalso; apply Hc, Hr; lia)
  end; done.
Qed.

(** [calculate_char_coord] gives every character of the sheet its own frame:
    the 83 rows at the computed offset are exactly the rows drawn for that
    character, and the frame lies in the sheet; every other character gets an
    empty frame. *)
Theorem calculate_char_coord_selects c :
  match list_find (fun d => d = c) charset with
  | Some (i, _) =>
      Some (glyph_rows (calculate_char_coord c)) = glyphs !! i /\
      width (calculate_char_coord c) = 44 /\
      0 <= y (calculate_char_coord c) /\
      y (calculate_char_coord c) + height (calculate_char_coord c) <= 3486
  | None => calculate_char_coord c = mkChar 0 0 0 0
  end.
Proof.
  destruct (list_find (fun d => d = c) charset) as [[i d]|] eqn:E.
  - apply list_find_Some in E as (Hi & -> & _).
    assert (i < 42)%nat as Hlt by (apply lookup_lt_Some in Hi; exact Hi).
    rewrite (char_coord_at _ _ Hi). unfold glyph_rows. cbn [y height width].
    split; [|lia]. destruct (lookup_lt_is_Some_2 glyphs i Hlt) as [l Hl]. rewrite Hl.
    f_equal. change (Z.to_nat 83) with 83%nat.
    replace (Z.to_nat (Z.of_nat i * 83)) with (i * 83)%nat by lia.
    change sheet_rows with (concat glyphs).
    apply take_drop_concat; [apply glyphs_83|done].
  - apply char_coord_outside. intros Hc.
    apply list_elem_of_lookup_1 in Hc as [i Hi].
    by eapply list_find_None, Forall_lookup_1 in E.
Qed.

(** The XPM arrays of the interface are well formed: the header's columns,
    rows and colours are those of the strings that follow it, and every colour
    is one byte, as the indexed mode needs. *)
Theorem xpm_images_wellformed :
  Forall (fun m => xpm_wellformed m = true)
    [logo_xpm; play_button_xpm; leaderboard_button_xpm; quit_button_xpm; trophy_xpm;
     mouse_xpm; alphabet_sprites].
Proof. repeat constructor; vm_cast_no_check (eq_refl true). Qed.
