(* ===== verification/Demo.v ===== *)
(** * A concrete surrounding

    A machine on which the hypotheses of the theorems hold: allocation never
    fails, [xpm_load] makes an image of the size the XPM header says, the video
    mode is 1024 by 768 in one byte per pixel, the leaderboard file is empty.
    The concrete runs of the later files are on it. *)

From S2P Require Import Prelude Machine Format Leaderboard Gpu Xpm.

Abbreviation demo X := (roomy (script * X)).

#[export] Instance demo_loader {W} : XpmLoader (roomy W) := {
  xpm_load map _ w :=
    match xpm_dims map with
    | Some (wd, ht, _) =>
        if (0 <=? wd) && (0 <=? ht) && (wd <? 65536) && (ht <? 65536)
        then ((true, mkImage XPM_INDEXED wd ht (wd * ht)
                       (replicate (Z.to_nat (wd * ht)) 0)), w)
        else ((false, mkImage INVALID_XPM 0 0 0 []), w)
    | None => ((false, mkImage INVALID_XPM 0 0 0 []), w)
    end;
}.

#[export] Instance demo_loader_laws {W} : XpmLaws (roomy W).
Proof.
  constructor.
  - intros map wd ht n w image w' E Hd. cbn in E. rewrite Hd in E.
    destruct (Z.leb_spec 0 wd), (Z.leb_spec 0 ht); cbn in E; try discriminate.
    destruct (Z.ltb_spec wd 65536), (Z.ltb_spec ht 65536); cbn in E; try discriminate.
    injection E as <- <-. cbn. rewrite length_replicate.
    assert (0 <= wd * ht) by (by apply Z.mul_nonneg_nonneg).
    repeat (split; [done|]). split; [lia|]. apply Forall_replicate. lia.
  - intros map w image w' E. cbn in E. destruct (xpm_dims map) as [[[wd ht] n]|].
    + destruct (_ && _); [discriminate|]. by injection E as <- <-.
    + by injection E as <- <-.
Qed.

#[export] Instance demo_video {W} : Video (roomy W) := {
  video_mode_info _ w := ((0, mkVbe 1024 768 8 4 0 0 0 0 0 0 0xE0000000), w);
  video_map _ n w := (Some (replicate (Z.to_nat n) 0), w);
}.

#[export] Instance demo_video_laws {W} : VideoLaws (roomy W).
Proof. constructor. intros ? ? ? ? ? [= <- <-]. apply length_replicate. Qed.

#[export] Instance demo_files {W} : Files (roomy W) := {
  file_open_r w := (Some [], w);
  file_open_w w := (false, w);
  file_append _ w := w;
  file_close w := w;
}.

(** The machine at its start. *)
Definition demo_io {X} (sc : script) (x : X) : iost (demo X) := mkIo (mkRoomy (sc, x)) [].
