(* ===== verification/UiElement.v ===== *)
(** * Interface elements: ui/ui_element.h and ui/ui_element.c

    An element is a box, a pointer to a sprite and an optional function to
    call on a click.  [Ui] is the state the interface works on: the card and
    the sprites, and the stores of elements, list nodes and menus. *)

From S2P Require Import Prelude Machine Geometry Gpu Heap LinkedList Sprite.

(** The functions of the program whose address an element holds. *)
Inductive FunctionPointer : Type :=
  | spoof_fn
  | Gamestate_leaderboard_fn
  | Gamestate_quit_fn.

#[export] Instance FunctionPointer_eq_dec : EqDecision FunctionPointer.
Proof. solve_decision. Defined.

Record ui_element : Type := mkElement {
  bounds : aabb;
  sprite : Z;
  on_click : option FunctionPointer;
}.

Record Menu : Type := mkMenu { element : Z }.

Record ui : Type := mkUi {
  ui_gfx : gfx;
  ui_elements : store ui_element;
  ui_nodes : store Node;
  ui_menus : store Menu;
}.

Section Parts.
Context {S A : Type}.

Definition on_gfx (m : M (gfx * S) A) : M (ui * S) A :=
  zoom (fun st => (ui_gfx st.1, st.2))
    (fun c st => (mkUi c.1 (ui_elements st.1) (ui_nodes st.1) (ui_menus st.1), c.2)) m.
Definition on_elements (m : M (store ui_element * S) A) : M (ui * S) A :=
  zoom (fun st => (ui_elements st.1, st.2))
    (fun c st => (mkUi (ui_gfx st.1) c.1 (ui_nodes st.1) (ui_menus st.1), c.2)) m.
Definition on_nodes (m : M (store Node * S) A) : M (ui * S) A :=
  zoom (fun st => (ui_nodes st.1, st.2))
    (fun c st => (mkUi (ui_gfx st.1) (ui_elements st.1) c.1 (ui_menus st.1), c.2)) m.
Definition on_menus (m : M (store Menu * S) A) : M (ui * S) A :=
  zoom (fun st => (ui_menus st.1, st.2))
    (fun c st => (mkUi (ui_gfx st.1) (ui_elements st.1) (ui_nodes st.1) c.1, c.2)) m.
End Parts.

Section UiElement.
Context {W : Type} `{Machine W}.

Definition element_load (p : Z) : drv W ui ui_element := on_elements (on_statics (load p)).

Definition ui_element_init (p : Z) (b : aabb) (sp : Z) (f : option FunctionPointer)
  : drv W ui unit :=
  if p =? NULL then mret tt
  else on_elements (on_statics (assign p (mkElement b sp f))).

Definition ui_element_create (b : aabb) (sp : Z) (f : option FunctionPointer)
  : drv W ui Z :=
  p ← on_elements (alloc (mkElement (AABB (VEC2 0 0) (VEC2 0 0)) NULL None));
  if p =? NULL then mret NULL else
  ui_element_init p b sp f ;;
  mret p.

Definition ui_element_draw (p : Z) : drv W ui unit :=
  e ← element_load p;
  on_gfx (Sprite_draw (sprite e) (position (bounds e))).
End UiElement.

(** ** Reading the interface *)

Section Reads.
Context {W : Type} `{Machine W}.
Implicit Types (u : ui) (io : iost W).

Lemma ui_eta u : mkUi (ui_gfx u) (ui_elements u) (ui_nodes u) (ui_menus u) = u.
Proof. by destruct u. Qed.

Lemma gfx_eta (x : gfx) : mkGfx (gfx_gpu x) (gfx_sprites x) = x.
Proof. by destruct x. Qed.

Lemma wp_node_load p n (Q : Node -> ui * iost W -> Prop) u io :
  p <> NULL -> cells (ui_nodes u) !! p = Some n -> Q n (u, io) ->
  wp (on_nodes (on_statics (load p))) Q (u, io).
Proof.
  intros Hp Hn HQ. unfold on_nodes, on_statics. do 2 apply wp_zoom.
  cbn [fst snd]. eapply wp_load; [done..|]. by rewrite ui_eta.
Qed.

Lemma wp_element_load p e (Q : ui_element -> ui * iost W -> Prop) u io :
  p <> NULL -> cells (ui_elements u) !! p = Some e -> Q e (u, io) ->
  wp (element_load p) Q (u, io).
Proof.
  intros Hp Hn HQ. unfold element_load, on_elements, on_statics. do 2 apply wp_zoom.
  cbn [fst snd]. eapply wp_load; [done..|]. by rewrite ui_eta.
Qed.

Lemma wp_list_fuel (Q : nat -> ui * iost W -> Prop) u io :
  Q (S (base.size (cells (ui_nodes u)))) (u, io) ->
  wp (on_nodes (on_statics list_fuel)) Q (u, io).
Proof.
  intros HQ. unfold on_nodes, on_statics, list_fuel. do 2 apply wp_zoom.
  cbn [fst snd]. apply wp_gets. by rewrite ui_eta.
Qed.

Lemma wp_ui_sprite_load p s (Q : Sprite -> ui * iost W -> Prop) u io :
  p <> NULL -> cells (gfx_sprites (ui_gfx u)) !! p = Some s -> Q s (u, io) ->
  wp (on_gfx (sprite_load p)) Q (u, io).
Proof.
  intros Hp Hs HQ. unfold on_gfx. apply wp_zoom. cbn [fst snd].
  eapply wp_sprite_load; [done..|]. cbn [fst snd]. by rewrite ui_eta.
Qed.

(** A sprite replaced in place. *)
Definition put_sprite (p : Z) (s : Sprite) (u : ui) : ui :=
  mkUi (mkGfx (gfx_gpu (ui_gfx u))
          (mkStore (<[p := s]> (cells (gfx_sprites (ui_gfx u)))) (brk (gfx_sprites (ui_gfx u)))))
    (ui_elements u) (ui_nodes u) (ui_menus u).

Lemma wp_ui_sprite_store p s s' (Q : unit -> ui * iost W -> Prop) u io :
  p <> NULL -> cells (gfx_sprites (ui_gfx u)) !! p = Some s -> Q tt (put_sprite p s' u, io) ->
  wp (on_gfx (sprite_store p s')) Q (u, io).
Proof.
  intros Hp Hs HQ. unfold on_gfx. apply wp_zoom. cbn [fst snd].
  by eapply wp_sprite_store.
Qed.
End Reads.
