(* ===== verification/Menu.v ===== *)
(** * Menus: ui/menu.h and ui/menu.c

    A menu is a pointer to the head of a list of interface elements.  The two
    menus are built once; drawing one draws its elements in list order. *)

From S2P Require Import Prelude Machine Calendar Format Rtc Leaderboard Geometry Picture Gpu.
From S2P Require Import Heap LinkedList Sprite SpritesUi SpritesAlphabet Xpm Demo.
From S2P Require Import UiElement.

Section Menu.
Context {W : Type} `{Machine W, XpmLoader W}.

Definition menu_load (p : Z) : drv W ui Menu := on_menus (on_statics (load p)).
Definition menu_store (p : Z) (m : Menu) : drv W ui unit :=
  on_menus (on_statics (assign p m)).

(** [while (node != NULL) { draw; node = node->next; }] *)
Fixpoint draw_nodes (fuel : nat) (node : Z) : drv W ui unit :=
  match fuel with
  | O => fail OutOfFuel
  | S fuel =>
      if node =? NULL then mret tt else
      n ← on_nodes (on_statics (load node));
      ui_element_draw (data n) ;;
      draw_nodes fuel (next n)
  end.

Definition Menu_draw (menu : Z) : drv W ui unit :=
  m ← menu_load menu;
  fuel ← on_nodes (on_statics list_fuel);
  draw_nodes fuel (element m).

Definition spoof : drv W ui unit := mret tt.

(** [Node_append(&menu->element, p)] *)
Definition menu_append (menu p : Z) : drv W ui unit :=
  m ← menu_load menu;
  head ← on_nodes (Node_append (element m) p);
  menu_store menu (mkMenu head).

(** [menu->element = Node_create(p)] *)
Definition menu_start (menu p : Z) : drv W ui unit :=
  head ← on_nodes (Node_create p);
  _ ← menu_load menu;
  menu_store menu (mkMenu head).

(** One element showing the whole of an image's first [sz] pixels. *)
Definition create_sprite (xpm : xpm_map) (off sz : vec2) : drv W ui Z :=
  on_gfx (Sprite_create xpm [off] [sz] 1 0).

Fixpoint create_chars (menu : Z) (str : text) (x_offset start_y : Z)
  : drv W ui unit :=
  match str with
  | [] => mret tt
  | c :: str =>
      let coord := calculate_char_coord c in
      char_sprite ← create_sprite alphabet_sprites (VEC2 (x coord) (y coord))
                      (VEC2 (width coord) (height coord));
      character ← ui_element_create (AABB (VEC2 x_offset start_y) (VEC2 60 80))
                    char_sprite None;
      menu_append menu character ;;
      x_offset ← int (x_offset + width coord);
      create_chars menu str x_offset start_y
  end.

Definition Menu_create_ui_from_string (menu : Z) (str : text) (start_x start_y : Z)
  : drv W ui unit :=
  create_chars menu str start_x start_y.

Definition Menu_create_main_menu : drv W ui Z :=
  menu ← on_menus (alloc (mkMenu NULL));
  logo_sprite ← create_sprite logo_xpm (VEC2 0 0) (VEC2 540 108);
  logo ← ui_element_create (AABB (VEC2 242 80) (VEC2 540 108)) logo_sprite None;
  play_button ← create_sprite play_button_xpm (VEC2 0 0) (VEC2 402 97);
  leaderboard_button ← create_sprite leaderboard_button_xpm (VEC2 0 0) (VEC2 402 97);
  quit_button ← create_sprite quit_button_xpm (VEC2 0 0) (VEC2 402 97);
  play ← ui_element_create (AABB (VEC2 311 340) (VEC2 402 97)) play_button
           (Some spoof_fn);
  leaderboard ← ui_element_create (AABB (VEC2 311 480) (VEC2 402 97))
                  leaderboard_button (Some Gamestate_leaderboard_fn);
  quit ← ui_element_create (AABB (VEC2 311 620) (VEC2 402 97)) quit_button
           (Some Gamestate_quit_fn);
  menu_start menu logo ;;
  menu_append menu play ;;
  menu_append menu leaderboard ;;
  menu_append menu quit ;;
  mret menu.

(** The two lines shown for the entry of rank [i + 1]. *)
Definition first_line (i : Z) (nm : text) (rdt : rtc_date_time) : text :=
  snprintf 15 (dec (i + 1) ++ txt "." ++ nm ++ txt "|" ++ zpad 2 (rtc_hours rdt)
    ++ txt ":" ++ zpad 2 (rtc_minutes rdt) ++ txt ":" ++ zpad 2 (rtc_seconds rdt)).

Definition second_line (dt : rtc_date_time) : text :=
  snprintf 21 (zpad 2 (rtc_day dt) ++ txt "/" ++ zpad 2 (rtc_month dt) ++ txt "/"
    ++ zpad 4 (rtc_year dt) ++ txt ", " ++ zpad 2 (rtc_hours dt) ++ txt ":"
    ++ zpad 2 (rtc_minutes dt) ++ txt ":" ++ zpad 2 (rtc_seconds dt)).

(** The body of the loop over the entries; [rdt] is reused between rounds. *)
Fixpoint create_entries (n : nat) (i menu : Z) (lb : Leaderboard) (rdt : rtc_date_time)
  : drv W ui unit :=
  match n with
  | O => mret tt
  | S n =>
      entry ← lift_res (array_get (entries lb) i);
      let y_position := 240 + i * 170 in
      rdt ← lift_res (unix_to_rtc_date_time (time_entry entry) rdt);
      nm ← lift_res (c_string (name entry));
      Menu_create_ui_from_string menu (first_line i nm rdt) 30 y_position ;;
      Menu_create_ui_from_string menu (second_line (dt_of_entry entry)) 118
        (y_position + 80) ;;
      create_entries n (i + 1) menu lb rdt
  end.

(** [rtc_day_week] of [rdt] is never written and never read. *)
Definition Menu_create_leaderboard (lb : Leaderboard) : drv W ui Z :=
  menu ← on_menus (alloc (mkMenu NULL));
  logo_sprite ← create_sprite trophy_xpm (VEC2 0 0) (VEC2 300 300);
  logo ← ui_element_create (AABB (VEC2 102 (-20)) (VEC2 800 150)) logo_sprite None;
  leaderboard_button ← create_sprite leaderboard_button_xpm (VEC2 0 0) (VEC2 402 97);
  leaderboard_ui ← ui_element_create (AABB (VEC2 415 70) (VEC2 402 97))
                     leaderboard_button (Some Gamestate_leaderboard_fn);
  menu_start menu logo ;;
  menu_append menu leaderboard_ui ;;
  create_entries (Z.to_nat (entry_count lb)) 0 menu lb (mkRtc 0 0 0 0 0 0 0) ;;
  mret menu.
End Menu.

Lemma wp_menu_load {W} `{Machine W} p m (Q : Menu -> ui * iost W -> Prop) u (io : iost W) :
  p <> NULL -> cells (ui_menus u) !! p = Some m -> Q m (u, io) ->
  wp (menu_load p) Q (u, io).
Proof.
  intros Hp Hn HQ. unfold menu_load, on_menus, on_statics. do 2 apply wp_zoom.
  cbn [fst snd]. eapply wp_load; [done..|]. by rewrite ui_eta.
Qed.

(** ** Menus as lists of elements *)

Record elt : Type := mkElt {
  elt_ptr : Z;
  elt_ui : ui_element;
  elt_sprite : Sprite;
}.

Abbreviation sprites u := (gfx_sprites (ui_gfx u)).

Definition ui_ok (u : ui) : Prop :=
  store_ok (sprites u) /\ store_ok (ui_elements u) /\ store_ok (ui_nodes u) /\
  store_ok (ui_menus u).

Definition elt_live (u : ui) (t : elt) : Prop :=
  elt_ptr t <> NULL /\ cells (ui_elements u) !! elt_ptr t = Some (elt_ui t) /\
  sprite (elt_ui t) <> NULL /\
  cells (sprites u) !! sprite (elt_ui t) = Some (elt_sprite t).

(** [m] is a menu whose list nodes are [ns] and whose elements are [es]; no two
    elements share a sprite. *)
Definition menu_rep (u : ui) (m : Z) (ns : list (Z * Z)) (es : list elt) : Prop :=
  m <> NULL /\
  (exists head, cells (ui_menus u) !! m = Some (mkMenu head) /\
     linked (cells (ui_nodes u)) head ns) /\
  ns.*2 = elt_ptr <$> es /\ Forall (elt_live u) es /\
  NoDup ((fun t => sprite (elt_ui t)) <$> es).

(** What building on the menu [m], whose nodes were [ns], leaves alone. *)
Definition grows (m : Z) (ns : list (Z * Z)) (u : ui) (ns' : list (Z * Z)) (u' : ui)
  : Prop :=
  gfx_gpu (ui_gfx u') = gfx_gpu (ui_gfx u) /\
  cells (ui_elements u) ⊆ cells (ui_elements u') /\
  cells (sprites u) ⊆ cells (sprites u') /\
  (forall p c, p <> m -> cells (ui_menus u) !! p = Some c ->
     cells (ui_menus u') !! p = Some c) /\
  others_kept ns (ui_nodes u) (ui_nodes u') /\
  dom (cells (ui_nodes u)) ⊆ dom (cells (ui_nodes u')) /\
  exists new, ns' = ns ++ new /\ forall a, a ∈ new.*1 -> a ∉ dom (cells (ui_nodes u)).

Lemma grows_refl m ns u : grows m ns u ns u.
Proof.
  repeat (split; [done|]). exists []. split; [by rewrite app_nil_r|].
  intros a Ha. by apply not_elem_of_nil in Ha.
Qed.

Lemma grows_trans m ns1 u1 ns2 u2 ns3 u3 :
  grows m ns1 u1 ns2 u2 -> grows m ns2 u2 ns3 u3 -> grows m ns1 u1 ns3 u3.
Proof.
  intros (G1 & E1 & S1 & M1 & O1 & D1 & new1 & -> & N1)
    (G2 & E2 & S2 & M2 & O2 & D2 & new2 & -> & N2).
  split; [congruence|]. split; [by etrans|]. split; [by etrans|]. split; [eauto|]. split.
  { intros a Ha Hl. pose proof Hl as Hd. apply elem_of_dom in Hd.
    rewrite O2; [by apply O1| |by apply elem_of_dom, D1].
    rewrite fmap_app. intros [?|Hn]%elem_of_app; [done|]. by apply N1 in Hn. }
  split; [by etrans|]. exists (new1 ++ new2). split; [by rewrite app_assoc|].
  intros a. rewrite fmap_app. intros [?|Hn]%elem_of_app; [auto|].
  intros Hd. by apply (N2 a Hn), D1.
Qed.

(** A menu survives the growth of another one. *)
Lemma menu_rep_grows m ns u ns' u' m2 ns2 es2 :
  grows m ns u ns' u' -> m2 <> m -> (forall a, a ∈ ns2.*1 -> a ∉ ns.*1) ->
  menu_rep u m2 ns2 es2 ->
  menu_rep u' m2 ns2 es2 /\ (forall a, a ∈ ns2.*1 -> a ∉ ns'.*1).
Proof.
  intros (G & E & S & M & O & D & new & -> & N) Hm Hd
    (H0 & (head & Hh & Hl) & Hp & HF & Hnd).
  assert (forall a, a ∈ ns2.*1 -> is_Some (cells (ui_nodes u) !! a)) as Hlive
    by (intros a Ha; by eapply lseg_live in Ha as [? _]).
  split.
  - split; [done|]. split; [|split; [done|split; [|done]]].
    + exists head. split; [by apply M|]. eapply lseg_frame; [exact Hl|].
      intros a Ha. apply O; auto.
    + eapply Forall_impl; [exact HF|]. intros t (? & ? & ? & ?).
      repeat split; try done; by eapply lookup_weaken.
  - intros a Ha. rewrite fmap_app. intros [?|Hn]%elem_of_app; [by eapply Hd|].
    apply (N a Hn), elem_of_dom. auto.
Qed.

Lemma menu_rep_stores u u' m ns es :
  ui_nodes u' = ui_nodes u -> ui_menus u' = ui_menus u ->
  cells (ui_elements u) ⊆ cells (ui_elements u') -> cells (sprites u) ⊆ cells (sprites u') ->
  menu_rep u m ns es -> menu_rep u' m ns es.
Proof.
  intros En Em E S (H0 & Hh & Hp & HF & Hnd). unfold menu_rep. rewrite En, Em.
  repeat (split; [done|]). split; [|done]. eapply Forall_impl; [exact HF|].
  intros t (? & ? & ? & ?). repeat split; try done; by eapply lookup_weaken.
Qed.

(** ** The items of a menu

    What a menu is meant to show, element by element. *)

Record item : Type := mkItem {
  it_xpm : xpm_map;
  it_box : aabb;
  it_off : vec2;
  it_size : vec2;
  it_click : option FunctionPointer;
}.

Definition loaded `{XpmLoader W} (xpm : xpm_map) (image : xpm_image) : Prop :=
  exists w ok w', xpm_load xpm XPM_INDEXED w = ((ok, image), w').

(** A still sprite, opaque or not, of one frame. *)
Definition still (image : xpm_image) (off sz : vec2) (b : bool) : Sprite :=
  mkSprite (Some image) [off] [sz] 1 0 0 0 b.

Definition shows `{XpmLoader W} (t : elt) (i : item) : Prop :=
  bounds (elt_ui t) = it_box i /\ on_click (elt_ui t) = it_click i /\
  exists image b, loaded (it_xpm i) image /\
    elt_sprite t = still image (it_off i) (it_size i) b.

(** The elements of a string from [x0] on: one character after the other, each as
    wide as its glyph. *)
Fixpoint char_items (str : text) (x0 y0 : Z) : list item :=
  match str with
  | [] => []
  | c :: str =>
      let coord := calculate_char_coord c in
      mkItem alphabet_sprites (AABB (VEC2 x0 y0) (VEC2 60 80))
        (VEC2 (x coord) (y coord)) (VEC2 (width coord) (height coord)) None
      :: char_items str (x0 + width coord) y0
  end.

Definition main_menu_items : list item := [
  mkItem logo_xpm (AABB (VEC2 242 80) (VEC2 540 108)) (VEC2 0 0) (VEC2 540 108) None;
  mkItem play_button_xpm (AABB (VEC2 311 340) (VEC2 402 97)) (VEC2 0 0) (VEC2 402 97)
    (Some spoof_fn);
  mkItem leaderboard_button_xpm (AABB (VEC2 311 480) (VEC2 402 97)) (VEC2 0 0)
    (VEC2 402 97) (Some Gamestate_leaderboard_fn);
  mkItem quit_button_xpm (AABB (VEC2 311 620) (VEC2 402 97)) (VEC2 0 0) (VEC2 402 97)
    (Some Gamestate_quit_fn)
].

(** The lines of the leaderboard from rank [i + 1] on. *)
Fixpoint entry_items (es : list LeaderboardEntry) (i : Z) : list item :=
  match es with
  | [] => []
  | e :: es =>
      match unix_to_rtc_date_time (time_entry e) (mkRtc 0 0 0 0 0 0 0), c_string (name e) with
      | Ok rdt, Ok nm =>
          char_items (first_line i nm rdt) 30 (240 + i * 170) ++
          char_items (second_line (dt_of_entry e)) 118 (240 + i * 170 + 80)
      | _, _ => []
      end ++ entry_items es (i + 1)
  end.

Definition leaderboard_items (lb : Leaderboard) : list item :=
  mkItem trophy_xpm (AABB (VEC2 102 (-20)) (VEC2 800 150)) (VEC2 0 0) (VEC2 300 300) None
  :: mkItem leaderboard_button_xpm (AABB (VEC2 415 70) (VEC2 402 97)) (VEC2 0 0)
       (VEC2 402 97) (Some Gamestate_leaderboard_fn)
  :: entry_items (live lb) 0.

(** ** Building *)

Section Build.
Context {W : Type} `{Machine W, XpmLoader W, !MallocOk W}.
Implicit Types (u : ui) (io : iost W).

(** An operation that only adds to the elements and the sprites. *)
Definition adds (u u' : ui) : Prop :=
  ui_ok u' /\ gfx_gpu (ui_gfx u') = gfx_gpu (ui_gfx u) /\
  ui_nodes u' = ui_nodes u /\ ui_menus u' = ui_menus u /\
  cells (ui_elements u) ⊆ cells (ui_elements u') /\
  cells (sprites u) ⊆ cells (sprites u').

Lemma adds_grows m ns u u' : adds u u' -> grows m ns u ns u'.
Proof.
  intros (_ & G & En & Em & E & S). unfold grows, others_kept. rewrite En, Em.
  repeat (split; [done|]). exists []. split; [by rewrite app_nil_r|].
  intros a Ha. by apply not_elem_of_nil in Ha.
Qed.

Lemma adds_rep u u' m ns es : adds u u' -> menu_rep u m ns es -> menu_rep u' m ns es.
Proof. intros (_ & _ & En & Em & E & S). by apply menu_rep_stores. Qed.

Lemma wp_create_sprite xpm off sz u io :
  ui_ok u ->
  wp (create_sprite xpm off sz) (fun p st =>
    adds u st.1 /\ ui_elements st.1 = ui_elements u /\
    p <> NULL /\ cells (sprites u) !! p = None /\
    (exists image b, loaded xpm image /\
       cells (sprites st.1) !! p = Some (still image off sz b)) /\
    io_trace st.2 = io_trace io) (u, io).
Proof.
  intros (Hs & He & Hn & Hm). unfold create_sprite, on_gfx. apply wp_zoom.
  eapply wp_mono; [apply Sprite_create_spec; cbn; (done || lia)|].
  intros p [g io'] (-> & Hp & Hg & Ht & Hok & _ & w & ok & image & w' & b & E & Hc).
  cbn [fst snd ui_gfx ui_elements ui_nodes ui_menus] in *.
  pose proof (fresh_not_live _ Hs) as Hf. split.
  - split; [done|]. cbn. repeat (split; [done|]). rewrite Hc. by apply insert_subseteq.
  - split; [done|]. split; [done|]. split; [done|]. split; [|done].
    exists image, b. split; [by exists w, ok, w'|]. rewrite Hc. apply lookup_insert_eq.
Qed.

Lemma wp_ui_element_create b sp f u io :
  ui_ok u ->
  wp (ui_element_create b sp f) (fun p st =>
    adds u st.1 /\ ui_gfx st.1 = ui_gfx u /\ p <> NULL /\
    cells (ui_elements st.1) !! p = Some (mkElement b sp f) /\
    io_trace st.2 = io_trace io) (u, io).
Proof.
  intros (Hs & He & Hn & Hm). pose proof He as [Hb _]. unfold ui_element_create, on_elements.
  do 2 wp_step. apply wp_alloc_ok. intros io1 Ht. cbn [fst snd ui_elements ui_gfx ui_nodes ui_menus].
  assert (brk (ui_elements u) <> NULL) as Hp by (unfold NULL; lia).
  rewrite (proj2 (Z.eqb_neq _ _) Hp). wp_step. unfold ui_element_init.
  rewrite (proj2 (Z.eqb_neq _ _) Hp). unfold on_elements, on_statics. do 2 apply wp_zoom.
  cbn [fst snd ui_elements]. eapply wp_assign; [done|cbn; apply lookup_insert_eq|].
  wp_step. cbn. rewrite insert_insert_eq. split.
  - split; [split; [done|split; [by apply store_ok_fresh|done]]|]. cbn.
    repeat (split; [done|]). split; [|done]. apply insert_subseteq, fresh_not_live; done.
  - repeat (split; [done|]). split; [apply lookup_insert_eq|done].
Qed.

(** What a step of building the menu [m] achieves: [m] now also has the elements
    [new], and everything else is as it was. *)
Definition built (m : Z) (ns : list (Z * Z)) (es : list elt) (u : ui) (new : list elt)
  (u' : ui) : Prop :=
  ui_ok u' /\ exists ns', menu_rep u' m ns' (es ++ new) /\ grows m ns u ns' u'.

Lemma wp_menu_append m ns es t u io :
  ui_ok u -> menu_rep u m ns es -> elt_live u t ->
  sprite (elt_ui t) ∉ ((fun t => sprite (elt_ui t)) <$> es) ->
  wp (menu_append m (elt_ptr t)) (fun _ st =>
    built m ns es u [t] st.1 /\ ui_gfx st.1 = ui_gfx u /\
    ui_elements st.1 = ui_elements u /\ io_trace st.2 = io_trace io) (u, io).
Proof.
  intros (Hs & He & Hn & Hm) (Hm0 & (head & Hh & Hl) & Hp & HF & Hnd) Ht Hfr.
  unfold menu_append, menu_load, menu_store, on_menus, on_nodes, on_statics.
  do 3 wp_step. cbn [fst snd ui_menus]. eapply wp_load; [done..|].
  do 2 wp_step. cbn [fst snd ui_nodes ui_menus element].
  eapply wp_mono; [by eapply Node_append_ok|].
  intros head' [h' io'] (Hok & Hl' & Htr & Hdom & Ho). cbn [fst snd] in *.
  do 2 wp_step. cbn [fst snd ui_menus]. eapply wp_assign; [done..|].
  cbn [fst snd ui_menus ui_gfx ui_elements ui_nodes]. split; [|done].
  split.
  { split; [done|split; [done|split; [done|by eapply store_ok_insert]]]. }
  exists (ns ++ [(brk (ui_nodes u), elt_ptr t)]). split.
  - split; [done|]. split.
    { exists head'. cbn. by rewrite lookup_insert_eq. }
    split; [by rewrite !fmap_app, Hp|]. split.
    { apply Forall_app. split; [exact HF|by apply Forall_singleton]. }
    rewrite fmap_app. apply NoDup_app. split; [done|]. split; [|apply NoDup_singleton].
    intros p Hin ->%list_elem_of_singleton. by apply Hfr.
  - split; [done|]. split; [done|]. split; [done|]. split.
    { intros p c Hpm Hc. cbn. by rewrite lookup_insert_ne. }
    split; [done|]. split; [cbn; set_solver|]. eexists. split; [done|].
    intros a Ha. apply list_elem_of_singleton in Ha as ->.
    by apply not_elem_of_dom, fresh_not_live.
Qed.

Lemma wp_menu_start m c t u io :
  ui_ok u -> m <> NULL -> cells (ui_menus u) !! m = Some c -> elt_live u t ->
  wp (menu_start m (elt_ptr t)) (fun _ st =>
    built m [] [] u [t] st.1 /\ ui_gfx st.1 = ui_gfx u /\
    ui_elements st.1 = ui_elements u /\ io_trace st.2 = io_trace io) (u, io).
Proof.
  intros (Hs & He & Hn & Hm) Hm0 Hc Ht.
  unfold menu_start, menu_load, menu_store, on_menus, on_nodes, on_statics.
  do 2 wp_step. cbn [fst snd ui_nodes]. eapply wp_mono; [by apply Node_create_ok|].
  intros head [h' io'] (-> & Hhd & Htr & Eh). cbn [fst snd] in *. subst h'.
  do 3 wp_step. cbn [fst snd ui_menus]. eapply wp_load; [done..|].
  do 2 wp_step. cbn [fst snd ui_menus]. eapply wp_assign; [done..|].
  cbn [fst snd ui_menus ui_gfx ui_elements ui_nodes]. split; [|done].
  pose proof (fresh_not_live _ Hn) as Hf.
  split.
  { split; [done|split; [done|split; [by apply store_ok_fresh|by eapply store_ok_insert]]]. }
  exists [(brk (ui_nodes u), elt_ptr t)]. split.
  - split; [done|]. split.
    { exists (brk (ui_nodes u)). cbn. rewrite lookup_insert_eq. split; [done|].
      split; [done|]. split; [done|]. exists NULL. by rewrite lookup_insert_eq. }
    split; [done|]. split; [by apply Forall_singleton|]. apply NoDup_singleton.
  - split; [done|]. split; [done|]. split; [done|]. split.
    { intros p d Hpm Hd. cbn. by rewrite lookup_insert_ne. }
    split. { intros a _ [n Ha]. cbn. rewrite lookup_insert_ne; [done|congruence]. }
    split; [cbn; rewrite dom_insert_L; set_solver|]. eexists. split; [done|].
    intros a Ha. apply list_elem_of_singleton in Ha as ->. by apply not_elem_of_dom.
Qed.

Lemma built_trans m ns es u new1 u1 new2 u2 ns1 :
  grows m ns u ns1 u1 -> built m ns1 (es ++ new1) u1 new2 u2 ->
  built m ns es u (new1 ++ new2) u2.
Proof.
  intros Hg (Hok & ns2 & Hr & Hg2). split; [done|]. exists ns2.
  rewrite app_assoc. split; [done|]. by eapply grows_trans.
Qed.

(** The element's sprite was not live in [u]. *)
Definition fresh_in (u : ui) (t : elt) : Prop :=
  cells (sprites u) !! sprite (elt_ui t) = None.

Lemma fresh_in_weaken u u' t :
  cells (sprites u) ⊆ cells (sprites u') -> fresh_in u' t -> fresh_in u t.
Proof.
  intros S Hf. unfold fresh_in in *. destruct (cells (sprites u) !! _) as [s|] eqn:E; [|done].
  eapply lookup_weaken in E; [|exact S]. congruence.
Qed.

Lemma fresh_all_weaken u u' es :
  cells (sprites u) ⊆ cells (sprites u') -> Forall (fresh_in u') es -> Forall (fresh_in u) es.
Proof.
  intros S HF. eapply Forall_impl; [exact HF|]. intros t. by apply fresh_in_weaken.
Qed.

Lemma grows_sprites m ns u ns' u' : grows m ns u ns' u' -> cells (sprites u) ⊆ cells (sprites u').
Proof. by intros (_ & _ & S & _). Qed.

Lemma adds_sprites u u' : adds u u' -> cells (sprites u) ⊆ cells (sprites u').
Proof. by intros (_ & _ & _ & _ & _ & S). Qed.

(** A sprite that was not live before is in no element. *)
Lemma fresh_sprite u m ns es p :
  menu_rep u m ns es -> cells (sprites u) !! p = None ->
  p ∉ ((fun t => sprite (elt_ui t)) <$> es).
Proof.
  intros (_ & _ & _ & HF & _) Hp Hin. apply list_elem_of_fmap in Hin as (t & -> & Ht).
  rewrite Forall_forall in HF. destruct (HF t Ht) as (_ & _ & _ & E). congruence.
Qed.

Lemma wp_create_chars m str ns es u io x0 y0 :
  ui_ok u -> menu_rep u m ns es ->
  INT_MIN <= x0 -> x0 + 44 * Z.of_nat (length str) <= INT_MAX ->
  wp (create_chars m str x0 y0) (fun _ st =>
    exists new, built m ns es u new st.1 /\ Forall2 shows new (char_items str x0 y0) /\
      Forall (fresh_in u) new /\ io_trace st.2 = io_trace io) (u, io).
Proof.
  revert ns es u io x0. induction str as [|c str IH]; intros ns es u io x0 Hok Hr H1 H2;
    cbn [create_chars char_items].
  { wp_step. exists []. split; [|done]. split; [done|]. exists ns. rewrite app_nil_r.
    split; [done|apply grows_refl]. }
  set (co := calculate_char_coord c).
  assert (0 <= width co <= 44) as Hwd.
  { subst co. unfold calculate_char_coord, CHAR_WIDTH. repeat case_match; cbn; lia. }
  wp_step. eapply wp_mono; [by apply wp_create_sprite|].
  intros sp [u1 io1] (Ha1 & Ee1 & Hsp & Hfr & (image & b & Hld & Hspc) & Ht1).
  cbn [fst snd] in *. wp_step.
  eapply wp_mono; [apply wp_ui_element_create; apply Ha1|].
  intros p [u2 io2] (Ha2 & Eg2 & Hp & Hpc & Ht2). cbn [fst snd] in *.
  set (t := mkElt p (mkElement (AABB (VEC2 x0 y0) (VEC2 60 80)) sp None)
              (still image (VEC2 (x co) (y co)) (VEC2 (width co) (height co)) b)).
  pose proof (adds_rep _ _ _ _ _ Ha1 Hr) as Hr1.
  pose proof (adds_rep _ _ _ _ _ Ha2 Hr1) as Hr2.
  wp_step. eapply wp_mono.
  { apply (wp_menu_append m ns es t); [apply Ha2|done| |exact (fresh_sprite u m ns es sp Hr Hfr)].
    split; [done|]. split; [done|]. split; [done|]. cbn. by rewrite Eg2. }
  intros [] [u3 io3] ((Hok3 & ns3 & Hr3 & Hg3) & _ & _ & Ht3). cbn [fst snd] in *.
  wp_step. apply wp_int; [unfold INT_MIN, INT_MAX in *; cbn [length] in H2; lia|].
  eapply wp_mono; [apply (IH ns3 (es ++ [t])); [done|done|..]; cbn [length] in H2; lia|].
  intros [] st (new & Hb & HF & Hn & Ht).
  assert (grows m ns u ns3 u3) as Hgu.
  { eapply grows_trans; [by apply (adds_grows m ns), Ha1|].
    eapply grows_trans; [by apply (adds_grows m ns), Ha2|done]. }
  exists (t :: new). split; [|split; [|split; [|congruence]]].
  - by apply (built_trans m ns es u [t] u3 new st.1 ns3).
  - constructor; [|done]. split; [done|]. split; [done|]. by exists image, b.
  - constructor; [exact Hfr|]. eapply fresh_all_weaken; [by eapply grows_sprites|done].
Qed.

(** An entry that can be shown: a terminated name and a time [gmtime] takes. *)
Definition showable (e : LeaderboardEntry) : Prop :=
  (exists nm, c_string (name e) = Ok nm) /\
  (exists d, unix_to_rtc_date_time (time_entry e) (mkRtc 0 0 0 0 0 0 0) = Ok d).

Lemma unix_to_rtc_slot time d1 d2 d :
  unix_to_rtc_date_time time d1 = Ok d ->
  exists d', unix_to_rtc_date_time time d2 = Ok d' /\
    forall i nm, first_line i nm d' = first_line i nm d.
Proof.
  unfold unix_to_rtc_date_time. destruct (gmtime time) as [t|]; [|done].
  intros [= <-]. eauto.
Qed.

Lemma line_lengths i nm d dt :
  (length (first_line i nm d) <= 20)%nat /\ (length (second_line dt) <= 20)%nat.
Proof. unfold first_line, second_line, snprintf. rewrite !length_take. lia. Qed.

Lemma wp_create_line m str ns es u io x0 y0 :
  ui_ok u -> menu_rep u m ns es -> 0 <= x0 <= 118 -> (length str <= 20)%nat ->
  wp (Menu_create_ui_from_string m str x0 y0) (fun _ st =>
    exists new, built m ns es u new st.1 /\ Forall2 shows new (char_items str x0 y0) /\
      Forall (fresh_in u) new /\ io_trace st.2 = io_trace io) (u, io).
Proof.
  intros Hok Hr Hx Hl. eapply wp_create_chars; [done|exact Hr|..];
    unfold INT_MIN, INT_MAX; lia.
Qed.

Lemma wp_create_entries m lb rest ns es u io i rdt :
  ui_ok u -> menu_rep u m ns es -> 0 <= i -> Forall showable rest ->
  (forall k e, rest !! k = Some e -> entries lb !! (Z.to_nat i + k)%nat = Some e) ->
  wp (create_entries (length rest) i m lb rdt) (fun _ st =>
    exists new, built m ns es u new st.1 /\ Forall2 shows new (entry_items rest i) /\
      Forall (fresh_in u) new /\ io_trace st.2 = io_trace io) (u, io).
Proof.
  revert ns es u io i rdt. induction rest as [|e rest IH]; intros ns es u io i rdt Hok Hr Hi HF Hlk;
    cbn [create_entries length entry_items].
  { wp_step. exists []. split; [|done]. split; [done|]. exists ns. rewrite app_nil_r.
    split; [done|apply grows_refl]. }
  apply Forall_cons in HF as [[[nm Enm] [d Ed]] HF].
  destruct (unix_to_rtc_slot _ _ rdt _ Ed) as (d' & Ed' & Hline).
  wp_step. eapply wp_lift_res.
  { apply array_get_ok; [done|]. rewrite <- (Hlk 0%nat e eq_refl). f_equal. lia. }
  wp_step. eapply wp_lift_res; [exact Ed'|]. wp_step. eapply wp_lift_res; [exact Enm|].
  rewrite Ed, Enm, Hline. pose proof (line_lengths i nm d (dt_of_entry e)) as [L1 L2].
  wp_step. eapply wp_mono; [apply wp_create_line; [done|exact Hr|lia|exact L1]|].
  intros [] [u1 io1] (new1 & (Hok1 & ns1 & Hr1 & Hg1) & HF1 & Hn1 & Ht1). cbn [fst snd] in *.
  wp_step. eapply wp_mono; [apply wp_create_line; [done|exact Hr1|lia|exact L2]|].
  intros [] [u2 io2] (new2 & (Hok2 & ns2 & Hr2 & Hg2) & HF2 & Hn2 & Ht2). cbn [fst snd] in *.
  eapply wp_mono; [apply (IH ns2 ((es ++ new1) ++ new2)); [done|done|lia|done|]|].
  { intros k e' Hk. rewrite <- (Hlk (S k) e' Hk). f_equal. lia. }
  intros [] [u3 io3] (new3 & Hb3 & HF3 & Hn3 & Ht3). cbn [fst snd] in *.
  pose proof (grows_sprites _ _ _ _ _ Hg1) as S1. pose proof (grows_sprites _ _ _ _ _ Hg2) as S2.
  exists (new1 ++ new2 ++ new3). split; [|split; [|split; [|congruence]]].
  - eapply built_trans; [exact Hg1|]. eapply built_trans; [exact Hg2|]. exact Hb3.
  - rewrite (app_assoc new1). apply Forall2_app; [by apply Forall2_app|done].
  - apply Forall_app. split; [done|]. apply Forall_app.
    split; (eapply fresh_all_weaken; [|done]); [done|by etrans].
Qed.

Lemma wp_menu_alloc u io :
  ui_ok u ->
  wp (on_menus (alloc (mkMenu NULL))) (fun m st =>
    ui_ok st.1 /\ m <> NULL /\ cells (ui_menus u) !! m = None /\
    cells (ui_menus st.1) !! m = Some (mkMenu NULL) /\ grows m [] u [] st.1 /\
    ui_gfx st.1 = ui_gfx u /\ io_trace st.2 = io_trace io) (u, io).
Proof.
  intros (Hs & He & Hn & Hm). pose proof Hm as [Hb _]. unfold on_menus. wp_step.
  apply wp_alloc_ok. intros io1 Ht. cbn [fst snd ui_menus ui_gfx ui_elements ui_nodes].
  pose proof (fresh_not_live _ Hm) as Hf. split.
  { split; [done|split; [done|split; [done|by apply store_ok_fresh]]]. }
  split; [unfold NULL; lia|]. split; [done|]. split; [apply lookup_insert_eq|].
  split; [|done]. repeat (split; [done|]). split.
  { intros p c Hp Hc. cbn. by rewrite lookup_insert_ne. }
  repeat (split; [done|]). exists []. split; [done|].
  intros a Ha. by apply not_elem_of_nil in Ha.
Qed.

Lemma elt_live_adds u u' t : adds u u' -> elt_live u t -> elt_live u' t.
Proof.
  intros (_ & _ & _ & _ & E & S) (? & ? & ? & ?). repeat split; try done;
    by eapply lookup_weaken.
Qed.

Lemma adds_trans u1 u2 u3 : adds u1 u2 -> adds u2 u3 -> adds u1 u3.
Proof.
  intros (_ & G1 & N1 & M1 & E1 & S1) (? & G2 & N2 & M2 & E2 & S2).
  split; [done|]. split; [congruence|]. split; [congruence|]. split; [congruence|].
  split; by etrans.
Qed.

(** A sprite and the element around it. *)
Lemma wp_create_both xpm off sz b f u io :
  ui_ok u ->
  wp (create_sprite xpm off sz) (fun sp st => wp (ui_element_create b sp f) (fun p st =>
    exists t, p = elt_ptr t /\ adds u st.1 /\ elt_live st.1 t /\
      shows t (mkItem xpm b off sz f) /\ fresh_in u t /\ io_trace st.2 = io_trace io) st) (u, io).
Proof.
  intros Hok. eapply wp_mono; [by apply wp_create_sprite|].
  intros sp [u1 io1] (Ha1 & _ & Hsp & Hfr & (image & bb & Hld & Hc) & Ht1).
  cbn [fst snd] in *. eapply wp_mono; [apply wp_ui_element_create, Ha1|].
  intros p [u2 io2] (Ha2 & Eg & Hp & Hpc & Ht2). cbn [fst snd] in *.
  exists (mkElt p (mkElement b sp f) (still image off sz bb)). split; [done|].
  split; [by eapply adds_trans|]. split.
  { repeat (split; [done|]). cbn. by rewrite Eg. }
  split; [|split; [done|congruence]].
  split; [done|]. split; [done|]. by exists image, bb.
Qed.

Lemma built_start m t u u1 u2 :
  grows m [] u [] u1 -> built m [] [] u1 [t] u2 -> built m [] [] u [t] u2.
Proof. intros Hg Hb. by apply (built_trans m [] [] u [] u1 [t] u2 []). Qed.

(** [u'] has the elements and sprites of [u]. *)
Lemma elt_live_same u u' t :
  ui_gfx u' = ui_gfx u -> ui_elements u' = ui_elements u -> elt_live u t -> elt_live u' t.
Proof. intros E1 E2 (? & ? & ? & ?). unfold elt_live. by rewrite E1, E2. Qed.

Lemma wp_create_leaderboard lb u io :
  ui_ok u -> length (live lb) = Z.to_nat (entry_count lb) -> Forall showable (live lb) ->
  wp (Menu_create_leaderboard lb) (fun m st => exists es,
    cells (ui_menus u) !! m = None /\ built m [] [] u es st.1 /\
    Forall2 shows es (leaderboard_items lb) /\ Forall (fresh_in u) es /\ io_trace st.2 = io_trace io) (u, io).
Proof.
  intros Hok Hlen HF. unfold Menu_create_leaderboard.
  wp_step. eapply wp_mono; [by apply wp_menu_alloc|].
  intros m [u0 io0] (Hok0 & Hm & Hfr & Hcell & Hg0 & _ & Ht0). cbn [fst snd] in *.
  wp_step. eapply wp_mono; [by apply wp_create_both|].
  intros sp st Hw. wp_step. eapply wp_mono; [exact Hw|]. clear sp st Hw.
  intros p [u1 io1] (t1 & -> & Ha1 & Hl1 & Hs1 & Hf1 & Ht1). cbn [fst snd] in *.
  wp_step. eapply wp_mono; [apply wp_create_both, Ha1|].
  intros sp st Hw. wp_step. eapply wp_mono; [exact Hw|]. clear sp st Hw.
  intros p [u2 io2] (t2 & -> & Ha2 & Hl2 & Hs2 & Hf2 & Ht2). cbn [fst snd] in *.
  pose proof (adds_trans _ _ _ Ha1 Ha2) as Ha12.
  wp_step. eapply wp_mono.
  { apply (wp_menu_start m (mkMenu NULL) t1); [apply Ha2|done| |exact (elt_live_adds _ _ _ Ha2 Hl1)].
    destruct Ha12 as (_ & _ & _ & -> & _). done. }
  intros [] [u3 io3] (Hb3 & Eg3 & Ee3 & Ht3). cbn [fst snd] in *.
  pose proof Hb3 as (Hok3 & ns3 & Hr3 & Hg3). wp_step.
  eapply wp_mono.
  { apply (wp_menu_append m ns3 [t1] t2); [done|done|by apply (elt_live_same u2)|].
    intros E%list_elem_of_singleton. destruct Hl1 as (_ & _ & _ & Hc). congruence. }
  intros [] [u4 io4] (Hb4 & _ & _ & Ht4). cbn [fst snd] in *.
  pose proof Hb4 as (Hok4 & ns4 & Hr4 & Hg4). wp_step.
  rewrite <- Hlen. eapply wp_mono.
  { eapply (wp_create_entries m lb (live lb)); [done|exact Hr4|lia|done|].
    intros k e Hk. unfold live in Hk. by apply lookup_take_Some in Hk as [Hk _]. }
  intros [] [u5 io5] (new & Hb5 & HF5 & Hn5 & Ht5). cbn [fst snd] in *. wp_step.
  pose proof (grows_sprites _ _ _ _ _ Hg0) as S0. pose proof (adds_sprites _ _ Ha1) as S1.
  pose proof (adds_sprites _ _ Ha2) as S2. pose proof (grows_sprites _ _ _ _ _ Hg4) as S4.
  exists ([t1] ++ [t2] ++ new). split; [done|]. split; [|split; [|split]].
  - apply (built_trans m [] [] u [t1] u3 ([t2] ++ new) u5 ns3).
    { eapply grows_trans; [exact Hg0|]. eapply grows_trans; [by apply adds_grows, Ha12|done]. }
    eapply built_trans; [exact Hg4|exact Hb5].
  - constructor; [done|]. by constructor.
  - constructor; [by eapply fresh_in_weaken|]. constructor.
    + eapply fresh_in_weaken; [|exact Hf2]. by etrans.
    + eapply fresh_all_weaken; [|exact Hn5]. rewrite <- S4, Eg3, <- S2, <- S1. exact S0.
  - cbn [fst snd]. congruence.
Qed.

(** A sprite waiting for its element. *)
Definition sprite_at (u : ui) (p : Z) (xpm : xpm_map) (off sz : vec2) : Prop :=
  p <> NULL /\ exists image b, loaded xpm image /\
    cells (sprites u) !! p = Some (still image off sz b).

Lemma sprite_at_adds u u' p xpm off sz :
  adds u u' -> sprite_at u p xpm off sz -> sprite_at u' p xpm off sz.
Proof.
  intros (_ & _ & _ & _ & _ & S) (Hp & image & b & Hl & Hc). split; [done|].
  exists image, b. split; [done|]. by eapply lookup_weaken.
Qed.

Lemma sprite_at_new u p q xpm off sz :
  sprite_at u p xpm off sz -> cells (sprites u) !! q = None -> p <> q.
Proof. intros (_ & im & b & _ & E) Hq ->. congruence. Qed.

Lemma fresh_since u u0 v t s :
  cells (sprites u) ⊆ cells (sprites u0) -> adds u0 v -> sprite (elt_ui t) = s ->
  cells (sprites v) !! s = None -> fresh_in u t.
Proof.
  intros S Ha <- Hf. eapply fresh_in_weaken; [|exact Hf]. etrans; [exact S|by apply adds_sprites].
Qed.

Lemma wp_new_sprite xpm off sz u io :
  ui_ok u ->
  wp (create_sprite xpm off sz) (fun p st => adds u st.1 /\ sprite_at st.1 p xpm off sz /\
    cells (sprites u) !! p = None /\ io_trace st.2 = io_trace io) (u, io).
Proof.
  intros Hok. eapply wp_mono; [by apply wp_create_sprite|].
  intros p st (Ha & _ & Hp & Hf & Hc & Ht). done.
Qed.

Lemma wp_wrap sp xpm off sz b f u io :
  ui_ok u -> sprite_at u sp xpm off sz ->
  wp (ui_element_create b sp f) (fun p st => exists t, p = elt_ptr t /\ adds u st.1 /\
    elt_live st.1 t /\ shows t (mkItem xpm b off sz f) /\ sprite (elt_ui t) = sp /\
    io_trace st.2 = io_trace io) (u, io).
Proof.
  intros Hok (Hsp & image & bb & Hl & Hc).
  eapply wp_mono; [by apply wp_ui_element_create|].
  intros p st (Ha & Eg & Hp & Hpc & Ht).
  exists (mkElt p (mkElement b sp f) (still image off sz bb)).
  split; [done|]. split; [done|]. split.
  { repeat (split; [done|]). cbn. by rewrite Eg. }
  split; [|done]. split; [done|]. split; [done|]. by exists image, bb.
Qed.

(** Appending one more live element to a menu under construction. *)
Lemma wp_build_next m es t u0 ns u io :
  ui_ok u -> menu_rep u m ns es -> grows m [] u0 ns u -> elt_live u t ->
  sprite (elt_ui t) ∉ ((fun t => sprite (elt_ui t)) <$> es) ->
  wp (menu_append m (elt_ptr t)) (fun _ st => exists ns', ui_ok st.1 /\
    menu_rep st.1 m ns' (es ++ [t]) /\ grows m [] u0 ns' st.1 /\
    (forall t', elt_live u t' -> elt_live st.1 t') /\ io_trace st.2 = io_trace io) (u, io).
Proof.
  intros Hok Hr Hg Hl Hs. eapply wp_mono; [by eapply wp_menu_append|].
  intros [] st ((Hok' & ns' & Hr' & Hg') & Eg & Ee & Ht). exists ns'.
  split; [done|]. split; [done|]. split; [by eapply grows_trans|]. split; [|done].
  intros t'. by apply elt_live_same.
Qed.

Lemma NoDup_four (a b c d : Z) :
  a <> b -> a <> c -> a <> d -> b <> c -> b <> d -> c <> d -> NoDup [a; b; c; d].
Proof. intros. repeat (apply NoDup_cons; split; [set_solver|]). apply NoDup_nil_2. Qed.

(** The head of a menu and three more elements, linked in this order. *)
Lemma wp_link_four m u0 t1 t2 t3 t4 u io :
  ui_ok u -> m <> NULL -> cells (ui_menus u) !! m = Some (mkMenu NULL) ->
  grows m [] u0 [] u -> Forall (elt_live u) [t1; t2; t3; t4] ->
  NoDup ((fun t => sprite (elt_ui t)) <$> [t1; t2; t3; t4]) ->
  wp (menu_start m (elt_ptr t1) ;; menu_append m (elt_ptr t2) ;;
      menu_append m (elt_ptr t3) ;; menu_append m (elt_ptr t4) ;; mret m)
    (fun r st => r = m /\ built m [] [] u0 [t1; t2; t3; t4] st.1 /\
       io_trace st.2 = io_trace io) (u, io).
Proof.
  intros Hok Hm Hc Hg HF Hnd. repeat apply Forall_cons in HF as [? HF].
  cbn [fmap list_fmap] in Hnd. repeat apply NoDup_cons in Hnd as [? Hnd].
  wp_step. eapply wp_mono; [by apply (wp_menu_start m (mkMenu NULL) t1)|].
  intros [] [w1 j1] ((Hok1 & n1 & R1 & G1) & Eg & Ee & U1). cbn [fst snd] in *.
  assert (forall t, elt_live u t -> elt_live w1 t) as K1 by (intros t; by apply elt_live_same).
  wp_step. eapply wp_mono; [apply (wp_build_next m [t1] t2 u0 n1)|]; auto.
  { by eapply grows_trans. }
  { cbn. set_solver. }
  intros [] [w2 j2] (n2 & Hok2 & R2 & G2 & K2 & U2). cbn [fst snd app] in *.
  wp_step. eapply wp_mono; [apply (wp_build_next m [t1; t2] t3 u0 n2)|]; auto.
  { cbn. set_solver. }
  intros [] [w3 j3] (n3 & Hok3 & R3 & G3 & K3 & U3). cbn [fst snd app] in *.
  wp_step. eapply wp_mono; [apply (wp_build_next m [t1; t2; t3] t4 u0 n3)|]; auto.
  { cbn. set_solver. }
  intros [] [w4 j4] (n4 & Hok4 & R4 & G4 & K4 & U4). cbn [fst snd app] in *.
  wp_step. split; [done|]. split; [|cbn [fst snd]; congruence]. split; [done|]. by exists n4.
Qed.

(** The four sprites of the main menu, each made beside the earlier ones. *)
Lemma four_distinct v1 v2 v3 v4 s1 s2 s3 s4 x1 x2 x3 o1 o2 o3 z1 z2 z3 :
  adds v1 v2 -> adds v2 v3 -> adds v3 v4 ->
  sprite_at v1 s1 x1 o1 z1 -> sprite_at v3 s2 x2 o2 z2 -> sprite_at v4 s3 x3 o3 z3 ->
  cells (sprites v2) !! s2 = None -> cells (sprites v3) !! s3 = None ->
  cells (sprites v4) !! s4 = None ->
  s1 <> s2 /\ s1 <> s3 /\ s1 <> s4 /\ s2 <> s3 /\ s2 <> s4 /\ s3 <> s4.
Proof.
  intros A2 A3 A4 S1 S2 S3 F2 F3 F4.
  pose proof (sprite_at_adds _ _ _ _ _ _ A2 S1) as Q1.
  pose proof (sprite_at_adds _ _ _ _ _ _ A3 Q1) as Q2.
  pose proof (sprite_at_adds _ _ _ _ _ _ A4 Q2) as Q3.
  pose proof (sprite_at_adds _ _ _ _ _ _ A4 S2) as Q4.
  pose proof (sprite_at_new v2 s1 s2 _ _ _ Q1 F2). pose proof (sprite_at_new v3 s1 s3 _ _ _ Q2 F3).
  pose proof (sprite_at_new v4 s1 s4 _ _ _ Q3 F4). pose proof (sprite_at_new v3 s2 s3 _ _ _ S2 F3).
  pose proof (sprite_at_new v4 s2 s4 _ _ _ Q4 F4). by pose proof (sprite_at_new v4 s3 s4 _ _ _ S3 F4).
Qed.

Lemma wp_create_main u io :
  ui_ok u ->
  wp Menu_create_main_menu (fun m st => exists es,
    cells (ui_menus u) !! m = None /\ built m [] [] u es st.1 /\
    Forall2 shows es main_menu_items /\ Forall (fresh_in u) es /\ io_trace st.2 = io_trace io) (u, io).
Proof.
  intros Hok. unfold Menu_create_main_menu.
  wp_step. eapply wp_mono; [by apply wp_menu_alloc|].
  intros m [u0 io0] (Hok0 & Hm & Hfr & Hcell & Hg0 & _ & Ht0). cbn [fst snd] in *.
  wp_step. eapply wp_mono; [by apply wp_new_sprite|].
  intros s1 [v1 i1] (A1 & S1 & F1 & T1). cbn [fst snd] in *.
  wp_step. eapply wp_mono; [eapply wp_wrap; [apply A1|exact S1]|].
  intros ? [v2 i2] (t1 & -> & A2 & L1 & I1 & E1 & T2). cbn [fst snd] in *.
  wp_step. eapply wp_mono; [apply wp_new_sprite, A2|].
  intros s2 [v3 i3] (A3 & S2 & F2 & T3). cbn [fst snd] in *.
  wp_step. eapply wp_mono; [apply wp_new_sprite, A3|].
  intros s3 [v4 i4] (A4 & S3 & F3 & T4). cbn [fst snd] in *.
  wp_step. eapply wp_mono; [apply wp_new_sprite, A4|].
  intros s4 [v5 i5] (A5 & S4 & F4 & T5). cbn [fst snd] in *.
  pose proof (four_distinct v1 v2 v3 v4 s1 s2 s3 s4 _ _ _ _ _ _ _ _ _ A2 A3 A4 S1 S2 S3 F2 F3 F4)
    as Hne.
  pose proof (adds_trans _ _ _ A4 A5) as A45.
  pose proof (sprite_at_adds _ _ _ _ _ _ A45 S2) as S2'.
  pose proof (sprite_at_adds _ _ _ _ _ _ A5 S3) as S3'.
  wp_step. eapply wp_mono; [eapply wp_wrap; [apply A5|exact S2']|].
  intros ? [v6 i6] (t2 & -> & A6 & L2 & I2 & E2 & T6). cbn [fst snd] in *.
  wp_step. eapply wp_mono; [eapply wp_wrap; [apply A6|by eapply sprite_at_adds]|].
  intros ? [v7 i7] (t3 & -> & A7 & L3 & I3 & E3 & T7). cbn [fst snd] in *.
  pose proof (adds_trans _ _ _ A6 A7) as A67.
  wp_step. eapply wp_mono; [eapply wp_wrap; [apply A7|exact (sprite_at_adds _ _ _ _ _ _ A67 S4)]|].
  intros ? [v8 i8] (t4 & -> & A8 & L4 & I4 & E4 & T8). cbn [fst snd] in *.
  pose proof (adds_trans _ _ _ A7 A8) as A78. pose proof (adds_trans _ _ _ A6 A78) as A68.
  pose proof (adds_trans _ _ _ A3 (adds_trans _ _ _ A45 A68)) as A38.
  pose proof (adds_trans _ _ _ A1 (adds_trans _ _ _ A2 A38)) as A18.
  apply (elt_live_adds _ _ _ A38) in L1. apply (elt_live_adds _ _ _ A78) in L2.
  apply (elt_live_adds _ _ _ A8) in L3.
  eapply wp_mono.
  { apply (wp_link_four m u t1 t2 t3 t4); [apply A8|done| | |by repeat (constructor; [done|])|].
    - destruct A18 as (_ & _ & _ & -> & _). done.
    - eapply grows_trans; [exact Hg0|by apply adds_grows].
    - cbn [fmap list_fmap]. rewrite E1, E2, E3, E4. apply NoDup_four; tauto. }
  intros ? [w4 j4] (-> & Hb4 & U4). cbn [fst snd] in *.
  pose proof (grows_sprites _ _ _ _ _ Hg0) as P0. pose proof (adds_trans _ _ _ A1 A2) as A12.
  pose proof (adds_trans _ _ _ A12 A3) as A13. pose proof (adds_trans _ _ _ A13 A4) as A14.
  exists [t1; t2; t3; t4]. split; [done|]. split; [exact Hb4|].
  split; [by repeat (constructor; [done|])|].
  split; [repeat constructor; first [by eapply (fresh_since u u0 u0)|by eapply (fresh_since u u0 v2)|by eapply (fresh_since u u0 v3)|by eapply (fresh_since u u0 v4)]|cbn [fst snd]; congruence].
Qed.
End Build.

(** ** Drawing *)

Definition elt_place (t : elt) : vec2 := position (bounds (elt_ui t)).

Definition elt_picture (t : elt) : picture := sprite_picture (elt_sprite t) (elt_place t).

(** The elements from the first to the last, each over the ones before it. *)
Definition menu_picture (es : list elt) : picture := layers (elt_picture <$> es).

Definition elt_drawn (t : elt) : elt := mkElt (elt_ptr t) (elt_ui t) (drawn (elt_sprite t)).
Definition elt_drawable (t : elt) : Prop := drawable (elt_sprite t) (elt_place t).

Abbreviation sprite_ptrs es := ((fun t => sprite (elt_ui t)) <$> es).

(** Only the sprites at [ps] differ. *)
Definition sprites_kept (ps : list Z) (u u' : ui) : Prop :=
  ui_nodes u' = ui_nodes u /\ ui_menus u' = ui_menus u /\
  ui_elements u' = ui_elements u /\ brk (sprites u') = brk (sprites u) /\
  forall p, p ∉ ps -> cells (sprites u') !! p = cells (sprites u) !! p.

(** What an element shows where, and the box its frame fills. *)
Definition elt_shown (t : elt) : Sprite * vec2 := (elt_sprite t, elt_place t).
Definition elt_frame (t : elt) : aabb :=
  AABB (elt_place t) (frame_table (elt_sprite t) (current_frame (elt_sprite t))).2.

Definition elts_apart (es : list elt) : Prop :=
  forall i j t t', i <> j -> es !! i = Some t -> es !! j = Some t' ->
    boxes_apart (elt_frame t) (elt_frame t').

Lemma elt_confined t : confined (elt_frame t) (elt_picture t).
Proof. apply sprite_confined. Qed.

(** Elements that do not meet may be drawn in any order. *)
Lemma menu_picture_permutation es es' :
  elts_apart es -> elt_shown <$> es ≡ₚ elt_shown <$> es' -> menu_picture es ≡ menu_picture es'.
Proof.
  intros Ha Hp. unfold menu_picture. apply layers_permutation.
  - intros i j p q Hij Hi Hj. rewrite list_lookup_fmap in Hi, Hj.
    apply fmap_Some in Hi as (t & Hi & ->). apply fmap_Some in Hj as (t' & Hj & ->).
    by eapply confined_apart; [|apply elt_confined..]; eapply Ha.
  - assert (forall l, elt_picture <$> l = (fun x => sprite_picture x.1 x.2) <$> (elt_shown <$> l))
      as E by (intros l; by rewrite <- list_fmap_compose).
    rewrite !E. by apply fmap_Permutation.
Qed.

Section Drawing.
Context {W : Type} `{Machine W, !MallocOk W}.
Implicit Types (u : ui) (io : iost W).

Lemma wp_ui_element_draw t u io :
  indexed (gfx_gpu (ui_gfx u)) -> elt_live u t -> elt_drawable t ->
  wp (ui_element_draw (elt_ptr t)) (fun _ st =>
    painted (sprite_picture (elt_sprite t) (elt_place t)) (gfx_gpu (ui_gfx u))
      (gfx_gpu (ui_gfx st.1)) /\
    sprites_kept [sprite (elt_ui t)] u st.1 /\ elt_live st.1 (elt_drawn t) /\
    io_trace st.2 = io_trace io) (u, io).
Proof.
  intros Hg (Hp & He & Hs & Hc) Hd.
  unfold ui_element_draw, element_load, on_elements, on_statics, on_gfx.
  do 3 wp_step. cbn [fst snd ui_elements]. eapply wp_load; [done..|].
  wp_step. cbn [fst snd ui_gfx ui_elements ui_nodes ui_menus].
  eapply wp_mono; [by eapply Sprite_draw_spec|].
  intros [] [g io'] (Hpt & Hsp & Ht). cbn [fst snd ui_gfx gfx_sprites gfx_gpu] in *.
  split; [done|]. split; [|split; [|done]].
  - unfold sprites_kept. cbn. rewrite Hsp. cbn. repeat (split; [done|]).
    intros q Hq. rewrite lookup_insert_ne; [done|]. intros <-. apply Hq. by left.
  - repeat (split; [done|]). cbn. rewrite Hsp. apply lookup_insert_eq.
Qed.

Lemma sprites_kept_live ps u u' t :
  sprites_kept ps u u' -> sprite (elt_ui t) ∉ ps -> elt_live u t -> elt_live u' t.
Proof.
  intros (_ & _ & Ee & _ & Hk) Hn (? & ? & ? & ?). unfold elt_live.
  by rewrite Ee, Hk.
Qed.

Lemma wp_draw_nodes fuel es ns p u io :
  indexed (gfx_gpu (ui_gfx u)) -> linked (cells (ui_nodes u)) p ns ->
  (length ns < fuel)%nat -> ns.*2 = elt_ptr <$> es ->
  Forall (elt_live u) es -> NoDup (sprite_ptrs es) -> Forall elt_drawable es ->
  wp (draw_nodes fuel p) (fun _ st =>
    painted (menu_picture es) (gfx_gpu (ui_gfx u)) (gfx_gpu (ui_gfx st.1)) /\
    sprites_kept (sprite_ptrs es) u st.1 /\ Forall (elt_live st.1) (elt_drawn <$> es) /\
    io_trace st.2 = io_trace io) (u, io).
Proof.
  revert fuel ns p u io. induction es as [|t es IH];
    intros fuel ns p u io Hg Hl Hf Hp HF Hnd Hd;
    (destruct fuel as [|fuel]; [lia|]); cbn [draw_nodes].
  { destruct ns; [|done]. cbn in Hl. subst p. rewrite Z.eqb_refl. wp_step.
    split; [apply painted_refl|]. repeat (split; [done|]). by constructor. }
  destruct ns as [|[a d] ns]; [done|]. rewrite !fmap_cons in Hp. injection Hp as -> Hp.
  destruct Hl as (-> & Ha & r & Ea & Hl). rewrite (proj2 (Z.eqb_neq a NULL)) by done.
  apply Forall_cons in HF as [Ht HF]. apply Forall_cons in Hd as [Hdt Hd].
  rewrite fmap_cons in Hnd. apply NoDup_cons in Hnd as [Hni Hnd].
  wp_step. unfold on_nodes, on_statics. do 2 wp_step. cbn [fst snd ui_nodes].
  eapply wp_load; [done..|]. cbn [fst snd ui_gfx ui_elements ui_nodes ui_menus data next].
  replace (mkUi (ui_gfx u) (ui_elements u) (ui_nodes u) (ui_menus u)) with u by (by destruct u).
  wp_step. eapply wp_mono; [by apply wp_ui_element_draw|].
  intros [] [u1 io1] (Hpt & Hk & Hlt & Htr). cbn [fst snd] in *.
  assert (Forall (elt_live u1) es) as HF1.
  { apply Forall_forall. intros t' Hin. eapply sprites_kept_live; [exact Hk| |].
    - intros E%list_elem_of_singleton. apply Hni. rewrite <- E.
      by apply (list_elem_of_fmap_2 (fun t => sprite (elt_ui t))).
    - by eapply Forall_forall in HF. }
  pose proof Hk as (En & Em & Ee & Eb & Hkk).
  eapply wp_mono.
  { apply (IH fuel ns r u1 io1); try done; [by eapply indexed_painted|by rewrite En|].
    cbn in Hf. lia. }
  intros [] [u2 io2] (Hpt2 & Hk2 & HF2 & Ht2). cbn [fst snd] in *.
  split; [by eapply painted_trans|]. split; [|split; [|congruence]].
  - destruct Hk2 as (En2 & Em2 & Ee2 & Eb2 & Hkk2). repeat (split; [congruence|]).
    intros q Hq. rewrite fmap_cons in Hq. rewrite Hkk2, Hkk; set_solver.
  - rewrite fmap_cons. constructor; [|done].
    eapply sprites_kept_live; [exact Hk2|exact Hni|done].
Qed.

Lemma wp_Menu_draw m ns es u io :
  indexed (gfx_gpu (ui_gfx u)) -> menu_rep u m ns es -> Forall elt_drawable es ->
  wp (Menu_draw m) (fun _ st =>
    painted (menu_picture es) (gfx_gpu (ui_gfx u)) (gfx_gpu (ui_gfx st.1)) /\
    sprites_kept (sprite_ptrs es) u st.1 /\ menu_rep st.1 m ns (elt_drawn <$> es) /\
    io_trace st.2 = io_trace io) (u, io).
Proof.
  intros Hg (Hm & (head & Hh & Hl) & Hp & HF & Hnd) Hd.
  unfold Menu_draw, menu_load, on_menus, on_nodes, on_statics, list_fuel.
  do 3 wp_step. cbn [fst snd ui_menus]. eapply wp_load; [done..|].
  do 4 wp_step. cbn [fst snd ui_nodes ui_gfx ui_elements ui_menus element].
  replace (mkUi (ui_gfx u) (ui_elements u) (ui_nodes u) (ui_menus u)) with u by (by destruct u).
  eapply wp_mono.
  { eapply wp_draw_nodes; try done. apply linked_length in Hl. lia. }
  intros [] st (Hpt & Hk & HF' & Ht). split; [done|]. split; [done|]. split; [|done].
  pose proof Hk as (En & Em & _). split; [done|]. rewrite Em, En. split; [eauto|].
  assert (elt_ptr <$> (elt_drawn <$> es) = elt_ptr <$> es) as -> by (by rewrite <- list_fmap_compose).
  assert (sprite_ptrs (elt_drawn <$> es) = sprite_ptrs es) as -> by (by rewrite <- list_fmap_compose).
  done.
Qed.
End Drawing.

(** ** Every element of the program's menus can be drawn *)

Definition item_ok (i : item) : Prop :=
  exists wd ht n, xpm_dims (it_xpm i) = Some (wd, ht, n) /\
    wd <= 65535 /\ ht <= 65535 /\ wd * ht <= INT_MAX /\
    0 <= vx (it_off i) /\ 0 <= vy (it_off i) /\ 0 <= vx (it_size i) /\ 0 <= vy (it_size i) /\
    vx (it_off i) + vx (it_size i) <= wd /\ vy (it_off i) + vy (it_size i) <= ht /\
    coord_ok (position (it_box i)) (it_size i) /\ box_fits (it_box i).

Lemma shows_drawable `{XpmLoader W, !XpmLaws W} t i :
  shows t i -> item_ok i -> elt_drawable t.
Proof.
  intros (Hb & _ & image & b & (w & ok & w' & Hl) & Es)
    (wd & ht & n & Hd & Hw & Hh & Ha & O1 & O2 & S1 & S2 & F1 & F2 & Hc & _).
  unfold elt_drawable, elt_place. rewrite Es, Hb. split.
  - repeat split; cbn; lia.
  - intros im [= <-] Hv. split; intros j Hj; cbn in Hj; assert (j = 0) as -> by lia;
      cbn [frame_table still offsets sizes fst snd Z.to_nat nth]; [|done].
    by eapply loaded_frame_ok.
Qed.

Lemma shows_all_drawable `{XpmLoader W, !XpmLaws W} es its :
  Forall2 shows es its -> Forall item_ok its -> Forall elt_drawable es.
Proof.
  induction 1 as [|t i es its Hs _ IH]; intros HF; [constructor|].
  apply Forall_cons in HF as [Hi HF]. constructor; [by eapply shows_drawable|auto].
Qed.

Lemma shows_all_boxes `{XpmLoader W} es its :
  Forall2 shows es its -> Forall item_ok its ->
  Forall (fun t => box_fits (bounds (elt_ui t))) es.
Proof.
  induction 1 as [|t i es its Hs _ IH]; intros HF; [constructor|].
  apply Forall_cons in HF as [Hi HF]. constructor; [|auto].
  destruct Hs as (-> & _). by destruct Hi as (? & ? & ? & _ & _ & _ & _ & _ & _ & _ & _ & _ & _ & _ & ?).
Qed.

Lemma drawn_all_drawable es :
  Forall elt_drawable es -> Forall elt_drawable (elt_drawn <$> es).
Proof.
  intros HF. apply Forall_fmap. eapply Forall_impl; [exact HF|].
  intros t. apply drawn_drawable.
Qed.

Ltac item_solve dims :=
  eexists _, _, _; split; [exact dims|];
  repeat split; cbn; unfold INT_MIN, INT_MAX; lia.

Lemma main_menu_items_ok : Forall item_ok main_menu_items.
Proof.
  assert (xpm_dims logo_xpm = Some (540, 108, 3)) as D1 by reflexivity.
  assert (xpm_dims play_button_xpm = Some (402, 97, 3)) as D2 by reflexivity.
  assert (xpm_dims leaderboard_button_xpm = Some (402, 97, 3)) as D3 by reflexivity.
  assert (xpm_dims quit_button_xpm = Some (402, 97, 3)) as D4 by reflexivity.
  repeat constructor; [item_solve D1|item_solve D2|item_solve D3|item_solve D4].
Qed.

Lemma main_menu_apart `{XpmLoader W} es : Forall2 shows es main_menu_items -> elts_apart es.
Proof.
  intros HF i j t t' Hij Hi Hj.
  destruct (Forall2_lookup_l _ _ _ _ _ HF Hi) as (a & Ha & Hb & _ & ? & ? & _ & Es).
  destruct (Forall2_lookup_l _ _ _ _ _ HF Hj) as (a' & Ha' & Hb' & _ & ? & ? & _ & Es').
  unfold elt_frame, elt_place. rewrite Es, Es', Hb, Hb'. clear -Hij Ha Ha'.
  destruct i as [|[|[|[|i]]]], j as [|[|[|[|j]]]]; try (done || by destruct Hij);
    injection Ha as <-; injection Ha' as <-; apply (bool_decide_unpack _); vm_compute; exact I.
Qed.

Lemma char_items_ok str x0 y0 :
  0 <= x0 -> x0 + 44 * Z.of_nat (length str) <= 32768 -> -32768 <= y0 <= 32000 ->
  Forall item_ok (char_items str x0 y0).
Proof.
  revert x0. induction str as [|c str IH]; intros x0 H1 H2 H3; cbn [char_items]; [constructor|].
  cbn [length] in H2.
  assert (0 <= x (calculate_char_coord c) <= 0 /\ 0 <= y (calculate_char_coord c) /\
    0 <= width (calculate_char_coord c) <= 44 /\ 0 <= height (calculate_char_coord c) <= 83 /\
    y (calculate_char_coord c) + height (calculate_char_coord c) <= 3486) as (Hx & Hy & Hw & Hh & Hyh).
  { unfold calculate_char_coord, CHAR_HEIGHT, CHAR_WIDTH.
    repeat match goal with
    | |- context [Z.eqb ?a ?b] => destruct (Z.eqb_spec a b)
    | |- context [Z.leb ?a ?b && Z.leb ?d ?e] =>
        destruct (Z.leb_spec a b), (Z.leb_spec d e); cbn [andb]
    end; cbn; lia. }
  constructor; [|apply IH; lia].
  exists 44, 3486, 2. split; [exact alphabet_dims|].
  repeat split; cbn; unfold INT_MIN, INT_MAX; lia.
Qed.

Lemma entry_items_ok es i :
  0 <= i -> i + Z.of_nat (length es) <= 186 -> Forall item_ok (entry_items es i).
Proof.
  revert i. induction es as [|e es IH]; intros i H1 H2; cbn [entry_items]; [constructor|].
  cbn [length] in H2. apply Forall_app. split; [|apply IH; lia].
  destruct (unix_to_rtc_date_time _ _) as [rdt|]; [|constructor].
  destruct (c_string _) as [nm|]; [|constructor].
  pose proof (line_lengths i nm rdt (dt_of_entry e)) as [L1 L2].
  apply Forall_app. split; apply char_items_ok; lia.
Qed.

Lemma leaderboard_items_ok lb :
  (length (live lb) <= 186)%nat -> Forall item_ok (leaderboard_items lb).
Proof.
  intros Hl. assert (xpm_dims trophy_xpm = Some (300, 300, 4)) as D1 by reflexivity.
  assert (xpm_dims leaderboard_button_xpm = Some (402, 97, 3)) as D3 by reflexivity.
  constructor; [item_solve D1|]. constructor; [item_solve D3|].
  apply entry_items_ok; lia.
Qed.

(** ** The menus' contracts *)

Section Contracts.
Context {W : Type} `{Machine W, XpmLoader W, !MallocOk W}.

(** C17: [Menu_create_main_menu] builds, on the heap, a linked list of exactly the
    logo and the play, leaderboard and quit buttons, in this order, each with
    its image, box, frame and callback; every menu there was before is left as
    it was, and nothing is drawn. *)
Theorem Menu_create_main_menu_builds u (io : iost W) :
  ui_ok u ->
  exists m u' io' ns es, Menu_create_main_menu (u, io) = Ok (m, (u', io')) /\
    menu_rep u' m ns es /\ Forall2 shows es main_menu_items /\
    gfx_gpu (ui_gfx u') = gfx_gpu (ui_gfx u) /\
    forall m2 ns2 es2, menu_rep u m2 ns2 es2 -> menu_rep u' m2 ns2 es2.
Proof.
  intros Hok. destruct (wp_run _ _ _ (wp_create_main u io Hok))
    as (m & [u' io'] & E & es & Hm & (_ & ns & Hr & Hg) & HF & _ & _).
  exists m, u', io', ns, es. repeat (split; [done|]). split; [apply Hg|].
  intros m2 ns2 es2 Hr2. eapply menu_rep_grows; [exact Hg| | |done].
  - intros ->. destruct Hr2 as (_ & (h & Hh & _) & _). congruence.
  - intros a _ Ha. by apply not_elem_of_nil in Ha.
Qed.

(** C18: [Menu_create_leaderboard] shows every entry of the board on two lines of
    characters, placed one after the other, for any entries with terminated
    names and representable times: no string is read past its end, no line
    outgrows its array, and other menus are left as they were. *)
Theorem Menu_create_leaderboard_builds lb u (io : iost W) :
  ui_ok u -> length (live lb) = Z.to_nat (entry_count lb) -> Forall showable (live lb) ->
  exists m u' io' ns es, Menu_create_leaderboard lb (u, io) = Ok (m, (u', io')) /\
    menu_rep u' m ns es /\ Forall2 shows es (leaderboard_items lb) /\
    gfx_gpu (ui_gfx u') = gfx_gpu (ui_gfx u) /\
    forall m2 ns2 es2, menu_rep u m2 ns2 es2 -> menu_rep u' m2 ns2 es2.
Proof.
  intros Hok Hl HF. destruct (wp_run _ _ _ (wp_create_leaderboard lb u io Hok Hl HF))
    as (m & [u' io'] & E & es & Hm & (_ & ns & Hr & Hg) & HS & _ & _).
  exists m, u', io', ns, es. repeat (split; [done|]). split; [apply Hg|].
  intros m2 ns2 es2 Hr2. eapply menu_rep_grows; [exact Hg| | |done].
  - intros ->. destruct Hr2 as (_ & (h & Hh & _) & _). congruence.
  - intros a _ Ha. by apply not_elem_of_nil in Ha.
Qed.

(** C15: [Menu_draw] draws every element of the menu once, in list order: a pixel
    of the screen gets the colour of the last element that paints it and keeps
    its own where none does; the list ends, and only the menu's own sprites
    move on. *)
Theorem Menu_draw_layers m ns es u (io : iost W) :
  indexed (gfx_gpu (ui_gfx u)) -> menu_rep u m ns es -> Forall elt_drawable es ->
  exists u' io', Menu_draw m (u, io) = Ok (tt, (u', io')) /\
    menu_rep u' m ns (elt_drawn <$> es) /\ sprites_kept (sprite_ptrs es) u u' /\
    forall px py, on_screen (gfx_gpu (ui_gfx u)) px py ->
      pixel (gfx_gpu (ui_gfx u')) px py
      = over (menu_picture es) (pixel (gfx_gpu (ui_gfx u))) px py.
Proof.
  intros Hg Hr Hd. destruct (wp_run _ _ _ (wp_Menu_draw m ns es u io Hg Hr Hd))
    as ([] & [u' io'] & E & Hpt & Hk & Hr' & _).
  exists u', io'. repeat (split; [done|]). by destruct Hpt as (b & _ & _ & Hp).
Qed.

(** C16: two menus, wherever they are on the heap, that show the same sprites in
    the same places are drawn alike whatever their order, as long as no two of
    the frames meet: [Menu_draw] leaves the same card.  No two of the frames of
    the main menu meet. *)
Theorem Menu_draw_order :
  (forall es, Forall2 shows es main_menu_items -> elts_apart es) /\
  forall m1 ns1 es1 u1 (io1 : iost W) m2 ns2 es2 u2 (io2 : iost W),
    indexed (gfx_gpu (ui_gfx u1)) -> gfx_gpu (ui_gfx u2) = gfx_gpu (ui_gfx u1) ->
    menu_rep u1 m1 ns1 es1 -> menu_rep u2 m2 ns2 es2 ->
    Forall elt_drawable es1 -> elts_apart es1 ->
    elt_shown <$> es1 ≡ₚ elt_shown <$> es2 ->
    exists v1 v2 io1' io2',
      Menu_draw m1 (u1, io1) = Ok (tt, (v1, io1')) /\
      Menu_draw m2 (u2, io2) = Ok (tt, (v2, io2')) /\
      gfx_gpu (ui_gfx v1) = gfx_gpu (ui_gfx v2).
Proof.
  split; [apply main_menu_apart|].
  intros m1 ns1 es1 u1 io1 m2 ns2 es2 u2 io2 Hg Eg Hr1 Hr2 Hd Ha Hp.
  assert (Forall elt_drawable es2) as Hd2.
  { assert (Forall (fun x => drawable x.1 x.2) (elt_shown <$> es2)) as HF
      by (rewrite <- Hp; by apply Forall_fmap).
    by apply Forall_fmap in HF. }
  destruct (wp_run _ _ _ (wp_Menu_draw m1 ns1 es1 u1 io1 Hg Hr1 Hd))
    as ([] & [v1 io1'] & E1 & Hp1 & _).
  rewrite <- Eg in Hg. destruct (wp_run _ _ _ (wp_Menu_draw m2 ns2 es2 u2 io2 Hg Hr2 Hd2))
    as ([] & [v2 io2'] & E2 & Hp2 & _).
  exists v1, v2, io1', io2'. split; [done|]. split; [done|]. cbn [fst] in *.
  refine (painted_det _ _ _ _ Hg _ Hp2). by rewrite Eg, <- (menu_picture_permutation es1 es2 Ha Hp).
Qed.
End Contracts.

(** ** Runs on the demonstration machine, and on a menu of one button *)

Definition tiny_button : ui_element :=
  mkElement (AABB (VEC2 1 0) (VEC2 2 2)) 1 (Some Gamestate_quit_fn).
Definition tiny_button_sprite : Sprite :=
  mkSprite (Some (tiny_image 99)) [VEC2 1 0] [VEC2 2 2] 1 0 0 0 true.
Definition tiny_elt : elt := mkElt 1 tiny_button tiny_button_sprite.
Lemma tiny_drawable : elt_drawable tiny_elt.
Proof.
  split; [repeat split; cbn; lia|]. intros image [= <-] _.
  split; intros i Hi; cbn in Hi; assert (i = 0) as -> by lia.
  - apply tiny_frame. lia.
  - change (coord_ok (VEC2 1 0) (VEC2 2 2)). repeat split; cbn; lia.
Qed.

Definition bare_ui : ui :=
  mkUi (mkGfx gpu_zero store_empty) store_empty store_empty store_empty.

Lemma bare_ui_ok : ui_ok bare_ui.
Proof. repeat (split; [apply store_ok_empty|]). apply store_ok_empty. Qed.

Definition demo_start : iost (demo unit) := demo_io (mkScript [] [] [] [] [] []) tt.

Definition demo_board : Leaderboard :=
  mkBoard [mkEntry [65; 66; 67; 0] (mkRtc 8 59 23 0 6 12 2023) 540] 1.

Lemma Menu_create_main_menu_builds_witness :
  exists m u' io' ns es, Menu_create_main_menu (bare_ui, demo_start) = Ok (m, (u', io')) /\
    menu_rep u' m ns es /\ Forall2 (@shows (demo unit) _) es main_menu_items.
Proof.
  destruct (Menu_create_main_menu_builds bare_ui demo_start bare_ui_ok)
    as (m & u' & io' & ns & es & E & Hr & HF & _).
  exists m, u', io', ns, es. split; [exact E|]. split; [exact Hr|exact HF].
Defined.

Lemma Menu_create_leaderboard_builds_witness :
  exists m u' io' ns es,
    Menu_create_leaderboard demo_board (bare_ui, demo_start) = Ok (m, (u', io')) /\
    menu_rep u' m ns es /\ length es = (2 + 14 + 20)%nat.
Proof.
  destruct (Menu_create_leaderboard_builds demo_board bare_ui demo_start)
    as (m & u' & io' & ns & es & E & Hr & HF & _).
  - apply bare_ui_ok.
  - reflexivity.
  - apply Forall_singleton. split; eexists; by vm_compute.
  - exists m, u', io', ns, es. split; [exact E|]. split; [exact Hr|].
    apply Forall2_length in HF. rewrite HF. by vm_compute.
Defined.

Lemma Menu_draw_layers_witness :
  let u := mkUi (mkGfx tiny_gpu (mkStore {[1 := tiny_button_sprite]} 2))
    (mkStore {[1 := tiny_button]} 2) (mkStore {[1 := mkNode 1 NULL]} 2)
    (mkStore {[1 := mkMenu 1]} 2) in
  exists u' io', Menu_draw 1 (u, demo_start) = Ok (tt, (u', io')) /\
    pixel (gfx_gpu (ui_gfx u')) 1 0 = Some 5 /\ pixel (gfx_gpu (ui_gfx u')) 2 0 = Some 3.
Proof.
  intros u. destruct (Menu_draw_layers 1 [(1, 1)] [tiny_elt] u demo_start)
    as (u' & io' & E & _ & _ & Hp).
  - apply tiny_indexed.
  - split; [done|]. split.
    { exists 1. split; [done|]. split; [done|]. split; [done|]. by exists NULL. }
    split; [done|]. split; [|apply NoDup_singleton]. by apply Forall_singleton.
  - apply Forall_singleton, tiny_drawable.
  - exists u', io'. split; [exact E|].
    assert (on_screen tiny_gpu 1 0 /\ on_screen tiny_gpu 2 0) as [H1 H2] by (repeat split; cbn; lia).
    split; [exact (Hp 1 0 H1)|exact (Hp 2 0 H2)].
Defined.

(** Two buttons side by side, in either order. *)
Definition side_button (x : Z) (sp : Z) : ui_element :=
  mkElement (AABB (VEC2 x 0) (VEC2 2 2)) sp None.
Definition side_elt (p : Z) (x : Z) : elt := mkElt p (side_button x p) tiny_button_sprite.
Definition side_ui (first second : Z) : ui :=
  mkUi (mkGfx tiny_gpu (mkStore {[1 := tiny_button_sprite; 2 := tiny_button_sprite]} 3))
    (mkStore {[1 := side_button 0 1; 2 := side_button 2 2]} 3)
    (mkStore {[1 := mkNode first 2; 2 := mkNode second NULL]} 3)
    (mkStore {[1 := mkMenu 1]} 2).

Lemma side_drawable p x : 0 <= x <= 2 -> elt_drawable (side_elt p x).
Proof.
  intros Hx. split; [repeat split; cbn; lia|]. intros image [= <-] _.
  split; intros i Hi; cbn in Hi; assert (i = 0) as -> by lia.
  - apply tiny_frame. lia.
  - change (coord_ok (VEC2 x 0) (VEC2 2 2)). repeat split; cbn; lia.
Qed.

Lemma side_rep p q x y :
  (p, q, x, y) ∈ [(1, 2, 0, 2); (2, 1, 2, 0)] ->
  menu_rep (side_ui p q) 1 [(1, p); (2, q)] [side_elt p x; side_elt q y].
Proof.
  intros [[= -> -> -> ->]|[= -> -> -> ->]%list_elem_of_singleton]%elem_of_cons.
  all: split; [done|]; split;
    [exists 1; split; [done|]; split; [done|]; split; [done|]; exists 2; split; [done|];
     split; [done|]; split; [done|]; by exists NULL|].
  all: split; [done|]; split; [by repeat constructor|].
  all: apply NoDup_cons; split; [by intros [=]%list_elem_of_singleton|apply NoDup_singleton].
Qed.

Lemma Menu_draw_order_witness :
  exists v1 v2 io1 io2,
    Menu_draw 1 (side_ui 1 2, demo_start) = Ok (tt, (v1, io1)) /\
    Menu_draw 1 (side_ui 2 1, demo_start) = Ok (tt, (v2, io2)) /\
    gfx_gpu (ui_gfx v1) = gfx_gpu (ui_gfx v2).
Proof.
  destruct (Menu_draw_order (W := demo unit)) as [_ Ho].
  apply (Ho 1 [(1, 1); (2, 2)] [side_elt 1 0; side_elt 2 2] (side_ui 1 2) demo_start
    1 [(1, 2); (2, 1)] [side_elt 2 2; side_elt 1 0] (side_ui 2 1) demo_start).
  - apply tiny_indexed.
  - reflexivity.
  - apply side_rep. by left.
  - apply side_rep. by right; left.
  - apply Forall_cons. split; [|apply Forall_singleton]; apply side_drawable; lia.
  - intros i j t t' Hij Hi Hj. destruct i as [|[|i]], j as [|[|j]]; try (done || by destruct Hij);
      injection Hi as <-; injection Hj as <-; apply (bool_decide_unpack _); vm_compute; exact I.
  - apply Permutation_swap.
Defined.

(** ** The lines of the leaderboard *)

Lemma snprintf_fits size out : (length out < size)%nat -> snprintf size out = out.
Proof. intros Hl. unfold snprintf. apply take_ge. lia. Qed.

Lemma zpad_charset w n : 0 <= n -> Forall (fun c => c ∈ charset) (zpad w n).
Proof.
  intros Hn. eapply Forall_impl; [by apply zpad_digits|]. intros c Hc. cbn beta in Hc.
  apply charset_ranges. lia.
Qed.

Lemma zpad_one n : 0 <= n -> zpad 1 n = dec n.
Proof.
  intros Hn. unfold zpad. assert (1 - length (dec n) = 0)%nat as ->; [|done].
  unfold dec. destruct (Z.ltb_spec n 0); [lia|].
  destruct (udec_acc_nonempty 20 n []) as (c & r & E & _). unfold udec. rewrite E.
  cbn [length]. lia.
Qed.

Lemma zpad_two n : 0 <= n < 100 -> length (zpad 2 n) = 2%nat.
Proof. intros Hn. apply (zpad_length 1); lia. Qed.

Lemma length_txt s : length (txt s) = String.length s.
Proof.
  unfold txt. rewrite length_fmap. induction s as [|c s IH]; cbn; [done|]. by rewrite IH.
Qed.

Create Rewrite HintDb lines.
#[local] Hint Rewrite @length_app length_txt : lines.

Ltac literal :=
  match goal with
  | |- Forall _ (txt ?s) => let l := eval vm_compute in (txt s) in change (txt s) with l
  end;
  repeat (apply Forall_cons; split);
  first [apply Forall_nil; done | by right | left; apply charset_ranges; lia].

(** The two lines of an entry are never cut by their arrays of 15 and 21
    bytes: for a rank of one digit, a name of at most three characters, times
    of two digits and a year of four, they hold the whole text, the
    terminating NUL included, and every character of it but the name and one
    space is on the alphabet's sheet. *)
Theorem leaderboard_lines_fit i nm rdt dt :
  0 <= i < 9 -> (length nm <= 3)%nat ->
  0 <= rtc_hours rdt < 100 -> 0 <= rtc_minutes rdt < 100 -> 0 <= rtc_seconds rdt < 100 ->
  0 <= rtc_day dt < 100 -> 0 <= rtc_month dt < 100 -> 0 <= rtc_year dt < 10000 ->
  0 <= rtc_hours dt < 100 -> 0 <= rtc_minutes dt < 100 -> 0 <= rtc_seconds dt < 100 ->
  first_line i nm rdt
    = zpad 1 (i + 1) ++ txt "." ++ nm ++ txt "|" ++ zpad 2 (rtc_hours rdt) ++ txt ":"
      ++ zpad 2 (rtc_minutes rdt) ++ txt ":" ++ zpad 2 (rtc_seconds rdt) /\
  length (second_line dt) = 20%nat /\
  Forall (fun c => c ∈ charset \/ c ∈ nm) (first_line i nm rdt) /\
  Forall (fun c => c ∈ charset \/ c = 32) (second_line dt).
Proof.
  intros Hi Hnm Hh Hm Hs Hd Hmo Hy Hh' Hm' Hs'.
  assert (zpad 1 (i + 1) = dec (i + 1)) as Hdec by (apply zpad_one; lia).
  assert (length (zpad 1 (i + 1)) = 1%nat) as L1 by (apply (zpad_length 0); lia).
  assert (length (zpad 4 (rtc_year dt)) = 4%nat) as L4 by (apply (zpad_length 3); lia).
  pose proof zpad_two as L2.
  unfold first_line, second_line. rewrite <- Hdec.
  rewrite !snprintf_fits; autorewrite with lines; rewrite ?L1, ?L4, ?L2 by done;
    try (cbn [String.length]; lia).
  split; [done|]. split; [done|].
  split; repeat match goal with |- Forall _ (_ ++ _) => apply Forall_app; split end.
  all: try (eapply Forall_impl; [apply zpad_charset; lia|]; intros c Hc; cbn beta; by left).
  all: try (apply Forall_forall; intros c Hc; by right).
  all: by literal.
Qed.

Lemma leaderboard_lines_fit_witness :
  first_line 0 (txt "ABC") (mkRtc 0 2 9 0 0 0 0) = txt "1.ABC|09:02:00" /\
  length (second_line (mkRtc 8 59 23 0 6 12 2023)) = 20%nat.
Proof.
  split.
  - rewrite (proj1 (leaderboard_lines_fit 0 (txt "ABC") (mkRtc 0 2 9 0 0 0 0)
      (mkRtc 8 59 23 0 6 12 2023) ltac:(lia) ltac:(cbn; lia) ltac:(cbn; lia) ltac:(cbn; lia)
      ltac:(cbn; lia) ltac:(cbn; lia) ltac:(cbn; lia) ltac:(cbn; lia) ltac:(cbn; lia)
      ltac:(cbn; lia) ltac:(cbn; lia))).
    reflexivity.
  - apply (leaderboard_lines_fit 0 (txt "ABC") (mkRtc 0 2 9 0 0 0 0)
      (mkRtc 8 59 23 0 6 12 2023)); cbn; lia.
Defined.
