(* ===== verification/Gamestate.v ===== *)
(** * The game state: gamestate/gamestate_manager.h and gamestate_manager.c

    Which screen is on, and the two menus built at start-up.  The callbacks of
    the interface elements are the three functions at the end. *)

From S2P Require Import Prelude Machine Rtc Leaderboard Geometry Gpu Heap LinkedList.
From S2P Require Import Sprite Xpm UiElement Menu.

Inductive GAMESTATE : Type := GS_MAIN | GS_LEVEL | GS_LEADERBOARD | GS_QUIT.

#[export] Instance GAMESTATE_eq_dec : EqDecision GAMESTATE.
Proof. solve_decision. Defined.

Record gamestate : Type := mkGamestate {
  state : GAMESTATE;
  level : Z;
  current_menu : Z;
  main_menu : Z;
  leaderboard_menu : Z;
}.

Definition gamestate_zero : gamestate := mkGamestate GS_MAIN 0 NULL NULL NULL.

Definition set_main_menu (m : Z) (g : gamestate) : gamestate :=
  mkGamestate (state g) (level g) (current_menu g) m (leaderboard_menu g).
Definition set_leaderboard_menu (m : Z) (g : gamestate) : gamestate :=
  mkGamestate (state g) (level g) (current_menu g) (main_menu g) m.

Definition Gamestate_change (s : GAMESTATE) (g : gamestate) : gamestate :=
  mkGamestate s (level g)
    match s with
    | GS_MAIN => main_menu g
    | GS_LEADERBOARD => leaderboard_menu g
    | _ => current_menu g
    end (main_menu g) (leaderboard_menu g).

Definition Gamestate_get_current_menu (g : gamestate) : Z :=
  match state g with
  | GS_MAIN => current_menu g
  | GS_LEADERBOARD => current_menu g
  | _ => NULL
  end.

Definition Gamestate_get_state (g : gamestate) : GAMESTATE := state g.

Definition Gamestate_main_menu (g : gamestate) : gamestate := Gamestate_change GS_MAIN g.
Definition Gamestate_leaderboard (g : gamestate) : gamestate :=
  Gamestate_change GS_LEADERBOARD g.
Definition Gamestate_quit (g : gamestate) : gamestate := Gamestate_change GS_QUIT g.

(** A call through a function pointer. *)
Definition run_callback (f : FunctionPointer) (g : gamestate) : gamestate :=
  match f with
  | spoof_fn => g
  | Gamestate_leaderboard_fn => Gamestate_leaderboard g
  | Gamestate_quit_fn => Gamestate_quit g
  end.

(** The interface and the game state together. *)
Record front : Type := mkFront { fr_ui : ui; fr_game : gamestate }.

Definition on_ui {S A} (m : M (ui * S) A) : M (front * S) A :=
  zoom (fun st => (fr_ui st.1, st.2)) (fun c st => (mkFront c.1 (fr_game st.1), c.2)) m.

Definition set_game (f : gamestate -> gamestate) (fr : front) : front :=
  mkFront (fr_ui fr) (f (fr_game fr)).

Definition i64 (z : Z) : Z :=
  (z + 9223372036854775808) mod 18446744073709551616 - 9223372036854775808.

Section Gamestate.
Context {W : Type} `{Machine W, XpmLoader W, Files W}.

(** [ui_element_on_click] of ui_element.c. *)
Definition ui_element_on_click (p : Z) : drv W front unit :=
  if p =? NULL then mret tt else
  e ← on_ui (element_load p);
  match on_click e with
  | None => mret tt
  | Some f => set_statics (set_game (run_callback f))
  end.

(** A [Leaderboard] on the stack that nothing was written to. *)
Definition indeterminate_entry : io W LeaderboardEntry :=
  nm ← indeterminate_bytes NAME_SIZE;
  s ← indeterminate; mi ← indeterminate; h ← indeterminate; w ← indeterminate;
  d ← indeterminate; mo ← indeterminate; y ← indeterminate; t ← indeterminate;
  mret (mkEntry nm (mkRtc (u8 s) (u8 mi) (u8 h) (u8 w) (u8 d) (u8 mo) (u16 y)) (i64 t)).

Definition indeterminate_board : io W Leaderboard :=
  e0 ← indeterminate_entry;
  e1 ← indeterminate_entry;
  e2 ← indeterminate_entry;
  n ← indeterminate;
  mret (mkBoard [e0; e1; e2] (u8 n)).

(** The answer of [Leaderboard_read_file] is ignored. *)
Definition Gamestate_init : drv W front unit :=
  m ← on_ui Menu_create_main_menu;
  set_statics (set_game (set_main_menu m)) ;;
  theLeaderboard ← on_io indeterminate_board;
  '(_r, theLeaderboard) ← on_io (Leaderboard_read_file theLeaderboard);
  m ← on_ui (Menu_create_leaderboard theLeaderboard);
  set_statics (set_game (set_leaderboard_menu m)) ;;
  set_statics (set_game Gamestate_main_menu).
End Gamestate.
