(* ===== verification/KeyboardManager.v ===== *)
(** * The keys: input/keyboard_manager.h and input/keyboard_manager.c

    The state of the five keys the program uses, kept from the scan codes.
    Arrow keys arrive as two bytes, the first being 0xE0. *)

From S2P Require Import Prelude Machine Kbc Keyboard.

Inductive KB_KEY : Type := KB_ESC | KB_UP | KB_DOWN | KB_LEFT | KB_RIGHT | KB_INVALID.

#[export] Instance KB_KEY_eq_dec : EqDecision KB_KEY.
Proof. solve_decision. Defined.

Definition key_code (k : KB_KEY) : Z :=
  match k with
  | KB_ESC => 0 | KB_UP => 1 | KB_DOWN => 2 | KB_LEFT => 3 | KB_RIGHT => 4
  | KB_INVALID => 999
  end.

Record keyboard_state : Type := mkKeys { double_width : bool; keys : list bool }.

(** The static initial values. *)
Definition keys_zero : keyboard_state := mkKeys false (replicate 20 false).

(** [memset(keys, 0, sizeof(bool))] clears the first element only. *)
Definition Keyboard_init (k : keyboard_state) : keyboard_state :=
  mkKeys false (<[0%nat := false]> (keys k)).

(** The key and [*make]. *)
Definition Keyboard_translate (scancode : Z) (double_width : bool) : KB_KEY * bool :=
  let make := negb (tst (Z.land scancode 0x80)) in
  let scancode := if make then scancode else Z.land scancode 0x7f in
  let key :=
    if double_width then
      if scancode =? 0x48 then KB_UP
      else if scancode =? 0x4B then KB_LEFT
      else if scancode =? 0x50 then KB_DOWN
      else if scancode =? 0x4D then KB_RIGHT
      else KB_INVALID
    else
      if scancode =? 0x01 then KB_ESC else KB_INVALID in
  (key, make).

(** What [Keyboard_handle] does with a scan code. *)
Definition dispatch (scancode : Z) (k : keyboard_state) : res keyboard_state :=
  if (scancode =? 0xE0) && negb (double_width k) then Ok (mkKeys true (keys k))
  else
    let '(key, make) := Keyboard_translate scancode (double_width k) in
    if decide (key = KB_INVALID) then Ok (mkKeys false (keys k))
    else
      let? ks := array_set (keys k) (key_code key) make in
      Ok (mkKeys false ks).

Definition Keyboard_pressed (key : KB_KEY) (k : keyboard_state) : res bool :=
  array_get (keys k) (key_code key).

Section KeyboardManager.
Context {W : Type} `{Machine W}.

(** The answer of [keyboard_read_scancode] is ignored: when it fails the
    local [scancode] was never written. *)
Definition Keyboard_handle : drv W keyboard_state unit :=
  junk ← on_io indeterminate;
  '(_r, scancode) ← on_io (keyboard_read_scancode (u8 junk));
  k ← statics;
  k' ← lift_res (dispatch scancode k);
  set_statics (fun _ => k').
End KeyboardManager.

(** ** What the key table means *)

(** A complete code of the keyboard. *)
Inductive code : Type :=
  | Plain (b : Z)
  | Extended (b : Z).

Definition code_bytes (c : code) : list Z :=
  match c with Plain b => [b] | Extended b => [0xE0; b] end.

Definition code_ok (c : code) : Prop :=
  match c with Plain b => 0 <= b < 256 /\ b <> 0xE0 | Extended b => 0 <= b < 256 end.

(** The key a code is about and whether it is pressed. *)
Definition code_event (c : code) : option (KB_KEY * bool) :=
  match c with
  | Plain 0x01 => Some (KB_ESC, true)
  | Plain 0x81 => Some (KB_ESC, false)
  | Extended 0x48 => Some (KB_UP, true)
  | Extended 0xC8 => Some (KB_UP, false)
  | Extended 0x4B => Some (KB_LEFT, true)
  | Extended 0xCB => Some (KB_LEFT, false)
  | Extended 0x50 => Some (KB_DOWN, true)
  | Extended 0xD0 => Some (KB_DOWN, false)
  | Extended 0x4D => Some (KB_RIGHT, true)
  | Extended 0xCD => Some (KB_RIGHT, false)
  | _ => None
  end.

(** The last event of a key in a sequence of codes. *)
Definition key_after (key : KB_KEY) (held : bool) (c : code) : bool :=
  match code_event c with
  | Some (k, make) => if decide (k = key) then make else held
  | None => held
  end.

Fixpoint dispatch_all (bs : list Z) (k : keyboard_state) : res keyboard_state :=
  match bs with
  | [] => Ok k
  | b :: bs => let? k := dispatch b k in dispatch_all bs k
  end.

(** Translation agrees with the table of codes, byte by byte. *)
Definition translate_ok (b : Z) (dw : bool) : bool :=
  match code_event (if dw then Extended b else Plain b) with
  | Some (k, make) =>
      bool_decide ((Keyboard_translate b dw).1 = k) &&
      Bool.eqb (Keyboard_translate b dw).2 make
  | None => bool_decide ((Keyboard_translate b dw).1 = KB_INVALID)
  end.

Lemma translate_table b dw : 0 <= b < 256 -> translate_ok b dw = true.
Proof.
  intros Hb.
  assert (forallb (fun b => translate_ok b true && translate_ok b false) (seqZ 0 256) = true)
    as HF by (by vm_compute).
  rewrite forallb_forall in HF. specialize (HF b).
  rewrite andb_true_iff in HF. destruct HF as [H1 H2]; [|by destruct dw].
  apply list_elem_of_In, elem_of_seqZ. lia.
Qed.

Lemma translate_event b (dw : bool) :
  0 <= b < 256 ->
  match code_event (if dw then Extended b else Plain b) with
  | Some p => Keyboard_translate b dw = p
  | None => (Keyboard_translate b dw).1 = KB_INVALID
  end.
Proof.
  intros Hb. pose proof (translate_table b dw Hb) as Ht. unfold translate_ok in Ht.
  destruct (code_event _) as [[k make]|].
  - apply andb_true_iff in Ht as [H1%bool_decide_eq_true H2%Bool.eqb_prop].
    destruct (Keyboard_translate b dw). cbn in *. congruence.
  - by apply bool_decide_eq_true in Ht.
Qed.

Lemma code_event_key c k make : code_event c = Some (k, make) -> 0 <= key_code k <= 4.
Proof.
  unfold code_event. repeat (case_match; try discriminate);
    intros [= <- <-]; cbn; lia.
Qed.

Lemma key_code_inj k1 k2 : key_code k1 = key_code k2 -> k1 = k2.
Proof. by destruct k1, k2. Qed.

(** One byte that ends a code. *)
Lemma dispatch_last b (dw : bool) ks :
  0 <= b < 256 -> length ks = 20%nat -> (dw = false -> b <> 0xE0) ->
  exists ks', dispatch b (mkKeys dw ks) = Ok (mkKeys false ks') /\ length ks' = 20%nat /\
    forall key held, ks !! Z.to_nat (key_code key) = Some held ->
      ks' !! Z.to_nat (key_code key)
      = Some (key_after key held (if dw then Extended b else Plain b)).
Proof.
  intros Hb Hl Hne. unfold dispatch. cbn [double_width keys].
  assert ((b =? 0xE0) && negb dw = false) as ->.
  { destruct dw; [by rewrite andb_false_r|]. rewrite (proj2 (Z.eqb_neq _ _)); auto. }
  pose proof (translate_event b dw Hb) as Ht. unfold key_after.
  destruct (code_event (if dw then Extended b else Plain b)) as [[k make]|] eqn:Ec.
  - rewrite Ht. pose proof (code_event_key _ _ _ Ec) as Hk.
    rewrite decide_False by (intros ->; cbn in Hk; lia).
    rewrite array_set_ok by lia. cbn [rbind]. eexists. split; [done|].
    split; [by rewrite length_insert|]. intros key held Hh.
    destruct (decide (k = key)) as [->|Hkk].
    + apply list_lookup_insert_eq. lia.
    + rewrite list_lookup_insert_ne; [done|]. intros E. apply Hkk, key_code_inj.
      destruct key; cbn in *; lia.
  - destruct (Keyboard_translate b dw) as [k make]. cbn in Ht. subst k.
    rewrite decide_True by done. by exists ks.
Qed.

Lemma dispatch_code c k :
  code_ok c -> double_width k = false -> length (keys k) = 20%nat ->
  exists k', dispatch_all (code_bytes c) k = Ok k' /\ double_width k' = false /\
    length (keys k') = 20%nat /\
    forall key held, Keyboard_pressed key k = Ok held ->
      Keyboard_pressed key k' = Ok (key_after key held c).
Proof.
  intros Hc Hd Hl. destruct k as [dw ks]. cbn [double_width keys] in *. subst dw.
  assert (forall ks' c', (forall key held, ks !! Z.to_nat (key_code key) = Some held ->
      ks' !! Z.to_nat (key_code key) = Some (key_after key held c')) ->
    forall key held, Keyboard_pressed key (mkKeys false ks) = Ok held ->
      Keyboard_pressed key (mkKeys false ks') = Ok (key_after key held c')) as Hlift.
  { intros ks' c' Hk key held [Hp Hh]%array_get_inv. by apply array_get_ok, Hk. }
  destruct c as [b|b]; cbn [code_bytes dispatch_all code_ok] in *.
  - destruct (dispatch_last b false ks) as (ks' & -> & Hl' & Hk); [lia|done|tauto|].
    exists (mkKeys false ks'). cbn [rbind]. eauto 6.
  - destruct (dispatch_last b true ks) as (ks' & E & Hl' & Hk); [lia|done|done|].
    unfold dispatch at 1. cbn [Z.eqb Pos.eqb andb negb double_width keys rbind].
    rewrite E. exists (mkKeys false ks'). cbn [rbind]. eauto 6.
Qed.

(** C36: after any sequence of complete keyboard codes, each of the five keys is
    held exactly if its last code was a make code: the two-byte codes of the
    arrows are put together from the 0xE0 prefix, other codes change nothing,
    and the table is never indexed outside its twenty entries. *)
Theorem Keyboard_key_table cs k :
  Forall code_ok cs -> double_width k = false -> length (keys k) = 20%nat ->
  exists k', dispatch_all (mjoin (code_bytes <$> cs)) k = Ok k' /\
    double_width k' = false /\
    forall key held, Keyboard_pressed key k = Ok held ->
      Keyboard_pressed key k' = Ok (foldl (key_after key) held cs).
Proof.
  intros HF. revert k. induction HF as [|c cs Hc HF IH]; intros k Hd Hl.
  { exists k. eauto. }
  destruct (dispatch_code c k Hc Hd Hl) as (k1 & E1 & Hd1 & Hl1 & Hp1).
  destruct (IH k1 Hd1 Hl1) as (k2 & E2 & Hd2 & Hp2).
  exists k2. split; [|split; [done|]].
  - cbn [fmap list_fmap mjoin list_join].
    assert (forall a b k, dispatch_all (a ++ b) k
      = let? k := dispatch_all a k in dispatch_all b k) as Happ.
    { induction a as [|x a IHa]; intros b k0; cbn; [done|].
      destruct (dispatch x k0); cbn; auto. }
    change (mjoin (code_bytes c :: (code_bytes <$> cs)))
      with (code_bytes c ++ mjoin (code_bytes <$> cs)). rewrite Happ, E1. exact E2.
  - intros key held Hh. cbn [foldl]. auto.
Qed.

Lemma Keyboard_key_table_witness :
  exists k', dispatch_all [0x01; 0xE0; 0x48; 0x1E; 0xE0; 0xC8] keys_zero = Ok k' /\
    Keyboard_pressed KB_ESC k' = Ok true /\ Keyboard_pressed KB_UP k' = Ok false.
Proof.
  destruct (Keyboard_key_table [Plain 0x01; Extended 0x48; Plain 0x1E; Extended 0xC8]
    keys_zero) as (k' & E & _ & Hp).
  - repeat constructor; cbn; lia.
  - reflexivity.
  - reflexivity.
  - exists k'. split; [exact E|]. split; [by apply (Hp KB_ESC false)|by apply (Hp KB_UP false)].
Defined.
