(* ===== verification/MouseManager.v ===== *)
(** * The cursor: input/mouse_manager.h and input/mouse_manager.c

    The position and the buttons the packets add up to, the hit test against
    the menu on screen, and the cursor's sprite.  [cursor] is the state the
    functions work on: the interface, the file's statics and the driver's. *)

From S2P Require Import Prelude Machine Kbc Geometry Picture Gpu Heap LinkedList Sprite.
From S2P Require Import SpritesUi Xpm UiElement Menu Gamestate MouseDrv.

(** [enum MOUSE_STATE] and [enum MOUSE_BUTTON] *)
Definition MOUSE_CLICK : Z := 0.
Definition MOUSE_NORMAL : Z := 1.
Definition MOUSE_LB : Z := 0.
Definition MOUSE_MB : Z := 1.
Definition MOUSE_RB : Z := 2.

Record Mouse : Type := mkMouse {
  mouse_position : vec2;
  mouse_sprite : Z;
  hidden : bool;
  buttons : list bool;
  prev_buttons : list bool;
}.

(** The static initial value. *)
Definition mouse_zero : Mouse :=
  mkMouse (VEC2 0 0) NULL false (replicate 3 false) (replicate 3 false).

Record cursor : Type := mkCursor {
  cu_front : front;
  cu_mouse : Mouse;
  cu_packet : packet;
  cu_driver : mouse_statics;
}.

Definition on_front {S A} (m : M (front * S) A) : M (cursor * S) A :=
  zoom (fun st => (cu_front st.1, st.2))
    (fun c st => (mkCursor c.1 (cu_mouse st.1) (cu_packet st.1) (cu_driver st.1), c.2)) m.
Definition on_driver {S A} (m : M (mouse_statics * S) A) : M (cursor * S) A :=
  zoom (fun st => (cu_driver st.1, st.2))
    (fun c st => (mkCursor (cu_front st.1) (cu_mouse st.1) (cu_packet st.1) c.1, c.2)) m.

Definition set_mouse (f : Mouse -> Mouse) (c : cursor) : cursor :=
  mkCursor (cu_front c) (f (cu_mouse c)) (cu_packet c) (cu_driver c).
Definition set_packet (p : packet) (c : cursor) : cursor :=
  mkCursor (cu_front c) (cu_mouse c) p (cu_driver c).
Definition set_position (p : vec2) (m : Mouse) : Mouse :=
  mkMouse p (mouse_sprite m) (hidden m) (buttons m) (prev_buttons m).
Definition set_hidden (h : bool) (m : Mouse) : Mouse :=
  mkMouse (mouse_position m) (mouse_sprite m) h (buttons m) (prev_buttons m).
Definition set_sprite (p : Z) (m : Mouse) : Mouse :=
  mkMouse (mouse_position m) p (hidden m) (buttons m) (prev_buttons m).
Definition set_buttons (b pb : list bool) (m : Mouse) : Mouse :=
  mkMouse (mouse_position m) (mouse_sprite m) (hidden m) b pb.

Definition Mouse_show : Mouse -> Mouse := set_hidden false.
Definition Mouse_hide : Mouse -> Mouse := set_hidden true.
Definition Mouse_reset : Mouse -> Mouse := set_position (VEC2 0 0).
Definition Mouse_position (m : Mouse) : vec2 := mouse_position m.
Definition Mouse_button (button : Z) (m : Mouse) : res bool := array_get (buttons m) button.

(** [(v > 0) ? v : 0], then [(v < res) ? v : res - 1]. *)
Definition clamp_to (v res : Z) : Z :=
  let v := if 0 <? v then v else 0 in
  if v <? res then v else res - 1.

Section MouseManager.
Context {W : Type} `{Machine W, XpmLoader W}.

Definition cursor_gpu (c : cursor) : gpu := gfx_gpu (ui_gfx (fr_ui (cu_front c))).

(** [mouse.sprite], followed. *)
Definition cursor_sprite : drv W cursor Sprite :=
  c ← statics;
  on_front (on_ui (on_gfx (sprite_load (mouse_sprite (cu_mouse c))))).
Definition store_cursor_sprite (s : Sprite) : drv W cursor unit :=
  c ← statics;
  on_front (on_ui (on_gfx (sprite_store (mouse_sprite (cu_mouse c)) s))).

(** [memset(buttons, 0, sizeof(bool))] clears the first button only. *)
Definition Mouse_init : drv W cursor unit :=
  set_statics (set_mouse (fun m =>
    mkMouse (VEC2 0 0) (mouse_sprite m) false
      (<[0%nat := false]> (buttons m)) (<[0%nat := false]> (prev_buttons m)))) ;;
  p ← on_front (on_ui (on_gfx
        (Sprite_create mouse_xpm [VEC2 0 0; VEC2 34 0] [VEC2 34 42; VEC2 24 38] 2 0)));
  set_statics (set_mouse (set_sprite p)) ;;
  s ← cursor_sprite;
  store_cursor_sprite (set_transparent true (set_frame MOUSE_NORMAL s)).

Definition Mouse_state (s : Z) : drv W cursor unit :=
  sp ← cursor_sprite;
  store_cursor_sprite (set_frame s sp).

Definition Mouse_handle : drv W cursor unit :=
  _ ← on_driver mouse_read_packet;
  c ← statics;
  if mouse_packet_ready (cu_driver c) then
    '(_r, p) ← on_driver (mouse_get_packet (cu_packet c));
    set_statics (set_packet p) ;;
    let m := cu_mouse c in
    let g := cursor_gpu c in
    nx ← int (vx (mouse_position m) + delta_x p);
    ny ← int (vy (mouse_position m) - delta_y p);
    set_statics (set_mouse (fun m =>
      set_buttons [lb p; mb p; rb p] (buttons m)
        (set_position (VEC2 (clamp_to nx (x_res g)) (clamp_to ny (y_res g))) m)))
  else mret tt.

(** The loop over the elements of the menu on screen, up to the [break]. *)
Fixpoint hit_nodes (fuel : nat) (node : Z) : drv W cursor unit :=
  match fuel with
  | O => fail OutOfFuel
  | S fuel =>
      if node =? NULL then mret tt else
      c ← statics;
      n ← on_front (on_ui (on_nodes (on_statics (load node))));
      e ← on_front (on_ui (element_load (data n)));
      inside ← lift_res (AABB_contains (bounds e) (mouse_position (cu_mouse c)));
      match on_click e with
      | Some f =>
          if (inside : bool) then
            pressed ← lift_res (array_get (buttons (cu_mouse c)) MOUSE_LB);
            before ← lift_res (array_get (prev_buttons (cu_mouse c)) MOUSE_LB);
            (if (pressed : bool) && negb (Bool.eqb before pressed)
             then on_front (set_statics (set_game (run_callback f)))
             else mret tt) ;;
            Mouse_state MOUSE_CLICK
          else hit_nodes fuel (next n)
      | None => hit_nodes fuel (next n)
      end
  end.

Definition in_menu (g : gamestate) : bool :=
  bool_decide (Gamestate_get_state g = GS_MAIN)
  || bool_decide (Gamestate_get_state g = GS_LEADERBOARD).

(** The tip of the pointing hand is nine pixels right of its image. *)
Definition Mouse_draw : drv W cursor unit :=
  c ← statics;
  (if in_menu (fr_game (cu_front c)) then
     m ← on_front (on_ui (menu_load (Gamestate_get_current_menu (fr_game (cu_front c)))));
     Mouse_state MOUSE_NORMAL ;;
     fuel ← on_front (on_ui (on_nodes (on_statics list_fuel)));
     hit_nodes fuel (element m)
   else mret tt) ;;
  c ← statics;
  if hidden (cu_mouse c) then mret tt else
  s ← cursor_sprite;
  let pos := mouse_position (cu_mouse c) in
  if current_frame s =? MOUSE_CLICK then
    left ← int (vx pos - 9);
    on_front (on_ui (on_gfx (Sprite_draw (mouse_sprite (cu_mouse c)) (VEC2 left (vy pos)))))
  else
    on_front (on_ui (on_gfx (Sprite_draw (mouse_sprite (cu_mouse c)) pos))).
End MouseManager.

(** ** The hit test *)

Definition cu_ui (c : cursor) : ui := fr_ui (cu_front c).
Definition cu_game (c : cursor) : gamestate := fr_game (cu_front c).
Definition put_ui (u : ui) (c : cursor) : cursor :=
  mkCursor (mkFront u (cu_game c)) (cu_mouse c) (cu_packet c) (cu_driver c).
Definition put_game (g : gamestate) (c : cursor) : cursor :=
  mkCursor (mkFront (cu_ui c) g) (cu_mouse c) (cu_packet c) (cu_driver c).

(** The first element under the pointer that reacts to clicks. *)
Fixpoint find_hit (pos : vec2) (es : list elt) : option FunctionPointer :=
  match es with
  | [] => None
  | t :: es =>
      match on_click (elt_ui t) with
      | Some f => if decide (in_box (bounds (elt_ui t)) pos) then Some f
                  else find_hit pos es
      | None => find_hit pos es
      end
  end.

(** The left button went down with the last packet. *)
Definition left_edge (m : Mouse) : bool :=
  match buttons m, prev_buttons m with
  | b :: _, p :: _ => b && negb p
  | _, _ => false
  end.

Definition elt_box_ok (t : elt) : Prop := box_fits (bounds (elt_ui t)).

Section Hits.
Context {W : Type} `{Machine W}.
Implicit Types (c : cursor) (io : iost W).

Lemma put_ui_id c : put_ui (cu_ui c) c = c.
Proof. by destruct c as [[]]. Qed.

Lemma wp_cu_ui {A} (m : drv W ui A) (Q : A -> cursor * iost W -> Prop) c io :
  wp m (fun a st => Q a (put_ui st.1 c, st.2)) (cu_ui c, io) ->
  wp (on_front (on_ui m)) Q (c, io).
Proof. intros Hm. unfold on_front, on_ui. do 2 apply wp_zoom. exact Hm. Qed.

Lemma wp_cursor_sprite s (Q : Sprite -> cursor * iost W -> Prop) c io :
  mouse_sprite (cu_mouse c) <> NULL ->
  cells (sprites (cu_ui c)) !! mouse_sprite (cu_mouse c) = Some s -> Q s (c, io) ->
  wp cursor_sprite Q (c, io).
Proof.
  intros Hp Hs HQ. unfold cursor_sprite, statics. do 2 wp_step. apply wp_cu_ui.
  eapply wp_ui_sprite_load; [done..|]. cbn [fst snd]. by rewrite put_ui_id.
Qed.

Lemma wp_store_cursor_sprite s s' (Q : unit -> cursor * iost W -> Prop) c io :
  mouse_sprite (cu_mouse c) <> NULL ->
  cells (sprites (cu_ui c)) !! mouse_sprite (cu_mouse c) = Some s ->
  Q tt (put_ui (put_sprite (mouse_sprite (cu_mouse c)) s' (cu_ui c)) c, io) ->
  wp (store_cursor_sprite s') Q (c, io).
Proof.
  intros Hp Hs HQ. unfold store_cursor_sprite, statics. do 2 wp_step. apply wp_cu_ui.
  by eapply wp_ui_sprite_store.
Qed.

Lemma wp_Mouse_state f s (Q : unit -> cursor * iost W -> Prop) c io :
  mouse_sprite (cu_mouse c) <> NULL ->
  cells (sprites (cu_ui c)) !! mouse_sprite (cu_mouse c) = Some s ->
  Q tt (put_ui (put_sprite (mouse_sprite (cu_mouse c)) (set_frame f s) (cu_ui c)) c, io) ->
  wp (Mouse_state f) Q (c, io).
Proof.
  intros Hp Hs HQ. unfold Mouse_state. wp_step. eapply wp_cursor_sprite; [done..|].
  by eapply wp_store_cursor_sprite.
Qed.

(** The cursor after the loop over a menu. *)
Definition after_hit (hit : option FunctionPointer) (s : Sprite) (c : cursor) : cursor :=
  match hit with
  | None => c
  | Some f =>
      let c := if left_edge (cu_mouse c) then put_game (run_callback f (cu_game c)) c else c in
      put_ui (put_sprite (mouse_sprite (cu_mouse c)) (set_frame MOUSE_CLICK s) (cu_ui c)) c
  end.

Lemma wp_hit_nodes fuel es ns p s c io :
  linked (cells (ui_nodes (cu_ui c))) p ns -> (length ns < fuel)%nat ->
  ns.*2 = elt_ptr <$> es -> Forall (elt_live (cu_ui c)) es ->
  Forall elt_box_ok es ->
  length (buttons (cu_mouse c)) = 3%nat -> length (prev_buttons (cu_mouse c)) = 3%nat ->
  mouse_sprite (cu_mouse c) <> NULL ->
  cells (sprites (cu_ui c)) !! mouse_sprite (cu_mouse c) = Some s ->
  wp (hit_nodes fuel p) (fun _ st =>
    st = (after_hit (find_hit (mouse_position (cu_mouse c)) es) s c, io)) (c, io).
Proof.
  intros Hl Hf Hp HF Hbox Hb Hpb Hm Hs.
  revert fuel ns p Hl Hf Hp. induction es as [|t es IH]; intros fuel ns p Hl Hf Hp;
    (destruct fuel as [|fuel]; [lia|]); cbn [hit_nodes find_hit].
  { destruct ns; [|done]. cbn in Hl. subst p. rewrite Z.eqb_refl. by wp_step. }
  destruct ns as [|[a d] ns]; [done|]. rewrite !fmap_cons in Hp. injection Hp as -> Hp.
  destruct Hl as (-> & Ha & r & Ea & Hl). rewrite (proj2 (Z.eqb_neq a NULL)) by done.
  apply Forall_cons in HF as [(Ht & He & _ & _) HF]. apply Forall_cons in Hbox as [Hbt Hbox].
  pose proof (AABB_contains_in_box _ (mouse_position (cu_mouse c)) Hbt) as Eb.
  unfold statics. wp_step. wp_step. wp_step. apply wp_cu_ui.
  eapply wp_node_load; [done..|]. cbn [fst snd]. rewrite put_ui_id.
  wp_step. apply wp_cu_ui. eapply wp_element_load; [done..|]. cbn [fst snd data next].
  rewrite put_ui_id. wp_step. eapply wp_lift_res; [exact Eb|]. cbn [fst].
  specialize (IH HF Hbox fuel ns r Hl ltac:(cbn in Hf; lia) Hp).
  destruct (on_click (elt_ui t)) as [f|]; [|exact IH].
  case_bool_decide as Hin; [rewrite decide_True by done|by rewrite decide_False].
  destruct (buttons (cu_mouse c)) as [|b0 bs] eqn:Ebs; [done|].
  destruct (prev_buttons (cu_mouse c)) as [|p0 ps] eqn:Eps; [done|].
  wp_step. eapply wp_lift_res; [by apply array_get_ok|].
  wp_step. eapply wp_lift_res; [by apply array_get_ok|].
  assert (left_edge (cu_mouse c) = b0 && negb (Bool.eqb p0 b0)) as Hedge
    by (unfold left_edge; rewrite Ebs, Eps; by destruct b0, p0).
  wp_step. unfold after_hit. rewrite Hedge. destruct (b0 && negb (Bool.eqb p0 b0)).
  - unfold on_front, set_statics. do 2 wp_step. cbn [fst snd].
    by eapply wp_Mouse_state.
  - wp_step. by eapply wp_Mouse_state.
Qed.
End Hits.

(** ** The scene

    What the running program keeps true of the interface: the card is set up,
    the two menus are lists of drawable elements, the screen shown has its
    menu current, and the cursor is on the screen with its two frames. *)

Definition cursor_frames (s : Sprite) : Prop :=
  offsets s = [VEC2 0 0; VEC2 34 0] /\ sizes s = [VEC2 34 42; VEC2 24 38] /\
  framesc s = 2 /\ delay s = 0 /\ current_delay s = 0 /\ transparent s = true /\
  0 <= current_frame s < 2 /\
  forall image, img s = Some image -> img_type image <> INVALID_XPM ->
    frame_ok image (VEC2 0 0) (VEC2 34 42) /\ frame_ok image (VEC2 34 0) (VEC2 24 38).

Record scene : Type := mkScene {
  sc_main : list elt;
  sc_main_nodes : list (Z * Z);
  sc_board : list elt;
  sc_board_nodes : list (Z * Z);
}.

Definition scene_elts (sc : scene) : list elt := sc_main sc ++ sc_board sc.

(** The elements on screen. *)
Definition shown (g : gamestate) (sc : scene) : list elt :=
  match state g with
  | GS_MAIN => sc_main sc
  | GS_LEADERBOARD => sc_board sc
  | _ => []
  end.

Definition menus_ok (u : ui) (g : gamestate) (sc : scene) : Prop :=
  menu_rep u (main_menu g) (sc_main_nodes sc) (sc_main sc) /\
  menu_rep u (leaderboard_menu g) (sc_board_nodes sc) (sc_board sc) /\
  Forall elt_drawable (scene_elts sc) /\ Forall elt_box_ok (scene_elts sc) /\
  NoDup (sprite_ptrs (scene_elts sc)) /\
  (state g = GS_MAIN -> current_menu g = main_menu g) /\
  (state g = GS_LEADERBOARD -> current_menu g = leaderboard_menu g).

Definition cursor_ok (c : cursor) : Prop :=
  on_screen (cursor_gpu c) (vx (mouse_position (cu_mouse c))) (vy (mouse_position (cu_mouse c))) /\
  length (buttons (cu_mouse c)) = 3%nat /\ length (prev_buttons (cu_mouse c)) = 3%nat /\
  mouse_sprite (cu_mouse c) <> NULL /\
  exists s, cells (sprites (cu_ui c)) !! mouse_sprite (cu_mouse c) = Some s /\ cursor_frames s.

Definition scene_ok (c : cursor) (sc : scene) : Prop :=
  indexed (cursor_gpu c) /\ x_res (cursor_gpu c) <= 32700 /\ y_res (cursor_gpu c) <= 32700 /\
  menus_ok (cu_ui c) (cu_game c) sc /\ cursor_ok c /\
  mouse_sprite (cu_mouse c) ∉ sprite_ptrs (scene_elts sc).

(** Drawing the menu on screen. *)
Definition drawn_scene (g : gamestate) (sc : scene) : scene :=
  match state g with
  | GS_MAIN => mkScene (elt_drawn <$> sc_main sc) (sc_main_nodes sc) (sc_board sc)
                 (sc_board_nodes sc)
  | GS_LEADERBOARD => mkScene (sc_main sc) (sc_main_nodes sc) (elt_drawn <$> sc_board sc)
                        (sc_board_nodes sc)
  | _ => sc
  end.

Lemma sprite_ptrs_drawn (es : list elt) : sprite_ptrs (elt_drawn <$> es) = sprite_ptrs es.
Proof. by rewrite <- list_fmap_compose. Qed.

Lemma elt_box_drawn (es : list elt) : Forall elt_box_ok es -> Forall elt_box_ok (elt_drawn <$> es).
Proof. intros HF. by apply Forall_fmap. Qed.

Lemma menu_rep_kept ps u u' m ns es :
  sprites_kept ps u u' -> (forall p, p ∈ ps -> p ∉ sprite_ptrs es) ->
  menu_rep u m ns es -> menu_rep u' m ns es.
Proof.
  intros Hk Hd (Hm & Hh & Hp & HF & Hnd). pose proof Hk as (En & Em & _).
  unfold menu_rep. rewrite En, Em. repeat (split; [done|]). split; [|done].
  apply Forall_forall. intros t Ht. eapply sprites_kept_live; [exact Hk| |].
  - intros Hin. apply (Hd _ Hin). by apply (list_elem_of_fmap_2 (fun t => sprite (elt_ui t))).
  - by eapply Forall_forall in HF.
Qed.

Lemma menus_ok_kept ps u u' g sc :
  sprites_kept ps u u' -> (forall p, p ∈ ps -> p ∉ sprite_ptrs (scene_elts sc)) ->
  menus_ok u g sc -> menus_ok u' g sc.
Proof.
  intros Hk Hd (H1 & H2 & H3). unfold scene_elts in Hd. split; [|split; [|done]].
  - eapply menu_rep_kept; [exact Hk| |done]. intros p Hp Hin. apply (Hd p Hp).
    rewrite fmap_app. apply elem_of_app. by left.
  - eapply menu_rep_kept; [exact Hk| |done]. intros p Hp Hin. apply (Hd p Hp).
    rewrite fmap_app. apply elem_of_app. by right.
Qed.

Lemma scene_ptrs_drawn g sc :
  sprite_ptrs (scene_elts (drawn_scene g sc)) = sprite_ptrs (scene_elts sc).
Proof.
  unfold scene_elts, drawn_scene. destruct (state g); cbn [sc_main sc_board]; try done;
    rewrite !fmap_app; f_equal; apply sprite_ptrs_drawn.
Qed.

Section Scene.
Context {W : Type} `{Machine W, !MallocOk W}.
Implicit Types (c : cursor) (io : iost W).

(** [Menu_draw] on the menu on screen. *)
Lemma wp_draw_shown u g sc io :
  indexed (gfx_gpu (ui_gfx u)) -> menus_ok u g sc -> in_menu g = true ->
  wp (Menu_draw (Gamestate_get_current_menu g)) (fun _ st =>
    painted (menu_picture (shown g sc)) (gfx_gpu (ui_gfx u)) (gfx_gpu (ui_gfx st.1)) /\
    menus_ok st.1 g (drawn_scene g sc) /\ sprites_kept (sprite_ptrs (shown g sc)) u st.1 /\
    io_trace st.2 = io_trace io) (u, io).
Proof.
  intros Hg (H1 & H2 & Hd & Hb & Hnd & Hcm & Hcb) Hin.
  unfold scene_elts in *. rewrite fmap_app in Hnd. apply NoDup_app in Hnd as (N1 & N12 & N2).
  apply Forall_app in Hd as [Hd1 Hd2]. apply Forall_app in Hb as [Hb1 Hb2].
  unfold in_menu, Gamestate_get_state in Hin. unfold Gamestate_get_current_menu, shown, drawn_scene.
  destruct (state g) eqn:Eg; try discriminate.
  - rewrite Hcm by done. eapply wp_mono; [by apply wp_Menu_draw|].
    intros [] st (Hpt & Hk & Hr & Ht). split; [done|]. split; [|done].
    split; [done|]. split.
    { eapply menu_rep_kept; [exact Hk| |done]. intros p. apply N12. }
    unfold scene_elts. cbn [sc_main sc_board].
    split; [apply Forall_app; split; [by apply drawn_all_drawable|done]|].
    split; [apply Forall_app; split; [by apply elt_box_drawn|done]|].
    split; [|by rewrite Eg]. rewrite fmap_app, sprite_ptrs_drawn. by apply NoDup_app.
  - rewrite Hcb by done. eapply wp_mono; [by apply wp_Menu_draw|].
    intros [] st (Hpt & Hk & Hr & Ht). split; [done|]. split; [|done].
    split.
    { eapply menu_rep_kept; [exact Hk| |done]. intros p Hp Hp1. by apply (N12 p). }
    split; [done|]. unfold scene_elts. cbn [sc_main sc_board].
    split; [apply Forall_app; split; [done|by apply drawn_all_drawable]|].
    split; [apply Forall_app; split; [done|by apply elt_box_drawn]|].
    split; [|by rewrite Eg]. rewrite fmap_app, sprite_ptrs_drawn. by apply NoDup_app.
Qed.
End Scene.

(** ** Drawing the cursor *)

(** The function under the pointer, the cursor's frame and the game state after
    [Mouse_draw]. *)
Definition pointed (c : cursor) (sc : scene) : option FunctionPointer :=
  find_hit (mouse_position (cu_mouse c)) (shown (cu_game c) sc).

Definition frame_after (c : cursor) (sc : scene) (s : Sprite) : Z :=
  if in_menu (cu_game c)
  then match pointed c sc with Some _ => MOUSE_CLICK | None => MOUSE_NORMAL end
  else current_frame s.

Definition game_after (c : cursor) (sc : scene) : gamestate :=
  match pointed c sc with
  | Some f => if left_edge (cu_mouse c) then run_callback f (cu_game c) else cu_game c
  | None => cu_game c
  end.

(** Where the cursor's image goes. *)
Definition tip (f : Z) (pos : vec2) : vec2 :=
  if f =? MOUSE_CLICK then VEC2 (vx pos - 9) (vy pos) else pos.

Lemma run_callback_menus f g :
  main_menu (run_callback f g) = main_menu g /\
  leaderboard_menu (run_callback f g) = leaderboard_menu g.
Proof. by destruct f. Qed.

(** The clicks keep the menu current. *)
Lemma menus_ok_callback u f g sc : menus_ok u g sc -> menus_ok u (run_callback f g) sc.
Proof.
  intros (H1 & H2 & H3 & H4 & H5 & H6 & H7).
  unfold menus_ok. destruct f; cbn; repeat (split; [done|]); (done || auto).
Qed.

Lemma menus_ok_quit u g sc : menus_ok u g sc -> menus_ok u (Gamestate_quit g) sc.
Proof. apply (menus_ok_callback u Gamestate_quit_fn). Qed.

Lemma put_sprite_kept p s u : sprites_kept [p] u (put_sprite p s u).
Proof.
  repeat (split; [done|]). intros q Hq. cbn. rewrite lookup_insert_ne; [done|].
  intros <-. apply Hq. by left.
Qed.

Lemma menus_ok_put_sprite p s u g sc :
  p ∉ sprite_ptrs (scene_elts sc) -> menus_ok u g sc -> menus_ok (put_sprite p s u) g sc.
Proof.
  intros Hp. apply (menus_ok_kept [p]); [apply put_sprite_kept|].
  by intros q ->%list_elem_of_singleton.
Qed.

Lemma after_hit_twice hit s c p :
  p = mouse_sprite (cu_mouse c) ->
  after_hit hit (set_frame MOUSE_NORMAL s)
    (put_ui (put_sprite p (set_frame MOUSE_NORMAL s) (cu_ui c)) c)
  = put_game
      match hit with
      | Some f => if left_edge (cu_mouse c) then run_callback f (cu_game c) else cu_game c
      | None => cu_game c
      end
      (put_ui (put_sprite p
        (set_frame match hit with Some _ => MOUSE_CLICK | None => MOUSE_NORMAL end s)
        (cu_ui c)) c).
Proof.
  intros ->. destruct hit as [f|]; cbn [after_hit]; [|done].
  destruct (left_edge (cu_mouse c)) eqn:E; cbn; rewrite E;
    unfold put_ui, put_game, put_sprite; cbn; by rewrite insert_insert_eq.
Qed.

Section CursorDraw.
Context {W : Type} `{Machine W, !MallocOk W}.
Implicit Types (c : cursor) (io : iost W).

Lemma cursor_drawable s f pos :
  cursor_frames s -> 0 <= f < 2 ->
  -9 <= vx pos <= 32700 -> 0 <= vy pos <= 32700 -> drawable (set_frame f s) pos.
Proof.
  intros (Eo & Es & En & Ed & Ec & Et & Hf & Hi) Hf2 Hx Hy. split.
  - unfold sprite_ok. cbn. rewrite Eo, Es, En, Ed, Ec. cbn. lia.
  - intros image Hi1 Hv. cbn in Hi1. destruct (Hi image Hi1 Hv) as [F0 F1].
    split; intros i Hin; cbn in Hin; rewrite En in Hin;
      assert (i = 0 \/ i = 1) as [-> | ->] by lia;
      unfold frame_table; cbn [set_frame set_timing offsets sizes]; rewrite ?Eo, ?Es;
      change (Z.to_nat 0) with 0%nat; change (Z.to_nat 1) with 1%nat; cbn [nth fst snd];
      try done; repeat split; cbn; lia.
Qed.

Lemma cursor_frames_drawn s f :
  cursor_frames s -> 0 <= f < 2 -> cursor_frames (drawn (set_frame f s)).
Proof.
  intros (Eo & Es & En & Ed & Ec & Et & Hf & Hi) Hf2. unfold drawn, animate.
  cbn [set_frame set_timing img delay]. rewrite Ed. cbn [Z.eqb].
  assert (cursor_frames (set_frame f s)) as Hset.
  { unfold cursor_frames. cbn. by rewrite Eo, Es, En, Ed, Ec, Et. }
  destruct (img s) as [image|] eqn:Ei; [|done]. case_decide; [|done].
  unfold cursor_frames. cbn. rewrite Eo, Es, En, Ed, Ec, Et.
  by repeat (split; [done|]).
Qed.

(** The hit test as a whole. *)
Lemma wp_hit_test c sc s io :
  menus_ok (cu_ui c) (cu_game c) sc -> cursor_ok c -> in_menu (cu_game c) = true ->
  mouse_sprite (cu_mouse c) ∉ sprite_ptrs (scene_elts sc) ->
  cells (sprites (cu_ui c)) !! mouse_sprite (cu_mouse c) = Some s ->
  wp (m ← on_front (on_ui (menu_load (Gamestate_get_current_menu (fr_game (cu_front c)))));
      Mouse_state MOUSE_NORMAL ;;
      fuel ← on_front (on_ui (on_nodes (on_statics list_fuel)));
      hit_nodes fuel (element m))
    (fun _ st => st = (put_game (game_after c sc)
      (put_ui (put_sprite (mouse_sprite (cu_mouse c)) (set_frame (frame_after c sc s) s)
         (cu_ui c)) c), io)) (c, io).
Proof.
  intros Hmo (_ & Hb & Hpb & Hp & _) Hin Hni Hs.
  pose proof Hmo as ((Hm1 & (h1 & Hc1 & Hl1) & Hp1 & HF1 & _) & (Hm2 & (h2 & Hc2 & Hl2) & Hp2 & HF2 & _)
    & _ & Hbox & _ & Hcm & Hcb).
  apply Forall_app in Hbox as [Hb1 Hb2]. change (fr_game (cu_front c)) with (cu_game c).
  assert (exists m h ns es, Gamestate_get_current_menu (cu_game c) = m /\ m <> NULL /\
    cells (ui_menus (cu_ui c)) !! m = Some (mkMenu h) /\
    linked (cells (ui_nodes (cu_ui c))) h ns /\ ns.*2 = elt_ptr <$> es /\
    Forall (elt_live (cu_ui c)) es /\ Forall elt_box_ok es /\ shown (cu_game c) sc = es /\
    forall p, p ∈ sprite_ptrs es -> p ∈ sprite_ptrs (scene_elts sc))
    as (m & h & ns & es & -> & Hm & Hc & Hl & Hps & HF & Hbx & Hsh & Hsub).
  { unfold Gamestate_get_current_menu, shown, in_menu, Gamestate_get_state, scene_elts in *.
    destruct (state (cu_game c)); try discriminate.
    - rewrite Hcm by done. eexists _, _, _, _. repeat (split; [done|]).
      intros p Hx. rewrite fmap_app. apply elem_of_app. by left.
    - rewrite Hcb by done. eexists _, _, _, _. repeat (split; [done|]).
      intros p Hx. rewrite fmap_app. apply elem_of_app. by right. }
  wp_step. apply wp_cu_ui. eapply wp_menu_load; [done..|].
  cbn [fst snd element]. rewrite put_ui_id.
  wp_step. eapply wp_Mouse_state; [done..|].
  pose (c1 := put_ui (put_sprite (mouse_sprite (cu_mouse c)) (set_frame MOUSE_NORMAL s)
    (cu_ui c)) c).
  match goal with |- wp _ _ (?x, _) => change x with c1 end. wp_step. apply wp_cu_ui. apply wp_list_fuel. cbn [fst snd].
  rewrite put_ui_id. eapply wp_mono.
  { apply (wp_hit_nodes _ es ns h (set_frame MOUSE_NORMAL s) c1 io); try done.
    - apply linked_length in Hl. exact (le_n_S _ _ Hl).
    - apply Forall_forall. intros t Ht. eapply sprites_kept_live; [apply put_sprite_kept| |].
      + intros E%list_elem_of_singleton. apply Hni, Hsub. rewrite <- E.
        by apply (list_elem_of_fmap_2 (fun t => sprite (elt_ui t))).
      + by eapply Forall_forall in HF.
    - apply lookup_insert_eq. }
  intros [] st ->. f_equal. subst c1. rewrite after_hit_twice by done.
  unfold game_after, frame_after, pointed. by rewrite Hsh, Hin.
Qed.
End CursorDraw.

Section CursorSteps.
Context {W : Type} `{Machine W, !MallocOk W}.
Implicit Types (c : cursor) (io : iost W).

Lemma frame_after_range c sc s : 0 <= current_frame s < 2 -> 0 <= frame_after c sc s < 2.
Proof.
  intros Hf. unfold frame_after, MOUSE_CLICK, MOUSE_NORMAL.
  destruct (in_menu _), (pointed c sc); lia.
Qed.

Lemma set_frame_same s : set_frame (current_frame s) s = s.
Proof. by destruct s. Qed.

Lemma put_sprite_same p s u :
  cells (sprites u) !! p = Some s -> put_sprite p s u = u.
Proof.
  intros Hs. unfold put_sprite. rewrite insert_id by done. by destruct u as [[? []]].
Qed.

Lemma not_in_menu_shown g sc : in_menu g = false -> shown g sc = [].
Proof.
  unfold in_menu, Gamestate_get_state, shown. by destruct (state g).
Qed.

(** The picture of the cursor. *)
Definition cursor_picture (c : cursor) (sc : scene) (s : Sprite) : picture :=
  if hidden (cu_mouse c) then blank
  else sprite_picture (set_frame (frame_after c sc s) s)
         (tip (frame_after c sc s) (mouse_position (cu_mouse c))).

Lemma wp_draw_cursor c s io :
  indexed (cursor_gpu c) -> x_res (cursor_gpu c) <= 32700 -> y_res (cursor_gpu c) <= 32700 ->
  on_screen (cursor_gpu c) (vx (mouse_position (cu_mouse c))) (vy (mouse_position (cu_mouse c))) ->
  mouse_sprite (cu_mouse c) <> NULL ->
  cells (sprites (cu_ui c)) !! mouse_sprite (cu_mouse c) = Some s -> cursor_frames s ->
  wp (c ← statics;
      if hidden (cu_mouse c) then mret tt else
      s ← cursor_sprite;
      let pos := mouse_position (cu_mouse c) in
      if current_frame s =? MOUSE_CLICK then
        left ← int (vx pos - 9);
        on_front (on_ui (on_gfx (Sprite_draw (mouse_sprite (cu_mouse c)) (VEC2 left (vy pos)))))
      else on_front (on_ui (on_gfx (Sprite_draw (mouse_sprite (cu_mouse c)) pos))))
    (fun _ st => exists u s', st.1 = put_ui u c /\ cursor_frames s' /\
      cells (sprites u) !! mouse_sprite (cu_mouse c) = Some s' /\
      sprites_kept [mouse_sprite (cu_mouse c)] (cu_ui c) u /\
      painted (if hidden (cu_mouse c) then blank
               else sprite_picture s (tip (current_frame s) (mouse_position (cu_mouse c))))
        (cursor_gpu c) (gfx_gpu (ui_gfx u)) /\
      io_trace st.2 = io_trace io) (c, io).
Proof.
  intros Hg Hxr Hyr [Hpx Hpy] Hp Hs Hcf. unfold statics. wp_step. wp_step. cbn [fst].
  destruct (hidden (cu_mouse c)).
  { wp_step. exists (cu_ui c), s. cbn [fst snd]. rewrite put_ui_id.
    repeat (split; [done|]). split; [apply painted_refl|done]. }
  wp_step. eapply wp_cursor_sprite; [done..|].
  set (pos := mouse_position (cu_mouse c)) in *.
  pose proof Hcf as (_ & _ & _ & _ & _ & _ & Hf & _).
  assert (forall q, q = tip (current_frame s) pos ->
    wp (on_front (on_ui (on_gfx (Sprite_draw (mouse_sprite (cu_mouse c)) q))))
      (fun _ st => exists u s', st.1 = put_ui u c /\ cursor_frames s' /\
        cells (sprites u) !! mouse_sprite (cu_mouse c) = Some s' /\
        sprites_kept [mouse_sprite (cu_mouse c)] (cu_ui c) u /\
        painted (sprite_picture s (tip (current_frame s) pos)) (cursor_gpu c)
          (gfx_gpu (ui_gfx u)) /\ io_trace st.2 = io_trace io) (c, io)) as Hdraw.
  { intros q ->. apply wp_cu_ui. unfold on_gfx. apply wp_zoom. cbn [fst snd].
    eapply wp_mono.
    { apply Sprite_draw_spec; [done|done|exact Hs|].
      rewrite <- (set_frame_same s) at 1. apply cursor_drawable; [done|done|..];
        unfold tip; case_match; cbn; lia. }
    intros [] [x io'] (Hpt & Hsp & Ht). cbn [fst snd] in *.
    exists (mkUi x (ui_elements (cu_ui c)) (ui_nodes (cu_ui c)) (ui_menus (cu_ui c))), (drawn s).
    split; [done|]. split.
    { rewrite <- (set_frame_same s). by apply cursor_frames_drawn. }
    cbn [ui_gfx ui_elements ui_nodes ui_menus]. rewrite Hsp. cbn [cells brk].
    split; [apply lookup_insert_eq|]. split; [|done]. unfold sprites_kept. cbn. rewrite Hsp. cbn.
    repeat (split; [done|]). intros p' Hp'. rewrite lookup_insert_ne; [done|].
    intros <-. apply Hp'. by left. }
  destruct (Z.eqb_spec (current_frame s) MOUSE_CLICK) as [E|E].
  - int_step. apply Hdraw.
    unfold tip. by rewrite E.
  - apply Hdraw. unfold tip. by rewrite (proj2 (Z.eqb_neq _ _) E).
Qed.

(** Only the cursor's sprite was drawn: the scene stands, after the callback. *)
Lemma scene_ok_drawn c sc u0 u s :
  scene_ok c sc -> sprites_kept [mouse_sprite (cu_mouse c)] (cu_ui c) u ->
  indexed (gfx_gpu (ui_gfx u)) -> x_res (gfx_gpu (ui_gfx u)) = x_res (cursor_gpu c) ->
  y_res (gfx_gpu (ui_gfx u)) = y_res (cursor_gpu c) ->
  cells (sprites u) !! mouse_sprite (cu_mouse c) = Some s -> cursor_frames s ->
  scene_ok (put_ui u (put_game (game_after c sc) (put_ui u0 c))) sc.
Proof.
  intros (_ & Hxr & Hyr & Hmo & (Hpos & Hb & Hpb & Hp & _) & Hni) Hk Hg Ex Ey Hs Hcf.
  set (c1 := put_game _ _). unfold scene_ok.
  change (cursor_gpu (put_ui u c1)) with (gfx_gpu (ui_gfx u)).
  split; [done|]. rewrite Ex, Ey. split; [done|]. split; [done|]. split; [|split; [|done]].
  - change (menus_ok u (game_after c sc) sc).
    assert (menus_ok u (cu_game c) sc) as Hm2.
    { eapply menus_ok_kept; [exact Hk| |exact Hmo]. by intros q ->%list_elem_of_singleton. }
    unfold game_after. destruct (pointed c sc); [|done].
    destruct (left_edge (cu_mouse c)); [by apply menus_ok_callback|done].
  - unfold cursor_ok, on_screen.
    change (cursor_gpu (put_ui u c1)) with (gfx_gpu (ui_gfx u)). rewrite Ex, Ey.
    change (cu_mouse (put_ui u c1)) with (cu_mouse c).
    split; [exact Hpos|split; [done|split; [done|split; [done|]]]]. by exists s.
Qed.

Lemma wp_Mouse_draw c sc s io :
  scene_ok c sc -> cells (sprites (cu_ui c)) !! mouse_sprite (cu_mouse c) = Some s ->
  wp Mouse_draw (fun _ st =>
    scene_ok st.1 sc /\ cu_game st.1 = game_after c sc /\ cu_mouse st.1 = cu_mouse c /\
    cu_packet st.1 = cu_packet c /\ cu_driver st.1 = cu_driver c /\
    sprites_kept [mouse_sprite (cu_mouse c)] (cu_ui c) (cu_ui st.1) /\
    painted (cursor_picture c sc s) (cursor_gpu c) (cursor_gpu st.1) /\
    io_trace st.2 = io_trace io) (c, io).
Proof.
  intros (Hg & Hxr & Hyr & Hmo & Hco & Hni) Hs.
  pose proof Hco as (Hpos & Hb & Hpb & Hp & s0 & Hs0 & Hcf).
  rewrite Hs in Hs0. injection Hs0 as <-.
  pose proof Hcf as (_ & _ & _ & _ & _ & _ & Hf & _).
  pose proof (frame_after_range c sc s Hf) as Hfr.
  set (p := mouse_sprite (cu_mouse c)) in *.
  set (s1 := set_frame (frame_after c sc s) s).
  set (c1 := put_game (game_after c sc) (put_ui (put_sprite p s1 (cu_ui c)) c)).
  assert (cursor_frames s1) as Hcf1.
  { destruct Hcf as (? & ? & ? & ? & ? & ? & _ & ?). by repeat (split; [done|]). }
  unfold Mouse_draw, statics. wp_step. wp_step. wp_step.
  apply wp_mono with (P := fun _ st => st = (c1, io)).
  - cbn [fst]. change (fr_game (cu_front c)) with (cu_game c).
    destruct (in_menu (cu_game c)) eqn:Hin.
    + eapply wp_hit_test; done.
    + wp_step. subst c1 s1. unfold game_after, frame_after, pointed.
      rewrite not_in_menu_shown, Hin by done. cbn [find_hit].
      rewrite set_frame_same, put_sprite_same by done. rewrite put_ui_id.
      by destruct c as [[] ? ? ?].
  - intros [] st ->. eapply wp_mono.
    { apply (wp_draw_cursor c1 s1 io); try done. apply lookup_insert_eq. }
    intros [] [c2 io2] (u & s2 & E & Hcf2 & Hs2 & Hk & Hpt & Ht). cbn [fst snd] in *. subst c2.
    change (cu_mouse c1) with (cu_mouse c) in *. change (cu_ui c1) with (put_sprite p s1 (cu_ui c)) in *.
    change (cursor_gpu c1) with (cursor_gpu c) in Hpt. fold p in Hs2, Hk.
    assert (sprites_kept [p] (cu_ui c) u) as Hk2.
    { destruct Hk as (E1 & E2 & E3 & E4 & Hk). repeat (split; [done|]).
      intros q Hq. rewrite Hk by done. by apply put_sprite_kept. }
    split; [|split; [done|split; [done|split; [done|split; [done|split; [done|split; [|done]]]]]]].
    + destruct Hpt as (b & Hb' & Hpt). apply (scene_ok_drawn c sc _ u s2); try done.
      * eapply indexed_painted; [exact Hg|]. by exists b.
      * by rewrite Hb'.
      * by rewrite Hb'.
    + unfold cursor_picture. subst s1. exact Hpt.
Qed.
End CursorSteps.

(** ** Moving the cursor *)

Lemma clamp_to_spec v res : 0 < res -> clamp_to v res = Z.max 0 (Z.min v (res - 1)).
Proof.
  intros Hr. unfold clamp_to. destruct (Z.ltb_spec 0 v); [destruct (Z.ltb_spec v res)|
    destruct (Z.ltb_spec 0 res)]; lia.
Qed.

Lemma decode_deltas bs :
  -32768 <= delta_x (decode bs) < 32768 /\ -32768 <= delta_y (decode bs) < 32768.
Proof. destruct bs as [[b0 b1] b2]. cbn. split; apply i16_range. Qed.

(** A packet applied to the cursor: the vertical axis of the mouse points up. *)
Definition moved (p : packet) (g : gpu) (m : Mouse) : Mouse :=
  set_buttons [lb p; mb p; rb p] (buttons m)
    (set_position (VEC2 (clamp_to (vx (mouse_position m) + delta_x p) (x_res g))
                        (clamp_to (vy (mouse_position m) - delta_y p) (y_res g))) m).

(** [Mouse_handle] once the driver's state is [m]. *)
Definition handled (m : mouse_statics) (c : cursor) : cursor :=
  if packet_ready m then
    let p := decode (bytes m) in
    mkCursor (cu_front c) (moved p (cursor_gpu c) (cu_mouse c)) p (set_last_packet p m)
  else mkCursor (cu_front c) (cu_mouse c) (cu_packet c) m.

Lemma handled_scene_ok m c sc : scene_ok c sc -> scene_ok (handled m c) sc.
Proof.
  intros (Hg & Hxr & Hyr & Hmo & (Hpos & Hb & Hpb & Hp & Hs) & Hni).
  unfold handled. destruct (packet_ready m); [|done].
  repeat (split; [done|]). split; [|done]. split; [|done].
  pose proof Hg as (_ & _ & Hx & Hy & _). split; cbn [cu_mouse moved set_buttons set_position mouse_position vx vy];
    change (cursor_gpu (mkCursor _ _ _ _)) with (cursor_gpu c); rewrite clamp_to_spec; lia.
Qed.

Section Handle.
Context {W : Type} `{Machine W}.
Implicit Types (c : cursor) (io : iost W).

Lemma wp_Mouse_handle c io :
  indexed (cursor_gpu c) ->
  on_screen (cursor_gpu c) (vx (mouse_position (cu_mouse c))) (vy (mouse_position (cu_mouse c))) ->
  wp Mouse_handle (fun _ st => exists m evs, st.1 = handled m c /\
    io_trace st.2 = io_trace io ++ evs /\ outs evs = [] /\ detached evs /\
    ((exists b, bytes_taken evs = [b] /\ valid_bytes true None evs = [b] /\
        m = feed (cu_driver c) b) \/
     (valid_bytes true None evs = [] /\ exists b, m = set_current_byte b (cu_driver c)))) (c, io).
Proof.
  intros Hg [Hpx Hpy]. unfold Mouse_handle. wp_step. unfold on_driver at 1. wp_step.
  eapply wp_mono; [apply mouse_read_packet_spec|].
  intros r [m io1] (evs & Ht & Ho & Hd & Hc). cbn [fst snd] in *.
  assert ((exists b, bytes_taken evs = [b] /\ valid_bytes true None evs = [b] /\
        m = feed (cu_driver c) b) \/
     (valid_bytes true None evs = [] /\ exists b, m = set_current_byte b (cu_driver c))) as Hm
    by (destruct Hc as [(_ & ?)|(_ & ?)]; auto).
  unfold statics. wp_step. wp_step. cbn [fst cu_driver]. unfold mouse_packet_ready, handled.
  destruct (packet_ready m) eqn:Er.
  - wp_step. unfold on_driver. wp_step. unfold mouse_get_packet, statics. cbn [fst cu_driver snd].
    wp_step. wp_step. cbn [fst]. rewrite Er. cbn [negb].
    pose proof (decode_deltas (bytes m)) as [Hdx Hdy].
    pose proof Hg as (_ & _ & Hx & Hy & _).
    unfold set_statics. repeat wp_step. apply wp_int; [unfold INT_MIN, INT_MAX; cbn; lia|].
    int_step. wp_step.
    exists m, evs. rewrite Er. split; [|done]. reflexivity.
  - wp_step. exists m, evs. by rewrite Er.
Qed.
End Handle.

(** ** The cursor's contracts *)

(** C12: one mouse interrupt never faults and leaves the cursor on the screen:
    while no packet is complete the cursor's record does not change; with a
    complete packet the position moves by its deltas, upwards being positive
    for the mouse, clamped to the screen on each side, and the buttons become
    the packet's while the old ones are remembered.  The driver is fed the one
    valid mouse byte that was read; when there was none its packet stays as it
    was.  Nothing is written to a port.  The card is initialised and indexed,
    and the pointer starts on the screen. *)
Theorem Mouse_handle_moves {W} `{Machine W} c (io : iost W) :
  indexed (cursor_gpu c) ->
  on_screen (cursor_gpu c) (vx (mouse_position (cu_mouse c))) (vy (mouse_position (cu_mouse c))) ->
  exists c' io' evs, Mouse_handle (c, io) = Ok (tt, (c', io')) /\
    io_trace io' = io_trace io ++ evs /\ outs evs = [] /\ cu_front c' = cu_front c /\
    on_screen (cursor_gpu c') (vx (mouse_position (cu_mouse c')))
      (vy (mouse_position (cu_mouse c'))) /\
    ((exists b, bytes_taken evs = [b] /\ valid_bytes true None evs = [b] /\
        bytes (cu_driver c') = bytes (feed (cu_driver c) b) /\
        packet_ready (cu_driver c') = packet_ready (feed (cu_driver c) b)) \/
     (valid_bytes true None evs = [] /\ bytes (cu_driver c') = bytes (cu_driver c) /\
        packet_ready (cu_driver c') = packet_ready (cu_driver c))) /\
    if packet_ready (cu_driver c') then
      let p := decode (bytes (cu_driver c')) in
      let old := mouse_position (cu_mouse c) in
      mouse_position (cu_mouse c')
        = VEC2 (Z.max 0 (Z.min (vx old + delta_x p) (x_res (cursor_gpu c) - 1)))
               (Z.max 0 (Z.min (vy old - delta_y p) (y_res (cursor_gpu c) - 1))) /\
      buttons (cu_mouse c') = [lb p; mb p; rb p] /\
      prev_buttons (cu_mouse c') = buttons (cu_mouse c) /\
      hidden (cu_mouse c') = hidden (cu_mouse c)
    else cu_mouse c' = cu_mouse c.
Proof.
  intros Hg Hon. pose proof Hg as (_ & _ & Hx & Hy & _).
  destruct (wp_run _ _ _ (wp_Mouse_handle c io Hg Hon))
    as ([] & [c' io'] & E & m & evs & Ec & Ht & Ho & _ & Hm). cbn [fst snd] in *. subst c'.
  exists (handled m c), io', evs. repeat (split; [done|]).
  assert (cu_front (handled m c) = cu_front c /\ bytes (cu_driver (handled m c)) = bytes m /\
    packet_ready (cu_driver (handled m c)) = packet_ready m) as (Ef & Eb & Er)
    by (unfold handled; by destruct (packet_ready m) eqn:E1; rewrite ?E1).
  split; [done|]. rewrite Eb, Er. unfold cursor_gpu. rewrite Ef.
  change (gfx_gpu (ui_gfx (fr_ui (cu_front c)))) with (cursor_gpu c). split; [|split].
  - unfold handled. destruct (packet_ready m); [|done].
    cbn [cu_mouse moved set_buttons set_position mouse_position vx vy].
    rewrite !clamp_to_spec by lia. split; lia.
  - destruct Hm as [(b & Hb & Hv & ->)|(Hv & b & ->)]; [left; by exists b|by right].
  - unfold handled. destruct (packet_ready m); [|done].
    cbn [cu_mouse moved set_buttons set_position mouse_position buttons prev_buttons hidden].
    by rewrite !clamp_to_spec by lia.
Qed.

(** C8: [Mouse_draw] in any scene: the function called is that of the first
    element, in list order, that contains the pointer and has one, and it is
    called exactly on the packet with which the left button goes down; the
    cursor is a hand over such an element and an arrow otherwise, shown at the
    position (the hand's tip), or nowhere when hidden; the menus stay well
    formed whatever the click did, and no other sprite changes. *)
Theorem Mouse_draw_clicks {W} `{Machine W, !MallocOk W} c sc s (io : iost W) :
  scene_ok c sc -> cells (sprites (cu_ui c)) !! mouse_sprite (cu_mouse c) = Some s ->
  exists c' io', Mouse_draw (c, io) = Ok (tt, (c', io')) /\ scene_ok c' sc /\
    cu_mouse c' = cu_mouse c /\
    cu_game c' =
      match find_hit (mouse_position (cu_mouse c)) (shown (cu_game c) sc) with
      | Some f => if left_edge (cu_mouse c) then run_callback f (cu_game c) else cu_game c
      | None => cu_game c
      end /\
    sprites_kept [mouse_sprite (cu_mouse c)] (cu_ui c) (cu_ui c') /\
    forall px py, on_screen (cursor_gpu c) px py ->
      pixel (cursor_gpu c') px py
      = over (cursor_picture c sc s) (pixel (cursor_gpu c)) px py.
Proof.
  intros Hs Hc. destruct (wp_run _ _ _ (wp_Mouse_draw c sc s io Hs Hc))
    as ([] & [c' io'] & E & Hs' & Eg & Em & _ & _ & Hk & (b & _ & _ & Hp) & _).
  exists c', io'. by repeat (split; [done|]).
Qed.

(** ** A small scene, for the concrete runs

    A main menu of the one button of Menu.v, which quits the game, an empty
    leaderboard, and the left button just pressed. *)

Definition tiny_cursor_sprite : Sprite :=
  mkSprite None [VEC2 0 0; VEC2 34 0] [VEC2 34 42; VEC2 24 38] 2 0 1 0 true.
Definition tiny_scene : scene := mkScene [tiny_elt] [(1, 1)] [] [].
Definition tiny_ui : ui :=
  mkUi (mkGfx tiny_gpu (mkStore {[1 := tiny_button_sprite; 2 := tiny_cursor_sprite]} 3))
    (mkStore {[1 := tiny_button]} 2) (mkStore {[1 := mkNode 1 NULL]} 2)
    (mkStore {[1 := mkMenu 1; 2 := mkMenu NULL]} 3).
Definition tiny_cursor : cursor :=
  mkCursor (mkFront tiny_ui (mkGamestate GS_MAIN 0 1 1 2))
    (mkMouse (VEC2 2 1) 2 false [true; false; false] [false; false; false])
    packet0 mouse_drv_init.

Lemma tiny_menu : menu_rep tiny_ui 1 [(1, 1)] [tiny_elt].
Proof.
  split; [done|]. split.
  { exists 1. split; [done|]. split; [done|]. split; [done|]. by exists NULL. }
  split; [done|]. split; [|apply NoDup_singleton]. by apply Forall_singleton.
Qed.

Lemma tiny_scene_ok : scene_ok tiny_cursor tiny_scene.
Proof.
  split; [apply tiny_indexed|]. split; [cbn; lia|]. split; [cbn; lia|]. split; [|split].
  - split; [apply tiny_menu|]. split.
    { split; [done|]. split; [by exists NULL|]. split; [done|]. split; [done|apply NoDup_nil_2]. }
    split; [apply Forall_singleton, tiny_drawable|].
    split; [apply Forall_singleton; split; cbn; unfold INT_MIN, INT_MAX; lia|].
    split; [apply NoDup_singleton|done].
  - split; [split; cbn; lia|]. repeat (split; [done|]). exists tiny_cursor_sprite.
    by repeat (split; [done|]).
  - by intros H%list_elem_of_singleton.
Qed.

Definition tiny_io (bs : list (Z * Z)) : iost (roomy script) :=
  mkIo (mkRoomy (mkScript bs [] [] [] [] [])) [].

(** The third byte of a packet: two right and, the screen ending there, down. *)
Lemma Mouse_handle_moves_witness :
  exists c' io', Mouse_handle (mkCursor (cu_front tiny_cursor) (cu_mouse tiny_cursor) packet0
      (mkMouseDrv 12 2 0 (0x28, 2, 0) false packet0),
    tiny_io [(0, 0x21); (0, 0xF0)]) = Ok (tt, (c', io')) /\
    mouse_position (cu_mouse c') = VEC2 3 1.
Proof.
  destruct (Mouse_handle_moves (mkCursor (cu_front tiny_cursor) (cu_mouse tiny_cursor) packet0
      (mkMouseDrv 12 2 0 (0x28, 2, 0) false packet0)) (tiny_io [(0, 0x21); (0, 0xF0)]))
    as (c' & io' & evs & E & _ & _ & _ & _ & _ & Hif).
  - apply tiny_indexed.
  - split; cbn; lia.
  - exists c', io'. split; [exact E|].
    assert (E2 := E). vm_compute in E2. injection E2 as <- _. by destruct Hif as [-> _].
Defined.

Lemma Mouse_draw_clicks_witness :
  exists c' io', Mouse_draw (tiny_cursor, tiny_io []) = Ok (tt, (c', io')) /\
    state (cu_game c') = GS_QUIT /\ scene_ok c' tiny_scene.
Proof.
  destruct (Mouse_draw_clicks tiny_cursor tiny_scene tiny_cursor_sprite (tiny_io []))
    as (c' & io' & E & Hs & _ & Hg & _).
  - apply tiny_scene_ok.
  - done.
  - exists c', io'. split; [exact E|]. split; [|exact Hs]. rewrite Hg. by vm_compute.
Defined.
