(* ===== verification/Proj.v ===== *)
(** * The program: proj.c

    Start-up, the main loop over the messages of the kernel, and shut-down.
    One round of the loop is [loop_body]; [proj_loop] has a number of rounds
    as fuel, since the loop ends only when the player quits. *)

From S2P Require Import Prelude Machine Kbc Keyboard MouseDrv Timer Leaderboard.
From S2P Require Import Geometry Picture Gpu Heap LinkedList Sprite SpritesUi Xpm UiElement.
From S2P Require Import Menu Gamestate KeyboardManager MouseManager Demo Ipc.

Definition GRAPHICS_MODE : Z := 0x105.
Record app : Type := mkApp {
  ap_cursor : cursor;
  ap_keys : keyboard_state;
  ap_kbd : kbd_statics;
  ap_timer : timer_statics;
  timer_bit_no : Z;
  kbc_bit_no : Z;
  mouse_bit_no : Z;
}.

Definition ui_zero : ui :=
  mkUi (mkGfx gpu_zero store_empty) store_empty store_empty store_empty.

(** The statics of all files before [proj_main_loop]. *)
Definition app_zero : app :=
  mkApp (mkCursor (mkFront ui_zero gamestate_zero) mouse_zero packet0 mouse_drv_init)
    keys_zero kbd_init timer_init 0 0 0.

Section Parts.
Context {S A : Type}.

Definition on_cursor (m : M (cursor * S) A) : M (app * S) A :=
  zoom (fun st => (ap_cursor st.1, st.2))
    (fun c st => (mkApp c.1 (ap_keys st.1) (ap_kbd st.1) (ap_timer st.1)
       (timer_bit_no st.1) (kbc_bit_no st.1) (mouse_bit_no st.1), c.2)) m.
Definition on_keys (m : M (keyboard_state * S) A) : M (app * S) A :=
  zoom (fun st => (ap_keys st.1, st.2))
    (fun c st => (mkApp (ap_cursor st.1) c.1 (ap_kbd st.1) (ap_timer st.1)
       (timer_bit_no st.1) (kbc_bit_no st.1) (mouse_bit_no st.1), c.2)) m.
Definition on_kbd (m : M (kbd_statics * S) A) : M (app * S) A :=
  zoom (fun st => (ap_kbd st.1, st.2))
    (fun c st => (mkApp (ap_cursor st.1) (ap_keys st.1) c.1 (ap_timer st.1)
       (timer_bit_no st.1) (kbc_bit_no st.1) (mouse_bit_no st.1), c.2)) m.
Definition on_timer (m : M (timer_statics * S) A) : M (app * S) A :=
  zoom (fun st => (ap_timer st.1, st.2))
    (fun c st => (mkApp (ap_cursor st.1) (ap_keys st.1) (ap_kbd st.1) c.1
       (timer_bit_no st.1) (kbc_bit_no st.1) (mouse_bit_no st.1), c.2)) m.
End Parts.

Definition set_bits (t k m : Z) (a : app) : app :=
  mkApp (ap_cursor a) (ap_keys a) (ap_kbd a) (ap_timer a) t k m.
Definition set_front (f : front -> front) (a : app) : app :=
  mkApp (mkCursor (f (cu_front (ap_cursor a))) (cu_mouse (ap_cursor a))
           (cu_packet (ap_cursor a)) (cu_driver (ap_cursor a)))
    (ap_keys a) (ap_kbd a) (ap_timer a) (timer_bit_no a) (kbc_bit_no a) (mouse_bit_no a).
Definition set_keys (f : keyboard_state -> keyboard_state) (a : app) : app :=
  mkApp (ap_cursor a) (f (ap_keys a)) (ap_kbd a) (ap_timer a)
    (timer_bit_no a) (kbc_bit_no a) (mouse_bit_no a).

Definition app_game (a : app) : gamestate := fr_game (cu_front (ap_cursor a)).
Definition app_ui (a : app) : ui := fr_ui (cu_front (ap_cursor a)).
Definition app_gpu (a : app) : gpu := gfx_gpu (ui_gfx (app_ui a)).

Section Proj.
Context {W : Type} `{Machine W, XpmLoader W, Video W, Files W, Ipc W}.

Definition on_app_front {A} (m : drv W front A) : drv W app A := on_cursor (on_front m).
Definition on_app_gpu {A} (m : M gpu A) : drv W app A :=
  on_app_front (on_ui (on_gfx (on_gpu (on_statics m)))).

Definition proj_init : drv W app Z :=
  a ← statics;
  '(r, bit) ← on_kbd (keyboard_subscribe (kbc_bit_no a));
  set_statics (fun a => set_bits (timer_bit_no a) bit (mouse_bit_no a) a) ;;
  if tst r then mret 1 else
  '(r, bit) ← on_timer (timer_subscribe (timer_bit_no a));
  set_statics (fun a => set_bits bit (kbc_bit_no a) (mouse_bit_no a) a) ;;
  if tst r then mret 1 else
  '(r, bit) ← on_cursor (on_driver (mouse_subscribe (mouse_bit_no a)));
  set_statics (fun a => set_bits (timer_bit_no a) (kbc_bit_no a) bit a) ;;
  if tst r then mret 1 else
  r ← on_io (mouse_write_command 0xF3);
  if tst r then mret 1 else
  r ← on_io (mouse_write_command 40);
  if tst r then mret 1 else
  r ← on_io mouse_enable_data;
  if tst r then mret 1 else
  r ← on_io (gpu_set_mode GRAPHICS_MODE);
  if tst r then mret 1 else
  r ← on_app_front (on_ui (on_gfx (on_gpu (gpu_init_mem_indexation GRAPHICS_MODE))));
  if tst r then mret 1 else
  on_cursor Mouse_init ;;
  set_statics (set_keys Keyboard_init) ;;
  on_app_front Gamestate_init ;;
  mret 0.

Definition proj_shutdown : drv W app Z :=
  r ← on_io mouse_disable_data;
  if tst r then mret 1 else
  r ← on_kbd keyboard_unsubscribe;
  if tst r then mret 1 else
  r ← on_timer timer_unsubscribe;
  if tst r then mret 1 else
  r ← on_cursor (on_driver mouse_unsubscribe);
  if tst r then mret 1 else
  r ← on_io (lib_call "vg_exit" []);
  if tst r then mret 1 else mret 0.

(** The three interrupt branches of the loop, in the order of the code. *)
Definition handle_keyboard : drv W app unit :=
  on_keys Keyboard_handle ;;
  a ← statics;
  (* [&&] asks for the key only on a menu screen *)
  if in_menu (app_game a) then
    quit ← lift_res (Keyboard_pressed KB_ESC (ap_keys a));
    if (quit : bool) then set_statics (set_front (set_game Gamestate_quit)) else mret tt
  else mret tt.

Definition draw_frame : drv W app unit :=
  a ← statics;
  (if in_menu (app_game a)
   then on_app_front (on_ui (Menu_draw (Gamestate_get_current_menu (app_game a))))
   else mret tt) ;;
  on_cursor Mouse_draw ;;
  on_app_gpu gpu_buffer_commit ;;
  on_app_gpu gpu_buffer_clear.

(** One interrupt notification; the answer is the new [skip_frame]. *)
Definition handle_interrupts (mask : Z) (skip_frame : bool) : drv W app bool :=
  a ← statics;
  (if tst (Z.land mask (mouse_bit_no a)) then on_cursor Mouse_handle else mret tt) ;;
  (if tst (Z.land mask (kbc_bit_no a)) then handle_keyboard else mret tt) ;;
  if tst (Z.land mask (timer_bit_no a)) then
    (if skip_frame then mret tt else draw_frame) ;;
    mret (negb skip_frame)
  else mret skip_frame.

Definition loop_body (skip_frame : bool) : drv W app bool :=
  '(r, msg) ← on_io (oracle driver_receive);
  if tst r then mret skip_frame
  else if is_notify msg && (source_p msg =? HARDWARE) then
    handle_interrupts (interrupts msg) skip_frame
  else mret skip_frame.

Fixpoint proj_loop (rounds : nat) (skip_frame : bool) : drv W app unit :=
  match rounds with
  | O => fail OutOfFuel
  | S rounds =>
      a ← statics;
      if bool_decide (Gamestate_get_state (app_game a) = GS_QUIT) then mret tt else
      skip_frame ← loop_body skip_frame;
      proj_loop rounds skip_frame
  end.

Definition proj_main_loop (rounds : nat) : drv W app Z :=
  r ← proj_init;
  if tst r then mret 1 else
  proj_loop rounds false ;;
  r ← proj_shutdown;
  if tst r then mret 1 else mret 0.

(** [lcf_start] runs [proj_main_loop]; it is the library's. *)
Definition main : io W Z :=
  _ ← lib_call "lcf_set_language" [];
  _ ← lib_call "lcf_trace_calls" [];
  _ ← lib_call "lcf_log_output" [];
  r ← lib_call "lcf_start" [];
  if tst r then mret 1 else
  _ ← lib_call "lcf_cleanup" [];
  mret 0.
End Proj.

(** ** The running program *)

Definition put_cursor (c : cursor) (a : app) : app :=
  mkApp c (ap_keys a) (ap_kbd a) (ap_timer a) (timer_bit_no a) (kbc_bit_no a) (mouse_bit_no a).

Definition running (a : app) (sc : scene) : Prop :=
  scene_ok (ap_cursor a) sc /\ length (keys (ap_keys a)) = 20%nat.

(** What a frame shows: the cursor over the menu over what the back buffer held. *)
Definition frame_content (a : app) (sc : scene) (s : Sprite) : picture :=
  over (cursor_picture (ap_cursor a) sc s)
    (over (menu_picture (shown (app_game a) sc)) (pixel (app_gpu a))).

Lemma dispatch_total b k :
  length (keys k) = 20%nat -> exists k', dispatch b k = Ok k' /\ length (keys k') = 20%nat.
Proof.
  intros Hl. unfold dispatch. destruct (_ && _); [by eexists|].
  destruct (Keyboard_translate b (double_width k)) as [key make].
  destruct (decide (key = KB_INVALID)) as [|Hk]; [by eexists|].
  rewrite array_set_ok by (rewrite Hl; destruct key; cbn; (done || lia)).
  eexists. split; [done|]. cbn. by rewrite length_insert.
Qed.

Lemma find_hit_drawn pos es : find_hit pos (elt_drawn <$> es) = find_hit pos es.
Proof.
  induction es as [|t es IH]; cbn; [done|]. rewrite IH. done.
Qed.

Lemma shown_drawn pos g sc :
  find_hit pos (shown g (drawn_scene g sc)) = find_hit pos (shown g sc).
Proof.
  unfold shown, drawn_scene. destruct (state g); cbn; rewrite ?find_hit_drawn; done.
Qed.

(** The three interrupt masks. *)
Definition masks (a : app) : Z * Z * Z := (mouse_bit_no a, kbc_bit_no a, timer_bit_no a).

(** The same pointer, mouse driver and masks on a screen of the same size. *)
Definition same_view (a a' : app) : Prop :=
  cu_mouse (ap_cursor a') = cu_mouse (ap_cursor a) /\
  cu_driver (ap_cursor a') = cu_driver (ap_cursor a) /\ masks a' = masks a /\
  x_res (app_gpu a') = x_res (app_gpu a) /\ y_res (app_gpu a') = y_res (app_gpu a).

Definition esc_held (k : keyboard_state) : bool :=
  match Keyboard_pressed KB_ESC k with Ok b => b | Fault _ => false end.

Section Steps.
Context {W : Type} `{Machine W, !MallocOk W}.
Implicit Types (a : app) (io : iost W).

Lemma put_cursor_id a : put_cursor (ap_cursor a) a = a.
Proof. by destruct a. Qed.

Lemma wp_app_cursor {A} (m : drv W cursor A) (Q : A -> app * iost W -> Prop) a io :
  wp m (fun x st => Q x (put_cursor st.1 a, st.2)) (ap_cursor a, io) ->
  wp (on_cursor m) Q (a, io).
Proof. intros Hm. unfold on_cursor. by apply wp_zoom. Qed.

Definition put_gpu (g : gpu) (a : app) : app :=
  put_cursor (put_ui (mkUi (mkGfx g (gfx_sprites (ui_gfx (app_ui a)))) (ui_elements (app_ui a))
    (ui_nodes (app_ui a)) (ui_menus (app_ui a))) (ap_cursor a)) a.

Lemma wp_app_gpu {A} (m : M gpu A) (Q : A -> app * iost W -> Prop) a io :
  wp m (fun x g => Q x (put_gpu g a, io)) (app_gpu a) ->
  wp (on_app_gpu m) Q (a, io).
Proof.
  intros Hm. unfold on_app_gpu, on_app_front. apply wp_app_cursor, wp_cu_ui.
  unfold on_gfx, on_gpu, on_statics. do 3 apply wp_zoom. exact Hm.
Qed.

(** Only the card differs, and it is still set up. *)
Lemma running_put_gpu g a sc :
  running a sc -> indexed g -> x_res g = x_res (app_gpu a) -> y_res g = y_res (app_gpu a) ->
  running (put_gpu g a) sc.
Proof.
  intros [(Hg & Hxr & Hyr & Hmo & (Hpos & Hco) & Hni) Hk] Hig Ex Ey. split; [|done].
  unfold scene_ok. change (cursor_gpu (ap_cursor (put_gpu g a))) with g.
  rewrite Ex, Ey. repeat (split; [done|]). split; [|done]. split; [|done].
  unfold on_screen in *. change (cursor_gpu (ap_cursor (put_gpu g a))) with g.
  by rewrite Ex, Ey.
Qed.

(** What reading a scan code leaves, whatever the object held before. *)
Definition reads_code (P : Z -> iost W -> Prop) (io : iost W) : Prop :=
  wp indeterminate (fun junk io1 =>
    wp (keyboard_read_scancode (u8 junk)) (fun p io2 => P p.2 io2) io1) io.

Lemma reads_some_code io :
  reads_code (fun b io' => exists evs, io_trace io' = io_trace io ++ evs /\
    exists r junk, scancode_post (u8 junk) r b evs) io.
Proof.
  apply wp_oracle. intros junk w _. eapply wp_mono; [apply keyboard_read_scancode_spec|].
  intros [r b] io1 (evs & Ht & Hp). exists evs. split; [exact Ht|]. by exists r, junk.
Qed.

Lemma wp_Keyboard_handle P a io :
  length (keys (ap_keys a)) = 20%nat -> reads_code P io ->
  wp (on_keys Keyboard_handle) (fun _ st => exists b k,
    st.1 = set_keys (fun _ => k) a /\ dispatch b (ap_keys a) = Ok k /\
    length (keys k) = 20%nat /\ P b st.2) (a, io).
Proof.
  intros Hl HP. unfold on_keys. apply wp_zoom. unfold Keyboard_handle, on_io, statics, set_statics.
  do 2 wp_step. eapply wp_mono; [exact HP|]. intros junk io1 HP1. cbn [fst snd].
  do 2 wp_step. cbn [snd]. eapply wp_mono; [exact HP1|]. intros [r b] io2 HP2.
  cbn [fst snd] in *. do 3 wp_step. destruct (dispatch_total b (ap_keys a) Hl) as (k & E & Hlk).
  cbn [fst snd]. eapply wp_lift_res; [exact E|]. wp_step. by exists b, k.
Qed.

Lemma wp_handle_keyboard P a sc io :
  running a sc -> reads_code P io ->
  wp handle_keyboard (fun _ st => exists b k,
    dispatch b (ap_keys a) = Ok k /\ running st.1 sc /\ P b st.2 /\ ap_keys st.1 = k /\
    app_game st.1 = (if in_menu (app_game a) &&
                        esc_held k
                     then Gamestate_quit (app_game a) else app_game a) /\
    timer_bit_no st.1 = timer_bit_no a /\ same_view a st.1) (a, io).
Proof.
  intros [Hs Hl] HP. unfold handle_keyboard. wp_step.
  eapply wp_mono; [by apply wp_Keyboard_handle|].
  intros [] [a1 io1] (b & k & E & Hd & Hlk & HPb). cbn [fst snd] in *. subst a1.
  unfold statics. wp_step. wp_step. cbn [fst].
  change (app_game (set_keys (fun _ => k) a)) with (app_game a).
  destruct (in_menu (app_game a)); cbn [andb].
  - destruct (lookup_lt_is_Some_2 (keys k) 0%nat ltac:(lia)) as [q Hq].
    assert (Keyboard_pressed KB_ESC k = Ok q) as Epr by (by apply array_get_ok).
    wp_step. eapply wp_lift_res; [exact Epr|]. unfold esc_held. destruct q.
    + unfold set_statics. wp_step. exists b, k. split; [done|]. split.
      { split; [|done]. destruct Hs as (H1 & H2 & H3 & Hmo & H4).
        split; [done|]. split; [done|]. split; [done|]. split; [by apply menus_ok_quit|done]. }
      by rewrite Epr.
    + wp_step. exists b, k. split; [done|]. by rewrite Epr.
  - wp_step. by exists b, k.
Qed.

(** The menu stage of a frame. *)
Lemma wp_menu_stage a sc io :
  running a sc ->
  wp (if in_menu (app_game a)
      then on_app_front (on_ui (Menu_draw (Gamestate_get_current_menu (app_game a))))
      else mret tt)
    (fun _ st => exists u, st.1 = put_cursor (put_ui u (ap_cursor a)) a /\
       painted (menu_picture (shown (app_game a) sc)) (app_gpu a) (gfx_gpu (ui_gfx u)) /\
       scene_ok (put_ui u (ap_cursor a)) (drawn_scene (app_game a) sc) /\
       (forall p, p ∉ sprite_ptrs (scene_elts sc) ->
          cells (sprites u) !! p = cells (sprites (app_ui a)) !! p) /\
       io_trace st.2 = io_trace io) (a, io).
Proof.
  intros [(Hg & Hxr & Hyr & Hmo & (Hpos & Hb & Hpb & Hp & s & Hs & Hcf) & Hni) _].
  set (c := ap_cursor a) in *. set (g := app_game a) in *.
  assert (forall u, painted (menu_picture (shown g sc)) (app_gpu a) (gfx_gpu (ui_gfx u)) ->
    menus_ok u g (drawn_scene g sc) -> sprites_kept (sprite_ptrs (shown g sc)) (app_ui a) u ->
    scene_ok (put_ui u c) (drawn_scene g sc) /\
    (forall p, p ∉ sprite_ptrs (scene_elts sc) ->
       cells (sprites u) !! p = cells (sprites (app_ui a)) !! p)) as Hscene.
  { intros u Hpt Hm (_ & _ & _ & _ & Hk).
    assert (forall p, p ∉ sprite_ptrs (scene_elts sc) ->
      cells (sprites u) !! p = cells (sprites (app_ui a)) !! p) as Hk'.
    { intros p Hpn. apply Hk. intros Hin. apply Hpn. unfold scene_elts. rewrite fmap_app.
      unfold shown in Hin. apply elem_of_app.
      destruct (state g); cbn in Hin; auto; by apply not_elem_of_nil in Hin. }
    split; [|exact Hk']. pose proof Hpt as (b & Eb & _).
    assert (x_res (gfx_gpu (ui_gfx u)) = x_res (cursor_gpu c) /\
            y_res (gfx_gpu (ui_gfx u)) = y_res (cursor_gpu c)) as [Ex Ey] by (by rewrite Eb).
    unfold scene_ok, cursor_ok, on_screen.
    change (cursor_gpu (put_ui u c)) with (gfx_gpu (ui_gfx u)). rewrite Ex, Ey.
    split; [by eapply indexed_painted|]. repeat (split; [done|]). split.
    - repeat (split; [done|]). exists s. split; [|done].
      change (cu_ui (put_ui u c)) with u. change (cu_mouse (put_ui u c)) with (cu_mouse c).
      by rewrite Hk'.
    - change (cu_mouse (put_ui u c)) with (cu_mouse c). by rewrite scene_ptrs_drawn. }
  destruct (in_menu g) eqn:Hin.
  - unfold on_app_front. apply wp_app_cursor, wp_cu_ui. eapply wp_mono.
    { by apply wp_draw_shown. }
    intros [] st (Hpt & Hm & Hk & Ht). exists st.1. split; [done|]. split; [done|].
    by destruct (Hscene st.1 Hpt Hm Hk).
  - wp_step. exists (app_ui a). split.
    { change (app_ui a) with (cu_ui c). rewrite put_ui_id. subst c. by rewrite put_cursor_id. }
    destruct (Hscene (app_ui a)) as [H1 H2]; [| |by repeat (split; [done|])|].
    + rewrite not_in_menu_shown by done. apply painted_refl.
    + unfold drawn_scene. unfold in_menu, Gamestate_get_state in Hin. by destruct (state g).
    + rewrite not_in_menu_shown by done. split; [apply painted_refl|done].
Qed.

(** The end of a frame: video memory takes the back buffer, which is cleared. *)
Lemma wp_present a sc io :
  running a sc ->
  wp (on_app_gpu gpu_buffer_commit ;; on_app_gpu gpu_buffer_clear) (fun _ st =>
    running st.1 sc /\ app_game st.1 = app_game a /\ ap_keys st.1 = ap_keys a /\
    same_view a st.1 /\ io_trace st.2 = io_trace io /\
    forall px py, on_screen (app_gpu a) px py ->
      video_mem (app_gpu st.1) !! Z.to_nat (py * x_res (app_gpu a) + px)
        = pixel (app_gpu a) px py /\
      pixel (app_gpu st.1) px py = Some 0) (a, io).
Proof.
  intros Hr. pose proof Hr as [(Hg & _) _].
  change (cursor_gpu (ap_cursor a)) with (app_gpu a) in Hg. set (g := app_gpu a) in *.
  wp_step. apply wp_app_gpu. eapply wp_mono; [by apply gpu_buffer_commit_copies|].
  intros [] g3 ->. set (g3 := set_video_mem (backbuffer g) g).
  assert (indexed g3) as Hg3.
  { destruct Hg as (? & ? & ? & ? & ? & ? & Hlen & ?). by repeat (split; [done|]). }
  apply wp_app_gpu. match goal with |- wp _ _ ?x => change x with g3 end.
  eapply wp_mono; [by apply gpu_buffer_clear_painted|]. intros [] g4 Hpt4.
  pose proof Hpt4 as (b4 & Eb4 & Hl4 & Hp4). cbn [fst snd]. split.
  { apply (running_put_gpu _ (put_gpu g3 a));
      [|by eapply indexed_painted|by rewrite Eb4|by rewrite Eb4].
    by apply running_put_gpu. }
  split; [done|]. split; [done|]. split; [by unfold same_view; rewrite Eb4|].
  split; [done|]. intros px py Hon.
  change (app_gpu (put_gpu g4 _)) with g4. split; [by rewrite Eb4|by apply (Hp4 px py)].
Qed.

(** A frame, drawn and presented. *)
Lemma wp_draw_frame a sc s io :
  running a sc ->
  cells (sprites (app_ui a)) !! mouse_sprite (cu_mouse (ap_cursor a)) = Some s ->
  wp draw_frame (fun _ st =>
    running st.1 (drawn_scene (app_game a) sc) /\
    app_game st.1 = game_after (ap_cursor a) sc /\ ap_keys st.1 = ap_keys a /\
    same_view a st.1 /\ io_trace st.2 = io_trace io /\
    forall px py, on_screen (app_gpu a) px py ->
      video_mem (app_gpu st.1) !! Z.to_nat (py * x_res (app_gpu a) + px)
        = frame_content a sc s px py /\
      pixel (app_gpu st.1) px py = Some 0) (a, io).
Proof.
  intros Hr Hcs. pose proof Hr as [(_ & _ & _ & _ & _ & Hni) Hl].
  unfold draw_frame, statics. wp_step. wp_step. wp_step. cbn [fst].
  eapply wp_mono; [by eapply wp_menu_stage|].
  set (c := ap_cursor a) in *. set (g := app_game a) in *. set (sc' := drawn_scene g sc).
  intros [] [a1 io1] (u & E & Hpt1 & Hs1 & Hk1 & Ht1). cbn [fst snd] in *. subst a1.
  assert (cells (sprites u) !! mouse_sprite (cu_mouse c) = Some s) as Hcs1 by (by rewrite Hk1).
  wp_step. apply wp_app_cursor. eapply wp_mono; [by apply (wp_Mouse_draw (put_ui u c) sc' s)|].
  intros [] [c2 io2] (Hs2 & Eg2 & Em2 & _ & Ed2 & _ & Hpt2 & Ht2). cbn [fst snd] in *.
  change (cursor_gpu (put_ui u c)) with (gfx_gpu (ui_gfx u)) in Hpt2.
  set (a2 := put_cursor c2 (put_cursor (put_ui u c) a)).
  eapply wp_mono; [by apply (wp_present a2 sc')|].
  intros [] [a3 io3] (Hr3 & Eg3 & Ek3 & (Em3 & Ed3 & Eb3 & Ex3 & Ey3) & Ht3 & Hp3). cbn [fst snd] in *.
  assert (game_after (put_ui u c) sc' = game_after c sc /\
    cursor_picture (put_ui u c) sc' s = cursor_picture c sc s) as [Ega Ecp].
  { unfold game_after, cursor_picture, frame_after, pointed.
    change (cu_game (put_ui u c)) with g. change (cu_game c) with g.
    change (cu_mouse (put_ui u c)) with (cu_mouse c). subst sc'. by rewrite shown_drawn. }
  split; [done|]. split; [rewrite Eg3, <- Ega; exact Eg2|].
  pose proof Hpt1 as (b1 & Eb1 & _ & Hp1). pose proof Hpt2 as (b2 & Eb2 & _ & Hp2).
  change (app_gpu a2) with (cursor_gpu c2) in *.
  assert (x_res (cursor_gpu c2) = x_res (app_gpu a) /\ y_res (cursor_gpu c2) = y_res (app_gpu a))
    as [Ex Ey] by (by rewrite Eb2, Eb1).
  split; [done|].
  split; [by split; [rewrite Em3; exact Em2|split;
    [rewrite Ed3; exact Ed2|split; [exact Eb3|split; congruence]]]|].
  split; [congruence|]. intros px py Hon.
  unfold on_screen in Hp3. rewrite Ex, Ey in Hp3. specialize (Hp3 px py Hon) as [-> ->].
  split; [|done]. rewrite Hp2 by (unfold on_screen; by rewrite Eb1).
  unfold frame_content, over. rewrite Ecp. by rewrite (Hp1 px py Hon).
Qed.

Lemma running_put_cursor c a sc : running a sc -> scene_ok c sc -> running (put_cursor c a) sc.
Proof. by intros [_ Hl] Hs. Qed.

(** The mouse branch. *)
Lemma wp_mouse_branch a sc io :
  running a sc ->
  wp (on_cursor Mouse_handle) (fun _ st => running st.1 sc /\
    app_game st.1 = app_game a /\ ap_keys st.1 = ap_keys a /\
    timer_bit_no st.1 = timer_bit_no a /\ kbc_bit_no st.1 = kbc_bit_no a) (a, io).
Proof.
  intros Hr. pose proof Hr as [(Hg & _ & _ & _ & (Hpos & _) & _) _].
  apply wp_app_cursor. eapply wp_mono; [by apply wp_Mouse_handle|].
  intros [] [c io'] (m & evs & E & _). cbn [fst snd] in *. subst c.
  split; [apply running_put_cursor; [done|]; apply handled_scene_ok, Hr|].
  split; [|done]. unfold handled. by destruct (packet_ready m).
Qed.

Lemma wp_handle_interrupts mask skip a sc io :
  running a sc ->
  wp (handle_interrupts mask skip) (fun skip' st => exists sc', running st.1 sc' /\
    skip' = (if tst (Z.land mask (timer_bit_no a)) then negb skip else skip)) (a, io).
Proof.
  intros Hr. unfold handle_interrupts, statics. wp_step. wp_step. cbn [fst]. wp_step.
  apply wp_mono with (P := fun _ st => running st.1 sc /\ timer_bit_no st.1 = timer_bit_no a).
  { destruct (tst _); [|by wp_step]. eapply wp_mono; [by apply wp_mouse_branch|].
    by intros [] st (? & _ & _ & ? & _). }
  intros [] [a1 io1] [Hr1 Et1]. cbn [fst] in *. wp_step.
  apply wp_mono with (P := fun _ st => running st.1 sc /\ timer_bit_no st.1 = timer_bit_no a).
  { destruct (tst _); [|by wp_step]. eapply wp_mono; [by eapply wp_handle_keyboard, reads_some_code|].
    intros [] st (b & k & _ & Hr2 & _ & _ & _ & Et2 & _). split; [done|congruence]. }
  intros [] [a2 io2] [Hr2 Et2]. cbn [fst] in *.
  destruct (tst _); [|wp_step; by exists sc].
  wp_step. destruct skip; [do 2 wp_step; by exists sc|].
  pose proof Hr2 as [(_ & _ & _ & _ & (_ & _ & _ & _ & s & Hs & _) & _) _].
  eapply wp_mono; [by eapply wp_draw_frame|]. intros [] st (Hr3 & _). wp_step. eauto.
Qed.
End Steps.

Section Loop.
Context {W : Type} `{Machine W, !MallocOk W, Ipc W}.

Lemma wp_loop_body skip a sc (io : iost W) :
  running a sc -> wp (loop_body skip) (fun _ st => exists sc', running st.1 sc') (a, io).
Proof.
  intros Hr. unfold loop_body, on_io. do 2 wp_step. apply wp_oracle.
  intros [r msg] w _. cbn [fst snd]. destruct (tst r); [wp_step; by exists sc|].
  destruct (_ && _); [|wp_step; by exists sc].
  eapply wp_mono; [by eapply wp_handle_interrupts|]. intros ? st (sc' & ? & _). eauto.
Qed.

(** However many rounds are run, the loop either still runs or has ended with
    the game quit; nothing else stops it. *)
Lemma wpe_proj_loop rounds skip a sc (io : iost W) :
  running a sc ->
  wpe (proj_loop rounds skip) (fun f => f = OutOfFuel)
    (fun _ st => (exists sc', running st.1 sc') /\ state (app_game st.1) = GS_QUIT) (a, io).
Proof.
  revert skip a sc io. induction rounds as [|n IH]; intros skip a sc io Hr; cbn [proj_loop].
  { by apply wpe_fail. }
  unfold statics. wp_step. wp_step. cbn [fst]. case_bool_decide as Hq.
  - wp_step. split; [by exists sc|]. exact Hq.
  - wp_step. apply wpe_wp. eapply wp_mono; [by eapply wp_loop_body|].
    intros skip' [a' io'] (sc' & Hr'). by eapply IH.
Qed.

End Loop.

(** ** Start-up and shut-down *)

Section Drivers.
Context {W : Type} `{Machine W}.
Implicit Types (a : app) (io : iost W).

Definition put_kbd (k : kbd_statics) (a : app) : app :=
  mkApp (ap_cursor a) (ap_keys a) k (ap_timer a) (timer_bit_no a) (kbc_bit_no a) (mouse_bit_no a).
Definition put_timer (t : timer_statics) (a : app) : app :=
  mkApp (ap_cursor a) (ap_keys a) (ap_kbd a) t (timer_bit_no a) (kbc_bit_no a) (mouse_bit_no a).
Definition put_driver (m : mouse_statics) (a : app) : app :=
  put_cursor (mkCursor (cu_front (ap_cursor a)) (cu_mouse (ap_cursor a))
    (cu_packet (ap_cursor a)) m) a.

Lemma wp_kbd {A} (m : drv W kbd_statics A) P (Q : A -> app * iost W -> Prop) a io :
  drv_spec (ap_kbd a) m P ->
  (forall x k evs io', P x k evs -> Q x (put_kbd k a, io')) -> wp (on_kbd m) Q (a, io).
Proof.
  intros Hm HQ. unfold on_kbd. apply wp_zoom. eapply wp_mono; [apply Hm|].
  intros x [k io'] (evs & _ & HP). by eapply HQ.
Qed.

Lemma wp_timer {A} (m : drv W timer_statics A) P (Q : A -> app * iost W -> Prop) a io :
  drv_spec (ap_timer a) m P ->
  (forall x k evs io', P x k evs -> Q x (put_timer k a, io')) -> wp (on_timer m) Q (a, io).
Proof.
  intros Hm HQ. unfold on_timer. apply wp_zoom. eapply wp_mono; [apply Hm|].
  intros x [k io'] (evs & _ & HP). by eapply HQ.
Qed.

Lemma wp_mouse_driver {A} (m : drv W mouse_statics A) P (Q : A -> app * iost W -> Prop) a io :
  drv_spec (cu_driver (ap_cursor a)) m P ->
  (forall x k evs io', P x k evs -> Q x (put_driver k a, io')) ->
  wp (on_cursor (on_driver m)) Q (a, io).
Proof.
  intros Hm HQ. unfold on_cursor, on_driver. do 2 apply wp_zoom.
  eapply wp_mono; [apply Hm|]. intros x [k io'] (evs & _ & HP). by eapply HQ.
Qed.

(** Shutting down touches the drivers only, and answers 0 or 1. *)
Lemma wp_proj_shutdown a io :
  wp proj_shutdown (fun r st => (r = 0 \/ r = 1) /\
    cu_front (ap_cursor st.1) = cu_front (ap_cursor a)) (a, io).
Proof.
  unfold proj_shutdown. wp_step. eapply wp_on_io; [apply mouse_disable_data_01|].
  intros r evs io1 _. destruct (tst r); [wp_step; auto|].
  wp_step. eapply wp_kbd; [apply keyboard_unsubscribe_01|].
  intros r1 k evs1 io2 _. destruct (tst r1); [wp_step; auto|].
  wp_step. eapply wp_timer; [apply timer_unsubscribe_01|].
  intros r2 t evs2 io3 _. destruct (tst r2); [wp_step; auto|].
  wp_step. eapply wp_mouse_driver; [apply mouse_unsubscribe_01|].
  intros r3 m evs3 io4 _. destruct (tst r3); [wp_step; auto|].
  wp_step. eapply (wp_on_io _ (fun _ _ => True)); [by io_steps|].
  intros r4 evs4 io5 _. destruct (tst r4); wp_step; auto.
Qed.
End Drivers.

(** ** The program's contracts *)

Lemma dispatch_esc b k k' :
  length (keys k) = 20%nat -> double_width k = false -> dispatch b k = Ok k' ->
  (b = 1 -> esc_held k' = true) /\
  (b <> 1 -> esc_held k = false -> esc_held k' = false).
Proof.
  destruct k as [dw ks]. cbn [keys double_width]. intros Hl -> E.
  destruct ks as [|q ks]; [done|].
  assert (forall dw x, esc_held (mkKeys dw (x :: ks)) = x) as Hesc.
  { intros dw x. unfold esc_held, Keyboard_pressed, key_code. by rewrite (array_get_ok _ _ x). }
  unfold dispatch in E. cbn [double_width keys negb] in E. rewrite andb_true_r in E.
  destruct (Z.eqb_spec b 0xE0) as [->|_].
  { injection E as <-. by rewrite !Hesc. }
  unfold Keyboard_translate in E. cbn iota in E.
  destruct (Z.eqb_spec (if negb (tst (Z.land b 0x80)) then b else Z.land b 0x7f) 1) as [E1|E1].
  - rewrite decide_False in E by done. rewrite array_set_ok in E by (cbn; lia).
    cbn in E. injection E as <-. rewrite !Hesc. split; [by intros ->|].
    intros Hb _. by destruct (tst (Z.land b 0x80)).
  - rewrite decide_True in E by done. injection E as <-. rewrite !Hesc.
    split; [by intros ->|done].
Qed.

Section Contracts.
Context {W : Type} `{Machine W, !MallocOk W}.

(** C6: a drawn frame shows on every pixel of the screen the cursor over the
    elements of the current menu, the later ones over the earlier ones, over
    what the back buffer held; the back buffer is all zero after it, the scene
    stays well formed with the menu's animations one step on, a click is acted
    on, and no port is touched. *)
Theorem draw_frame_presents a sc s (io : iost W) :
  running a sc ->
  cells (sprites (app_ui a)) !! mouse_sprite (cu_mouse (ap_cursor a)) = Some s ->
  exists a' io', draw_frame (a, io) = Ok (tt, (a', io')) /\
    running a' (drawn_scene (app_game a) sc) /\
    app_game a' = game_after (ap_cursor a) sc /\ io_trace io' = io_trace io /\
    forall px py, on_screen (app_gpu a) px py ->
      video_mem (app_gpu a') !! Z.to_nat (py * x_res (app_gpu a) + px)
        = over (cursor_picture (ap_cursor a) sc s)
            (over (menu_picture (shown (app_game a) sc)) (pixel (app_gpu a))) px py /\
      pixel (app_gpu a') px py = Some 0.
Proof.
  intros Hr Hs. destruct (wp_run _ _ _ (wp_draw_frame a sc s io Hr Hs))
    as ([] & [a' io'] & E & Hr' & Hg & _ & _ & Ht & Hp).
  exists a', io'. by repeat (split; [done|]).
Qed.

(** C10: on a menu screen of a running program, when no 0xE0 is pending (the byte
    after one belongs to a two-byte code, and 1 does not quit then), one run of
    the keyboard branch succeeds.  If the scan code it reads is 1, the make code
    of ESC, the game state is [GS_QUIT] and the loop is left before another
    message is received, however many rounds, at least one, are allowed; if it is
    another code and ESC was not held before, the game state is as it was.  (With
    ESC held, any code quits that does not release it.)  When no byte is read the
    code is what the variable on the stack held. *)
Theorem ESC_quits `{!Ipc W} a sc (io : iost W) :
  running a sc -> in_menu (app_game a) = true -> double_width (ap_keys a) = false ->
  exists a' io' b evs, handle_keyboard (a, io) = Ok (tt, (a', io')) /\
    running a' sc /\ io_trace io' = io_trace io ++ evs /\
    (exists r junk, scancode_post (u8 junk) r b evs) /\
    (b = 1 -> state (app_game a') = GS_QUIT /\
       forall n skip, proj_loop (S n) skip (a', io') = Ok (tt, (a', io'))) /\
    (b <> 1 -> esc_held (ap_keys a) = false -> app_game a' = app_game a).
Proof.
  intros Hr Hin Hd. destruct (wp_run _ _ _ (wp_handle_keyboard _ a sc io Hr (reads_some_code io)))
    as ([] & [a' io'] & E & b & k & Hk & Hr' & (evs & Ht & Hp) & _ & Hg & _).
  cbn [fst snd] in *. rewrite Hin in Hg. cbn [andb] in Hg.
  destruct (dispatch_esc b _ k (proj2 Hr) Hd Hk) as [H1 H2].
  exists a', io', b, evs. repeat (split; [done|]). split.
  - intros Hb. rewrite H1 in Hg by done. rewrite Hg. split; [done|]. intros n skip.
    cbn [proj_loop]. unfold statics, gets, mbind at 1, M_bind at 1. cbn [fst].
    rewrite Hg. by rewrite bool_decide_true.
  - intros Hb Hh. by rewrite (H2 Hb Hh) in Hg.
Qed.

(** The timer draws on every second interrupt only: after a drawn frame the
    next timer interrupt changes nothing but the skip flag. *)
Theorem timer_halves_frames a sc mask (io : iost W) :
  running a sc -> Z.land mask (mouse_bit_no a) = 0 -> Z.land mask (kbc_bit_no a) = 0 ->
  Z.land mask (timer_bit_no a) <> 0 ->
  handle_interrupts mask true (a, io) = Ok (false, (a, io)) /\
  exists a' io', draw_frame (a, io) = Ok (tt, (a', io')) /\
    handle_interrupts mask false (a, io) = Ok (true, (a', io')).
Proof.
  intros Hr Hm Hk Ht.
  pose proof Hr as [(_ & _ & _ & _ & (_ & _ & _ & _ & s & Hs & _) & _) _].
  destruct (wp_run _ _ _ (wp_draw_frame a sc s io Hr Hs)) as ([] & [a' io'] & E & _).
  unfold handle_interrupts, statics, gets, mbind, M_bind, mret, M_ret. cbn [fst].
  rewrite Hm, Hk. change (tst 0) with false.
  assert (tst (Z.land mask (timer_bit_no a)) = true) as ->
    by (unfold tst; by rewrite (proj2 (Z.eqb_neq _ _))).
  split; [done|]. exists a', io'. split; [done|]. cbn beta iota.
  by rewrite E.
Qed.

(** Whatever messages arrive, the loop never faults and ends only with the
    game quit; until then it is still running on a well-formed scene. *)
Theorem proj_loop_ends_by_quitting `{!Ipc W} rounds skip a sc (io : iost W) :
  running a sc ->
  match proj_loop rounds skip (a, io) with
  | Ok (_, (a', _)) => (exists sc', running a' sc') /\ state (app_game a') = GS_QUIT
  | Fault f => f = OutOfFuel
  end.
Proof.
  intros Hr. pose proof (wpe_proj_loop rounds skip a sc io Hr) as Hp. unfold wpe in Hp.
  by destruct (proj_loop rounds skip (a, io)) as [[[] [a' io']]|f].
Qed.
End Contracts.

(** ** Runs on the small scene *)

Definition tiny_app : app := mkApp tiny_cursor keys_zero kbd_init timer_init 1 2 4.

Lemma tiny_running : running tiny_app tiny_scene.
Proof. split; [apply tiny_scene_ok|done]. Qed.

Definition tiny_demo (bs : list (Z * Z)) (ms : list message) : iost (demo (list message)) :=
  demo_io (mkScript bs [] [] [] [] []) ms.

Lemma draw_frame_presents_witness :
  exists a' io', draw_frame (tiny_app, tiny_demo [] []) = Ok (tt, (a', io')) /\
    state (app_game a') = GS_QUIT /\
    video_mem (app_gpu a') !! 1%nat = Some 5 /\ video_mem (app_gpu a') !! 2%nat = Some 3.
Proof.
  destruct (draw_frame_presents tiny_app tiny_scene tiny_cursor_sprite (tiny_demo [] []))
    as (a' & io' & E & _ & Hg & _ & Hp).
  - apply tiny_running.
  - done.
  - exists a', io'. split; [exact E|]. split; [by rewrite Hg|].
    split; [apply (Hp 1 0)|apply (Hp 2 0)]; split; cbn; lia.
Defined.

Lemma ESC_quits_witness :
  exists a' io', handle_keyboard (tiny_app, tiny_demo (replicate 4 (0, 1)) [])
    = Ok (tt, (a', io')) /\ proj_loop 1 false (a', io') = Ok (tt, (a', io')).
Proof.
  destruct (ESC_quits tiny_app tiny_scene (tiny_demo (replicate 4 (0, 1)) []))
    as (a' & io' & b & evs & E & _ & Ht & (r & junk & Hp) & H1 & _).
  - apply tiny_running.
  - done.
  - done.
  - exists a', io'. split; [exact E|]. apply H1.
    assert (E2 := E). vm_compute in E2. injection E2 as <- <-. cbn in Ht. subst evs.
    destruct Hp as (_ & _ & [(_ & Hb & _)|(_ & [[Hb _]|(x & Hb & ->)])]);
      [by injection Hb|done|by injection Hb].
Defined.

Lemma timer_halves_frames_witness :
  handle_interrupts 1 true (tiny_app, tiny_demo [] []) = Ok (false, (tiny_app, tiny_demo [] [])).
Proof.
  apply (timer_halves_frames tiny_app tiny_scene 1 (tiny_demo [] [])); [apply tiny_running|done..].
Defined.

Lemma proj_loop_ends_by_quitting_witness :
  match proj_loop 3 false (tiny_app, tiny_demo (replicate 4 (0, 1))
      [mkMessage true HARDWARE 2; mkMessage true HARDWARE 1]) with
  | Ok (_, (a', _)) => (exists sc', running a' sc') /\ state (app_game a') = GS_QUIT
  | Fault _ => False
  end.
Proof.
  pose proof (proj_loop_ends_by_quitting 3 false tiny_app tiny_scene
    (tiny_demo (replicate 4 (0, 1)) [mkMessage true HARDWARE 2; mkMessage true HARDWARE 1])
    tiny_running) as Hp.
  destruct (proj_loop _ _ _) as [[[] [a' io']]|f] eqn:E; [exact Hp|].
  assert (E2 := E). vm_compute in E2. discriminate.
Defined.
