(* ===== verification/Startup.v ===== *)
(** * Start-up establishes the scene

    [proj_init] run from the initial statics: the drivers are subscribed, the
    card is set up, the cursor and the two menus are built, and from there on
    the loop of Proj.v cannot fault. *)

From S2P Require Import Prelude Machine Kbc Keyboard MouseDrv Timer Format Leaderboard.
From S2P Require Import Geometry Gpu Heap LinkedList Sprite SpritesUi Xpm UiElement.
From S2P Require Import Menu Gamestate KeyboardManager MouseManager Demo Ipc Proj.

(** A leaderboard file whose entries can be shown. *)
Definition file_ok (s : text) : Prop :=
  forall es dt, length es = 3%nat -> exists lb,
    read_entries 3 s dt (mkBoard es 0) = Ok lb /\
    length (live lb) = Z.to_nat (entry_count lb) /\ (length (live lb) <= 3)%nat /\
    Forall showable (live lb).

(** What start-up relies on from its surroundings: a leaderboard file that can
    be read, and a mode 105h of an indexed card of moderate size. *)
Class Surroundings (W : Type) `{Video W, Files W} : Prop := {
  board_file w : exists s w', file_open_r w = (Some s, w') /\ file_ok s;
  mode_105h w r vmi w' : video_mode_info GRAPHICS_MODE w = ((r, vmi), w') ->
    indexed_mode vmi /\ XResolution vmi <= 32700 /\ YResolution vmi <= 32700;
}.

Section Init.
Context {W : Type} `{Machine W, XpmLoader W, Files W, Video W}.
Context `{!MallocOk W, !XpmLaws W, !VideoLaws W, !Surroundings W}.

Lemma mouse_dims : xpm_dims mouse_xpm = Some (58, 42, 3).
Proof. reflexivity. Qed.

(** The cursor after [Mouse_init]. *)
Lemma wp_Mouse_init c (io : iost W) :
  store_ok (sprites (cu_ui c)) ->
  wp Mouse_init (fun _ st => exists s,
    cu_game st.1 = cu_game c /\ cursor_gpu st.1 = cursor_gpu c /\
    cu_driver st.1 = cu_driver c /\
    ui_elements (cu_ui st.1) = ui_elements (cu_ui c) /\
    ui_nodes (cu_ui st.1) = ui_nodes (cu_ui c) /\ ui_menus (cu_ui st.1) = ui_menus (cu_ui c) /\
    store_ok (sprites (cu_ui st.1)) /\
    mouse_position (cu_mouse st.1) = VEC2 0 0 /\ mouse_sprite (cu_mouse st.1) <> NULL /\
    buttons (cu_mouse st.1) = <[0%nat := false]> (buttons (cu_mouse c)) /\
    prev_buttons (cu_mouse st.1) = <[0%nat := false]> (prev_buttons (cu_mouse c)) /\
    cells (sprites (cu_ui st.1)) !! mouse_sprite (cu_mouse st.1) = Some s /\ cursor_frames s)
    (c, io).
Proof.
  intros Hok. unfold Mouse_init, set_statics. wp_step. wp_step. cbn [fst snd].
  wp_step. apply wp_cu_ui. unfold on_gfx. apply wp_zoom. cbn [fst snd].
  eapply wp_mono; [apply Sprite_create_spec; cbn; (done || lia)|].
  intros p [x io1] (-> & Hp & Hg & _ & Hok1 & _ & w & ok & image & w' & b & E & Hc).
  cbn [fst snd] in *. wp_step. wp_step. cbn [fst snd].
  wp_step. eapply wp_cursor_sprite; [exact Hp|cbn; rewrite Hc; apply lookup_insert_eq|].
  eapply wp_store_cursor_sprite; [exact Hp|cbn; rewrite Hc; apply lookup_insert_eq|].
  eexists. cbn [fst snd]. split; [done|]. split; [exact Hg|]. split; [done|]. split; [done|]. split; [done|].
  split; [done|]. split.
  { cbn. eapply store_ok_insert; [done|]. cbn. rewrite Hc. apply lookup_insert_eq. }
  split; [done|]. split; [exact Hp|].
  split; [done|]. split; [done|]. split; [cbn; apply lookup_insert_eq|].
  unfold cursor_frames. cbn. repeat match goal with |- _ /\ _ => split end; try done.
  intros im [= <-] Hv. split; eapply loaded_frame_ok; try exact mouse_dims; try exact E;
    try exact Hv; cbn; unfold INT_MAX; lia.
Qed.

Lemma indeterminate_entry_ok (io : iost W) :
  wp indeterminate_entry (fun _ _ => True) io.
Proof.
  unfold indeterminate_entry. wp_step. eapply wp_mono; [apply indeterminate_bytes_length|].
  intros nm io1 _. unfold indeterminate. repeat (wp_step; try (apply wp_oracle; intros ? ? _)).
  done.
Qed.

Lemma indeterminate_board_ok (io : iost W) :
  wp indeterminate_board (fun lb _ => length (entries lb) = 3%nat) io.
Proof.
  unfold indeterminate_board.
  wp_step. eapply wp_mono; [apply indeterminate_entry_ok|]. intros e0 io0 _.
  wp_step. eapply wp_mono; [apply indeterminate_entry_ok|]. intros e1 io1 _.
  wp_step. eapply wp_mono; [apply indeterminate_entry_ok|]. intros e2 io2 _.
  wp_step. apply wp_oracle. intros n w _. by wp_step.
Qed.

Lemma wp_Leaderboard_read_file lb (io : iost W) :
  length (entries lb) = 3%nat ->
  wp (Leaderboard_read_file lb) (fun p _ => p.1 = 0 /\
    length (live p.2) = Z.to_nat (entry_count p.2) /\ (length (live p.2) <= 3)%nat /\
    Forall showable (live p.2)) io.
Proof.
  intros Hl. unfold Leaderboard_read_file. wp_step. apply wp_oracle. intros f w E.
  destruct (board_file (io_world io)) as (s & w' & E' & Hs). rewrite E in E'.
  injection E' as -> ->. wp_step. apply wp_oracle. intros dt w1 _.
  destruct (Hs (entries lb) dt Hl) as (lb' & Er & Hlive).
  wp_step. eapply wp_lift_res; [exact Er|]. wp_step. apply wp_oracle. intros [] w2 _.
  by wp_step.
Qed.

(** Both menus, built side by side. *)
Lemma wp_Gamestate_init fr (io : iost W) :
  ui_ok (fr_ui fr) ->
  wp Gamestate_init (fun _ st => exists sc,
    menus_ok (fr_ui st.1) (fr_game st.1) sc /\ state (fr_game st.1) = GS_MAIN /\
    gfx_gpu (ui_gfx (fr_ui st.1)) = gfx_gpu (ui_gfx (fr_ui fr)) /\
    cells (sprites (fr_ui fr)) ⊆ cells (sprites (fr_ui st.1)) /\
    Forall (fresh_in (fr_ui fr)) (scene_elts sc) /\
    Forall2 shows (sc_main sc) main_menu_items /\
    exists lb, Forall2 shows (sc_board sc) (leaderboard_items lb)) (fr, io).
Proof.
  intros Hok. unfold Gamestate_init, set_statics, on_ui, on_io.
  do 2 wp_step. eapply wp_mono; [by apply wp_create_main|].
  intros m1 [u1 io1] (es1 & Hm1 & (Hok1 & ns1 & Hr1 & Hg1) & HF1 & Hfr1 & _). cbn [fst snd].
  wp_step. wp_step. cbn [fst snd]. do 2 wp_step.
  eapply wp_mono; [apply indeterminate_board_ok|]. intros lb0 io2 Hl0. cbn [fst snd].
  do 2 wp_step. eapply wp_mono; [by apply wp_Leaderboard_read_file|].
  intros [r lb] io3 (_ & Hlen & H3 & Hsh). cbn [fst snd] in *.
  do 2 wp_step. cbn [fst snd fr_ui set_game]. eapply wp_mono; [by apply wp_create_leaderboard|].
  intros m2 [u2 io4] (es2 & Hm2 & (Hok2 & ns2 & Hr2 & Hg2) & HF2 & Hfr2 & _). cbn [fst snd] in *.
  wp_step. wp_step. wp_step. cbn [fst snd fr_ui fr_game set_game].
  assert (m1 <> m2) as Hne.
  { destruct Hr1 as (_ & (h & Hh & _) & _). congruence. }
  destruct (menu_rep_grows m2 [] u1 ns2 u2 m1 ns1 es1 Hg2 Hne) as [Hr1' _];
    [intros a _ Ha; by apply not_elem_of_nil in Ha|done|].
  exists (mkScene es1 ns1 es2 ns2). unfold scene_elts. cbn [sc_main sc_board].
  pose proof (grows_sprites _ _ _ _ _ Hg1) as S1. pose proof (grows_sprites _ _ _ _ _ Hg2) as S2.
  pose proof (leaderboard_items_ok lb ltac:(lia)) as Hitems.
  split; [|split; [done|split; [|split; [by etrans|split; [|by split; [|exists lb]]]]]].
  - split; [exact Hr1'|]. split; [exact Hr2|]. split.
    { apply Forall_app. split; eapply shows_all_drawable; try done. apply main_menu_items_ok. }
    split.
    { apply Forall_app. split; eapply shows_all_boxes; try done. apply main_menu_items_ok. }
    split; [|done]. unfold scene_elts. cbn [sc_main sc_board]. rewrite fmap_app.
    apply NoDup_app. split; [apply Hr1|]. split; [|apply Hr2].
    intros p Hp1 Hp2. apply list_elem_of_fmap in Hp1 as (t1 & -> & Ht1).
    apply list_elem_of_fmap in Hp2 as (t2 & E & Ht2).
    destruct Hr1 as (_ & _ & _ & HL & _). rewrite Forall_forall in HL.
    destruct (HL t1 Ht1) as (_ & _ & _ & Hc). rewrite Forall_forall in Hfr2.
    specialize (Hfr2 t2 Ht2). unfold fresh_in in Hfr2. congruence.
  - destruct Hg1 as (G1 & _), Hg2 as (G2 & _). by rewrite G2.
  - apply Forall_app. split; [done|]. by eapply fresh_all_weaken.
Qed.

(** The statics the drivers do not own, before anything was built. *)
Definition unbuilt (a : app) : Prop :=
  cu_front (ap_cursor a) = mkFront ui_zero gamestate_zero /\
  cu_mouse (ap_cursor a) = mouse_zero /\ ap_keys a = keys_zero /\
  exists h, cu_driver (ap_cursor a) = set_hook h mouse_drv_init.

Definition bits_are (t k m : Z) (a : app) : Prop :=
  timer_bit_no a = t /\ kbc_bit_no a = k /\ mouse_bit_no a = m.

(** What a successful start-up leaves. *)
Definition started (a : app) : Prop :=
  (exists sc lb, running a sc /\ Forall2 shows (sc_main sc) main_menu_items /\
     Forall2 shows (sc_board sc) (leaderboard_items lb)) /\
  state (app_game a) = GS_MAIN /\ ap_keys a = keys_zero /\ bits_are 1 2 4 a /\
  mouse_position (cu_mouse (ap_cursor a)) = VEC2 0 0 /\
  buttons (cu_mouse (ap_cursor a)) = replicate 3 false /\
  prev_buttons (cu_mouse (ap_cursor a)) = replicate 3 false /\
  exists h, cu_driver (ap_cursor a) = set_hook h mouse_drv_init.

(** The second half of [proj_init]: the card, the cursor, the keys, the menus. *)
Lemma wpe_build a (io : iost W) :
  unbuilt a -> bits_are 1 2 4 a ->
  wpe (r ← on_app_front (on_ui (on_gfx (on_gpu (gpu_init_mem_indexation GRAPHICS_MODE))));
       if tst r then mret 1 else
       on_cursor Mouse_init ;;
       set_statics (set_keys Keyboard_init) ;;
       on_app_front Gamestate_init ;;
       mret 0)
    (fun f => f = Panic) (fun r st => r = 1 \/ (r = 0 /\ started st.1)) (a, io).
Proof.
  intros (Hfr & Hmz & Hkz & h & Hdr) Hbits. destruct a as [c keys kbd tm t k m].
  destruct c as [fr mo pk dr]. cbn in Hfr, Hmz, Hkz, Hdr. subst fr mo keys dr.
  wp_step. unfold on_app_front at 1, on_cursor at 1, on_front, on_ui at 1, on_gfx, on_gpu.
  do 5 wp_step. cbn [fst snd ap_cursor cu_front fr_ui ui_gfx gfx_gpu ui_zero].
  eapply wpe_mono.
  { apply gpu_init_outcomes. intros r vmi w E. by apply mode_105h in E as [? _]. }
  intros r [g io1] [[-> _]|(-> & Hg & _ & q & vmi & w & E & Ex & Ey)]; cbn [fst snd] in *.
  { change (tst 1) with true. cbn iota. wp_step. by left. }
  apply mode_105h in E as (_ & Hx & Hy). rewrite <- Ex in Hx. rewrite <- Ey in Hy.
  change (tst 0) with false. cbn iota. apply wpe_wp. wp_step. apply wp_app_cursor.
  eapply wp_mono; [apply wp_Mouse_init; cbn; apply store_ok_empty|].
  intros [] [c2 io2] (s & Egame & Egpu & Edr & Eel & Eno & Eme & Hsok & Hpos & Hsp & Hb & Hpb & Hc & Hcf).
  cbn [fst snd ap_cursor cu_front fr_ui] in *.
  unfold set_statics. wp_step. wp_step. cbn [fst snd]. wp_step.
  unfold on_app_front. apply wp_app_cursor. unfold on_front. wp_step. cbn [fst snd].
  eapply wp_mono.
  { apply wp_Gamestate_init. split; [exact Hsok|].
    change (fr_ui _) with (cu_ui c2). rewrite Eel, Eno, Eme.
    split; [apply store_ok_empty|split; apply store_ok_empty]. }
  intros [] [fr io3] (sc & Hmo & Hst & Eg & Hsub & Hfresh & Hshows & lb & Hboard). cbn [fst snd] in *.
  change (gfx_gpu (ui_gfx (fr_ui (cu_front _)))) with (cursor_gpu c2) in Eg.
  rewrite Egpu in Eg. change (cursor_gpu _) with g in Eg.
  wp_step. right. split; [done|]. split; [|repeat (split; [done|]); by exists h]. exists sc, lb. split; [|done].
  split; [|done]. unfold scene_ok, cursor_ok. cbn. change (cursor_gpu _) with (gfx_gpu (ui_gfx (fr_ui fr))).
  rewrite Eg. split; [done|]. split; [done|]. split; [done|]. split; [done|]. split.
  - split; [|split; [by rewrite Hb|split; [by rewrite Hpb|split; [exact Hsp|]]]].
    + rewrite Hpos. destruct Hg as (_ & _ & ? & ? & _). split; cbn; lia.
    + exists s. split; [|done]. eapply lookup_weaken; [exact Hc|exact Hsub].
  - intros Hin. apply list_elem_of_fmap in Hin as (t' & Et & Hin).
    rewrite Forall_forall in Hfresh. specialize (Hfresh t' Hin). unfold fresh_in in Hfresh.
    rewrite <- Et in Hfresh. change (fr_ui _) with (cu_ui c2) in Hfresh. congruence.
Qed.

Lemma wpe_proj_init (io : iost W) :
  wpe proj_init (fun f => f = Panic) (fun r st => r = 1 \/ (r = 0 /\ started st.1))
    (app_zero, io).
Proof.
  unfold proj_init, statics, set_statics.
  wp_step. wp_step. cbn [fst]. wp_step. apply wpe_wp.
  eapply wp_kbd; [apply keyboard_subscribe_01; cbn; lia|].
  intros [r1 b1] k1 evs1 io1 [Hr1 Hb1]. cbn [fst snd] in *. subst b1. cbn beta iota.
  wp_step. wp_step. destruct Hr1 as [-> | ->]; cbn [tst Z.eqb negb]; [|wp_step; by left].
  wp_step. apply wpe_wp. eapply wp_timer; [apply timer_subscribe_01; cbn; lia|].
  intros [r2 b2] t2 evs2 io2 [Hr2 Hb2]. cbn [fst snd] in *. subst b2. cbn beta iota.
  wp_step. wp_step. destruct Hr2 as [-> | ->]; cbn [tst Z.eqb negb]; [|wp_step; by left].
  wp_step. apply wpe_wp. eapply wp_mouse_driver; [apply mouse_subscribe_01; cbn; lia|].
  intros [r3 b3] m3 evs3 io3 (Hr3 & Hb3 & h & ->). cbn [fst snd] in *. subst b3. cbn beta iota.
  wp_step. wp_step. destruct Hr3 as [-> | ->]; cbn [tst Z.eqb negb]; [|wp_step; by left].
  wp_step. apply wpe_wp. eapply wp_on_io; [apply mouse_write_command_01|].
  intros r4 evs4 io4 _. destruct (tst r4); [wp_step; by left|].
  wp_step. apply wpe_wp. eapply wp_on_io; [apply mouse_write_command_01|].
  intros r5 evs5 io5 _. destruct (tst r5); [wp_step; by left|].
  wp_step. apply wpe_wp. eapply wp_on_io; [apply mouse_enable_data_01|].
  intros r6 evs6 io6 _. destruct (tst r6); [wp_step; by left|].
  wp_step. apply wpe_wp. eapply (wp_on_io _ (fun _ _ => True)); [unfold gpu_set_mode; by io_steps|].
  intros r7 evs7 io7 _. destruct (tst r7); [wp_step; by left|].
  cbn [fst snd]. apply wpe_build; [|done].
  do 3 (split; [done|]). by exists h.
Qed.

Context `{!Ipc W}.

Lemma wpe_proj_main_loop rounds (io : iost W) :
  wpe (proj_main_loop rounds) (fun f => f = Panic \/ f = OutOfFuel)
    (fun r st => r = 0 \/ r = 1) (app_zero, io).
Proof.
  unfold proj_main_loop. wp_step.
  pose proof (wpe_proj_init io) as Hi. unfold wpe in Hi |- *.
  destruct (proj_init (app_zero, io)) as [[r [a io1]]|f]; [|by left].
  destruct Hi as [-> | (-> & [(sc & _ & Hr & _) _])]; [by right|].
  change (tst 0) with false. cbn iota.
  pose proof (wpe_proj_loop rounds false a sc io1 Hr) as Hl. unfold wpe in Hl.
  unfold mbind, M_bind. destruct (proj_loop rounds false (a, io1)) as [[[] [a2 io2]]|f]; [|by right].
  destruct (wp_run _ _ _ (wp_proj_shutdown a2 io2)) as (r & st & E & Hs & _).
  rewrite E. by destruct Hs as [-> | ->]; [left|right].
Qed.
End Init.

(** ** The program *)

(** C1: on every machine whose allocations succeed, whose [xpm_load] and video
    mapping keep their documented promises, whose mode 105h is indexed and at
    most 32700 pixels each way, and whose leaderboard file opens and
    can be shown, the program started on its initial statics never has undefined
    behaviour: however many messages
    arrive and whatever they and the devices say, start-up, the loop and
    shut-down only end by answering 0 or 1, by the panic of the card's
    initialisation, or not yet. *)
Theorem proj_main_loop_safe {W} `{Machine W, XpmLoader W, Files W, Video W, Ipc W}
  `{!MallocOk W, !XpmLaws W, !VideoLaws W, !Surroundings W} rounds (io : iost W) :
  match proj_main_loop rounds (app_zero, io) with
  | Ok (r, _) => r = 0 \/ r = 1
  | Fault f => f = Panic \/ f = OutOfFuel
  end.
Proof.
  pose proof (wpe_proj_main_loop rounds io) as Hp. unfold wpe in Hp.
  by destruct (proj_main_loop rounds (app_zero, io)) as [[r st]|f].
Qed.

(** C7: when allocation succeeds, [xpm_load] and the video mapping keep their laws,
    mode 105h is indexed and at most 32700 pixels each way, and the leaderboard
    file opens and can be shown, start-up answers 1, or panics in the card's
    initialisation, or answers 0 and leaves the program ready: the card set up, the
    main menu showing the logo and the three buttons with their images, boxes
    and callbacks, the leaderboard menu beside it, every element and the cursor
    drawable on the screen, no key held, and the interrupt masks 1, 2 and 4. *)
Theorem proj_init_establishes {W} `{Machine W, XpmLoader W, Files W, Video W}
  `{!MallocOk W, !XpmLaws W, !VideoLaws W, !Surroundings W} (io : iost W) :
  match proj_init (app_zero, io) with
  | Ok (r, (a, _)) => r = 1 \/ (r = 0 /\ started a)
  | Fault f => f = Panic
  end.
Proof.
  pose proof (wpe_proj_init io) as Hp. unfold wpe in Hp.
  by destruct (proj_init (app_zero, io)) as [[r [a io']]|f].
Qed.

(** ** A run from the power-on statics *)

Lemma empty_file_ok : file_ok [].
Proof.
  intros es dt Hl. destruct es as [|e0 [|e1 [|e2 [|]]]]; try discriminate Hl.
  eexists. split; [reflexivity|]. split; [done|].
  split; [apply Nat.le_0_l|constructor].
Qed.

#[export] Instance demo_surroundings {W} : Surroundings (roomy W).
Proof.
  constructor.
  - intros w. exists [], w. split; [done|apply empty_file_ok].
  - intros w r vmi w' [= <- <- <-]. repeat split; cbn; unfold INT_MAX; (done || lia).
Qed.

(** Every subscription, mouse command and kernel call is answered with success;
    after start-up the timer interrupts, ESC is pressed, and the program shuts
    down. *)
Definition demo_power_on : iost (demo (list message)) :=
  demo_io (mkScript (mjoin (replicate 3 [(0, 0); (0, 0); (0, 0xFA)]) ++ replicate 3 (0, 1)
        ++ [(0, 0); (0, 0); (0, 0xFA)])
      (replicate 8 0) [(0, 1); (0, 0); (0, 2); (0, 0); (0, 0); (0, 0)] [] [] (replicate 8 0))
    [mkMessage true HARDWARE 1; mkMessage true HARDWARE 2].

Lemma proj_main_loop_safe_witness :
  match proj_main_loop 5 (app_zero, demo_power_on) with
  | Ok (r, _) => r = 0 \/ r = 1
  | Fault f => f = Panic \/ f = OutOfFuel
  end.
Proof. apply proj_main_loop_safe. Defined.

Lemma proj_init_establishes_witness :
  match proj_init (app_zero, demo_power_on) with
  | Ok (r, (a, _)) => r = 1 \/ (r = 0 /\ @started (demo (list message)) _ a)
  | Fault f => f = Panic
  end.
Proof. apply proj_init_establishes. Defined.
