(* ===== verification/Shell.v ===== *)
(** * The program as a shell of two screens

    What the program is meant to do, without its drivers, its card, its heap
    and its sprites: a [shell] knows the screen shown, the pointer, the mouse
    button, the part of a mouse packet that has arrived and whether ESC is
    held, and [shell_do] is what one event makes of it.  The menus count only
    by the boxes and functions of their elements (a [layout]).  The theorems say
    that every interrupt, every message and the whole program implement the
    shell, the events being the bytes the interrupts read. *)

From S2P Require Import Prelude Machine Kbc Keyboard MouseDrv Timer Leaderboard.
From S2P Require Import Geometry Gpu Heap LinkedList Sprite SpritesUi Xpm UiElement.
From S2P Require Import Menu Gamestate KeyboardManager MouseManager Demo Ipc Proj Startup.

(** ** The specification *)

Definition button : Type := aabb * option FunctionPointer.

Record layout : Type := mkLayout {
  lay_width : Z;
  lay_height : Z;
  lay_main : list button;
  lay_board : list button;
}.

(** What an interrupt handler saw: the valid mouse byte it read ([None] when there
    was none), the scan code it read, or a tick. *)
Inductive event : Type :=
  | Byte (b : option Z)
  | Key (b : Z)
  | Tick.

(** A packet being put together: how many bytes it has, the bytes, and whether
    the last three are a packet. *)
Definition framer : Type := Z * (Z * Z * Z) * bool.

Definition accept (b : Z) (f : framer) : framer :=
  let '(i, (b0, b1, b2), ready) := f in
  if i =? 0 then if Z.testbit b 3 then (1, (b, b1, b2), false) else f
  else if i =? 1 then (2, (b0, b, b2), ready)
  else if i =? 2 then (0, (b0, b1, b), true)
  else f.

Record shell : Type := mkShell {
  sh_screen : GAMESTATE;
  sh_pos : vec2;
  sh_left : bool;
  sh_before : bool;
  sh_framer : framer;
  sh_prefix : bool;
  sh_esc : bool;
  sh_skip : bool;
}.

Definition on_menu (g : GAMESTATE) : bool :=
  bool_decide (g = GS_MAIN) || bool_decide (g = GS_LEADERBOARD).

Definition boxes (L : layout) (g : GAMESTATE) : list button :=
  match g with GS_MAIN => lay_main L | GS_LEADERBOARD => lay_board L | _ => [] end.

(** The function of the first box with one under the pointer. *)
Fixpoint hit (p : vec2) (bs : list button) : option FunctionPointer :=
  match bs with
  | [] => None
  | (b, Some f) :: bs => if decide (in_box b p) then Some f else hit p bs
  | (_, None) :: bs => hit p bs
  end.

Definition goto (f : FunctionPointer) (g : GAMESTATE) : GAMESTATE :=
  match f with
  | spoof_fn => g
  | Gamestate_leaderboard_fn => GS_LEADERBOARD
  | Gamestate_quit_fn => GS_QUIT
  end.

Definition within (v size : Z) : Z := Z.max 0 (Z.min v (size - 1)).

Definition shell_move (L : layout) (p : packet) (s : shell) : shell :=
  mkShell (sh_screen s)
    (VEC2 (within (vx (sh_pos s) + delta_x p) (lay_width L))
          (within (vy (sh_pos s) - delta_y p) (lay_height L)))
    (lb p) (sh_left s) (sh_framer s) (sh_prefix s) (sh_esc s) (sh_skip s).

Definition shell_byte (L : layout) (b : option Z) (s : shell) : shell :=
  let f := match b with Some b => accept b (sh_framer s) | None => sh_framer s end in
  let s := mkShell (sh_screen s) (sh_pos s) (sh_left s) (sh_before s) f
             (sh_prefix s) (sh_esc s) (sh_skip s) in
  if f.2 then shell_move L (decode f.1.2) s else s.

(** The break code of ESC has bit 7 on top of the make code 1. *)
Definition esc_after (prefix : bool) (b : Z) (esc : bool) : bool :=
  if prefix then esc
  else if b =? 1 then true
  else if tst (Z.land b 0x80) && (Z.land b 0x7f =? 1) then false
  else esc.

Definition shell_key (b : Z) (s : shell) : shell :=
  let esc := esc_after (sh_prefix s) b (sh_esc s) in
  mkShell (if on_menu (sh_screen s) && esc then GS_QUIT else sh_screen s)
    (sh_pos s) (sh_left s) (sh_before s) (sh_framer s)
    (negb (sh_prefix s) && (b =? 0xE0)) esc (sh_skip s).

(** A click is acted on in a drawn frame. *)
Definition shell_tick (L : layout) (s : shell) : shell :=
  mkShell
    (if negb (sh_skip s) && (sh_left s && negb (sh_before s)) then
       match hit (sh_pos s) (boxes L (sh_screen s)) with
       | Some f => goto f (sh_screen s)
       | None => sh_screen s
       end
     else sh_screen s)
    (sh_pos s) (sh_left s) (sh_before s) (sh_framer s) (sh_prefix s) (sh_esc s)
    (negb (sh_skip s)).

Definition shell_do (L : layout) (s : shell) (e : event) : shell :=
  match e with
  | Byte b => shell_byte L b s
  | Key b => shell_key b s
  | Tick => shell_tick L s
  end.

Definition shell_run (L : layout) (es : list event) (s : shell) : shell :=
  foldl (shell_do L) s es.

(** What the program is after a successful start-up. *)
Definition shell_start : shell :=
  mkShell GS_MAIN (VEC2 0 0) false false (0, (0, 0, 0), false) false false false.

(** ** The abstraction *)

Definition button_of (t : elt) : button := (bounds (elt_ui t), on_click (elt_ui t)).
Definition button_shown (i : item) : button := (it_box i, it_click i).

Definition layout_of (a : app) (sc : scene) : layout :=
  mkLayout (x_res (app_gpu a)) (y_res (app_gpu a))
    (button_of <$> sc_main sc) (button_of <$> sc_board sc).

Definition framer_of (m : mouse_statics) : framer :=
  (current_byte_index m, bytes m, packet_ready m).

Definition first_of (bs : list bool) : bool := default false (head bs).

Definition shell_of (skip : bool) (a : app) : shell :=
  let m := cu_mouse (ap_cursor a) in
  mkShell (state (app_game a)) (mouse_position m) (first_of (buttons m))
    (first_of (prev_buttons m)) (framer_of (cu_driver (ap_cursor a)))
    (double_width (ap_keys a)) (esc_held (ap_keys a)) skip.

(** The events of one interrupt notification, in the order of the code, with
    what the drivers did on the ports.  The mouse event is the byte that a status
    announced as a valid mouse byte, [None] only if no such byte was read; the
    key event is the byte taken out of the buffer, or, when none was taken, what
    the variable on the stack held. *)
Definition reports (ms : Z * Z * Z) (mask : Z) (evs : list io_event) (es : list event) : Prop :=
  let '(mo, kb, ti) := ms in
  exists evm evk b k, evs = evm ++ evk /\
    es = (if tst (Z.land mask mo) then [Byte b] else []) ++
         (if tst (Z.land mask kb) then [Key k] else []) ++
         (if tst (Z.land mask ti) then [Tick] else []) /\
    (if tst (Z.land mask mo)
     then outs evm = [] /\ detached evm /\ valid_bytes true None evm = option_list b
     else evm = []) /\
    (if tst (Z.land mask kb)
     then exists r junk, scancode_post (u8 junk) r k evk else evk = []).

(** ** The pieces agree *)

Lemma hit_find pos es : hit pos (button_of <$> es) = find_hit pos es.
Proof.
  induction es as [|t es IH]; [done|]. rewrite fmap_cons. unfold button_of at 1.
  cbn [hit find_hit]. destruct (on_click (elt_ui t)); rewrite IH; [|done]. by repeat case_decide.
Qed.

Lemma hit_shown pos g sc : hit pos (match state g with
    | GS_MAIN => button_of <$> sc_main sc
    | GS_LEADERBOARD => button_of <$> sc_board sc
    | _ => [] end) = find_hit pos (shown g sc).
Proof. unfold shown. destruct (state g); try done; apply hit_find. Qed.

Lemma state_run_callback f g : state (run_callback f g) = goto f (state g).
Proof. by destruct f. Qed.

Lemma framer_feed m b : framer_of (feed m b) = accept b (framer_of m).
Proof.
  unfold feed, assemble, framer_of, accept.
  cbn [set_current_byte bytes current_byte current_byte_index packet_ready].
  destruct (bytes m) as [[b0 b1] b2] eqn:Eb.
  rewrite tst_land_bit by lia. generalize (Z.testbit b 3). intros t.
  destruct (Z.eqb_spec (current_byte_index m) 0) as [E0|E0]; cbn [andb].
  { destruct t; cbn; [by rewrite E0|rewrite E0; cbn; by rewrite E0, Eb]. }
  destruct (Z.eqb_spec (current_byte_index m) 1) as [E1|E1]; [by cbn; rewrite E1|].
  destruct (Z.eqb_spec (current_byte_index m) 2) as [E2|E2]; [done|]. by cbn; rewrite ?Eb.
Qed.

Lemma layout_drawn a g sc : layout_of a (drawn_scene g sc) = layout_of a sc.
Proof.
  unfold layout_of, drawn_scene.
  by destruct (state g); cbn [sc_main sc_board]; rewrite <- ?list_fmap_compose.
Qed.

Lemma layout_same a a' sc : same_view a a' -> layout_of a' sc = layout_of a sc.
Proof. intros (_ & _ & _ & Ex & Ey). unfold layout_of. by rewrite Ex, Ey. Qed.

Lemma buttons_shown `{XpmLoader W} es its :
  Forall2 shows es its -> button_of <$> es = button_shown <$> its.
Proof.
  induction 1 as [|t i es its (Hb & Hc & _) _ IH]; cbn; [done|]. rewrite IH.
  unfold button_of, button_shown. by rewrite Hb, Hc.
Qed.

Lemma dispatch_shell b k k' :
  length (keys k) = 20%nat -> dispatch b k = Ok k' ->
  double_width k' = negb (double_width k) && (b =? 0xE0) /\
  esc_held k' = esc_after (double_width k) b (esc_held k).
Proof.
  destruct k as [dw [|q ks]]; [done|]. cbn [keys double_width]. intros Hl E.
  assert (forall dw x ks, esc_held (mkKeys dw (x :: ks)) = x) as Hesc.
  { intros ? x l. unfold esc_held, Keyboard_pressed, key_code. by rewrite (array_get_ok _ _ x). }
  unfold dispatch in E. cbn [double_width keys] in E. rewrite Hesc.
  destruct (Z.eqb_spec b 0xE0) as [->|Hb]; cbn [andb] in E.
  { destruct dw; cbn [negb] in E; injection E as <-; by rewrite Hesc. }
  rewrite andb_false_r. unfold esc_after, Keyboard_translate in *.
  set (c := if negb (tst (Z.land b 0x80)) then b else Z.land b 0x7f) in *.
  destruct dw.
  { assert (forall k, (k = KB_ESC -> False) -> forall k',
      (if decide (k = KB_INVALID) then Ok (mkKeys false (q :: ks))
       else let? l := array_set (q :: ks) (key_code k) (negb (tst (Z.land b 0x80)))
            in Ok (mkKeys false l)) = Ok k' -> double_width k' = false /\ esc_held k' = q) as Hk.
    { intros k Hk k1 E1. destruct (decide (k = KB_INVALID)) as [|Hi].
      { injection E1 as <-. by rewrite Hesc. }
      rewrite array_set_ok in E1 by (destruct k; cbn in *; (congruence || lia)). cbn [rbind] in E1.
      injection E1 as <-. destruct k; try done; by cbn; rewrite Hesc. }
    apply (Hk (if c =? 0x48 then KB_UP else if c =? 0x4B then KB_LEFT else
      if c =? 0x50 then KB_DOWN else if c =? 0x4D then KB_RIGHT else KB_INVALID));
      [by repeat case_match|exact E]. }
  destruct (Z.eqb_spec c 1) as [Ec|Ec].
  - rewrite decide_False in E by done. rewrite array_set_ok in E by (cbn in *; lia).
    cbn in E. injection E as <-. rewrite Hesc. split; [done|].
    unfold c in Ec. destruct (Z.eqb_spec b 1) as [->|Hb1]; [done|].
    destruct (tst (Z.land b 0x80)); cbn in Ec |- *; [|done]. by rewrite Ec.
  - rewrite decide_True in E by done. injection E as <-. rewrite Hesc. split; [done|].
    unfold c in Ec. destruct (Z.eqb_spec b 1) as [->|Hb1]; [done|].
    destruct (tst (Z.land b 0x80)); cbn in Ec |- *; [|done].
    by rewrite (proj2 (Z.eqb_neq _ _) Ec).
Qed.

Lemma left_edge_first m :
  length (buttons m) = 3%nat -> length (prev_buttons m) = 3%nat ->
  left_edge m = first_of (buttons m) && negb (first_of (prev_buttons m)).
Proof. unfold left_edge. by destruct (buttons m), (prev_buttons m). Qed.

(** What every interrupt keeps beside the scene. *)
Definition kept (a a' : app) (sc sc' : scene) : Prop :=
  running a' sc' /\ layout_of a' sc' = layout_of a sc /\ masks a' = masks a.

Section Branches.
Context {W : Type} `{Machine W, !MallocOk W}.
Implicit Types (a : app) (io : iost W).

Lemma wp_byte skip a sc io :
  running a sc ->
  wp (on_cursor Mouse_handle) (fun _ st => kept a st.1 sc sc /\ exists b evs,
    shell_of skip st.1 = shell_byte (layout_of a sc) b (shell_of skip a) /\
    io_trace st.2 = io_trace io ++ evs /\ outs evs = [] /\ detached evs /\
    valid_bytes true None evs = option_list b) (a, io).
Proof.
  intros Hr. pose proof Hr as [(Hg & _ & _ & _ & (Hpos & _) & _) _].
  apply wp_app_cursor. eapply wp_mono; [by apply wp_Mouse_handle|].
  intros [] [c io'] (m & evs & E & Ht & Ho & Hdt & Hm). cbn [fst snd] in *. subst c.
  pose proof Hg as (_ & _ & Hx & Hy & _).
  assert (app_gpu (put_cursor (handled m (ap_cursor a)) a) = app_gpu a /\
    app_game (put_cursor (handled m (ap_cursor a)) a) = app_game a) as [Eg Eg']
    by (unfold handled; by destruct (packet_ready m)).
  split.
  { split; [apply running_put_cursor; [done|]; apply handled_scene_ok, Hr|].
    split; [|done]. unfold layout_of. by rewrite Eg. }
  assert (exists b, valid_bytes true None evs = option_list b /\
    framer_of m = match b with Some b => accept b (framer_of (cu_driver (ap_cursor a)))
                  | None => framer_of (cu_driver (ap_cursor a)) end) as (b & Hb & Ef).
  { destruct Hm as [(b & _ & Hv & ->)|(Hv & b & ->)].
    - exists (Some b). split; [done|apply framer_feed].
    - by exists None. }
  exists b, evs. repeat (split; [|done]). unfold shell_byte, shell_of at 1.
  cbn [shell_of sh_framer]. rewrite <- Ef. unfold framer_of at 2. cbn [snd fst].
  rewrite Eg'. unfold handled. cbn [ap_cursor put_cursor].
  destruct (packet_ready m) eqn:Er; cbn [cu_mouse cu_driver]; [|done].
  unfold shell_move, moved, within.
  cbn [mouse_position buttons prev_buttons set_buttons set_position sh_pos sh_screen sh_left
    sh_before sh_framer sh_prefix sh_esc sh_skip lay_width lay_height layout_of
    shell_of framer_of bytes fst snd].
  rewrite !clamp_to_spec by lia. reflexivity.
Qed.

Lemma wp_key P skip a sc io :
  running a sc -> reads_code P io ->
  wp handle_keyboard (fun _ st => kept a st.1 sc sc /\ exists b,
    shell_of skip st.1 = shell_key b (shell_of skip a) /\ P b st.2) (a, io).
Proof.
  intros Hr HP. eapply wp_mono; [by apply wp_handle_keyboard|].
  intros [] st (b & k & Hd & Hr' & Hp & Ek & Eg & _ & Hv).
  split; [split; [done|]; split; [by apply layout_same|apply Hv]|].
  exists b. split; [|done]. destruct (dispatch_shell b _ k (proj2 Hr) Hd) as [Edw Eesc].
  destruct Hv as (Em & Edr & _). unfold shell_of, shell_key.
  rewrite Em, Edr, Ek, Eg, Edw, Eesc.
  cbn [sh_pos sh_screen sh_left sh_before sh_framer sh_prefix sh_esc sh_skip].
  change (in_menu (app_game a)) with (on_menu (state (app_game a))).
  by destruct (on_menu _ && _).
Qed.

Lemma wp_tick (skip : bool) a sc io :
  running a sc ->
  wp (if skip then mret tt else draw_frame) (fun _ st => exists sc', kept a st.1 sc sc' /\
    shell_of (negb skip) st.1 = shell_tick (layout_of a sc) (shell_of skip a) /\
    io_trace st.2 = io_trace io) (a, io).
Proof.
  intros Hr. destruct skip; [wp_step; by exists sc|].
  pose proof Hr as [(_ & _ & _ & _ & (_ & Hb & Hpb & _ & s & Hs & _) & _) _].
  eapply wp_mono; [by apply (wp_draw_frame a sc s)|].
  intros [] st (Hr' & Eg & Ek & Hv & Ht & _). eexists. split.
  { split; [exact Hr'|]. split; [|apply Hv]. rewrite (layout_same a) by done. apply layout_drawn. }
  split; [|done]. destruct Hv as (Em & Edr & _). unfold shell_of, shell_tick.
  rewrite Em, Edr, Ek, Eg.
  cbn [sh_pos sh_screen sh_left sh_before sh_framer sh_prefix sh_esc sh_skip negb andb].
  rewrite <- left_edge_first by done. unfold game_after, pointed.
  change (cu_game (ap_cursor a)) with (app_game a). rewrite <- hit_shown. unfold boxes.
  cbn [lay_main lay_board layout_of].
  destruct (hit _ _) as [f|]; destruct (left_edge _); try done. by rewrite state_run_callback.
Qed.
End Branches.

(** ** The loop *)

(** The interrupts of a run of the loop: what they did on the ports, and the
    events they were. *)
Inductive session (ms : Z * Z * Z) : list io_event -> list event -> Prop :=
  | session_nil : session ms [] []
  | session_round mask evs es evs' es' :
      reports ms mask evs es -> session ms evs' es' -> session ms (evs ++ evs') (es ++ es').

Lemma shell_run_app L es1 es2 s : shell_run L (es1 ++ es2) s = shell_run L es2 (shell_run L es1 s).
Proof. apply foldl_app. Qed.

Lemma kept_refl a sc : running a sc -> kept a a sc sc.
Proof. done. Qed.

Lemma kept_trans a1 a2 a3 sc1 sc2 sc3 :
  kept a1 a2 sc1 sc2 -> kept a2 a3 sc2 sc3 -> kept a1 a3 sc1 sc3.
Proof. intros (_ & L1 & M1) (R & L2 & M2). split; [done|]. split; congruence. Qed.

(** From [a] to [a'] the code did the events [es] of the shell. *)
Definition implements (skip skip' : bool) (a a' : app) (sc : scene) (es : list event) : Prop :=
  exists sc', kept a a' sc sc' /\
    shell_of skip' a' = shell_run (layout_of a sc) es (shell_of skip a).

Section Refinement.
Context {W : Type} `{Machine W, !MallocOk W}.
Implicit Types (a : app) (io : iost W).

Lemma wp_interrupts_refine mask (skip : bool) a sc io :
  running a sc ->
  wp (handle_interrupts mask skip) (fun skip' st => exists evs es,
    implements skip skip' a st.1 sc es /\ io_trace st.2 = io_trace io ++ evs /\
    reports (masks a) mask evs es) (a, io).
Proof.
  intros Hr. unfold handle_interrupts, statics. wp_step. wp_step. cbn [fst]. wp_step.
  apply wp_mono with (P := fun _ st => kept a st.1 sc sc /\ exists b evm,
    shell_of skip st.1 = shell_run (layout_of a sc)
      (if tst (Z.land mask (mouse_bit_no a)) then [Byte b] else []) (shell_of skip a) /\
    io_trace st.2 = io_trace io ++ evm /\
    if tst (Z.land mask (mouse_bit_no a))
    then outs evm = [] /\ detached evm /\ valid_bytes true None evm = option_list b
    else evm = []).
  { destruct (tst _); [|wp_step; split; [done|]; exists None, []; by rewrite app_nil_r].
    eapply wp_mono; [by apply (wp_byte skip)|]. intros [] st (Hk & b & evs & Hb & Ht & Ho).
    split; [done|]. by exists b, evs. }
  intros [] [a1 io1] (K1 & b & evm & E1 & T1 & M1). cbn [fst snd] in *. wp_step.
  pose proof K1 as (R1 & L1 & _).
  apply wp_mono with (P := fun _ st => kept a1 st.1 sc sc /\ exists k evk,
    shell_of skip st.1 = shell_run (layout_of a sc)
      (if tst (Z.land mask (kbc_bit_no a)) then [Key k] else []) (shell_of skip a1) /\
    io_trace st.2 = io_trace io1 ++ evk /\
    if tst (Z.land mask (kbc_bit_no a))
    then exists r junk, scancode_post (u8 junk) r k evk else evk = []).
  { destruct (tst (Z.land mask (kbc_bit_no a)));
      [|wp_step; split; [done|]; exists 0, []; by rewrite app_nil_r].
    eapply wp_mono; [by eapply (wp_key _ skip), reads_some_code|].
    intros [] st (Hk & k & Hb & evs & Ht & Ho). split; [done|]. by exists k, evs. }
  intros [] [a2 io2] (K2 & k & evk & E2 & T2 & M2). cbn [fst snd] in *.
  pose proof K2 as (R2 & L2 & _). pose proof (kept_trans _ _ _ _ _ _ K1 K2) as K12.
  assert (forall skip' sc' a3 io3 et, kept a2 a3 sc sc' ->
    shell_of skip' a3 = shell_run (layout_of a sc) et (shell_of skip a2) ->
    io_trace io3 = io_trace io2 -> et = (if tst (Z.land mask (timer_bit_no a)) then [Tick] else []) ->
    exists evs es, implements skip skip' a a3 sc es /\ io_trace io3 = io_trace io ++ evs /\
      reports (masks a) mask evs es) as Hend.
  { intros skip' sc' a3 io3 et K3 E3 T3 Et. eexists (evm ++ evk), _. split; [|split].
    - exists sc'. split; [by eapply kept_trans|]. rewrite E3, E2, E1, <- !shell_run_app. done.
    - by rewrite T3, T2, T1, app_assoc.
    - exists evm, evk, b, k. split; [done|]. split; [by rewrite Et|done]. }
  destruct (tst (Z.land mask (timer_bit_no a))) eqn:Eti; 
    [|wp_step; by eapply (Hend skip sc a2 io2 [])].
  wp_step. eapply wp_mono; [by apply (wp_tick skip)|].
  intros [] [a3 io3] (sc' & K3 & E3 & T3). cbn [fst snd] in *. wp_step.
  eapply (Hend (negb skip) sc' a3 io3 [Tick]); [done| |done|done]. rewrite <- L1, <- L2. exact E3.
Qed.

Context `{!Ipc W}.

Lemma wp_round_refines skip a sc io :
  running a sc ->
  wp (loop_body skip) (fun skip' st => exists evs es,
    implements skip skip' a st.1 sc es /\ io_trace st.2 = io_trace io ++ evs /\
    session (masks a) evs es) (a, io).
Proof.
  intros Hr. unfold loop_body, on_io. do 2 wp_step. apply wp_oracle.
  intros [r msg] w _. cbn [fst snd].
  assert (forall w, wp (mret skip) (fun skip' (st : app * iost W) => exists evs es,
    implements skip skip' a st.1 sc es /\ io_trace st.2 = io_trace io ++ evs /\
    session (masks a) evs es) (a, mkIo w (io_trace io))) as Hidle.
  { intros w'. wp_step. exists [], []. split; [by exists sc|]. rewrite app_nil_r.
    split; [done|constructor]. }
  destruct (tst r); [apply Hidle|]. destruct (_ && _); [|apply Hidle].
  eapply wp_mono; [by apply wp_interrupts_refine|]. intros skip' st (evs & es & Hi & Ht & Hp).
  exists evs, es. split; [done|]. split; [done|].
  rewrite <- (app_nil_r evs), <- (app_nil_r es). econstructor; [done|constructor].
Qed.

Lemma session_app ms evs1 es1 evs2 es2 :
  session ms evs1 es1 -> session ms evs2 es2 -> session ms (evs1 ++ evs2) (es1 ++ es2).
Proof.
  induction 1 as [|mask evs es evs' es' Hp _ IH]; intros H2; [done|].
  rewrite <- !app_assoc. econstructor; eauto.
Qed.

Lemma wpe_loop_refines rounds skip a sc io :
  running a sc ->
  wpe (proj_loop rounds skip) (fun f => f = OutOfFuel) (fun _ st => exists skip' evs es,
    implements skip skip' a st.1 sc es /\ io_trace st.2 = io_trace io ++ evs /\
    session (masks a) evs es /\ state (app_game st.1) = GS_QUIT) (a, io).
Proof.
  revert skip a sc io. induction rounds as [|n IH]; intros skip a sc io Hr; cbn [proj_loop].
  { by apply wpe_fail. }
  unfold statics. wp_step. wp_step. cbn [fst]. case_bool_decide as Hq.
  { wp_step. exists skip, [], []. split; [by exists sc|]. rewrite app_nil_r.
    split; [done|]. split; [constructor|exact Hq]. }
  wp_step. apply wpe_wp. eapply wp_mono; [by apply wp_round_refines|].
  intros skip1 [a1 io1] (evs1 & es1 & (sc1 & K1 & E1) & T1 & S1). cbn [fst snd] in *.
  pose proof K1 as (R1 & L1 & M1). eapply wpe_mono; [by apply IH|]. cbn beta.
  intros [] [a2 io2] (skip2 & evs2 & es2 & (sc2 & K2 & E2) & T2 & S2 & Q2). cbn [fst snd] in *.
  exists skip2, (evs1 ++ evs2), (es1 ++ es2). split; [|split; [|split; [|done]]].
  - exists sc2. split; [by eapply kept_trans|]. by rewrite E2, E1, L1, shell_run_app.
  - by rewrite T2, T1, app_assoc.
  - rewrite M1 in S2. by apply session_app.
Qed.
End Refinement.

(** ** How the program ends *)

Definition quit_box : aabb := AABB (VEC2 311 620) (VEC2 402 97).

(** The two ways out: the make code of ESC on either screen, or a drawn frame
    that finds the button just pressed over the quit button of the main menu. *)
Inductive quits (s : shell) : event -> Prop :=
  | quits_key :
      on_menu (sh_screen s) = true -> sh_prefix s = false -> quits s (Key 1)
  | quits_click :
      sh_screen s = GS_MAIN -> in_box quit_box (sh_pos s) ->
      sh_left s = true -> sh_before s = false -> sh_skip s = false -> quits s Tick.

(** The layout of the two menus. *)
Definition intended (L : layout) : Prop :=
  0 < lay_width L <= 32700 /\ 0 < lay_height L <= 32700 /\
  lay_main L = button_shown <$> main_menu_items /\
  exists lb, lay_board L = button_shown <$> leaderboard_items lb.

Definition alive (s : shell) : Prop := on_menu (sh_screen s) = true /\ sh_esc s = false.

Definition leads_to_board (b : button) : Prop :=
  b.2 = None \/ b.2 = Some Gamestate_leaderboard_fn.

Lemma char_items_lead str x0 y0 : Forall leads_to_board (button_shown <$> char_items str x0 y0).
Proof. revert x0. induction str as [|c str IH]; intros x0; constructor; [by left|apply IH]. Qed.

Lemma entry_items_lead es i : Forall leads_to_board (button_shown <$> entry_items es i).
Proof.
  revert i. induction es as [|e es IH]; intros i; cbn [entry_items]; [constructor|].
  rewrite fmap_app. apply Forall_app. split; [|apply IH].
  repeat case_match; try constructor. rewrite fmap_app.
  apply Forall_app. split; apply char_items_lead.
Qed.

Lemma board_leads L : intended L -> Forall leads_to_board (lay_board L).
Proof.
  intros (_ & _ & _ & lb & ->). unfold leaderboard_items.
  constructor; [by left|]. constructor; [by right|apply entry_items_lead].
Qed.

Lemma hit_board p bs :
  Forall leads_to_board bs -> hit p bs = None \/ hit p bs = Some Gamestate_leaderboard_fn.
Proof.
  induction 1 as [|[b o] bs Hb _ IH]; cbn; [by left|].
  destruct o as [f|]; [|done]. destruct Hb as [|[= ->]]; [done|]. case_decide; [by right|done].
Qed.

Lemma hit_main p :
  hit p (button_shown <$> main_menu_items) = Some Gamestate_quit_fn <-> in_box quit_box p.
Proof.
  unfold main_menu_items, button_shown, quit_box.
  cbn [fmap list_fmap it_box it_click hit]. unfold in_box. cbn [position size vx vy].
  repeat case_decide; split; try done; lia.
Qed.

(** One event: it quits, or the program goes on. *)
Lemma shell_do_alive L s e :
  intended L -> alive s ->
  (quits s e <-> sh_screen (shell_do L s e) = GS_QUIT) /\
  (sh_screen (shell_do L s e) <> GS_QUIT -> alive (shell_do L s e)).
Proof.
  intros HL [Hm He]. pose proof HL as (_ & _ & Hmain & _). unfold alive.
  destruct e as [b|b|]; cbn [shell_do].
  - assert (sh_screen (shell_byte L b s) = sh_screen s /\ sh_esc (shell_byte L b s) = sh_esc s)
      as [-> ->] by (unfold shell_byte; by case_match).
    split; [|by split]. split; [by intros Hq; inversion Hq|].
    intros Eq. by rewrite Eq in Hm.
  - unfold shell_key. cbn [sh_screen sh_esc]. rewrite Hm, He. cbn [andb].
    unfold esc_after. destruct (sh_prefix s) eqn:Ep.
    { split; [|by split]. split.
      - intros Hq. inversion Hq. congruence.
      - intros Eq. by rewrite Eq in Hm. }
    destruct (Z.eqb_spec b 1) as [->|Hb].
    { split; [|done]. split; [done|]. by intros _; constructor. }
    destruct (_ && _); (split; [|by split]); (split;
      [intros Hq; by inversion Hq|intros Eq; by rewrite Eq in Hm]).
  - unfold shell_tick. cbn [sh_screen sh_esc].
    destruct (sh_skip s) eqn:Es; cbn [negb andb].
    { split; [|by split]. split;
        [intros Hq; inversion Hq; congruence|intros Eq; by rewrite Eq in Hm]. }
    destruct (sh_left s) eqn:E1, (sh_before s) eqn:E2; cbn [negb andb];
      try (split; [|by split]; split;
        [intros Hq; inversion Hq; congruence|intros Eq; by rewrite Eq in Hm]).
    unfold on_menu in Hm. unfold boxes.
    destruct (sh_screen s) eqn:Esc; try discriminate Hm.
    + rewrite Hmain. pose proof (hit_main (sh_pos s)) as Hq. split.
      * split.
        -- intros H. inversion H; subst. apply Hq in H1. by rewrite H1.
        -- intros H. destruct (hit _ _) as [[]|] eqn:Eh; try discriminate.
           constructor; try done. by apply Hq.
      * by destruct (hit _ _) as [[]|].
    + destruct (hit_board (sh_pos s) _ (board_leads L HL)) as [-> | ->]; cbn [goto];
        (split; [|by split]); (split; [intros H; inversion H; congruence|done]).
Qed.

Lemma shell_quit_cause L es s :
  intended L -> alive s -> sh_screen (shell_run L es s) = GS_QUIT ->
  exists es1 e es2, es = es1 ++ e :: es2 /\ alive (shell_run L es1 s) /\
    quits (shell_run L es1 s) e.
Proof.
  intros HL. revert s. induction es as [|e es IH]; intros s Ha Hq; cbn [shell_run foldl] in Hq.
  { destruct Ha as [Hm _]. cbn in Hq. by rewrite Hq in Hm. }
  destruct (shell_do_alive L s e HL Ha) as (H1 & H2).
  destruct (decide (sh_screen (shell_do L s e) = GS_QUIT)) as [E|E].
  { exists [], e, es. split; [done|]. split; [done|]. by apply H1. }
  destruct (IH _ (H2 E) Hq) as (es1 & e' & es2 & -> & Ha' & Hq').
  by exists (e :: es1), e', es2.
Qed.

(** The main menu is left for good. *)
Definition left_main (s : shell) : Prop :=
  sh_screen s = GS_LEADERBOARD \/ sh_screen s = GS_QUIT.

Lemma shell_do_left_main L s e : intended L -> left_main s -> left_main (shell_do L s e).
Proof.
  intros HL Hs. unfold left_main in *. destruct e as [b|b|]; cbn [shell_do].
  - unfold shell_byte. by case_match.
  - unfold shell_key. cbn [sh_screen]. destruct (_ && _); [by right|done].
  - unfold shell_tick. cbn [sh_screen]. destruct (_ && _); [|done]. unfold boxes.
    destruct Hs as [-> | ->]; [|by right].
    destruct (hit_board (sh_pos s) _ (board_leads L HL)) as [-> | ->]; by left.
Qed.

Lemma shell_run_left_main L es s : intended L -> left_main s -> left_main (shell_run L es s).
Proof.
  intros HL. revert s. induction es as [|e es IH]; intros s Hs; [done|].
  by apply IH, shell_do_left_main.
Qed.

Lemma started_intended `{XpmLoader W} a :
  started a -> exists sc, running a sc /\ intended (layout_of a sc) /\ masks a = (4, 2, 1) /\
    shell_of false a = shell_start.
Proof.
  intros ((sc & lb & Hr & Hm & Hb) & Hs & Hk & (B1 & B2 & B3) & Hp & Hbu & Hpb & h & Hd).
  exists sc. split; [done|]. pose proof Hr as [(Hg & Hx & Hy & _) _].
  pose proof Hg as (_ & _ & [Hx0 _] & [Hy0 _] & _). split; [|split].
  - split; [by split|]. split; [by split|]. split; [by apply buttons_shown|].
    exists lb. by apply buttons_shown.
  - unfold masks. by rewrite B1, B2, B3.
  - unfold shell_of. by rewrite Hs, Hk, Hp, Hbu, Hpb, Hd.
Qed.

(** C5: one interrupt notification, whatever is set in its mask, does to a
    running program, where allocation succeeds, exactly what the shell does on
    its events: the mouse byte, the scan code and the tick, in this order, each
    only if its bit is set.  The mouse byte is the one that was read under a
    status announcing a valid mouse byte, and there is none only if no such byte
    was read; the scan code is the byte read, or, if none was, what the code's
    uninitialised variable held.  The menus' boxes and functions, the screen
    size and the masks stay, and the program is running after it. *)
Theorem handle_interrupts_refines {W} `{Machine W, !MallocOk W} mask skip a sc (io : iost W) :
  running a sc ->
  exists skip' a' io' sc' evs es,
    handle_interrupts mask skip (a, io) = Ok (skip', (a', io')) /\
    running a' sc' /\ layout_of a' sc' = layout_of a sc /\ masks a' = masks a /\
    io_trace io' = io_trace io ++ evs /\ reports (masks a) mask evs es /\
    shell_of skip' a' = shell_run (layout_of a sc) es (shell_of skip a).
Proof.
  intros Hr. destruct (wp_run _ _ _ (wp_interrupts_refine mask skip a sc io Hr))
    as (skip' & [a' io'] & E & evs & es & (sc' & (Hr' & Hl & Hm) & Hs) & Ht & Hp).
  exists skip', a', io', sc', evs, es. done.
Qed.

(** C2: the whole program implements the shell, when allocation succeeds,
    [xpm_load] and the mapping of video memory keep their laws, mode 105h is
    indexed and at most 32700 pixels each way, and the leaderboard file opens
    and can be shown.  A run that answers 0 is a
    successful start-up, the loop, and a successful shut-down; between them the
    program is the shell started on the main menu with the pointer in the
    corner, run on the events of the interrupts, and it ends because of one of
    them: the make code of ESC, or a click on the quit button of the main menu.
    Once the leaderboard is shown, the main menu is shown after no later event.
    Otherwise the program answers 1, runs out of rounds or panics. *)
Theorem proj_main_loop_refines {W} `{Machine W, XpmLoader W, Files W, Video W, Ipc W}
  `{!MallocOk W, !XpmLaws W, !VideoLaws W, !Surroundings W} rounds (io : iost W) :
  match proj_main_loop rounds (app_zero, io) with
  | Ok (r, (a', io')) => r = 1 \/ (r = 0 /\ exists a1 io1 a2 io2 L skip evs es,
      proj_init (app_zero, io) = Ok (0, (a1, io1)) /\
      proj_loop rounds false (a1, io1) = Ok (tt, (a2, io2)) /\
      proj_shutdown (a2, io2) = Ok (0, (a', io')) /\
      intended L /\ io_trace io2 = io_trace io1 ++ evs /\ session (4, 2, 1) evs es /\
      shell_of skip a2 = shell_run L es shell_start /\
      (exists es1 e es2, es = es1 ++ e :: es2 /\ quits (shell_run L es1 shell_start) e) /\
      (forall es1 es2 es3, es = es1 ++ es2 ++ es3 ->
         sh_screen (shell_run L es1 shell_start) = GS_LEADERBOARD ->
         sh_screen (shell_run L (es1 ++ es2) shell_start) <> GS_MAIN))
  | Fault f => f = Panic \/ f = OutOfFuel
  end.
Proof.
  pose proof (wpe_proj_main_loop rounds io) as Hp. unfold wpe in Hp.
  unfold proj_main_loop, mbind, M_bind in Hp |- *.
  pose proof (wpe_proj_init io) as Hi. unfold wpe in Hi.
  destruct (proj_init (app_zero, io)) as [[r [a1 io1]]|f] eqn:Ei; [|exact Hp].
  destruct Hi as [-> | [-> Hst]]; [by left|].
  change (tst 0) with false in Hp |- *. cbn iota in Hp |- *.
  destruct (started_intended a1 Hst) as (sc & Hr & HL & Hms & Hs0).
  pose proof (wpe_loop_refines rounds false a1 sc io1 Hr) as Hl. unfold wpe in Hl.
  destruct (proj_loop rounds false (a1, io1)) as [[[] [a2 io2]]|f] eqn:El; [clear Hp|by right].
  destruct Hl as (skip & evs & es & (sc' & (_ & _ & _) & Hrun) & Ht & Hse & Hq).
  cbn [fst snd] in *. rewrite Hms in Hse. rewrite Hs0 in Hrun.
  destruct (wp_run _ _ _ (wp_proj_shutdown a2 io2)) as (r & [a3 io3] & Es & Hr01 & _).
  rewrite Es. destruct Hr01 as [-> | ->]; [right|by left]. split; [done|].
  exists a1, io1, a2, io2, (layout_of a1 sc), skip, evs, es.
  do 7 (split; [done|]). split.
  - destruct (shell_quit_cause (layout_of a1 sc) es shell_start HL) as (es1 & e & es2 & ? & _ & ?);
      [by split| |by exists es1, e, es2].
    by rewrite <- Hrun.
  - intros es1 es2 es3 -> Hb. rewrite shell_run_app. intros Hm.
    destruct (shell_run_left_main (layout_of a1 sc) es2 _ HL (or_introl Hb)); congruence.
Qed.

(** ** Concrete runs *)

(** A frame of the small scene finds the button just pressed over the button
    that quits. *)
Lemma handle_interrupts_refines_witness :
  exists skip' a' io', handle_interrupts 1 false (tiny_app, tiny_demo [] [])
      = Ok (skip', (a', io')) /\ state (app_game a') = GS_QUIT.
Proof.
  destruct (handle_interrupts_refines 1 false tiny_app tiny_scene (tiny_demo [] []))
    as (skip' & a' & io' & sc' & evs & es & E & _ & _ & _ & _ & Hp & Hs).
  - apply tiny_running.
  - exists skip', a', io'. split; [exact E|].
    destruct Hp as (evm & evk & b & k & _ & Ees & _). cbn in Ees. subst es.
    by apply (f_equal sh_screen) in Hs.
Defined.

Lemma proj_main_loop_refines_witness :
  match proj_main_loop 5 (app_zero, demo_power_on) with
  | Ok (r, (a', io')) => r = 1 \/ (r = 0 /\ exists a1 io1 a2 io2 L skip evs es,
      proj_init (app_zero, demo_power_on) = Ok (0, (a1, io1)) /\
      proj_loop 5 false (a1, io1) = Ok (tt, (a2, io2)) /\
      proj_shutdown (a2, io2) = Ok (0, (a', io')) /\
      intended L /\ io_trace io2 = io_trace io1 ++ evs /\ session (4, 2, 1) evs es /\
      shell_of skip a2 = shell_run L es shell_start /\
      (exists es1 e es2, es = es1 ++ e :: es2 /\ quits (shell_run L es1 shell_start) e) /\
      (forall es1 es2 es3, es = es1 ++ es2 ++ es3 ->
         sh_screen (shell_run L es1 shell_start) = GS_LEADERBOARD ->
         sh_screen (shell_run L (es1 ++ es2) shell_start) <> GS_MAIN))
  | Fault f => f = Panic \/ f = OutOfFuel
  end.
Proof. apply proj_main_loop_refines. Defined.
