(* ===== verification/Reach.v ===== *)
(** * Reach: the program as a state machine

    A state is the statics between two rounds of the main loop, with the flag
    that halves the frames; a step is a round in which [loop_body] returns, on
    any machine state: between two rounds the rest of the world may do anything.
    What holds in every reachable state is shown by rule induction, and that
    every reachable state has a step or has quit. *)

From S2P Require Import Prelude Machine Kbc Keyboard MouseDrv Timer Leaderboard.
From S2P Require Import Geometry Gpu Heap LinkedList Sprite SpritesUi Xpm UiElement.
From S2P Require Import Menu Gamestate KeyboardManager MouseManager Demo Ipc Proj Startup Shell.

Abbreviation screen_of a := (state (app_game a)).

(** ** The machine *)

Section States.
Context {W : Type} `{Machine W, XpmLoader W, Files W, Video W, Ipc W}.

Inductive step : app * bool -> app * bool -> Prop :=
  | step_round a skip a' skip' (io io' : iost W) :
      screen_of a <> GS_QUIT ->
      loop_body skip (a, io) = Ok (skip', (a', io')) ->
      step (a, skip) (a', skip').

Inductive reachable : app * bool -> Prop :=
  | reach_start a (io io' : iost W) :
      proj_init (app_zero, io) = Ok (0, (a, io')) -> reachable (a, false)
  | reach_step s s' : reachable s -> step s s' -> reachable s'.
End States.

(** The screens: the leaderboard opens from the main menu, both quit, and that
    is all. *)
Inductive screen_step : GAMESTATE -> GAMESTATE -> Prop :=
  | open_leaderboard : screen_step GS_MAIN GS_LEADERBOARD
  | quit_main : screen_step GS_MAIN GS_QUIT
  | quit_leaderboard : screen_step GS_LEADERBOARD GS_QUIT.

(** ** The shell as a state machine *)

(** The shell has quit or goes on with ESC up. *)
Definition shell_ok (s : shell) : Prop := sh_screen s = GS_QUIT \/ alive s.

Lemma alive_on_screen s : alive s -> sh_screen s = GS_MAIN \/ sh_screen s = GS_LEADERBOARD.
Proof. intros [Hm _]. unfold on_menu in Hm. destruct (sh_screen s); auto; discriminate Hm. Qed.

Lemma shell_do_quit L s e :
  intended L -> sh_screen s = GS_QUIT -> sh_screen (shell_do L s e) = GS_QUIT.
Proof.
  intros HL Hs. destruct e as [b|b|]; cbn [shell_do].
  - unfold shell_byte. by case_match.
  - unfold shell_key. cbn [sh_screen]. by rewrite Hs.
  - unfold shell_tick. cbn [sh_screen]. rewrite Hs. by destruct (_ && _).
Qed.

Lemma shell_do_ok L s e : intended L -> shell_ok s -> shell_ok (shell_do L s e).
Proof.
  intros HL [Hq|Ha]; [left; by apply shell_do_quit|].
  destruct (decide (sh_screen (shell_do L s e) = GS_QUIT)); [by left|right].
  by apply (shell_do_alive L s e HL Ha).
Qed.

Lemma shell_do_screen L s e :
  intended L -> shell_ok s -> rtc screen_step (sh_screen s) (sh_screen (shell_do L s e)).
Proof.
  intros HL [Hq|Ha]; [rewrite shell_do_quit, Hq by done; done|].
  pose proof (alive_on_screen s Ha) as Hs.
  destruct (decide (sh_screen (shell_do L s e) = GS_QUIT)) as [->|Hn].
  { destruct Hs as [-> | ->]; apply rtc_once; constructor. }
  pose proof (proj2 (shell_do_alive L s e HL Ha) Hn) as Ha'.
  destruct (alive_on_screen _ Ha') as [E'|E']; rewrite E'.
  - destruct Hs as [-> | E]; [done|]. exfalso.
    destruct (shell_do_left_main L s e HL (or_introl E)); congruence.
  - destruct Hs as [-> | ->]; [apply rtc_once; constructor|done].
Qed.

Lemma shell_run_ok L es s :
  intended L -> shell_ok s ->
  shell_ok (shell_run L es s) /\ rtc screen_step (sh_screen s) (sh_screen (shell_run L es s)).
Proof.
  intros HL. revert s. induction es as [|e es IH]; intros s Hs; [done|].
  destruct (IH _ (shell_do_ok L s e HL Hs)) as [H1 H2]. split; [exact H1|].
  etrans; [by apply shell_do_screen|exact H2].
Qed.

Lemma shell_start_ok : shell_ok shell_start.
Proof. by right. Qed.

(** ** The invariant *)

(** What every reachable state is: running, on the intended menus, the shell
    on some events. *)
Definition sound (s : app * bool) : Prop :=
  exists sc es, running s.1 sc /\ intended (layout_of s.1 sc) /\ masks s.1 = (4, 2, 1) /\
    shell_of s.2 s.1 = shell_run (layout_of s.1 sc) es shell_start.

Lemma sound_screens s :
  sound s ->
  screen_of s.1 = GS_QUIT \/
  (screen_of s.1 = GS_MAIN \/ screen_of s.1 = GS_LEADERBOARD) /\ esc_held (ap_keys s.1) = false.
Proof.
  intros (sc & es & _ & HL & _ & Hs).
  destruct (proj1 (shell_run_ok _ es shell_start HL shell_start_ok)) as [Hq|Ha];
    rewrite <- Hs in *; [by left|right].
  split; [by apply (alive_on_screen _ Ha)|apply Ha].
Qed.

Section Sound.
Context {W : Type} `{Machine W, XpmLoader W, Files W, Video W, Ipc W}.
Context `{!MallocOk W, !XpmLaws W, !VideoLaws W, !Surroundings W}.
Implicit Types (io : iost W) (a : app).

Lemma sound_start a io io' : proj_init (app_zero, io) = Ok (0, (a, io')) -> sound (a, false).
Proof.
  intros E. pose proof (wpe_proj_init io) as Hi. unfold wpe in Hi. rewrite E in Hi.
  destruct Hi as [|[_ Hst]]; [done|]. destruct (started_intended a Hst) as (sc & Hr & HL & Hm & Hs).
  by exists sc, [].
Qed.

Lemma sound_round a skip io :
  sound (a, skip) ->
  wp (loop_body skip) (fun skip' st => sound (st.1, skip') /\
    rtc screen_step (screen_of a) (screen_of st.1)) (a, io).
Proof.
  intros (sc & es & Hr & HL & Hm & Hs). cbn [fst snd] in *.
  eapply wp_mono; [by apply wp_round_refines|].
  intros skip' [a' io'] (evs & es' & (sc' & (Hr' & El & Em) & Hs') & _ & _). cbn [fst snd] in *.
  destruct (shell_run_ok (layout_of a sc) es shell_start HL shell_start_ok) as [Hok _].
  rewrite <- Hs in Hok. split.
  - exists sc', (es ++ es'). cbn [fst snd]. rewrite El, Em, shell_run_app, <- Hs.
    split; [exact Hr'|]. split; [exact HL|]. by split.
  - change (screen_of a) with (sh_screen (shell_of skip a)).
    change (screen_of a') with (sh_screen (shell_of skip' a')). rewrite Hs'.
    by apply shell_run_ok.
Qed.

Lemma step_sound s s' :
  sound s -> step (W := W) s s' -> sound s' /\ rtc screen_step (screen_of s.1) (screen_of s'.1).
Proof.
  intros Hs Hst. destruct Hst as [a skip a' skip' io io' Hq E].
  pose proof (sound_round a skip io Hs) as Hw. unfold wp in Hw. by rewrite E in Hw.
Qed.

Lemma reachable_sound s : reachable (W := W) s -> sound s.
Proof.
  induction 1 as [a io io' E|s s' _ IH Hst]; [by eapply sound_start|].
  by apply (step_sound s s').
Qed.

(** The loop walks along the steps. *)
Lemma proj_loop_steps rounds skip a io a' io' :
  proj_loop rounds skip (a, io) = Ok (tt, (a', io')) ->
  exists skip', rtc (step (W := W)) (a, skip) (a', skip') /\ screen_of a' = GS_QUIT.
Proof.
  revert skip a io. induction rounds as [|n IH]; intros skip a io E; [done|].
  cbn [proj_loop] in E. unfold statics, gets, mbind, M_bind in E. cbn [fst] in E.
  case_bool_decide as Hq.
  { injection E as <- <-. by exists skip. }
  destruct (loop_body skip (a, io)) as [[skip1 [a1 io1]]|] eqn:Eb; [|done].
  destruct (IH _ _ _ E) as (skip' & Hs & Hq'). exists skip'. split; [|done].
  eapply rtc_l; [|exact Hs]. by econstructor.
Qed.

Lemma reachable_rtc s s' : reachable (W := W) s -> rtc (step (W := W)) s s' -> reachable (W := W) s'.
Proof. intros Hr. induction 1 as [|s s1 s2 Hst _ IH]; [done|]. apply IH. by eapply reach_step. Qed.
End Sound.

(** ** The properties *)

Section Progress.
Context {W : Type} `{Machine W, XpmLoader W, Files W, Video W, Ipc W}.
Context `{!MallocOk W, !XpmLaws W, !VideoLaws W, !Surroundings W}.
Implicit Types (io : iost W) (a : app).

Lemma sound_shuts_down a io :
  exists r st, proj_shutdown (a, io) = Ok (r, st) /\ (r = 0 \/ r = 1).
Proof.
  destruct (wp_run _ _ _ (wp_proj_shutdown a io)) as (r & st & E & Hr & _). by exists r, st.
Qed.

Lemma steps_walk s s' :
  sound s -> rtc (step (W := W)) s s' ->
  sound s' /\ rtc screen_step (screen_of s.1) (screen_of s'.1).
Proof.
  intros Hs Hr. revert Hs. induction Hr as [s|s s1 s2 Hst _ IH]; intros Hs; [done|].
  destruct (step_sound s s1 Hs Hst) as [Hs1 Hw]. destruct (IH Hs1) as [Hs2 Hw'].
  split; [exact Hs2|]. by etrans.
Qed.

End Progress.

(** The screens on the way: the leaderboard and the main menu are never behind
    a program that has quit, nor the main menu behind the leaderboard. *)
Lemma screen_steps g g' :
  rtc screen_step g g' ->
  match g with
  | GS_MAIN => g' = GS_MAIN \/ g' = GS_LEADERBOARD \/ g' = GS_QUIT
  | GS_LEADERBOARD => g' = GS_LEADERBOARD \/ g' = GS_QUIT
  | _ => g' = g
  end.
Proof.
  induction 1 as [g|g g1 g' Hs _ IH]; [destruct g; auto|].
  destruct Hs; intuition congruence.
Qed.

(** C3: in every state the main loop can be in between two rounds, whatever the
    devices and the kernel did before, the two menus still have their boxes and
    functions, the interrupt masks are 4, 2 and 1, every element and the cursor
    can be drawn, the pointer is on the screen, the screen is one of the two
    menus with ESC up unless the program has quit, and the state is the one the
    shell has after some events.  The loop is never stuck: from a state that has
    not quit every round returns, and a state that has quit shuts down. *)
Theorem reachable_invariant {W} `{Machine W, XpmLoader W, Files W, Video W, Ipc W}
  `{!MallocOk W, !XpmLaws W, !VideoLaws W, !Surroundings W} a skip :
  reachable (W := W) (a, skip) ->
  (exists sc es, running a sc /\ intended (layout_of a sc) /\ masks a = (4, 2, 1) /\
     shell_of skip a = shell_run (layout_of a sc) es shell_start) /\
  0 <= vx (mouse_position (cu_mouse (ap_cursor a))) < x_res (app_gpu a) /\
  0 <= vy (mouse_position (cu_mouse (ap_cursor a))) < y_res (app_gpu a) /\
  (screen_of a = GS_QUIT \/
   (screen_of a = GS_MAIN \/ screen_of a = GS_LEADERBOARD) /\ esc_held (ap_keys a) = false) /\
  (forall io : iost W,
     (screen_of a = GS_QUIT ->
        exists r st, proj_shutdown (a, io) = Ok (r, st) /\ (r = 0 \/ r = 1)) /\
     (screen_of a <> GS_QUIT ->
        exists skip' a' io', loop_body skip (a, io) = Ok (skip', (a', io')) /\
          reachable (W := W) (a', skip'))).
Proof.
  intros Hreach. pose proof (reachable_sound _ Hreach) as Hs.
  pose proof Hs as (sc & es & Hr & HL & Hm & Hsh). cbn [fst snd] in *.
  split; [by exists sc, es|].
  pose proof Hr as [(_ & _ & _ & _ & ((? & ?) & _) & _) _].
  do 2 (split; [done|]). split; [exact (sound_screens _ Hs)|].
  intros io. split; intros Hq; [by apply sound_shuts_down|].
  destruct (wp_run _ _ _ (sound_round a skip io Hs)) as (skip' & [a' io'] & E & _).
  exists skip', a', io'. split; [done|]. eapply reach_step; [exact Hreach|]. by econstructor.
Qed.

(** C11: from a state the program can be in, the loop only passes through states
    the program can be in and ends in one that has quit; on the way the screen
    goes from the main menu to the leaderboard or to the end, and from the
    leaderboard only to the end, and the level screen is never shown.  The
    loop never faults: it ends or has not ended yet. *)
Theorem proj_loop_walks {W} `{Machine W, XpmLoader W, Files W, Video W, Ipc W}
  `{!MallocOk W, !XpmLaws W, !VideoLaws W, !Surroundings W} rounds skip a (io : iost W) :
  reachable (W := W) (a, skip) ->
  match proj_loop rounds skip (a, io) with
  | Ok (_, (a', _)) =>
      (exists skip', rtc (step (W := W)) (a, skip) (a', skip')) /\ screen_of a' = GS_QUIT
  | Fault f => f = OutOfFuel
  end /\
  forall a1 skip1, rtc (step (W := W)) (a, skip) (a1, skip1) ->
    reachable (W := W) (a1, skip1) /\ rtc screen_step (screen_of a) (screen_of a1) /\
    screen_of a1 <> GS_LEVEL /\
    (screen_of a = GS_LEADERBOARD -> screen_of a1 <> GS_MAIN) /\
    (screen_of a = GS_QUIT -> screen_of a1 = GS_QUIT).
Proof.
  intros Hreach. pose proof (reachable_sound _ Hreach) as Hs. split.
  - destruct Hs as (sc & es & Hr & _). cbn [fst] in Hr.
    pose proof (wpe_proj_loop rounds skip a sc io Hr) as Hl. unfold wpe in Hl.
    destruct (proj_loop rounds skip (a, io)) as [[[] [a' io']]|f] eqn:El; [|done].
    destruct (proj_loop_steps rounds skip a io a' io' El) as (skip' & Hst & Hq).
    split; [by exists skip'|done].
  - intros a1 skip1 Hst. destruct (steps_walk _ _ Hs Hst) as [Hs1 Hw]. cbn [fst] in Hw.
    split; [by eapply reachable_rtc|]. split; [done|].
    destruct (sound_screens _ Hs1) as [Hq|[Hm _]]; cbn [fst] in *;
      (split; [by intuition congruence|]); apply screen_steps in Hw;
      (split; intros E; rewrite E in Hw; intuition congruence).
Qed.

(** ** A concrete start *)

Definition answers_0 {S} (x : res (Z * S)) : bool :=
  match x with Ok (r, _) => r =? 0 | Fault _ => false end.

Lemma answers_0_ok {S} (x : res (Z * S)) : answers_0 x = true -> exists s, x = Ok (0, s).
Proof. destruct x as [[r s]|]; [|done]. cbn. intros ->%Z.eqb_eq. by exists s. Qed.

Lemma demo_starts :
  exists a io', proj_init (app_zero, demo_power_on) = Ok (0, (a, io')).
Proof.
  destruct (answers_0_ok (proj_init (app_zero, demo_power_on))) as [[a io'] E].
  - vm_compute. reflexivity.
  - by exists a, io'.
Qed.

Lemma reachable_invariant_witness :
  exists a, reachable (W := demo (list message)) (a, false) /\
    0 <= vx (mouse_position (cu_mouse (ap_cursor a))) < x_res (app_gpu a) /\
    (screen_of a = GS_QUIT \/
     (screen_of a = GS_MAIN \/ screen_of a = GS_LEADERBOARD) /\ esc_held (ap_keys a) = false).
Proof.
  destruct demo_starts as (a & io' & E). exists a.
  pose proof (reach_start a demo_power_on io' E) as Hr. split; [exact Hr|].
  pose proof (reachable_invariant (W := demo (list message)) a false Hr) as (_ & Hx & _ & Hs & _).
  split; [exact Hx|exact Hs].
Defined.

Lemma proj_loop_walks_witness :
  exists a, reachable (W := demo (list message)) (a, false) /\
    match proj_loop 5 false (a, demo_power_on) with
    | Ok (_, (a', _)) => (exists skip',
        rtc (step (W := demo (list message))) (a, false) (a', skip')) /\ screen_of a' = GS_QUIT
    | Fault f => f = OutOfFuel
    end.
Proof.
  destruct demo_starts as (a & io' & E). exists a.
  pose proof (reach_start a demo_power_on io' E) as Hr. split; [exact Hr|].
  exact (proj1 (proj_loop_walks (W := demo (list message)) 5 false a demo_power_on Hr)).
Defined.
