(* ===== verification/Clicks.v ===== *)
(** * Clicks: what becomes of a press between two frames

    The button is looked at when a frame is drawn, and compared with what it was
    one packet before.  A press is acted on when a frame comes before the next
    packet, and lost when it does not. *)

From S2P Require Import Prelude Machine Kbc Keyboard MouseDrv Timer Leaderboard.
From S2P Require Import Geometry Gpu Heap LinkedList Sprite SpritesUi Xpm UiElement.
From S2P Require Import Menu Gamestate KeyboardManager MouseManager Demo Ipc Proj Startup Shell.

(** ** Notifications one after another *)

Section Notified.
Context {W : Type} `{Machine W}.

(** The rounds of the loop that serve the interrupts of [masks]. *)
Fixpoint notified (masks : list Z) (skip_frame : bool) : drv W app bool :=
  match masks with
  | [] => mret skip_frame
  | mask :: masks =>
      skip_frame ← handle_interrupts mask skip_frame;
      notified masks skip_frame
  end.
End Notified.

(** What the notifications were, as events, and did on the ports. *)
Inductive told (ms : Z * Z * Z) : list Z -> list io_event -> list event -> Prop :=
  | told_nil : told ms [] [] []
  | told_cons mask masks evs es evs' es' :
      reports ms mask evs es -> told ms masks evs' es' ->
      told ms (mask :: masks) (evs ++ evs') (es ++ es').

Lemma wp_notified {W} `{Machine W, !MallocOk W} masks skip a sc (io : iost W) :
  running a sc ->
  wp (notified masks skip) (fun skip' st => exists evs es,
    implements skip skip' a st.1 sc es /\ io_trace st.2 = io_trace io ++ evs /\
    told (Proj.masks a) masks evs es) (a, io).
Proof.
  revert skip a sc io. induction masks as [|mask masks IH]; intros skip a sc io Hr; cbn [notified].
  { wp_step. exists [], []. split; [by exists sc|]. rewrite app_nil_r. split; [done|constructor]. }
  wp_step. eapply wp_mono; [by apply wp_interrupts_refine|].
  intros skip1 [a1 io1] (evs & es & (sc1 & K1 & E1) & T1 & Hrep). cbn [fst snd] in *.
  pose proof K1 as (R1 & L1 & M1). eapply wp_mono; [by apply IH|].
  intros skip2 [a2 io2] (evs' & es' & (sc2 & K2 & E2) & T2 & Ht). cbn [fst snd] in *.
  exists (evs ++ evs'), (es ++ es'). split; [|split].
  - exists sc2. split; [by eapply kept_trans|]. by rewrite E2, E1, L1, shell_run_app.
  - by rewrite T2, T1, app_assoc.
  - rewrite M1 in Ht. by constructor.
Qed.

(** A timer interrupt alone is a tick; a mouse interrupt alone is a byte, the one
    that was read if the read succeeded. *)
Lemma reports_tick evs es : reports (4, 2, 1) 1 evs es -> evs = [] /\ es = [Tick].
Proof.
  intros (evm & evk & b & k & -> & -> & Hm & Hk). change (tst (Z.land 1 4)) with false in *.
  change (tst (Z.land 1 2)) with false in *. cbn iota in *. by subst.
Qed.

Lemma reports_byte evs es :
  reports (4, 2, 1) 4 evs es ->
  exists b, es = [Byte b] /\ detached evs /\ valid_bytes true None evs = option_list b.
Proof.
  intros (evm & evk & b & k & -> & -> & Hm & Hk). change (tst (Z.land 4 4)) with true in *.
  change (tst (Z.land 4 2)) with false in *. cbn iota in *. subst evk. exists b.
  change (tst (Z.land 4 1)) with false. rewrite (app_nil_r evm). split; [done|]. apply Hm.
Qed.

Lemma told_ticks k evs es : told (4, 2, 1) (replicate k 1) evs es -> evs = [] /\ es = replicate k Tick.
Proof.
  revert evs es. induction k as [|k IH]; intros evs es Ht; cbn in Ht;
    inversion Ht as [|mask masks evs1 es1 evs2 es2 Hr Ht']; subst; [done|].
  destruct (reports_tick _ _ Hr) as [-> ->]. by destruct (IH _ _ Ht') as [-> ->].
Qed.

(** The bytes heard, where some notifications may have brought none. *)
Definition heard_of (bs : list (option Z)) : list Z := bs ≫= option_list.

Lemma told_bytes n masks evs es :
  told (4, 2, 1) (replicate n 4 ++ masks) evs es ->
  exists bs evs1 evs2 es2, length bs = n /\ evs = evs1 ++ evs2 /\ es = (Byte <$> bs) ++ es2 /\
    detached evs1 /\ valid_bytes true None evs1 = heard_of bs /\ told (4, 2, 1) masks evs2 es2.
Proof.
  revert evs es. induction n as [|n IH]; intros evs es Ht; cbn in Ht.
  { by exists [], [], evs, es. }
  inversion Ht as [|mask ms evs1 es1 evs2 es2 Hr Ht']; subst.
  destruct (reports_byte _ _ Hr) as (b & -> & Hd & Hv).
  destruct (IH _ _ Ht') as (bs & evs3 & evs4 & es4 & Hl & -> & -> & Hd3 & Hb & Ht2).
  exists (b :: bs), (evs1 ++ evs3), evs4, es4. split; [cbn; by rewrite Hl|].
  split; [by rewrite app_assoc|]. split; [done|]. split; [by apply detached_app|].
  split; [|done]. by rewrite valid_bytes_app, Hv, Hb.
Qed.

Lemma heard_cons b bs : heard_of (b :: bs) = option_list b ++ heard_of bs.
Proof. done. Qed.

Lemma heard_length bs : (length (heard_of bs) <= length bs)%nat.
Proof.
  induction bs as [|b bs IH]; [done|]. rewrite heard_cons, length_app. destruct b; cbn; lia.
Qed.

(** As many bytes as notifications: every one brought its byte. *)
Lemma heard_all bs xs : heard_of bs = xs -> length xs = length bs -> bs = Some <$> xs.
Proof.
  intros <-. induction bs as [|b bs IH]; intros Hl; [done|]. pose proof (heard_length bs) as Hb.
  rewrite heard_cons, length_app in *. destruct b as [b|]; cbn [option_list option_rect length] in Hl; [|lia].
  cbn. f_equal. apply IH. lia.
Qed.

(** ** Packets and frames of the shell *)

(** A shell that waits for the first byte of a packet. *)
Definition idle (s : shell) : Prop := (sh_framer s).1.1 = 0.

(** Three bytes that make a packet move the pointer and shift the buttons. *)
Lemma shell_packet L s b0 b1 b2 :
  idle s -> Z.testbit b0 3 = true ->
  let s' := shell_run L [Byte (Some b0); Byte (Some b1); Byte (Some b2)] s in
  let p := decode (b0, b1, b2) in
  idle s' /\ sh_screen s' = sh_screen s /\ sh_left s' = lb p /\ sh_before s' = sh_left s /\
  sh_skip s' = sh_skip s /\
  sh_pos s' = VEC2 (within (vx (sh_pos s) + delta_x p) (lay_width L))
                   (within (vy (sh_pos s) - delta_y p) (lay_height L)).
Proof.
  destruct s as [sc pos l bf [[i [[c0 c1] c2]] rd] px ec sk]. unfold idle. cbn [sh_framer fst].
  intros -> Hb. unfold shell_run. cbn [foldl shell_do].
  replace (shell_byte L (Some b0) _)
    with (mkShell sc pos l bf (1, (b0, c1, c2), false) px ec sk); [done|].
  unfold shell_byte. cbn [sh_framer accept Z.eqb]. by rewrite Hb.
Qed.

(** Without a fresh press frames leave the screen. *)
Lemma shell_ticks L k s :
  sh_left s && negb (sh_before s) = false ->
  sh_screen (shell_run L (replicate k Tick) s) = sh_screen s.
Proof.
  revert s. induction k as [|k IH]; intros s Hs; [done|].
  change (shell_run L (replicate (S k) Tick) s) with (shell_run L (replicate k Tick) (shell_tick L s)).
  rewrite IH; cbn; by rewrite Hs, ?andb_false_r.
Qed.

(** The ticks up to the next drawn frame. *)
Definition until_frame (skip : bool) : nat := if skip then 2%nat else 1%nat.

(** With one, the first drawn frame acts on it. *)
Lemma shell_frame L s :
  sh_left s = true -> sh_before s = false ->
  sh_screen (shell_run L (replicate (until_frame (sh_skip s)) Tick) s)
  = match hit (sh_pos s) (boxes L (sh_screen s)) with
    | Some f => goto f (sh_screen s) | None => sh_screen s end.
Proof. destruct s as [sc pos l bf fr px ec sk]. cbn. intros -> ->. by destruct sk. Qed.

(** ** What the program does with a press *)

(** Where a packet moves the pointer. *)
Definition pointer_after (a : app) (p : packet) : vec2 :=
  let pos := mouse_position (cu_mouse (ap_cursor a)) in
  VEC2 (within (vx pos + delta_x p) (x_res (app_gpu a)))
       (within (vy pos - delta_y p) (y_res (app_gpu a))).

Lemma boxes_shown a sc : boxes (layout_of a sc) (state (app_game a)) = button_of <$> shown (app_game a) sc.
Proof. unfold boxes, shown. by destruct (state (app_game a)). Qed.

Section Sampled.
Context {W : Type} `{Machine W, !MallocOk W}.
Implicit Types (a : app) (io : iost W).

(** [n] mouse interrupts and then [k] timer interrupts. *)
Lemma wp_bytes_then_ticks n k skip a sc io :
  running a sc -> masks a = (4, 2, 1) ->
  wp (notified (replicate n 4 ++ replicate k 1) skip) (fun skip' st => exists evs,
    io_trace st.2 = io_trace io ++ evs /\
    forall xs, valid_bytes true None evs = xs -> length xs = n ->
      implements skip skip' a st.1 sc ((Byte <$> (Some <$> xs)) ++ replicate k Tick)) (a, io).
Proof.
  intros Hr Hm. eapply wp_mono; [by apply wp_notified|].
  intros skip' st (evs & es & Hi & Ht & Htold). rewrite Hm in Htold.
  destruct (told_bytes _ _ _ _ Htold) as (bs & evs1 & evs2 & es2 & Hl & -> & -> & _ & Hb & Ht2).
  destruct (told_ticks _ _ _ Ht2) as [-> ->]. rewrite app_nil_r in *.
  exists evs1. split; [done|]. intros xs Hv Hx. rewrite Hv in Hb.
  by rewrite <- (heard_all bs xs) by congruence.
Qed.

(** C9: a press is seen only if a frame is drawn before the next packet.  In a
    running program with the masks of the start-up that waits for the first byte
    of a packet, let the mouse interrupt six times and then the timer any number
    of times.  If a valid mouse byte was read at each of the six and they make two
    packets the first of which says the button is down, no frame acts on the
    press: the screen stays, wherever the pointer is.  Let it interrupt three
    times and then the timer up to the next drawn frame.  If a valid byte was
    read at each and they make a packet that says the button is down, which was
    up before, the program does what the box under the moved pointer says. *)
Theorem clicks_sampled a sc skip io :
  running a sc -> masks a = (4, 2, 1) ->
  current_byte_index (cu_driver (ap_cursor a)) = 0 ->
  (forall k, exists skip' a' io' evs,
     notified (replicate 6 4 ++ replicate k 1) skip (a, io) = Ok (skip', (a', io')) /\
     io_trace io' = io_trace io ++ evs /\
     forall b0 b1 b2 c0 c1 c2, valid_bytes true None evs = [b0; b1; b2; c0; c1; c2] ->
       Z.testbit b0 3 = true -> Z.testbit c0 3 = true -> lb (decode (b0, b1, b2)) = true ->
       state (app_game a') = state (app_game a)) /\
  (exists skip' a' io' evs,
     notified (replicate 3 4 ++ replicate (until_frame skip) 1) skip (a, io)
       = Ok (skip', (a', io')) /\
     io_trace io' = io_trace io ++ evs /\
     forall b0 b1 b2, valid_bytes true None evs = [b0; b1; b2] ->
       Z.testbit b0 3 = true -> lb (decode (b0, b1, b2)) = true ->
       first_of (buttons (cu_mouse (ap_cursor a))) = false ->
       state (app_game a') =
         match hit (pointer_after a (decode (b0, b1, b2))) (button_of <$> shown (app_game a) sc) with
         | Some f => goto f (state (app_game a))
         | None => state (app_game a)
         end).
Proof.
  intros Hr Hm Hi. assert (idle (shell_of skip a)) as Hidle by exact Hi. split.
  - intros k. destruct (wp_run _ _ _ (wp_bytes_then_ticks 6 k skip a sc io Hr Hm))
      as (skip' & [a' io'] & E & evs & Ht & Hb).
    cbn [fst snd] in *. exists skip', a', io', evs. do 2 (split; [done|]).
    intros b0 b1 b2 c0 c1 c2 Ev H0 H3 Hlb. destruct (Hb _ Ev eq_refl) as (sc' & _ & Hs).
    change (state (app_game a')) with (sh_screen (shell_of skip' a')). rewrite Hs.
    destruct (shell_packet (layout_of a sc) _ b0 b1 b2 Hidle H0) as (I1 & S1 & L1 & _).
    destruct (shell_packet (layout_of a sc) _ c0 c1 c2 I1 H3) as (_ & S2 & _ & B2 & _).
    rewrite shell_run_app. change (Byte <$> (Some <$> _)) with
      ([Byte (Some b0); Byte (Some b1); Byte (Some b2)] ++ [Byte (Some c0); Byte (Some c1); Byte (Some c2)]).
    rewrite shell_run_app, shell_ticks, S2, S1; [done|].
    by rewrite B2, L1, Hlb, andb_false_r.
  - destruct (wp_run _ _ _ (wp_bytes_then_ticks 3 (until_frame skip) skip a sc io Hr Hm))
      as (skip' & [a' io'] & E & evs & Ht & Hb).
    cbn [fst snd] in *. exists skip', a', io', evs. do 2 (split; [done|]).
    intros b0 b1 b2 Ev H0 Hlb Hup. destruct (Hb _ Ev eq_refl) as (sc' & _ & Hs).
    change (state (app_game a')) with (sh_screen (shell_of skip' a')). rewrite Hs.
    destruct (shell_packet (layout_of a sc) _ b0 b1 b2 Hidle H0) as (_ & S1 & L1 & B1 & K1 & P1).
    rewrite shell_run_app. change (Byte <$> (Some <$> _)) with
      [Byte (Some b0); Byte (Some b1); Byte (Some b2)].
    change (until_frame skip) with (until_frame (sh_skip (shell_of skip a))). rewrite <- K1.
    rewrite shell_frame, S1, P1 by (by rewrite ?L1, ?B1).
    change (sh_screen (shell_of skip a)) with (state (app_game a)).
    by rewrite boxes_shown.
Qed.
End Sampled.

(** ** Concrete clicks on the small scene *)

Definition mouse_bytes (bs : list Z) : list (Z * Z) := mjoin ((fun b => [(0, 0x21); (0, b)]) <$> bs).

Definition screen_after (masks : list Z) (bs : list Z) : option GAMESTATE :=
  match notified masks false (tiny_app, tiny_demo (mouse_bytes bs) []) with
  | Ok (_, (a, _)) => Some (state (app_game a))
  | Fault _ => None
  end.

(** The button goes up and down on the button that quits, and a frame is drawn. *)
Example press_seen : screen_after (replicate 6 4 ++ [1]) [0x08; 0; 0; 0x09; 0; 0] = Some GS_QUIT.
Proof. vm_compute. reflexivity. Qed.

(** The same with a second packet before the frame, in which the button is held. *)
Example press_lost :
  screen_after (replicate 9 4 ++ [1; 1; 1; 1]) [0x08; 0; 0; 0x09; 0; 0; 0x09; 0; 0] = Some GS_MAIN.
Proof. vm_compute. reflexivity. Qed.

(** The small scene with the button up. *)
Definition tiny_up : app :=
  put_cursor (handled (mkMouseDrv 2 0 0 (0x08, 0, 0) true packet0) tiny_cursor) tiny_app.

Lemma tiny_up_running : running tiny_up tiny_scene.
Proof.
  pose proof tiny_running as Hr. apply running_put_cursor; [done|]. apply handled_scene_ok, Hr.
Qed.

Lemma clicks_sampled_witness :
  (exists skip' a' io', notified (replicate 6 4 ++ replicate 5 1) false
      (tiny_app, tiny_demo (mouse_bytes [0x09; 0; 0; 0x09; 0; 0]) []) = Ok (skip', (a', io')) /\
    state (app_game a') = GS_MAIN) /\
  (exists skip' a' io', notified (replicate 3 4 ++ replicate (until_frame false) 1) false
      (tiny_up, tiny_demo (mouse_bytes [0x09; 0; 0]) []) = Ok (skip', (a', io')) /\
    state (app_game a') = GS_QUIT).
Proof.
  split.
  - assert (match notified (replicate 6 4 ++ replicate 5 1) false
        (tiny_app, tiny_demo (mouse_bytes [0x09; 0; 0; 0x09; 0; 0]) []) with
      | Ok (_, (_, io')) => valid_bytes true None (io_trace io') = [0x09; 0; 0; 0x09; 0; 0]
      | Fault _ => False
      end) as Hv by (vm_compute; reflexivity).
    destruct (clicks_sampled tiny_app tiny_scene false
      (tiny_demo (mouse_bytes [0x09; 0; 0; 0x09; 0; 0]) []))
      as [Hlost _]; [apply tiny_running|done|done|].
    destruct (Hlost 5%nat) as (skip' & a' & io' & evs & E & Ht & Hb). rewrite E in Hv.
    change (io_trace io' = evs) in Ht. subst evs.
    exists skip', a', io'. split; [exact E|]. by apply (Hb _ _ _ _ _ _ Hv).
  - assert (match notified (replicate 3 4 ++ replicate (until_frame false) 1) false
        (tiny_up, tiny_demo (mouse_bytes [0x09; 0; 0]) []) with
      | Ok (_, (_, io')) => valid_bytes true None (io_trace io') = [0x09; 0; 0]
      | Fault _ => False
      end) as Hv by (vm_compute; reflexivity).
    destruct (clicks_sampled tiny_up tiny_scene false (tiny_demo (mouse_bytes [0x09; 0; 0]) []))
      as [_ (skip' & a' & io' & evs & E & Ht & Hb)]; [apply tiny_up_running|done|done|].
    rewrite E in Hv. change (io_trace io' = evs) in Ht. subst evs.
    exists skip', a', io'. split; [exact E|]. by rewrite (Hb _ _ _ Hv).
Defined.
