(* ===== verification/Frame.v ===== *)
(** * Frame: what the program does to the machine

    [stays K m]: whatever [m] does, a property [K] of the machine that every
    call of the program keeps holds after it if it held before.  A rule per
    construct and a lemma per function, in the hint database [frame], give it for
    start-up and for every interrupt: between two messages the program touches
    the machine through its calls only. *)

From S2P Require Import Prelude Machine Kbc Keyboard MouseDrv Timer Calendar Format Rtc Leaderboard.
From S2P Require Import Geometry Picture Gpu Heap LinkedList Sprite SpritesUi SpritesAlphabet Xpm.
From S2P Require Import UiElement Menu Gamestate KeyboardManager MouseManager Demo Ipc Proj.

(** The machine in a state of the program or of one of its parts. *)
Class WorldOf (S W : Type) : Type := world_of : S -> W.
#[export] Instance world_iost {W} : WorldOf (iost W) W := io_world.
#[export] Instance world_pair {X S W} `{WorldOf S W} : WorldOf (X * S) W := fun s => world_of s.2.

(** The calls keep [K]. *)
Class MachineKeeps {W} `{Machine W} (K : W -> Prop) : Prop := {
  inb_keeps port w : K w -> K (dev_inb port w).2;
  outb_keeps port v w : K w -> K (dev_outb port v w).2;
  tickdelay_keeps ticks w : K w -> K (dev_tickdelay ticks w);
  irqset_keeps irq policy hook w : K w -> K (dev_irqsetpolicy irq policy hook w).2;
  irqrm_keeps hook w : K w -> K (dev_irqrmpolicy hook w).2;
  malloc_keeps w : K w -> K (dev_malloc w).2;
  call_keeps name args w : K w -> K (dev_call name args w).2;
  junk_keeps w : K w -> K (dev_indeterminate w).2;
}.

Class VideoKeeps {W} `{Video W} (K : W -> Prop) : Prop := {
  mode_keeps mode w : K w -> K (video_mode_info mode w).2;
  map_keeps base n w : K w -> K (video_map base n w).2;
}.
Class XpmKeeps {W} `{XpmLoader W} (K : W -> Prop) : Prop :=
  xpm_keeps map ty w : K w -> K (xpm_load map ty w).2.
Class FilesKeeps {W} `{Files W} (K : W -> Prop) : Prop := {
  open_r_keeps w : K w -> K (file_open_r w).2;
  close_keeps w : K w -> K (file_close w);
}.

Definition stays {S W A} `{WorldOf S W} (K : W -> Prop) (m : M S A) : Prop :=
  forall s, K (world_of s) ->
    match m s with Ok (_, s') => K (world_of s') | Fault _ => True end.

Create HintDb frame discriminated.

(** ** The rules *)

Section Rules.
Context {S W : Type} `{WorldOf S W} (K : W -> Prop).

Lemma stays_ret {A} (a : A) : stays K (mret a : M S A).
Proof. by intros s Hs. Qed.

Lemma stays_fail {A} f : stays K (fail f : M S A).
Proof. by intros s Hs. Qed.

Lemma stays_bind {A B} (m : M S A) (k : A -> M S B) :
  stays K m -> (forall a, stays K (k a)) -> stays K (m ≫= k).
Proof.
  intros Hm Hk s Hs. unfold mbind, M_bind. specialize (Hm s Hs).
  destruct (m s) as [[a s']|f]; [|done]. by apply Hk.
Qed.

Lemma stays_gets {A} (p : S -> A) : stays K (gets p).
Proof. by intros s Hs. Qed.

Lemma stays_lift_res {A} (r : res A) : stays K (lift_res r : M S A).
Proof. intros s Hs. unfold lift_res. by destruct r. Qed.

Lemma stays_int z : stays K (int z : M S Z).
Proof. intros s Hs. unfold int. by destruct (fits_int z). Qed.

Lemma stays_bit_int z : stays K (bit_int z : M S Z).
Proof. intros s Hs. unfold bit_int. by destruct (_ && _). Qed.

Lemma stays_zoom {C A} `{WorldOf C W} (gt : S -> C) (st : C -> S -> S) (m : M C A) :
  stays K m -> (forall s, world_of (gt s) = world_of s) ->
  (forall c s, world_of (st c s) = world_of c) -> stays K (zoom gt st m).
Proof.
  intros Hm Hg Hst s Hs. unfold zoom. specialize (Hm (gt s)). rewrite Hg in Hm. specialize (Hm Hs).
  destruct (m (gt s)) as [[a c]|f]; [|done]. by rewrite Hst.
Qed.

Lemma stays_for_up n i (body : Z -> M S unit) :
  (forall j, stays K (body j)) -> stays K (for_up n i body).
Proof.
  intros Hb. revert i. induction n as [|n IH]; intros i; cbn [for_up]; [apply stays_ret|].
  apply stays_bind; auto.
Qed.

End Rules.

#[export] Hint Resolve stays_ret stays_fail stays_gets stays_lift_res stays_int stays_bit_int : frame.

Section Calls.
Context {W : Type} (K : W -> Prop).

Lemma stays_emit {A} (ev : A -> io_event) (step : W -> A * W) :
  (forall w, K w -> K (step w).2) -> stays K (emit ev step : io W A).
Proof.
  intros Hk s Hs. unfold emit. specialize (Hk (io_world s) Hs). by destruct (step (io_world s)) as [a w].
Qed.

Lemma stays_oracle {A} (step : W -> A * W) :
  (forall w, K w -> K (step w).2) -> stays K (oracle step : io W A).
Proof.
  intros Hk s Hs. unfold oracle. specialize (Hk (io_world s) Hs). by destruct (step (io_world s)) as [a w].
Qed.

(** The statics are not the machine. *)
Lemma stays_on_statics {X A} (m : M X A) : stays K (on_statics m : drv W X A).
Proof. intros s Hs. unfold on_statics, zoom. by destruct (m s.1) as [[a x]|f]. Qed.

Lemma stays_set_statics {X} (f : X -> X) : stays K (set_statics f : drv W X unit).
Proof. by intros s Hs. Qed.

Lemma stays_on_io {X A} (m : io W A) : stays K m -> stays K (on_io m : drv W X A).
Proof. intros Hm. by refine (stays_zoom K _ _ m Hm _ _). Qed.
End Calls.

#[export] Hint Resolve stays_on_statics stays_set_statics : frame.

(** One construct; a call is looked up in [frame] and unfolded if it is not
    there. *)
Ltac head_of m := lazymatch m with ?f _ => head_of f | _ => m end.
Ltac kept_call :=
  first [assumption|by apply inb_keeps|by apply outb_keeps|by apply tickdelay_keeps
        |by apply irqset_keeps|by apply irqrm_keeps|by apply malloc_keeps|by apply call_keeps
        |by apply junk_keeps|by apply mode_keeps|by apply map_keeps|by apply xpm_keeps
        |by apply open_r_keeps|by apply close_keeps].
Ltac st_step :=
  lazymatch goal with
  | |- stays _ (mbind _ _) => apply stays_bind; [|intros ?]
  | |- stays _ (match ?x with _ => _ end) => destruct x
  | |- stays _ (on_io _) => apply stays_on_io
  | |- stays _ (for_up _ _ _) => apply stays_for_up; intros ?
  | |- stays _ (emit _ _) => apply stays_emit; intros w0 Hw0; cbn [snd]; kept_call
  | |- stays _ (oracle _) => apply stays_oracle; intros w0 Hw0; cbn [snd]; kept_call
  | |- stays _ (zoom _ _ _) => refine (stays_zoom _ _ _ _ _ _ _); [|done|done]
  | |- stays _ ?m => first [solve [auto with frame] | let h := head_of m in progress unfold h]
  end; cbn beta iota zeta.
Ltac stay := repeat st_step.

(** ** The drivers *)

Section Controller.
Context {W : Type} `{Machine W} (K : W -> Prop) `{!MachineKeeps K}.

Lemma stays_outbuff_loop n status data mouse :
  stays K (kbc_read_outbuff_loop n status data mouse : io W _).
Proof. revert status data. induction n as [|n IH]; intros; cbn [kbc_read_outbuff_loop]; stay. Qed.

Lemma stays_write_loop n status port command :
  stays K (kbc_write_loop n status port command : io W _).
Proof. revert status. induction n as [|n IH]; intros; cbn [kbc_write_loop]; stay. Qed.

End Controller.

#[export] Hint Resolve stays_outbuff_loop stays_write_loop : frame.

Section Drivers.
Context {W : Type} `{Machine W} (K : W -> Prop) `{!MachineKeeps K}.

Lemma stays_response_loop n status response :
  stays K (mouse_read_response_loop n status response : io W _).
Proof. revert status response. induction n as [|n IH]; intros; cbn [mouse_read_response_loop]; stay. Qed.

Lemma stays_command_loop n aknl command :
  stays K (mouse_write_command_loop n aknl command : io W _).
Proof. revert aknl. induction n as [|n IH]; intros; cbn [mouse_write_command_loop]; stay. Qed.
End Drivers.

#[export] Hint Resolve stays_response_loop stays_command_loop : frame.

Section Program.
Context {W : Type} `{Machine W} (K : W -> Prop) `{!MachineKeeps K}.

Lemma stays_Mouse_handle : stays K (Mouse_handle : drv W cursor unit).
Proof. stay. Qed.

Lemma stays_handle_keyboard : stays K (handle_keyboard : drv W app unit).
Proof. stay. Qed.

Lemma stays_Sprite_draw p pos : stays K (Sprite_draw p pos : drv W gfx unit).
Proof. stay. Qed.
End Program.

#[export] Hint Resolve stays_Mouse_handle stays_handle_keyboard stays_Sprite_draw : frame.

Section Nodes.
Context {W : Type} `{Machine W} (K : W -> Prop) `{!MachineKeeps K}.

Lemma stays_draw_nodes fuel p : stays K (draw_nodes fuel p : drv W ui unit).
Proof. revert p. induction fuel as [|fuel IH]; intros; cbn [draw_nodes]; stay. Qed.

Lemma stays_hit_nodes fuel p : stays K (hit_nodes fuel p : drv W cursor unit).
Proof. revert p. induction fuel as [|fuel IH]; intros; cbn [hit_nodes]; stay. Qed.

Lemma stays_indeterminate_bytes n : stays K (indeterminate_bytes n : io W _).
Proof. induction n as [|n IH]; cbn [indeterminate_bytes]; stay. Qed.
End Nodes.

#[export] Hint Resolve stays_draw_nodes stays_hit_nodes stays_indeterminate_bytes : frame.

Section Interrupts.
Context {W : Type} `{Machine W} (K : W -> Prop) `{!MachineKeeps K}.

Lemma stays_draw_frame : stays K (draw_frame : drv W app unit).
Proof. stay. Qed.

(** An interrupt notification. *)
Lemma stays_handle_interrupts mask skip : stays K (handle_interrupts mask skip : drv W app bool).
Proof. pose proof stays_draw_frame. stay. Qed.

Lemma stays_indeterminate_board : stays K (indeterminate_board : io W _).
Proof. stay. Qed.

Lemma stays_menu_append m p : stays K (menu_append m p : drv W ui unit).
Proof. stay. Qed.

Context `{!XpmLoader W, !XpmKeeps K}.

Lemma stays_create_sprite xpm off sz : stays K (create_sprite xpm off sz : drv W ui Z).
Proof. stay. Qed.
End Interrupts.

#[export] Hint Resolve stays_draw_frame stays_handle_interrupts stays_indeterminate_board
  stays_menu_append stays_create_sprite : frame.

Section Menus.
Context {W : Type} `{Machine W, XpmLoader W} (K : W -> Prop) `{!MachineKeeps K, !XpmKeeps K}.

Lemma stays_create_chars m str x0 y0 : stays K (create_chars m str x0 y0 : drv W ui unit).
Proof. revert x0. induction str as [|c str IH]; intros; cbn [create_chars]; stay. Qed.

Lemma stays_create_main_menu : stays K (Menu_create_main_menu : drv W ui Z).
Proof. stay. Qed.
End Menus.

#[export] Hint Resolve stays_create_chars stays_create_main_menu : frame.

Section Boards.
Context {W : Type} `{Machine W, XpmLoader W} (K : W -> Prop) `{!MachineKeeps K, !XpmKeeps K}.

Lemma stays_create_entries n i m lb rdt : stays K (create_entries n i m lb rdt : drv W ui unit).
Proof. revert i rdt. induction n as [|n IH]; intros; cbn [create_entries]; stay. Qed.
End Boards.

#[export] Hint Resolve stays_create_entries : frame.

(** Start-up. *)
Section Startup.
Context {W : Type} `{Machine W, XpmLoader W, Files W, Video W} (K : W -> Prop).
Context `{!MachineKeeps K, !XpmKeeps K, !FilesKeeps K, !VideoKeeps K}.

Lemma stays_create_leaderboard lb : stays K (Menu_create_leaderboard lb : drv W ui Z).
Proof. stay. Qed.

Lemma stays_read_file lb : stays K (Leaderboard_read_file lb : io W _).
Proof. stay. Qed.

Lemma stays_Gamestate_init : stays K (Gamestate_init : drv W front unit).
Proof. pose proof stays_create_leaderboard. pose proof stays_read_file. stay. Qed.

Lemma stays_gpu_init mode : stays K (gpu_init_mem_indexation mode : drv W gpu Z).
Proof. stay. Qed.

Lemma stays_proj_init : stays K (proj_init : drv W app Z).
Proof. pose proof stays_Gamestate_init. pose proof stays_gpu_init. stay. Qed.
End Startup.

(** A result and the machine together. *)
Lemma wp_stays {S W A} `{WorldOf S W} (K : W -> Prop) (m : M S A) (Q : A -> S -> Prop) s :
  wp m Q s -> stays K m -> K (world_of s) -> wp m (fun a s' => Q a s' /\ K (world_of s')) s.
Proof.
  intros Hm Hk Hs. apply wp_run in Hm as (a & s' & E & HQ). specialize (Hk s Hs). rewrite E in Hk.
  eapply run_wp; [exact E|]. by split.
Qed.

Lemma wp_both {S A} (m : M S A) (P Q : A -> S -> Prop) s :
  wp m P s -> wp m Q s -> wp m (fun a s' => P a s' /\ Q a s') s.
Proof. unfold wp. by destruct (m s) as [[a s']|f]. Qed.
