(* ===== verification/Liveness.v ===== *)
(** * Liveness: ESC ends the program

    A law on the surroundings ([EscTyped]): whatever the program does, within
    some number of messages ESC is typed, and its code repeats before another
    key's.  Then start-up, the loop and shut-down together end, in a number of
    rounds that depends on the machine only.  Two codes are needed: the first
    may be taken for the second byte of a code of two. *)

From S2P Require Import Prelude Machine Kbc Keyboard MouseDrv Timer Leaderboard.
From S2P Require Import Geometry Picture Gpu Heap LinkedList Sprite SpritesUi Xpm UiElement.
From S2P Require Import Menu Gamestate KeyboardManager MouseManager Demo Ipc Proj Startup Shell.
From S2P Require Import Reach Frame.

(** ** The law *)

(** A notification of the keyboard and not of the mouse, by the masks of
    start-up; and a message that is not of the keyboard. *)
Definition keyboard_only (a : Z * message) : Prop :=
  tst a.1 = false /\
  exists mask, hardware a.2 = Some mask /\ tst (Z.land mask 2) = true /\ tst (Z.land mask 4) = false.
Definition not_keyboard (a : Z * message) : Prop :=
  match hardware a.2 with Some mask => tst a.1 = true \/ tst (Z.land mask 2) = false | None => True end.

(** [esc_due first n]: ESC is typed within [n] more messages, for the [first]
    time or as a repetition; [esc_waits]: its code waits in the controller. *)
Class EscTyped (W : Type) `{Machine W, XpmLoader W, Files W, Video W, Ipc W} : Type := {
  esc_due : bool -> nat -> W -> Prop;
  esc_waits : bool -> W -> Prop;
  due_machine first n :: MachineKeeps (esc_due first n);
  due_xpm first n :: XpmKeeps (esc_due first n);
  due_files first n :: FilesKeeps (esc_due first n);
  due_video first n :: VideoKeeps (esc_due first n);
  due_receive first n w : esc_due first n w ->
    (keyboard_only (driver_receive w).1 /\ esc_waits first (driver_receive w).2) \/
    (exists n', (n' < n)%nat /\ esc_due first n' (driver_receive w).2 /\
       (first = false -> not_keyboard (driver_receive w).1));
  waits_junk first w : esc_waits first w -> esc_waits first (dev_indeterminate w).2;
  waits_status first w : esc_waits first w ->
    (dev_inb KBC_REG_STAT w).1.1 = 0 /\ status_valid false (dev_inb KBC_REG_STAT w).1.2 = true /\
    esc_waits first (dev_inb KBC_REG_STAT w).2;
  waits_data first w : esc_waits first w ->
    (dev_inb KBC_REG_OUT_BUF w).1.1 = 0 /\ u8 (dev_inb KBC_REG_OUT_BUF w).1.2 = 1 /\
    (first = true -> exists n, esc_due false n (dev_inb KBC_REG_OUT_BUF w).2);
}.

(** ** Reading the code *)

Section Reading.
Context {W : Type} `{Machine W, XpmLoader W, Files W, Video W, Ipc W, !EscTyped W}.

(** After the first code, the second is due. *)
Definition again (first : bool) (w : W) : Prop := first = true -> exists n, esc_due false n w.

#[export] Instance again_machine f : MachineKeeps (again f).
Proof.
  unfold again. constructor; intros.
  all: match goal with HK : _ = true -> _, Hf : _ = true |- _ => destruct (HK Hf) as [n Hn] end; exists n; kept_call.
Qed.

Lemma wp_waits_junk first (Q : Z -> iost W -> Prop) s :
  esc_waits first (io_world s) ->
  (forall z s', esc_waits first (io_world s') -> Q z s') -> wp indeterminate Q s.
Proof.
  intros Hw HQ. apply wp_oracle. intros z w E. apply HQ. cbn.
  pose proof (waits_junk _ _ Hw) as Hj. by rewrite E in Hj.
Qed.

Lemma wp_waits_status first st (Q : Z * Z -> iost W -> Prop) s :
  esc_waits first (io_world s) ->
  (forall v s', status_valid false v = true -> esc_waits first (io_world s') -> Q (0, u8 v) s') ->
  wp (kbc_read_status st) Q s.
Proof.
  intros Hw HQ. destruct (waits_status _ _ Hw) as (E0 & Hv & Hw').
  unfold kbc_read_status, util_sys_inb, sys_inb, emit, wp, mbind, M_bind. cbn.
  destruct (dev_inb KBC_REG_STAT (io_world s)) as [[r v] w]. cbn in *. subst r. cbn.
  by apply HQ.
Qed.

Lemma valid_status v :
  status_valid false v = true ->
  tst (Z.land (u8 v) KBC_STAT_OBF) = true /\ tst (Z.land (u8 v) KBC_STAT_AUX) = false /\
  tst (Z.land (u8 v) (Z.lor KBC_STAT_PARITY KBC_STAT_TIMEOUT)) = false.
Proof.
  unfold status_valid. intros Hv. repeat apply andb_prop in Hv as [Hv ?].
  unfold KBC_STAT_OBF, KBC_STAT_AUX. rewrite !tst_land_bit, tst_error_bits, !u8_testbit by lia.
  destruct (Z.testbit v 0), (Z.testbit v 5), (Z.testbit v 6), (Z.testbit v 7); try done; cbn in *; auto.
Qed.

Lemma wp_outbuff_esc first n st c (Q : Z * Z -> iost W -> Prop) s :
  esc_waits first (io_world s) ->
  (forall s', again first (io_world s') -> Q (0, 1) s') ->
  wp (kbc_read_outbuff_loop (S n) st c false) Q s.
Proof.
  intros Hw HQ. cbn [kbc_read_outbuff_loop].
  wp_step. eapply wp_waits_status; [exact Hw|]. intros v s1 Hv Hw1.
  destruct (valid_status v Hv) as (Ho & Ha & He). cbn [tst Z.eqb negb].
  rewrite Ho, Ha, He. cbn [andb negb].
  destruct (waits_data _ _ Hw1) as (E0 & E1 & Hag).
  wp_step. unfold util_sys_inb, sys_inb, emit, wp, mbind, M_bind.
  destruct (dev_inb KBC_REG_OUT_BUF (io_world s1)) as [[r x] w]. cbn in E0, E1, Hag |- *.
  subst r. cbn. rewrite E1. by apply HQ.
Qed.

Lemma wp_read_esc first c (Q : Z * Z -> iost W -> Prop) s :
  esc_waits first (io_world s) ->
  (forall s', again first (io_world s') -> Q (0, 1) s') -> wp (keyboard_read_scancode c) Q s.
Proof.
  intros Hw HQ. unfold keyboard_read_scancode, kbc_read_outbuff.
  wp_step. eapply wp_waits_junk; [exact Hw|]. intros st1 s1 Hw1.
  wp_step. eapply wp_waits_status; [exact Hw1|]. intros v s2 Hv Hw2.
  destruct (valid_status v Hv) as (Ho & Ha & He). cbn [tst Z.eqb negb]. rewrite Ho, He.
  cbn [negb]. do 2 wp_step. eapply wp_waits_junk; [exact Hw2|]. intros st2 s3 Hw3.
  eapply wp_outbuff_esc; [exact Hw3|]. intros s4 Hag. cbn [tst Z.eqb negb]. wp_step. by apply HQ.
Qed.
End Reading.

(** ** Events that are not keys *)

Definition no_key (e : event) : Prop := match e with Key _ => False | _ => True end.

Lemma shell_no_keys L es s :
  Forall no_key es -> sh_prefix (shell_run L es s) = sh_prefix s.
Proof.
  intros HF. revert s. induction HF as [|e es He _ IH]; intros s; [done|].
  change (shell_run L (e :: es) s) with (shell_run L es (shell_do L s e)). rewrite IH.
  destruct e as [b|b|]; [|done|done]. cbn. unfold shell_byte. by case_match.
Qed.

Lemma shell_run_quit L es s :
  intended L -> sh_screen s = GS_QUIT -> sh_screen (shell_run L es s) = GS_QUIT.
Proof.
  intros HL. revert s. induction es as [|e es IH]; intros s Hs; [done|].
  apply IH. by apply shell_do_quit.
Qed.

Lemma reports_no_key mask evs es :
  reports (4, 2, 1) mask evs es -> tst (Z.land mask 2) = false -> Forall no_key es.
Proof.
  intros (evm & evk & b & k & _ & -> & _) Hk. rewrite Hk.
  by destruct (tst (Z.land mask 4)), (tst (Z.land mask 1)); repeat constructor.
Qed.

(** ** A round *)

Section Rounds.
Context {W : Type} `{Machine W, XpmLoader W, Files W, Video W, Ipc W, !EscTyped W}.
Context `{!MallocOk W, !XpmLaws W, !VideoLaws W, !Surroundings W}.
Implicit Types (a : app) (io : iost W).

Lemma reads_esc first io :
  esc_waits first (io_world io) ->
  reads_code (fun b io' => b = 1 /\ again first (io_world io')) io.
Proof.
  intros Hw. unfold reads_code. eapply wp_waits_junk; [exact Hw|]. intros junk s Hw1.
  by eapply wp_read_esc.
Qed.

(** The notification that brings the code. *)
Lemma wp_stroke first mask (skip : bool) a sc io :
  running a sc -> masks a = (4, 2, 1) ->
  tst (Z.land mask 2) = true -> tst (Z.land mask 4) = false -> esc_waits first (io_world io) ->
  wp (handle_interrupts mask skip) (fun skip' st =>
    (exists es, implements skip skip' a st.1 sc (Key 1 :: es) /\ Forall no_key es) /\
    again first (io_world st.2)) (a, io).
Proof.
  intros Hr Hm Hk Hmo Hw. injection Hm as Emo Ek Eti.
  unfold handle_interrupts, statics. do 2 wp_step. cbn [fst]. rewrite Emo, Ek, Eti, Hk, Hmo.
  do 3 wp_step. eapply wp_mono; [by eapply (wp_key _ skip), reads_esc|].
  intros [] [a1 io1] (K1 & b & Es & -> & Hag). cbn [fst snd] in *.
  destruct (tst (Z.land mask 1)).
  - wp_step. pose proof K1 as (R1 & L1 & _).
    eapply wp_mono; [refine (wp_stays (again first) _ _ _ (wp_tick skip a1 sc io1 R1) _ Hag)|].
    { destruct skip; [apply stays_ret|apply stays_draw_frame, _]. }
    intros [] [a2 io2] [(sc2 & K2 & E2 & _) Hag2]. cbn [fst snd] in *. wp_step.
    cbn [fst snd]. split; [|exact Hag2]. exists [Tick]. split; [|by repeat constructor].
    exists sc2. split; [by eapply kept_trans|]. rewrite E2, L1, Es. done.
  - wp_step. split; [|done]. exists []. split; [|done]. exists sc. by split.
Qed.

(** What a round does for the end of the program. *)
Definition closer (first : bool) (n : nat) (a : app) (w : W) : Prop :=
  screen_of a = GS_QUIT \/
  (exists n', (n' < n)%nat /\ esc_due first n' w /\
     (first = false -> double_width (ap_keys a) = false)) \/
  (first = true /\ double_width (ap_keys a) = false /\ exists n', esc_due false n' w).

Lemma wp_round_closer first n skip a io :
  sound (a, skip) -> screen_of a <> GS_QUIT -> esc_due first n (io_world io) ->
  (first = false -> double_width (ap_keys a) = false) ->
  wp (loop_body skip) (fun skip' st => closer first n st.1 (io_world st.2)) (a, io).
Proof.
  intros Hs Hq Hdue Hpre. destruct (sound_screens _ Hs) as [Eq|[Hmenu Hesc]]; [done|].
  destruct Hs as (sc & es0 & Hr & HL & Hm & _). cbn [fst snd] in *.
  unfold loop_body, on_io. do 2 wp_step. apply wp_oracle. intros [r msg] w E. cbn [fst snd] in *.
  pose proof (due_receive _ _ _ Hdue) as Hrec. rewrite E in Hrec. cbn [fst snd] in Hrec.
  destruct Hrec as [[(Hr0 & mask & Hh & Hk & Hmo) Hw]|(n' & Hn & Hdue' & Hother)].
  - cbn [fst snd] in *. rewrite Hr0. unfold hardware in Hh. destruct (is_notify msg && _); [|done].
    injection Hh as ->. eapply wp_mono; [by eapply wp_stroke|].
    intros skip' [a' io'] [(es & (sc' & _ & Es) & HF) Hag]. cbn [fst snd] in *.
    change (shell_run _ (Key 1 :: es) _)
      with (shell_run (layout_of a sc) es (shell_key 1 (shell_of skip a))) in Es.
    destruct first.
    + right. right. split; [done|]. split; [|by apply Hag].
      change (sh_prefix (shell_of skip' a') = false). rewrite Es, shell_no_keys by done.
      cbn. by destruct (double_width _).
    + left. change (sh_screen (shell_of skip' a') = GS_QUIT). rewrite Es.
      apply shell_run_quit; [done|]. cbn. rewrite Hpre by done. unfold on_menu.
      by destruct Hmenu as [-> | ->].
  - assert (closer first n a w) as Hsame.
    { right. left. exists n'. by split. }
    destruct (tst r) eqn:Er; [by wp_step|].
    unfold not_keyboard, hardware in Hother. cbn [fst snd] in Hother.
    destruct (is_notify msg && _); [|by wp_step].
    eapply wp_mono; [refine (wp_stays (esc_due first n') _ _ _
      (wp_interrupts_refine (interrupts msg) skip a sc (mkIo w (io_trace io)) Hr)
      (stays_handle_interrupts _ _ _) Hdue')|].
    intros skip' [a' io'] [(evs & es & (sc' & _ & Es) & _ & Hrep) Hdue2]. cbn [fst snd] in *.
    right. left. exists n'. split; [done|]. split; [exact Hdue2|]. intros Hf.
    destruct (Hother Hf) as [?|Hk]; [congruence|]. rewrite Hm in Hrep.
    change (sh_prefix (shell_of skip' a') = false). rewrite Es.
    rewrite shell_no_keys by (by eapply reports_no_key). by apply Hpre.
Qed.
End Rounds.

(** ** The loop and the program *)

Section Ends.
Context {W : Type} `{Machine W, XpmLoader W, Files W, Video W, Ipc W, !EscTyped W}.
Context `{!MallocOk W, !XpmLaws W, !VideoLaws W, !Surroundings W}.
Implicit Types (a : app) (io : iost W).

(** [n] rounds are enough to end the loop. *)
Definition loop_ends (n : nat) (skip : bool) (s : app * iost W) : Prop :=
  exists s', forall k, (n <= k)%nat -> proj_loop k skip s = Ok (tt, s').

Lemma loop_ends_quit skip a io : screen_of a = GS_QUIT -> exists n, loop_ends n skip (a, io).
Proof.
  intros Hq. exists 1%nat, (a, io). intros [|k] Hk; [lia|]. cbn [proj_loop].
  unfold statics, gets, mbind, M_bind. cbn [fst]. by rewrite bool_decide_true.
Qed.

Lemma loop_ends_round skip a io :
  screen_of a <> GS_QUIT ->
  wp (loop_body skip) (fun skip' st => exists n, loop_ends n skip' st) (a, io) ->
  exists n, loop_ends n skip (a, io).
Proof.
  intros Hq Hb. apply wp_run in Hb as (skip' & st & E & n & s' & Hn).
  exists (S n), s'. intros [|k] Hk; [lia|]. cbn [proj_loop].
  unfold statics, gets, mbind, M_bind. cbn [fst]. rewrite bool_decide_false by done.
  rewrite E. apply Hn. lia.
Qed.

(** By induction on the messages before the code: first the repetition, then
    the first stroke. *)
Lemma loop_ends_due first :
  (first = true -> forall n skip a io,
     sound (a, skip) -> double_width (ap_keys a) = false -> esc_due false n (io_world io) ->
     exists n, loop_ends n skip (a, io)) ->
  forall n skip a io, sound (a, skip) -> (first = false -> double_width (ap_keys a) = false) ->
    esc_due first n (io_world io) -> exists n, loop_ends n skip (a, io).
Proof.
  intros Hnext n. induction n as [n IH] using lt_wf_ind. intros skip a io Hs Hpre Hdue.
  destruct (decide (screen_of a = GS_QUIT)) as [Hq|Hq]; [by apply loop_ends_quit|].
  apply loop_ends_round; [done|].
  eapply wp_mono; [exact (wp_both _ _ _ _ (sound_round a skip io Hs)
    (wp_round_closer first n skip a io Hs Hq Hdue Hpre))|].
  intros skip' [a' io'] [[Hs' _] [Hq'|[(n' & Hn & Hd & Hp)|(Hf & Hp & n' & Hd)]]]; cbn [fst snd] in *.
  - by apply loop_ends_quit.
  - by apply (IH n').
  - by eapply Hnext.
Qed.

Lemma loop_ends_esc n skip a io :
  sound (a, skip) -> esc_due true n (io_world io) -> exists n, loop_ends n skip (a, io).
Proof.
  intros Hs. apply (loop_ends_due true); [|done|done]. intros _ n' skip' a' io' Hs' Hp.
  apply (loop_ends_due false); done.
Qed.
End Ends.

(** C4: if ESC is typed, the program ends.  On surroundings on which, whatever
    the program does to them, the code of ESC arrives within some number of
    messages and once more before that of another key, start-up, the loop and
    shut-down end: from some number of rounds on every number gives the same
    outcome, the answer 0 or 1 or the panic of the card's initialisation. *)
Theorem proj_main_loop_ends {W} `{Machine W, XpmLoader W, Files W, Video W, Ipc W}
  `{!EscTyped W, !MallocOk W, !XpmLaws W, !VideoLaws W, !Surroundings W} n (io : iost W) :
  esc_due true n (io_world io) ->
  exists rounds out, (forall k, (rounds <= k)%nat -> proj_main_loop k (app_zero, io) = out) /\
    match out with Ok (r, _) => r = 0 \/ r = 1 | Fault f => f = Panic end.
Proof.
  intros Hdue. pose proof (wpe_proj_init io) as Hi. unfold wpe in Hi.
  pose proof (stays_proj_init (esc_due true n) (app_zero, io) Hdue) as Hk.
  unfold proj_main_loop, mbind, M_bind.
  destruct (proj_init (app_zero, io)) as [[r [a io1]]|f] eqn:Ei;
    [|exists 0%nat, (Fault f); by rewrite Hi].
  destruct Hi as [-> | [-> _]]; [by exists 0%nat, (Ok (1, (a, io1))); split; [|right]|].
  destruct (loop_ends_esc n false a io1 (sound_start a io io1 Ei) Hk) as (rounds & [a2 io2] & Hl).
  destruct (wp_run _ _ _ (wp_proj_shutdown a2 io2)) as (r & st & Es & Hr & _).
  change (tst 0) with false. cbn iota.
  exists rounds, (if tst r then Ok (1, st) else Ok (0, st)). split.
  - intros k Hk'. rewrite Hl by done. rewrite Es. by destruct (tst r).
  - destruct (tst r); auto.
Qed.

(** ** Somebody at the keyboard

    A machine that acknowledges every command, rings the timer, and brings the
    code of ESC [strokes] times, [n] messages from now and then every four. *)

Inductive typing : Type :=
  | Typing (strokes n : nat)
  | Waiting (strokes : nat).

#[export] Instance typing_machine : Machine typing := {
  dev_inb port w :=
    if port =? KBC_REG_OUT_BUF then
      match w with
      | Waiting strokes => ((0, 1), Typing strokes 3)
      | Typing _ _ => ((0, 0xFA), w)
      end
    else ((0, 1), w);
  dev_outb _ _ w := (0, w);
  dev_tickdelay _ w := w;
  dev_micros_to_ticks _ _ := 1;
  dev_irqsetpolicy _ _ hook w := ((0, hook), w);
  dev_irqrmpolicy _ w := (0, w);
  dev_malloc w := (true, w);
  dev_call _ _ w := (0, w);
  dev_indeterminate w := (0, w);
}.

#[export] Instance typing_ipc : Ipc typing := {
  driver_receive w :=
    match w with
    | Typing strokes (S n) => ((0, interrupt 1), Typing strokes n)
    | Typing (S strokes) O => ((0, interrupt 2), Waiting strokes)
    | _ => ((0, interrupt 1), w)
    end;
}.

Definition strokes_left (first : bool) : nat := if first then 2%nat else 1%nat.
Definition typing_due (first : bool) (n : nat) (w : roomy typing) : Prop :=
  narrow w = Typing (strokes_left first) n.

#[export] Instance typing_due_machine first n : MachineKeeps (typing_due first n).
Proof.
  constructor; intros; unfold typing_due in *; destruct w as [w]; cbn in *; subst w; try done.
  unfold in_room. cbn. by destruct (port =? KBC_REG_OUT_BUF).
Qed.

#[export] Instance typing_due_xpm first n : XpmKeeps (typing_due first n).
Proof.
  intros map ty w Hw. cbn. destruct (xpm_dims map) as [[[wd ht] k]|]; [|done].
  by destruct (_ && _).
Qed.

#[export] Program Instance typing_esc : EscTyped (roomy typing) := {
  esc_due := typing_due;
  esc_waits first w := narrow w = Waiting (pred (strokes_left first));
}.
Next Obligation. done. Qed.
Next Obligation. done. Qed.
Next Obligation.
  intros first n [w]. unfold typing_due. cbn. intros ->. destruct n as [|n].
  - left. destruct first; (split; [|done]); (split; [done|]); by exists 2.
  - right. exists n. split; [lia|]. split; [by destruct first|]. intros _.
    destruct first; vm_compute; by right.
Qed.
Next Obligation. intros first [w] Hw. exact Hw. Qed.
Next Obligation. intros first [w]. cbn. intros ->. by repeat split. Qed.
Next Obligation.
  intros first [w]. cbn. intros ->. split; [done|]. split; [done|].
  intros ->. by exists 3%nat.
Qed.

Definition typing_start : iost (roomy typing) := mkIo (mkRoomy (Typing 2 5)) [].

(** On it the program starts. *)
Example typing_starts : answers_0 (proj_init (app_zero, typing_start)) = true.
Proof. vm_compute. reflexivity. Qed.

Lemma proj_main_loop_ends_witness :
  exists rounds out,
    (forall k, (rounds <= k)%nat -> proj_main_loop k (app_zero, typing_start) = out) /\
    match out with Ok (r, _) => r = 0 \/ r = 1 | Fault f => f = Panic end.
Proof.
  pose proof (proj_main_loop_ends (W := roomy typing) 5 typing_start eq_refl) as He. exact He.
Defined.
