(* ===== verification/Lab2.v ===== *)
(** * Lab 2, the timer on its own: lab2/lab2.c

    The tests of the timer driver.  [timer_test_int] prints the elapsed time
    once per second, [time] times, a second being sixty interrupts. *)

From S2P Require Import Prelude Machine Kbc Timer Ipc Demo.

Section Lab2.
Context {W : Type} `{Machine W, Ipc W}.

(** [counter] is declared [extern] and defined nowhere: the driver's counter is
    called [timer_counter]. *)
Variable counter : timer_statics -> Z.

(** [lcf_start] runs one of the tests; it is the library's. *)
Definition main : io W Z :=
  _ ← lib_call "lcf_set_language" [];
  _ ← lib_call "lcf_trace_calls" [];
  _ ← lib_call "lcf_log_output" [];
  r ← lib_call "lcf_start" [];
  if tst r then mret 1 else
  _ ← lib_call "lcf_cleanup" [];
  mret 0.

Definition timer_test_read_config (timer : Z) (field : timer_status_field) : io W Z :=
  st ← indeterminate;
  '(r, st) ← timer_get_conf timer (u8 st);
  if tst r then mret 1 else
  r ← timer_display_conf timer st field;
  if tst r then mret 1 else mret 0.

Definition timer_test_time_base (timer freq : Z) : io W Z :=
  r ← timer_set_frequency timer freq;
  if tst r then mret 1 else mret 0.

(** One round of the loop of [timer_test_int]. *)
Definition int_round (bit_no time : Z) : drv W timer_statics (Z + unit) :=
  if time =? 0 then mret (inr tt) else
  msg ← on_io receive;
  match msg with
  | None => mret (inl time)
  | Some mask =>
      if tst (Z.land mask bit_no) then
        timer_int_handler ;;
        t ← statics;
        if counter t mod 60 =? 0 then
          _ ← on_io (lib_call "timer_print_elapsed_time" []);
          mret (inl (time - 1))
        else mret (inl time)
      else mret (inl time)
  end.

Definition timer_test_int (rounds : nat) (time : Z) : drv W timer_statics Z :=
  bit ← on_io indeterminate;
  '(r, bit_no) ← timer_subscribe (u8 bit);
  if tst r then mret 1 else
  iter rounds (int_round bit_no) time ;;
  r ← timer_unsubscribe;
  if tst r then mret 1 else mret 0.
End Lab2.

(** ** Counting the seconds *)

(** How many times the elapsed time was printed. *)
Definition is_print (ev : io_event) : bool :=
  match ev with EvCall nm _ _ => String.eqb nm "timer_print_elapsed_time" | _ => false end.
Definition prints (evs : list io_event) : nat := length (filter is_print evs).

Lemma prints_app evs evs' : prints (evs ++ evs') = (prints evs + prints evs')%nat.
Proof. unfold prints. by rewrite filter_app, length_app. Qed.

Section Prints.
Context {W : Type} `{Machine W, Ipc W}.
Implicit Types (t : timer_statics) (io : iost W).

Definition counted (trace : list io_event) (total time0 time : Z)
  (st : timer_statics * iost W) : Prop :=
  0 <= time <= time0 /\ 0 <= timer_counter st.1 /\
  timer_counter st.1 + ticks_for 60 time (timer_counter st.1) = total /\
  exists evs, io_trace st.2 = trace ++ evs /\ Z.of_nat (prints evs) = time0 - time.

(** What the source leaves undefined: that [counter] is the driver's. *)
Variable counter : timer_statics -> Z.
Hypothesis counter_is : forall t, counter t = timer_counter t.

Lemma wp_int_round bit `{!Rings W bit} trace total time0 time st :
  total < 2 ^ 32 -> counted trace total time0 time st ->
  wp (int_round counter bit time) (fun r st' => match r with
    | inl time' => counted trace total time0 time' st' /\
        (0 <= ticks_for 60 time' (timer_counter st'.1) < ticks_for 60 time (timer_counter st.1) \/
         (ticks_for 60 time' (timer_counter st'.1) = ticks_for 60 time (timer_counter st.1) /\
          (due (io_world st'.2) < due (io_world st.2))%nat))
    | inr _ => time = 0 /\ st' = st
    end) st.
Proof.
  intros Htot (Ht & Hc & Hsum & evs & Htr & Hp). destruct st as [t io]. cbn [fst snd] in *.
  unfold int_round. destruct (Z.eqb_spec time 0) as [E|E]; [by wp_step|].
  pose proof (ticks_for_pos 60 ltac:(lia) time (timer_counter t) ltac:(lia)) as Hpos.
  wp_step. unfold on_io at 1. apply wp_zoom. cbn [snd].
  apply (wp_receive_due bit). intros o w Ho. cbn [fst snd].
  assert ((due w < due (io_world io))%nat ->
    counted trace total time0 time (t, mkIo w (io_trace io)) /\
    (0 <= ticks_for 60 time (timer_counter t) < ticks_for 60 time (timer_counter t) \/
     ticks_for 60 time (timer_counter t) = ticks_for 60 time (timer_counter t) /\
     (due w < due (io_world io))%nat)) as Hidle.
  { intros Hd. split; [|by right]. repeat (split; [done|]). by exists evs. }
  destruct o as [mask|]; [|destruct Ho as [[]|Ho]; wp_step; exact (Hidle Ho)].
  destruct (tst (Z.land mask bit)); [|destruct Ho as [|Ho]; [done|wp_step; exact (Hidle Ho)]].
  wp_step. unfold timer_int_handler, set_statics. wp_step. cbn [fst snd]. wp_step.
  unfold statics. wp_step. rewrite counter_is. cbn [fst timer_counter].
  pose proof (ticks_for_next 60 ltac:(lia) time (timer_counter t) ltac:(lia)) as Hn.
  assert (u32 (timer_counter t + 1) = timer_counter t + 1) as Eu.
  { unfold u32. apply Z.mod_small. lia. }
  rewrite Eu. destruct ((timer_counter t + 1) mod 60 =? 0).
  - wp_step. apply wp_lib_call. intros r io2 E2. cbn [io_trace] in E2.
    wp_step. unfold counted. cbn [fst snd timer_counter]. split; [|lia].
    do 3 (split; [lia|]). eexists. split; [by rewrite E2, Htr, <- app_assoc|].
    rewrite prints_app. change (prints [_]) with 1%nat. lia.
  - wp_step. unfold counted. cbn [fst snd timer_counter]. split; [|lia].
    do 3 (split; [lia|]). by exists evs.
Qed.
End Prints.

Section Contracts.
Context {W : Type} `{Machine W, Ipc W}.

(** C20: [timer_test_int], if the [counter] the source declares [extern] and
    defines nowhere is the driver's [timer_counter] (a hypothesis), and the
    counter cannot wrap within sixty ticks for each second asked for: as soon as
    timer interrupts keep arriving there is a number of rounds after which it
    answers, and any larger number gives the same.  Either the subscription
    failed, and it answers 1 at once, having printed nothing and left the counter
    alone; or it has printed the elapsed time exactly [time] times, and the
    counter has gone up by sixty ticks for each line, less the ticks that had
    passed since the last multiple of sixty before the start (none at all for no
    lines). *)
Theorem timer_test_int_prints counter t time (io : iost W)
  `{!Rings W (u8 (BIT (timer_hook_id t)))} :
  (forall t, counter t = timer_counter t) ->
  0 <= timer_hook_id t < 8 -> 0 <= time < 256 -> 0 <= timer_counter t ->
  timer_counter t + 60 * time < 2 ^ 32 ->
  ends (fun rounds => timer_test_int counter rounds time) (fun r st =>
    (r = 0 \/ r = 1) /\ exists evs, io_trace st.2 = io_trace io ++ evs /\
    ((r = 1 /\ prints evs = 0%nat /\ timer_counter st.1 = timer_counter t /\ exists s, s <> 0 /\
        evs = [EvIrqSet TIMER0_IRQ IRQ_REENABLE (timer_hook_id t) s]) \/
     (Z.of_nat (prints evs) = time /\
      timer_counter st.1 = timer_counter t + ticks_for 60 time (timer_counter t)))) (t, io).
Proof.
  intros Hcounter Hh Ht Hc Hmax. unfold timer_test_int. apply ends_after.
  unfold on_io at 1. apply wp_zoom. apply wp_oracle. intros junk w0 _. cbn [fst snd].
  apply ends_after. eapply wp_drv; [by apply (timer_subscribe_spec t)|].
  intros [r bit] t1 io1 evs1 T1 (Eb & Ec & h & s & _ & -> & Hr). cbn [fst snd] in *. subst bit.
  destruct (Z.eqb_spec s 0) as [->|Hs]; subst r.
  2:{ apply ends_const. wp_step. split; [by right|]. eexists. split; [exact T1|].
      left. repeat (split; [done|]). by exists s. }
  change (tst 0) with false. cbn iota.
  pose proof (ticks_for_bound 60 ltac:(lia) time (timer_counter t) ltac:(lia)) as Hb.
  apply ends_bind. eapply ends_mono.
  { eapply (wp_iter_due (u8 (BIT (timer_hook_id t))) _
      (counted (io_trace io1) (timer_counter t + ticks_for 60 time (timer_counter t)) time)
      (fun a x => ticks_for 60 a (timer_counter x))
      (fun _ st => counted (io_trace io1) (timer_counter t + ticks_for 60 time (timer_counter t))
         time 0 st)).
    - split; [lia|]. cbn [fst]. rewrite Ec. split; [done|]. split; [done|].
      exists []. rewrite app_nil_r. split; [done|]. change (prints []) with 0%nat. lia.
    - intros a s Ha. eapply wp_mono; [by eapply wp_int_round; [exact Hcounter| |exact Ha]; lia|].
      intros [a'|[]] s'; [done|]. by intros [-> ->]. }
  intros [] [t2 io2] (_ & _ & Et & evs2 & T2 & Hp). cbn [fst snd] in *.
  wp_step. eapply wp_drv; [apply timer_unsubscribe_spec|].
  intros r t3 io3 evs3 T3 (Hr & -> & s & ->).
  assert ((r = 0 \/ r = 1) /\ exists evs, io_trace io3 = io_trace io ++ evs /\
    Z.of_nat (prints evs) = time) as (Hr' & evs & T & Hp').
  { split; [done|]. eexists. split; [rewrite T3, T2, T1, <- !app_assoc; reflexivity|].
    rewrite !prints_app. change (prints [_]) with 0%nat. lia. }
  assert (timer_counter t2 = timer_counter t + ticks_for 60 time (timer_counter t)) as Et'.
  { change (ticks_for 60 0 _) with 0 in Et. lia. }
  destruct (tst r); wp_step; (split; [auto|]); exists evs; (split; [done|]); by right.
Qed.
End Contracts.

(** ** A concrete run *)

(** The timer rings at every third message. *)
Definition demo_clock : iost (demo metronome) :=
  demo_io (mkScript [] [] [(0, 0); (0, 0)] [] [] []) (mkMetronome 2 0).

Lemma timer_test_int_prints_witness :
  ends (fun rounds => timer_test_int timer_counter rounds 2) (fun r st =>
    (r = 0 \/ r = 1) /\ exists evs, io_trace st.2 = io_trace demo_clock ++ evs /\
    ((r = 1 /\ prints evs = 0%nat /\ timer_counter st.1 = 0 /\ exists s, s <> 0 /\
        evs = [EvIrqSet TIMER0_IRQ IRQ_REENABLE 0 s]) \/
     (Z.of_nat (prints evs) = 2 /\ timer_counter st.1 = 120))) (timer_init, demo_clock).
Proof.
  apply (timer_test_int_prints timer_counter timer_init 2 demo_clock); [reflexivity|cbn; lia..].
Defined.

(** The sixtieth ring is message 178; one more round sees that no line is left. *)
Example timer_test_int_runs :
  match timer_test_int timer_counter 179 1 (timer_init, demo_clock) with
  | Ok (r, (t, _)) => r = 0 /\ timer_counter t = 60
  | Fault _ => False
  end.
Proof. vm_compute. done. Qed.
