(* ===== verification/Lab3.v ===== *)
(** * Lab 3, the keyboard on its own: lab3/lab3.c

    The tests of the keyboard driver: printing every scan code by interrupts
    ([kbd_test_scan]), by polling ([kbd_test_poll]), and by interrupts until
    the keyboard has been idle for [n] seconds ([kbd_test_timed_scan]).  The
    three share the assembly of two-byte codes, [scan_byte], which the source
    writes out three times. *)

From S2P Require Import Prelude Machine Kbc Keyboard Timer Ipc Demo.

(** [uint8_t bytes[2]] *)
Definition buffer : Type := Z * Z.

(** The statics of the two drivers. *)
Record lab3 : Type := mkLab3 { l3_kbd : kbd_statics; l3_timer : timer_statics }.

Section Lab3.
Context {W : Type} `{Machine W, Ipc W}.

(** [counter] is declared [extern] and defined nowhere: the driver's counter is
    called [timer_counter]. *)
Variable counter : timer_statics -> Z.

(** [lcf_start] runs one of the tests; it is the library's. *)
Definition main : io W Z :=
  _ ← lib_call "lcf_set_language" [];
  _ ← lib_call "lcf_trace_calls" [];
  _ ← lib_call "lcf_log_output" [];
  r ← lib_call "lcf_start" [];
  if tst r then mret 1 else
  _ ← lib_call "lcf_cleanup" [];
  mret 0.

(** [kbd_print_scancode(make, size, bytes)] of the library reads [size] bytes. *)
Definition kbd_print_scancode (make : bool) (bytes : list Z) : io W Z :=
  lib_call "kbd_print_scancode" (Z.b2z make :: Z.of_nat (length bytes) :: bytes).

Definition clear_valid (k : kbd_statics) : kbd_statics :=
  mkKbd (kbd_hook_id k) false (scan_code k).

(** What is done with a valid byte; the answer also says whether it ends in
    [continue]. *)
Definition scan_byte (bytes : buffer) : drv W kbd_statics (buffer * bool) :=
  k ← statics;
  let make := negb (tst (Z.land (scan_code k) BREAK_BIT)) in
  if scan_code k =? DOUBLE_BYTE then mret ((scan_code k, bytes.2), true)
  else if bytes.1 =? DOUBLE_BYTE then
    _ ← on_io (kbd_print_scancode make [bytes.1; scan_code k]);
    mret ((0, scan_code k), true)
  else
    _ ← on_io (kbd_print_scancode make [scan_code k]);
    mret ((scan_code k, bytes.2), false).

(** [kbd_ih_valid = 0; kbc_ih(); if (kbd_ih_valid) ...] *)
Definition scan_interrupt (bytes : buffer) : drv W kbd_statics (buffer * bool) :=
  set_statics clear_valid ;;
  kbc_ih ;;
  k ← statics;
  if kbd_ih_valid k then scan_byte bytes else mret (bytes, false).

Definition scan_round (bit_no : Z) (bytes : buffer) : drv W kbd_statics (buffer + unit) :=
  k ← statics;
  if scan_code k =? ESC_BREAKCODE then mret (inr tt) else
  msg ← on_io receive;
  match msg with
  | None => mret (inl bytes)
  | Some mask =>
      if tst (Z.land mask bit_no) then
        '(bytes, _) ← scan_interrupt bytes; mret (inl bytes)
      else mret (inl bytes)
  end.

Definition kbd_test_scan (rounds : nat) : drv W kbd_statics Z :=
  bit ← on_io indeterminate;
  '(r, bit_no) ← keyboard_subscribe (u8 bit);
  if tst r then mret 1 else
  iter rounds (scan_round bit_no) (0, 0) ;;
  r ← keyboard_unsubscribe;
  if tst r then mret 1 else mret 0.

(** [do ... while (scan_code != ESC_BREAKCODE)]; a [continue] goes to the
    condition. *)
Definition poll_round (bytes : buffer) : drv W kbd_statics (buffer + unit) :=
  '(bytes, _) ← scan_interrupt bytes;
  k ← statics;
  if scan_code k =? ESC_BREAKCODE then mret (inr tt) else mret (inl bytes).

Definition kbd_test_poll (rounds : nat) : drv W kbd_statics Z :=
  iter rounds poll_round (0, 0) ;;
  r ← on_io keyboard_enable_interrupts;
  if tst r then mret 1 else mret 0.

Definition on_l3_kbd {A} (m : drv W kbd_statics A) : drv W lab3 A :=
  zoom (fun st => (l3_kbd st.1, st.2)) (fun c st => (mkLab3 c.1 (l3_timer st.1), c.2)) m.
Definition on_l3_timer {A} (m : drv W timer_statics A) : drv W lab3 A :=
  zoom (fun st => (l3_timer st.1, st.2)) (fun c st => (mkLab3 (l3_kbd st.1) c.1, c.2)) m.

(** The timer branch: one more idle second when the counter says so. *)
Definition timed_tick (timer_freq elapsed : Z) : drv W lab3 Z :=
  on_l3_timer timer_int_handler ;;
  l ← statics;
  if timer_freq =? 0 then fail DivByZero else
  mret (if counter (l3_timer l) mod timer_freq =? 0 then u8 (elapsed + 1) else elapsed).

(** One round of the timed loop; [count] is only ever written. *)
Definition timed_round (n kbd_bit_no timer_bit_no timer_freq : Z) (local : Z * buffer)
  : drv W lab3 ((Z * buffer) + unit) :=
  let '(elapsed, bytes) := local in
  l ← statics;
  if (scan_code (l3_kbd l) =? ESC_BREAKCODE) || negb (elapsed <? n) then mret (inr tt) else
  msg ← on_io receive;
  match msg with
  | None => mret (inl (elapsed, bytes))
  | Some mask =>
      '(elapsed, bytes, continued) ←
        (if tst (Z.land mask kbd_bit_no) then
           '(bytes, continued) ← on_l3_kbd (scan_interrupt bytes);
           mret (0, bytes, continued)
         else mret (elapsed, bytes, false));
      if (continued : bool) then mret (inl (elapsed, bytes)) else
      if tst (Z.land mask timer_bit_no) then
        elapsed ← timed_tick timer_freq elapsed; mret (inl (elapsed, bytes))
      else mret (inl (elapsed, bytes))
  end.

Definition kbd_test_timed_scan (rounds : nat) (n : Z) : drv W lab3 Z :=
  timer_bit ← on_io indeterminate;
  kbd_bit ← on_io indeterminate;
  '(r, kbd_bit_no) ← on_l3_kbd (keyboard_subscribe (u8 kbd_bit));
  if tst r then mret 1 else
  '(r, timer_bit_no) ← on_l3_timer (timer_subscribe (u8 timer_bit));
  if tst r then mret 1 else
  hz ← on_io (lib_call "sys_hz" []);
  iter rounds (timed_round n kbd_bit_no timer_bit_no (u16 hz)) (0, (0, 0)) ;;
  r ← on_l3_kbd keyboard_unsubscribe;
  if tst r then mret 1 else
  r ← on_l3_timer timer_unsubscribe;
  if tst r then mret 1 else mret 0.
End Lab3.

(** ** Lines

    What is printed of a stream of bytes. *)

(** The lines printed. *)
Definition lines (evs : list io_event) : list (list Z) :=
  omap (fun ev => match ev with
                  | EvCall nm args _ =>
                      if String.eqb nm "kbd_print_scancode" then Some args else None
                  | _ => None
                  end) evs.

(** The codes of a stream of bytes, from after a prefix or not, and the line
    each is printed as: make or break, its length, its bytes. *)
Fixpoint codes (prefix : bool) (bs : list Z) : list (list Z) :=
  match bs with
  | [] => []
  | b :: bs =>
      if b =? DOUBLE_BYTE then codes true bs
      else (if prefix then [DOUBLE_BYTE; b] else [b]) :: codes false bs
  end.

Fixpoint prefixed (prefix : bool) (bs : list Z) : bool :=
  match bs with [] => prefix | b :: bs => prefixed (b =? DOUBLE_BYTE) bs end.

Definition line_of (code : list Z) : list Z :=
  Z.b2z (negb (tst (Z.land (List.last code 0) BREAK_BIT))) :: Z.of_nat (length code) :: code.

Lemma silent_lines evs : silent evs -> lines evs = [].
Proof. induction 1 as [|ev evs Hev _ IH]; [done|]. by destruct ev. Qed.

Lemma codes_app prefix bs1 bs2 :
  codes prefix (bs1 ++ bs2) = codes prefix bs1 ++ codes (prefixed prefix bs1) bs2.
Proof.
  revert prefix. induction bs1 as [|b bs1 IH]; intros prefix; [done|]. cbn.
  destruct (b =? DOUBLE_BYTE); [apply IH|]. by rewrite IH.
Qed.

Lemma prefixed_app prefix bs1 bs2 :
  prefixed prefix (bs1 ++ bs2) = prefixed (prefixed prefix bs1) bs2.
Proof. revert prefix. by induction bs1 as [|b bs1 IH]; intros prefix; cbn. Qed.

(** ** What is printed *)

(** Since [trace] the lines printed are the codes of the valid bytes, and the
    buffer remembers a prefix. *)
Definition scanned (trace : list io_event) (bytes : buffer) (trace' : list io_event) : Prop :=
  exists evs, trace' = trace ++ evs /\ detached evs /\
    lines evs = line_of <$> codes false (valid_bytes false None evs) /\
    (bytes.1 =? DOUBLE_BYTE) = prefixed false (valid_bytes false None evs).

Lemma scanned_start trace : scanned trace (0, 0) trace.
Proof. exists []. by rewrite app_nil_r. Qed.

Lemma lines_app e1 e2 : lines (e1 ++ e2) = lines e1 ++ lines e2.
Proof. apply omap_app. Qed.

(** More events, with what they add. *)
Lemma scanned_more trace bytes trace1 bytes' evs :
  scanned trace bytes trace1 -> detached evs ->
  lines evs = line_of <$> codes (bytes.1 =? DOUBLE_BYTE) (valid_bytes false None evs) ->
  (bytes'.1 =? DOUBLE_BYTE) = prefixed (bytes.1 =? DOUBLE_BYTE) (valid_bytes false None evs) ->
  scanned trace bytes' (trace1 ++ evs).
Proof.
  intros (evs0 & -> & Hd0 & Hl & Hp) Hd Hl' Hp'. exists (evs0 ++ evs). rewrite app_assoc.
  split; [done|]. split; [by apply detached_app|]. rewrite valid_bytes_app, lines_app, codes_app, prefixed_app, fmap_app by done.
  by rewrite <- Hp, Hl, Hl', Hp'.
Qed.

(** Events without a byte and without a line. *)
Lemma scanned_idle trace bytes trace1 evs :
  scanned trace bytes trace1 -> detached evs -> valid_bytes false None evs = [] -> lines evs = [] ->
  scanned trace bytes (trace1 ++ evs).
Proof. intros Hs Hd Hv Hl. eapply scanned_more; [done..| |]; by rewrite Hv. Qed.

Lemma scanned_trans trace bytes trace1 bytes' trace2 :
  scanned trace bytes trace1 -> (bytes.1 =? DOUBLE_BYTE) = false ->
  scanned trace1 bytes' trace2 -> scanned trace bytes' trace2.
Proof.
  intros Hs Hb (evs & -> & Hd & Hl & Hp). eapply scanned_more; [done..| |]; by rewrite Hb.
Qed.

Section Scan.
Context {W : Type} `{Machine W}.

Lemma wp_scan_interrupt trace bytes (k : kbd_statics) (io : iost W) :
  scanned trace bytes (io_trace io) ->
  wp (scan_interrupt bytes) (fun r st => scanned trace r.1 (io_trace st.2)) (k, io).
Proof.
  intros Hs. unfold scan_interrupt, set_statics. wp_step. wp_step. cbn [fst snd]. wp_step.
  eapply wp_drv; [apply kbc_ih_heard|]. intros [] k1 io1 evs T (Hq & Hd & Hh).
  cbn [clear_valid kbd_ih_valid] in Hh. apply silent_lines in Hq.
  unfold statics. wp_step. wp_step. cbn [fst].
  destruct Hh as [[Ev Hv]|[Ev Hv]]; rewrite Ev.
  2:{ wp_step. cbn [fst snd]. rewrite T. by apply scanned_idle. }
  assert (forall bytes' line s, (bytes'.1 =? DOUBLE_BYTE) = false ->
    scan_code k1 <> DOUBLE_BYTE ->
    line = line_of (if bytes.1 =? DOUBLE_BYTE then [DOUBLE_BYTE; scan_code k1]
                    else [scan_code k1]) ->
    scanned trace bytes'
      (io_trace io1 ++ [EvCall "kbd_print_scancode" line s])) as Hprint.
  { intros bytes' line s Hb Hne ->. rewrite T, <- app_assoc. eapply scanned_more; [done| | |].
    - by apply detached_app.
    - rewrite lines_app, Hq, valid_bytes_app, Hv by done. cbn [app codes].
      by rewrite (proj2 (Z.eqb_neq (scan_code k1) _)).
    - rewrite valid_bytes_app, Hv by done. cbn [app prefixed].
      by rewrite (proj2 (Z.eqb_neq (scan_code k1) _)). }
  unfold scan_byte, statics. wp_step. wp_step. cbn [fst].
  destruct (Z.eqb_spec (scan_code k1) DOUBLE_BYTE) as [E|E].
  { wp_step. cbn [fst snd]. rewrite T. eapply scanned_more; [done..| |]; rewrite Hv, E; [|done].
    by rewrite Hq. }
  destruct (bytes.1 =? DOUBLE_BYTE) eqn:Eb; wp_step; apply wp_lib_call; intros s io2 T2; wp_step;
    cbn [fst snd]; rewrite T2; apply Hprint; try done.
  - apply Z.eqb_eq in Eb. by rewrite Eb.
  - by apply Z.eqb_neq.
Qed.
End Scan.

Section Silent.
Context {W : Type} `{Machine W}.

Lemma keyboard_enable_interrupts_silent :
  io_spec (W := W) keyboard_enable_interrupts (fun _ evs => silent evs).
Proof.
  unfold keyboard_enable_interrupts. io_step. io_step. cbn [app].
  do 2 (apply silent_step; [apply kbc_write_silent|]).
  io_step. eapply io_mono; [apply kbc_read_outbuff_silent|]. intros [r c] evs Hs.
  destruct (tst r); [apply io_ret, silent_app; [done|constructor]|].
  eapply io_mono; [|intros ? ? Hs'; apply silent_app; [exact Hs|exact Hs']].
  do 3 (apply silent_step; [apply kbc_write_silent|]). apply io_ret. constructor.
Qed.
End Silent.

(** From [io] to [io'] the lines printed are the codes of the valid bytes. *)
Definition printed {W} (io io' : iost W) : Prop :=
  exists evs, io_trace io' = io_trace io ++ evs /\
    lines evs = line_of <$> codes false (valid_bytes false None evs).

Section Loops.
Context {W : Type} `{Machine W, Ipc W}.
Implicit Types (io : iost W).

Lemma scanned_printed io bytes io' :
  scanned (io_trace io) bytes (io_trace io') -> printed io io'.
Proof. intros (evs & Ht & _ & Hl & _). by exists evs. Qed.

(** The trace since the start, after a first silent step. *)
Lemma scanned_started trace evs : silent evs -> detached evs -> valid_bytes false None evs = [] ->
  scanned trace (0, 0) (trace ++ evs).
Proof.
  intros Hs Hd Hv. apply scanned_idle; [apply scanned_start|done..|by apply silent_lines].
Qed.

Lemma wp_scan_round trace bit_no bytes k io :
  scanned trace bytes (io_trace io) ->
  wp (scan_round bit_no bytes) (fun r st => match r with
    | inl bytes' => scanned trace bytes' (io_trace st.2)
    | inr _ => scan_code st.1 = ESC_BREAKCODE /\ exists b, scanned trace b (io_trace st.2)
    end) (k, io).
Proof.
  intros Hs. unfold scan_round, statics. wp_step. wp_step. cbn [fst].
  destruct (Z.eqb_spec (scan_code k) ESC_BREAKCODE) as [E|E]; [wp_step; eauto|].
  wp_step. unfold on_io. apply wp_zoom. apply wp_receive. intros o w. cbn [fst snd].
  destruct o as [mask|]; [|by wp_step]. destruct (tst _); [|by wp_step].
  wp_step. eapply wp_mono; [by apply wp_scan_interrupt|]. intros [b c] st Hs'. by wp_step.
Qed.

Lemma wp_poll_round trace bytes k io :
  scanned trace bytes (io_trace io) ->
  wp (poll_round bytes) (fun r st => match r with
    | inl bytes' => scanned trace bytes' (io_trace st.2)
    | inr _ => scan_code st.1 = ESC_BREAKCODE /\ exists b, scanned trace b (io_trace st.2)
    end) (k, io).
Proof.
  intros Hs. unfold poll_round, statics. wp_step. eapply wp_mono; [by apply wp_scan_interrupt|].
  intros [b c] [k' io'] Hs'. cbn [fst snd] in Hs'. wp_step. wp_step. cbn [fst].
  destruct (Z.eqb_spec (scan_code k') ESC_BREAKCODE); wp_step; eauto.
Qed.

(** The loop of the timed scanner after [n] rounds, the timer having been [t]:
    what is printed, and no more idle seconds than have passed. *)
Definition timing counter (trace : list io_event) (freq : Z) (t : timer_statics) (n : nat)
  (local : Z * buffer) (st : lab3 * iost W) : Prop :=
  scanned trace local.2 (io_trace st.2) /\
  exists ticks, (ticks <= n)%nat /\ ticked t ticks (l3_timer st.1) /\
    0 <= local.1
      <= Z.of_nat (due_ticks counter freq (timer_hook_id t) (timer_counter t) ticks).

Lemma wpe_timed_round counter trace n kb tb freq t m local l io :
  timing counter trace freq t m local (l, io) ->
  wpe (timed_round counter n kb tb freq local) (fun f => f = DivByZero /\ freq = 0)
    (fun r st => match r with
    | inl local' => timing counter trace freq t (S m) local' st
    | inr _ => exists local', timing counter trace freq t m local' st /\
        (scan_code (l3_kbd st.1) = ESC_BREAKCODE \/ n <= local'.1)
    end) (l, io).
Proof.
  destruct local as [elapsed bytes]. intros [Hs (i & Hm & Hi & He)]. cbn [fst snd] in *.
  unfold timed_round, statics. wp_step. wp_step. cbn [fst].
  assert (forall b l' io', l3_timer l' = l3_timer l -> scanned trace b (io_trace io') ->
    forall e m', 0 <= e <= elapsed -> (m <= m')%nat ->
      timing counter trace freq t m' (e, b) (l', io')) as Hsame.
  { intros b l' io' El Hb e m' Hle Hm'. split; [done|]. exists i. cbn [fst]. rewrite El.
    split; [lia|]. split; [done|lia]. }
  destruct (Z.eqb_spec (scan_code (l3_kbd l)) ESC_BREAKCODE) as [E|E]; cbn [orb].
  { wp_step. exists (elapsed, bytes). split; [apply Hsame; (done || lia)|by left]. }
  destruct (Z.ltb_spec elapsed n) as [En|En]; cbn [negb].
  2:{ wp_step. exists (elapsed, bytes). split; [apply Hsame; (done || lia)|by right]. }
  wp_step. apply wpe_wp. unfold on_io. apply wp_zoom. apply wp_receive. intros o w. cbn [fst snd].
  destruct o as [mask|]; [|apply wpe_wp; wp_step; apply Hsame; (done || lia)].
  wp_step. apply wpe_wp.
  apply wp_mono with (P := fun r st => scanned trace r.1.2 (io_trace st.2) /\
    l3_timer st.1 = l3_timer l /\ 0 <= r.1.1 <= elapsed).
  { destruct (tst (Z.land mask kb)); [|wp_step; cbn [fst snd]; do 2 (split; [done|]); lia].
    wp_step. unfold on_l3_kbd. apply wp_zoom. cbn [fst snd].
    eapply wp_mono; [by apply wp_scan_interrupt|]. intros [b c] st Hs'. cbn [fst snd] in *.
    wp_step. cbn [fst snd]. do 2 (split; [done|]). lia. }
  intros [[e b] c] [l1 io1] (Hs1 & El & Hle). cbn [fst snd] in *.
  destruct c; [apply wpe_wp; wp_step; apply Hsame; (done || lia)|].
  destruct (tst (Z.land mask tb)); [|apply wpe_wp; wp_step; apply Hsame; (done || lia)].
  wp_step. unfold timed_tick, timer_int_handler, set_statics, on_l3_timer. wp_step.
  apply wpe_wp. apply wp_zoom. wp_step. cbn [fst snd]. wp_step. apply wpe_wp. unfold statics. wp_step.
  destruct (Z.eqb_spec freq 0) as [Ef|Ef]; [by apply wpe_fail|]. repeat wp_step.
  cbn [fst snd l3_timer]. rewrite El. pose proof (ticked_next _ _ _ Hi) as Hi'.
  split; [done|]. exists (S i). split; [lia|]. split; [exact Hi'|]. cbn [due_ticks fst l3_timer].
  destruct Hi' as [Hh Hc]. cbn [timer_counter timer_hook_id count_up] in Hh, Hc. rewrite Hh, Hc.
  pose proof (u8_range (e + 1)). unfold u8 in *.
  destruct (_ =? 0); [|lia]. pose proof (Z.mod_le (e + 1) 256). lia.
Qed.
End Loops.

Section Programs.
Context {W : Type} `{Machine W, Ipc W}.
Implicit Types (io : iost W).

Lemma wpe_kbd_test_scan rounds k io :
  0 <= kbd_hook_id k < 31 ->
  wpe (kbd_test_scan rounds) (fun f => f = OutOfFuel) (fun r st =>
    (r = 0 \/ r = 1) /\ printed io st.2 /\ (r = 0 -> scan_code st.1 = ESC_BREAKCODE)) (k, io).
Proof.
  intros Hh. unfold kbd_test_scan. wp_step. unfold on_io at 1. apply wpe_wp, wp_zoom.
  apply wp_oracle. intros junk w _. cbn [fst snd]. wp_step. apply wpe_wp.
  eapply wp_drv; [by apply (keyboard_subscribe_spec k)|].
  intros [r bit] k1 io1 evs1 T1 (_ & h & s & _ & -> & Hr). cbn [fst snd io_trace] in *.
  assert (scanned (io_trace io) (0, 0) (io_trace io1)) as Hs1.
  { rewrite T1. apply scanned_started; [by repeat constructor|done..]. }
  destruct (tst r).
  { apply wpe_wp. wp_step. split; [by right|]. split; [|done].
    by eapply scanned_printed. }
  wp_step. eapply wpe_mono.
  { apply (wpe_iter _ _ (fun bytes st => scanned (io_trace io) bytes (io_trace st.2))
      (fun _ st => scan_code st.1 = ESC_BREAKCODE /\
         exists b, scanned (io_trace io) b (io_trace st.2))); [done|exact Hs1|].
    intros bytes [k' io'] Hs. apply wpe_wp. by apply wp_scan_round. }
  cbn beta. intros [] [k2 io2] [He [b Hs2]]. cbn [fst snd] in *.
  apply wpe_wp. wp_step. eapply wp_drv; [apply keyboard_unsubscribe_spec|].
  intros r2 k3 io3 evs3 T3 (_ & -> & s3 & ->).
  assert (printed io io3) as Hp.
  { eapply scanned_printed. rewrite T3. by apply scanned_idle. }
  destruct (tst r2); wp_step; auto.
Qed.

(** Up to [io1], where the polling scanner enables the interrupts again, which
    reads the controller's command byte and prints nothing. *)
Definition polled (r : Z) (io io' : iost W) : Prop :=
  exists io1 rest, printed io io1 /\ keyboard_enable_interrupts io1 = Ok (r, io') /\
    io_trace io' = io_trace io1 ++ rest /\ lines rest = [].

Lemma wpe_kbd_test_poll rounds k io :
  wpe (kbd_test_poll rounds) (fun f => f = OutOfFuel) (fun r st =>
    (r = 0 \/ r = 1) /\ polled r io st.2 /\ scan_code st.1 = ESC_BREAKCODE) (k, io).
Proof.
  unfold kbd_test_poll. wp_step. eapply wpe_mono.
  { apply (wpe_iter _ _ (fun bytes st => scanned (io_trace io) bytes (io_trace st.2))
      (fun _ st => scan_code st.1 = ESC_BREAKCODE /\
         exists b, scanned (io_trace io) b (io_trace st.2))); [done|apply scanned_start|].
    intros bytes [k' io'] Hs. apply wpe_wp. by apply wp_poll_round. }
  cbn beta. intros [] [k2 io2] [He [b Hs2]]. cbn [fst snd] in *.
  apply wpe_wp. wp_step. unfold on_io. apply wp_zoom.
  destruct (wp_run _ _ _ (io_and _ _ _ keyboard_enable_interrupts_sequence
    keyboard_enable_interrupts_silent io2)) as (r & io3 & E & evs & T & (c & _ & Hr) & Hq).
  apply (run_wp _ _ _ _ _ E). apply silent_lines in Hq.
  assert (polled r io io3) as Hp by (exists io2, evs; split; [by eapply scanned_printed|done]).
  destruct Hr as [[-> _]|[-> _]]; [change (tst 0) with false|change (tst 1) with true];
    cbn iota; wp_step; auto.
Qed.

(** The two unsubscriptions both ways out of the timed scan take; neither prints. *)
Lemma wp_timed_leave l io :
  wp (r ← on_l3_kbd keyboard_unsubscribe;
      if tst r then mret 1 else
      r ← on_l3_timer timer_unsubscribe;
      if tst r then mret 1 else mret 0)
    (fun r st => (r = 0 \/ r = 1) /\ l3_kbd st.1 = l3_kbd l /\
       l3_timer st.1 = l3_timer l /\
       exists evs, io_trace st.2 = io_trace io ++ evs /\ detached evs /\
         bytes_taken evs = [] /\ outs evs = [] /\ lines evs = []) (l, io).
Proof.
  wp_step. unfold on_l3_kbd. apply wp_zoom. cbn [fst snd].
  eapply wp_drv; [apply keyboard_unsubscribe_spec|].
  intros r5 k5 io5 evs5 T5 (_ & -> & s5 & ->). cbn [fst snd] in *.
  destruct (tst r5); [wp_step; split; [auto|]; do 2 (split; [done|]); by eexists|].
  wp_step. unfold on_l3_timer. apply wp_zoom. cbn [fst snd].
  eapply wp_drv; [apply timer_unsubscribe_spec|].
  intros r6 k6 io6 evs6 T6 (_ & -> & s6 & ->). cbn [fst snd] in *.
  rewrite T5, <- app_assoc in T6.
  destruct (tst r6); wp_step; (split; [auto|]; do 2 (split; [done|]); by eexists).
Qed.

(** Why a timed scan that answers 0 left its loop, if not by ESC: of the timer
    interrupts it counted, no more than its rounds, [n] began a second by the
    clock rate the kernel gave. *)
Definition timed_out counter (rounds : nat) (n : Z) (l l' : lab3) (io io' : iost W) : Prop :=
  exists evs hz ticks, io_trace io' = io_trace io ++ evs /\ EvCall "sys_hz" [] hz ∈ evs /\
    (ticks <= rounds)%nat /\
    timer_counter (l3_timer l') = count_up (timer_counter (l3_timer l)) ticks /\
    n <= Z.of_nat (due_ticks counter (u16 hz) (timer_hook_id (l3_timer l'))
           (timer_counter (l3_timer l)) ticks).

Lemma wpe_kbd_test_timed_scan counter rounds n l io :
  0 <= kbd_hook_id (l3_kbd l) < 31 -> 0 <= timer_hook_id (l3_timer l) < 8 ->
  wpe (kbd_test_timed_scan counter rounds n) (fun f => f = OutOfFuel \/ f = DivByZero)
    (fun r st => (r = 0 \/ r = 1) /\ printed io st.2 /\
      (r = 0 -> scan_code (l3_kbd st.1) = ESC_BREAKCODE \/ timed_out counter rounds n l st.1 io st.2))
    (l, io).
Proof.
  intros Hk Ht. unfold kbd_test_timed_scan. do 2 (wp_step; unfold on_io at 1; apply wpe_wp, wp_zoom;
    apply wp_oracle; intros ? ? _; cbn [fst snd]).
  wp_step. unfold on_l3_kbd at 1. apply wpe_wp, wp_zoom. cbn [fst snd].
  eapply wp_drv; [by apply (keyboard_subscribe_spec (l3_kbd l))|].
  intros [r kb] k1 io1 evs1 T1 (_ & h & s & _ & -> & _). cbn [fst snd io_trace] in *.
  assert (scanned (io_trace io) (0, 0) (io_trace io1)) as Hs1.
  { rewrite T1. apply scanned_started; [by repeat constructor|done..]. }
  destruct (tst r).
  { apply wpe_wp. wp_step. split; [by right|]. split; [|done]. by eapply scanned_printed. }
  wp_step. unfold on_l3_timer at 1. apply wpe_wp, wp_zoom. cbn [fst snd].
  eapply wp_drv; [by apply (timer_subscribe_spec (l3_timer l))|].
  intros [r2 tb] t1 io2 evs2 T2 (_ & _ & h2 & s2 & -> & -> & _). cbn [fst snd] in *.
  assert (scanned (io_trace io) (0, 0) (io_trace io2)) as Hs2.
  { rewrite T2. by apply scanned_idle. }
  destruct (tst r2).
  { apply wpe_wp. wp_step. split; [by right|]. split; [|done]. by eapply scanned_printed. }
  wp_step. apply wpe_wp, wp_lib_call. intros hz io3 T3.
  assert (scanned (io_trace io) (0, 0) (io_trace io3)) as Hs3.
  { rewrite T3. by apply scanned_idle. }
  set (t := mkTimer (timer_counter (l3_timer l)) h2) in *.
  assert (exists evs, io_trace io3 = io_trace io ++ evs /\ EvCall "sys_hz" [] hz ∈ evs)
    as (evs3 & T & Hhz).
  { rewrite T3, T2, T1, <- !app_assoc. eexists. split; [done|]. set_solver. }
  wp_step. eapply wpe_mono.
  { apply (wpe_iter_count _ _
      (timing counter (io_trace io3) (u16 hz) t)
      (fun _ st => exists local, timing counter (io_trace io3) (u16 hz) t rounds local st /\
         (scan_code (l3_kbd st.1) = ESC_BREAKCODE \/ n <= local.1))); [by left| |].
    - split; [apply scanned_start|]. by exists 0%nat.
    - intros m local [l' io'] Hm Hs. eapply wpe_weaken; [|eapply wpe_mono; [by apply wpe_timed_round|]].
      { intros f [-> _]. by right. }
      intros [?|[]] st; [done|]. intros (lo & (Hsc & ticks & ? & ?) & Hstop). exists lo.
      split; [|done]. split; [done|]. exists ticks. split; [lia|done]. }
  cbn beta. intros [] [l4 io4] (local & (Hs4 & ticks & Hle & [Hh Hc] & He) & Hstop). cbn [fst snd] in *.
  apply wpe_wp. eapply wp_mono; [apply wp_timed_leave|].
  intros r' [l5 io5] (Hr & Ek & Et & evs & T5 & Hd & Hbt & _ & Hl). cbn [fst snd] in *.
  split; [exact Hr|]. split.
  - apply (scanned_printed _ local.2). rewrite T5.
    apply scanned_idle; [by eapply scanned_trans| |by apply valid_bytes_untaken|done].
    done.
  - intros _. rewrite Ek. destruct Hstop as [?|Hn]; [by left|right].
    destruct Hs4 as (evs4 & T4 & _). exists (evs3 ++ evs4 ++ evs), hz, ticks.
    split; [by rewrite T5, T4, T, <- !app_assoc|]. split; [set_solver|].
    split; [done|]. rewrite Et. split; [exact Hc|]. rewrite Hh.
    cbn [timer_hook_id timer_counter t] in *. lia.
Qed.
End Programs.

(** ** The idle keyboard *)

(** [sys_hz] of the kernel answers a constant. *)
Class SysHz (W : Type) `{Machine W} (hz : Z) : Prop :=
  sys_hz_is w : (dev_call "sys_hz" [] w).1 = hz.

Section Idle.
Context {W : Type} `{Machine W, Ipc W}.
Implicit Types (io : iost W).

(** Waiting, with [n - elapsed] seconds to go; nothing is read or printed. *)
Definition waiting (trace : list io_event) (hz total n : Z) (local : Z * buffer)
  (st : lab3 * iost W) : Prop :=
  0 <= local.1 <= n /\ 0 <= timer_counter (l3_timer st.1) /\
  timer_counter (l3_timer st.1) + ticks_for hz (n - local.1) (timer_counter (l3_timer st.1)) = total /\
  scan_code (l3_kbd st.1) <> ESC_BREAKCODE /\ io_trace st.2 = trace.

Lemma wp_idle_round kb tb `{!Rings W tb, !Unheard W kb} trace hz total n local st :
  0 < hz -> n < 256 -> total < 2 ^ 32 -> waiting trace hz total n local st ->
  wp (timed_round timer_counter n kb tb hz local) (fun r st' => match r with
    | inl local' => waiting trace hz total n local' st' /\
        let left l (x : lab3) := ticks_for hz (n - l) (timer_counter (l3_timer x)) in
        (0 <= left local'.1 st'.1 < left local.1 st.1 \/
         (left local'.1 st'.1 = left local.1 st.1 /\
          (due (io_world st'.2) < due (io_world st.2))%nat))
    | inr _ => waiting trace hz total n (n, (0, 0)) st'
    end) st.
Proof.
  intros Hhz Hn256 Htot (Hel & Hc & Hsum & Hesc & Htr). destruct st as [l io].
  destruct local as [elapsed bytes]. cbn [fst snd] in *.
  unfold timed_round, statics. wp_step. wp_step. cbn [fst].
  rewrite (proj2 (Z.eqb_neq _ _)) by done. cbn [orb].
  destruct (Z.ltb_spec elapsed n) as [En|En]; cbn [negb].
  2:{ wp_step. replace n with elapsed by lia. replace elapsed with n in Hsum by lia.
      split; [cbn; lia|]. replace elapsed with n by lia. done. }
  wp_step. unfold on_io at 1. apply wp_zoom. cbn [snd].
  apply (wp_receive_clock tb kb). intros o w Hkb Ho. cbn [fst snd].
  assert ((due w < due (io_world io))%nat ->
    waiting trace hz total n (elapsed, bytes) (l, mkIo w (io_trace io))) as Hidle by done.
  destruct o as [mask|]; [|destruct Ho as [[]|Ho]; wp_step; by split; [|right]].
  rewrite Hkb. wp_step. wp_step. cbn iota.
  destruct (tst (Z.land mask tb)); [|destruct Ho as [|Ho]; [done|wp_step; by split; [|right]]].
  set (c := timer_counter (l3_timer l)) in *.
  pose proof (ticks_for_pos hz Hhz (n - elapsed) c ltac:(lia)) as Hpos.
  pose proof (ticks_for_next hz Hhz (n - elapsed) c ltac:(lia)) as Hnext.
  wp_step. unfold timed_tick, timer_int_handler, set_statics, on_l3_timer. wp_step. apply wp_zoom.
  wp_step. cbn [fst snd]. wp_step. unfold statics. wp_step.
  rewrite (proj2 (Z.eqb_neq hz 0)) by lia. cbn [fst l3_timer timer_counter]. fold c.
  assert (u32 (c + 1) = c + 1) as -> by (unfold u32; apply Z.mod_small; lia).
  wp_step. wp_step. unfold waiting. cbn [fst snd l3_timer timer_counter l3_kbd].
  fold c. destruct ((c + 1) mod hz =? 0).
  - assert (u8 (elapsed + 1) = elapsed + 1) as -> by (unfold u8; apply Z.mod_small; lia).
    replace (n - (elapsed + 1)) with (n - elapsed - 1) by lia.
    split; [|lia]. do 3 (split; [lia|]). done.
  - split; [|lia]. do 3 (split; [lia|]). done.
Qed.
End Idle.

Section Contracts.
Context {W : Type} `{Machine W, Ipc W}.

(** C19: the three scanners, with hook numbers below 31 and 8 (their masks
    fit), print in order exactly the codes of the bytes that the controller announced as valid
    keyboard bytes just before they were read: a line for each code, two-byte
    codes put together from their 0xE0, each saying make or break, and none for
    a byte taken with an error.  This is so of the whole run of the first and
    the third, whether or not they could subscribe, and of the second up to
    where it enables the interrupts again, which prints nothing.  When the
    first answers 0, and whenever the second answers, the last scan code is the
    break code of ESC; when the third answers 0, that is so or [n] seconds have
    begun, by the clock rate the kernel gave, among the timer interrupts the
    driver counted, whatever the undefined [counter] stands for.  The only
    faults are rounds running out and the third's division by a clock rate of 0. *)
Theorem scanners_print_codes counter rounds n l (io : iost W) :
  0 <= kbd_hook_id (l3_kbd l) < 31 -> 0 <= timer_hook_id (l3_timer l) < 8 ->
  match kbd_test_scan rounds (l3_kbd l, io) with
  | Ok (r, (k, io')) => (r = 0 \/ r = 1) /\ printed io io' /\ (r = 0 -> scan_code k = ESC_BREAKCODE)
  | Fault f => f = OutOfFuel
  end /\
  match kbd_test_poll rounds (l3_kbd l, io) with
  | Ok (r, (k, io')) => (r = 0 \/ r = 1) /\ polled r io io' /\ scan_code k = ESC_BREAKCODE
  | Fault f => f = OutOfFuel
  end /\
  match kbd_test_timed_scan counter rounds n (l, io) with
  | Ok (r, (l', io')) => (r = 0 \/ r = 1) /\ printed io io' /\
      (r = 0 -> scan_code (l3_kbd l') = ESC_BREAKCODE \/ timed_out counter rounds n l l' io io')
  | Fault f => f = OutOfFuel \/ f = DivByZero
  end.
Proof.
  intros Hk Ht. pose proof (wpe_kbd_test_scan rounds (l3_kbd l) io Hk) as H1.
  pose proof (wpe_kbd_test_poll rounds (l3_kbd l) io) as H2.
  pose proof (wpe_kbd_test_timed_scan counter rounds n l io Hk Ht) as H3.
  unfold wpe in *. split; [|split].
  - by destruct (kbd_test_scan rounds (l3_kbd l, io)) as [[r [k io']]|f].
  - by destruct (kbd_test_poll rounds (l3_kbd l, io)) as [[r [k io']]|f].
  - by destruct (kbd_test_timed_scan counter rounds n (l, io)) as [[r [l' io']]|f].
Qed.

(** With an idle keyboard the timed scanner ends by its clock: when only
    timer interrupts keep arriving, some number of rounds is enough for it to
    answer, and by then the counter has seen [n] full seconds of the clock's
    rate (the first one already begun); the subscriptions and their removal
    are all it did. *)
Theorem kbd_test_timed_scan_times_out l n hz (io : iost W) `{!SysHz W hz}
  `{!Rings W (u8 (BIT (timer_hook_id (l3_timer l))))}
  `{!Unheard W (u8 (BIT (kbd_hook_id (l3_kbd l))))} :
  0 <= kbd_hook_id (l3_kbd l) < 31 -> 0 <= timer_hook_id (l3_timer l) < 8 ->
  scan_code (l3_kbd l) <> ESC_BREAKCODE -> 0 < u16 hz -> 0 <= n < 256 ->
  0 <= timer_counter (l3_timer l) -> timer_counter (l3_timer l) + u16 hz * n < 2 ^ 32 ->
  ends (fun rounds => kbd_test_timed_scan timer_counter rounds n) (fun r st =>
    (r = 0 \/ r = 1) /\ exists evs, io_trace st.2 = io_trace io ++ evs /\
      bytes_taken evs = [] /\ outs evs = [] /\ lines evs = [] /\
    (timer_counter (l3_timer st.1) = timer_counter (l3_timer l)
       + ticks_for (u16 hz) n (timer_counter (l3_timer l)) \/
     (r = 1 /\ timer_counter (l3_timer st.1) = timer_counter (l3_timer l) /\
      exists ev, last evs = Some ev /\
        match ev with EvIrqSet _ _ _ s => s <> 0 | _ => False end))) (l, io).
Proof.
  intros Hk Ht Hesc Hhz Hn Hc Hmax. unfold kbd_test_timed_scan.
  do 2 (apply ends_after; unfold on_io at 1; apply wp_zoom; apply wp_oracle; intros ? ? _;
    cbn [fst snd]).
  apply ends_after. unfold on_l3_kbd at 1. apply wp_zoom. cbn [fst snd].
  eapply wp_drv; [by apply (keyboard_subscribe_spec (l3_kbd l))|].
  intros [r kb] k1 io1 evs1 T1 (Ekb & h & s & -> & -> & Hr). cbn [fst snd io_trace] in *.
  destruct (tst r) eqn:Er.
  { apply ends_const. wp_step. split; [by right|]. eexists. split; [exact T1|].
    repeat (split; [done|]). right. split; [done|]. split; [done|].
    eexists. split; [done|]. intros ->. by subst r. }
  apply ends_after. unfold on_l3_timer at 1. apply wp_zoom. cbn [fst snd].
  eapply wp_drv; [by apply (timer_subscribe_spec (l3_timer l))|].
  intros [r2 tb] t1 io2 evs2 T2 (Etb & _ & h2 & s2 & -> & -> & Hr2). cbn [fst snd] in *.
  subst kb tb. rewrite T1, <- app_assoc in T2.
  destruct (tst r2) eqn:Er2.
  { apply ends_const. wp_step. split; [by right|]. eexists. split; [exact T2|].
    repeat (split; [done|]). right. split; [done|]. split; [done|].
    eexists. split; [done|]. intros ->. by subst r2. }
  apply ends_after. unfold on_io at 1. apply wp_zoom. cbn [fst snd].
  unfold lib_call, wp, emit. pose proof (sys_hz_is (io_world io2)) as Eh.
  destruct (dev_call "sys_hz" [] (io_world io2)) as [hz' w2]. cbn [fst] in Eh. subst hz'.
  rewrite T2, <- app_assoc.
  match goal with |- ends _ _ (?x, ?y) => set (l3 := x); set (io3 := y) end.
  set (c := timer_counter (l3_timer l)) in *.
  pose proof (ticks_for_bound (u16 hz) Hhz n c ltac:(lia)) as Hb.
  apply ends_bind. eapply ends_mono.
  { eapply (wp_iter_due (u8 (BIT (timer_hook_id (l3_timer l)))) _
      (waiting (io_trace io3) (u16 hz) (c + ticks_for (u16 hz) n c) n)
      (fun local x => ticks_for (u16 hz) (n - local.1) (timer_counter (l3_timer x)))
      (fun _ st => waiting (io_trace io3) (u16 hz) (c + ticks_for (u16 hz) n c) n
         (n, (0, 0)) st)).
    - split; [cbn; lia|]. split; [done|]. split; [|done]. cbn [fst].
      by rewrite Z.sub_0_r.
    - intros local st Hw. eapply wp_idle_round; [apply _|exact Hhz| | |exact Hw]; lia. }
  intros [] [l4 io4] (_ & _ & Et & _ & T4). cbn [fst snd] in *.
  rewrite Z.sub_diag in Et. unfold ticks_for at 1 in Et. cbn [Z.eqb] in Et.
  eapply wp_mono; [apply wp_timed_leave|].
  intros r' st (Hr' & _ & Ec & evs & T & _ & Hbt & Ho & Hl). cbn [fst snd] in *. split; [exact Hr'|].
  rewrite T4 in T. subst io3. cbn [io_trace] in T. rewrite <- !app_assoc in T.
  eexists. split; [exact T|]. split; [exact Hbt|]. split; [exact Ho|]. split; [exact Hl|].
  left. rewrite Ec. lia.
Qed.
End Contracts.

(** ** Concrete runs *)

(** A machine whose kernel calls succeed, whose ports do not answer and whose
    clock has sixty ticks a second. *)
Inductive steady : Type := Steady.

#[export] Instance steady_machine : Machine steady := {
  dev_inb _ w := ((1, 0), w);
  dev_outb _ _ w := (1, w);
  dev_tickdelay _ w := w;
  dev_micros_to_ticks _ _ := 1;
  dev_irqsetpolicy _ _ h w := ((0, h), w);
  dev_irqrmpolicy _ w := (0, w);
  dev_malloc w := (true, w);
  dev_call name _ w := (if String.eqb name "sys_hz" then 60 else 0, w);
  dev_indeterminate w := (0, w);
}.

#[export] Instance steady_hz {X} : SysHz (steady * X) 60.
Proof. by intros [[] x]. Qed.

Definition lab3_init : lab3 := mkLab3 kbd_init timer_init.

Lemma kbd_test_timed_scan_times_out_witness :
  ends (fun rounds => kbd_test_timed_scan timer_counter rounds 3) (fun r st =>
    (r = 0 \/ r = 1) /\ exists evs, io_trace st.2 = [] ++ evs /\
      bytes_taken evs = [] /\ outs evs = [] /\ lines evs = [] /\
    (timer_counter (l3_timer st.1) = 180 \/
     (r = 1 /\ timer_counter (l3_timer st.1) = 0 /\
      exists ev, last evs = Some ev /\
        match ev with EvIrqSet _ _ _ s => s <> 0 | _ => False end)))
    (lab3_init, mkIo (Steady, mkMetronome 4 0) []).
Proof.
  assert (Unheard (steady * metronome) (u8 (BIT (kbd_hook_id (l3_kbd lab3_init))))) as Hu
    by (by apply metronome_unheard).
  apply (kbd_test_timed_scan_times_out lab3_init 3 60 (mkIo (Steady, mkMetronome 4 0) []));
    by vm_compute.
Defined.

(** The arrow up is pressed and then ESC released: two lines. *)
Definition demo_scan : iost (demo (list message)) :=
  demo_io (mkScript (mjoin ((fun b => [(0, 1); (0, 1); (0, b)]) <$> [0xE0; 0x48; 0x81]))
    [] [(0, 1); (0, 1)] [] [] []) (replicate 3 (interrupt 2)).

Lemma scanners_print_codes_witness :
  exists r k io', kbd_test_scan 4 (kbd_init, demo_scan) = Ok (r, (k, io')) /\
    printed demo_scan io' /\ scan_code k = ESC_BREAKCODE.
Proof.
  destruct (scanners_print_codes timer_counter 4 3 lab3_init demo_scan) as [Hs _];
    [cbn; lia..|].
  destruct (kbd_test_scan 4 (l3_kbd lab3_init, demo_scan)) as [[r [k io']]|f] eqn:E;
    assert (E2 := E); vm_compute in E2; [|discriminate].
  injection E2 as <- <- <-. eexists _, _, _. split; [exact E|]. split; [apply Hs|]. by apply Hs.
Defined.

Example demo_scan_lines :
  match kbd_test_scan 4 (kbd_init, demo_scan) with
  | Ok (_, (_, io')) => lines (io_trace io') = [[1; 2; 0xE0; 0x48]; [0; 1; 0x81]]
  | Fault _ => False
  end.
Proof. vm_compute. done. Qed.
