(* ===== verification/Lab4.v ===== *)
(** * Lab 4, the mouse on its own: lab4/lab4.c

    [mouse_test_packet] prints [cnt] packets.  Its handler reads a byte at
    every hardware notification and one more when the mouse is among the
    interrupts.  The other three tests of the lab are not implemented in the
    source and answer 1. *)

From S2P Require Import Prelude Machine Kbc MouseDrv Ipc Demo.

Section Lab4.
Context {W : Type} `{Machine W, Ipc W}.

(** [lcf_start] runs one of the tests; it is the library's. *)
Definition main : io W Z :=
  _ ← lib_call "lcf_set_language" [];
  _ ← lib_call "lcf_trace_calls" [];
  _ ← lib_call "lcf_log_output" [];
  r ← lib_call "lcf_start" [];
  if tst r then mret 1 else
  _ ← lib_call "lcf_cleanup" [];
  mret 0.

Definition mouse_ih : drv W mouse_statics unit :=
  _ ← mouse_read_packet; mret tt.

(** The fields of a packet, as the printer of the library gets them. *)
Definition packet_fields (p : packet) : list Z :=
  let '(b0, b1, b2) := pk_bytes p in
  [b0; b1; b2; Z.b2z (rb p); Z.b2z (mb p); Z.b2z (lb p); delta_x p; delta_y p;
   Z.b2z (x_ov p); Z.b2z (y_ov p)].

Definition mouse_print_packet (p : packet) : io W Z :=
  lib_call "mouse_print_packet" (packet_fields p).

(** One round of the loop: what is left to print, and the local [packet]. *)
Definition packet_round (local : Z * packet) : drv W mouse_statics ((Z * packet) + unit) :=
  let '(cnt, packet) := local in
  if cnt =? 0 then mret (inr tt) else
  msg ← on_io receive;
  match msg with
  | None => mret (inl (cnt, packet))
  | Some mask =>
      mouse_ih ;;
      if tst (Z.land mask (BIT 2)) then
        mouse_ih ;;
        m ← statics;
        if mouse_packet_ready m then
          '(_, packet) ← mouse_get_packet packet;
          _ ← on_io (mouse_print_packet packet);
          mret (inl (cnt - 1, packet))
        else mret (inl (cnt, packet))
      else mret (inl (cnt, packet))
  end.

(** [garbage] is what the local [packet] holds before it is written. *)
Definition mouse_test_packet (rounds : nat) (garbage : packet) (cnt : Z)
  : drv W mouse_statics Z :=
  r ← on_io (mouse_write_command MOUSE_COMM_ENABLE_DATA_REPORTING);
  if tst r then mret 1 else
  bit ← on_io indeterminate;
  '(r, mouse_bit_no) ← mouse_subscribe (u8 bit);
  if tst r then mret 1 else
  iter rounds packet_round (cnt, garbage) ;;
  r ← mouse_unsubscribe;
  if tst r then mret 1 else
  r ← on_io (mouse_write_command MOUSE_COMM_DISABLE_DATA_REPORTING);
  if tst r then mret 1 else mret 0.

Definition mouse_test_async (idle_time : Z) : io W Z := mret 1.
Definition mouse_test_gesture (x_len tolerance : Z) : io W Z := mret 1.
Definition mouse_test_remote (period cnt : Z) : io W Z := mret 1.
End Lab4.

(** ** What is printed *)

Definition packets (evs : list io_event) : list (list Z) :=
  omap (fun ev => match ev with
                  | EvCall nm args _ =>
                      if String.eqb nm "mouse_print_packet" then Some args else None
                  | _ => None
                  end) evs.

(** A line printed for three bytes the first of which can start a packet. *)
Definition framed_line (line : list Z) : Prop :=
  exists bs, Z.testbit bs.1.1 3 = true /\ line = packet_fields (decode bs).

Lemma packets_app e1 e2 : packets (e1 ++ e2) = packets e1 ++ packets e2.
Proof. apply omap_app. Qed.

Lemma silent_packets evs : silent evs -> packets evs = [].
Proof. induction 1 as [|ev evs Hev _ IH]; [done|]. by destruct ev. Qed.

Lemma framing_inv_byte b m : framing_inv m -> framing_inv (set_current_byte b m).
Proof. exact id. Qed.

Section Prints.
Context {W : Type} `{Machine W, Ipc W}.
Implicit Types (io : iost W).

Lemma mouse_write_command_silent command :
  io_spec (W := W) (mouse_write_command command) (fun _ evs => silent evs).
Proof.
  unfold mouse_write_command. io_step. io_step. cbn [app].
  generalize (Z.to_nat MAX_ATTEMPTS) (u8 a). intros n. induction n as [|n IH]; intros aknl;
    cbn [mouse_write_command_loop]; [io_steps; constructor|].
  io_step; [io_steps; constructor|].
  do 2 (apply silent_step; [apply kbc_write_silent|]). unfold delay, util_sys_inb.
  io_steps; try (eapply io_mono; [apply IH|]; intros ? ? Hs);
    unfold silent in *; repeat (apply Forall_app; split); (exact Hs || by repeat constructor).
Qed.

Lemma wp_mouse_ih (Q : unit -> mouse_statics * iost W -> Prop) m io :
  framing_inv m ->
  (forall m' io' evs, io_trace io' = io_trace io ++ evs -> silent evs -> framing_inv m' ->
     Q tt (m', io')) ->
  wp mouse_ih Q (m, io).
Proof.
  intros Hf HQ. unfold mouse_ih, mouse_read_packet, statics, set_statics. do 3 wp_step.
  cbn [fst snd]. wp_step. unfold on_io. apply wp_zoom. cbn [fst snd].
  eapply wp_mono; [apply kbc_read_outbuff_silent|]. intros [r b] io' (evs & T & Hs).
  cbn [fst snd]. do 2 wp_step. cbn [fst snd].
  destruct (tst r); repeat wp_step; (eapply HQ; [exact T|exact Hs|]); [done|].
  cbn [fst]. by apply feed_framing.
Qed.

(** [printed] lines since [trace], [cnt0 - cnt] of them. *)
Definition printed (trace : list io_event) (cnt0 cnt : Z) (st : mouse_statics * iost W) : Prop :=
  framing_inv st.1 /\ exists evs, io_trace st.2 = trace ++ evs /\
    Forall framed_line (packets evs) /\ Z.of_nat (length (packets evs)) = cnt0 - cnt.

Lemma printed_silent trace cnt0 cnt m io m' io' evs :
  printed trace cnt0 cnt (m, io) -> framing_inv m' -> io_trace io' = io_trace io ++ evs ->
  silent evs -> printed trace cnt0 cnt (m', io').
Proof.
  intros (_ & evs0 & T0 & HF & Hl) Hf T Hs. split; [done|]. exists (evs0 ++ evs).
  cbn [snd] in *. rewrite T, T0, packets_app, (silent_packets evs), app_nil_r, app_assoc; done.
Qed.

Lemma wp_packet_round trace cnt0 local st :
  0 <= local.1 -> printed trace cnt0 local.1 st ->
  wp (packet_round local) (fun r st' => match r with
    | inl local' => 0 <= local'.1 /\ printed trace cnt0 local'.1 st'
    | inr _ => printed trace cnt0 0 st'
    end) st.
Proof.
  destruct local as [cnt packet], st as [m io]. cbn [fst]. intros Hc Hp. unfold packet_round.
  destruct (Z.eqb_spec cnt 0) as [->|Hne]; [by wp_step|].
  wp_step. unfold on_io at 1. apply wp_zoom. apply wp_receive. intros o w. cbn [fst snd].
  destruct o as [mask|]; [|by wp_step]. wp_step.
  apply wp_mouse_ih; [apply Hp|]. intros m1 io1 evs1 T1 S1 F1.
  assert (printed trace cnt0 cnt (m1, io1)) as P1 by (by eapply printed_silent).
  destruct (tst _); [|by wp_step].
  wp_step. apply wp_mouse_ih; [done|]. intros m2 io2 evs2 T2 S2 F2.
  assert (printed trace cnt0 cnt (m2, io2)) as P2 by (by eapply printed_silent).
  unfold statics, mouse_packet_ready. wp_step. wp_step. cbn [fst].
  destruct (packet_ready m2) eqn:Er; [|by wp_step].
  unfold mouse_get_packet, statics, set_statics. wp_step. wp_step. wp_step. cbn [fst].
  rewrite Er. cbn [negb]. do 2 wp_step. cbn [fst snd]. wp_step. wp_step.
  apply wp_lib_call. intros r io3 T3. wp_step. cbn [fst]. split; [lia|].
  destruct P2 as (_ & evs & T & HF & Hl). cbn [snd] in T.
  split; [exact F2|]. exists (evs ++ [EvCall "mouse_print_packet" (packet_fields (decode (bytes m2))) r]).
  cbn [snd]. rewrite T3, T, packets_app, app_assoc, length_app. split; [done|]. split; [|cbn; lia].
  apply Forall_app. split; [done|]. apply Forall_singleton. exists (bytes m2).
  split; [|done]. destruct F2 as (_ & _ & Hb). by apply Hb; right.
Qed.

(** What the test leaves behind, with its answer. *)
Definition reported (trace : list io_event) (cnt r : Z) (io : iost W) : Prop :=
  (r = 0 \/ r = 1) /\ exists evs, io_trace io = trace ++ evs /\
    Forall framed_line (packets evs) /\
    (Z.of_nat (length (packets evs)) = cnt \/ (r = 1 /\ packets evs = [])).

Lemma printed_all trace cnt r m io :
  printed trace cnt 0 (m, io) -> r = 0 \/ r = 1 -> reported trace cnt r io.
Proof.
  intros (_ & evs & T & HF & Hl) Hr. split; [done|]. exists evs.
  split; [done|]. split; [done|]. left. lia.
Qed.

Lemma printed_none trace cnt m io : printed trace cnt cnt (m, io) -> reported trace cnt 1 io.
Proof.
  intros (_ & evs & T & HF & Hl). split; [by right|]. exists evs.
  split; [done|]. split; [done|]. right. split; [done|].
  apply length_zero_iff_nil. lia.
Qed.

(** C34: [mouse_test_packet] never faults, for any device and any messages; when
    it answers 0 it has printed exactly [cnt] packets, and whatever it printed
    on the way to any answer was decoded from three bytes the first of which
    has the bit that marks a first byte. *)
Theorem mouse_test_packet_prints rounds garbage cnt m io :
  framing_inv m -> 0 <= mouse_hook_id m < 31 -> 0 <= cnt < 2 ^ 32 ->
  match mouse_test_packet rounds garbage cnt (m, io) with
  | Ok (r, (m', io')) => (r = 0 \/ r = 1) /\ exists evs, io_trace io' = io_trace io ++ evs /\
      Forall framed_line (packets evs) /\
      (Z.of_nat (length (packets evs)) = cnt \/ (r = 1 /\ packets evs = []))
  | Fault f => f = OutOfFuel
  end.
Proof.
  intros Hf Hh Hc.
  cut (wpe (mouse_test_packet rounds garbage cnt) (fun f => f = OutOfFuel) (fun r st =>
    reported (io_trace io) cnt r st.2) (m, io)).
  { unfold wpe. by destruct (mouse_test_packet _ _ _ _) as [[r [m' io']]|f]. }
  assert (printed (io_trace io) cnt cnt (m, io)) as P0.
  { split; [done|]. exists []. rewrite app_nil_r. split; [done|]. split; [constructor|cbn; lia]. }
  unfold mouse_test_packet. wp_step. apply wpe_wp. unfold on_io at 1. apply wp_zoom.
  eapply wp_mono; [apply mouse_write_command_silent|]. intros r1 io1 (evs1 & T1 & S1).
  cbn [fst snd] in *.
  assert (printed (io_trace io) cnt cnt (m, io1)) as P1 by (by eapply printed_silent).
  destruct (tst r1); [apply wpe_wp; wp_step; by eapply printed_none|].
  wp_step. apply wpe_wp. unfold on_io at 1. apply wp_zoom. apply wp_oracle. intros junk w _.
  cbn [fst snd]. wp_step. apply wpe_wp. eapply wp_drv; [by apply (mouse_subscribe_spec m)|].
  intros [r2 bit] m2 io2 evs2 T2 (h & s & -> & ->).
  assert (printed (io_trace io) cnt cnt (set_hook h m, io2)) as P2.
  { eapply printed_silent; [exact P1|exact Hf|exact T2|by repeat constructor]. }
  destruct (tst r2); [apply wpe_wp; wp_step; by eapply printed_none|].
  wp_step. eapply wpe_mono.
  { apply (wpe_iter _ _ (fun local st => 0 <= local.1 /\ printed (io_trace io) cnt local.1 st)
      (fun _ st => printed (io_trace io) cnt 0 st)); [done|split; [cbn; lia|exact P2]|].
    intros local st [Hl Hp]. apply wpe_wp. by apply wp_packet_round. }
  cbn beta. intros [] [m3 io3] P3. apply wpe_wp. wp_step.
  eapply wp_drv; [apply mouse_unsubscribe_spec|]. intros r4 m4 io4 evs4 T4 (Hr4 & -> & s4 & ->).
  assert (printed (io_trace io) cnt 0 (m3, io4)) as P4.
  { eapply printed_silent; [exact P3|apply P3|exact T4|by repeat constructor]. }
  destruct (tst r4); [wp_step; eapply printed_all; [exact P4|auto]|].
  wp_step. unfold on_io. apply wp_zoom.
  eapply wp_mono; [apply mouse_write_command_silent|]. intros r5 io5 (evs5 & T5 & S5).
  cbn [fst snd] in *.
  assert (printed (io_trace io) cnt 0 (m3, io5)) as P5.
  { eapply printed_silent; [exact P4|apply P3|exact T5|exact S5]. }
  destruct (tst r5); wp_step; (eapply printed_all; [exact P5|auto]).
Qed.
End Prints.

(** ** Concrete runs *)

(** The mouse sends one packet, and the controller is empty after it. *)
Definition one_packet : list (Z * Z) :=
  [(0, 0x21); (0, 0x28); (0, 0x21); (0, 5); (0, 0x21); (0, 7)].

Definition demo_packet : iost (demo (list message)) :=
  demo_io (mkScript ([(0, 0); (0, 0); (0, 0xFA)] ++ one_packet) [0; 0] [(0, 0)] [] [] [])
    (replicate 3 (interrupt 4)).

Lemma mouse_test_packet_prints_witness :
  match mouse_test_packet 4 packet0 2 (mouse_drv_init, demo_packet) with
  | Ok (r, (m', io')) => (r = 0 \/ r = 1) /\ exists evs, io_trace io' = [] ++ evs /\
      Forall framed_line (packets evs) /\
      (Z.of_nat (length (packets evs)) = 2 \/ (r = 1 /\ packets evs = []))
  | Fault f => f = OutOfFuel
  end.
Proof.
  apply (mouse_test_packet_prints 4 packet0 2 mouse_drv_init demo_packet);
    [apply framing_init|cbn; lia|lia].
Defined.

(** The one packet is printed twice: a failed read leaves [packet_ready] set. *)
Example one_packet_printed_twice :
  match iter 4 packet_round (2, packet0) (mouse_drv_init,
      demo_io (X := list message) (mkScript one_packet [] [] [] [] [])
        (replicate 3 (interrupt 4))) with
  | Ok (_, (_, io')) => packets (io_trace io')
      = replicate 2 [0x28; 5; 7; 0; 0; 0; 5; -249; 0; 0]
  | Fault _ => False
  end.
Proof. vm_compute. done. Qed.
