(* ===== verification/SpritesLab.v ===== *)
(** * The picture of lab 5: lcom/pixmap.h

    The XPM array of the penguin, string by string. *)

From S2P Require Import Prelude.

#[local] Open Scope string_scope.

Definition penguin : list string := [
"64 64 9";
"  0";
". 15";
"+ 8";
"@ 14";
"# 4";
"$ 6";
"% 7";
"& 9";
"* 1";
"                                                                ";
"                                                                ";
"                           +#++#&+#+                            ";
"                        +..%......&.+++                         ";
"                     #...+..+.+.+.#.+.+++                       ";
"                    .*#%..+.%.&.#*+.#%.++++                     ";
"                  #.+.#*#%..+.#*#.%#*#+.++++                    ";
"                 .&.%......#*#.%.+.#&.+%#%++++                  ";
"                #*#..........+.+.+.+.+.++#+++++                 ";
"               &#.+..........%.+.&#*#&#*.+&+++++                ";
"              +.+.............#*#.+.......#++++++               ";
"             #+.+..............+.+..........+++++               ";
"            +&.+%..............%+............+++++              ";
"            ++.+#.............................+++++             ";
"           ++.+%.............#..#..#..........+++++             ";
"          +++.++%..........#    .    #........++++++            ";
"          ++++.+...........#   .     #.....%..+++++++           ";
"          ++%+#+&..........#   .     #........+++++++           ";
"         +++#*+#..%.........#  .    #........%+++++++           ";
"         ++++%+++..%..%......#.#..#...%..%#..+++++++++          ";
"        +++++#+&+#.......%..................++++++++++          ";
"        ++++*++.+++.%.#...@@@@@@@@@@@@...%.+++++++++++          ";
"        +++++#+++%#$#.&.+.%@@@@@@@@@@...#++++++++++++++         ";
"        +++++&+.++++*.#.....@@@@@@@@......+++++++++&+++         ";
"       ++++++++++%#%....%....@@@@@@........+++++++++++%         ";
"       +++++++++++#...........@@@@@.........+++++++++++         ";
"       ++++++++++..............@@@...........+++++++++++        ";
"      +++++++++++...............@.............+++++%+++++       ";
"    ++++++++++++.....................%.........+++++++++++      ";
"   ++++++++++++%.........................%..%..%++++%++++++     ";
"  +++++++++++++...............................#.++++++++++++    ";
" +++++++++++++%..%.........................#.....++++++++++++   ";
"++++++++++++++........................%..%..%.+.%++%++++++++++  ";
"++++++++++++++...................................#++%++++++++++ ";
"    +++++++++...%..%.....................%.+.%#.%.++++++        ";
"       ++++++%....................%...........$.#.#+#%+         ";
"       +++++#........................%..#..+.#.%$%+&+++         ";
"        ++++&.#.%..%....................%...*#.#...+#++         ";
"        ++++..%...........................%..%.+.+.+&++         ";
"        +++++...%.....%.........%...%..+..#.#..#.%.+#+          ";
"        ++++..#...%......%...............&.*.+.*#$#&++          ";
"         +++..*#...%.........%.....#..%...#.%.#%.+..++          ";
"         +++.#...#..............%...%..#..&.#*#.+.+++           ";
"          ++.%.&...%..%..%..........#..*#..+..+.#%.++           ";
"          ++..#..+..........%...%..$..%..+..&#*.+.+++           ";
"           +*.+.....%............#..$.#...+.#.+.+%.+            ";
"           +...%.+.#..%.%..#.%.#..%.#.*#%..&.+.+.+++            ";
"            +.+.......#..%.....%...%.#..&#$#%.+.+.+             ";
"            #..%#*#%....#..+..$..+..+.&#.+.+.+%+#&              ";
"             +.....#*#$.+...%.#...+....+.%#*#.+.+               ";
"              +.+.&..%..%.+.#.&.+..&#+.+.+.+.++++               ";
"               %..+.#.+.+.+.*#..%#.$.+.&#*#&#%.+                ";
"                +.%#*#%#$.%#.+.+.+.+%#$#+%#*+++                 ";
"                 @#.#$#%++.+.%.+.&.#*#%+#$##$#                  ";
"          .@.@@@@@@@@@@$#.++.+.#.+.+%#$......@@@@@@@            ";
"        @@@@@.@.@@@@@@@@@$.+$#&+.+.+@@..@....@.@@@$@@$          ";
"       @@@@@@.@@.@$@$@$$@$@+%#$#&#+@@.@..@@.@.@@$@@$$$$+        ";
"      @@@@@@@@@@@@@$@$@$@$$$+%+.+%$$@@$@@.@.@$@$@$$@$$$$        ";
"       @@@@$@$@$@$$@$$$$$$$#++++++#$@$@$$$$@$$@$$$$$$$$+        ";
"        @$@@$@$@$@$$$$$$$$          $$$$@$$$$$$$$$$$$$+         ";
"          $$@$$$$$$$$$$$               $$$$$$$$$$$$+            ";
"                                                                ";
"                                                                ";
"                                                                "
].
