(* ===== verification/Lab5Gpu.v ===== *)
(** * Lab 5, the video driver: lab5/gpu.h and lab5/gpu.c

    An earlier copy of the driver of drivers/gpu.c, over the same statics.  The
    functions with the same body there are those of Gpu.v; the others draw
    through [gpu_draw_pixel], whose [uint16_t] coordinates make every drawing
    wrap around at 65536. *)

From S2P Require Import Prelude Machine Geometry Picture Gpu Xpm Demo.

(** [a << n] on an [int] and on a [uint32_t]. *)
Definition shl_int {S} (a n : Z) : M S Z :=
  if (0 <=? n) && (n <? 32) then int (Z.shiftl a n) else fail SignedOverflow.
Definition shl_u32 {S} (a n : Z) : M S Z :=
  if (0 <=? n) && (n <? 32) then mret (u32 (Z.shiftl a n)) else fail SignedOverflow.

Definition returned (r : option Z) : Z := match r with Some r => r | None => 0 end.

Definition vg_draw_hline (x y len color : Z) : M gpu Z :=
  r ← for_ret (Z.to_nat len) 0 (fun n =>
    px ← int (x + n);
    r ← gpu_draw_pixel (u16 px) y color;
    mret (if tst r then Some 1 else None));
  mret (returned r).

Definition vg_draw_rectangle (x y width height color : Z) : M gpu Z :=
  r ← for_ret (Z.to_nat height) 0 (fun n =>
    py ← int (y + n);
    r ← vg_draw_hline x (u16 py) width color;
    mret (if tst r then Some 1 else None));
  mret (returned r).

(** One component of a direct colour: the expression masks [first] with the
    position of the field, not with its size. *)
Definition pattern_component (first : Z) (mask : Z * Z) (increment : Z) : M gpu Z :=
  let '(size, location) := mask in
  field ← shl_int location size;
  low ← int (field - 1);
  range ← bit_int size;
  mret (u32 (Z.land first (u32 low) + increment) mod range).

Definition pattern_color (no_rectangles first step nx ny : Z) : M gpu (option Z) :=
  g ← get;
  if color_mode g =? INDEX_MODE then
    n ← int ((ny * no_rectangles + nx) * step);
    range ← bit_int (bits_per_pixel g);
    mret (Some (u32 (first + n) mod range))
  else if color_mode g =? DIRECT_MODE then
    red ← pattern_component first (red_mask g) (nx * step);
    green ← pattern_component first (green_mask g) (ny * step);
    blue ← pattern_component first (blue_mask g) ((nx + ny) * step);
    red ← shl_u32 red (red_mask g).2;
    green ← shl_u32 green (green_mask g).2;
    blue ← shl_u32 blue (blue_mask g).2;
    mret (Some (Z.lor (Z.lor red green) blue))
  else mret None.

(** The parameters are a [uint8_t], a [uint32_t] and a [uint8_t]; the sizes of
    the rectangles are stored in [uint8_t]s. *)
Definition aux_draw_pattern (no_rectangles first step : Z) : M gpu Z :=
  g ← get;
  if no_rectangles =? 0 then fail DivByZero else
  let size_x := u8 (x_res g / no_rectangles) in
  let size_y := u8 (y_res g / no_rectangles) in
  r ← for_ret (Z.to_nat no_rectangles) 0 (fun ny =>
    for_ret (Z.to_nat no_rectangles) 0 (fun nx =>
      let y := u16 (ny * size_y) in
      let x := u16 (nx * size_x) in
      color ← pattern_color no_rectangles first step nx ny;
      match color with
      | Some color =>
          r ← vg_draw_rectangle x y size_x size_y color;
          mret (if tst r then Some 1 else None)
      | None => mret None
      end));
  mret (returned r).

Definition aux_clear : M gpu Z :=
  g ← get;
  r ← vg_draw_rectangle 0 0 (x_res g) (y_res g) 0;
  if tst r then mret 1 else mret 0.

(** The functions whose bodies are those of drivers/gpu.c; the error messages
    of [gpu_r86_err_hand] are diagnostics. *)
Section Same.
Context {W : Type} `{Machine W}.

Definition gpu_r86_err_hand (ah al : Z) : io W unit := mret tt.
Definition gpu_set_mode (mode : Z) : io W Z := Gpu.gpu_set_mode mode.
Definition gpu_init_mem_indexation `{Video W} (mode : Z) : drv W gpu Z :=
  Gpu.gpu_init_mem_indexation mode.
Definition gpu_draw_pixel (x y color : Z) : M gpu Z := Gpu.gpu_draw_pixel x y color.
Definition aux_draw_xpm `{XpmLoader W} (xpm : xpm_map) (x y : Z) : drv W gpu Z :=
  Gpu.aux_draw_xpm xpm x y.
Definition aux_vg_commit : M gpu unit := gpu_buffer_commit.
End Same.

(** ** What is painted *)

(** A picture of [w] by [h] pixels at [(x, y)], wrapping around. *)
Definition wrapped (x y w h : Z) (f : picture) : picture :=
  fun px py =>
    if decide (u16 (px - x) < w /\ u16 (py - y) < h)
    then f (u16 (px - x)) (u16 (py - y)) else None.

Definition plain (color : Z) : picture := fun _ _ => Some (u8 color).

Lemma wrap_hit p x n : 0 <= p < 65536 -> 0 <= n < 65536 -> p = u16 (x + n) <-> u16 (p - x) = n.
Proof.
  intros Hp Hn. unfold u16. split.
  - intros ->. rewrite Zminus_mod_idemp_l. replace (x + n - x) with n by lia.
    by apply Z.mod_small.
  - intros <-. rewrite Zplus_mod_idemp_r. replace (x + (p - x)) with p by lia.
    symmetry. by apply Z.mod_small.
Qed.

Lemma screen_u16 g px py : indexed g -> on_screen g px py -> 0 <= px < 65536 /\ 0 <= py < 65536.
Proof. intros (_ & _ & ? & ? & _) [? ?]. lia. Qed.

Definition row_at (x y n color : Z) : picture :=
  fun px py => if decide (py = y /\ u16 (px - x) < n) then Some (u8 color) else None.

Lemma vg_draw_hline_painted g x y len color :
  indexed g -> 0 <= x < 65536 -> 0 <= y < 65536 -> 0 <= len < 65536 ->
  wp (vg_draw_hline x y len color) (fun r g' => r = 0 /\
    painted (row_at x y len color) g g') g.
Proof.
  intros Hg Hx Hy Hl. unfold vg_draw_hline. wp_step.
  apply wp_for_ret with (Inv := fun n g' => painted (row_at x y n color) g g').
  - apply painted_nothing. intros px py _. apply decide_False. intros [_ Hn].
    pose proof (u16_range (px - x)). lia.
  - intros n g1 Hn Hp. int_step.
    wp_step. eapply wp_mono; [apply gpu_draw_pixel_byte; [by eapply indexed_painted| |lia]|].
    { apply u16_range. }
    intros r g2 [-> Hp2]. change (tst 0) with false. cbn iota. wp_step.
    eapply painted_ext; [by eapply painted_trans|]. intros px py Hs.
    destruct (screen_u16 g px py Hg Hs) as [Hpx Hpy].
    unfold over, row_picture, row_at. cbn [vx vy].
    pose proof (wrap_hit px x n Hpx ltac:(lia)) as Hw.
    destruct (decide (py = y /\ u16 (x + n) <= px < u16 (x + n) + 1)) as [[Hy1 Hx1]|Hne].
    + assert (px = u16 (x + n)) as Epx by lia. rewrite <- Epx, Z.sub_diag.
      change ([u8 color] !! Z.to_nat 0) with (Some (u8 color)). cbn iota.
      rewrite decide_True; [done|]. apply Hw in Epx. lia.
    + apply decide_ext. split; intros [? ?]; (split; [done|]); [lia|].
      destruct (Z.eq_dec (u16 (px - x)) n) as [E|]; [|lia].
      apply Hw in E. exfalso. apply Hne. lia.
  - intros g1 Hp. wp_step. split; [done|]. eapply painted_ext; [exact Hp|]. intros px py _.
    unfold row_at. apply decide_ext. by rewrite Z.add_0_l, Z2Nat.id by lia.
Qed.

Lemma vg_draw_rectangle_painted g x y w h color :
  indexed g -> 0 <= x < 65536 -> 0 <= y < 65536 -> 0 <= w < 65536 -> 0 <= h < 65536 ->
  wp (vg_draw_rectangle x y w h color) (fun r g' => r = 0 /\
    painted (wrapped x y w h (plain color)) g g') g.
Proof.
  intros Hg Hx Hy Hw Hh. unfold vg_draw_rectangle. wp_step.
  apply wp_for_ret with (Inv := fun n g' => painted (wrapped x y w n (plain color)) g g').
  - apply painted_nothing. intros px py _. apply decide_False. intros [_ Hn].
    pose proof (u16_range (py - y)). lia.
  - intros n g1 Hn Hp. int_step.
    wp_step. eapply wp_mono.
    { apply vg_draw_hline_painted; [by eapply indexed_painted|lia| |lia]. apply u16_range. }
    intros r g2 [-> Hp2]. change (tst 0) with false. cbn iota. wp_step.
    eapply painted_ext; [by eapply painted_trans|]. intros px py Hs.
    destruct (screen_u16 g px py Hg Hs) as [Hpx Hpy].
    unfold over, row_at, wrapped, plain.
    pose proof (wrap_hit py y n Hpy ltac:(lia)) as Hwr.
    destruct (decide (py = u16 (y + n) /\ u16 (px - x) < w)) as [[Hy1 Hx1]|Hne].
    + rewrite decide_True; [done|]. apply Hwr in Hy1. lia.
    + apply decide_ext. split; intros [? ?]; (split; [done|]); [lia|].
      destruct (Z.eq_dec (u16 (py - y)) n) as [E|]; [|lia].
      apply Hwr in E. exfalso. by apply Hne.
  - intros g1 Hp. wp_step. split; [done|]. eapply painted_ext; [exact Hp|]. intros px py _.
    unfold wrapped. apply decide_ext. by rewrite Z.add_0_l, Z2Nat.id by lia.
Qed.

(** ** The test pattern *)

Definition pattern_picture (no first step bpp sx sy : Z) : picture :=
  fun px py =>
    if decide (px < no * sx /\ py < no * sy)
    then Some (u8 (u32 (first + (py / sy * no + px / sx) * step) mod BIT bpp))
    else None.

(** The tiles before tile [nx] of row [ny]. *)
Definition tiles_before (f : picture) (no nx ny sx sy : Z) : picture :=
  fun px py =>
    if decide (px < no * sx /\ (py < ny * sy \/ (py < (ny + 1) * sy /\ px < nx * sx)))
    then f px py else None.

Lemma unwrapped p x w :
  0 <= p < 65536 -> 0 <= x -> 0 <= w -> x + w <= 65536 -> u16 (p - x) < w <-> x <= p < x + w.
Proof.
  intros Hp Hx Hw0 Hw. unfold u16. destruct (Z.le_gt_cases x p).
  - rewrite Z.mod_small by lia. lia.
  - rewrite <- (Z.mod_add _ 1) by lia. rewrite Z.mod_small by lia. lia.
Qed.

Lemma pattern_color_indexed g no first step nx ny :
  indexed g -> 0 <= bits_per_pixel g < 31 -> 0 <= nx < no -> 0 <= ny < no -> no < 256 ->
  0 <= step < 256 ->
  pattern_color no first step nx ny g
  = Ok (Some (u32 (first + (ny * no + nx) * step) mod BIT (bits_per_pixel g)), g).
Proof.
  intros (_ & Hm & _) Hb Hx Hy Hn Hs.
  unfold pattern_color, get, mbind, M_bind. rewrite Hm. cbn [Z.eqb INDEX_MODE].
  assert (0 <= ny * no + nx <= 65535) by nia. unfold int.
  replace (fits_int ((ny * no + nx) * step)) with true by (symmetry; unfold fits_int, INT_MIN, INT_MAX;
    apply andb_true_iff; split; apply Z.leb_le; nia).
  unfold mret at 1, M_ret at 1. unfold bit_int.
  destruct (Z.leb_spec 0 (bits_per_pixel g)), (Z.ltb_spec (bits_per_pixel g) 31); try lia.
  reflexivity.
Qed.

Lemma tile_next no first step bpp sx sy nx ny px py :
  0 <= sx -> 0 <= sy -> 0 <= nx < no -> 0 <= ny < no -> 0 <= px -> 0 <= py ->
  let f := pattern_picture no first step bpp sx sy in
  tiles_before f no (nx + 1) ny sx sy px py
  = if decide (nx * sx <= px < nx * sx + sx /\ ny * sy <= py < ny * sy + sy)
    then Some (u8 (u32 (first + (ny * no + nx) * step) mod BIT bpp))
    else tiles_before f no nx ny sx sy px py.
Proof.
  intros Hsx Hsy Hnx Hny Hpx Hpy f. unfold tiles_before.
  assert (nx * sx + sx <= no * sx) by nia. assert (ny * sy + sy <= no * sy) by nia.
  destruct (decide (nx * sx <= px < nx * sx + sx /\ ny * sy <= py < ny * sy + sy)) as [[Hx Hy]|Hout].
  - rewrite decide_True by lia. unfold f, pattern_picture. rewrite decide_True by lia.
    rewrite <- (Z.div_unique px sx nx (px - nx * sx)) by lia.
    by rewrite <- (Z.div_unique py sy ny (py - ny * sy)) by lia.
  - apply decide_ext. split; [|lia]. intros [H1 [H2|[H2 H3]]]; (split; [done|]); [by left|].
    destruct (Z.lt_ge_cases py (ny * sy)); [by left|]. right. lia.
Qed.

Lemma aux_draw_pattern_painted g no first step :
  indexed g -> 0 <= bits_per_pixel g < 31 -> 0 < no < 256 -> 0 <= step < 256 ->
  wp (aux_draw_pattern no first step) (fun r g' => r = 0 /\
    painted (pattern_picture no first step (bits_per_pixel g)
      (u8 (x_res g / no)) (u8 (y_res g / no))) g g') g.
Proof.
  intros Hg Hb Hno Hst. unfold aux_draw_pattern. wp_step. wp_step.
  rewrite (proj2 (Z.eqb_neq no 0)) by lia.
  pose proof (u8_range (x_res g / no)) as Hsx. pose proof (u8_range (y_res g / no)) as Hsy.
  set (sx := u8 (x_res g / no)) in *. set (sy := u8 (y_res g / no)) in *. clearbody sx sy.
  set (pic := pattern_picture no first step (bits_per_pixel g) sx sy). wp_step.
  apply wp_for_ret with (Inv := fun ny g' => painted (tiles_before pic no 0 ny sx sy) g g').
  - apply painted_nothing. intros px py [? ?]. apply decide_False. lia.
  - intros ny g1 Hny Hp1.
    apply wp_for_ret with (Inv := fun nx g' => painted (tiles_before pic no nx ny sx sy) g g').
    + exact Hp1.
    + intros nx g2 Hnx Hp2. pose proof (indexed_painted _ _ _ Hg Hp2) as Hg2.
      assert (bits_per_pixel g2 = bits_per_pixel g) as Eb by (by destruct Hp2 as (b & -> & _)).
      wp_step. eapply run_wp; [apply pattern_color_indexed; rewrite ?Eb; (done || lia)|].
      cbn iota. rewrite Eb. assert (0 <= nx * sx <= 65025) by nia.
      assert (0 <= ny * sy <= 65025) by nia. rewrite (u16_id (nx * sx)), (u16_id (ny * sy)) by lia.
      wp_step. eapply wp_mono; [apply vg_draw_rectangle_painted; (done || lia)|].
      intros r g3 [-> Hp3]. change (tst 0) with false. cbn iota. wp_step.
      eapply painted_ext; [by eapply painted_trans|]. intros px py Hs.
      destruct (screen_u16 g px py Hg Hs) as [Hpx Hpy].
      unfold pic. rewrite tile_next by lia. fold pic. unfold over, wrapped, plain.
      destruct (decide (u16 (px - nx * sx) < sx /\ u16 (py - ny * sy) < sy)) as [[H1 H2]|Hne].
      * rewrite decide_True; [done|]. apply unwrapped in H1, H2; lia.
      * rewrite decide_False; [done|]. intros [H1 H2]. apply Hne.
        split; apply unwrapped; lia.
    + intros g2 Hp2. eapply painted_ext; [exact Hp2|]. intros px py [? ?].
      unfold tiles_before. apply decide_ext. rewrite Z.add_0_l, Z2Nat.id by lia. lia.
  - intros g1 Hp1. wp_step. split; [done|]. eapply painted_ext; [exact Hp1|].
    intros px py [? ?]. unfold tiles_before. rewrite Z.add_0_l, Z2Nat.id by lia.
    unfold pic, pattern_picture. repeat case_decide; (done || lia).
Qed.

Lemma aux_clear_painted g :
  indexed g -> wp aux_clear (fun r g' => r = 0 /\ painted (plain 0) g g') g.
Proof.
  intros Hg. pose proof Hg as (_ & _ & Hx & Hy & _). unfold aux_clear. wp_step. wp_step. wp_step.
  eapply wp_mono; [apply vg_draw_rectangle_painted; (done || lia)|].
  intros r g' [-> Hp]. change (tst 0) with false. cbn iota. wp_step. split; [done|].
  eapply painted_ext; [exact Hp|]. intros px py Hs. destruct (screen_u16 g px py Hg Hs).
  destruct Hs. unfold wrapped, plain. rewrite decide_True; [done|].
  rewrite !Z.sub_0_r, !u16_id by done. lia.
Qed.

(** ** An image *)

(** The bytes of a run from column [ix] on. *)
Definition run_at (x y ix : Z) (colors : list Z) (n : Z) : picture :=
  fun px py =>
    if decide (py = y /\ ix <= u16 (px - x) < ix + n)
    then colors !! Z.to_nat (u16 (px - x) - ix) else None.

Lemma draw_pixels_painted n ix x y colors g :
  indexed g -> 0 <= x < 65536 -> 0 <= ix -> ix + Z.of_nat n <= 65535 ->
  (n <= length colors)%nat -> Forall (fun b => 0 <= b < 256) colors ->
  wp (draw_pixels n ix x y colors) (fun r g' => r = Some (drop n colors) /\
    painted (run_at x (u16 y) ix colors (Z.of_nat n)) g g') g.
Proof.
  intros Hg Hx. revert ix colors g Hg. induction n as [|n IH]; intros ix colors g Hg Hix Hn Hl HF.
  { cbn [draw_pixels]. wp_step. split; [done|]. apply painted_nothing. intros px py _.
    apply decide_False. lia. }
  destruct colors as [|c colors]; [cbn in Hl; lia|].
  apply Forall_cons in HF as [Hc HF]. cbn [draw_pixels]. wp_step.
  apply wp_int; [unfold INT_MIN, INT_MAX; lia|]. wp_step.
  eapply wp_lift_res; [by apply array_get_ok|]. wp_step.
  eapply wp_mono; [apply gpu_draw_pixel_painted; [done|apply u16_range|apply u16_range|done]|].
  intros r g1 [-> Hp1]. change (tst 0) with false. cbn iota.
  change (drop 1 (c :: colors)) with (drop 0 colors). rewrite drop_0.
  eapply wp_mono; [apply IH; [by eapply indexed_painted|lia|lia|cbn in Hl; lia|done]|].
  intros r g2 [-> Hp2]. split; [done|].
  eapply painted_ext; [by eapply painted_trans|]. intros px py Hs.
  destruct (screen_u16 g px py Hg Hs) as [Hpx Hpy]. unfold over, run_at, row_picture. cbn [vx vy].
  pose proof (wrap_hit px x ix Hpx ltac:(lia)) as Hw.
  destruct (decide (py = u16 y /\ ix + 1 <= u16 (px - x) < ix + 1 + Z.of_nat n)) as [[Hy1 Hr]|Hne].
  - rewrite (decide_True _ _ (P := py = u16 y /\ ix <= u16 (px - x) < ix + Z.of_nat (S n))) by lia.
    replace (Z.to_nat (u16 (px - x) - ix)) with (S (Z.to_nat (u16 (px - x) - (ix + 1)))) by lia.
    change ((c :: colors) !! S (Z.to_nat (u16 (px - x) - (ix + 1))))
      with (colors !! Z.to_nat (u16 (px - x) - (ix + 1))).
    destruct (lookup_lt_is_Some_2 colors (Z.to_nat (u16 (px - x) - (ix + 1)))) as [d ->]; [|done].
    cbn in Hl. lia.
  - destruct (decide (py = u16 y /\ ix <= u16 (px - x) < ix + Z.of_nat (S n))) as [[Hy1 Hr]|Hne2].
    + assert (u16 (px - x) = ix) as E by lia. rewrite E, Z.sub_diag. apply Hw in E.
      rewrite decide_True by lia. by rewrite <- E, Z.sub_diag.
    + rewrite decide_False; [done|]. intros [Hy1 Hr]. apply Hne2. split; [done|].
      assert (px = u16 (x + ix)) as E by lia. apply Hw in E. lia.
Qed.

(** The bytes of an image in rows of [width]. *)
Definition bytes_at (width : Z) (colors : list Z) : picture :=
  fun sx sy => colors !! Z.to_nat (sy * width + sx).

(** The rows from [iy] on. *)
Definition rows_at (x y iy width n : Z) (colors : list Z) : picture :=
  fun px py =>
    if decide (u16 (px - x) < width /\ iy <= u16 (py - y) < iy + n)
    then bytes_at width colors (u16 (px - x)) (u16 (py - y) - iy) else None.

Lemma draw_pixel_rows_painted n iy x y width colors g :
  indexed g -> 0 <= x < 65536 -> 0 <= y < 65536 -> 0 <= iy -> iy + Z.of_nat n <= 65535 ->
  0 <= width <= 65535 -> Z.of_nat n * width <= Z.of_nat (length colors) ->
  Forall (fun b => 0 <= b < 256) colors ->
  wp (draw_pixel_rows n iy x y width colors) (fun r g' => r = 0 /\
    painted (rows_at x y iy width (Z.of_nat n) colors) g g') g.
Proof.
  intros Hg Hx Hy. revert iy colors g Hg. induction n as [|n IH];
    intros iy colors g Hg Hiy Hn Hw Hl HF; cbn [draw_pixel_rows].
  { wp_step. split; [done|]. apply painted_nothing. intros px py _. apply decide_False. lia. }
  int_step. wp_step.
  eapply wp_mono; [apply draw_pixels_painted; [done|lia|lia|lia|nia|done]|].
  intros r g1 [-> Hp1]. cbn iota.
  eapply wp_mono; [apply IH; [by eapply indexed_painted|lia|lia|done| |by apply Forall_drop]|].
  { rewrite length_drop. nia. }
  intros r g2 [-> Hp2]. split; [done|].
  eapply painted_ext; [by eapply painted_trans|]. intros px py Hs.
  destruct (screen_u16 g px py Hg Hs) as [Hpx Hpy]. unfold over, rows_at, run_at, bytes_at.
  pose proof (wrap_hit py y iy Hpy ltac:(lia)) as Hwr. pose proof (u16_range (px - x)) as Hu.
  destruct (decide (u16 (px - x) < width /\ iy + 1 <= u16 (py - y) < iy + 1 + Z.of_nat n))
    as [[H1 H2]|Hne].
  - rewrite (decide_True _ _ (P := u16 (px - x) < width /\ iy <= u16 (py - y) < iy + Z.of_nat (S n)))
      by lia.
    rewrite lookup_drop.
    replace (Z.to_nat width + Z.to_nat ((u16 (py - y) - (iy + 1)) * width + u16 (px - x)))%nat
      with (Z.to_nat ((u16 (py - y) - iy) * width + u16 (px - x))) by nia.
    destruct (lookup_lt_is_Some_2 colors
      (Z.to_nat ((u16 (py - y) - iy) * width + u16 (px - x)))) as [d ->]; [nia|done].
  - destruct (decide (u16 (px - x) < width /\ iy <= u16 (py - y) < iy + Z.of_nat (S n)))
      as [[H1 H2]|Hne2].
    + assert (u16 (py - y) = iy) as E by lia. rewrite E, Z.sub_diag. apply Hwr in E.
      rewrite decide_True by (split; [exact E|lia]). rewrite Z.sub_0_r, Z.mul_0_l, Z.add_0_l.
      destruct (lookup_lt_is_Some_2 colors (Z.to_nat (u16 (px - x)))) as [d ->]; [nia|done].
    + rewrite decide_False; [done|]. intros [H1 H2]. apply Hne2. apply Hwr in H1. lia.
Qed.

(** An image the loader answered, or none. *)
Definition image_ok (img : xpm_image) : Prop :=
  0 <= img_width img <= 65535 /\ 0 <= img_height img <= 65535 /\
  Z.of_nat (length (img_bytes img)) = img_width img * img_height img /\
  Forall (fun b => 0 <= b < 256) (img_bytes img).

(** What the tests with a picture rely on: it can be loaded. *)
Class Loads (W : Type) `{XpmLoader W} (xpm : xpm_map) : Prop :=
  loads w ok img w' : xpm_load xpm XPM_INDEXED w = ((ok, img), w') -> ok = true /\ image_ok img.

Definition image_picture (img : xpm_image) (x y : Z) : picture :=
  wrapped x y (img_width img) (img_height img) (bytes_at (img_width img) (img_bytes img)).

Section Image.
Context {W : Type} `{Machine W, XpmLoader W}.

Lemma wp_aux_draw_xpm xpm x y g (io : iost W) :
  indexed g -> 0 <= x < 65536 -> 0 <= y < 65536 ->
  (forall w ok img w', xpm_load xpm XPM_INDEXED w = ((ok, img), w') -> ok = true /\ image_ok img) ->
  wp (aux_draw_xpm xpm x y) (fun r st => r = 0 /\ io_trace st.2 = io_trace io /\ exists img w w',
    xpm_load xpm XPM_INDEXED w = ((true, img), w') /\
    painted (image_picture img x y) g st.1) (g, io).
Proof.
  intros Hg Hx Hy Hld. unfold aux_draw_xpm, Gpu.aux_draw_xpm. wp_step. unfold on_io. apply wp_zoom.
  apply wp_oracle. intros [ok img] w' E. cbn [fst snd].
  destruct (Hld _ _ _ _ E) as (-> & Hw & Hh & Hl & HF). cbn [negb andb].
  unfold on_statics. apply wp_zoom. cbn [fst snd].
  eapply wp_mono; [apply draw_pixel_rows_painted; (done || lia)|].
  intros r g' [-> Hp]. split; [done|]. split; [done|]. exists img, (io_world io), w'.
  split; [done|]. eapply painted_ext; [exact Hp|]. intros px py _.
  unfold rows_at, image_picture, wrapped. rewrite Z.add_0_l, Z2Nat.id, Z.sub_0_r by lia.
  pose proof (u16_range (py - y)). repeat case_decide; (done || lia).
Qed.
End Image.

(** ** Contracts *)

(** C35: a rectangle on an initialised card never leaves the back buffer,
    whatever its four [uint16_t]s: it answers 0, video memory is untouched,
    and exactly the pixels whose offsets from its corner, modulo 65536, are
    below its width and height take the low byte of the colour. *)
Theorem vg_draw_rectangle_wraps g x y w h color :
  indexed g -> 0 <= x < 65536 -> 0 <= y < 65536 -> 0 <= w < 65536 -> 0 <= h < 65536 ->
  exists g', vg_draw_rectangle x y w h color g = Ok (0, g') /\ indexed g' /\
    video_mem g' = video_mem g /\
    forall px py, on_screen g px py ->
      pixel g' px py = if decide (u16 (px - x) < w /\ u16 (py - y) < h)
                       then Some (color mod 256) else pixel g px py.
Proof.
  intros Hg Hx Hy Hw Hh.
  destruct (wp_run _ _ _ (vg_draw_rectangle_painted g x y w h color Hg Hx Hy Hw Hh))
    as (r & g' & E & -> & Hp).
  exists g'. split; [done|]. split; [by eapply indexed_painted|].
  destruct Hp as (b & -> & Hl & Hp). split; [done|]. intros px py Hs. rewrite Hp by done.
  unfold wrapped, plain. by case_decide.
Qed.

(** The test pattern on an initialised card is a square of [no_rectangles]
    by [no_rectangles] tiles from the corner, the tile in column [nx] of row
    [ny] in colour [(first + (ny * no_rectangles + nx) * step) mod 2^bpp]; a
    tile is as large as the quotients of the resolutions are modulo 256, so
    that a quotient of 256 draws nothing. *)
Theorem aux_draw_pattern_tiles g no first step :
  indexed g -> 0 <= bits_per_pixel g < 31 -> 0 < no < 256 -> 0 <= step < 256 ->
  exists g', aux_draw_pattern no first step g = Ok (0, g') /\ indexed g' /\
    let sx := (x_res g / no) mod 256 in
    let sy := (y_res g / no) mod 256 in
    forall px py, on_screen g px py ->
      pixel g' px py =
        if decide (px < no * sx /\ py < no * sy)
        then Some (u8 (u32 (first + (py / sy * no + px / sx) * step)
                         mod 2 ^ bits_per_pixel g))
        else pixel g px py.
Proof.
  intros Hg Hb Hno Hst.
  destruct (wp_run _ _ _ (aux_draw_pattern_painted g no first step Hg Hb Hno Hst))
    as (r & g' & E & -> & Hp).
  exists g'. split; [done|]. split; [by eapply indexed_painted|]. intros sx sy px py Hs.
  destruct Hp as (b & -> & Hl & Hp). rewrite Hp by done. unfold pattern_picture.
  unfold BIT. rewrite Z.shiftl_1_l. change (u8 (x_res g / no)) with sx.
  change (u8 (y_res g / no)) with sy. by case_decide.
Qed.

(** On a screen of 1024 columns a pattern of four rectangles vanishes. *)
Lemma pattern_of_four_vanishes g first step :
  indexed g -> x_res g = 1024 -> 0 <= bits_per_pixel g < 31 -> 0 <= step < 256 ->
  aux_draw_pattern 4 first step g = Ok (0, g).
Proof.
  intros Hg Hx Hb Hst.
  destruct (wp_run _ _ _ (aux_draw_pattern_painted g 4 first step Hg Hb ltac:(lia) Hst))
    as (r & g' & E & -> & Hp).
  rewrite E. f_equal. f_equal. eapply painted_det; [exact Hg| |apply painted_refl].
  eapply painted_ext; [exact Hp|]. intros px py [? ?]. unfold pattern_picture.
  rewrite Hx. change (u8 (1024 / 4)) with 0. apply decide_False. lia.
Qed.

Lemma vg_draw_rectangle_wraps_witness :
  exists g', vg_draw_rectangle 65535 1 3 1 0x107 tiny_gpu = Ok (0, g') /\
    pixel g' 0 1 = Some 7 /\ pixel g' 1 1 = Some 7 /\ pixel g' 2 1 = pixel tiny_gpu 2 1.
Proof.
  destruct (vg_draw_rectangle_wraps tiny_gpu 65535 1 3 1 0x107 tiny_indexed)
    as (g' & E & _ & _ & Hp); [lia..|].
  exists g'. split; [exact E|]. rewrite !Hp by (split; cbn; lia). done.
Defined.

Lemma aux_draw_pattern_tiles_witness :
  exists g', aux_draw_pattern 2 5 1 tiny_gpu = Ok (0, g') /\
    pixel g' 0 0 = Some 5 /\ pixel g' 3 0 = Some 6 /\ pixel g' 1 1 = Some 7.
Proof.
  destruct (aux_draw_pattern_tiles tiny_gpu 2 5 1 tiny_indexed) as (g' & E & _ & Hp);
    [cbn; lia..|].
  exists g'. split; [exact E|]. rewrite !Hp by (split; cbn; lia).
  repeat split; vm_compute; reflexivity.
Defined.

(** The loader of Demo.v loads every image whose header says its size. *)
Lemma demo_loads_xpm {W} xpm wd ht n :
  xpm_dims xpm = Some (wd, ht, n) -> 0 <= wd <= 65535 -> 0 <= ht <= 65535 -> Loads (roomy W) xpm.
Proof.
  intros Hd Hw Hh w ok img w' E.
  assert (ok = true) as ->.
  { cbn [xpm_load demo_loader] in E. rewrite Hd in E.
    destruct (Z.leb_spec 0 wd), (Z.leb_spec 0 ht); try lia.
    destruct (Z.ltb_spec wd 65536), (Z.ltb_spec ht 65536); try lia. by injection E as <- <-. }
  split; [done|]. destruct (xpm_load_info _ _ _ _ _ _ _ E Hd) as (_ & Ew & Eh & Hl & HF).
  unfold image_ok. by rewrite Ew, Eh.
Qed.
