(* ===== verification/Lab5.v ===== *)
(** * Lab 5, the video card on its own: lab5/lab5.c

    Six tests of the video driver: a mode, a rectangle, a pattern of tiles, a
    picture, a picture that moves, and a picture that the keys move.  All but
    the first wait for ESC to be released. *)

From S2P Require Import Prelude Machine Kbc Keyboard Timer Ipc.
From S2P Require Import Geometry Gpu Xpm Demo SpritesLab Lab5Gpu.

Record lab5 : Type := mkLab5 { l5_kbd : kbd_statics; l5_timer : timer_statics; l5_gpu : gpu }.

Inductive moveState : Type := RUNNING | WALKING.
Definition speed_of (m : moveState) : Z := match m with RUNNING => 10 | WALKING => 1 end.

(** The local variables of the loop of [video_test_controller]; the four keys
    are [true] when pressed. *)
Record controls : Type := mkControls {
  c_x : Z; c_y : Z;
  c_elapsed : Z;
  c_move : moveState;
  w_key : bool; a_key : bool; s_key : bool; d_key : bool;
}.

(** The valid scan code of a keyboard interrupt. *)
Definition control_key (code : Z) (c : controls) : controls :=
  mkControls (c_x c) (c_y c) (c_elapsed c)
    (if code =? SHIFT_MAKECODE then RUNNING
     else if code =? SHIFT_BREAKCODE then WALKING else c_move c)
    (if code =? W_MAKECODE then true else if code =? W_BREAKCODE then false else w_key c)
    (if code =? A_MAKECODE then true else if code =? A_BREAKCODE then false else a_key c)
    (if code =? S_MAKECODE then true else if code =? S_BREAKCODE then false else s_key c)
    (if code =? D_MAKECODE then true else if code =? D_BREAKCODE then false else d_key c).

(** [if (!elapsed) ...], with the quotients of positive numbers. *)
Definition control_move (cooldown : Z) (c : controls) : controls :=
  if c_elapsed c =? 0 then
    let y := if w_key c then u16 (c_y c - 10) else c_y c in
    let x := if a_key c then u16 (c_x c - 10) else c_x c in
    let y := if s_key c then u16 (y + 10) else y in
    let x := if d_key c then u16 (x + 10) else x in
    mkControls x y
      (if w_key c || a_key c || s_key c || d_key c then cooldown / speed_of (c_move c) else 0)
      (c_move c) (w_key c) (a_key c) (s_key c) (d_key c)
  else c.

Definition control_tick (c : controls) : controls :=
  mkControls (c_x c) (c_y c) (if c_elapsed c =? 0 then 0 else c_elapsed c - 1) (c_move c)
    (w_key c) (a_key c) (s_key c) (d_key c).

Section Lab5.
Context {W : Type} `{Machine W, Ipc W, Video W, XpmLoader W}.

(** [counter] is declared [extern] and defined nowhere: the driver's counter is
    called [timer_counter]. *)
Variable counter : timer_statics -> Z.

(** [lcf_start] runs one of the tests; it is the library's. *)
Definition main : io W Z :=
  _ ← lib_call "lcf_set_language" [];
  _ ← lib_call "lcf_trace_calls" [];
  _ ← lib_call "lcf_log_output" [];
  r ← lib_call "lcf_start" [];
  if tst r then mret 1 else
  _ ← lib_call "lcf_cleanup" [];
  mret 0.

Definition vg_exit : io W Z := lib_call "vg_exit" [].

Definition on_l5_kbd {A} (m : drv W kbd_statics A) : drv W lab5 A :=
  zoom (fun st => (l5_kbd st.1, st.2))
    (fun c st => (mkLab5 c.1 (l5_timer st.1) (l5_gpu st.1), c.2)) m.
Definition on_l5_timer {A} (m : drv W timer_statics A) : drv W lab5 A :=
  zoom (fun st => (l5_timer st.1, st.2))
    (fun c st => (mkLab5 (l5_kbd st.1) c.1 (l5_gpu st.1), c.2)) m.
Definition on_l5_gpu {A} (m : drv W gpu A) : drv W lab5 A :=
  zoom (fun st => (l5_gpu st.1, st.2))
    (fun c st => (mkLab5 (l5_kbd st.1) (l5_timer st.1) c.1, c.2)) m.

Definition esc_round (bit_no : Z) (_u : unit) : drv W kbd_statics (unit + unit) :=
  k ← statics;
  if scan_code k =? ESC_BREAKCODE then mret (inr tt) else
  msg ← on_io receive;
  match msg with
  | None => mret (inl tt)
  | Some mask =>
      if tst (Z.land mask bit_no) then kbc_ih ;; mret (inl tt) else mret (inl tt)
  end.

Definition aux_wait_esc (rounds : nat) : drv W kbd_statics Z :=
  bit ← on_io indeterminate;
  '(r, bit_no) ← keyboard_subscribe (u8 bit);
  if tst r then mret 1 else
  iter rounds (esc_round bit_no) tt ;;
  r ← keyboard_unsubscribe;
  if tst r then mret 1 else mret 0.

Definition video_test_init (mode delay : Z) : io W Z :=
  r ← gpu_set_mode mode;
  if tst r then mret 1 else
  _ ← lib_call "sleep" [delay];
  r ← vg_exit;
  if tst r then mret 1 else mret 0.

(** The back buffer is not committed: the rectangle never reaches the screen. *)
Definition video_test_rectangle (rounds : nat) (mode x y width height color : Z)
  : drv W lab5 Z :=
  r ← on_l5_gpu (gpu_init_mem_indexation mode);
  if tst r then mret 1 else
  r ← on_io (gpu_set_mode mode);
  if tst r then mret 1 else
  r ← on_l5_gpu (on_statics (vg_draw_rectangle x y width height color));
  if tst r then mret 1 else
  r ← on_l5_kbd (aux_wait_esc rounds);
  if tst r then mret 1 else
  r ← on_io vg_exit;
  if tst r then mret 1 else mret 0.

Definition video_test_pattern (rounds : nat) (mode no_rectangles first step : Z)
  : drv W lab5 Z :=
  r ← on_l5_gpu (gpu_init_mem_indexation mode);
  if tst r then mret 1 else
  r ← on_io (gpu_set_mode mode);
  if tst r then mret 1 else
  r ← on_l5_gpu (on_statics (aux_draw_pattern no_rectangles first step));
  if tst r then mret 1 else
  on_l5_gpu (on_statics aux_vg_commit) ;;
  r ← on_l5_kbd (aux_wait_esc rounds);
  if tst r then mret 1 else
  r ← on_io vg_exit;
  if tst r then mret 1 else mret 0.

Definition video_test_xpm (rounds : nat) (xpm : xpm_map) (x y : Z) : drv W lab5 Z :=
  r ← on_l5_gpu (gpu_init_mem_indexation 0x105);
  if tst r then mret 1 else
  r ← on_io (gpu_set_mode 0x105);
  if tst r then mret 1 else
  _ ← on_l5_gpu (aux_draw_xpm xpm x y);
  on_l5_gpu (on_statics aux_vg_commit) ;;
  r ← on_l5_kbd (aux_wait_esc rounds);
  if tst r then mret 1 else
  r ← on_io vg_exit;
  if tst r then mret 1 else mret 0.

(** The timer's part of a round: whether a frame is due. *)
Definition frame_due (clocks_per_frame : Z) : drv W lab5 bool :=
  l ← statics;
  if clocks_per_frame =? 0 then fail DivByZero
  else mret (counter (l5_timer l) mod clocks_per_frame =? 0).

(** A round of [video_test_move]; [inr (Some r)] is a [return r]. *)
Definition move_round (xpm : xpm_map) (kbd_bit_no timer_bit_no clocks_per_frame : Z)
  (at_ : Z * Z) : drv W lab5 ((Z * Z) + option Z) :=
  let '(x, y) := at_ in
  l ← statics;
  if scan_code (l5_kbd l) =? ESC_BREAKCODE then mret (inr None) else
  msg ← on_io receive;
  match msg with
  | None => mret (inl (x, y))
  | Some mask =>
      (if tst (Z.land mask kbd_bit_no) then on_l5_kbd kbc_ih else mret tt) ;;
      if tst (Z.land mask timer_bit_no) then
        on_l5_timer timer_int_handler ;;
        due ← frame_due clocks_per_frame;
        if (due : bool) then
          let x := u16 (x + 1) in
          let y := u16 (y + 1) in
          r ← on_l5_gpu (on_statics aux_clear);
          if tst r then mret (inr (Some 1)) else
          r ← on_l5_gpu (aux_draw_xpm xpm x y);
          if tst r then mret (inr (Some 1)) else
          on_l5_gpu (on_statics aux_vg_commit) ;;
          mret (inl (x, y))
        else mret (inl (x, y))
      else mret (inl (x, y))
  end.

(** The end shared by the last two tests. *)
Definition leave : drv W lab5 Z :=
  r ← on_io vg_exit;
  if tst r then mret 1 else
  r ← on_l5_kbd keyboard_unsubscribe;
  if tst r then mret 1 else
  r ← on_l5_timer timer_unsubscribe;
  if tst r then mret 1 else mret 0.

(** [xf], [yf] and [speed] are not used. *)
Definition video_test_move (rounds : nat) (xpm : xpm_map) (xi yi xf yf speed fr_rate : Z)
  : drv W lab5 Z :=
  kbd_bit ← on_io indeterminate;
  timer_bit ← on_io indeterminate;
  '(r, kbd_bit_no) ← on_l5_kbd (keyboard_subscribe (u8 kbd_bit));
  if tst r then mret 1 else
  '(r, timer_bit_no) ← on_l5_timer (timer_subscribe (u8 timer_bit));
  if tst r then mret 1 else
  hz ← on_io (lib_call "sys_hz" []);
  let frequency := u16 hz in
  if fr_rate =? 0 then fail DivByZero else
  let clocks_per_frame := u16 (frequency / fr_rate) in
  r ← on_io (gpu_set_mode 0x105);
  if tst r then mret 1 else
  r ← on_l5_gpu (gpu_init_mem_indexation 0x105);
  if tst r then mret 1 else
  r ← iter rounds (move_round xpm kbd_bit_no timer_bit_no clocks_per_frame) (xi, yi);
  match r with
  | Some r => mret r
  | None => leave
  end.

(** A round of [video_test_controller]; the move is made at every message, a
    notification or not. *)
Definition control_round (kbd_bit_no timer_bit_no clocks_per_frame cooldown : Z) (c : controls)
  : drv W lab5 (controls + option Z) :=
  l ← statics;
  if scan_code (l5_kbd l) =? ESC_BREAKCODE then mret (inr None) else
  '(r, msg) ← on_io (oracle driver_receive);
  if tst r then mret (inl c) else
  let c := control_move cooldown c in
  match hardware msg with
  | None => mret (inl c)
  | Some mask =>
      c ← (if tst (Z.land mask kbd_bit_no) then
             on_l5_kbd kbc_ih ;;
             l ← statics;
             if kbd_ih_valid (l5_kbd l)
             then mret (control_key (scan_code (l5_kbd l)) c) else mret c
           else mret c);
      if tst (Z.land mask timer_bit_no) then
        on_l5_timer timer_int_handler ;;
        let c := control_tick c in
        due ← frame_due clocks_per_frame;
        if (due : bool) then
          _ ← on_l5_gpu (on_statics aux_clear);
          r ← on_l5_gpu (aux_draw_xpm penguin (c_x c) (c_y c));
          if tst r then mret (inr (Some 1)) else
          on_l5_gpu (on_statics aux_vg_commit) ;;
          mret (inl c)
        else mret (inl c)
      else mret (inl c)
  end.

Definition video_test_controller (rounds : nat) : drv W lab5 Z :=
  kbd_bit ← on_io indeterminate;
  timer_bit ← on_io indeterminate;
  '(r, kbd_bit_no) ← on_l5_kbd (keyboard_subscribe (u8 kbd_bit));
  if tst r then mret 1 else
  '(r, timer_bit_no) ← on_l5_timer (timer_subscribe (u8 timer_bit));
  if tst r then mret 1 else
  r ← on_io (gpu_set_mode 0x105);
  if tst r then mret 1 else
  r ← on_l5_gpu (gpu_init_mem_indexation 0x105);
  if tst r then mret 1 else
  hz ← on_io (lib_call "sys_hz" []);
  let frequency := u16 hz in
  let clocks_per_frame := u16 (frequency / 30) in
  let cooldown := frequency in
  r ← iter rounds (control_round kbd_bit_no timer_bit_no clocks_per_frame cooldown)
        (mkControls 100 100 cooldown WALKING false false false false);
  match r with
  | Some r => mret r
  | None => leave
  end.
End Lab5.

(** ** The moving picture *)

(** Video memory shows the picture at [(x, y)], wrapping around, on black. *)
Definition shows_image (img : xpm_image) (x y : Z) (g : gpu) : Prop :=
  forall px py, on_screen g px py ->
    video_mem g !! Z.to_nat (py * x_res g + px)
    = Some (match image_picture img x y px py with Some c => c | None => 0 end).

(** Mode 105h is an indexed mode. *)
Class Mode105 (W : Type) `{Video W} : Prop :=
  mode_105 w r vmi w' : video_mode_info 0x105 w = ((r, vmi), w') -> indexed_mode vmi.

Section Move.
Context {W : Type} `{Machine W, Ipc W, Video W, XpmLoader W}.
Context `{!VideoLaws W, !Mode105 W}.
Context (xpm : xpm_map) `{!Loads W xpm}.
Implicit Types (io : iost W) (l : lab5).

Definition put_l5_gpu (g : gpu) (l : lab5) : lab5 := mkLab5 (l5_kbd l) (l5_timer l) g.

Lemma wp_l5_gpu {A} (m : M gpu A) (Q : A -> lab5 * iost W -> Prop) l io :
  wp m (fun a g => Q a (put_l5_gpu g l, io)) (l5_gpu l) ->
  wp (on_l5_gpu (on_statics m)) Q (l, io).
Proof. intros Hm. unfold on_l5_gpu, on_statics. do 2 apply wp_zoom. exact Hm. Qed.

(** One frame: cleared, drawn, committed. *)
Lemma wp_move_frame {A} (x y : Z) (v : A) l io :
  indexed (l5_gpu l) -> 0 <= x < 65536 -> 0 <= y < 65536 ->
  wp (r ← on_l5_gpu (on_statics aux_clear);
      if tst r then mret (inr (Some 1)) else
      r ← on_l5_gpu (aux_draw_xpm xpm x y);
      if tst r then mret (inr (Some 1)) else
      on_l5_gpu (on_statics aux_vg_commit) ;; mret (inl v))
    (fun r st => r = inl v /\ io_trace st.2 = io_trace io /\
       exists g img, st.1 = put_l5_gpu g l /\ indexed g /\
       shows_image img x y g /\ exists w w', xpm_load xpm XPM_INDEXED w = ((true, img), w'))
    (l, io).
Proof.
  intros Hg Hx Hy. wp_step. apply wp_l5_gpu.
  eapply wp_mono; [by apply aux_clear_painted|]. intros r g1 [-> Hp1].
  change (tst 0) with false. cbn iota. pose proof (indexed_painted _ _ _ Hg Hp1) as Hg1.
  wp_step. unfold on_l5_gpu at 1. apply wp_zoom. cbn [fst snd put_l5_gpu l5_gpu].
  eapply wp_mono; [apply wp_aux_draw_xpm; [done..|apply loads]|].
  intros r [g2 io2] (-> & Ht2 & img & w & w' & E & Hp2). cbn [fst snd] in *.
  change (tst 0) with false. cbn iota. pose proof (indexed_painted _ _ _ Hg1 Hp2) as Hg2.
  wp_step. apply wp_l5_gpu. cbn [l5_gpu].
  eapply wp_mono; [by apply gpu_buffer_commit_copies|]. intros [] g3 ->. wp_step.
  split; [done|]. split; [exact Ht2|].
  exists (set_video_mem (backbuffer g2) g2), img. split; [done|].
  split.
  { destruct Hg2 as (? & ? & ? & ? & ? & ? & Hlen & ?). by repeat (split; [done|]). }
  split; [|by exists w, w']. intros px py Hs. cbn [video_mem set_video_mem x_res].
  assert (on_screen g1 px py) as Hs1 by (by apply (painted_screen _ _ _ px py Hp2)).
  assert (on_screen (l5_gpu l) px py) as Hs0 by (by apply (painted_screen _ _ _ px py Hp1)).
  change (backbuffer g2 !! _) with (pixel g2 px py).
  destruct Hp2 as (b2 & -> & _ & Hp2). rewrite Hp2 by done.
  destruct Hp1 as (b1 & -> & _ & Hp1). rewrite Hp1 by done.
  unfold plain. by destruct (image_picture img x y px py).
Qed.

Variable counter : timer_statics -> Z.

(** After [k] frames from [(xi, yi)], the card having been [g0]. *)
Definition moved_by (g0 : gpu) (xi yi : Z) (k : nat) (at_ : Z * Z) (g : gpu) : Prop :=
  indexed g /\ at_ = (u16 (xi + Z.of_nat k), u16 (yi + Z.of_nat k)) /\
  match k with
  | O => g = g0
  | S _ => exists img, shows_image img at_.1 at_.2 g /\
      exists w w', xpm_load xpm XPM_INDEXED w = ((true, img), w')
  end.

(** The loop after [n] rounds, since the timer was [t]: a frame for every timer
    interrupt that was due, and for no other. *)
Definition moving (cpf : Z) (g0 : gpu) (xi yi : Z) (t : timer_statics) (trace : list io_event)
  (n : nat) (at_ : Z * Z) (st : lab5 * iost W) : Prop :=
  trace `prefix_of` io_trace st.2 /\
  exists ticks, (ticks <= n)%nat /\ ticked t ticks (l5_timer st.1) /\
    moved_by g0 xi yi (due_ticks counter cpf (timer_hook_id t) (timer_counter t) ticks) at_
      (l5_gpu st.1).

Lemma u16_succ a k : u16 (u16 (a + Z.of_nat k) + 1) = u16 (a + Z.of_nat (k + 1)).
Proof. unfold u16. rewrite Zplus_mod_idemp_l. f_equal. lia. Qed.

Lemma moving_more cpf g0 xi yi t trace n n' at_ l io l' io' :
  moving cpf g0 xi yi t trace n at_ (l, io) -> (n <= n')%nat ->
  io_trace io `prefix_of` io_trace io' -> l5_timer l' = l5_timer l -> l5_gpu l' = l5_gpu l ->
  moving cpf g0 xi yi t trace n' at_ (l', io').
Proof.
  intros (Ht & i & Hi & Htk & Hm) Hn Hp El Eg. split; [by etrans|]. exists i. cbn [fst] in *.
  rewrite El, Eg. split; [lia|done].
Qed.

Lemma wpe_move_round g0 xi yi t trace n kb tb cpf at_ l io :
  moving cpf g0 xi yi t trace n at_ (l, io) ->
  wpe (move_round counter xpm kb tb cpf at_) (fun f => f = DivByZero) (fun r st =>
    match r with
    | inl at' => moving cpf g0 xi yi t trace (1 + n) at' st
    | inr r => r = None /\ scan_code (l5_kbd st.1) = ESC_BREAKCODE /\
        exists at', moving cpf g0 xi yi t trace n at' st
    end) (l, io).
Proof.
  intros Hm. destruct at_ as [x y]. unfold move_round, statics. wp_step. wp_step. cbn [fst].
  destruct (Z.eqb_spec (scan_code (l5_kbd l)) ESC_BREAKCODE) as [E|E]; [wp_step; eauto 6|].
  wp_step. apply wpe_wp. unfold on_io. apply wp_zoom. apply wp_receive. intros o w. cbn [fst snd].
  assert (moving cpf g0 xi yi t trace (1 + n) (x, y) (l, mkIo w (io_trace io))) as Hw
    by (eapply moving_more; [exact Hm|lia|done..]).
  destruct o as [mask|]; [|apply wpe_wp; by wp_step].
  wp_step. apply wpe_wp.
  apply wp_mono with (P := fun _ st => moving cpf g0 xi yi t trace n (x, y) st).
  { destruct (tst _); [|wp_step; by eapply moving_more; [exact Hm|..]].
    unfold on_l5_kbd. apply wp_zoom. cbn [fst snd].
    eapply wp_drv; [apply kbc_ih_heard|]. intros [] k' io' evs T _.
    eapply moving_more; [exact Hm|done|by eexists|done..]. }
  intros [] [l1 io1] Hm1.
  destruct (tst (Z.land mask tb)); [|apply wpe_wp; wp_step; eapply moving_more; [exact Hm1|lia|done..]].
  wp_step. apply wpe_wp. unfold on_l5_timer, timer_int_handler, set_statics. apply wp_zoom.
  wp_step. cbn [fst snd]. wp_step. unfold frame_due, statics. wp_step. wp_step.
  destruct (cpf =? 0); [by apply wpe_fail|]. cbn [fst]. wp_step.
  destruct Hm1 as (Hp & i & Hi & Htk & Hg & Hat & Hpic). cbn [fst snd l5_timer l5_gpu] in *.
  pose proof (ticked_next _ _ _ Htk) as Htk'.
  assert (due_ticks counter cpf (timer_hook_id t) (timer_counter t) (S i)
    = (due_ticks counter cpf (timer_hook_id t) (timer_counter t) i +
       if (counter (mkTimer (u32 (timer_counter (l5_timer l1) + 1)) (timer_hook_id (l5_timer l1)))
            mod cpf =? 0)%Z then 1 else 0)%nat) as Hdue.
  { destruct Htk' as [Eh Ec]. cbn [timer_counter timer_hook_id] in Eh, Ec. by rewrite Eh, Ec. }
  destruct (_ =? 0).
  2:{ apply wpe_wp. wp_step. split; [exact Hp|]. exists (S i). split; [lia|]. split; [exact Htk'|].
      rewrite Hdue, Nat.add_0_r. by split. }
  injection Hat as -> ->. apply wpe_wp. rewrite !u16_succ, <- Hdue.
  eapply wp_mono; [apply wp_move_frame; [exact Hg|apply u16_range..]|].
  intros r [l2 io2] (-> & Ht2 & g & img & El & Hg2 & Hs & Hld). cbn [fst snd] in *. subst l2.
  split; [cbn [snd]; by rewrite Ht2|]. exists (S i). split; [lia|]. split; [exact Htk'|].
  split; [exact Hg2|]. split; [done|]. rewrite Hdue, Nat.add_comm. cbn [Nat.add].
  exists img. rewrite Hdue, Nat.add_comm in Hs. by split.
Qed.
End Move.

Section Programs.
Context {W : Type} `{Machine W, Ipc W, Video W, XpmLoader W}.
Context `{!VideoLaws W, !Mode105 W}.
Implicit Types (io : iost W) (l : lab5).

Lemma wp_leave l io :
  wp leave (fun r st => (r = 0 \/ r = 1) /\ l5_gpu st.1 = l5_gpu l /\
    l5_timer st.1 = l5_timer l /\ scan_code (l5_kbd st.1) = scan_code (l5_kbd l) /\
    io_trace io `prefix_of` io_trace st.2) (l, io).
Proof.
  unfold leave, vg_exit. wp_step. apply wp_lib_call. intros r io1 T1.
  assert (io_trace io `prefix_of` io_trace io1) as P1 by (rewrite T1; by eexists).
  destruct (tst r); [wp_step; auto 6|]. wp_step. unfold on_l5_kbd. apply wp_zoom. cbn [fst snd].
  eapply wp_drv; [apply keyboard_unsubscribe_spec|]. intros r2 k2 io2 evs2 T2 (_ & -> & _).
  assert (io_trace io `prefix_of` io_trace io2) as P2 by (etrans; [exact P1|]; by eexists).
  destruct (tst r2); [wp_step; auto 6|]. wp_step. unfold on_l5_timer. apply wp_zoom. cbn [fst snd].
  eapply wp_drv; [apply timer_unsubscribe_spec|]. intros r3 t3 io3 evs3 T3 (_ & -> & _).
  assert (io_trace io `prefix_of` io_trace io3) as P3 by (etrans; [exact P2|]; by eexists).
  destruct (tst r3); wp_step; auto 6.
Qed.

(** What [video_test_move] leaves: [hz] is the clock rate the kernel gave and
    [ticks] the timer interrupts counted, at most one a round.  The picture has
    moved one pixel right and down for each interrupt at which the clocks per
    frame divided the counter; before the first of them the card is as its
    initialisation left it. *)
Definition move_outcome counter (rounds : nat) xpm (xi yi fr_rate : Z) (l l' : lab5)
  (io io' : iost W) : Prop :=
  exists hz ticks, (ticks <= rounds)%nat /\
    (exists evs, io_trace io' = io_trace io ++ evs /\ EvCall "sys_hz" [] hz ∈ evs) /\
    timer_counter (l5_timer l') = count_up (timer_counter (l5_timer l)) ticks /\
    indexed (l5_gpu l') /\
    let clocks_per_frame := u16 (u16 hz / fr_rate) in
    match due_ticks counter clocks_per_frame (timer_hook_id (l5_timer l'))
            (timer_counter (l5_timer l)) ticks with
    | O => exists s s', gpu_init_mem_indexation 0x105 (l5_gpu l, s) = Ok (0, (l5_gpu l', s'))
    | S k => exists img,
        shows_image img (u16 (xi + Z.of_nat (S k))) (u16 (yi + Z.of_nat (S k))) (l5_gpu l') /\
        exists w w', xpm_load xpm XPM_INDEXED w = ((true, img), w')
    end.

Lemma moving_outcome counter rounds xpm xi yi fr_rate hz h l g0 st st' n at_ l' io io3 io' evs :
  moving xpm counter (u16 (u16 hz / fr_rate)) g0 xi yi (mkTimer (timer_counter (l5_timer l)) h)
    (io_trace io3) n at_ (l', io') -> (n <= rounds)%nat ->
  io_trace io3 = io_trace io ++ evs -> EvCall "sys_hz" [] hz ∈ evs ->
  gpu_init_mem_indexation 0x105 (l5_gpu l, st) = Ok (0, (g0, st')) ->
  move_outcome counter rounds xpm xi yi fr_rate l l' io io'.
Proof.
  intros ([evs' Ht] & i & Hi & [Hh Hc] & Hg & -> & Hpic) Hn T3 Hhz E. cbn [fst snd] in *.
  exists hz, i. split; [lia|]. split.
  { exists (evs ++ evs'). rewrite Ht, T3, app_assoc. split; [done|]. apply elem_of_app. by left. }
  split; [exact Hc|]. split; [exact Hg|]. cbn zeta. rewrite Hh.
  cbn [timer_hook_id timer_counter] in *. destruct (due_ticks _ _ _ _ _); [|exact Hpic].
  subst g0. by exists st, st'.
Qed.

Lemma wpe_video_test_move counter rounds xpm `{!Loads W xpm} xi yi xf yf speed fr_rate l io :
  0 <= kbd_hook_id (l5_kbd l) < 31 -> 0 <= timer_hook_id (l5_timer l) < 8 ->
  0 <= xi < 65536 -> 0 <= yi < 65536 ->
  wpe (video_test_move counter rounds xpm xi yi xf yf speed fr_rate)
    (fun f => f = OutOfFuel \/ f = DivByZero \/ f = Panic)
    (fun r st => r = 1 \/ (r = 0 /\ scan_code (l5_kbd st.1) = ESC_BREAKCODE /\
      move_outcome counter rounds xpm xi yi fr_rate l st.1 io st.2)) (l, io).
Proof.
  intros Hk Ht Hx Hy.
  unfold video_test_move. do 2 (wp_step; unfold on_io at 1; apply wpe_wp, wp_zoom;
    apply wp_oracle; intros ? ? _; cbn [fst snd]).
  wp_step. unfold on_l5_kbd at 1. apply wpe_wp, wp_zoom. cbn [fst snd].
  eapply wp_drv; [by apply (keyboard_subscribe_spec (l5_kbd l))|].
  intros [r1 kb] k1 io1 evs1 T1 (_ & h1 & s1 & -> & _). destruct (tst r1); [wp_step; by left|].
  wp_step. unfold on_l5_timer at 1. apply wpe_wp, wp_zoom. cbn [fst snd l5_timer].
  eapply wp_drv; [by apply (timer_subscribe_spec (l5_timer l))|].
  intros [r2 tb] t2 io2 evs2 T2 (_ & _ & h2 & s2 & -> & _). destruct (tst r2); [wp_step; by left|].
  wp_step. apply wpe_wp, wp_lib_call. intros hz io3 T3. cbn [fst snd io_trace] in *.
  assert (io_trace io3 = io_trace io ++ (evs1 ++ evs2 ++ [EvCall "sys_hz" [] hz])) as T
    by (by rewrite T3, T2, T1, <- !app_assoc).
  destruct (fr_rate =? 0); [apply wpe_fail; auto|].
  wp_step. apply wpe_wp. unfold on_io at 1. apply wp_zoom. cbn [snd].
  eapply wp_mono with (P := fun _ s => io_trace io3 `prefix_of` io_trace s).
  { unfold gpu_set_mode, Gpu.gpu_set_mode. wp_step. unfold wp at 1, lib_call, emit.
    destruct (dev_call _ _ _) as [r w']. destruct (tst r); wp_step; by eexists. }
  intros r3 io4 T4. cbn [fst snd] in *.
  destruct (tst r3); [wp_step; by left|].
  wp_step. unfold on_l5_gpu at 1. wp_step. cbn [fst snd l5_gpu].
  unfold gpu_init_mem_indexation.
  eapply wpe_mono.
  { apply (wpe_weaken (fun f => f = Panic)); [by auto|]. apply wpe_eqn.
    apply gpu_init_outcomes. intros r vmi w' E. by apply mode_105 in E. }
  intros r4 [g io5] [[[-> _]|(-> & Hg & T5 & _)] Einit];
    [change (tst 1) with true; cbn iota; wp_step; by left|].
  change (tst 0) with false. cbn iota. cbn [fst snd] in *. wp_step. eapply wpe_mono.
  { apply (wpe_iter_count _ (fun f => f = OutOfFuel \/ f = DivByZero \/ f = Panic)
      (moving xpm counter (u16 (u16 hz / fr_rate)) g xi yi
         (mkTimer (timer_counter (l5_timer l)) h2) (io_trace io3))
      (fun r st => r = None /\ scan_code (l5_kbd st.1) = ESC_BREAKCODE /\
        exists n at', (n <= rounds)%nat /\ moving xpm counter (u16 (u16 hz / fr_rate)) g xi yi
          (mkTimer (timer_counter (l5_timer l)) h2) (io_trace io3) n at' st)); [by left| |].
    - split; [by etrans|]. exists 0%nat. split; [lia|]. split; [done|]. split; [exact Hg|].
      split; [|done]. cbn [due_ticks]. by rewrite !Z.add_0_r, !u16_id by done.
    - intros n at_ [l' io'] Hn Hm. apply (wpe_weaken (fun f => f = DivByZero)); [by auto|].
      eapply wpe_mono; [by apply wpe_move_round|]. intros [?|?] st; [done|].
      intros (-> & He & at' & Hm'). split; [done|]. split; [done|]. exists n, at'.
      split; [lia|done]. }
  intros r5 [l6 io6] (-> & Hesc & n & at_ & Hn & Hm). cbn [fst] in *.
  apply wpe_wp. eapply wp_mono; [apply wp_leave|].
  intros r7 [l7 io7] ([-> | ->] & Eg & Et & Ec & T7); cbn [fst snd] in *; [right|by left].
  split; [done|]. split; [congruence|].
  eapply moving_outcome; [eapply moving_more; [exact Hm|done..]|done|exact T| |exact Einit].
  rewrite !elem_of_app. right. right. by apply list_elem_of_singleton.
Qed.

(** C33: [video_test_move] with hook numbers below 31 and 8 (their masks fit),
    from a start that is two 16-bit numbers, on a machine whose mode 105h is
    indexed, whose video memory has the size asked for and whose picture always
    loads: the only faults are rounds running out, the division by a frame rate
    of 0 or by 0 clocks per frame, and the panic of the card's initialisation.
    It answers 1, or 0 when the break code of ESC was the last scan code, and then
    it has drawn one frame for each timer interrupt it counted at which the clocks
    per frame (the kernel's clock rate over the frame rate) divide [counter]: the
    screen shows the picture that many pixels right of and below its start, its
    coordinates wrapping around at 65536, as far as it is on the screen and on
    black, or, if there was none, the card is as its initialisation left it.
    The end point and the speed play no part, and the undefined [counter] is any
    function of the driver's statics. *)
Theorem video_test_move_shows counter rounds xpm `{!Loads W xpm} xi yi xf yf speed fr_rate l io :
  0 <= kbd_hook_id (l5_kbd l) < 31 -> 0 <= timer_hook_id (l5_timer l) < 8 ->
  0 <= xi < 65536 -> 0 <= yi < 65536 ->
  match video_test_move counter rounds xpm xi yi xf yf speed fr_rate (l, io) with
  | Ok (r, (l', io')) => r = 1 \/ (r = 0 /\ scan_code (l5_kbd l') = ESC_BREAKCODE /\
      move_outcome counter rounds xpm xi yi fr_rate l l' io io')
  | Fault f => f = OutOfFuel \/ f = DivByZero \/ f = Panic
  end.
Proof.
  intros Hk Ht Hx Hy.
  pose proof (wpe_video_test_move counter rounds xpm xi yi xf yf speed fr_rate l io Hk Ht Hx Hy) as Hp.
  unfold wpe in Hp. by destruct (video_test_move _ _ _ _ _ _ _ _ _ _) as [[r [l' io']]|f].
Qed.
End Programs.

(** ** A concrete run *)

Definition lab5_init : lab5 := mkLab5 kbd_init timer_init gpu_zero.

Lemma penguin_dims : xpm_dims penguin = Some (64, 64, 9).
Proof. reflexivity. Qed.

(** A card of 40 pixels by 30, so that whole runs can be computed. *)
#[export] Instance small_video {W} : Video (roomy W) := {
  video_mode_info _ w := ((0, mkVbe 40 30 8 4 0 0 0 0 0 0 0xE0000000), w);
  video_map _ n w := (Some (replicate (Z.to_nat n) 0), w);
}.

#[export] Instance small_video_laws {W} : @VideoLaws (roomy W) small_video.
Proof. constructor. intros ? ? ? ? ? [= <- <-]. apply length_replicate. Qed.

#[export] Instance small_mode_105 {W} : @Mode105 (roomy W) small_video.
Proof. intros w r vmi w' [= <- <- <-]. repeat split; cbn; unfold INT_MAX; (done || lia). Qed.

#[export] Instance demo_loads {W} : Loads (roomy W) penguin.
Proof. by eapply demo_loads_xpm; [apply penguin_dims|..]. Qed.

(** Two ticks, then ESC is released. *)
Definition demo_move : iost (demo (list message)) :=
  demo_io (mkScript [(0, 1); (0, 1); (0, 0x81)] [] [(0, 1); (0, 0); (0, 1); (0, 0)] [] []
      [60; 0; 0; 0])
    [interrupt 1; interrupt 1; interrupt 2].

(** At sixty frames a second of sixty ticks both ticks are frames. *)
Abbreviation demo_moves :=
  (video_test_move timer_counter 4 penguin 10 20 0 0 1 60 (lab5_init, demo_move)).

Lemma video_test_move_shows_witness :
  exists l' io' img, demo_moves = Ok (0, (l', io')) /\ scan_code (l5_kbd l') = ESC_BREAKCODE /\
    shows_image img 12 22 (l5_gpu l') /\
    exists w w', xpm_load penguin XPM_INDEXED (w : demo (list message)) = ((true, img), w').
Proof.
  assert (match demo_moves with
    | Ok (r, (l', io')) => r = 0 /\ timer_counter (l5_timer l') = 2 /\
        Forall (fun ev => match ev with EvCall "sys_hz" _ hz => hz = 60 | _ => True end)
          (io_trace io')
    | Fault _ => False
    end) as Hc.
  { vm_compute. do 2 (split; [reflexivity|]). by repeat constructor. }
  pose proof (video_test_move_shows timer_counter 4 penguin 10 20 0 0 1 60 lab5_init demo_move
    ltac:(cbn; lia) ltac:(cbn; lia) ltac:(lia) ltac:(lia)) as Hp.
  destruct demo_moves as [[r [l' io']]|f]; [|done]. destruct Hc as (-> & Hc & Hhz).
  destruct Hp as [?|(_ & Hesc & hz & ticks & Hle & (evs & Ht & Hin) & Htc & _ & Hpic)]; [done|].
  change (io_trace io' = evs) in Ht. subst evs.
  rewrite Forall_forall in Hhz. apply Hhz in Hin as ->.
  rewrite Hc in Htc. assert (ticks = 2%nat) as ->.
  { destruct ticks as [|[|[|[|[|ticks]]]]]; try discriminate Htc; (done || lia). }
  destruct Hpic as (img & Hs & Hl). by exists l', io', img.
Defined.
