(* ===== verification/Rows.v ===== *)
(** * Arrays of rows: the [char **] of the level

    The grid and the screen keep a table of pointers to rows of characters,
    all of it allocated with [malloc].  Tables and rows have a store each.
    [rows_at] says that a pointer leads to a table of given rows; two tables
    do not interfere when their rows are at different addresses. *)

From S2P Require Import Prelude Machine Format Gpu Heap.

Record rows : Type := mkRows { tables : store (list Z); chars : store (list Z) }.

Definition rows_empty : rows := mkRows store_empty store_empty.

Definition in_tables {A} (m : M (store (list Z)) A) : M rows A :=
  zoom tables (fun t r => mkRows t (chars r)) m.
Definition in_chars {A} (m : M (store (list Z)) A) : M rows A :=
  zoom chars (fun c r => mkRows (tables r) c) m.

(** [objects\[y\]], [objects\[y\] = p] *)
Definition row_ptr (objects y : Z) : M rows Z :=
  table ← in_tables (load objects);
  lift_res (array_get table y).
Definition set_row_ptr (objects y p : Z) : M rows unit :=
  table ← in_tables (load objects);
  table ← lift_res (array_set table y p);
  in_tables (assign objects table).

(** [objects\[y\]\[x\]], [objects\[y\]\[x\] = c] *)
Definition get_cell (objects y x : Z) : M rows Z :=
  p ← row_ptr objects y;
  row ← in_chars (load p);
  lift_res (array_get row x).
Definition set_cell (objects y x c : Z) : M rows unit :=
  p ← row_ptr objects y;
  row ← in_chars (load p);
  row ← lift_res (array_set row x c);
  in_chars (assign p row).

Section Rows.
Context {W : Type} `{Machine W}.

Definition on_tables {A} (m : drv W (store (list Z)) A) : drv W rows A :=
  zoom (fun st => (tables st.1, st.2)) (fun c st => (mkRows c.1 (chars st.1), c.2)) m.
Definition on_chars {A} (m : drv W (store (list Z)) A) : drv W rows A :=
  zoom (fun st => (chars st.1, st.2)) (fun c st => (mkRows (tables st.1) c.1, c.2)) m.

Fixpoint indeterminate_pointers (n : nat) : io W (list Z) :=
  match n with
  | O => mret []
  | S n => p ← indeterminate; ps ← indeterminate_pointers n; mret (p :: ps)
  end.

(** [malloc(h * sizeof(char * ))] *)
Definition malloc_table (h : Z) : drv W rows Z :=
  junk ← on_io (indeterminate_pointers (Z.to_nat h));
  on_tables (alloc junk).

(** [objects\[i\] = malloc(w); memset(objects\[i\], ' ', w);] *)
Definition blank_row (objects w i : Z) : drv W rows unit :=
  junk ← on_io (indeterminate_bytes (Z.to_nat w));
  p ← on_chars (alloc junk);
  on_statics (set_row_ptr objects i p) ;;
  q ← on_statics (row_ptr objects i);
  row ← on_statics (in_chars (load q));
  row ← lift_res (block_write row 0 (replicate (Z.to_nat w) 32));
  on_statics (in_chars (assign q row)).

Definition blank_rows (objects w h : Z) : drv W rows unit :=
  for_up (Z.to_nat h) 0 (blank_row objects w).
End Rows.

(** ** What a table stands for *)

(** The rows [g] at the addresses [ps], reached through [objects]. *)
Definition live_row (r : rows) (p : Z) (row : text) : Prop :=
  p <> NULL /\ cells (chars r) !! p = Some row.

Definition rows_at (r : rows) (objects : Z) (ps : list Z) (g : list text) : Prop :=
  objects <> NULL /\ cells (tables r) !! objects = Some ps /\ NoDup ps /\
  Forall2 (live_row r) ps g.

Definition rows_ok (r : rows) : Prop := store_ok (tables r) /\ store_ok (chars r).

(** [r'] is [r] but for the rows at [ps]. *)
Definition elsewhere (ps : list Z) (r r' : rows) : Prop :=
  tables r' = tables r /\ brk (chars r') = brk (chars r) /\
  forall p, p ∉ ps -> cells (chars r') !! p = cells (chars r) !! p.

Lemma rows_ok_empty : rows_ok rows_empty.
Proof. split; apply store_ok_empty. Qed.

Lemma elsewhere_refl ps r : elsewhere ps r r.
Proof. done. Qed.

Lemma elsewhere_trans ps r1 r2 r3 :
  elsewhere ps r1 r2 -> elsewhere ps r2 r3 -> elsewhere ps r1 r3.
Proof.
  intros (T1 & B1 & C1) (T2 & B2 & C2). split; [congruence|]. split; [congruence|].
  intros p Hp. by rewrite C2, C1.
Qed.

(** A table whose rows are elsewhere does not change. *)
Lemma rows_at_elsewhere ps r r' objects qs g :
  elsewhere ps r r' -> (forall p, p ∈ qs -> p ∉ ps) ->
  rows_at r objects qs g -> rows_at r' objects qs g.
Proof.
  intros (Ht & _ & Hc) Hd (Ho & Hl & Hnd & HF). split; [done|]. split; [by rewrite Ht|].
  split; [done|]. apply Forall2_same_length_lookup in HF as [Hlen HF].
  apply Forall2_same_length_lookup. split; [done|]. intros i p row Hp Hr.
  destruct (HF i p row Hp Hr) as [Hn Hrow]. split; [done|]. rewrite Hc; [done|].
  apply Hd. by eapply list_elem_of_lookup_2.
Qed.

(** ** Cells *)

Definition cell (g : list text) (y x : Z) : option Z :=
  if decide (0 <= y /\ 0 <= x) then g !! Z.to_nat y ≫= (.!! Z.to_nat x) else None.

Definition put_cell (g : list text) (y x c : Z) : list text :=
  alter (fun row => <[Z.to_nat x := c]> row) (Z.to_nat y) g.

Lemma cell_put g y x c v y' x' :
  cell g y x = Some c ->
  cell (put_cell g y x v) y' x' = if decide (y' = y /\ x' = x) then Some v else cell g y' x'.
Proof.
  unfold cell, put_cell. intros Hc.
  destruct (decide (0 <= y /\ 0 <= x)) as [[Hy Hx]|]; [|done].
  destruct (g !! Z.to_nat y) as [row|] eqn:Er; [cbn in Hc|done].
  destruct (decide (0 <= y' /\ 0 <= x')) as [[Hy' Hx']|]; [|by rewrite decide_False by lia].
  destruct (decide (y' = y)) as [->|Hne].
  - rewrite list_lookup_alter_eq, Er. cbn.
    destruct (decide (x' = x)) as [->|Hne].
    + rewrite decide_True by done. apply list_lookup_insert_eq. by eapply lookup_lt_Some.
    + rewrite decide_False by lia. apply list_lookup_insert_ne. lia.
  - rewrite decide_False by lia. by rewrite list_lookup_alter_ne by lia.
Qed.

Section Cells.
Implicit Types (r : rows) (g : list text).

Lemma row_ptr_run r objects ps g y :
  rows_at r objects ps g ->
  row_ptr objects y r = match array_get ps y with Ok p => Ok (p, r) | Fault f => Fault f end.
Proof.
  intros (Ho & Ht & _ & _). unfold row_ptr, in_tables, zoom, load, get, mbind, M_bind.
  rewrite (proj2 (Z.eqb_neq _ _) Ho), Ht. unfold mret, M_ret, lift_res.
  destruct r; cbn. by destruct (array_get ps y).
Qed.

Lemma load_run {A} (h : store A) p a : p <> NULL -> cells h !! p = Some a -> load p h = Ok (a, h).
Proof.
  intros Hp Ha. unfold load, get, mbind, M_bind.
  by rewrite (proj2 (Z.eqb_neq _ _) Hp), Ha.
Qed.

(** Where the row is, or is not. *)
Lemma rows_at_ptr r objects ps g y :
  rows_at r objects ps g ->
  (array_get ps y = Fault OutOfBounds /\ forall x, cell g y x = None) \/
  exists p row, array_get ps y = Ok p /\ 0 <= y /\ ps !! Z.to_nat y = Some p /\
    g !! Z.to_nat y = Some row /\ live_row r p row /\
    forall x, array_get row x = match cell g y x with Some c => Ok c | None => Fault OutOfBounds end.
Proof.
  intros (_ & _ & _ & HF). unfold array_get, cell. destruct (Z.ltb_spec y 0).
  { left. split; [done|]. intros x. rewrite decide_False by lia. done. }
  destruct (ps !! Z.to_nat y) as [p|] eqn:Ep.
  - right. destruct (Forall2_lookup_l _ _ _ _ _ HF Ep) as (row & Er & Hl).
    exists p, row. do 5 (split; [done|]). intros x. destruct (Z.ltb_spec x 0).
    + by rewrite decide_False by lia.
    + rewrite decide_True by lia. cbn. by rewrite Er.
  - left. split; [done|]. intros x. apply Forall2_length in HF.
    apply lookup_ge_None in Ep. rewrite (lookup_ge_None_2 g) by lia. by case_decide.
Qed.

Lemma get_cell_run r objects ps g y x :
  rows_at r objects ps g ->
  get_cell objects y x r = match cell g y x with
                           | Some c => Ok (c, r)
                           | None => Fault OutOfBounds
                           end.
Proof.
  intros Hr. unfold get_cell, mbind, M_bind. rewrite (row_ptr_run _ _ _ _ _ Hr).
  destruct (rows_at_ptr _ _ _ _ y Hr) as [[-> Hn]|(p & row & -> & _ & _ & _ & [Hp Hrow] & Hx)];
    [by rewrite Hn|].
  unfold in_chars, zoom. rewrite (load_run _ _ _ Hp Hrow). unfold lift_res. rewrite Hx.
  destruct r. by destruct (cell g y x).
Qed.

Lemma set_cell_run r objects ps g y x c :
  rows_at r objects ps g -> rows_ok r ->
  match cell g y x with
  | Some _ => exists r', set_cell objects y x c r = Ok (tt, r') /\
      rows_at r' objects ps (put_cell g y x c) /\ elsewhere ps r r' /\ rows_ok r'
  | None => set_cell objects y x c r = Fault OutOfBounds
  end.
Proof.
  intros Hr Hok. unfold set_cell, mbind, M_bind. rewrite (row_ptr_run _ _ _ _ _ Hr).
  destruct (rows_at_ptr _ _ _ _ y Hr)
    as [[-> Hn]|(p & row & -> & Hy & Ep & Er & [Hp Hrow] & Hx)]; [by rewrite Hn|].
  unfold in_chars, zoom. rewrite (load_run _ _ _ Hp Hrow).
  assert (lift_res (array_set row x c) r = match cell g y x with
    | Some _ => Ok (<[Z.to_nat x := c]> row, r) | None => Fault OutOfBounds end) as E.
  { specialize (Hx x). unfold array_get in Hx. unfold lift_res, array_set.
    destruct (Z.ltb_spec x 0), (Z.leb_spec 0 x); try lia; cbn [andb].
    - by destruct (cell g y x).
    - destruct (Z.ltb_spec x (Z.of_nat (length row))) as [Hl|Hl].
      + destruct (lookup_lt_is_Some_2 row (Z.to_nat x)) as [d Hd]; [lia|].
        rewrite Hd in Hx. by destruct (cell g y x).
      + rewrite lookup_ge_None_2 in Hx by lia. by destruct (cell g y x). }
  destruct r as [t h]. cbn [tables chars] in *. rewrite E.
  destruct (cell g y x) as [d|]; [|done].
  cbn beta iota. unfold assign, mbind, M_bind. cbn [chars].
  rewrite (load_run _ _ _ Hp Hrow). cbn.
  eexists. split; [reflexivity|]. destruct Hr as (Ho & Ht & Hnd & HF), Hok as [Hk1 Hk2].
  assert (p ∈ ps) as Hin by (by eapply list_elem_of_lookup_2).
  split; [|split].
  - split; [done|]. split; [done|]. split; [done|]. unfold put_cell.
    apply Forall2_same_length_lookup in HF as [Hlen HF].
    apply Forall2_same_length_lookup. split; [by rewrite length_alter|].
    intros i q row' Hq Hr'. cbn [chars cells] in *.
    destruct (decide (i = Z.to_nat y)) as [->|Hne].
    + rewrite list_lookup_alter, decide_True, Er in Hr' by done. injection Hr' as <-.
      rewrite Ep in Hq. injection Hq as <-. split; [done|]. cbn. by rewrite lookup_insert_eq.
    + rewrite list_lookup_alter_ne in Hr' by done. destruct (HF _ _ _ Hq Hr') as [Hq0 Hl].
      split; [done|]. cbn. rewrite lookup_insert_ne; [done|]. intros ->. apply Hne.
      by eapply NoDup_lookup.
  - split; [done|]. split; [done|]. intros q Hq. cbn. rewrite lookup_insert_ne; [done|].
    by intros ->.
  - split; [done|]. by eapply store_ok_insert.
Qed.
End Cells.

(** ** Making a table *)

Section Making.
Context {W : Type} `{Machine W}.
Implicit Types (r : rows) (io : iost W).

Lemma indeterminate_pointers_length n io :
  wp (indeterminate_pointers n) (fun ps _ => length ps = n) io.
Proof.
  revert io. induction n as [|n IH]; intros io; cbn [indeterminate_pointers]; [by wp_step|].
  wp_step. apply wp_oracle. intros p w _. wp_step. eapply wp_mono; [apply IH|].
  intros ps io' Hl. wp_step. cbn. by rewrite Hl.
Qed.

(** A new row at [p] of the table [ps] beside the old rows. *)
Definition row_made (r r' : rows) (objects : Z) (ps : list Z) (p w : Z) (i : nat) : Prop :=
  r' = mkRows (mkStore (<[objects := <[i := p]> ps]> (cells (tables r))) (brk (tables r)))
         (mkStore (<[p := replicate (Z.to_nat w) 32]> (cells (chars r))) (brk (chars r) + 1)) /\
  p = brk (chars r).

Lemma wp_blank_row `{!MallocOk W} r objects ps w i (Q : unit -> rows * iost W -> Prop) io :
  rows_ok r -> objects <> NULL -> cells (tables r) !! objects = Some ps ->
  0 <= i < Z.of_nat (length ps) -> 0 <= w ->
  (forall r' io', row_made r r' objects ps (brk (chars r)) w (Z.to_nat i) -> Q tt (r', io')) ->
  wp (blank_row objects w i) Q (r, io).
Proof.
  intros [_ [Hb _]] Ho Ht Hi Hw HQ. unfold blank_row. wp_step. unfold on_io. apply wp_zoom.
  eapply wp_mono; [apply indeterminate_bytes_length|].
  intros junk io1 Hl. cbn beta in Hl. cbn [fst snd].
  wp_step. unfold on_chars. apply wp_zoom. cbn [fst snd]. apply wp_alloc_ok.
  intros io2 _. cbn [fst snd]. wp_step. unfold on_statics at 1. apply wp_zoom. cbn [fst snd].
  unfold set_row_ptr. wp_step. apply wp_zoom. eapply wp_load; [done..|]. wp_step.
  eapply wp_lift_res; [by apply array_set_ok|]. cbn [tables chars].
  apply wp_zoom. cbn [tables chars]. eapply wp_assign; [done..|]. cbn [tables chars cells brk].
  wp_step. unfold on_statics at 1. apply wp_zoom. cbn [fst snd].
  unfold row_ptr. wp_step. apply wp_zoom. cbn [tables].
  eapply wp_load; [done|apply lookup_insert_eq|]. eapply wp_lift_res.
  { apply array_get_ok; [lia|]. apply list_lookup_insert_eq. lia. }
  cbn [fst snd tables chars]. wp_step. unfold on_statics at 1. do 2 apply wp_zoom.
  cbn [fst snd tables chars]. eapply wp_load; [unfold NULL; lia|apply lookup_insert_eq|].
  cbn [fst snd tables chars]. wp_step. eapply wp_lift_res.
  { apply block_write_ok; [lia|]. rewrite length_replicate. lia. }
  unfold on_statics. do 2 apply wp_zoom. cbn [fst snd tables chars].
  eapply wp_assign; [unfold NULL; lia|apply lookup_insert_eq|]. cbn [fst snd tables chars cells brk].
  rewrite insert_insert_eq. cbn [Z.to_nat take app]. rewrite length_replicate, Nat.add_0_l.
  rewrite drop_ge, app_nil_r by lia. apply HQ. split; [|done]. done.
Qed.

(** The old rows are as they were, and the rows at [ps] are new. *)
Definition beside_old (r r' : rows) (objects : Z) (ps : list Z) : Prop :=
  rows_ok r' /\ brk (tables r') = brk (tables r) /\
  (forall t, t <> objects -> cells (tables r') !! t = cells (tables r) !! t) /\
  brk (chars r) <= brk (chars r') /\
  Forall (fun p => brk (chars r) <= p < brk (chars r')) ps /\
  (forall p, p ∉ ps -> cells (chars r') !! p = cells (chars r) !! p).

(** The first rows of the table made, the rest of it still junk. *)
Definition partly (r : rows) (objects w : Z) (h i : nat) (r' : rows) : Prop :=
  exists ps junk, length ps = i /\ length (ps ++ junk) = h /\
    cells (tables r') !! objects = Some (ps ++ junk) /\ NoDup ps /\
    Forall (fun p => live_row r' p (replicate (Z.to_nat w) 32)) ps /\
    beside_old r r' objects ps.

Lemma partly_next r objects w h i r1 r2 :
  rows_ok r -> partly r objects w h i r1 -> (i < h)%nat ->
  (forall ps, cells (tables r1) !! objects = Some ps ->
     row_made r1 r2 objects ps (brk (chars r1)) w i) ->
  partly r objects w h (S i) r2.
Proof.
  intros Hr (ps & junk & Hi & Hh & Ht & Hnd & HF & Hk1 & Hb & Ht0 & Hc & HF2 & Hold) Hlt Hm.
  destruct (Hm _ Ht) as [-> _]. destruct junk as [|j junk]; [rewrite app_nil_r in Hh; lia|].
  pose proof Hk1 as [Hkt Hkc].
  assert (brk (chars r1) ∉ ps) as Hnew.
  { intros Hin. rewrite Forall_forall in HF2. specialize (HF2 _ Hin). cbn in HF2. lia. }
  assert (0 < brk (chars r1)) by apply Hkc.
  exists (ps ++ [brk (chars r1)]), junk. cbn [tables chars cells brk].
  rewrite length_app in Hh. cbn [length] in Hh.
  split; [rewrite length_app; cbn; lia|].
  split; [rewrite !length_app; cbn; lia|]. split.
  { rewrite lookup_insert_eq. f_equal. rewrite insert_app_r_alt by lia.
    by rewrite Hi, Nat.sub_diag, <- app_assoc. }
  split; [apply NoDup_app; split; [done|]; split; [|apply NoDup_singleton];
    intros p Hp Hq; apply list_elem_of_singleton in Hq; by subst|].
  split.
  { apply Forall_app. split; [|apply Forall_singleton; split; [unfold NULL; lia|apply lookup_insert_eq]].
    apply Forall_forall. intros p Hp. rewrite Forall_forall in HF. destruct (HF p Hp) as [Hp0 Hl].
    split; [done|]. cbn. rewrite lookup_insert_ne; [done|]. by intros <-. }
  split; [split; cbn; [by eapply store_ok_insert|by apply store_ok_fresh]|].
  split; [done|]. split; [intros t Hne; cbn; by rewrite lookup_insert_ne, Ht0|].
  cbn. split; [lia|]. split.
  { apply Forall_app. split; [|apply Forall_singleton; lia].
    eapply Forall_impl; [exact HF2|]. intros p. cbn. lia. }
  intros p Hp. apply not_elem_of_app in Hp as [Hp Hp1]. rewrite lookup_insert_ne; [by apply Hold|].
  intros <-. apply Hp1. by apply list_elem_of_singleton.
Qed.

(** [blank_rows] fills the whole table. *)
Lemma wp_blank_rows `{!MallocOk W} r objects w h io :
  rows_ok r -> objects <> NULL ->
  (exists junk, cells (tables r) !! objects = Some junk /\ length junk = Z.to_nat h) ->
  0 <= w -> 0 <= h ->
  wp (blank_rows objects w h) (fun _ st => exists ps,
    rows_at st.1 objects ps (replicate (Z.to_nat h) (replicate (Z.to_nat w) 32)) /\
    beside_old r st.1 objects ps) (r, io).
Proof.
  intros Hr Ho (junk & Hj & Hl) Hw Hh. unfold blank_rows.
  apply wp_for_up with (Inv := fun i st => partly r objects w (Z.to_nat h) (Z.to_nat i) st.1).
  - exists [], junk. do 3 (split; [done|]). split; [constructor|]. split; [constructor|].
    do 3 (split; [done|]). split; [done|]. by split; [constructor|].
  - intros i [r1 io1] Hi Hp. pose proof Hp as (ps & junk1 & Hpi & Hlen & Ht & _ & _ & Hk & _).
    cbn [fst] in *. eapply wp_blank_row; [exact Hk|done|exact Ht|lia|done|].
    intros r2 io2 Hm. replace (Z.to_nat (i + 1)) with (S (Z.to_nat i)) by lia.
    eapply partly_next; [done|exact Hp|lia|]. intros ps' Hps'. cbn [fst] in Hps'.
    by simplify_eq.
  - intros [r1 io1] (ps & junk1 & Hpi & Hlen & Ht & Hnd & HF & Hb). cbn [fst] in *.
    rewrite Z.add_0_l, Nat2Z.id in Hpi. exists ps. split; [|exact Hb]. split; [done|].
    assert (junk1 = []) as -> by (apply length_zero_iff_nil; rewrite length_app in Hlen; lia).
    rewrite app_nil_r in Ht. split; [done|]. split; [done|].
    apply Forall2_same_length_lookup. rewrite length_replicate. split; [done|].
    intros i p row Hp Hrow. apply lookup_replicate_1 in Hrow as [-> _].
    exact (Forall_lookup_1 _ _ _ _ HF Hp).
Qed.

Lemma wp_malloc_table `{!MallocOk W} r h (Q : Z -> rows * iost W -> Prop) io :
  rows_ok r ->
  (forall junk io', length junk = Z.to_nat h ->
     let r' := mkRows (mkStore (<[brk (tables r) := junk]> (cells (tables r))) (brk (tables r) + 1))
                 (chars r) in
     rows_ok r' -> Q (brk (tables r)) (r', io')) ->
  wp (malloc_table h) Q (r, io).
Proof.
  intros [Ht Hc] HQ. unfold malloc_table. wp_step. unfold on_io. apply wp_zoom.
  eapply wp_mono; [apply indeterminate_pointers_length|]. intros junk io1 Hl. cbn beta in Hl.
  cbn [fst snd]. unfold on_tables. apply wp_zoom. apply wp_alloc_ok. intros io2 _. cbn [fst snd].
  apply HQ; [done|]. split; [by apply store_ok_fresh|done].
Qed.
End Making.

(** [r'] is [r] with the table [objects] and its rows [ps] added. *)
Definition added (r r' : rows) (objects : Z) (ps : list Z) : Prop :=
  rows_ok r' /\ cells (tables r) !! objects = None /\
  (forall t, t <> objects -> cells (tables r') !! t = cells (tables r) !! t) /\
  Forall (fun p => cells (chars r) !! p = None) ps /\
  (forall p, p ∉ ps -> cells (chars r') !! p = cells (chars r) !! p).

Lemma added_elsewhere r r1 r2 objects ps :
  added r r1 objects ps -> elsewhere ps r1 r2 -> rows_ok r2 -> added r r2 objects ps.
Proof.
  intros (_ & Ho & Ht & Hn & Hc) (Et & _ & Ec) Hok. split; [done|]. split; [done|].
  split; [intros t Hne; rewrite Et; by apply Ht|]. split; [done|]. intros p Hp. by rewrite Ec, Hc.
Qed.

Lemma wp_new_rows {W} `{Machine W, !MallocOk W} r objects w h (io : iost W) junk :
  rows_ok r -> length junk = Z.to_nat h -> 0 <= w -> 0 <= h ->
  objects = brk (tables r) ->
  let r1 := mkRows (mkStore (<[objects := junk]> (cells (tables r))) (brk (tables r) + 1))
              (chars r) in
  rows_ok r1 ->
  wp (blank_rows objects w h) (fun _ st => exists ps,
    rows_at st.1 objects ps (replicate (Z.to_nat h) (replicate (Z.to_nat w) 32)) /\
    added r st.1 objects ps) (r1, io).
Proof.
  intros [Ht Hc] Hl Hw Hh -> r1 Hr1. pose proof Ht as [Hb _].
  eapply wp_mono; [apply wp_blank_rows; [done|unfold NULL; lia| |done..]|].
  { exists junk. split; [apply lookup_insert_eq|done]. }
  intros [] [r2 io2] (ps & Hr2 & Hok2 & _ & Hold & _ & Hps & Hch). cbn [fst] in *.
  exists ps. split; [done|]. split; [done|]. split; [by apply fresh_not_live|].
  split; [intros t Hne; rewrite Hold by done; cbn; by rewrite lookup_insert_ne|].
  split; [|exact Hch]. eapply Forall_impl; [exact Hps|]. intros p Hp. cbn beta in Hp.
  destruct (cells (chars r) !! p) eqn:E; [|done]. apply Hc in E. cbn [chars r1] in Hp. lia.
Qed.

(** ** Freeing a table *)

Definition free_row (objects i : Z) : M rows unit :=
  p ← row_ptr objects i;
  in_chars (free p).

(** [r'] is [r] without the rows at [ps]. *)
Definition without (ps : list Z) (r r' : rows) : Prop :=
  tables r' = tables r /\ brk (chars r') = brk (chars r) /\
  forall p, cells (chars r') !! p = if decide (p ∈ ps) then None else cells (chars r) !! p.

Lemma wp_free_rows r objects ps g :
  rows_at r objects ps g ->
  wp (for_up (length g) 0 (free_row objects)) (fun _ r' => without ps r r') r.
Proof.
  intros (Ho & Ht & Hnd & HF). pose proof (Forall2_length _ _ _ HF) as Hl. rewrite <- Hl.
  apply wp_for_up with (Inv := fun i r' => without (take (Z.to_nat i) ps) r r').
  - split; [done|]. split; [done|]. intros p. by rewrite decide_False by apply not_elem_of_nil.
  - intros i r1 Hi (Et & Eb & Ec). unfold free_row, row_ptr, in_tables, in_chars. wp_step. wp_step.
    wp_step. rewrite Et. eapply wp_load; [done..|].
    destruct (lookup_lt_is_Some_2 ps (Z.to_nat i)) as [p Hp]; [lia|].
    eapply wp_lift_res; [apply array_get_ok; [lia|exact Hp]|]. cbn [chars tables].
    destruct (Forall2_lookup_l _ _ _ _ _ HF Hp) as (row & _ & Hp0 & Hrow).
    assert (p ∉ take (Z.to_nat i) ps) as Hnot.
    { intros (j & Hj)%list_elem_of_lookup_1. apply lookup_take_Some in Hj as [Hj Hlt].
      pose proof (NoDup_lookup _ _ _ _ Hnd Hj Hp). lia. }
    apply wp_zoom. cbn [chars tables]. eapply wp_free; [done|rewrite Ec, decide_False by done; exact Hrow|].
    split; [done|]. split; [exact Eb|]. intros q. cbn [chars cells].
    replace (Z.to_nat (i + 1)) with (S (Z.to_nat i)) by lia. rewrite (take_S_r _ _ p) by done.
    destruct (decide (q = p)) as [->|Hne].
    + rewrite lookup_delete_eq, decide_True; [done|]. apply elem_of_app. right. by constructor.
    + rewrite lookup_delete_ne, Ec by done. apply decide_ext. rewrite elem_of_app, list_elem_of_singleton.
      split; [by left|by intros [?|?]].
  - intros r1 Hw. by rewrite Z.add_0_l, Nat2Z.id, take_ge in Hw by done.
Qed.

(** Rows that were there before are there after, at other addresses. *)
Lemma rows_at_added r r' objects ps t qs g :
  added r r' objects ps -> rows_at r t qs g ->
  rows_at r' t qs g /\ forall p, p ∈ qs -> p ∉ ps.
Proof.
  intros (_ & Ho & Ht & Hn & Hc) (Ht0 & Hl & Hnd & HF). rewrite Forall_forall in Hn.
  assert (forall p, p ∈ qs -> p ∉ ps) as Hd.
  { intros p (i & Hi)%list_elem_of_lookup_1 Hp.
    destruct (Forall2_lookup_l _ _ _ _ _ HF Hi) as (row & _ & _ & Hrow).
    specialize (Hn p Hp). cbn in Hn. congruence. }
  split; [|exact Hd]. split; [done|]. split.
  { rewrite Ht; [done|]. intros ->. congruence. }
  split; [done|]. apply Forall2_same_length_lookup in HF as [Hlen HF].
  apply Forall2_same_length_lookup. split; [done|]. intros i p row Hp Hr.
  destruct (HF i p row Hp Hr) as [Hp0 Hrow]. split; [done|]. rewrite Hc; [done|].
  apply Hd. by eapply list_elem_of_lookup_2.
Qed.
