(* ===== verification/Grid.v ===== *)
(** * The level grid: grid/grid.h and grid/grid.c

    [grid_init] reads a level file: a line with the two sizes, then the rows,
    which it copies into rows of blanks on the heap.  The file behind a path is
    the class [LevelFiles]. *)

From S2P Require Import Prelude Machine Format Leaderboard Gpu Heap Demo Rows.

(** [fopen(path, "r")] (the contents, or a failure) and [fclose]. *)
Class LevelFiles (W : Type) : Type := {
  level_open : text -> W -> option text * W;
  level_close : W -> W;
}.

Record GRID_INFO : Type := mkGrid { gx_size : Z; gy_size : Z; gobjects : Z }.

(** [grid_info] and the heap. *)
Record level_state : Type := mkLevel { grid_info : GRID_INFO; level_rows : rows }.

Definition grid_zero : GRID_INFO := mkGrid 0 0 NULL.
Definition set_gx (x : Z) (gi : GRID_INFO) : GRID_INFO := mkGrid x (gy_size gi) (gobjects gi).
Definition set_gy (y : Z) (gi : GRID_INFO) : GRID_INFO := mkGrid (gx_size gi) y (gobjects gi).
Definition set_gobjects (p : Z) (gi : GRID_INFO) : GRID_INFO :=
  mkGrid (gx_size gi) (gy_size gi) p.

(** ** Lines and numbers *)

(** [fgets]: at most [n] characters, up to a newline; [NULL] is the case of an
    empty input. *)
Fixpoint fgets (n : nat) (s : text) : text * text :=
  match n, s with
  | S n, c :: s => if c =? 10 then ([10], s) else let '(l, r) := fgets n s in (c :: l, r)
  | _, _ => ([], s)
  end.

(** [char line\[100\]] *)
Definition LINE : nat := 99.

(** [%hhu]: [None] is a matching failure; the standard leaves a number that
    does not fit undefined. *)
Definition clamp_u8 (p : Z * text) : res Z * text :=
  (if (0 <=? p.1) && (p.1 <? 256) then Ok p.1 else Fault BadConversion, p.2).

Definition scan_hhu (s : text) : option (res Z * text) :=
  match skip_space s with
  | c :: s' =>
      if c =? 45 then (fun p => clamp_u8 (- p.1, p.2)) <$> scan_udec s'
      else if c =? 43 then clamp_u8 <$> scan_udec s'
      else clamp_u8 <$> scan_udec (c :: s')
  | [] => None
  end.

(** [sscanf(line, "%hhu %hhu", &grid_info.x_size, &grid_info.y_size)]: the
    number of conversions (0 stands for [EOF] too) and what was stored. *)
Definition scan_dims (line : text) (gi : GRID_INFO) : res (Z * GRID_INFO) :=
  match scan_hhu line with
  | None => Ok (0, gi)
  | Some (v, s) =>
      let? x := v in
      let gi := set_gx x gi in
      match scan_hhu (skip_space s) with
      | None => Ok (1, gi)
      | Some (v, _) => let? y := v in Ok (2, set_gy y gi)
      end
  end.

Definition LEVELS : text := txt "/home/lcom/labs/shared/proj/src/assets/levels/".

Section Grid.
Context {W : Type} `{Machine W, LevelFiles W}.

Definition on_rows {A} (m : drv W rows A) : drv W level_state A :=
  zoom (fun st => (level_rows st.1, st.2))
    (fun c st => (mkLevel (grid_info st.1) c.1, c.2)) m.
Definition set_grid (f : GRID_INFO -> GRID_INFO) : drv W level_state unit :=
  set_statics (fun l => mkLevel (f (grid_info l)) (level_rows l)).
Definition close_level : drv W level_state unit := on_io (oracle (fun w => (tt, level_close w))).

(** [strcpy(level_path, ...); strcat(level_path, level);] *)
Definition level_path (level : text) : drv W level_state text :=
  junk ← on_io (indeterminate_bytes 100);
  path ← lift_res (store_string LEVELS junk);
  prefix ← lift_res (c_string path);
  path ← lift_res (block_write path (Z.of_nat (length prefix)) (level ++ [0]));
  lift_res (c_string path).

(** [for (int i = 0; line\[i\] != '\0'; i++) grid_info.objects\[y\]\[i\] = line\[i\];]
    for the rest [str] of the line from [i]. *)
Fixpoint copy_line (objects y i : Z) (str : text) : M rows unit :=
  match str with
  | [] => mret tt
  | c :: str => set_cell objects y i c ;; copy_line objects y (i + 1) str
  end.

(** The [while] loop; every line takes a character at least, so that the
    length of the input is enough fuel. *)
Fixpoint read_rows (fuel : nat) (s : text) (y : Z) : drv W level_state unit :=
  match fuel with
  | O => fail OutOfFuel
  | S fuel =>
      match s with
      | [] => mret tt
      | _ =>
          let '(line, s) := fgets LINE s in
          l ← statics;
          if y <? gy_size (grid_info l) then
            str ← lift_res (c_string (line ++ [0]));
            on_rows (on_statics (copy_line (gobjects (grid_info l)) y 0 str)) ;;
            read_rows fuel s (u8 (y + 1))
          else mret tt
      end
  end.

Definition grid_init (level : text) : drv W level_state Z :=
  path ← level_path level;
  file ← on_io (oracle (level_open path));
  match file with
  | None => mret 1
  | Some [] => close_level ;; mret 1
  | Some s =>
      let '(line, s) := fgets LINE s in
      str ← lift_res (c_string (line ++ [0]));
      l ← statics;
      '(n, gi) ← lift_res (scan_dims str (grid_info l));
      set_grid (fun _ => gi) ;;
      if negb (n =? 2) then close_level ;; mret 1 else
      p ← on_rows (malloc_table (gy_size gi));
      set_grid (set_gobjects p) ;;
      on_rows (blank_rows p (gx_size gi) (gy_size gi)) ;;
      read_rows (S (length s)) s 0 ;;
      close_level ;;
      mret 0
  end.


Definition grid_cleanup : drv W level_state unit :=
  l ← statics;
  let gi := grid_info l in
  if gobjects gi =? NULL then mret tt else
  for_up (Z.to_nat (gy_size gi)) 0 (fun i => on_rows (on_statics (free_row (gobjects gi) i))) ;;
  on_rows (on_statics (in_tables (free (gobjects gi)))) ;;
  set_grid (set_gobjects NULL).

Definition grid_get_grid_info : drv W level_state GRID_INFO := l ← statics; mret (grid_info l).
End Grid.

(** ** Lines *)

(** The strings of the successive lines. *)
Fixpoint lines_of (fuel : nat) (s : text) : list text :=
  match fuel, s with
  | S fuel, _ :: _ => let '(line, s) := fgets LINE s in line :: lines_of fuel s
  | _, _ => []
  end.

(** A row of a level file: it fits in the buffer with its newline. *)
Definition row_ok (row : text) : Prop :=
  (length row < LINE)%nat /\ Forall (fun c => c <> 0 /\ c <> 10) row.

Lemma fgets_row n row s :
  (length row < n)%nat -> Forall (fun c => c <> 10) row ->
  fgets n (row ++ 10 :: s) = (row ++ [10], s).
Proof.
  intros Hl HF. revert n Hl. induction HF as [|c row Hc _ IH]; intros n Hl.
  - destruct n; [cbn in Hl; lia|done].
  - destruct n as [|n]; [cbn in Hl; lia|]. cbn. rewrite (proj2 (Z.eqb_neq c 10)) by done.
    by rewrite IH by (cbn in Hl; lia).
Qed.

Lemma fgets_line row s : row_ok row -> fgets LINE (row ++ 10 :: s) = (row ++ [10], s).
Proof.
  intros [Hl HF]. apply fgets_row; [done|]. eapply Forall_impl; [exact HF|]. by intros c [_ ?].
Qed.

Lemma c_string_line row : row_ok row -> c_string ((row ++ [10]) ++ [0]) = Ok (row ++ [10]).
Proof.
  intros [_ HF]. apply c_string_app. apply Forall_app. split; [|by constructor].
  eapply Forall_impl; [exact HF|]. by intros c [? _].
Qed.

(** The text of a level file: the sizes and the rows. *)
Definition level_body (grid : list text) : text := concat ((fun row => row ++ [10]) <$> grid).
Definition level_text (w h : Z) (grid : list text) : text :=
  udec w ++ 32 :: udec h ++ 10 :: level_body grid.

Lemma level_body_length grid : (length grid <= length (level_body grid))%nat.
Proof.
  induction grid as [|row grid IH]; [done|]. unfold level_body in *. cbn.
  rewrite !length_app. cbn. lia.
Qed.

Lemma udec_small n : 0 <= n < 256 -> (length (udec n) <= 3)%nat /\ 
  Forall (fun c => c <> 0 /\ c <> 10) (udec n) /\ Forall (fun c => isspace c = false) (udec n).
Proof.
  intros Hn. split.
  { unfold udec. pose proof (udec_acc_length 2 20 n [] ltac:(cbn; lia) ltac:(lia)). cbn in *. lia. }
  assert (Forall (fun c => isdigit c = true) (udec n)) as HF by (by apply udec_acc_digits; [lia|]).
  split; (eapply Forall_impl; [exact HF|]); intros c Hc.
  - unfold isdigit in Hc. apply andb_prop in Hc as [?%Z.leb_le ?%Z.leb_le]. lia.
  - by apply isdigit_not_sign.
Qed.

Lemma scan_hhu_udec n rest :
  0 <= n < 256 -> no_digit rest -> scan_hhu (udec n ++ rest) = Some (Ok n, rest).
Proof.
  intros Hn Hr. pose proof (scan_udec_udec n rest ltac:(lia) Hr) as E.
  destruct (udec_acc_nonempty 20 n []) as (c & r & Ec & Hc). fold (udec n) in Ec. rewrite Ec in *.
  destruct (isdigit_not_sign c Hc) as (Hs & H45 & H43). unfold scan_hhu. cbn [app skip_space] in *.
  rewrite Hs, (proj2 (Z.eqb_neq c 45)), (proj2 (Z.eqb_neq c 43)), E by done.
  unfold clamp_u8. cbn. destruct (Z.leb_spec 0 n), (Z.ltb_spec n 256); (done || lia).
Qed.

(** The first line says the sizes. *)
Lemma header_scanned w h body gi :
  0 <= w < 256 -> 0 <= h < 256 ->
  exists line, fgets LINE (udec w ++ 32 :: udec h ++ 10 :: body) = (line ++ [10], body) /\
    c_string ((line ++ [10]) ++ [0]) = Ok (line ++ [10]) /\
    scan_dims (line ++ [10]) gi = Ok (2, mkGrid w h (gobjects gi)).
Proof.
  intros Hw Hh. exists (udec w ++ 32 :: udec h).
  destruct (udec_small w Hw) as (Lw & Fw & _), (udec_small h Hh) as (Lh & Fh & Sh).
  assert (row_ok (udec w ++ 32 :: udec h)) as Hrow.
  { split; [rewrite length_app; cbn [length]; unfold LINE; lia|].
    apply Forall_app. split; [done|]. by constructor. }
  split; [|split].
  - rewrite <- fgets_line by done. f_equal. rewrite <- app_assoc. done.
  - by apply c_string_line.
  - unfold scan_dims. rewrite <- app_assoc. cbn [app]. rewrite scan_hhu_udec by done. cbn [rbind].
    cbn [skip_space]. change (isspace 32) with true. cbn iota.
    rewrite skip_space_nonspace.
    + by rewrite scan_hhu_udec by done.
    + split; [|done]. destruct (udec_acc_nonempty 20 h []) as (c & r & Ec & _).
      unfold udec. by rewrite Ec.
Qed.

(** ** Copying the rows *)

Definition over_row (row : text) (i : nat) (str : text) : text :=
  take i row ++ str ++ drop (i + length str) row.

Lemma over_row_step row i c str :
  (i < length row)%nat ->
  over_row (<[i := c]> row) (S i) str = over_row row i (c :: str).
Proof.
  intros Hi. unfold over_row. cbn [app length].
  rewrite (take_S_r _ _ c) by (by rewrite list_lookup_insert_eq).
  rewrite take_insert_ge by lia. rewrite drop_insert_lt by lia.
  rewrite <- app_assoc. cbn [app]. by rewrite Nat.add_succ_r.
Qed.

Lemma cell_row g (y i : nat) row :
  g !! y = Some row -> cell g (Z.of_nat y) (Z.of_nat i) = row !! i.
Proof. intros Hr. unfold cell. rewrite decide_True by lia. rewrite !Nat2Z.id, Hr. done. Qed.

Lemma put_cell_row g (y i : nat) row c :
  g !! y = Some row -> put_cell g (Z.of_nat y) (Z.of_nat i) c = <[y := <[i := c]> row]> g.
Proof.
  intros Hr. unfold put_cell. rewrite !Nat2Z.id. apply list_eq. intros j.
  destruct (decide (j = y)) as [->|Hne].
  - rewrite list_lookup_alter_eq, Hr, list_lookup_insert_eq; [done|by eapply lookup_lt_Some].
  - by rewrite list_lookup_alter_ne, list_lookup_insert_ne.
Qed.

(** A line goes into its row, or past the end of it. *)
Lemma wpe_copy_line objects ps g (y i : nat) row str r :
  rows_at r objects ps g -> rows_ok r -> g !! y = Some row -> (i <= length row)%nat ->
  wpe (copy_line objects (Z.of_nat y) (Z.of_nat i) str)
    (fun f => f = OutOfBounds /\ (length row < i + length str)%nat)
    (fun _ r' => (i + length str <= length row)%nat /\
       rows_at r' objects ps (<[y := over_row row i str]> g) /\ elsewhere ps r r' /\ rows_ok r') r.
Proof.
  revert g i row r. induction str as [|c str IH]; intros g i row r Hr Hok Hy Hi; cbn [copy_line].
  { wp_step. cbn [length]. split; [lia|]. unfold over_row. cbn [app length].
    rewrite Nat.add_0_r, take_drop, list_insert_id by done. by split. }
  pose proof (set_cell_run r objects ps g (Z.of_nat y) (Z.of_nat i) c Hr Hok) as Hs.
  rewrite (cell_row _ _ _ _ Hy) in Hs. apply wpe_bind.
  destruct (row !! i) as [d|] eqn:Ed.
  2:{ unfold wpe. rewrite Hs. split; [done|]. apply lookup_ge_None in Ed. cbn. lia. }
  destruct Hs as (r1 & E1 & Hr1 & He1 & Hok1). unfold wpe at 1. rewrite E1. apply lookup_lt_Some in Ed.
  rewrite (put_cell_row _ _ _ _ _ Hy) in Hr1.
  replace (Z.of_nat i + 1) with (Z.of_nat (S i)) by lia.
  pose proof (IH _ (S i) (<[i := c]> row) r1 Hr1 Hok1) as Hw.
  rewrite list_lookup_insert_eq, length_insert, over_row_step in Hw by (exact Ed || by eapply lookup_lt_Some).
  specialize (Hw eq_refl ltac:(lia)).
  eapply wpe_mono; [eapply wpe_weaken; [|exact Hw]; intros f [-> Hl]; split; [done|cbn; lia]|].
  intros [] r2 (Hl & Hr2 & He2 & Hok2). rewrite list_insert_insert_eq in Hr2.
  cbn [length]. split; [lia|]. split; [done|]. split; [by eapply elsewhere_trans|done].
Qed.

(** What a row of the file leaves in the row of the grid, newline and all. *)
Definition padded (w : Z) (row : text) : text :=
  row ++ 10 :: replicate (Z.to_nat w - S (length row)) 32.
Definition blank (w : Z) : text := replicate (Z.to_nat w) 32.

(** The grid of a file: its first [h] rows, then blank ones. *)
Definition grid_of (w : Z) (h : nat) (grid : list text) : list text :=
  (padded w <$> take h grid) ++ replicate (h - length grid) (blank w).

Lemma over_row_blank w row :
  (length row < Z.to_nat w)%nat -> over_row (blank w) 0 (row ++ [10]) = padded w row.
Proof.
  intros Hl. unfold over_row, padded, blank. cbn [take app]. rewrite drop_replicate, length_app.
  cbn [length]. rewrite <- app_assoc. cbn [app].
  by replace (Z.to_nat w - (0 + (length row + 1)))%nat with (Z.to_nat w - S (length row))%nat by lia.
Qed.

Section Reading.
Context {W : Type} `{Machine W, LevelFiles W}.
Implicit Types (r : rows) (io : iost W).

Lemma wpe_on_rows {A} (m : M rows A) E (Q : A -> level_state * iost W -> Prop) gi r io :
  wpe m E (fun a r' => Q a (mkLevel gi r', io)) r ->
  wpe (on_rows (on_statics m)) E Q (mkLevel gi r, io).
Proof. intros Hm. unfold on_rows, on_statics. do 2 apply wpe_zoom. exact Hm. Qed.

Definition too_long (w : Z) (grid : list text) : Prop :=
  Exists (fun row => w <= Z.of_nat (length row)) grid.
Definition all_fit (w : Z) (grid : list text) : Prop :=
  Forall (fun row => Z.of_nat (length row) < w) grid.

Lemma wpe_read_rows fuel gi ps grid n done r io :
  rows_at r (gobjects gi) ps (done ++ replicate n (blank (gx_size gi))) -> rows_ok r ->
  Forall row_ok grid -> 0 <= gx_size gi -> gy_size gi < 256 ->
  gy_size gi = Z.of_nat (length done + n) -> (length (level_body grid) < fuel)%nat ->
  wpe (read_rows fuel (level_body grid) (Z.of_nat (length done)))
    (fun f => f = OutOfBounds /\ too_long (gx_size gi) (take n grid))
    (fun _ st => all_fit (gx_size gi) (take n grid) /\ grid_info st.1 = gi /\
       rows_at (level_rows st.1) (gobjects gi) ps (done ++ grid_of (gx_size gi) n grid) /\
       elsewhere ps r (level_rows st.1) /\ rows_ok (level_rows st.1)) (mkLevel gi r, io).
Proof.
  revert fuel grid n done r io.
  induction fuel as [|fuel IH]; intros grid n done r io Hr Hok HF Hw Hh Hn Hf; [lia|].
  cbn [read_rows]. destruct grid as [|row grid].
  { change (level_body []) with (@nil Z). cbn iota. wp_step. rewrite take_nil. split; [constructor|]. split; [done|]. unfold grid_of.
    rewrite take_nil. cbn [fmap list_fmap app length]. by rewrite Nat.sub_0_r. }
  apply Forall_cons in HF as [Hrow HF].
  assert (level_body (row :: grid) = row ++ 10 :: level_body grid) as Eb.
  { unfold level_body. cbn. by rewrite <- app_assoc. }
  rewrite Eb in Hf |- *. clear Eb. rewrite length_app in Hf. cbn [length] in Hf.
  destruct (row ++ 10 :: level_body grid) as [|c s] eqn:Es; [by destruct row|].
  rewrite <- Es, fgets_line by done. clear c s Es. unfold statics. wp_step. wp_step. cbn [fst grid_info].
  destruct (Z.ltb_spec (Z.of_nat (length done)) (gy_size gi)) as [Hlt|Hge].
  2:{ wp_step. replace n with 0%nat in * by lia. unfold grid_of. cbn in *. split; [constructor|].
      by rewrite app_nil_r in *. }
  destruct n as [|n]; [lia|]. wp_step. apply wpe_wp.
  eapply wp_lift_res; [by apply c_string_line|]. wp_step. apply wpe_on_rows.
  assert (Z.of_nat (length (row ++ [10])) = Z.of_nat (length row) + 1) as El
    by (rewrite length_app; cbn; lia).
  eapply wpe_mono.
  { eapply wpe_weaken; [|eapply (wpe_copy_line _ _ _ (length done) 0 (blank (gx_size gi)))];
      [|exact Hr|exact Hok| |lia].
    - intros f [-> Hl]. split; [reflexivity|]. constructor. unfold blank in Hl.
      rewrite length_replicate in Hl. lia.
    - by rewrite lookup_app_r, Nat.sub_diag by lia. }
  intros [] r1 (Hl & Hr1 & He1 & Hok1). unfold blank in Hl. rewrite length_replicate in Hl.
  rewrite over_row_blank in Hr1 by lia. rewrite insert_app_r_alt, Nat.sub_diag in Hr1 by lia.
  cbn [replicate] in Hr1. change (<[0%nat:=?x]> (?y :: ?l)) with (x :: l) in Hr1.
  rewrite (cons_middle _ done) in Hr1.
  replace (u8 (Z.of_nat (length done) + 1)) with (Z.of_nat (length (done ++ [padded (gx_size gi) row])))
    by (rewrite length_app, u8_id; cbn; lia).
  pose proof (IH grid n (done ++ [padded (gx_size gi) row]) r1 io) as IH1.
  rewrite length_app in IH1 at 1. cbn [length] in IH1.
  specialize (IH1 ltac:(by rewrite <- app_assoc) Hok1 HF Hw Hh ltac:(lia) ltac:(lia)).
  eapply wpe_mono; [eapply wpe_weaken; [|exact IH1]|].
  - intros f [-> Hl2]. split; [reflexivity|]. by constructor 2.
  - intros [] [l2 io2] (Ha & Hi & Hr2 & He2 & Hok2). cbn [take]. split; [constructor; [lia|done]|].
    split; [done|]. split; [by rewrite <- app_assoc in Hr2|]. split; [|done].
    by eapply elsewhere_trans.
Qed.
End Reading.

(** ** The whole file *)

Section Level.
Context {W : Type} `{Machine W, LevelFiles W}.
Implicit Types (r : rows) (io : iost W) (lv : level_state).

(** The file behind a path does not change. *)
Class HoldsLevel (path : text) (file : option text) : Prop :=
  holds_level w : (level_open path w).1 = file.

Definition path_fits (name : text) : Prop :=
  Forall (fun c => c <> 0) name /\ (length LEVELS + length name < 100)%nat.

Lemma LEVELS_text : Forall (fun c => c <> 0) LEVELS.
Proof. eapply bool_decide_unpack. by vm_compute. Qed.

Lemma wpe_level_path name lv io :
  Forall (fun c => c <> 0) name ->
  wpe (level_path name) (fun f => f = OutOfBounds /\ (100 <= length LEVELS + length name)%nat)
    (fun path st => path = LEVELS ++ name /\ path_fits name /\ st.1 = lv) (lv, io).
Proof.
  intros Hn. unfold level_path. wp_step. apply wpe_wp. unfold on_io. apply wp_zoom.
  eapply wp_mono; [apply indeterminate_bytes_length|]. intros junk io1 [Hl _].
  cbn [fst snd]. wp_step. apply wpe_wp.
  assert (Z.of_nat (length (LEVELS ++ [0])) <= Z.of_nat (length junk)) as Hfit
    by (rewrite Hl; vm_compute; done).
  eapply wp_lift_res; [unfold store_string; by apply block_write_ok|].
  change (take (Z.to_nat 0) junk) with (@nil Z). cbn [app].
  rewrite <- app_assoc. wp_step. apply wpe_wp.
  eapply wp_lift_res; [apply c_string_app, LEVELS_text|]. wp_step.
  set (rest := drop _ junk).
  assert (length (LEVELS ++ [0] ++ rest) = 100%nat) as Hlen.
  { unfold rest. rewrite !length_app, length_drop, Hl. vm_compute. done. }
  unfold block_write. destruct (Z.leb_spec 0 (Z.of_nat (length LEVELS))); [|lia]. cbn [andb].
  rewrite length_app. cbn [length].
  destruct (Z.leb_spec (Z.of_nat (length LEVELS) + Z.of_nat (length name + 1))
    (Z.of_nat (length (LEVELS ++ [0] ++ rest)))) as [Hle|Hgt]; rewrite Hlen in *.
  2:{ unfold wpe, lift_res. cbn beta iota. split; [done|lia]. }
  apply wpe_wp. eapply wp_lift_res; [reflexivity|]. apply wpe_wp.
  rewrite Nat2Z.id, take_app_length, <- !app_assoc, app_assoc.
  eapply wp_lift_res; [apply c_string_app, Forall_app; split; [apply LEVELS_text|done]|].
  split; [done|]. split; [split; [done|lia]|done].
Qed.

Lemma wp_close_level (Q : unit -> level_state * iost W -> Prop) lv io :
  (forall io', Q tt (lv, io')) -> wp close_level Q (lv, io).
Proof.
  intros HQ. unfold close_level, on_io. apply wp_zoom, wp_oracle. intros [] w _. apply HQ.
Qed.

Lemma wp_set_grid f (Q : unit -> level_state * iost W -> Prop) lv io :
  Q tt (mkLevel (f (grid_info lv)) (level_rows lv), io) -> wp (set_grid f) Q (lv, io).
Proof. exact id. Qed.

Lemma wpe_make_grid `{!MallocOk W} w h grid E (Q : Z -> level_state * iost W -> Prop) gi0 r io :
  rows_ok r -> Forall row_ok grid -> 0 <= w < 256 -> 0 <= h < 256 ->
  (forall f, f = OutOfBounds /\ too_long w (take (Z.to_nat h) grid) -> E f) ->
  (forall p ps r' io', all_fit w (take (Z.to_nat h) grid) ->
     rows_at r' p ps (grid_of w (Z.to_nat h) grid) -> added r r' p ps ->
     Q 0 (mkLevel (mkGrid w h p) r', io')) ->
  wpe (p ← on_rows (malloc_table h);
       set_grid (set_gobjects p) ;;
       on_rows (blank_rows p w h) ;;
       read_rows (S (length (level_body grid))) (level_body grid) 0 ;;
       close_level ;;
       mret 0) E Q (mkLevel (mkGrid w h gi0) r, io).
Proof.
  intros Hr HF Hw Hh HE HQ. wp_step. apply wpe_wp. unfold on_rows at 1. apply wp_zoom. cbn [fst snd].
  apply wp_malloc_table; [done|]. intros junk io1 Hj r1 Hr1. cbn [fst snd grid_info].
  wp_step. apply wpe_wp, wp_set_grid. cbn [grid_info level_rows].
  wp_step. apply wpe_wp. unfold on_rows at 1. apply wp_zoom. cbn [fst snd level_rows].
  eapply wp_mono; [eapply wp_new_rows; (done || lia)|].
  intros [] [r2 io2] (ps & Hr2 & Had). cbn [fst snd grid_info] in *. pose proof Had as [Hok2 _].
  wp_step. set (p := brk (tables r)) in *.
  eapply wpe_mono.
  { eapply wpe_weaken; [exact HE|].
    apply (wpe_read_rows _ (mkGrid w h p) ps grid (Z.to_nat h) [] r2 io2);
      cbn [gx_size gy_size gobjects length]; (done || lia). }
  cbn [gx_size gy_size gobjects]. intros [] [[gi3 r3] io3] (Hfit & Eg & Hr3 & He & Hok3).
  cbn [fst grid_info level_rows] in *. subst gi3. apply wpe_wp. wp_step. apply wp_close_level.
  intros io4. wp_step. eapply HQ; [done|exact Hr3|]. by eapply added_elsewhere.
Qed.

Lemma wpe_grid_init `{!MallocOk W} name w h grid
  `{Hfile : !HoldsLevel (LEVELS ++ name) (Some (level_text w h grid))} lv io :
  Forall (fun c => c <> 0) name -> rows_ok (level_rows lv) -> Forall row_ok grid ->
  0 <= w < 256 -> 0 <= h < 256 ->
  wpe (grid_init name) (fun f => f = OutOfBounds /\
      ((100 <= length LEVELS + length name)%nat \/ too_long w (take (Z.to_nat h) grid)))
    (fun ret st => ret = 0 /\ path_fits name /\ all_fit w (take (Z.to_nat h) grid) /\
       exists p ps, grid_info st.1 = mkGrid w h p /\
         rows_at (level_rows st.1) p ps (grid_of w (Z.to_nat h) grid) /\
         added (level_rows lv) (level_rows st.1) p ps) (lv, io).
Proof.
  intros Hn Hr HF Hw Hh. unfold grid_init. wp_step.
  eapply wpe_mono; [eapply wpe_weaken; [|by apply wpe_level_path]; intros f [-> ?]; auto|].
  intros path [lv1 io1] (-> & Hp & E1). cbn [fst] in E1. subst lv1.
  wp_step. apply wpe_wp. unfold on_io at 1. apply wp_zoom, wp_oracle. intros file w' Ef.
  cbn [fst snd]. pose proof (holds_level (io_world io1)) as Eh. cbn [snd] in Ef. rewrite Ef in Eh.
  cbn [fst] in Eh. subst file. unfold level_text.
  destruct (udec w ++ 32 :: udec h ++ 10 :: level_body grid) as [|c s] eqn:Es;
    [by destruct (udec w)|]. rewrite <- Es. clear c s Es.
  destruct (header_scanned w h (level_body grid) (grid_info lv) Hw Hh) as (line & E & Ec & Esc).
  rewrite E. wp_step. apply wpe_wp. eapply wp_lift_res; [exact Ec|].
  unfold statics. wp_step. wp_step. cbn [fst]. wp_step. apply wpe_wp.
  eapply wp_lift_res; [exact Esc|]. cbn beta iota. wp_step. apply wpe_wp, wp_set_grid.
  cbn [negb Z.eqb Pos.eqb fst snd gx_size gy_size level_rows].
  apply wpe_make_grid; [done..| |].
  - intros f [-> Hl]. auto.
  - intros p ps r' io' Hfit Hrows Hadd. do 3 (split; [done|]). by exists p, ps.
Qed.
End Level.

(** ** Freeing the grid *)

Section Cleanup.
Context {W : Type} `{Machine W, LevelFiles W}.
Implicit Types (r : rows) (io : iost W).

Lemma wp_for_rows n i (body : Z -> M rows unit) (Q : unit -> level_state * iost W -> Prop) gi r io :
  wp (for_up n i body) (fun _ r' => Q tt (mkLevel gi r', io)) r ->
  wp (for_up n i (fun j => on_rows (on_statics (body j)))) Q (mkLevel gi r, io).
Proof.
  revert i r. induction n as [|n IH]; intros i r Hb; cbn [for_up] in *; [exact Hb|].
  wp_step. apply wp_bind_inv in Hb. unfold on_rows at 1, on_statics at 1. do 2 apply wp_zoom.
  eapply wp_mono; [exact Hb|]. intros [] r' Hb'. by apply IH.
Qed.

(** Exactly the table and its rows are freed. *)
Lemma wp_grid_cleanup w h p ps g r io :
  rows_at r p ps g -> Z.of_nat (length g) = h ->
  wp grid_cleanup (fun _ st => exists r1, st = (mkLevel (mkGrid w h NULL) r1, io) /\
    cells (tables r1) = delete p (cells (tables r)) /\
    forall q, cells (chars r1) !! q = if decide (q ∈ ps) then None else cells (chars r) !! q)
    (mkLevel (mkGrid w h p) r, io).
Proof.
  intros Hr Hh. pose proof Hr as (Hp & Ht & _). unfold grid_cleanup, statics. wp_step. wp_step.
  cbn [fst grid_info gobjects gy_size]. rewrite (proj2 (Z.eqb_neq _ _) Hp).
  wp_step. apply wp_for_rows. rewrite <- Hh, Nat2Z.id.
  eapply wp_mono; [by eapply wp_free_rows|]. intros [] r1 (Et & _ & Ec).
  wp_step. unfold on_rows at 1, on_statics. do 2 apply wp_zoom. unfold in_tables. apply wp_zoom.
  cbn [fst snd level_rows]. eapply wp_free; [done|by rewrite Et|].
  cbn [fst snd]. apply wp_set_grid. cbn [grid_info level_rows set_gobjects gx_size gy_size].
  eexists. split; [reflexivity|]. cbn [tables chars cells]. by rewrite Et.
Qed.
End Cleanup.

Lemma added_live r r' objects ps g : added r r' objects ps -> rows_at r' objects ps g ->
  cells (tables r) = delete objects (cells (tables r')) /\
  forall p, cells (chars r) !! p = if decide (p ∈ ps) then None else cells (chars r') !! p.
Proof.
  intros (_ & Ho & Ht & Hn & Hc) Hr. split.
  - apply map_eq. intros t. destruct (decide (t = objects)) as [->|Hne].
    + by rewrite lookup_delete_eq.
    + by rewrite lookup_delete_ne, Ht.
  - intros p. case_decide as Hp; [|by rewrite Hc]. rewrite Forall_forall in Hn. by apply Hn.
Qed.

(** ** Contracts *)

Section Contracts.
Context {W : Type} `{Machine W, LevelFiles W, !MallocOk W}.

(** C21: [grid_init] on a level file with the sizes [w] and [h], a byte each, and
    then its rows, each of fewer than 99 characters (it fits in [line] with its
    newline), none of them a newline or 0, in a well-formed heap and when
    allocation succeeds.  It answers 0 exactly when the path is shorter than the
    buffer of [level_path] and every one of the first [h] rows is shorter than
    [w], and faults by an access out of bounds otherwise: a row of [w] characters
    or more is written past its end.  When it answers 0 the grid has these rows,
    each with its newline stored after it and blanks to the end, and blank rows
    where the file has none, in memory that was not in use; the rest of the heap
    is as it was.  (A row of 99 characters or more is split over several rows
    of the grid: [long_row_split] below.) *)
Theorem grid_init_reads name w h grid
  `{!HoldsLevel (LEVELS ++ name) (Some (level_text w h grid))} (lv : level_state) (io : iost W) :
  Forall (fun c => c <> 0) name -> rows_ok (level_rows lv) -> Forall row_ok grid ->
  0 <= w < 256 -> 0 <= h < 256 ->
  let fits := (length LEVELS + length name < 100)%nat /\
    Forall (fun row => Z.of_nat (length row) < w) (take (Z.to_nat h) grid) in
  match grid_init name (lv, io) with
  | Ok (r, (lv', io')) => fits /\ r = 0 /\ exists p ps, grid_info lv' = mkGrid w h p /\
      rows_at (level_rows lv') p ps (grid_of w (Z.to_nat h) grid) /\
      added (level_rows lv) (level_rows lv') p ps
  | Fault f => ~ fits /\ f = OutOfBounds
  end.
Proof.
  intros Hn Hr HF Hw Hh fits.
  pose proof (wpe_grid_init name w h grid lv io Hn Hr HF Hw Hh) as Hp. unfold wpe in Hp.
  destruct (grid_init name (lv, io)) as [[r [lv' io']]|f].
  - destruct Hp as (-> & [_ Hl] & Hfit & Hrows). done.
  - destruct Hp as [-> Hbad]. split; [|done]. intros [Hl Hfit]. destruct Hbad as [|Hlong]; [lia|].
    unfold too_long in Hlong. apply Exists_exists in Hlong as (row & Hin & Hrow).
    rewrite Forall_forall in Hfit. specialize (Hfit row Hin). cbn beta in Hfit. lia.
Qed.

(** C26: the failures of [grid_init]: a file that is missing or empty, or whose
    first line does not have two numbers, answers 1 and leaves the heap alone
    (a first number is stored all the same), whatever the allocator does. *)
Theorem grid_init_errors {W'} `{Machine W', LevelFiles W'} name file
  `{!HoldsLevel (LEVELS ++ name) file} (lv : level_state) (io : iost W') :
  path_fits name ->
  (match file with
   | None | Some [] => True
   | Some s => exists line n gi, c_string ((fgets LINE s).1 ++ [0]) = Ok line /\
       scan_dims line (grid_info lv) = Ok (n, gi) /\ n <> 2
   end) ->
  exists io' x, grid_init name (lv, io) = Ok (1, (mkLevel (set_gx x (grid_info lv)) (level_rows lv), io')).
Proof.
  intros Hp Hbad.
  cut (wp (grid_init name) (fun r st => r = 1 /\ exists x,
    st.1 = mkLevel (set_gx x (grid_info lv)) (level_rows lv)) (lv, io)).
  { intros (r & [lv' io'] & E & -> & x & Ex)%wp_run. cbn in Ex. subst. by exists io', x. }
  pose proof (wpe_level_path name lv io (proj1 Hp)) as Hpath. unfold grid_init. wp_step.
  unfold wpe in Hpath. unfold wp at 1. destruct (level_path name (lv, io)) as [[path [lv1 io1]]|f].
  2:{ destruct Hpath as [_ Hl], Hp as [_ Hl']. lia. }
  destruct Hpath as (-> & _ & E). cbn [fst] in E. subst lv1.
  assert (lv = mkLevel (set_gx (gx_size (grid_info lv)) (grid_info lv)) (level_rows lv)) as Elv
    by (by destruct lv as [[] ?]).
  wp_step. unfold on_io at 1. apply wp_zoom, wp_oracle. intros file' w' Ef. cbn [fst snd] in *.
  pose proof (holds_level (io_world io1)) as Eh. rewrite Ef in Eh. cbn [fst] in Eh. subst file'.
  destruct file as [[|c s]|]; [| |by wp_step; eauto].
  { wp_step. apply wp_close_level. intros io2. wp_step. eauto. }
  destruct Hbad as (line & n & gi & Ec & Es & Hne). destruct (fgets LINE (c :: s)) as [line0 rest].
  cbn [fst] in Ec. wp_step. eapply wp_lift_res; [exact Ec|]. unfold statics. do 3 wp_step. cbn [fst].
  eapply wp_lift_res; [exact Es|]. cbn beta iota. wp_step. apply wp_set_grid.
  rewrite (proj2 (Z.eqb_neq n 2)) by done. cbn [negb]. wp_step. apply wp_close_level.
  intros io2. wp_step. split; [done|]. cbn [fst level_rows]. unfold scan_dims in Es.
  destruct (scan_hhu line) as [[[x|] s1]|]; cbn [rbind] in Es; [|done|].
  - exists x. destruct (scan_hhu (skip_space s1)) as [[[y|] s2]|]; cbn [rbind] in Es; by simplify_eq.
  - injection Es as _ <-. by exists (gx_size (grid_info lv)); destruct lv as [[] ?].
Qed.

(** C27: [grid_cleanup] after a [grid_init] that answered, on a level file with
    rows of fewer than 99 characters, none a newline or 0, and sizes of a byte,
    frees exactly what was allocated: every live object of the heap is as it was before, none is
    left over, and the pointer is [NULL] again. *)
Theorem grid_init_cleanup_restores name w h grid
  `{!HoldsLevel (LEVELS ++ name) (Some (level_text w h grid))} (lv : level_state) (io : iost W)
  r lv1 io1 :
  Forall (fun c => c <> 0) name -> rows_ok (level_rows lv) -> Forall row_ok grid ->
  0 <= w < 256 -> 0 <= h < 256 ->
  grid_init name (lv, io) = Ok (r, (lv1, io1)) ->
  exists lv2, grid_cleanup (lv1, io1) = Ok (tt, (lv2, io1)) /\ grid_info lv2 = mkGrid w h NULL /\
    cells (tables (level_rows lv2)) = cells (tables (level_rows lv)) /\
    cells (chars (level_rows lv2)) = cells (chars (level_rows lv)).
Proof.
  intros Hn Hr HF Hw Hh E.
  pose proof (wpe_grid_init name w h grid lv io Hn Hr HF Hw Hh) as Hp. unfold wpe in Hp.
  rewrite E in Hp. destruct Hp as (_ & _ & _ & p & ps & Eg & Hrows & Had).
  destruct lv1 as [gi1 r1]. cbn [fst grid_info level_rows] in *. subst gi1.
  destruct (added_live _ _ _ _ _ Had Hrows) as [Ht Hc].
  destruct (wp_run _ _ _ (wp_grid_cleanup w h p ps _ r1 io1 Hrows
    ltac:(unfold grid_of; rewrite length_app, length_fmap, length_take, length_replicate; lia)))
    as ([] & st & E2 & r2 & -> & Ht2 & Hc2).
  eexists. split; [exact E2|]. split; [done|]. cbn [level_rows]. split; [by rewrite Ht2|].
  apply map_eq. intros q. by rewrite Hc2, Hc.
Qed.
End Contracts.

(** ** A concrete level *)

Definition demo_rows : list text := [txt "###"; txt " p"].

(** A row of 150 characters, longer than [line]. *)
Definition long_row : text := replicate 99 35 ++ replicate 51 46.

(** Three files: a level of four columns and three rows, one of 200 columns with
    a long row, and one without sizes. *)
#[export] Instance demo_levels {W} : LevelFiles (roomy W) := {
  level_open path w :=
    (if decide (path = LEVELS ++ txt "1.txt") then Some (level_text 4 3 demo_rows)
     else if decide (path = LEVELS ++ txt "long.txt") then Some (level_text 200 2 [long_row])
     else if decide (path = LEVELS ++ txt "bad.txt") then Some (txt "12 x") else None, w);
  level_close w := w;
}.

#[export] Instance demo_level_1 {W} :
  HoldsLevel (W := roomy W) (LEVELS ++ txt "1.txt") (Some (level_text 4 3 demo_rows)).
Proof. done. Qed.

#[export] Instance demo_level_bad {W} :
  HoldsLevel (W := roomy W) (LEVELS ++ txt "bad.txt") (Some (txt "12 x")).
Proof. done. Qed.

Definition level_zero : level_state := mkLevel grid_zero rows_empty.
Definition demo_start : iost (demo unit) := demo_io (mkScript [] [] [] [] [] []) tt.

Lemma demo_rows_ok : Forall row_ok demo_rows.
Proof. repeat constructor; cbn; unfold LINE; lia. Qed.

Lemma grid_init_reads_witness :
  let fits := (length LEVELS + length (txt "1.txt") < 100)%nat /\
    Forall (fun row => Z.of_nat (length row) < 4) (take 3 demo_rows) in
  match grid_init (txt "1.txt") (level_zero, demo_start) with
  | Ok (r, (lv', io')) => fits /\ r = 0 /\ exists p ps, grid_info lv' = mkGrid 4 3 p /\
      rows_at (level_rows lv') p ps [txt "###" ++ [10]; txt " p" ++ [10; 32]; txt "    "] /\
      added rows_empty (level_rows lv') p ps
  | Fault f => ~ fits /\ f = OutOfBounds
  end.
Proof.
  apply (grid_init_reads (txt "1.txt") 4 3 demo_rows level_zero demo_start);
    [by repeat constructor|apply rows_ok_empty|apply demo_rows_ok|lia..].
Defined.

Lemma grid_init_errors_witness :
  exists io' x, grid_init (txt "bad.txt") (level_zero, demo_start)
    = Ok (1, (mkLevel (set_gx x grid_zero) rows_empty, io')).
Proof.
  apply (grid_init_errors (txt "bad.txt") (Some (txt "12 x")) level_zero demo_start).
  - split; [by repeat constructor|cbn; lia].
  - exists (txt "12 x"), 1, (mkGrid 12 0 NULL). by vm_compute.
Defined.

(** The level, on the first two addresses of a fresh heap. *)
Example demo_level_read :
  match grid_init (txt "1.txt") (level_zero, demo_start) with
  | Ok (r, (lv, _)) => r = 0 /\ get_cell (gobjects (grid_info lv)) 0 3 (level_rows lv)
      = Ok (10, level_rows lv)
  | Fault _ => False
  end.
Proof. vm_compute. done. Qed.

(** The row is shorter than the width, yet its 100th character is the first of
    the second row of the grid: [line] holds 99 at a time. *)
Example long_row_split :
  match grid_init (txt "long.txt") (level_zero, demo_start) with
  | Ok (r, (lv, _)) => r = 0 /\
      (let c y x := (get_cell (gobjects (grid_info lv)) y x (level_rows lv)) in
       c 0 98 = Ok (35, level_rows lv) /\ c 0 99 = Ok (32, level_rows lv) /\
       c 1 0 = Ok (46, level_rows lv) /\ c 1 50 = Ok (46, level_rows lv))
  | Fault _ => False
  end.
Proof. vm_compute. done. Qed.

Lemma grid_init_cleanup_restores_witness :
  match grid_init (txt "1.txt") (level_zero, demo_start) with
  | Ok (r, (lv1, io1)) => exists lv2, grid_cleanup (lv1, io1) = Ok (tt, (lv2, io1)) /\
      grid_info lv2 = mkGrid 4 3 NULL /\
      cells (tables (level_rows lv2)) = ∅ /\ cells (chars (level_rows lv2)) = ∅
  | Fault _ => True
  end.
Proof.
  destruct (grid_init (txt "1.txt") (level_zero, demo_start)) as [[r [lv1 io1]]|f] eqn:E; [|done].
  apply (grid_init_cleanup_restores (txt "1.txt") 4 3 demo_rows level_zero demo_start r lv1 io1);
    [by repeat constructor|apply rows_ok_empty|apply demo_rows_ok|lia|lia|exact E].
Defined.

(** A level drawn to its full width does not fit: the newline is one too many. *)
Lemma full_row_overflows name w h row grid {W} `{Machine W, LevelFiles W, !MallocOk W}
  `{!HoldsLevel (LEVELS ++ name) (Some (level_text w h (row :: grid)))} (lv : level_state)
  (io : iost W) :
  Forall (fun c => c <> 0) name -> rows_ok (level_rows lv) -> Forall row_ok (row :: grid) ->
  0 <= w < 256 -> 0 < h < 256 -> Z.of_nat (length row) = w ->
  grid_init name (lv, io) = Fault OutOfBounds.
Proof.
  intros Hn Hr HF Hw Hh Hrow.
  pose proof (wpe_grid_init name w h (row :: grid) lv io Hn Hr HF Hw ltac:(lia)) as Hp.
  unfold wpe in Hp. destruct (grid_init name (lv, io)) as [[r [lv' io']]|f].
  - destruct Hp as (_ & _ & Hfit & _). unfold all_fit in Hfit.
    replace (Z.to_nat h) with (S (Z.to_nat (h - 1))) in Hfit by lia.
    apply Forall_cons in Hfit as [Hlt _]. lia.
  - by destruct Hp as [-> _].
Qed.
