(* ===== verification/Screen.v ===== *)
(** * The visible part of the level: screen/screen.h and screen/screen.c

    [screen_init] makes a table of characters for the squares of the screen,
    [screen_update] copies into it the part of the grid around a position.
    A [double] is a number of SpecFloat; converting it to [int] truncates. *)

From Stdlib Require Import SpecFloat.
From S2P Require Import Prelude Machine Format Gpu Heap Demo Rows Grid.

Definition GRID_SQUARE_SIZE : Z := 64.

Record SCREEN_INFO : Type := mkScreenInfo { sx_size : Z; sy_size : Z; sobjects : Z }.

(** The statics of the file; [has_grid] says whether [grid_info_] was set. *)
Record screen : Type := mkScreen {
  pos_x : spec_float;
  pos_y : spec_float;
  grid_pos_x : Z;
  grid_pos_y : Z;
  mid_x : Z;
  mid_y : Z;
  min_x : Z;
  min_y : Z;
  max_x : Z;
  max_y : Z;
  has_grid : bool;
  screen_info : SCREEN_INFO;
}.

Definition screen_zero : screen :=
  mkScreen (S754_zero false) (S754_zero false) 0 0 0 0 0 0 0 0 false (mkScreenInfo 0 0 NULL).

(** The screen, and the grid it looks at. *)
Record game : Type := mkGame { scr : screen; lvl : level_state }.

(** [(int) d]: undefined if the truncated value is not an [int]. *)
Definition int_of_double (d : spec_float) : res Z :=
  match d with
  | S754_zero _ => Ok 0
  | S754_finite s m e =>
      let a := if 0 <=? e then Zpos m * 2 ^ e else Zpos m / 2 ^ (- e) in
      let z := if s then - a else a in
      if fits_int z then Ok z else Fault BadConversion
  | _ => Fault BadConversion
  end.

Section Screen.
Context {W : Type} `{Machine W}.

Definition set_screen (f : screen -> screen) : drv W game unit :=
  set_statics (fun g => mkGame (f (scr g)) (lvl g)).
Definition on_game_rows {A} (m : drv W rows A) : drv W game A :=
  zoom (fun st => (level_rows (lvl st.1), st.2))
    (fun c st => (mkGame (scr st.1) (mkLevel (grid_info (lvl st.1)) c.1), c.2)) m.
Definition game_rows {A} (m : M rows A) : M game A :=
  zoom (fun g => level_rows (lvl g)) (fun r g => mkGame (scr g) (mkLevel (grid_info (lvl g)) r)) m.

Definition set_info (f : SCREEN_INFO -> SCREEN_INFO) (s : screen) : screen :=
  mkScreen (pos_x s) (pos_y s) (grid_pos_x s) (grid_pos_y s) (mid_x s) (mid_y s) (min_x s)
    (min_y s) (max_x s) (max_y s) (has_grid s) (f (screen_info s)).

(** [res] is what [gpu_get_gpu_res_info] points to. *)
Definition screen_init (res : Z * Z) (x y : spec_float) : drv W game Z :=
  let sx := u8 (res.1 / GRID_SQUARE_SIZE + 1) in
  let sy := u8 (res.2 / GRID_SQUARE_SIZE + 1) in
  set_screen (fun s => mkScreen x y (grid_pos_x s) (grid_pos_y s) (mid_x s) (mid_y s) (min_x s)
    (min_y s) (max_x s) (max_y s) true (mkScreenInfo sx sy (sobjects (screen_info s)))) ;;
  p ← on_game_rows (malloc_table sy);
  set_screen (set_info (fun i => mkScreenInfo (sx_size i) (sy_size i) p)) ;;
  on_game_rows (blank_rows p sx sy) ;;
  let mx := sx / 2 in
  let my := sy / 2 in
  set_screen (fun s => mkScreen (pos_x s) (pos_y s) (grid_pos_x s) (grid_pos_y s) mx my
    (0 - mx) (0 - my) (0 + mx) (0 + my) (has_grid s) (screen_info s)) ;;
  mret 0.

Definition screen_cleanup : M game unit :=
  g ← get;
  let i := screen_info (scr g) in
  for_up (Z.to_nat (sy_size i)) 0 (fun y =>
    for_up (Z.to_nat (sx_size i)) 0 (fun x =>
      game_rows (set_cell (sobjects i) y x 32))).

(** The [for] loops over the window. *)
Definition copy_cell (from to y0 x0 y x : Z) : M rows unit :=
  c ← get_cell from y x;
  set_cell to (y - y0) (x - x0) c.

Definition copy_window (from to y0 y1 x0 x1 : Z) : M rows unit :=
  for_up (Z.to_nat (y1 - y0 + 1)) y0 (fun y =>
    for_up (Z.to_nat (x1 - x0 + 1)) x0 (copy_cell from to y0 x0 y)).

Definition screen_update : M game unit :=
  g ← get;
  let s := scr g in
  px ← lift_res (int_of_double (pos_x s));
  py ← lift_res (int_of_double (pos_y s));
  put (mkGame (mkScreen (pos_x s) (pos_y s) px py (mid_x s) (mid_y s) (min_x s) (min_y s)
    (max_x s) (max_y s) (has_grid s) (screen_info s)) (lvl g)) ;;
  left ← int (px + min_x s);
  let i_min_x := if left <? 0 then 0 else left in
  top ← int (py + min_y s);
  let i_min_y := if top <? 0 then 0 else top in
  right ← int (px + max_x s);
  if negb (has_grid s) then fail NullDeref else
  let gi := grid_info (lvl g) in
  let i_max_x := if gx_size gi <=? right then gx_size gi - 1 else right in
  bottom ← int (py + max_y s);
  let i_max_y := if gy_size gi <=? bottom then gy_size gi - 1 else bottom in
  game_rows (copy_window (gobjects gi) (sobjects (screen_info s)) i_min_y i_max_y i_min_x i_max_x).

Definition screen_get_screen_info : M game SCREEN_INFO := g ← get; mret (screen_info (scr g)).
End Screen.

(** ** Rectangles of characters *)

Definition rect (w h : Z) (g : list text) : Prop :=
  Z.of_nat (length g) = h /\ Forall (fun row => Z.of_nat (length row) = w) g.

Lemma rect_cell w h g y x : rect w h g -> is_Some (cell g y x) <-> 0 <= y < h /\ 0 <= x < w.
Proof.
  intros [Hl HF]. unfold cell. case_decide as Hd.
  - destruct (g !! Z.to_nat y) as [row|] eqn:E; cbn.
    + rewrite lookup_lt_is_Some. apply lookup_lt_Some in E as Hy.
      pose proof (Forall_lookup_1 _ _ _ _ HF E) as Hr. cbn beta in Hr. lia.
    + apply lookup_ge_None in E. split; [by intros []|lia].
  - split; [by intros []|lia].
Qed.

Lemma rect_blank w h : 0 <= w -> 0 <= h ->
  rect w h (replicate (Z.to_nat h) (replicate (Z.to_nat w) 32)).
Proof.
  intros Hw Hh. split; [rewrite length_replicate; lia|]. apply Forall_replicate.
  rewrite length_replicate. lia.
Qed.

(** The cells of the window copied before cell [(y, x)]. *)
Definition seen (y0 x0 x1 y x r c : Z) : Prop :=
  0 <= r /\ 0 <= c <= x1 - x0 /\ (y0 + r < y \/ (y0 + r = y /\ x0 + c < x)).
#[export] Instance seen_dec y0 x0 x1 y x r c : Decision (seen y0 x0 x1 y x r c).
Proof. unfold seen. apply _. Defined.

Section Window.
Context (from to : Z) (qs ps : list Z) (gg gs : list text).
Context (w h sw sh y0 y1 x0 x1 : Z).
Context (Hdisj : forall p, p ∈ qs -> p ∉ ps).
Context (Hgg : rect w h gg) (Hgs : rect sw sh gs).
Context (Hy0 : 0 <= y0) (Hy1 : y1 < h) (Hx0 : 0 <= x0) (Hx1 : x1 < w).

Definition window_fits : Prop :=
  y0 <= y1 -> x0 <= x1 -> y1 - y0 < sh /\ x1 - x0 < sw.

Definition copied (r0 : rows) (y x : Z) (r : rows) : Prop :=
  rows_ok r /\ rows_at r from qs gg /\ elsewhere ps r0 r /\
  (forall a b, seen y0 x0 x1 y x a b -> a < sh /\ b < sw) /\
  exists gs', rows_at r to ps gs' /\ forall a b,
    cell gs' a b = if decide (seen y0 x0 x1 y x a b) then cell gg (y0 + a) (x0 + b)
                   else cell gs a b.

Lemma wpe_copy_cell r0 y x r :
  y0 <= y <= y1 -> x0 <= x <= x1 -> copied r0 y x r ->
  wpe (copy_cell from to y0 x0 y x) (fun f => f = OutOfBounds /\ ~ window_fits)
    (fun _ => copied r0 y (x + 1)) r.
Proof.
  intros Hy Hx (Hok & Hf & He & Hb & gs' & Hr & Hc). unfold copy_cell. apply wpe_bind.
  unfold wpe at 1. rewrite (get_cell_run _ _ _ _ _ _ Hf).
  destruct (proj2 (rect_cell w h gg y x Hgg)) as [c Ec]; [lia|]. rewrite Ec.
  pose proof (set_cell_run r to ps gs' (y - y0) (x - x0) c Hr Hok) as Hs.
  assert (~ seen y0 x0 x1 y x (y - y0) (x - x0)) as Hns by (unfold seen; lia).
  rewrite (Hc (y - y0)), decide_False in Hs by done.
  destruct (cell gs (y - y0) (x - x0)) as [d|] eqn:Ed.
  2:{ unfold wpe. rewrite Hs. split; [done|]. intros Hfit. destruct Hfit as [H1 H2]; [lia..|].
      destruct (proj2 (rect_cell sw sh gs (y - y0) (x - x0) Hgs)) as [d Hd]; [lia|].
      by rewrite Ed in Hd. }
  destruct Hs as (r' & E & Hr' & He' & Hok'). unfold wpe. rewrite E.
  assert (is_Some (cell gs (y - y0) (x - x0))) as Hin by (by rewrite Ed).
  apply (rect_cell _ _ _ _ _ Hgs) in Hin.
  split; [done|]. split; [by eapply rows_at_elsewhere|]. split; [by eapply elsewhere_trans|].
  split.
  { intros a b Hab. destruct (decide (seen y0 x0 x1 y x a b)) as [|Hn]; [by apply Hb|].
    unfold seen in *. lia. }
  eexists. split; [exact Hr'|]. intros a b.
  rewrite (cell_put _ _ _ d) by (by rewrite Hc, decide_False). rewrite Hc.
  destruct (decide (a = y - y0 /\ b = x - x0)) as [[-> ->]|Hne].
  - rewrite decide_True by (unfold seen; lia). rewrite <- Ec. f_equal; lia.
  - apply decide_ext. unfold seen. lia.
Qed.

Lemma copied_row r0 y r : copied r0 y (x1 + 1) r -> x0 <= x1 + 1 -> copied r0 (y + 1) x0 r.
Proof.
  intros (Hok & Hf & He & Hb & gs' & Hr & Hc) Hx. split; [done|]. split; [done|].
  split; [done|]. split.
  - intros a b Hab. apply Hb. unfold seen in *. lia.
  - exists gs'. split; [done|]. intros a b. rewrite Hc. apply decide_ext. unfold seen. lia.
Qed.

Lemma wpe_copy_window r :
  rows_ok r -> rows_at r from qs gg -> rows_at r to ps gs ->
  wpe (copy_window from to y0 y1 x0 x1) (fun f => f = OutOfBounds /\ ~ window_fits)
    (fun _ r' => window_fits /\ rows_ok r' /\ rows_at r' from qs gg /\ elsewhere ps r r' /\
       exists gs', rows_at r' to ps gs' /\ forall a b,
         cell gs' a b = if decide (0 <= a <= y1 - y0 /\ 0 <= b <= x1 - x0)
                        then cell gg (y0 + a) (x0 + b) else cell gs a b) r.
Proof.
  intros Hok Hf Hr. unfold copy_window.
  apply wpe_for_up with (Inv := fun y => copied r y x0).
  - split; [done|]. split; [done|]. split; [apply elsewhere_refl|].
    split; [unfold seen; lia|]. exists gs. split; [done|]. intros a b.
    rewrite decide_False; [done|]. unfold seen. lia.
  - intros y r1 Hy Hc. destruct (Z.le_gt_cases x0 x1) as [Hx|Hx].
    + apply wpe_for_up with (Inv := fun x => copied r y x); [exact Hc| |].
      * intros x r2 Hxx Hc2. apply wpe_copy_cell; [lia..|done].
      * intros r2 Hc2. apply copied_row; [|lia].
        by replace (x0 + Z.of_nat (Z.to_nat (x1 - x0 + 1))) with (x1 + 1) in Hc2 by lia.
    + replace (Z.to_nat (x1 - x0 + 1)) with 0%nat by lia. cbn [for_up]. wp_step.
      destruct Hc as (Hok1 & Hf1 & He1 & _ & gs1 & Hr1 & Hc1).
      split; [done|]. split; [done|]. split; [done|]. split; [unfold seen; lia|].
      exists gs1. split; [done|]. intros a b. rewrite Hc1. apply decide_ext. unfold seen. lia.
  - intros r1 (Hok1 & Hf1 & He1 & Hb & gs1 & Hr1 & Hc1). split.
    { intros Hyy Hxx. apply Hb. unfold seen. lia. }
    split; [done|]. split; [done|]. split; [done|]. exists gs1. split; [done|].
    intros a b. rewrite Hc1. apply decide_ext. unfold seen. lia.
Qed.
End Window.

(** ** Setting the screen up, and showing the level *)

Section Init.
Context {W : Type} `{Machine W, !MallocOk W}.
Implicit Types (io : iost W) (g : game).

(** The screen of [screen_init], blank, beside what was on the heap. *)
Definition screen_made (res : Z * Z) (x y : spec_float) (g g' : game) : Prop :=
  let sx := u8 (res.1 / GRID_SQUARE_SIZE + 1) in
  let sy := u8 (res.2 / GRID_SQUARE_SIZE + 1) in
  exists p ps,
    scr g' = mkScreen x y (grid_pos_x (scr g)) (grid_pos_y (scr g)) (sx / 2) (sy / 2)
               (- (sx / 2)) (- (sy / 2)) (sx / 2) (sy / 2) true (mkScreenInfo sx sy p) /\
    grid_info (lvl g') = grid_info (lvl g) /\
    rows_at (level_rows (lvl g')) p ps (replicate (Z.to_nat sy) (replicate (Z.to_nat sx) 32)) /\
    added (level_rows (lvl g)) (level_rows (lvl g')) p ps.

Lemma wp_set_screen f (Q : unit -> game * iost W -> Prop) g io :
  Q tt (mkGame (f (scr g)) (lvl g), io) -> wp (set_screen f) Q (g, io).
Proof. exact id. Qed.

Lemma wp_screen_init res x y g io :
  rows_ok (level_rows (lvl g)) ->
  wp (screen_init res x y) (fun r st => r = 0 /\ screen_made res x y g st.1) (g, io).
Proof.
  intros Hr. destruct g as [s [gi r]]. cbn [lvl level_rows] in Hr.
  unfold screen_init. set (sx := u8 (res.1 / _ + 1)). set (sy := u8 (res.2 / _ + 1)).
  wp_step. apply wp_set_screen. cbn [scr lvl].
  wp_step. unfold on_game_rows at 1. apply wp_zoom. cbn [fst snd lvl level_rows].
  apply wp_malloc_table; [done|]. intros junk io1 Hj r1 Hr1. cbn [fst snd scr lvl grid_info].
  wp_step. apply wp_set_screen. cbn [scr lvl].
  wp_step. unfold on_game_rows at 1. apply wp_zoom. cbn [fst snd lvl level_rows].
  eapply wp_mono.
  { eapply wp_new_rows; [done|exact Hj|apply u8_range|apply u8_range|done|exact Hr1]. }
  intros [] [r2 io2] (ps & Hr2 & Had). cbn [fst snd scr lvl grid_info] in *.
  wp_step. apply wp_set_screen. wp_step. split; [done|].
  exists (brk (tables r)), ps. split; [done|]. split; [done|]. by split.
Qed.
End Init.

Lemma wpe_game_rows {A} (m : M rows A) E (Q : A -> game -> Prop) g :
  wpe m E (fun a r => Q a (mkGame (scr g) (mkLevel (grid_info (lvl g)) r))) (level_rows (lvl g)) ->
  wpe (game_rows m) E Q g.
Proof. intros Hm. unfold game_rows. apply wpe_zoom. exact Hm. Qed.

(** [screen_update] is one window, when the positions are those of a screen
    of [sx] by [sy] squares. *)
Lemma wpe_screen_update E Q g px py sx sy w h p go :
  int_of_double (pos_x (scr g)) = Ok px -> int_of_double (pos_y (scr g)) = Ok py ->
  INT_MIN + 128 <= px <= INT_MAX - 128 -> INT_MIN + 128 <= py <= INT_MAX - 128 ->
  0 <= sx < 256 -> 0 <= sy < 256 ->
  (min_x (scr g), max_x (scr g)) = (- (sx / 2), sx / 2) ->
  (min_y (scr g), max_y (scr g)) = (- (sy / 2), sy / 2) ->
  has_grid (scr g) = true -> screen_info (scr g) = mkScreenInfo sx sy p ->
  grid_info (lvl g) = mkGrid w h go ->
  wpe (copy_window go p (Z.max 0 (py - sy / 2)) (Z.min (h - 1) (py + sy / 2))
         (Z.max 0 (px - sx / 2)) (Z.min (w - 1) (px + sx / 2))) E
    (fun _ r => forall s, screen_info s = mkScreenInfo sx sy p ->
       Q tt (mkGame s (mkLevel (mkGrid w h go) r))) (level_rows (lvl g)) ->
  wpe screen_update E Q g.
Proof.
  intros Ex Ey Hpx Hpy Hsx Hsy [= Hm1 Hm2] [= Hm3 Hm4] Hg Hs Hi Hwin.
  pose proof (Z.div_pos sx 2 ltac:(lia) ltac:(lia)). pose proof (Z.div_pos sy 2 ltac:(lia) ltac:(lia)).
  pose proof (Z.div_lt_upper_bound sx 2 128 ltac:(lia) ltac:(lia)).
  pose proof (Z.div_lt_upper_bound sy 2 128 ltac:(lia) ltac:(lia)).
  unfold screen_update. wp_step. wp_step. wp_step. apply wpe_wp. eapply wp_lift_res; [exact Ex|].
  wp_step. apply wpe_wp. eapply wp_lift_res; [exact Ey|]. wp_step. wp_step.
  rewrite Hm1, Hm2, Hm3, Hm4, Hg, Hs, Hi. cbn [negb gx_size gy_size gobjects sobjects].
  do 4 (wp_step; apply wpe_wp, wp_int; [lia|]).
  apply wpe_game_rows. cbn [scr lvl grid_info level_rows]. rewrite Hi.
  replace (if px + - (sx / 2) <? 0 then 0 else px + - (sx / 2)) with (Z.max 0 (px - sx / 2))
    by (destruct (Z.ltb_spec (px + - (sx / 2)) 0); lia).
  replace (if py + - (sy / 2) <? 0 then 0 else py + - (sy / 2)) with (Z.max 0 (py - sy / 2))
    by (destruct (Z.ltb_spec (py + - (sy / 2)) 0); lia).
  replace (if w <=? px + sx / 2 then w - 1 else px + sx / 2) with (Z.min (w - 1) (px + sx / 2))
    by (destruct (Z.leb_spec w (px + sx / 2)); lia).
  replace (if h <=? py + sy / 2 then h - 1 else py + sy / 2) with (Z.min (h - 1) (py + sy / 2))
    by (destruct (Z.leb_spec h (py + sy / 2)); lia).
  eapply wpe_mono; [exact Hwin|]. intros [] r Hq. by apply Hq.
Qed.

(** Where a screen of [sx] by [sy] squares at [(px, py)] looks into a grid of [w]
    by [h]: a corner and the opposite one. *)
Definition window (sx sy px py w h : Z) : (Z * Z) * (Z * Z) :=
  ((Z.max 0 (px - sx / 2), Z.max 0 (py - sy / 2)),
   (Z.min (w - 1) (px + sx / 2), Z.min (h - 1) (py + sy / 2))).

Section Contracts.
Context {W : Type} `{Machine W, !MallocOk W}.

(** Setting the screen up and updating it, with where the two tables are. *)
Lemma screen_init_update res x y px py w h go qs gg (g : game) (io : iost W) :
  int_of_double x = Ok px -> int_of_double y = Ok py ->
  INT_MIN + 128 <= px <= INT_MAX - 128 -> INT_MIN + 128 <= py <= INT_MAX - 128 ->
  rows_ok (level_rows (lvl g)) -> grid_info (lvl g) = mkGrid w h go ->
  rows_at (level_rows (lvl g)) go qs gg -> rect w h gg ->
  let sx := (res.1 / 64 + 1) mod 256 in
  let sy := (res.2 / 64 + 1) mod 256 in
  let '((x0, y0), (x1, y1)) := window sx sy px py w h in
  let fits := y0 <= y1 -> x0 <= x1 -> y1 - y0 < sy /\ x1 - x0 < sx in
  exists g1 io1, screen_init res x y (g, io) = Ok (0, (g1, io1)) /\
  wpe screen_update (fun f => f = OutOfBounds /\ ~ fits) (fun _ g2 => fits /\ exists p ps gs,
    screen_info (scr g2) = mkScreenInfo sx sy p /\ grid_info (lvl g2) = mkGrid w h go /\
    rows_at (level_rows (lvl g2)) p ps gs /\ rows_at (level_rows (lvl g2)) go qs gg /\
    p <> go /\ (forall q, q ∈ qs -> q ∉ ps) /\
    forall a b, 0 <= a < sy -> 0 <= b < sx ->
      cell gs a b = if decide (a <= y1 - y0 /\ b <= x1 - x0)
                    then cell gg (y0 + a) (x0 + b) else Some 32) g1.
Proof.
  intros Ex Ey Hpx Hpy Hok Hi Hg Hrect sx sy. unfold window. cbv beta iota.
  set (x0 := Z.max 0 (px - sx / 2)). set (x1 := Z.min (w - 1) (px + sx / 2)).
  set (y0 := Z.max 0 (py - sy / 2)). set (y1 := Z.min (h - 1) (py + sy / 2)).
  destruct (wp_run _ _ _ (wp_screen_init res x y g io Hok))
    as (r & [g1 io1] & E & -> & p & ps & Es & Ei & Hr & Had).
  exists g1, io1. split; [exact E|]. cbn [fst] in *. change (u8 (res.1 / _ + 1)) with sx in *.
  change (u8 (res.2 / _ + 1)) with sy in *.
  destruct (rows_at_added _ _ _ _ _ _ _ Had Hg) as [Hg1 Hdisj].
  assert (p <> go) as Hpgo.
  { intros ->. destruct Had as (_ & Ho & _), Hg as (_ & Ht & _). by rewrite Ho in Ht. }
  assert (0 <= sx < 256) as Hsx by apply u8_range. assert (0 <= sy < 256) as Hsy by apply u8_range.
  apply (wpe_screen_update _ _ _ px py sx sy w h p go); rewrite ?Es; try done; [by rewrite Ei|].
  eapply wpe_mono.
  { apply (wpe_copy_window go p qs ps gg (replicate (Z.to_nat sy) (replicate (Z.to_nat sx) 32))
      w h sx sy y0 y1 x0 x1 Hdisj Hrect (rect_blank sx sy ltac:(lia) ltac:(lia)));
      [unfold y0, x0, y1, x1; lia..|apply Had|done|exact Hr]. }
  intros [] r (Hf & _ & Hg2 & _ & gs & Hr2 & Hc) s Hs. split; [done|]. exists p, ps, gs.
  do 6 (split; [done|]). intros a b Ha Hb. rewrite Hc. repeat case_decide; [done|lia|lia|].
  unfold cell. rewrite decide_True by lia. rewrite lookup_replicate_2 by lia. cbn.
  by rewrite lookup_replicate_2 by lia.
Qed.

(** C22: a screen set up on a level and updated shows the part of the grid
    around its position: the square in row [a] and column [b] is that of the
    grid at the window's corner plus [(a, b)], and a blank outside the window.
    The window reaches half the screen each way and is cut off at the edges of
    the grid.  The update succeeds exactly when the window fits the screen, as
    it always does for odd numbers of squares; otherwise it writes past a row.
    The grid is as it was. *)
Theorem screen_shows_level res x y px py w h go qs gg (g : game) (io : iost W) :
  int_of_double x = Ok px -> int_of_double y = Ok py ->
  INT_MIN + 128 <= px <= INT_MAX - 128 -> INT_MIN + 128 <= py <= INT_MAX - 128 ->
  rows_ok (level_rows (lvl g)) -> grid_info (lvl g) = mkGrid w h go ->
  rows_at (level_rows (lvl g)) go qs gg -> rect w h gg ->
  let sx := (res.1 / 64 + 1) mod 256 in
  let sy := (res.2 / 64 + 1) mod 256 in
  let x0 := Z.max 0 (px - sx / 2) in
  let x1 := Z.min (w - 1) (px + sx / 2) in
  let y0 := Z.max 0 (py - sy / 2) in
  let y1 := Z.min (h - 1) (py + sy / 2) in
  let fits := y0 <= y1 -> x0 <= x1 -> y1 - y0 < sy /\ x1 - x0 < sx in
  exists g1 io1, screen_init res x y (g, io) = Ok (0, (g1, io1)) /\
  match screen_update g1 with
  | Ok (_, g2) => fits /\ exists p ps gs,
      screen_info (scr g2) = mkScreenInfo sx sy p /\ grid_info (lvl g2) = mkGrid w h go /\
      rows_at (level_rows (lvl g2)) p ps gs /\ rows_at (level_rows (lvl g2)) go qs gg /\
      forall a b, 0 <= a < sy -> 0 <= b < sx ->
        cell gs a b = if decide (a <= y1 - y0 /\ b <= x1 - x0)
                      then cell gg (y0 + a) (x0 + b) else Some 32
  | Fault f => ~ fits /\ f = OutOfBounds
  end.
Proof.
  intros Ex Ey Hpx Hpy Hok Hi Hg Hrect sx sy x0 x1 y0 y1 fits.
  destruct (screen_init_update res x y px py w h go qs gg g io) as (g1 & io1 & E & Hu); [done..|].
  exists g1, io1. split; [exact E|]. unfold wpe in Hu. destruct (screen_update g1) as [[[] g2]|f].
  - destruct Hu as (Hf & p & ps & gs & H1 & H2 & H3 & H4 & _ & _ & Hc). split; [exact Hf|].
    by exists p, ps, gs.
  - by destruct Hu.
Qed.
End Contracts.

(** An odd number of squares always holds the window. *)
Lemma odd_fits s p w : 0 <= s -> Z.odd s = true ->
  Z.min (w - 1) (p + s / 2) - Z.max 0 (p - s / 2) < s.
Proof.
  intros Hs Ho. pose proof (Z.div_mod s 2 ltac:(lia)) as E.
  rewrite Zmod_odd, Ho in E. lia.
Qed.

(** ** A concrete screen: mode 105h and the level of Grid.v, at (1.5, 0.5) *)

Definition double_1_5 : spec_float := S754_finite false 3 (-1).
Definition double_0_5 : spec_float := S754_finite false 1 (-1).

Definition demo_grid : list text := [txt "###" ++ [10]; txt " p" ++ [10; 32]; txt "    "].

Definition demo_level : level_state :=
  mkLevel (mkGrid 4 3 1)
    (mkRows (mkStore {[1 := [1; 2; 3]]} 2)
       (mkStore (<[1 := txt "###" ++ [10]]> (<[2 := txt " p" ++ [10; 32]]> {[3 := txt "    "]})) 4)).

Definition demo_game : game := mkGame screen_zero demo_level.

(** It is the level [grid_init] reads from the file. *)
Example demo_level_is_read :
  match grid_init (txt "1.txt") (level_zero, demo_start) with
  | Ok (_, (lv, _)) => grid_info lv = grid_info demo_level /\
      map_to_list (cells (tables (level_rows lv)))
        = map_to_list (cells (tables (level_rows demo_level))) /\
      map_to_list (cells (chars (level_rows lv))) = map_to_list (cells (chars (level_rows demo_level)))
  | Fault _ => False
  end.
Proof. vm_compute. done. Qed.

Lemma demo_grid_at : rows_at (level_rows demo_level) 1 [1; 2; 3] demo_grid.
Proof.
  split; [done|]. split; [done|]. split; [by eapply bool_decide_unpack; vm_compute|].
  by repeat constructor.
Qed.

Lemma demo_level_ok : rows_ok (level_rows demo_level).
Proof.
  split; (split; [done|]); intros p a; cbn.
  - rewrite lookup_singleton_Some. lia.
  - rewrite !lookup_insert_Some, lookup_singleton_Some. lia.
Qed.

Lemma screen_shows_level_witness :
  exists g1 io1,
    screen_init (1024, 768) double_1_5 double_0_5 (demo_game, demo_start) = Ok (0, (g1, io1)) /\
  match screen_update g1 with
  | Ok (_, g2) => exists p ps gs, rows_at (level_rows (lvl g2)) p ps gs /\
      screen_info (scr g2) = mkScreenInfo 17 13 p /\
      cell gs 0 2 = Some 35 /\ cell gs 1 1 = Some 112 /\ cell gs 12 16 = Some 32
  | Fault _ => False
  end.
Proof.
  destruct (screen_shows_level (1024, 768) double_1_5 double_0_5 1 0 4 3 1 [1; 2; 3]
    demo_grid demo_game demo_start)
    as (g1 & io1 & E & Hu);
    [done|done|unfold INT_MIN, INT_MAX; lia|unfold INT_MIN, INT_MAX; lia|apply demo_level_ok
    |done|apply demo_grid_at|by repeat constructor|].
  exists g1, io1. split; [exact E|].
  destruct (screen_update g1) as [[[] g2]|f].
  - destruct Hu as (_ & p & ps & gs & Hi & _ & Hr & _ & Hc). exists p, ps, gs.
    split; [exact Hr|]. split; [exact Hi|]. clear - Hc. split; [|split].
    + by rewrite Hc.
    + by rewrite Hc.
    + by rewrite Hc.
  - destruct Hu as [Hf _]. apply Hf. intros _ _. split; vm_compute; reflexivity.
Defined.

(** With an even number of squares the window is one too wide. *)
Example even_screen_overflows :
  match (_ ← screen_init (1088, 768) (S754_finite false 2 3) double_0_5;
         on_statics screen_update)
    (mkGame screen_zero (mkLevel (mkGrid 40 1 1)
       (mkRows (mkStore {[1 := [1]]} 2) (mkStore {[1 := replicate 40 35]} 2))), demo_start) with
  | Ok _ => False
  | Fault f => f = OutOfBounds
  end.
Proof. vm_compute. done. Qed.
