(* ===== verification/Level.v ===== *)
(** * Level: the grid and the screen together

    From a level file to the squares on the screen: [grid_init], [screen_init],
    [screen_update] and [grid_cleanup] one after the other, on one heap.  The
    grid and the screen keep separate tables, so that the screen still shows
    the level after the grid was freed. *)

From S2P Require Import Prelude Machine Format Demo Heap Rows Grid Screen.
From Stdlib Require Import Floats.SpecFloat.

(** The square of a level file in row [y] and column [x]: the newline [fgets]
    leaves in its line comes along, and there are blanks after it. *)
Definition square (grid : list text) (y x : Z) : Z :=
  match grid !! Z.to_nat y with
  | Some row => default (if x =? Z.of_nat (length row) then 10 else 32) (row !! Z.to_nat x)
  | None => 32
  end.

Lemma padded_lookup w row (i : nat) :
  (length row < Z.to_nat w)%nat -> (i < Z.to_nat w)%nat ->
  padded w row !! i = Some (default (if Z.of_nat i =? Z.of_nat (length row) then 10 else 32) (row !! i)).
Proof.
  intros Hw Hi. unfold padded. destruct (Nat.lt_trichotomy i (length row)) as [Hlt|[->|Hgt]].
  - rewrite lookup_app_l by done. by destruct (lookup_lt_is_Some_2 row i Hlt) as [c ->].
  - rewrite lookup_app_r, Nat.sub_diag, Z.eqb_refl, (lookup_ge_None_2 row) by lia. done.
  - rewrite lookup_app_r, (lookup_ge_None_2 row i) by lia. destruct (Z.eqb_spec (Z.of_nat i) (Z.of_nat (length row))); [lia|].
    rewrite lookup_cons_ne_0 by lia. rewrite lookup_replicate_2 by lia. done.
Qed.

Lemma grid_of_rect w h grid :
  0 <= w -> 0 <= h -> all_fit w (take (Z.to_nat h) grid) -> rect w h (grid_of w (Z.to_nat h) grid).
Proof.
  intros Hw Hh Hfit. unfold grid_of. split.
  { rewrite length_app, length_fmap, length_take, length_replicate. lia. }
  apply Forall_app. split; [|apply Forall_replicate; unfold blank; rewrite length_replicate; lia].
  apply Forall_fmap. eapply Forall_impl; [exact Hfit|]. intros row Hr. cbn beta in *. cbn.
  unfold padded. rewrite length_app. cbn [length]. rewrite length_replicate. lia.
Qed.

Lemma grid_of_square w h grid y x :
  all_fit w (take (Z.to_nat h) grid) -> 0 <= y < h -> 0 <= x < w ->
  cell (grid_of w (Z.to_nat h) grid) y x = Some (square grid y x).
Proof.
  intros Hfit Hy Hx. unfold cell, square, grid_of. rewrite decide_True by lia.
  destruct (grid !! Z.to_nat y) as [row|] eqn:E.
  - rewrite lookup_app_l by (apply lookup_lt_Some in E; rewrite length_fmap, length_take; lia).
    rewrite list_lookup_fmap, lookup_take_lt, E by lia. cbn.
    assert (Z.of_nat (length row) < w) as Hl.
    { unfold all_fit in Hfit. rewrite Forall_forall in Hfit. apply Hfit.
      apply (list_elem_of_lookup_2 _ (Z.to_nat y)). by rewrite lookup_take_lt by lia. }
    rewrite padded_lookup by lia. by rewrite Z2Nat.id by lia.
  - apply lookup_ge_None in E.
    rewrite lookup_app_r by (rewrite length_fmap, length_take; lia).
    rewrite length_fmap, length_take, lookup_replicate_2 by lia. cbn. unfold blank.
    by rewrite lookup_replicate_2 by lia.
Qed.

(** A table survives the freeing of another one. *)
Lemma rows_at_freed r r1 p (qs : list Z) ps t gs :
  rows_at r t ps gs -> p <> t -> (forall q, q ∈ qs -> q ∉ ps) ->
  cells (tables r1) = delete p (cells (tables r)) ->
  (forall q, cells (chars r1) !! q = if decide (q ∈ qs) then None else cells (chars r) !! q) ->
  rows_at r1 t ps gs.
Proof.
  intros (H0 & Ht & Hnd & HF) Hne Hd Et Ec. split; [done|]. split; [by rewrite Et, lookup_delete_ne|].
  split; [done|]. apply Forall2_same_length_lookup in HF as [Hlen HF].
  apply Forall2_same_length_lookup. split; [done|]. intros i q row Hq Hrow.
  destruct (HF i q row Hq Hrow) as [Hq0 Hc]. split; [done|]. rewrite Ec, decide_False; [done|].
  intros Hin. apply (Hd q Hin). by eapply list_elem_of_lookup_2.
Qed.

Section Together.
Context {W : Type} `{Machine W, LevelFiles W, !MallocOk W}.

(** C23: a level from its file to the screen.  For a file with the sizes [w] and
    [h], a byte each, whose path fits its buffer and whose rows are of fewer than
    99 characters, none a newline or 0, and (the first [h] of them) shorter than
    [w]; a card with odd numbers of squares each way (an even number overflows
    the screen); a position whose numbers are [int]s with room for the window;
    a well-formed heap; and when allocation succeeds: [grid_init], [screen_init]
    and [screen_update] succeed and the screen shows
    in row [a] and column [b] the character of the file at the corner of the
    window plus [(a, b)], a newline after a row, and blanks elsewhere.  The grid
    may then be freed: [grid_cleanup] succeeds and leaves the screen as it is. *)
Theorem level_on_screen name w h grid
  `{!HoldsLevel (LEVELS ++ name) (Some (level_text w h grid))} res x y px py (g : game) (io : iost W) :
  int_of_double x = Ok px -> int_of_double y = Ok py ->
  INT_MIN + 128 <= px <= INT_MAX - 128 -> INT_MIN + 128 <= py <= INT_MAX - 128 ->
  rows_ok (level_rows (lvl g)) -> path_fits name -> Forall row_ok grid ->
  0 <= w < 256 -> 0 <= h < 256 -> all_fit w (take (Z.to_nat h) grid) ->
  let sx := (res.1 / 64 + 1) mod 256 in
  let sy := (res.2 / 64 + 1) mod 256 in
  Z.odd sx = true -> Z.odd sy = true ->
  let '((x0, y0), (x1, y1)) := window sx sy px py w h in
  exists lv1 io1 g1 io2 g2 lv3 p ps gs,
    grid_init name (lvl g, io) = Ok (0, (lv1, io1)) /\
    screen_init res x y (mkGame (scr g) lv1, io1) = Ok (0, (g1, io2)) /\
    screen_update g1 = Ok (tt, g2) /\
    grid_cleanup (lvl g2, io2) = Ok (tt, (lv3, io2)) /\
    screen_info (scr g2) = mkScreenInfo sx sy p /\ rows_at (level_rows lv3) p ps gs /\
    forall a b, 0 <= a < sy -> 0 <= b < sx ->
      cell gs a b = Some (if decide (y0 + a <= y1 /\ x0 + b <= x1)
                          then square grid (y0 + a) (x0 + b) else 32).
Proof.
  intros Ex Ey Hpx Hpy Hr [Hn Hl] HF Hw Hh Hfit sx sy Hsx Hsy.
  pose proof (wpe_grid_init name w h grid (lvl g) io Hn Hr HF Hw Hh) as Hgrid. unfold wpe in Hgrid.
  destruct (grid_init name (lvl g, io)) as [[r0 [lv1 io1]]|f] eqn:E0.
  2:{ exfalso. destruct Hgrid as [_ [Hlen|Hlong]]; [lia|]. unfold too_long in Hlong.
      apply Exists_exists in Hlong as (row & Hin & Hrow). unfold all_fit in Hfit.
      rewrite Forall_forall in Hfit. specialize (Hfit row Hin). cbn beta in Hfit. lia. }
  destruct Hgrid as (-> & _ & _ & go & qs & Eg & Hrows & Hadd). cbn [fst] in *.
  pose proof (grid_of_rect w h grid ltac:(lia) ltac:(lia) Hfit) as Hrect.
  pose proof (screen_init_update res x y px py w h go qs _ (mkGame (scr g) lv1) io1 Ex Ey Hpx Hpy
    ltac:(apply Hadd) Eg Hrows Hrect) as Hs.
  unfold window in *. cbv beta iota zeta in Hs |- *. fold sx sy in Hs |- *.
  destruct Hs as (g1 & io2 & E1 & Hu). unfold wpe in Hu.
  assert (0 <= sx < 256) as Hsx0 by apply u8_range. assert (0 <= sy < 256) as Hsy0 by apply u8_range.
  destruct (screen_update g1) as [[[] g2]|f] eqn:E2.
  2:{ exfalso. apply Hu. intros _ _. split; (apply odd_fits; [lia|done]). }
  destruct Hu as (_ & p & ps & gs & Hinfo & Eg2 & Hps & Hqs & Hne & Hd & Hc).
  destruct (lvl g2) as [gi r2] eqn:El. cbn [grid_info level_rows] in *. subst gi.
  destruct (wp_run _ _ _ (wp_grid_cleanup w h go qs _ r2 io2 Hqs ltac:(apply Hrect)))
    as ([] & st & E3 & r3 & -> & Ht3 & Hc3).
  exists lv1, io1, g1, io2, g2, (mkLevel (mkGrid w h NULL) r3), p, ps, gs.
  do 3 (split; [done|]). split; [by rewrite El|]. split; [done|].
  split; [by eapply rows_at_freed|]. intros a b Ha Hb. rewrite Hc by done.
  rewrite (decide_ext _ (Z.max 0 (py - sy / 2) + a <= Z.min (h - 1) (py + sy / 2) /\
    Z.max 0 (px - sx / 2) + b <= Z.min (w - 1) (px + sx / 2))) by lia.
  case_decide; [|done]. apply grid_of_square; [done|lia|lia].
Qed.
End Together.

(** A card of mode 105h, the level of Grid.v, at (1.5, 0.5). *)
Lemma level_on_screen_witness :
  exists lv1 io1 g1 io2 g2 lv3 p ps gs,
    grid_init (txt "1.txt") (level_zero, demo_start) = Ok (0, (lv1, io1)) /\
    screen_init (1024, 768) double_1_5 double_0_5 (mkGame screen_zero lv1, io1) = Ok (0, (g1, io2)) /\
    screen_update g1 = Ok (tt, g2) /\ grid_cleanup (lvl g2, io2) = Ok (tt, (lv3, io2)) /\
    rows_at (level_rows lv3) p ps gs /\
    cell gs 0 2 = Some 35 /\ cell gs 1 1 = Some 112 /\ cell gs 1 2 = Some 10 /\
    cell gs 12 16 = Some 32.
Proof.
  destruct (level_on_screen (txt "1.txt") 4 3 demo_rows (1024, 768) double_1_5 double_0_5 1 0
    (mkGame screen_zero level_zero) demo_start)
    as (lv1 & io1 & g1 & io2 & g2 & lv3 & p & ps & gs & E1 & E2 & E3 & E4 & _ & Hr & Hc);
    [done|done|unfold INT_MIN, INT_MAX; lia|unfold INT_MIN, INT_MAX; lia|apply rows_ok_empty
    |split; [by repeat constructor|apply Nat.ltb_lt; by vm_compute]|apply demo_rows_ok|lia|lia
    |by repeat constructor|done|done|].
  exists lv1, io1, g1, io2, g2, lv3, p, ps, gs. do 4 (split; [done|]). split; [exact Hr|].
  clear - Hc. do 3 (split; [by rewrite Hc|]). by rewrite Hc.
Defined.
