(* ===== verification/Player.v ===== *)
(** * The squares the player sees: player/player.h and player/player.c

    An array of 14 rows of 18 characters shows the grid around the player.
    [grid_info_objects], [grid_sizex] and [grid_sizey] are declared [extern]
    and defined nowhere: they are parameters. *)

From S2P Require Import Prelude Machine Format Heap Rows Grid Screen.

Definition MAX_XSIZE : Z := 18.
Definition MAX_YSIZE : Z := 14.
Definition vis_xsize : Z := 18.
Definition vis_ysize : Z := 14.
Definition midx : Z := vis_xsize / 2.
Definition midy : Z := vis_ysize / 2.
Definition minx : Z := 0 - midx.
Definition miny : Z := 0 - midy.
Definition maxx : Z := 0 + midx.
Definition maxy : Z := 0 + midy.

(** The statics of the file and the heap of the grid. *)
Record player : Type := mkPlayer {
  visible_objects : list text;
  player_posx : Z;
  player_posy : Z;
  player_rows : rows;
}.

Definition visible_zero : list text :=
  replicate (Z.to_nat MAX_YSIZE) (replicate (Z.to_nat MAX_XSIZE) 0).

Definition set_visible_objects (v : list text) (p : player) : player :=
  mkPlayer v (player_posx p) (player_posy p) (player_rows p).

(** [visible_objects\[y\]\[x\] = c] *)
Definition set_visible (y x c : Z) : M player unit :=
  p ← get;
  row ← lift_res (array_get (visible_objects p) y);
  row ← lift_res (array_set row x c);
  v ← lift_res (array_set (visible_objects p) y row);
  put (set_visible_objects v p).

Definition player_reset_visible : M player unit :=
  for_up (Z.to_nat vis_ysize) 0 (fun yi =>
    for_up (Z.to_nat vis_xsize) 0 (fun xi => set_visible yi xi 32)).

Section Player.
Variables grid_info_objects grid_sizex grid_sizey : Z.

Definition grid_object (y x : Z) : M player Z :=
  zoom player_rows
    (fun r p => mkPlayer (visible_objects p) (player_posx p) (player_posy p) r)
    (get_cell grid_info_objects y x).

(** The body of the inner loop; the second test looks at the row, not at the
    column. *)
Definition visible_square (yi xi : Z) : M player unit :=
  p ← get;
  b ← int (player_posy p + xi);
  if (b <? 0) || (grid_sizex <=? b) then mret tt else
  y ← int (player_posy p + yi);
  x ← int (player_posx p + xi);
  c ← grid_object y x;
  set_visible (yi + maxy) (xi + maxx) c.

Definition player_set_visible : M player unit :=
  player_reset_visible ;;
  for_up (Z.to_nat (maxy - miny)) miny (fun yi =>
    p ← get;
    a ← int (player_posy p + yi);
    if (a <? 0) || (grid_sizey <=? a) then mret tt else
    for_up (Z.to_nat (maxx - minx)) minx (visible_square yi)).

Definition player_init (x y : Z) : M player Z :=
  if (grid_sizex <? x) || (grid_sizey <? y) then mret 1 else
  modify (fun p => mkPlayer (visible_objects p) x y (player_rows p)) ;;
  player_set_visible ;;
  set_visible midy midx 112 ;;
  mret 1.
End Player.

(** ** Lemmas *)

Lemma set_visible_run p y x c :
  match cell (visible_objects p) y x with
  | Some _ => set_visible y x c p
      = Ok (tt, set_visible_objects (put_cell (visible_objects p) y x c) p)
  | None => set_visible y x c p = Fault OutOfBounds
  end.
Proof.
  unfold set_visible, get, put, lift_res, mbind, M_bind, array_get, array_set, cell.
  destruct p as [v px py r]. cbn [visible_objects].
  destruct (Z.ltb_spec y 0).
  { by rewrite decide_False by lia. }
  destruct (v !! Z.to_nat y) as [row|] eqn:Er; [|by case_decide].
  cbn [mbind option_bind]. destruct (Z.leb_spec 0 x); cbn [andb].
  2:{ by rewrite decide_False by lia. }
  rewrite decide_True by lia.
  destruct (Z.ltb_spec x (Z.of_nat (length row))) as [Hx|Hx].
  - destruct (lookup_lt_is_Some_2 row (Z.to_nat x)) as [d ->]; [lia|].
    apply lookup_lt_Some in Er as Hy. destruct (Z.leb_spec 0 y); [|lia].
    destruct (Z.ltb_spec y (Z.of_nat (length v))); [|lia]. cbn [andb].
    unfold set_visible_objects. cbn. do 3 f_equal. unfold put_cell.
    apply list_eq. intros i. destruct (decide (i = Z.to_nat y)) as [->|Hne].
    + by rewrite list_lookup_alter_eq, list_lookup_insert_eq, Er by lia.
    + by rewrite list_lookup_alter_ne, list_lookup_insert_ne.
  - by rewrite lookup_ge_None_2 by lia.
Qed.

(** The array holds [f] on its squares. *)
Definition shows (f : Z -> Z -> option Z) (v : list text) : Prop :=
  (forall a b, 0 <= a < 14 -> 0 <= b < 18 -> is_Some (f a b)) /\
  forall a b, cell v a b = if decide (0 <= a < 14 /\ 0 <= b < 18) then f a b else None.

Lemma shows_rect v : rect 18 14 v -> shows (cell v) v.
Proof.
  intros Hv. split.
  - intros a b Ha Hb. by apply (rect_cell _ _ _ _ _ Hv).
  - intros a b. case_decide as Hd; [done|]. destruct (cell v a b) eqn:E; [|done].
    exfalso. apply Hd. apply (rect_cell _ _ _ _ _ Hv). by rewrite E.
Qed.

Lemma shows_ext f f' v :
  shows f v -> (forall a b, 0 <= a < 14 -> 0 <= b < 18 -> f a b = f' a b) -> shows f' v.
Proof.
  intros [Hs Hc] Hf. split.
  - intros a b Ha Hb. rewrite <- Hf by done. auto.
  - intros a b. rewrite Hc. case_decide; [apply Hf; lia|done].
Qed.

(** Writing a square of the array. *)
Lemma wp_set_visible f y x c (Q : unit -> player -> Prop) p :
  shows f (visible_objects p) -> 0 <= y < 14 -> 0 <= x < 18 ->
  (forall v, shows (fun a b => if decide (a = y /\ b = x) then Some c else f a b) v ->
     Q tt (set_visible_objects v p)) ->
  wp (set_visible y x c) Q p.
Proof.
  intros [Hs Hc] Hy Hx HQ. pose proof (set_visible_run p y x c) as Hr.
  destruct (Hs y x Hy Hx) as [d Hd].
  assert (cell (visible_objects p) y x = Some d) as E by (by rewrite Hc, decide_True).
  rewrite E in Hr. eapply run_wp; [exact Hr|]. apply HQ. split.
  - intros a b Ha Hb. case_decide; [done|auto].
  - intros a b. rewrite (cell_put _ _ _ d) by done. rewrite Hc. repeat case_decide; (done || lia).
Qed.

(** Every square blank, from any contents. *)
Lemma wp_player_reset_visible p (Q : unit -> player -> Prop) :
  rect 18 14 (visible_objects p) ->
  (forall v, shows (fun _ _ => Some 32) v -> Q tt (set_visible_objects v p)) ->
  wp player_reset_visible Q p.
Proof.
  intros Hv HQ. unfold player_reset_visible.
  set (part := fun y x a b => if decide (a < y \/ (a = y /\ b < x)) then Some 32
                              else cell (visible_objects p) a b).
  apply wp_for_up with (Inv := fun y p' => exists v,
    p' = set_visible_objects v p /\ shows (part y 0) v).
  - exists (visible_objects p). split; [by destruct p|].
    eapply shows_ext; [by apply shows_rect|]. intros a b Ha Hb. unfold part.
    by rewrite decide_False by lia.
  - intros y p1 Hy Hp1. change (Z.of_nat (Z.to_nat vis_ysize)) with 14 in Hy.
    apply wp_for_up with (Inv := fun x p' => exists v,
      p' = set_visible_objects v p /\ shows (part y x) v); [exact Hp1| |].
    + intros x p2 Hx (v & -> & Hs). change (Z.of_nat (Z.to_nat vis_xsize)) with 18 in Hx.
      eapply wp_set_visible; [exact Hs|lia|lia|]. intros v' Hv'. exists v'. split; [done|].
      eapply shows_ext; [exact Hv'|]. intros a b Ha Hb. unfold part. cbn beta.
      repeat case_decide; (done || lia).
    + intros p2 (v & -> & Hs). exists v. split; [done|].
      eapply shows_ext; [exact Hs|]. intros a b Ha Hb. unfold part.
      apply decide_ext. change (Z.of_nat (Z.to_nat vis_xsize)) with 18. lia.
  - intros p1 (v & -> & Hs). apply HQ. eapply shows_ext; [exact Hs|].
    intros a b Ha Hb. unfold part. apply decide_True.
    change (Z.of_nat (Z.to_nat vis_ysize)) with 14. lia.
Qed.

(** ** What the player sees *)

Section See.
Variables grid_info_objects grid_sizex grid_sizey : Z.
Context (qs : list Z) (gg : list text) (px py : Z).
Hypothesis Hpx : 0 <= px < 256.
Hypothesis Hpy : 0 <= py < 256.

(** The test of the code for the square in row [a] and column [b]. *)
Definition inside (a b : Z) : Prop :=
  0 <= py + (a - 7) < grid_sizey /\ 0 <= py + (b - 9) < grid_sizex.

(** What is read for it, and what is then shown. *)
Definition source (a b : Z) : option Z := cell gg (py + (a - 7)) (px + (b - 9)).
Definition shown (a b : Z) : option Z := if decide (inside a b) then source a b else Some 32.

Definition reads_inside : Prop :=
  forall a b, 0 <= a < 14 -> 0 <= b < 18 -> inside a b -> is_Some (source a b).

(** The squares before [(y, x)] are shown, the others blank. *)
Definition before (y x a b : Z) : Prop := a < y \/ (a = y /\ b < x).
Definition seen_to (y x : Z) (p : player) : Prop :=
  player_posx p = px /\ player_posy p = py /\
  rows_at (player_rows p) grid_info_objects qs gg /\
  (forall a b, 0 <= a < 14 -> 0 <= b < 18 -> before y x a b -> is_Some (shown a b)) /\
  shows (fun a b => if decide (a < y \/ (a = y /\ b < x)) then shown a b else Some 32)
    (visible_objects p).

(** A square left blank. *)
Lemma seen_skip y x p : seen_to y x p -> ~ inside y x -> seen_to y (x + 1) p.
Proof.
  intros (H1 & H2 & H3 & H4 & H5) Hn. do 3 (split; [done|]).
  assert (shown y x = Some 32) as E by (unfold shown; by rewrite decide_False).
  split.
  - intros a b Ha Hb [Hlt|[-> Hlt]]; [apply H4; unfold before; auto|].
    destruct (decide (b = x)) as [->|]; [by rewrite E|]. apply H4; unfold before; auto with lia.
  - eapply shows_ext; [exact H5|]. intros a b Ha Hb. cbn beta.
    destruct (decide (a = y /\ b = x)) as [[-> ->]|Hne].
    + rewrite decide_False, decide_True by lia. by rewrite E.
    + apply decide_ext. lia.
Qed.

Lemma seen_row y p : seen_to y 18 p -> seen_to (y + 1) 0 p.
Proof.
  intros (H1 & H2 & H3 & H4 & H5). do 3 (split; [done|]). split.
  - intros a b Ha Hb Hlt. apply H4; [done|done|]. unfold before in *. lia.
  - eapply shows_ext; [exact H5|]. intros a b Ha Hb. apply decide_ext. lia.
Qed.

(** A row left blank. *)
Lemma seen_blank_row y p : seen_to y 0 p -> (forall b, ~ inside y b) -> seen_to (y + 1) 0 p.
Proof.
  intros Hs Hn. apply seen_row.
  assert (forall n : nat, seen_to y (0 + Z.of_nat n) p) as Hall.
  { induction n as [|n IH]; [exact Hs|]. replace (0 + Z.of_nat (S n)) with (0 + Z.of_nat n + 1) by lia.
    by apply seen_skip. }
  exact (Hall 18%nat).
Qed.

Lemma wpe_visible_square y x p :
  0 <= y < 14 -> 0 <= x < 18 -> 0 <= py + (y - 7) < grid_sizey -> seen_to y x p ->
  wpe (visible_square grid_info_objects grid_sizex (y - 7) (x - 9))
    (fun f => f = OutOfBounds /\ ~ reads_inside) (fun _ => seen_to y (x + 1)) p.
Proof.
  intros Hy Hx Hrow Hs. pose proof Hs as (H1 & H2 & H3 & H4 & H5).
  unfold visible_square. wp_step. wp_step. rewrite H1, H2.
  wp_step. apply wpe_wp, wp_int; [unfold INT_MIN, INT_MAX; lia|].
  destruct (Z.ltb_spec (py + (x - 9)) 0) as [Hlt|Hge]; cbn [orb].
  { wp_step. apply seen_skip; [done|]. unfold inside. lia. }
  destruct (Z.leb_spec grid_sizex (py + (x - 9))) as [Hle|Hgt].
  { wp_step. apply seen_skip; [done|]. unfold inside. lia. }
  assert (inside y x) as Hin by (unfold inside; lia).
  do 2 (wp_step; apply wpe_wp, wp_int; [unfold INT_MIN, INT_MAX; lia|]).
  wp_step. unfold grid_object. wp_step. unfold wpe at 1.
  rewrite (get_cell_run _ _ _ _ _ _ H3). fold (source y x).
  destruct (source y x) as [c|] eqn:Ec.
  2:{ split; [done|]. intros Hr. destruct (Hr y x Hy Hx Hin) as [c Hc]. congruence. }
  replace (y - 7 + maxy) with y by (change maxy with 7; lia).
  replace (x - 9 + maxx) with x by (change maxx with 9; lia).
  apply wpe_wp. eapply wp_set_visible; [exact H5|done..|]. intros v Hv.
  assert (shown y x = Some c) as E by (unfold shown; by rewrite decide_True).
  split; [done|]. split; [done|]. split; [done|]. split.
  - intros a b Ha Hb [Hlt|[-> Hlt]]; [apply H4; unfold before; auto|].
    destruct (decide (b = x)) as [->|]; [by rewrite E|]. apply H4; unfold before; auto with lia.
  - eapply shows_ext; [exact Hv|]. intros a b Ha Hb. cbn beta.
    destruct (decide (a = y /\ b = x)) as [[-> ->]|Hne].
    + rewrite decide_True by lia. by rewrite E.
    + apply decide_ext. lia.
Qed.

Lemma wpe_player_set_visible p :
  rect 18 14 (visible_objects p) -> player_posx p = px -> player_posy p = py ->
  rows_at (player_rows p) grid_info_objects qs gg ->
  wpe (player_set_visible grid_info_objects grid_sizex grid_sizey)
    (fun f => f = OutOfBounds /\ ~ reads_inside)
    (fun _ p' => reads_inside /\ player_posx p' = px /\ player_posy p' = py /\
       rows_at (player_rows p') grid_info_objects qs gg /\ shows shown (visible_objects p')) p.
Proof.
  intros Hv H1 H2 H3. unfold player_set_visible. wp_step. apply wpe_wp.
  apply wp_player_reset_visible; [done|]. intros v Hs.
  apply wpe_for_up with (Inv := fun yi => seen_to (yi + 7) 0).
  - change (miny + 7) with 0. split; [done|]. split; [done|]. split; [done|]. split.
    + intros a b Ha Hb Hlt. unfold before in Hlt. lia.
    + eapply shows_ext; [exact Hs|]. intros a b Ha Hb. by rewrite decide_False by lia.
  - intros yi p1 Hyi Hp1. change (miny + Z.of_nat (Z.to_nat (maxy - miny))) with 7 in Hyi.
    change miny with (-7) in Hyi. pose proof Hp1 as (_ & E2 & _).
    wp_step. wp_step. rewrite E2. wp_step. apply wpe_wp, wp_int; [unfold INT_MIN, INT_MAX; lia|].
    replace (yi + 1 + 7) with (yi + 7 + 1) by lia.
    destruct (Z.ltb_spec (py + yi) 0) as [Hlt|Hge]; cbn [orb].
    { wp_step. apply seen_blank_row; [done|]. intros b. unfold inside. lia. }
    destruct (Z.leb_spec grid_sizey (py + yi)) as [Hle|Hgt].
    { wp_step. apply seen_blank_row; [done|]. intros b. unfold inside. lia. }
    apply wpe_for_up with (Inv := fun xi => seen_to (yi + 7) (xi + 9)).
    + exact Hp1.
    + intros xi p2 Hxi Hp2. change (minx + Z.of_nat (Z.to_nat (maxx - minx))) with 9 in Hxi.
      change minx with (-9) in Hxi. replace (xi + 1 + 9) with (xi + 9 + 1) by lia.
      pose proof (wpe_visible_square (yi + 7) (xi + 9) p2) as Hq.
      replace (yi + 7 - 7) with yi in Hq by lia. replace (xi + 9 - 9) with xi in Hq by lia.
      apply Hq; (done || lia).
    + intros p2 Hp2. by apply seen_row.
  - intros p1 (E1 & E2 & E3 & E4 & E5). change (miny + Z.of_nat (Z.to_nat (maxy - miny)) + 7) with 14 in *.
    split.
    { intros a b Ha Hb Hin. destruct (E4 a b Ha Hb) as [c Hc]; [left; lia|].
      unfold shown in Hc. rewrite decide_True in Hc by done. by rewrite Hc. }
    split; [done|]. split; [done|]. split; [done|]. eapply shows_ext; [exact E5|].
    intros a b Ha Hb. cbn beta. by rewrite decide_True by lia.
Qed.
End See.

(** C24: [player_init] answers 1 whether it succeeds or not.  For a position
    that is not past the sizes of the grid it shows, in row [a] and column [b]
    of the array, the square of the grid [a - 7] rows and [b - 9] columns away
    from the player, and a blank where the row of that square is outside the
    grid or where the player's row number plus [b - 9] is: the test of the
    column is made with the row.  It succeeds exactly when every square that
    passes that test is in the grid; otherwise it reads outside it.  The
    player is drawn in the middle. *)
Theorem player_init_shows objects sizex sizey qs gg x y (p : player) :
  0 <= x < 256 -> 0 <= y < 256 -> rect 18 14 (visible_objects p) ->
  rows_at (player_rows p) objects qs gg ->
  let inside a b := 0 <= y + (a - 7) < sizey /\ 0 <= y + (b - 9) < sizex in
  let reads := forall a b, 0 <= a < 14 -> 0 <= b < 18 -> inside a b ->
    is_Some (cell gg (y + (a - 7)) (x + (b - 9))) in
  if decide (x <= sizex /\ y <= sizey) then
    match player_init objects sizex sizey x y p with
    | Ok (r, p') => reads /\ r = 1 /\ player_posx p' = x /\ player_posy p' = y /\
        forall a b, 0 <= a < 14 -> 0 <= b < 18 ->
          cell (visible_objects p') a b =
            if decide (a = 7 /\ b = 9) then Some 112
            else if decide (inside a b) then cell gg (y + (a - 7)) (x + (b - 9)) else Some 32
    | Fault f => ~ reads /\ f = OutOfBounds
    end
  else player_init objects sizex sizey x y p = Ok (1, p).
Proof.
  intros Hx Hy Hv Hr inside0 reads. unfold player_init. case_decide as Hd.
  2:{ replace ((sizex <? x) || (sizey <? y)) with true; [done|].
      symmetry. apply orb_true_iff. rewrite !Z.ltb_lt. lia. }
  replace ((sizex <? x) || (sizey <? y)) with false
    by (symmetry; apply orb_false_iff; rewrite !Z.ltb_ge; lia).
  match goal with |- match ?m p with _ => _ end =>
    cut (wpe m (fun f => f = OutOfBounds /\ ~ reads) (fun r p' => reads /\ r = 1 /\
      player_posx p' = x /\ player_posy p' = y /\
      shows (fun a b => if decide (a = 7 /\ b = 9) then Some 112 else shown sizex sizey gg x y a b)
        (visible_objects p')) p) end.
  { unfold wpe. match goal with |- match ?t with _ => _ end -> _ =>
      destruct t as [[r p']|f]; [|tauto] end.
    intros (H1 & H2 & H3 & H4 & [_ H5]). do 4 (split; [done|]). intros a b Ha Hb.
    by rewrite H5, decide_True. }
  wp_step. wp_step. wp_step. eapply wpe_mono.
  { by apply (wpe_player_set_visible objects sizex sizey qs gg x y Hx Hy). }
  intros [] p1 (H1 & H2 & H3 & H4 & H5). wp_step. apply wpe_wp.
  eapply wp_set_visible; [exact H5|by change midy with 7|by change midx with 9|].
  intros v Hv'. apply wp_ret. split; [exact H1|]. split; [done|]. split; [exact H2|].
  split; [exact H3|]. exact Hv'.
Qed.

(** ** A concrete run: the level of Grid.v, on its diagonal *)

Definition demo_player : player := mkPlayer visible_zero 0 0 (level_rows demo_level).

Lemma player_init_shows_witness :
  match player_init 1 4 3 1 1 demo_player with
  | Ok (r, p') => r = 1 /\ cell (visible_objects p') 7 9 = Some 112 /\
      cell (visible_objects p') 6 8 = Some 35 /\ cell (visible_objects p') 0 0 = Some 32
  | Fault f => False
  end.
Proof.
  pose proof (player_init_shows 1 4 3 [1; 2; 3] demo_grid 1 1 demo_player ltac:(lia) ltac:(lia)
    ltac:(by repeat constructor) demo_grid_at) as Hp.
  cbn zeta in Hp. rewrite decide_True in Hp by lia.
  destruct (player_init 1 4 3 1 1 demo_player) as [[r p']|f].
  - destruct Hp as (_ & Hr & _ & _ & Hc). split; [exact Hr|].
    rewrite !Hc by lia. repeat split.
  - destruct Hp as [Hn _]. apply Hn. intros a b Ha Hb [H1 H2].
    apply (rect_cell 4 3 demo_grid); [by repeat constructor|]. lia.
Defined.

(** Off the diagonal the first column is passed: three rows down, at the left
    edge, the squares three columns left of the player are read. *)
Example player_reads_outside :
  player_init 1 4 3 0 2 demo_player = Fault OutOfBounds.
Proof. vm_compute. done. Qed.
