(* ===== verification/SpritesLevel.v ===== *)
(** * The images of the level: assets/sprites/block.h, player_sprite.h

    The XPM arrays the assets manager loads, string by string. *)

From S2P Require Import Prelude.

#[local] Open Scope string_scope.

Definition block_xpm : list string := [
"64 128 4";
"  1";
". 2";
"X 3";
"Y 20";
"                                                                ";
"                                                                ";
"                                                                ";
"                                  ....                          ";
"         .        ......        .........       .........       ";
"    .......................................................     ";
"    ........................................................    ";
"    ........................................................    ";
"    ......XXXX..............................................    ";
"    .....XXXXXX............................................     ";
"    .....XXXXXX............................................     ";
"    ......XXXX.............................................     ";
"    .......................................................     ";
"    .......................................................     ";
"    .......................................XXXX............     ";
"    ......................................XXXXXX...........     ";
"    ................XX....................XXXXXX...........     ";
"    ...............XXXX....................XXXX............     ";
"   ................XXXX....................................     ";
"   ................XXXX.....................................    ";
"   ................XXXX.....................................    ";
"    ................XX......................................    ";
"    ........................................................    ";
"     .......................................................    ";
"     ......................................................     ";
"     ......................................................     ";
"     ............................XX........................     ";
"     ...........................XXXX...........XXXX........     ";
"     ...........................XXXX..........XXXXXX.......     ";
"     ............................XX...........XXXXXX.......     ";
"     ..........................................XXXX........     ";
"     ............XX.........................................    ";
"    ............XXXX........................................    ";
"    ............XXXX........................................    ";
"    ............XXXX........................................    ";
"    ............XXXX........................................    ";
"    .............XX.........................................    ";
"   .........................................................    ";
"   .......................................XXXX..............    ";
"   ......................................XXXXXX.............    ";
"    ....................................XXXXXXXX............    ";
"    ....................................XXXXXXXX............    ";
"    .....................................XXXXXX.............    ";
"    ......................................XXXX.............     ";
"    .......................................................     ";
"    .......................................................     ";
"    .....................XXXX..............................     ";
"    ....................XXXXXX.............................     ";
"    ....................XXXXXX.............................     ";
"    .....................XXXX..............................     ";
"    .......................................................     ";
"    ......XX...............................................     ";
"    ......XX...............................................     ";
"    .............................................XXXX......     ";
"    ............................................XXXXXX.....     ";
"    ............................................XXXXXX......    ";
"    .............................................XXXX.......    ";
"   .........................................................    ";
"   .........................................................    ";
"   .........................................................    ";
"     ..            ...                 ..............           ";
"                                                                ";
"                                                                ";
"                                                                ";
"                                                                ";
"                                                                ";
"                                                                ";
"                                  ....                          ";
"         .        ......        .........       .........       ";
"    .......................................................     ";
"    ........................................................    ";
"    ........................................................    ";
"    ......YYYY..............................................    ";
"    .....YYYYYY............................................     ";
"    .....YYYYYY............................................     ";
"    ......YYYY.............................................     ";
"    .......................................................     ";
"    .......................................................     ";
"    .......................................YYYY............     ";
"    ......................................YYYYYY...........     ";
"    ................YY....................YYYYYY...........     ";
"    ...............YYYY....................YYYY............     ";
"   ................YYYY....................................     ";
"   ................YYYY.....................................    ";
"   ................YYYY.....................................    ";
"    ................YY......................................    ";
"    ........................................................    ";
"     .......................................................    ";
"     ......................................................     ";
"     ......................................................     ";
"     ............................YY........................     ";
"     ...........................YYYY...........YYYY........     ";
"     ...........................YYYY..........YYYYYY.......     ";
"     ............................YY...........YYYYYY.......     ";
"     ..........................................YYYY........     ";
"     ............YY.........................................    ";
"    ............YYYY........................................    ";
"    ............YYYY........................................    ";
"    ............YYYY........................................    ";
"    ............YYYY........................................    ";
"    .............YY.........................................    ";
"   .........................................................    ";
"   .......................................YYYY..............    ";
"   ......................................YYYYYY.............    ";
"    ....................................YYYYYYYY............    ";
"    ....................................YYYYYYYY............    ";
"    .....................................YYYYYY.............    ";
"    ......................................YYYY.............     ";
"    .......................................................     ";
"    .......................................................     ";
"    .....................YYYY..............................     ";
"    ....................YYYYYY.............................     ";
"    ....................YYYYYY.............................     ";
"    .....................YYYY..............................     ";
"    .......................................................     ";
"    ......YY...............................................     ";
"    ......YY...............................................     ";
"    .............................................YYYY......     ";
"    ............................................YYYYYY.....     ";
"    ............................................YYYYYY......    ";
"    .............................................YYYY.......    ";
"   .........................................................    ";
"   .........................................................    ";
"   .........................................................    ";
"     ..            ...                 ..............           ";
"                                                                ";
"                                                                ";
"                                                                "
].

Definition player_xpm : list string := [
"64 64 6 1";
"  0";
". 1";
"X 2";
"o 3";
"O 4";
"+ 5";
"    ........................................................    ";
"    ........................................................    ";
"    ........................................................    ";
"    ........................................................    ";
"................................................................";
"................................................................";
"............++++++++++++++++++++++++++++++++++++++++............";
"............++++++++++++++++++++++++++++++++++++++++............";
"............++++++++++++++++++++++++++++++++++++++++............";
"............++++++++++++++++++++++++++++++++++++++++............";
"............++++++++++++++++++++++++++++++++++++++++............";
"............++++++++++++++++++++++++++++++++++++++++............";
"......++++++++++++++++++++++++++++++++++++++++++++++++++++......";
"......++++++++++++oooooo++++++++++++++++oooooo++++++++++++......";
"......++++++++++oooooooooo++++++++++++oooooooooo++++++++++......";
"......++++++++++oooooooooo++++++++++++oooooooooo++++++++++......";
"......+++++++++oooooooooooo++++++++++oooooooooooo+++++++++......";
"......+++++++++oooooooooooo++++++++++oooooooooooo+++++++++......";
"......+++++++++ooooo..ooooo++++++++++ooooo..ooooo+++++++++......";
"......+++++++++ooooo..ooooo++++++++++ooooo..ooooo+++++++++......";
"......+++++++++oooooooooooo++++++++++oooooooooooo+++++++++......";
"......+++++++++oooooooooooo++++++++++oooooooooooo+++++++++......";
"......++++++++++oooooooooo++++++++++++oooooooooo++++++++++......";
"......++++++++++oooooooooo++++++++++++oooooooooo++++++++++......";
"......++++++++++++oooooo++++++++++++++++oooooo++++++++++++......";
"......++++++++++++++++++++++++++++++++++++++++++++++++++++......";
"......++++++++++++++++++++++++++++++++++++++++++++++++++++......";
"......++++++++++++++++++++++++++++++++++++++++++++++++++++......";
"......++++++++++++++++++++++OOOOOO++++++++++++++++++++++++......";
"......++++++++++++++++++++++OOOOOO++++++++++++++++++++++++......";
"......++++++++++++++++++++++OOOOOO++++++++++++++++++++++++......";
"......++++++++++++++++++++++OOOOOO++++++++++++++++++++++++......";
"......++++++++++++++++++++++OOOOOO++++++++++++++++++++++++......";
"......++++++++++++++++++++++OOOOOO++++++++++++++++++++++++......";
"......++++++++++++++++++++++OOOOOO++++++++++++++++++++++++......";
"......++++++++++++++++++++++OOOOOO++++++++++++++++++++++++......";
"......++++++++++++++++++++++OOOOOO++++++++++++++++++++++++......";
"......++++++++++++++++++++++++++++++++++++++++++++++++++++......";
"......++++++++++++++++++++++++++++++++++++++++++++++++++++......";
"......++++++++++++++++++++++++++++++++++++++++++++++++++++......";
"......++++++++++++++++++++++++++++++++++++++++++++++++++++......";
"......++++++++++++++++++++++++++++++++++++++++++++++++++++......";
"......++++++++++++++XXXXXXXXXXXXXXXXXXXXXXXX++++++++++++++......";
"......+++++++++XXXXXXXXXXXXXXXXXXXXXXXXXXXXXXXXXX+++++++++......";
"......+++++++++XXXXXXXXXXXXXXXXXXXXXXXXXXXXXXXXXX+++++++++......";
"......+++++++++XXXXXXXXXXXXXXXXXXXXXXXXXXXXXXXXXX+++++++++......";
"......+++++++++XXXXXXXXXXXXXXXXXXXXXXXXXXXXXXXXXX+++++++++......";
"......+++++++++XXXXXXXXXXXXXXXXXXXXXXXXXXXXXXXXXX+++++++++......";
"......+++++++++XXXXXXXXXXXXXXXXXXXXXXXXXXXXXXXXXX+++++++++......";
"......++++++++++++++XXXXXXXXXXXXXXXXXXXXXXXX++++++++++++++......";
"......++++++++++++++++++++++++++++++++++++++++++++++++++++......";
"......++++++++++++++++++++++++++++++++++++++++++++++++++++......";
"............++++++++++++++++++++++++++++++++++++++++............";
"............++++++++++++++++++++++++++++++++++++++++............";
"............++++++++++++++++++++++++++++++++++++++++............";
"............++++++++++++++++++++++++++++++++++++++++............";
"............++++++++++++++++++++++++++++++++++++++++............";
"............++++++++++++++++++++++++++++++++++++++++............";
"................................................................";
"................................................................";
"    ........................................................    ";
"    ........................................................    ";
"    ........................................................    ";
"    ........................................................    "
].
