(* ===== verification/Assets.v ===== *)
(** * Drawing the level: assets/assets_manager.h and assets/assets_manager.c

    The assets manager loads the images of a block and of the player and draws
    the squares of player.c's array with them. *)

From S2P Require Import Prelude Machine Format Geometry Picture Gpu Heap Xpm Demo Rows.
From S2P Require Import Screen Player SpritesLevel Lab5Gpu.

(** [struct BLOCK] and [struct PLAYER]; the pixel map is the block of bytes of
    the image, or [NULL]. *)
Record asset : Type := mkAsset { as_img : xpm_image; as_colors : option (list Z) }.

Definition asset_zero : asset := mkAsset (mkImage XPM_INDEXED 0 0 0 []) None.

(** The statics of the file, the card, and the array of player.c. *)
Record assets : Type := mkAssets {
  block : asset;
  player_sprite : asset;
  as_gpu : gpu;
  as_visible : list text;
}.

Definition loaded (r : bool * xpm_image) : asset :=
  mkAsset r.2 (if r.1 then Some (img_bytes r.2) else None).

Definition assets_manager_init {W} `{XpmLoader W} : drv W assets Z :=
  b ← on_io (oracle (xpm_load block_xpm XPM_INDEXED));
  set_statics (fun a => mkAssets (loaded b) (player_sprite a) (as_gpu a) (as_visible a)) ;;
  p ← on_io (oracle (xpm_load player_xpm XPM_INDEXED));
  set_statics (fun a => mkAssets (block a) (loaded p) (as_gpu a) (as_visible a)) ;;
  mret 0.

Definition on_as_gpu {A} (m : M gpu A) : M assets A :=
  zoom as_gpu (fun g a => mkAssets (block a) (player_sprite a) g (as_visible a)) m.

(** The loops run over the size of the block, whatever [img] is. *)
Definition assets_manager_draw_img (img : xpm_image) (posx posy : Z) (colors : option (list Z))
  : M assets Z :=
  a ← get;
  let height := img_height (as_img (block a)) in
  let width := img_width (as_img (block a)) in
  match colors with
  | None => if (0 <? height) && (0 <? width) then fail NullDeref else mret 0
  | Some colors => on_as_gpu (draw_pixel_rows (Z.to_nat height) 0 posx posy width colors)
  end.

(** ['#'] is 35 and ['p'] is 112. *)
Definition assets_manager_draw_asset (asset posx posy : Z) : M assets Z :=
  a ← get;
  if asset =? 35 then
    r ← assets_manager_draw_img (as_img (block a)) posx posy (as_colors (block a));
    if tst r then mret 1 else mret 0
  else if asset =? 112 then
    r ← assets_manager_draw_img (as_img (player_sprite a)) posx posy (as_colors (player_sprite a));
    if tst r then mret 1 else mret 0
  else mret 0.

(** The squares of a row; [inr r] returns. *)
Definition vis_square (yi xi : Z) : M assets (option Z) :=
  a ← get;
  row ← lift_res (array_get (as_visible a) yi);
  c ← lift_res (array_get row xi);
  r ← assets_manager_draw_asset c (u16 (xi * 64)) (u16 (yi * 64));
  mret (if tst r then Some 1 else None).

(** [for (uint8_t yi = ...; yi >= 0; yi--)]: the condition always holds. *)
Fixpoint vis_rows (fuel : nat) (yi : Z) : M assets Z :=
  match fuel with
  | O => fail OutOfFuel
  | S fuel =>
      if 0 <=? yi then
        r ← for_ret (Z.to_nat vis_xsize) 0 (vis_square yi);
        match r with
        | Some r => mret r
        | None => vis_rows fuel (u8 (yi - 1))
        end
      else mret 0
  end.

Definition assets_manager_draw_player_vis (fuel : nat) : M assets Z :=
  vis_rows fuel (u8 (vis_ysize - 1)).

(** ** Drawing past the end of an image *)

Lemma wpe_draw_pixels_short n ix x y colors g :
  indexed g -> 0 <= x < 65536 -> 0 <= ix -> ix + Z.of_nat n <= 65535 ->
  (length colors < n)%nat -> Forall (fun b => 0 <= b < 256) colors ->
  wpe (draw_pixels n ix x y colors) (fun f => f = OutOfBounds) (fun _ _ => False) g.
Proof.
  intros Hg Hx. revert ix colors g Hg. induction n as [|n IH]; intros ix colors g Hg Hix Hn Hl HF;
    [lia|]. cbn [draw_pixels]. wp_step. apply wpe_wp, wp_int; [unfold INT_MIN, INT_MAX; lia|].
  wp_step. destruct colors as [|c colors]; [done|]. apply Forall_cons in HF as [Hc HF].
  apply wpe_wp. eapply wp_lift_res; [by apply array_get_ok|]. wp_step. apply wpe_wp.
  eapply wp_mono; [apply gpu_draw_pixel_painted; [done|apply u16_range|apply u16_range|done]|].
  intros r g1 [-> Hp1]. change (tst 0) with false. cbn iota.
  change (drop 1 (c :: colors)) with (drop 0 colors). rewrite drop_0.
  apply IH; [by eapply indexed_painted|lia|lia|cbn in Hl; lia|done].
Qed.

Lemma wpe_draw_rows_short n iy x y width colors g :
  indexed g -> 0 <= x < 65536 -> 0 <= y < 65536 -> 0 <= iy -> iy + Z.of_nat n <= 65535 ->
  0 <= width <= 65535 -> Z.of_nat (length colors) < Z.of_nat n * width ->
  Forall (fun b => 0 <= b < 256) colors ->
  wpe (draw_pixel_rows n iy x y width colors) (fun f => f = OutOfBounds) (fun _ _ => False) g.
Proof.
  intros Hg Hx Hy. revert iy colors g Hg. induction n as [|n IH];
    intros iy colors g Hg Hiy Hn Hw Hl HF; cbn [draw_pixel_rows]; [lia|].
  wp_step. apply wpe_wp, wp_int; [unfold INT_MIN, INT_MAX; lia|]. wp_step.
  destruct (Nat.lt_ge_cases (length colors) (Z.to_nat width)) as [Hs|Hs].
  { eapply wpe_mono; [apply wpe_draw_pixels_short; (done || lia)|]. done. }
  apply wpe_wp. eapply wp_mono; [apply draw_pixels_painted; [done|lia|lia|lia|done|done]|].
  intros r g1 [-> Hp1]. cbn iota.
  apply IH; [by eapply indexed_painted|lia|lia|done| |by apply Forall_drop].
  rewrite length_drop. nia.
Qed.

(** ** The loaded images *)

Lemma level_dims : xpm_dims block_xpm = Some (64, 128, 4) /\ xpm_dims player_xpm = Some (64, 64, 6).
Proof. by vm_compute. Qed.

(** An asset of [w] by [h] pixels. *)
Definition holds_image (w h : Z) (s : asset) : Prop :=
  as_colors s = Some (img_bytes (as_img s)) /\ image_ok (as_img s) /\
  img_width (as_img s) = w /\ img_height (as_img s) = h.

Definition ready (a : assets) : Prop :=
  indexed (as_gpu a) /\ holds_image 64 128 (block a) /\ holds_image 64 64 (player_sprite a).

Definition put_as_gpu (g : gpu) (a : assets) : assets :=
  mkAssets (block a) (player_sprite a) g (as_visible a).

Section Init.
Context {W : Type} `{XpmLoader W, !XpmLaws W, !Loads W block_xpm, !Loads W player_xpm}.

Lemma loaded_holds xpm `{!Loads W xpm} wd ht n w r w' :
  xpm_dims xpm = Some (wd, ht, n) -> xpm_load xpm XPM_INDEXED w = (r, w') ->
  holds_image wd ht (loaded r).
Proof.
  intros Hd E. destruct r as [ok img]. destruct (loads _ _ _ _ E) as [-> Hi].
  destruct (xpm_load_info _ _ _ _ _ _ _ E Hd) as (_ & Hw & Hh & _). done.
Qed.

Lemma wp_assets_manager_init a (io : iost W) :
  wp assets_manager_init (fun r st => r = 0 /\ as_gpu st.1 = as_gpu a /\
    as_visible st.1 = as_visible a /\ holds_image 64 128 (block st.1) /\
    holds_image 64 64 (player_sprite st.1)) (a, io).
Proof.
  unfold assets_manager_init, set_statics. wp_step. unfold on_io at 1. apply wp_zoom, wp_oracle.
  intros b w Eb. cbn [fst snd] in *. wp_step. wp_step. wp_step. unfold on_io. apply wp_zoom, wp_oracle.
  intros p w2 Ep. cbn [fst snd] in *. wp_step. wp_step. wp_step.
  split; [done|]. split; [done|]. split; [done|]. cbn [fst block player_sprite].
  split; [exact (loaded_holds block_xpm _ _ _ _ _ _ (proj1 level_dims) Eb)|].
  exact (loaded_holds player_xpm _ _ _ _ _ _ (proj2 level_dims) Ep).
Qed.
End Init.

(** ** Drawing the squares *)

Lemma image_in_rows g x y (img : xpm_image) :
  indexed g -> 0 <= x < 65536 -> 0 <= y < 65536 -> image_ok img ->
  wp (draw_pixel_rows (Z.to_nat (img_height img)) 0 x y (img_width img) (img_bytes img))
    (fun r g' => r = 0 /\ painted (image_picture img x y) g g') g.
Proof.
  intros Hg Hx Hy (Hw & Hh & Hl & HF).
  eapply wp_mono; [apply draw_pixel_rows_painted; (done || lia)|].
  intros r g' [-> Hp]. split; [done|]. eapply painted_ext; [exact Hp|]. intros px py _.
  unfold rows_at, image_picture, wrapped. rewrite Z.add_0_l, Z2Nat.id, Z.sub_0_r by lia.
  pose proof (u16_range (py - y)). repeat case_decide; (done || lia).
Qed.

Lemma wp_draw_block x y a :
  ready a -> 0 <= x < 65536 -> 0 <= y < 65536 ->
  wp (assets_manager_draw_asset 35 x y) (fun r a' => r = 0 /\ exists g',
    a' = put_as_gpu g' a /\ painted (image_picture (as_img (block a)) x y) (as_gpu a) g') a.
Proof.
  intros (Hg & (Hc & Hi & Hw & Hh) & _) Hx Hy. unfold assets_manager_draw_asset. wp_step. wp_step.
  change (35 =? 35) with true. cbn iota. wp_step. unfold assets_manager_draw_img. wp_step. wp_step.
  rewrite Hc. unfold on_as_gpu. apply wp_zoom.
  eapply wp_mono; [by apply image_in_rows|]. intros r g' [-> Hp]. change (tst 0) with false.
  cbn iota. wp_step. split; [done|]. by exists g'.
Qed.

(** The player's image is half as high as the block. *)
Lemma wpe_draw_player x y a :
  ready a -> 0 <= x < 65536 -> 0 <= y < 65536 ->
  wpe (assets_manager_draw_asset 112 x y) (fun f => f = OutOfBounds) (fun _ _ => False) a.
Proof.
  intros (Hg & (_ & _ & Hw & Hh) & (Hc & (_ & _ & Hl & HF) & Hw' & Hh')) Hx Hy.
  unfold assets_manager_draw_asset. wp_step. wp_step.
  change (112 =? 35) with false. change (112 =? 112) with true. cbn iota. wp_step.
  unfold assets_manager_draw_img. wp_step. wp_step. rewrite Hc, Hw, Hh.
  unfold on_as_gpu. apply wpe_zoom. eapply wpe_mono.
  { apply wpe_draw_rows_short; [done|done|done|lia|lia|lia| |exact HF].
    rewrite Hl, Hw', Hh'. lia. }
  done.
Qed.

Lemma draw_other c x y a : c <> 35 -> c <> 112 -> assets_manager_draw_asset c x y a = Ok (0, a).
Proof.
  intros H1 H2. unfold assets_manager_draw_asset, get, mbind, M_bind.
  by rewrite (proj2 (Z.eqb_neq c 35)), (proj2 (Z.eqb_neq c 112)) by done.
Qed.

Lemma wpe_draw_asset c x y a :
  ready a -> 0 <= x < 65536 -> 0 <= y < 65536 ->
  wpe (assets_manager_draw_asset c x y) (fun f => f = OutOfBounds)
    (fun r a' => r = 0 /\ ready a' /\ as_visible a' = as_visible a) a.
Proof.
  intros Ha Hx Hy. destruct (decide (c = 35)) as [->|H1].
  { apply wpe_wp. eapply wp_mono; [by apply wp_draw_block|]. intros r a' (-> & g' & -> & Hp).
    destruct Ha as [Hg Ha]. split; [done|]. split; [|done]. split; [by eapply indexed_painted|done]. }
  destruct (decide (c = 112)) as [->|H2].
  { eapply wpe_mono; [by apply wpe_draw_player|]. done. }
  apply wpe_wp. eapply run_wp; [by apply draw_other|]. done.
Qed.

(** A row of the array is drawn, or something is read past an image. *)
Lemma wpe_vis_row yi a :
  ready a -> rect 18 14 (as_visible a) -> 0 <= yi < 14 ->
  wpe (for_ret (Z.to_nat vis_xsize) 0 (vis_square yi)) (fun f => f = OutOfBounds)
    (fun r a' => r = None /\ ready a' /\ as_visible a' = as_visible a) a.
Proof.
  intros Ha Hv Hyi.
  assert (forall n i a1, ready a1 -> as_visible a1 = as_visible a -> 0 <= i -> i + Z.of_nat n <= 18 ->
    wpe (for_ret n i (vis_square yi)) (fun f => f = OutOfBounds)
      (fun r a' => r = None /\ ready a' /\ as_visible a' = as_visible a) a1) as Hn.
  { induction n as [|n IH]; intros i a1 Ha1 Ev Hi Hle; cbn [for_ret]; [by wp_step|].
    wp_step. unfold vis_square. wp_step. wp_step. rewrite Ev.
    destruct (proj2 (rect_cell _ _ _ yi i Hv)) as [c Hc]; [lia|]. unfold cell in Hc.
    rewrite decide_True in Hc by lia. destruct (as_visible a !! Z.to_nat yi) as [row|] eqn:Er; [|done].
    cbn in Hc. wp_step. apply wpe_wp. eapply wp_lift_res; [apply array_get_ok; [lia|exact Er]|].
    wp_step. apply wpe_wp. eapply wp_lift_res; [apply array_get_ok; [lia|exact Hc]|].
    wp_step. eapply wpe_mono; [apply wpe_draw_asset; [done|apply u16_range..]|].
    intros r a2 (-> & Ha2 & Ev2). change (tst 0) with false. cbn iota. wp_step.
    apply IH; [done|congruence|lia|lia]. }
  apply Hn; [done|done|lia|done].
Qed.

Lemma vis_row_255 a : rect 18 14 (as_visible a) -> vis_square 255 0 a = Fault OutOfBounds.
Proof.
  intros [Hl _]. unfold vis_square, get, mbind, M_bind, lift_res, array_get.
  change (255 <? 0) with false. cbn iota. by rewrite lookup_ge_None_2 by lia.
Qed.

(** Every row is drawn, then row 255 is asked for. *)
Lemma wpe_vis_rows fuel yi a :
  ready a -> rect 18 14 (as_visible a) -> 0 <= yi < 14 ->
  wpe (vis_rows fuel yi)
    (fun f => f = OutOfBounds \/ (f = OutOfFuel /\ Z.of_nat fuel < yi + 2)) (fun _ _ => False) a.
Proof.
  revert yi a. induction fuel as [|fuel IH]; intros yi a Ha Hv Hyi; cbn [vis_rows].
  { apply wpe_fail. right. split; [done|lia]. }
  destruct (Z.leb_spec 0 yi); [|lia]. wp_step. eapply wpe_mono.
  { eapply (wpe_weaken (fun f => f = OutOfBounds)); [by auto|]. by apply wpe_vis_row. }
  intros r a' (-> & Ha' & Ev). destruct (decide (yi = 0)) as [->|Hne].
  - change (u8 (0 - 1)) with 255. destruct fuel as [|fuel].
    { apply wpe_fail. right. split; [done|lia]. }
    cbn [vis_rows]. change (0 <=? 255) with true. cbn iota.
    change (Z.to_nat vis_xsize) with 18%nat. cbn [for_ret]. do 2 wp_step. unfold wpe at 1.
    rewrite vis_row_255 by (by rewrite Ev). by left.
  - rewrite u8_id by lia. eapply wpe_weaken; [|apply IH; [done|by rewrite Ev|lia]].
    intros f [->|[-> Hf]]; [by left|right; split; [done|lia]].
Qed.

(** ** Contracts *)

Section Contracts.
Context {W : Type} `{XpmLoader W, !XpmLaws W, !Loads W block_xpm, !Loads W player_xpm}.

(** C28: after [assets_manager_init], on a machine whose loader makes images of
    the sizes the XPM headers say, the square ['#'] paints the image of the
    block at the position asked for, wrapping around, and answers 0; any other
    square but ['p'] paints nothing; and ['p'] reads past the end of the
    player's image wherever it is drawn, because the loops have the size of the
    block. *)
Theorem assets_manager_draws (a : assets) (io : iost W) :
  indexed (as_gpu a) ->
  exists a1 io1, assets_manager_init (a, io) = Ok (0, (a1, io1)) /\ as_gpu a1 = as_gpu a /\
    let img := as_img (block a1) in
    img_width img = 64 /\ img_height img = 128 /\
    forall x y, 0 <= x < 65536 -> 0 <= y < 65536 ->
      (exists g, assets_manager_draw_asset 35 x y a1 = Ok (0, put_as_gpu g a1) /\
         painted (image_picture img x y) (as_gpu a1) g) /\
      assets_manager_draw_asset 112 x y a1 = Fault OutOfBounds /\
      forall c, c <> 35 -> c <> 112 -> assets_manager_draw_asset c x y a1 = Ok (0, a1).
Proof.
  intros Hg. destruct (wp_run _ _ _ (wp_assets_manager_init a io))
    as (r & [a1 io1] & E & -> & Eg & _ & Hb & Hp). cbn [fst] in *.
  exists a1, io1. split; [exact E|]. split; [exact Eg|]. split; [apply Hb|]. split; [apply Hb|].
  assert (ready a1) as Ha by (by split; [rewrite Eg|]). intros x y Hx Hy. split; [|split].
  - destruct (wp_run _ _ _ (wp_draw_block x y a1 Ha Hx Hy)) as (r & a2 & E2 & -> & g & -> & Hpic).
    by exists g.
  - pose proof (wpe_draw_player x y a1 Ha Hx Hy) as Hw. unfold wpe in Hw.
    by destruct (assets_manager_draw_asset 112 x y a1) as [[]|f]; subst.
  - intros c. apply draw_other.
Qed.

(** C29: [assets_manager_draw_player_vis] never returns, whatever the squares of
    the array are: its row counter is unsigned, so that after row 0 it goes on
    with row 255, which is not in the array.  Fifteen rounds are enough to get
    there, or to read past the end of the player's image before. *)
Theorem assets_manager_draw_player_vis_faults fuel (a : assets) (io : iost W) :
  indexed (as_gpu a) -> rect 18 14 (as_visible a) -> (15 <= fuel)%nat ->
  exists a1 io1, assets_manager_init (a, io) = Ok (0, (a1, io1)) /\
    assets_manager_draw_player_vis fuel a1 = Fault OutOfBounds.
Proof.
  intros Hg Hv Hf. destruct (wp_run _ _ _ (wp_assets_manager_init a io))
    as (r & [a1 io1] & E & -> & Eg & Ev & Hb & Hp). cbn [fst] in *.
  exists a1, io1. split; [exact E|].
  assert (ready a1) as Ha by (by split; [rewrite Eg|]).
  pose proof (wpe_vis_rows fuel 13 a1 Ha ltac:(by rewrite Ev) ltac:(lia)) as Hw.
  unfold assets_manager_draw_player_vis. change (u8 (vis_ysize - 1)) with 13. unfold wpe in Hw.
  destruct (vis_rows fuel 13 a1) as [[]|f]; [done|]. destruct Hw as [->|[_ Hlt]]; [done|lia].
Qed.
End Contracts.

(** ** Concrete runs *)

#[export] Instance demo_loads_block {W} : Loads (roomy W) block_xpm.
Proof. by eapply demo_loads_xpm; [apply level_dims|..]. Qed.
#[export] Instance demo_loads_player {W} : Loads (roomy W) player_xpm.
Proof. by eapply demo_loads_xpm; [apply level_dims|..]. Qed.

Definition demo_assets : assets := mkAssets asset_zero asset_zero tiny_gpu visible_zero.
Definition demo_world : iost (demo unit) := demo_io (mkScript [] [] [] [] [] []) tt.

Lemma assets_manager_draws_witness :
  exists a1 io1, assets_manager_init (demo_assets, demo_world) = Ok (0, (a1, io1)) /\
    (exists g, assets_manager_draw_asset 35 1 1 a1 = Ok (0, put_as_gpu g a1)) /\
    assets_manager_draw_asset 112 0 0 a1 = Fault OutOfBounds.
Proof.
  destruct (assets_manager_draws demo_assets demo_world tiny_indexed)
    as (a1 & io1 & E & _ & _ & _ & Hd).
  exists a1, io1. split; [exact E|]. split.
  - destruct (Hd 1 1) as ((g & Eg & _) & _); [lia..|]. by exists g.
  - by destruct (Hd 0 0) as (_ & Ep & _); [lia..|].
Defined.

Lemma assets_manager_draw_player_vis_faults_witness :
  exists a1 io1, assets_manager_init (demo_assets, demo_world) = Ok (0, (a1, io1)) /\
    assets_manager_draw_player_vis 15 a1 = Fault OutOfBounds.
Proof.
  apply (assets_manager_draw_player_vis_faults 15 demo_assets demo_world);
    [apply tiny_indexed| |done].
  split; [done|]. apply Forall_replicate. done.
Defined.
