(* ===== verification/Types.v ===== *)
(** * Types: every static variable keeps a value of its C type

    The model has [Z] for every C integer.  [Typed] says of a record that each
    of its fields holds a value of its C type (and each byte buffer holds
    bytes); [keeps m P] that a computation from a typed state can only end in
    a typed state, with an answer in [P].  A rule per construct of the monad
    and a lemma per function, in the hint database [types], make the theorem
    of TypesApp.v.  This file has the records, what is assumed of the devices
    ([DeviceTypes]), the rules and the drivers. *)

From S2P Require Import Prelude Machine Kbc Keyboard MouseDrv Timer Format Rtc Leaderboard.
From S2P Require Import Geometry Gpu Heap LinkedList Sprite SpritesUi SpritesAlphabet Xpm UiElement.
From S2P Require Import Menu Gamestate KeyboardManager MouseManager Demo Ipc Proj.

Class Typed (A : Type) : Type := typed : A -> Prop.

(** ** Widths *)

Definition is_u8 (z : Z) : Prop := 0 <= z < 256.
Definition is_u16 (z : Z) : Prop := 0 <= z < 65536.
Definition is_u32 (z : Z) : Prop := 0 <= z < 4294967296.
Definition is_i16 (z : Z) : Prop := -32768 <= z < 32768.
Definition is_int (z : Z) : Prop := INT_MIN <= z <= INT_MAX.
Definition is_bytes (bs : list Z) : Prop := Forall is_u8 bs.

Create HintDb types.

Lemma typed_u8 z : is_u8 (u8 z).
Proof. apply u8_range. Qed.
Lemma typed_u16 z : is_u16 (u16 z).
Proof. apply u16_range. Qed.
Lemma typed_u32 z : is_u32 (u32 z).
Proof. apply u32_range. Qed.
Lemma typed_i16 z : is_i16 (i16 z).
Proof. apply i16_range. Qed.

#[export] Hint Resolve typed_u8 typed_u16 typed_u32 typed_i16 : types.

(** ** The records *)

#[export] Instance typed_pair {A B} `{Typed A, Typed B} : Typed (A * B) :=
  fun p => typed p.1 /\ typed p.2.
(** The machine is not the program's. *)
#[export] Instance typed_iost {W} : Typed (iost W) := fun _ => True.
#[export] Instance typed_store {A} `{Typed A} : Typed (store A) :=
  fun h => forall p a, cells h !! p = Some a -> typed a.

#[export] Instance typed_kbd : Typed kbd_statics := fun k =>
  is_int (kbd_hook_id k) /\ is_u8 (scan_code k).
#[export] Instance typed_timer : Typed timer_statics := fun t =>
  is_int (timer_hook_id t) /\ is_u32 (timer_counter t).

Definition is_bytes3 (b : Z * Z * Z) : Prop := is_u8 b.1.1 /\ is_u8 b.1.2 /\ is_u8 b.2.
#[export] Instance typed_packet : Typed packet := fun p =>
  is_bytes3 (pk_bytes p) /\ is_i16 (delta_x p) /\ is_i16 (delta_y p).
#[export] Instance typed_mouse_drv : Typed mouse_statics := fun m =>
  is_u8 (current_byte_index m) /\ is_u8 (current_byte m) /\ is_bytes3 (bytes m) /\
  typed (last_packet m) /\ is_int (mouse_hook_id m).

#[export] Instance typed_vec2 : Typed vec2 := fun v => is_int (vx v) /\ is_int (vy v).
#[export] Instance typed_aabb : Typed aabb := fun b => typed (position b) /\ typed (size b).
#[export] Instance typed_image : Typed xpm_image := fun i =>
  is_u16 (img_width i) /\ is_u16 (img_height i) /\ is_u32 (img_size i) /\ is_bytes (img_bytes i).

Definition is_mask (m : Z * Z) : Prop := is_u8 m.1 /\ is_u8 m.2.
#[export] Instance typed_gpu : Typed gpu := fun g =>
  (is_u16 (x_res g) /\ is_u16 (y_res g)) /\ (is_u8 (bits_per_pixel g) /\ is_u8 (bytes_per_pixel g)) /\
  (is_mask (red_mask g) /\ is_mask (green_mask g) /\ is_mask (blue_mask g)) /\
  (is_u8 (color_mode g) /\ is_u32 (mem_range g).1 /\ is_u32 (mem_range g).2 /\ is_u32 (vram_size g)) /\
  is_bytes (video_mem g) /\ is_bytes (backbuffer g).

#[export] Instance typed_sprite : Typed Sprite := fun s =>
  (forall i, img s = Some i -> typed i) /\ Forall typed (offsets s) /\ Forall typed (sizes s) /\
  is_u32 (framesc s) /\ is_u32 (delay s) /\ is_u32 (current_frame s) /\ is_u32 (current_delay s).
#[export] Instance typed_gfx : Typed gfx := fun g => typed (gfx_gpu g) /\ typed (gfx_sprites g).

#[export] Instance typed_element : Typed ui_element := fun e => typed (bounds e).
(** Nodes, menus and the game state hold pointers only, and a constant; a pointer
    is an address of the model's heap, which is no integer of the program. *)
#[export] Instance typed_node : Typed Node := fun _ => True.
#[export] Instance typed_menu : Typed Menu := fun _ => True.
#[export] Instance typed_ui : Typed ui := fun u =>
  typed (ui_gfx u) /\ typed (ui_elements u) /\ typed (ui_nodes u) /\ typed (ui_menus u).
#[export] Instance typed_gamestate : Typed gamestate := fun g => is_int (level g).
#[export] Instance typed_front : Typed front := fun f => typed (fr_ui f) /\ typed (fr_game f).

#[export] Instance typed_Mouse : Typed Mouse := fun m =>
  typed (mouse_position m) /\ length (buttons m) = 3%nat /\ length (prev_buttons m) = 3%nat.
#[export] Instance typed_cursor : Typed cursor := fun c =>
  typed (cu_front c) /\ typed (cu_mouse c) /\ typed (cu_packet c) /\ typed (cu_driver c).
#[export] Instance typed_keys : Typed keyboard_state := fun k => length (keys k) = 20%nat.
#[export] Instance typed_app : Typed app := fun a =>
  typed (ap_cursor a) /\ typed (ap_keys a) /\ typed (ap_kbd a) /\ typed (ap_timer a) /\
  is_u8 (timer_bit_no a) /\ is_u8 (kbc_bit_no a) /\ is_u8 (mouse_bit_no a).

(** ** What the devices write

    The fields of the VBE block, the hook number that a subscription stores, the
    mapped memory and the loaded images have the types of their headers. *)

Definition vbe_typed (v : vbe_mode_info) : Prop :=
  is_u16 (XResolution v) /\ is_u16 (YResolution v) /\ is_u8 (BitsPerPixel v) /\
  is_mask (RedMaskSize v, RedFieldPosition v) /\
  is_mask (GreenMaskSize v, GreenFieldPosition v) /\
  is_mask (BlueMaskSize v, BlueFieldPosition v).

Class DeviceTypes (W : Type) `{Machine W, Video W, XpmLoader W} : Prop := {
  hook_typed irq policy hook w r hook' w' :
    dev_irqsetpolicy irq policy hook w = ((r, hook'), w') -> is_int hook';
  mode_info_typed mode w r vmi w' : video_mode_info mode w = ((r, vmi), w') -> vbe_typed vmi;
  map_typed base n w vm w' : video_map base n w = (Some vm, w') -> is_bytes vm;
  xpm_typed map ty w ok image w' : xpm_load map ty w = ((ok, image), w') -> typed image;
}.

(** ** The rules *)

Definition keeps {S A} `{Typed S} (m : M S A) (P : A -> Prop) : Prop :=
  forall s, typed s -> match m s with Ok (a, s') => P a /\ typed s' | Fault _ => True end.

Definition any {A} (_ : A) : Prop := True.

Section Rules.
Context {S : Type} `{Typed S}.

Lemma keeps_ret {A} (a : A) (P : A -> Prop) : P a -> keeps (mret a : M S A) P.
Proof. intros HP s Hs. by split. Qed.

Lemma keeps_bind {A B} (m : M S A) (k : A -> M S B) (P : A -> Prop) (Q : B -> Prop) :
  keeps m P -> (forall a, P a -> keeps (k a) Q) -> keeps (m ≫= k) Q.
Proof.
  intros Hm Hk s Hs. unfold mbind, M_bind. specialize (Hm s Hs).
  destruct (m s) as [[a s']|f]; [|done]. destruct Hm as [Ha Hs']. by apply Hk.
Qed.

Lemma keeps_mono {A} (m : M S A) (P Q : A -> Prop) :
  keeps m P -> (forall a, P a -> Q a) -> keeps m Q.
Proof.
  intros Hm HPQ s Hs. specialize (Hm s Hs). destruct (m s) as [[a s']|f]; [|done].
  destruct Hm. auto.
Qed.

Lemma keeps_any {A} (m : M S A) (P : A -> Prop) : keeps m P -> keeps m any.
Proof. intros Hm. by eapply keeps_mono. Qed.

Lemma keeps_fail {A} f (P : A -> Prop) : keeps (fail f : M S A) P.
Proof. by intros s Hs. Qed.

Lemma keeps_get : keeps (get : M S S) typed.
Proof. by intros s Hs. Qed.

Lemma keeps_gets {A} (p : S -> A) (P : A -> Prop) :
  (forall s, typed s -> P (p s)) -> keeps (gets p) P.
Proof. intros Hp s Hs. split; [by apply Hp|done]. Qed.

Lemma keeps_put s : typed s -> keeps (put s) any.
Proof. by intros Hs s' _. Qed.

Lemma keeps_modify f : (forall s, typed s -> typed (f s)) -> keeps (modify f) any.
Proof. intros Hf s Hs. split; [done|]. by apply Hf. Qed.

Lemma keeps_lift_res {A} (r : res A) (P : A -> Prop) :
  (forall a, r = Ok a -> P a) -> keeps (lift_res r : M S A) P.
Proof. intros Hr s Hs. unfold lift_res. destruct r; [|done]. split; [by apply Hr|done]. Qed.

Lemma keeps_int z : keeps (int z : M S Z) is_int.
Proof.
  unfold int, fits_int. destruct (_ && _) eqn:E; [|apply keeps_fail].
  apply keeps_ret. apply andb_prop in E as [?%Z.leb_le ?%Z.leb_le]. by split.
Qed.

Lemma keeps_zoom {C A} `{Typed C} (gt : S -> C) (st : C -> S -> S) (m : M C A) P :
  keeps m P -> (forall s, typed s -> typed (gt s)) ->
  (forall c s, typed s -> typed c -> typed (st c s)) -> keeps (zoom gt st m) P.
Proof.
  intros Hm Hg Hst s Hs. unfold zoom. specialize (Hm (gt s) (Hg s Hs)).
  destruct (m (gt s)) as [[a c]|f]; [|done]. destruct Hm as [Ha Hc]. auto.
Qed.

Lemma keeps_for_up n i (body : Z -> M S unit) :
  (forall j, keeps (body j) any) -> keeps (for_up n i body) any.
Proof.
  intros Hb. revert i. induction n as [|n IH]; intros i; cbn [for_up]; [by apply keeps_ret|].
  eapply keeps_bind; [apply Hb|]. by intros [] _.
Qed.

Lemma keeps_if {A} (b : bool) (m1 m2 : M S A) P :
  (b = true -> keeps m1 P) -> (b = false -> keeps m2 P) -> keeps (if b then m1 else m2) P.
Proof. destruct b; auto. Qed.
End Rules.

Section MachineRules.
Context {W X : Type} `{Typed X}.

Lemma keeps_oracle {A} (step : W -> A * W) (P : A -> Prop) :
  (forall w a w', step w = (a, w') -> P a) -> keeps (oracle step : io W A) P.
Proof.
  intros Hs s _. unfold oracle. destruct (step (io_world s)) as [a w] eqn:E.
  split; [by eapply Hs|done].
Qed.

Lemma keeps_answer {A} (ev : A -> io_event) (step : W -> A * W) (P : A -> Prop) :
  (forall w a w', step w = (a, w') -> P a) -> keeps (emit ev step : io W A) P.
Proof.
  intros Hs s _. unfold emit. destruct (step (io_world s)) as [a w] eqn:E.
  split; [by eapply Hs|done].
Qed.

Lemma keeps_emit {A} (ev : A -> io_event) (step : W -> A * W) :
  keeps (emit ev step : io W A) any.
Proof. by apply keeps_answer. Qed.

Lemma keeps_on_io {A} (m : io W A) P : keeps m P -> keeps (on_io m : drv W X A) P.
Proof. intros Hm. apply keeps_zoom; [done|done|]. by intros c [x io] [Hx _] _. Qed.

Lemma keeps_on_statics {A} (m : M X A) P : keeps m P -> keeps (on_statics m : drv W X A) P.
Proof. intros Hm. apply keeps_zoom; [done|by intros s []|]. by intros c [x io] [_ _] Hc. Qed.

Lemma keeps_statics : keeps (statics : drv W X X) typed.
Proof. intros [x io] [Hx Hio]. by split. Qed.

Lemma keeps_set_statics (f : X -> X) :
  (forall x, typed x -> typed (f x)) -> keeps (set_statics f : drv W X unit) any.
Proof. intros Hf [x io] [Hx Hio]. split; [done|]. split; [by apply Hf|done]. Qed.
End MachineRules.

#[export] Hint Resolve keeps_emit keeps_fail keeps_int keeps_get keeps_statics : types.

(** One construct of the monad; what is left are facts about values, and calls
    with a lemma of their own in [types]. *)
Ltac ty_step :=
  lazymatch goal with
  | |- keeps (mbind _ _) _ => eapply keeps_bind
  | |- keeps (mret _) _ => apply keeps_ret
  | |- keeps (fail _) _ => apply keeps_fail
  | |- keeps (if _ then _ else _) _ => apply keeps_if; intros ?
  | |- keeps (match ?x with _ => _ end) _ => destruct x
  | |- keeps (on_io _) _ => apply keeps_on_io
  | |- keeps (on_statics _) _ => apply keeps_on_statics
  | |- keeps (lib_call _ _) _ => apply keeps_emit
  | |- keeps (for_up _ _ _) _ => apply keeps_for_up; intros ?
  | |- keeps _ _ => solve [eauto with types]
  | |- forall a, ?P a -> keeps _ _ => intros ? ?
  | |- any _ => exact I
  | |- True => exact I
  end; cbn beta iota in *.
Ltac ty := repeat ty_step.

(** ** The drivers *)

(** A status and a byte that is one. *)
Definition byte_out (p : Z * Z) : Prop := is_u8 p.2.

Section Drivers.
Context {W : Type} `{Machine W}.

Lemma keeps_sys_inb port : keeps (sys_inb port : io W _) any.
Proof. apply keeps_emit. Qed.
Lemma keeps_sys_outb port v : keeps (sys_outb port v : io W _) any.
Proof. apply keeps_emit. Qed.
Lemma keeps_sys_irqsetpolicy `{Video W, XpmLoader W, !DeviceTypes W} irq policy hook :
  keeps (sys_irqsetpolicy irq policy hook : io W _) (fun p => is_int p.2).
Proof. apply keeps_answer. intros w [r h] w' E. by eapply hook_typed. Qed.
Lemma keeps_sys_irqrmpolicy hook : keeps (sys_irqrmpolicy hook : io W _) any.
Proof. apply keeps_emit. Qed.
Lemma keeps_lib_call name args : keeps (lib_call name args : io W _) any.
Proof. apply keeps_emit. Qed.
Lemma keeps_bit_int {S} `{Typed S} n : keeps (bit_int n : M S Z) any.
Proof. unfold bit_int. apply keeps_if; intros _; [by apply keeps_ret|apply keeps_fail]. Qed.

Lemma keeps_util_sys_inb port v : is_u8 v -> keeps (util_sys_inb port v : io W _) byte_out.
Proof.
  intros Hv. unfold util_sys_inb. eapply keeps_bind; [apply keeps_sys_inb|].
  intros [r val] _. ty; [done|apply typed_u8].
Qed.

Lemma keeps_kbc_read_status v : is_u8 v -> keeps (kbc_read_status v : io W _) byte_out.
Proof.
  intros Hv. unfold kbc_read_status. eapply keeps_bind; [by apply keeps_util_sys_inb|].
  intros [r s] Hs. ty; exact Hs.
Qed.

Lemma keeps_delay : keeps (Kbc.delay : io W unit) any.
Proof.
  unfold Kbc.delay, micros_to_ticks, tickdelay. ty. by apply (keeps_oracle _ any).
Qed.

Lemma keeps_junk : keeps (indeterminate : io W Z) any.
Proof. by apply keeps_oracle. Qed.

Lemma keeps_malloc_ok : keeps (malloc_ok : io W bool) any.
Proof. by apply keeps_oracle. Qed.
End Drivers.

#[export] Hint Resolve keeps_sys_inb keeps_sys_outb keeps_sys_irqrmpolicy
  keeps_lib_call keeps_bit_int : types.
#[export] Hint Resolve keeps_util_sys_inb keeps_kbc_read_status keeps_delay keeps_junk
  keeps_malloc_ok : types.

Section Controller.
Context {W : Type} `{Machine W}.

Lemma keeps_outbuff_loop n status data mouse :
  is_u8 status -> is_u8 data ->
  keeps (kbc_read_outbuff_loop n status data mouse : io W _) byte_out.
Proof.
  revert status data. induction n as [|n IH]; intros status data Hs Hd; cbn [kbc_read_outbuff_loop];
    [by apply keeps_ret|].
  eapply keeps_bind; [by apply keeps_kbc_read_status|]. intros [r st] Hst.
  change (is_u8 st) in Hst.
  assert (keeps (Kbc.delay ;; kbc_read_outbuff_loop n st data mouse : io W _) byte_out) as Hagain
    by (ty; auto).
  do 3 (apply keeps_if; intros _; [done|]).
  apply keeps_if; intros _; [|done].
  eapply keeps_bind; [by apply keeps_util_sys_inb|]. intros [r2 d] Hd'. change (is_u8 d) in Hd'.
  apply keeps_if; intros _; [ty; auto|]. ty; done.
Qed.

Lemma keeps_kbc_read_outbuff data mouse :
  is_u8 data -> keeps (kbc_read_outbuff data mouse : io W _) byte_out.
Proof.
  intros Hd. unfold kbc_read_outbuff. ty. apply keeps_outbuff_loop; [apply typed_u8|done].
Qed.

Lemma keeps_kbc_write port command : keeps (kbc_write port command : io W Z) any.
Proof.
  unfold kbc_write. ty. generalize (Z.to_nat MAX_ATTEMPTS). intros n.
  assert (is_u8 (u8 a)) as Hs by apply typed_u8. revert Hs. generalize (u8 a).
  induction n as [|n IH]; intros st Hs; cbn [kbc_write_loop]; [by apply keeps_ret|].
  eapply keeps_bind; [by apply keeps_kbc_read_status|]. intros [r st'] Hst. ty; auto.
Qed.
End Controller.

#[export] Hint Resolve keeps_kbc_read_outbuff keeps_kbc_write : types.

Section Keys.
Context {W : Type} `{Machine W}.

Lemma keeps_keyboard_read_scancode v :
  is_u8 v -> keeps (keyboard_read_scancode v : io W _) byte_out.
Proof.
  intros Hv. unfold keyboard_read_scancode. eapply keeps_bind; [apply keeps_junk|]. intros junk _.
  eapply keeps_bind; [apply keeps_kbc_read_status, typed_u8|]. intros [r st] _.
  do 3 (apply keeps_if; intros _; [by apply keeps_ret|]).
  eapply keeps_bind; [by apply keeps_kbc_read_outbuff|]. intros [r2 c] Hc. ty; done.
Qed.

Lemma keeps_keyboard_unsubscribe : keeps (keyboard_unsubscribe : drv W _ _) any.
Proof. unfold keyboard_unsubscribe. ty. Qed.

Lemma keeps_timer_unsubscribe : keeps (timer_unsubscribe : drv W _ _) any.
Proof. unfold timer_unsubscribe. ty. Qed.

Lemma keeps_mouse_unsubscribe : keeps (mouse_unsubscribe : drv W _ _) any.
Proof. unfold mouse_unsubscribe. ty. Qed.

Lemma keeps_mouse_write_command command : keeps (mouse_write_command command : io W _) any.
Proof.
  unfold mouse_write_command. eapply keeps_bind; [apply keeps_junk|]. intros junk _.
  generalize (Z.to_nat MAX_ATTEMPTS). intros n. assert (is_u8 (u8 junk)) as Hj by apply typed_u8.
  revert Hj. generalize (u8 junk). induction n as [|n IH]; intros aknl Ha;
    cbn [mouse_write_command_loop]; [by apply keeps_ret|].
  ty; auto.
Qed.

Lemma typed_assemble m : typed m -> typed (assemble m).
Proof.
  intros (H1 & H2 & H3 & H4). unfold assemble. destruct (bytes m) as [[b0 b1] b2] eqn:E.
  destruct H3 as (H5 & H6 & H7). cbn [fst snd] in *.
  repeat case_match; (split; [first [apply typed_u8|exact H1|by split]|]); rewrite ?E; done.
Qed.

Lemma typed_decode b : is_bytes3 b -> typed (decode b).
Proof. intros Hb. destruct b as [[b0 b1] b2]. split; [exact Hb|]. split; apply typed_i16. Qed.

Lemma keeps_mouse_read_packet : keeps (mouse_read_packet : drv W _ _) any.
Proof.
  unfold mouse_read_packet. eapply keeps_bind; [apply keeps_statics|]. intros m Hm.
  eapply keeps_bind; [apply keeps_on_io, keeps_kbc_read_outbuff, Hm|]. intros [r b] Hb.
  eapply keeps_bind.
  { apply keeps_set_statics. intros m' (H1 & _ & H3). by split; [|split]. }
  intros [] _. ty. apply keeps_set_statics, typed_assemble.
Qed.

Lemma keeps_mouse_get_packet p :
  typed p -> keeps (mouse_get_packet p : drv W _ _) (fun q => typed q.2).
Proof.
  intros Hp. unfold mouse_get_packet. eapply keeps_bind; [apply keeps_statics|]. intros m Hm.
  apply keeps_if; intros _; [by apply keeps_ret|].
  assert (typed (decode (bytes m))) as Hd by (apply typed_decode, Hm).
  eapply keeps_bind; [|intros [] _; by apply keeps_ret].
  apply keeps_set_statics. intros m' (H1 & H2 & H3 & _ & H5). by repeat (split; [done|]).
Qed.

Lemma keeps_Keyboard_handle : keeps (Keyboard_handle : drv W _ _) any.
Proof.
  unfold Keyboard_handle. eapply keeps_bind; [apply keeps_on_io, keeps_junk|]. intros junk _.
  eapply keeps_bind; [apply keeps_on_io, keeps_keyboard_read_scancode, typed_u8|].
  intros [r c] _. eapply keeps_bind; [apply keeps_statics|]. intros k Hk.
  eapply keeps_bind.
  { apply (keeps_lift_res _ typed). intros k' E. unfold dispatch in E.
    destruct (_ && _); [by injection E as <-|]. destruct (Keyboard_translate _ _) as [key mk].
    destruct (decide _); [by injection E as <-|]. unfold array_set in E.
    destruct (_ && _); [|done]. injection E as <-. unfold typed, typed_keys. cbn.
    by rewrite length_insert. }
  intros k' Hk'. by apply keeps_set_statics.
Qed.
End Keys.

(** A subscription stores the hook number the kernel gave. *)
Section Subscriptions.
Context {W : Type} `{DeviceTypes W}.

Lemma keeps_subscription {X} `{Typed X} (irq policy : Z) (hook : X -> Z) (f : Z -> X -> X) :
  (forall h x, is_int h -> typed x -> typed (f h x)) ->
  keeps (x ← statics;
         bit ← bit_int (hook x);
         let bit_no := u8 bit in
         '(r, h) ← on_io (sys_irqsetpolicy irq policy (hook x));
         set_statics (f h) ;;
         if tst r then mret (1, bit_no) else mret (0, bit_no) : drv W X (Z * Z)) byte_out.
Proof.
  intros Hf. eapply keeps_bind; [apply keeps_statics|]. intros x _.
  eapply keeps_bind; [apply keeps_bit_int|]. intros bit _.
  eapply keeps_bind; [apply keeps_on_io, keeps_sys_irqsetpolicy|]. intros [r h] Hh.
  eapply keeps_bind; [apply keeps_set_statics; intros y Hy; by apply Hf|]. intros [] _.
  ty; apply typed_u8.
Qed.

Lemma keeps_keyboard_subscribe bit : keeps (keyboard_subscribe bit : drv W _ _) byte_out.
Proof. apply (keeps_subscription _ _ kbd_hook_id). by intros h k Hh [_ Hk]. Qed.

Lemma keeps_timer_subscribe bit : keeps (timer_subscribe bit : drv W _ _) byte_out.
Proof. apply (keeps_subscription _ _ timer_hook_id). by intros h t Hh [_ Ht]. Qed.

Lemma keeps_mouse_subscribe bit : keeps (mouse_subscribe bit : drv W _ _) byte_out.
Proof.
  apply (keeps_subscription _ _ mouse_hook_id). intros h m Hh (? & ? & ? & ? & _).
  by repeat (split; [done|]).
Qed.
End Subscriptions.

#[export] Hint Resolve keeps_keyboard_subscribe keeps_keyboard_unsubscribe keeps_timer_subscribe
  keeps_timer_unsubscribe keeps_mouse_subscribe keeps_mouse_unsubscribe
  keeps_mouse_write_command keeps_mouse_read_packet keeps_mouse_get_packet
  keeps_Keyboard_handle : types.
