(* ===== verification/TypesApp.v ===== *)
(** * TypesApp: the program keeps its types

    Types.v continued from the heap and the card up to the whole program. *)

From S2P Require Import Prelude Machine Kbc Keyboard MouseDrv Timer Format Rtc Leaderboard.
From S2P Require Import Geometry Gpu Heap LinkedList Sprite SpritesUi SpritesAlphabet Xpm UiElement.
From S2P Require Import Menu Gamestate KeyboardManager MouseManager Demo Ipc Proj Startup Types.

(** ** Values *)

Lemma block_read_bytes src off n bs :
  is_bytes src -> block_read src off n = Ok bs -> is_bytes bs.
Proof.
  intros Hs E. unfold block_read in E. case_match; [|done]. injection E as <-.
  by apply Forall_take, Forall_drop.
Qed.

Lemma block_write_bytes dst off bs dst' :
  is_bytes dst -> is_bytes bs -> block_write dst off bs = Ok dst' -> is_bytes dst'.
Proof.
  intros Hd Hb E. unfold block_write in E. case_match; [|done]. injection E as <-.
  apply Forall_app. split; [by apply Forall_take|]. apply Forall_app.
  split; [done|by apply Forall_drop].
Qed.

Lemma le_bytes_bytes n v : is_bytes (le_bytes n v).
Proof.
  revert v. induction n as [|n IH]; intros v; cbn; constructor; [|apply IH].
  by apply Z.mod_pos_bound.
Qed.

Lemma array_get_typed {A} (P : A -> Prop) l i a : Forall P l -> array_get l i = Ok a -> P a.
Proof. intros Hl [_ E]%array_get_inv. by eapply Forall_lookup_1. Qed.

Ltac ints := unfold is_u8, is_u16, is_u32, is_i16, is_int, INT_MIN, INT_MAX in *; lia.

Lemma is_int_const z : INT_MIN <= z <= INT_MAX -> is_int z.
Proof. done. Qed.
Lemma typed_VEC2 a b : is_int a -> is_int b -> typed (VEC2 a b).
Proof. by split. Qed.

(** ** The heap *)

Section Stores.
Context {A : Type} `{Typed A}.

Lemma typed_insert p a (h : store A) n :
  typed h -> typed a -> typed (mkStore (<[p := a]> (cells h)) n).
Proof.
  intros Hh Ha q b E. cbn [cells] in E.
  apply lookup_insert_Some in E as [[_ <-]|[_ E]]; [done|by eapply Hh].
Qed.

Lemma keeps_load p : keeps (load p : M (store A) A) typed.
Proof.
  intros h Hh. unfold load, get, mbind, M_bind. destruct (_ =? _); [done|].
  destruct (cells h !! p) eqn:E; [|done]. split; [by eapply Hh|done].
Qed.

Lemma keeps_assign p a : typed a -> keeps (assign p a : M (store A) unit) any.
Proof.
  intros Ha. unfold assign. eapply keeps_bind; [apply keeps_load|]. intros _ _.
  apply keeps_modify. intros h Hh. by apply typed_insert.
Qed.

Lemma keeps_free p : keeps (free p : M (store A) unit) any.
Proof.
  unfold free. apply keeps_if; intros _; [by apply keeps_ret|].
  eapply keeps_bind; [apply keeps_load|]. intros _ _. apply keeps_modify.
  intros h Hh q b E. cbn [cells] in E. apply lookup_delete_Some in E as [_ E]. by eapply Hh.
Qed.

Lemma keeps_fresh a : typed a -> keeps (fresh a : M (store A) Z) any.
Proof.
  intros Ha. unfold fresh. eapply keeps_bind; [apply keeps_get|]. intros h Hh.
  eapply keeps_bind; [apply keeps_put; by apply typed_insert|]. intros [] _. by apply keeps_ret.
Qed.

Lemma keeps_alloc {W} `{Machine W} a : typed a -> keeps (alloc a : drv W (store A) Z) any.
Proof.
  intros Ha. unfold alloc. eapply keeps_bind; [apply keeps_on_io, keeps_malloc_ok|].
  intros ok _. apply keeps_if; intros _; [by apply keeps_ret|].
  by apply keeps_on_statics, keeps_fresh.
Qed.
End Stores.

#[export] Hint Resolve keeps_load keeps_free : types.

(** Nodes and menus have nothing to keep: their operations are well typed
    whatever they do. *)
Section Nodes.
Context {W : Type} `{Machine W}.

Lemma keeps_node_state {A} (m : M (store Node) A) : keeps m any.
Proof. intros h _. by destruct (m h) as [[a h']|]. Qed.

Lemma keeps_node_drv {A} (m : drv W (store Node) A) : keeps m any.
Proof. intros h _. by destruct (m h) as [[a [h' io]]|]. Qed.

Lemma keeps_menu_drv {A} (m : drv W (store Menu) A) : keeps m any.
Proof. intros h _. by destruct (m h) as [[a [h' io]]|]. Qed.
End Nodes.

(** ** The card *)

Section Card.
Context {W : Type} `{Machine W}.

Lemma typed_set_backbuffer b g : typed g -> is_bytes b -> typed (set_backbuffer b g).
Proof. intros (? & ? & ? & ? & ? & _) Hb. by do 5 (split; [done|]). Qed.

Lemma typed_set_video_mem v g : typed g -> is_bytes v -> typed (set_video_mem v g).
Proof. intros (? & ? & ? & ? & _ & ?) Hb. by do 4 (split; [done|]). Qed.

Lemma gpu_bytes g : typed g -> is_bytes (video_mem g) /\ is_bytes (backbuffer g).
Proof. by intros (_ & _ & _ & _ & ? & ?). Qed.

Lemma keeps_memcpy loc bs : is_bytes bs -> keeps (memcpy_to_backbuffer loc bs) any.
Proof.
  intros Hb. unfold memcpy_to_backbuffer. eapply keeps_bind; [apply keeps_get|]. intros g Hg.
  eapply keeps_bind.
  { apply (keeps_lift_res _ is_bytes). intros b E. eapply block_write_bytes; [|exact Hb|exact E]; by apply gpu_bytes. }
  intros b Hb'. by apply keeps_put, typed_set_backbuffer.
Qed.

Lemma keeps_draw_pixel x y color : keeps (gpu_draw_pixel x y color) any.
Proof. unfold gpu_draw_pixel. ty. apply keeps_memcpy, le_bytes_bytes. Qed.

Lemma keeps_draw_line pos bytes n : is_bytes bytes -> keeps (gpu_draw_line pos bytes n) any.
Proof.
  intros Hb. unfold gpu_draw_line. ty.
  - apply (keeps_lift_res _ is_bytes). intros bs E. by eapply block_read_bytes.
  - by apply keeps_memcpy.
Qed.

Lemma keeps_draw_transparent_xpm xpm pos offset size :
  keeps (gpu_draw_transparent_xpm xpm pos offset size) any.
Proof.
  unfold gpu_draw_transparent_xpm. ty; [|apply keeps_draw_pixel].
  by apply (keeps_lift_res _ any).
Qed.

Lemma keeps_draw_xpm xpm pos offset size :
  typed xpm -> keeps (gpu_draw_xpm xpm pos offset size : drv W gpu Z) any.
Proof.
  intros Hx. unfold gpu_draw_xpm. ty.
  - apply (keeps_lift_res _ is_bytes). intros bs E. eapply block_read_bytes; [apply Hx|exact E].
  - by apply keeps_draw_line.
Qed.

Lemma keeps_buffer_commit : keeps gpu_buffer_commit any.
Proof.
  unfold gpu_buffer_commit. eapply keeps_bind; [apply keeps_get|]. intros g Hg.
  eapply keeps_bind.
  { apply (keeps_lift_res _ is_bytes). intros b E. eapply block_read_bytes; [|exact E]; by apply gpu_bytes. }
  intros b Hb. eapply keeps_bind.
  { apply (keeps_lift_res _ is_bytes). intros v E. eapply block_write_bytes; [|exact Hb|exact E]; by apply gpu_bytes. }
  intros v Hv. by apply keeps_put, typed_set_video_mem.
Qed.

Lemma keeps_buffer_clear : keeps gpu_buffer_clear any.
Proof.
  unfold gpu_buffer_clear. eapply keeps_bind; [apply keeps_get|]. intros g Hg.
  eapply keeps_bind; [|intros b Hb; by apply keeps_put, typed_set_backbuffer].
  apply (keeps_lift_res _ is_bytes). intros b E. eapply block_write_bytes; [by apply gpu_bytes| |exact E].
  apply Forall_replicate. ints.
Qed.

Lemma keeps_indeterminate_bytes n : keeps (indeterminate_bytes n : io W _) is_bytes.
Proof.
  induction n as [|n IH]; cbn [indeterminate_bytes]; [by apply keeps_ret, Forall_nil|].
  eapply keeps_bind; [apply keeps_junk|]. intros b _. eapply keeps_bind; [exact IH|].
  intros bs Hbs. apply keeps_ret. constructor; [apply typed_u8|done].
Qed.

Lemma keeps_gpu_init `{Video W, XpmLoader W, !DeviceTypes W} mode :
  keeps (gpu_init_mem_indexation mode : drv W gpu Z) any.
Proof.
  unfold gpu_init_mem_indexation. eapply keeps_bind.
  { apply keeps_on_io, (keeps_oracle _ (fun p => vbe_typed p.2)). intros w [r v] w' E.
    by eapply mode_info_typed. }
  intros [r v] (Hx & Hy & Hb & Hrd & Hgn & Hbl). cbn [fst snd] in *. ty.
  - apply keeps_set_statics. intros g (_ & _ & _ & (_ & ? & ? & ?) & ? & ?).
    split; [done|]. split; [split; [done|apply typed_u8]|]. split; [done|].
    split; [|done]. split; [cbn; unfold DIRECT_MODE, INDEX_MODE; destruct (_ =? _); ints|done].
  - apply keeps_set_statics. intros g (? & ? & ? & (? & _) & ? & ?).
    do 3 (split; [done|]). split; [|done]. split; [done|]. split; [apply typed_u32|].
    split; apply typed_u32.
  - apply (keeps_oracle _ (fun o => forall vm, o = Some vm -> is_bytes vm)).
    intros w o w' E vm ->. by eapply map_typed.
  - apply keeps_set_statics. intros g Hg. apply typed_set_video_mem; auto.
  - apply keeps_indeterminate_bytes.
  - apply keeps_set_statics. intros g Hg. by apply typed_set_backbuffer.
Qed.
End Card.

#[export] Hint Resolve keeps_draw_transparent_xpm keeps_draw_xpm keeps_buffer_commit
  keeps_buffer_clear : types.

(** ** Sprites *)

Section Sprites.
Context {W : Type} `{DeviceTypes W}.

Lemma keeps_on_gpu {A} (m : drv W gpu A) P : keeps m P -> keeps (on_gpu m : drv W gfx A) P.
Proof.
  intros Hm. apply keeps_zoom; [done|by intros [g io] [[? _] _]|].
  by intros [c io'] [g io] [[_ ?] _] [? ?].
Qed.

Lemma keeps_on_sprites {A} (m : drv W (store Sprite) A) P :
  keeps m P -> keeps (on_sprites m : drv W gfx A) P.
Proof.
  intros Hm. apply keeps_zoom; [done|by intros [g io] [[_ ?] _]|].
  by intros [c io'] [g io] [[? _] _] [? ?].
Qed.

Lemma keeps_sprite_load p : keeps (sprite_load p : drv W gfx Sprite) typed.
Proof. apply keeps_on_sprites, keeps_on_statics, keeps_load. Qed.

Lemma keeps_sprite_store p s : typed s -> keeps (sprite_store p s : drv W gfx unit) any.
Proof. intros Hs. by apply keeps_on_sprites, keeps_on_statics, keeps_assign. Qed.

Lemma typed_set_img i s :
  typed s -> (forall im, i = Some im -> typed im) -> typed (set_img i s).
Proof. intros (_ & Hs) Hi. by split. Qed.

Lemma keeps_Sprite_xpm_load p xpm : keeps (Sprite_xpm_load p xpm : drv W gfx unit) any.
Proof.
  unfold Sprite_xpm_load. eapply keeps_bind; [apply keeps_sprite_load|]. intros s Hs.
  destruct (img s); [|apply keeps_fail]. eapply keeps_bind.
  { apply keeps_on_io, (keeps_oracle _ (fun p => typed p.2)). intros w [ok im] w' E.
    by eapply xpm_typed. }
  intros [ok im] Him. apply keeps_sprite_store, typed_set_img; [done|]. by intros ? [= <-].
Qed.

Lemma keeps_copy_table os n :
  Forall typed os -> keeps (copy_table os n : drv W gfx _) (Forall typed).
Proof.
  intros Hos. unfold copy_table. eapply keeps_bind; [apply keeps_on_io, keeps_malloc_ok|].
  intros ok _. ty. by apply Forall_take.
Qed.

Lemma keeps_Sprite_init p xpm os ss n d :
  Forall typed os -> Forall typed ss -> is_u32 n -> is_u32 d ->
  keeps (Sprite_init p xpm os ss n d : drv W gfx unit) any.
Proof.
  intros Hos Hss Hn Hd. unfold Sprite_init. apply keeps_if; intros _; [by apply keeps_ret|].
  eapply keeps_bind; [apply keeps_sprite_load|]. intros s Hs.
  eapply keeps_bind; [apply keeps_on_io, keeps_malloc_ok|]. intros ok _.
  eapply keeps_bind.
  { apply keeps_sprite_store, typed_set_img; [done|]. destruct ok; [|done].
    intros im [= <-]. by repeat split; try apply Forall_nil_2. }
  intros [] _. eapply keeps_bind; [apply keeps_Sprite_xpm_load|]. intros [] _.
  eapply keeps_bind; [by apply keeps_copy_table|]. intros os' Hos'.
  eapply keeps_bind; [by apply keeps_copy_table|]. intros ss' Hss'.
  eapply keeps_bind; [apply keeps_sprite_load|]. intros s2 (Hi & _).
  apply keeps_sprite_store. do 5 (split; [done|]). split; cbn; ints.
Qed.

Lemma keeps_Sprite_create xpm os ss n d :
  Forall typed os -> Forall typed ss -> is_u32 n -> is_u32 d ->
  keeps (Sprite_create xpm os ss n d : drv W gfx Z) any.
Proof.
  intros Hos Hss Hn Hd. unfold Sprite_create. eapply keeps_bind; [apply keeps_on_io, keeps_junk|].
  intros junk _. eapply keeps_bind.
  { apply keeps_on_sprites, keeps_alloc. split; [done|]. split; [by apply Forall_nil|].
    split; [by apply Forall_nil|]. repeat split; cbn; ints. }
  intros p _. ty. by apply keeps_Sprite_init.
Qed.

Lemma typed_animate s s' : typed s -> animate s = Ok s' -> typed s'.
Proof.
  intros (Hi & Ho & Hz & Hn & Hd & Hf & Hc) E. unfold animate in E.
  destruct (_ =? 0); [by injection E as <-; repeat (split; [done|])|].
  destruct (_ =? _).
  - destruct (Z.eqb_spec (framesc s) 0); [done|]. injection E as <-.
    do 5 (split; [done|]). split; [|cbn; ints]. cbn.
    pose proof (Z.mod_pos_bound (u32 (current_frame s + 1)) (framesc s)). ints.
  - injection E as <-. do 6 (split; [done|]). apply typed_u32.
Qed.

Lemma keeps_Sprite_draw p pos : keeps (Sprite_draw p pos : drv W gfx unit) any.
Proof.
  unfold Sprite_draw. eapply keeps_bind; [apply keeps_sprite_load|]. intros s Hs.
  destruct (img s) as [im|] eqn:Ei; [|by apply keeps_ret].
  assert (typed im) as Him by (destruct Hs as (Hi & _); by apply Hi).
  destruct (decide _); [apply keeps_sprite_store, typed_set_img; done|].
  eapply keeps_bind; [by apply (keeps_lift_res _ any)|]. intros o _.
  eapply keeps_bind; [by apply (keeps_lift_res _ any)|]. intros sz _.
  eapply keeps_bind.
  { apply keeps_if; intros _; apply keeps_on_gpu.
    - apply keeps_on_statics, keeps_draw_transparent_xpm.
    - by apply keeps_draw_xpm. }
  intros _ _. eapply keeps_bind.
  { apply (keeps_lift_res _ typed). intros s' E. by eapply typed_animate. }
  intros s' Hs'. by apply keeps_sprite_store.
Qed.
End Sprites.

(** ** The interface *)

Section Interface.
Context {W : Type} `{DeviceTypes W}.

Lemma keeps_on_gfx {A} (m : drv W gfx A) P : keeps m P -> keeps (on_gfx m : drv W ui A) P.
Proof.
  intros Hm. apply keeps_zoom; [done|by intros [u io] [(? & _) _]|].
  by intros [c io'] [u io] [(_ & ?) _] [? ?].
Qed.

Lemma keeps_on_elements {A} (m : drv W (store ui_element) A) P :
  keeps m P -> keeps (on_elements m : drv W ui A) P.
Proof.
  intros Hm. apply keeps_zoom; [done|by intros [u io] [(_ & ? & _) _]|].
  by intros [c io'] [u io] [(? & _ & ?) _] [? ?].
Qed.

Lemma keeps_on_nodes {A} (m : drv W (store Node) A) : keeps (on_nodes m : drv W ui A) any.
Proof.
  apply keeps_zoom; [apply keeps_node_drv|by intros [u io] [(_ & _ & ? & _) _]|].
  by intros [c io'] [u io] [(? & ? & _ & ?) _] [? ?].
Qed.

Lemma keeps_on_menus {A} (m : drv W (store Menu) A) : keeps (on_menus m : drv W ui A) any.
Proof.
  apply keeps_zoom; [apply keeps_menu_drv|by intros [u io] [(_ & _ & _ & ?) _]|].
  by intros [c io'] [u io] [(? & ? & ? & _) _] [? ?].
Qed.

Lemma keeps_element_load p : keeps (element_load p : drv W ui ui_element) typed.
Proof. apply keeps_on_elements, keeps_on_statics, keeps_load. Qed.

Lemma typed_AABB a b c d :
  is_int a -> is_int b -> is_int c -> is_int d -> typed (AABB (VEC2 a b) (VEC2 c d)).
Proof. intros Ha Hb Hc Hd. split; by split. Qed.

Lemma keeps_element_create b sp f :
  typed b -> keeps (ui_element_create b sp f : drv W ui Z) any.
Proof.
  intros Hb. unfold ui_element_create, ui_element_init. eapply keeps_bind.
  { apply keeps_on_elements, keeps_alloc. apply typed_AABB; ints. }
  intros p _. apply keeps_if; intros _; [by apply keeps_ret|].
  eapply (keeps_bind _ _ any); [|intros [] _; by apply keeps_ret].
  apply keeps_if; intros _; [by apply keeps_ret|].
  by apply keeps_on_elements, keeps_on_statics, keeps_assign.
Qed.

Lemma keeps_ui_element_draw p : keeps (ui_element_draw p : drv W ui unit) any.
Proof.
  unfold ui_element_draw. eapply keeps_bind; [apply keeps_element_load|].
  intros e _. apply keeps_on_gfx, keeps_Sprite_draw.
Qed.

Lemma keeps_draw_nodes fuel p : keeps (draw_nodes fuel p : drv W ui unit) any.
Proof.
  revert p. induction fuel as [|fuel IH]; intros p; cbn [draw_nodes]; [apply keeps_fail|].
  apply keeps_if; intros _; [by apply keeps_ret|].
  eapply keeps_bind; [apply keeps_on_nodes|]. intros n _.
  eapply keeps_bind; [apply keeps_ui_element_draw|]. intros [] _. apply IH.
Qed.

Lemma keeps_Menu_draw m : keeps (Menu_draw m : drv W ui unit) any.
Proof.
  unfold Menu_draw, menu_load. eapply keeps_bind; [apply keeps_on_menus|]. intros mn _.
  eapply keeps_bind; [apply keeps_on_nodes|]. intros fuel _. apply keeps_draw_nodes.
Qed.

Lemma keeps_menu_append m p : keeps (menu_append m p : drv W ui unit) any.
Proof.
  unfold menu_append, menu_load, menu_store.
  eapply keeps_bind; [apply keeps_on_menus|]. intros mn _.
  eapply keeps_bind; [apply keeps_on_nodes|]. intros head _. apply keeps_on_menus.
Qed.

Lemma keeps_menu_start m p : keeps (menu_start m p : drv W ui unit) any.
Proof.
  unfold menu_start, menu_load, menu_store.
  eapply keeps_bind; [apply keeps_on_nodes|]. intros head _.
  eapply keeps_bind; [apply keeps_on_menus|]. intros mn _. apply keeps_on_menus.
Qed.

Lemma keeps_create_sprite xpm off sz :
  typed off -> typed sz -> keeps (create_sprite xpm off sz : drv W ui Z) any.
Proof.
  intros Ho Hs. apply keeps_on_gfx, keeps_Sprite_create; first [by apply Forall_singleton|ints].
Qed.
End Interface.

#[export] Hint Resolve keeps_on_nodes keeps_on_menus keeps_menu_append keeps_menu_start
  keeps_Menu_draw : types.

(** The menus are made of constants: what is left are facts about numbers. *)
Ltac ty_ui := repeat first
  [ lazymatch goal with |- keeps (mbind _ _) _ => eapply keeps_bind; [|intros ? ?] end
  | by apply keeps_ret
  | apply keeps_on_menus | apply keeps_menu_append | apply keeps_menu_start
  | apply keeps_create_sprite; apply typed_VEC2; ints
  | apply keeps_element_create, typed_AABB; ints ].

Section Menus.
Context {W : Type} `{DeviceTypes W}.

Lemma char_coord_bounds c (co := calculate_char_coord c) :
  x co = 0 /\ 0 <= y co <= 3486 /\ 0 <= width co <= 44 /\ 0 <= height co <= 83.
Proof.
  subst co. destruct (decide (c ∈ charset)) as [Hc|Hc].
  - apply list_elem_of_lookup in Hc as [i Hi]. rewrite (char_coord_at c i Hi). cbn.
    apply lookup_lt_Some in Hi. cbn in Hi. lia.
  - rewrite char_coord_outside by done. cbn. lia.
Qed.

Lemma keeps_create_chars menu str x0 y0 :
  is_int x0 -> is_int y0 -> keeps (create_chars menu str x0 y0 : drv W ui unit) any.
Proof.
  revert x0. induction str as [|c str IH]; intros x0 Hx Hy; cbn [create_chars];
    [by apply keeps_ret|].
  pose proof (char_coord_bounds c) as (? & ? & ? & ?). ty_ui; [apply keeps_int|by apply IH].
Qed.

Lemma keeps_create_entries n i menu lb rdt :
  0 <= i -> i + Z.of_nat n <= 256 -> keeps (create_entries n i menu lb rdt : drv W ui unit) any.
Proof.
  revert i rdt. induction n as [|n IH]; intros i rdt Hi Hn; cbn [create_entries];
    [by apply keeps_ret|].
  ty_ui; try (by apply (keeps_lift_res _ any)).
  - apply keeps_create_chars; ints.
  - apply keeps_create_chars; ints.
  - apply IH; lia.
Qed.

Lemma keeps_create_main_menu : keeps (Menu_create_main_menu : drv W ui Z) any.
Proof. unfold Menu_create_main_menu. ty_ui. Qed.

Lemma keeps_create_leaderboard lb :
  is_u8 (entry_count lb) -> keeps (Menu_create_leaderboard lb : drv W ui Z) any.
Proof.
  intros Hn. unfold Menu_create_leaderboard. ty_ui. apply keeps_create_entries; ints.
Qed.
End Menus.

(** ** The game state and the cursor *)

Lemma read_entries_count fuel s dt lb lb' :
  is_u8 (entry_count lb) -> read_entries fuel s dt lb = Ok lb' -> is_u8 (entry_count lb').
Proof.
  revert s dt lb. induction fuel as [|fuel IH]; intros s dt lb Hn E; cbn [read_entries] in E; [done|].
  destruct (array_get _ _) as [e|]; [|done]. cbn [rbind] in E.
  destruct (scan_entry s e dt) as [[[[n e'] dt'] s']|]; [|done]. cbn [rbind] in E.
  destruct (array_set _ _ _) as [es|]; [|done]. cbn [rbind] in E.
  destruct (n =? 3); [|by injection E as <-].
  destruct (unix_to_rtc_date_time _ _) as [d|]; [|done]. cbn [rbind] in E.
  destruct (array_set _ _ _) as [es'|]; [|done]. cbn [rbind entry_count] in E.
  destruct (3 <=? _); [injection E as <-; apply typed_u8|]. by eapply IH, E; apply typed_u8.
Qed.

Section Front.
Context {W : Type} `{DeviceTypes W, !Files W}.

Lemma keeps_on_ui {A} (m : drv W ui A) P : keeps m P -> keeps (on_ui m : drv W front A) P.
Proof.
  intros Hm. apply keeps_zoom; [done|by intros [f io] [[? _] _]|].
  by intros [c io'] [f io] [[_ ?] _] [? ?].
Qed.

(** A change of the game state that leaves the level alone. *)
Lemma keeps_set_game f :
  (forall g, level (f g) = level g) -> keeps (set_statics (set_game f) : drv W front unit) any.
Proof.
  intros Hf. apply keeps_set_statics. intros fr [Hu Hg]. split; [done|].
  unfold typed, typed_gamestate. cbn. by rewrite Hf.
Qed.

Lemma run_callback_level f g : level (run_callback f g) = level g.
Proof. by destruct f. Qed.

Lemma keeps_indeterminate_entry : keeps (indeterminate_entry : io W _) any.
Proof.
  unfold indeterminate_entry. eapply keeps_bind; [apply keeps_indeterminate_bytes|]. intros nm _. ty.
Qed.

Lemma keeps_indeterminate_board :
  keeps (indeterminate_board : io W _) (fun lb => is_u8 (entry_count lb)).
Proof.
  unfold indeterminate_board. do 3 (eapply keeps_bind; [apply keeps_indeterminate_entry|]; intros ? _).
  eapply keeps_bind; [apply keeps_junk|]. intros n _. apply keeps_ret, typed_u8.
Qed.

Lemma keeps_read_file lb :
  is_u8 (entry_count lb) ->
  keeps (Leaderboard_read_file lb : io W _) (fun p => is_u8 (entry_count p.2)).
Proof.
  intros Hn. unfold Leaderboard_read_file. eapply keeps_bind; [by apply (keeps_oracle _ any)|].
  intros [s|] _; [|by apply keeps_ret].
  eapply keeps_bind; [apply keeps_junk|]. intros dt _. eapply keeps_bind.
  { apply (keeps_lift_res _ (fun lb => is_u8 (entry_count lb))). intros lb' E.
    eapply read_entries_count, E. cbn. ints. }
  intros lb' Hlb. eapply keeps_bind; [by apply (keeps_oracle _ any)|]. intros [] _.
  by apply keeps_ret.
Qed.

Lemma keeps_Gamestate_init : keeps (Gamestate_init : drv W front unit) any.
Proof.
  unfold Gamestate_init.
  eapply keeps_bind; [apply keeps_on_ui, keeps_create_main_menu|]. intros m _.
  eapply keeps_bind; [by apply keeps_set_game|]. intros [] _.
  eapply keeps_bind; [apply keeps_on_io, keeps_indeterminate_board|]. intros lb Hlb.
  eapply keeps_bind; [by apply keeps_on_io, keeps_read_file|]. intros [r lb'] Hlb'.
  eapply keeps_bind; [by apply keeps_on_ui, keeps_create_leaderboard|]. intros m' _.
  eapply keeps_bind; [by apply keeps_set_game|]. intros [] _. by apply keeps_set_game.
Qed.
End Front.

Section Cursor.
Context {W : Type} `{DeviceTypes W}.

Lemma keeps_on_front {A} (m : drv W front A) P :
  keeps m P -> keeps (on_front m : drv W cursor A) P.
Proof.
  intros Hm. apply keeps_zoom; [done|by intros [c io] [(? & _) _]|].
  by intros [f io'] [c io] [(_ & ?) _] [? ?].
Qed.

Lemma keeps_on_driver {A} (m : drv W mouse_statics A) P :
  keeps m P -> keeps (on_driver m : drv W cursor A) P.
Proof.
  intros Hm. apply keeps_zoom; [done|by intros [c io] [(_ & _ & _ & ?) _]|].
  by intros [f io'] [c io] [(? & ? & ? & _) _] [? ?].
Qed.

Lemma keeps_set_mouse f :
  (forall m, typed m -> typed (f m)) -> keeps (set_statics (set_mouse f) : drv W cursor unit) any.
Proof.
  intros Hf. apply keeps_set_statics. intros c (Hfr & Hmo & Hrest).
  split; [done|]. split; [by apply Hf|done].
Qed.

Lemma keeps_cursor_sprite : keeps (cursor_sprite : drv W cursor Sprite) typed.
Proof.
  unfold cursor_sprite. eapply keeps_bind; [apply keeps_statics|]. intros c _.
  apply keeps_on_front, keeps_on_ui, keeps_on_gfx, keeps_sprite_load.
Qed.

Lemma keeps_store_cursor_sprite s :
  typed s -> keeps (store_cursor_sprite s : drv W cursor unit) any.
Proof.
  intros Hs. unfold store_cursor_sprite. eapply keeps_bind; [apply keeps_statics|]. intros c _.
  by apply keeps_on_front, keeps_on_ui, keeps_on_gfx, keeps_sprite_store.
Qed.

Lemma typed_set_frame f s : typed s -> is_u32 f -> typed (set_frame f s).
Proof. intros (? & ? & ? & ? & ? & _ & ?) Hf. by do 6 (split; [done|]). Qed.

Lemma keeps_Mouse_state f : is_u32 f -> keeps (Mouse_state f : drv W cursor unit) any.
Proof.
  intros Hf. unfold Mouse_state. eapply keeps_bind; [apply keeps_cursor_sprite|]. intros s Hs.
  by apply keeps_store_cursor_sprite, typed_set_frame.
Qed.

Lemma keeps_Mouse_init : keeps (Mouse_init : drv W cursor unit) any.
Proof.
  unfold Mouse_init. eapply keeps_bind.
  { apply keeps_set_mouse. intros m (_ & Hb & Hp). split; [apply typed_VEC2; ints|].
    split; cbn; by rewrite length_insert. }
  intros [] _. eapply keeps_bind.
  { apply keeps_on_front, keeps_on_ui, keeps_on_gfx, keeps_Sprite_create; try ints;
      repeat apply Forall_cons_2; try apply typed_VEC2; try ints; by apply Forall_nil. }
  intros p _. eapply keeps_bind; [by apply keeps_set_mouse|]. intros [] _.
  eapply keeps_bind; [apply keeps_cursor_sprite|]. intros s Hs.
  apply keeps_store_cursor_sprite. change (typed (set_frame MOUSE_NORMAL s)).
  apply typed_set_frame; [done|]. unfold MOUSE_NORMAL. ints.
Qed.

(** The clamped coordinates are below a [uint16_t], so they are [int]s. *)
Lemma clamp_to_int v res : is_int v -> is_u16 res -> is_int (clamp_to v res).
Proof. unfold clamp_to. intros. destruct (Z.ltb_spec 0 v); case_match; ints. Qed.

Lemma keeps_Mouse_handle : keeps (Mouse_handle : drv W cursor unit) any.
Proof.
  unfold Mouse_handle. eapply keeps_bind; [apply keeps_on_driver, keeps_mouse_read_packet|].
  intros r _. eapply keeps_bind; [apply keeps_statics|]. intros c Hc.
  pose proof Hc as (Hf & Hm & Hp & Hd). apply keeps_if; intros _; [|by apply keeps_ret].
  eapply keeps_bind; [by apply keeps_on_driver, keeps_mouse_get_packet|]. intros [r' p] Hp'.
  eapply keeps_bind.
  { apply keeps_set_statics. intros c' (Hf1 & Hm1 & _ & Hd1). by do 2 (split; [done|]). }
  intros [] _. eapply keeps_bind; [apply keeps_int|]. intros nx Hx.
  eapply keeps_bind; [apply keeps_int|]. intros ny Hy.
  assert (typed (cursor_gpu c)) as [[Hxr Hyr] _] by apply Hf.
  apply keeps_set_mouse. intros m (_ & Hb & _).
  split; [by apply typed_VEC2; apply clamp_to_int|]. by split.
Qed.

Lemma keeps_hit_nodes fuel p : keeps (hit_nodes fuel p : drv W cursor unit) any.
Proof.
  revert p. induction fuel as [|fuel IH]; intros p; cbn [hit_nodes]; [apply keeps_fail|].
  apply keeps_if; intros _; [by apply keeps_ret|].
  eapply keeps_bind; [apply keeps_statics|]. intros c _.
  eapply keeps_bind; [apply keeps_on_front, keeps_on_ui, keeps_on_nodes|]. intros n _.
  eapply keeps_bind; [apply keeps_on_front, keeps_on_ui, keeps_element_load|]. intros e _.
  eapply keeps_bind; [by apply (keeps_lift_res _ any)|]. intros inside _.
  destruct (on_click e) as [f|]; [|apply IH]. apply keeps_if; intros _; [|apply IH].
  eapply keeps_bind; [by apply (keeps_lift_res _ any)|]. intros b _.
  eapply keeps_bind; [by apply (keeps_lift_res _ any)|]. intros b' _.
  eapply (keeps_bind _ _ any); [|intros [] _; apply keeps_Mouse_state; unfold MOUSE_CLICK; ints].
  apply keeps_if; intros _; [|by apply keeps_ret].
  apply keeps_on_front, keeps_set_game, run_callback_level.
Qed.

Lemma keeps_Mouse_draw : keeps (Mouse_draw : drv W cursor unit) any.
Proof.
  unfold Mouse_draw, menu_load. eapply keeps_bind; [apply keeps_statics|]. intros c _.
  eapply (keeps_bind _ _ any).
  { apply keeps_if; intros _; [|by apply keeps_ret].
    eapply keeps_bind; [apply keeps_on_front, keeps_on_ui, keeps_on_menus|]. intros m _.
    eapply keeps_bind; [apply keeps_Mouse_state; unfold MOUSE_NORMAL; ints|]. intros [] _.
    eapply keeps_bind; [apply keeps_on_front, keeps_on_ui, keeps_on_nodes|]. intros n _.
    apply keeps_hit_nodes. }
  intros [] _. eapply keeps_bind; [apply keeps_statics|]. intros c' _.
  apply keeps_if; intros _; [by apply keeps_ret|].
  eapply keeps_bind; [apply keeps_cursor_sprite|]. intros s _. apply keeps_if; intros _.
  - eapply keeps_bind; [apply keeps_int|]. intros l _.
    apply keeps_on_front, keeps_on_ui, keeps_on_gfx, keeps_Sprite_draw.
  - apply keeps_on_front, keeps_on_ui, keeps_on_gfx, keeps_Sprite_draw.
Qed.
End Cursor.

(** ** The program *)

Section Program.
Context {W : Type} `{DeviceTypes W, !Files W, !Ipc W}.

Lemma keeps_on_cursor {A} (m : drv W cursor A) P :
  keeps m P -> keeps (on_cursor m : drv W app A) P.
Proof.
  intros Hm. apply keeps_zoom; [done|by intros [a io] [(? & _) _]|].
  by intros [c io'] [a io] [(_ & ?) _] [? ?].
Qed.

Lemma keeps_on_keys {A} (m : drv W keyboard_state A) P :
  keeps m P -> keeps (on_keys m : drv W app A) P.
Proof.
  intros Hm. apply keeps_zoom; [done|by intros [a io] [(_ & ? & _) _]|].
  by intros [c io'] [a io] [(? & _ & ?) _] [? ?].
Qed.

Lemma keeps_on_kbd {A} (m : drv W kbd_statics A) P :
  keeps m P -> keeps (on_kbd m : drv W app A) P.
Proof.
  intros Hm. apply keeps_zoom; [done|by intros [a io] [(_ & _ & ? & _) _]|].
  by intros [c io'] [a io] [(? & ? & _ & ?) _] [? ?].
Qed.

Lemma keeps_on_timer {A} (m : drv W timer_statics A) P :
  keeps m P -> keeps (on_timer m : drv W app A) P.
Proof.
  intros Hm. apply keeps_zoom; [done|by intros [a io] [(_ & _ & _ & ? & _) _]|].
  by intros [c io'] [a io] [(? & ? & ? & _ & ?) _] [? ?].
Qed.

Lemma keeps_on_app_front {A} (m : drv W front A) P :
  keeps m P -> keeps (on_app_front m : drv W app A) P.
Proof. intros Hm. by apply keeps_on_cursor, keeps_on_front. Qed.

Lemma keeps_on_app_gpu {A} (m : M gpu A) P :
  keeps m P -> keeps (on_app_gpu m : drv W app A) P.
Proof.
  intros Hm. by apply keeps_on_app_front, keeps_on_ui, keeps_on_gfx, keeps_on_gpu, keeps_on_statics.
Qed.

Lemma keeps_handle_keyboard : keeps (handle_keyboard : drv W app unit) any.
Proof.
  unfold handle_keyboard. eapply keeps_bind; [apply keeps_on_keys, keeps_Keyboard_handle|].
  intros [] _. eapply keeps_bind; [apply keeps_statics|]. intros a _.
  apply keeps_if; intros _; [|by apply keeps_ret].
  eapply keeps_bind; [by apply (keeps_lift_res _ any)|]. intros q _.
  apply keeps_if; intros _; [|by apply keeps_ret].
  apply keeps_set_statics. intros a' (((Hu & Hg) & Hc) & Ha). split; [|done]. by split.
Qed.

Lemma keeps_draw_frame : keeps (draw_frame : drv W app unit) any.
Proof.
  unfold draw_frame. eapply keeps_bind; [apply keeps_statics|]. intros a _.
  eapply (keeps_bind _ _ any).
  { apply keeps_if; intros _; [|by apply keeps_ret].
    apply keeps_on_app_front, keeps_on_ui, keeps_Menu_draw. }
  intros [] _. eapply keeps_bind; [apply keeps_on_cursor, keeps_Mouse_draw|]. intros [] _.
  eapply keeps_bind; [apply keeps_on_app_gpu, keeps_buffer_commit|]. intros [] _.
  apply keeps_on_app_gpu, keeps_buffer_clear.
Qed.

Lemma keeps_handle_interrupts mask skip :
  keeps (handle_interrupts mask skip : drv W app bool) any.
Proof.
  unfold handle_interrupts. eapply keeps_bind; [apply keeps_statics|]. intros a _.
  eapply (keeps_bind _ _ any).
  { apply keeps_if; intros _; [apply keeps_on_cursor, keeps_Mouse_handle|by apply keeps_ret]. }
  intros [] _. eapply (keeps_bind _ _ any).
  { apply keeps_if; intros _; [apply keeps_handle_keyboard|by apply keeps_ret]. }
  intros [] _. apply keeps_if; intros _; [|by apply keeps_ret].
  eapply (keeps_bind _ _ any); [|intros [] _; by apply keeps_ret].
  apply keeps_if; intros _; [by apply keeps_ret|apply keeps_draw_frame].
Qed.

Lemma keeps_proj_loop rounds skip : keeps (proj_loop rounds skip : drv W app unit) any.
Proof.
  revert skip. induction rounds as [|n IH]; intros skip; cbn [proj_loop]; [apply keeps_fail|].
  eapply keeps_bind; [apply keeps_statics|]. intros a _.
  apply keeps_if; intros _; [by apply keeps_ret|].
  eapply (keeps_bind _ _ any); [|intros sk _; apply IH]. unfold loop_body.
  eapply keeps_bind; [by apply keeps_on_io, (keeps_oracle _ any)|]. intros [r msg] _.
  apply keeps_if; intros _; [by apply keeps_ret|].
  apply keeps_if; intros _; [apply keeps_handle_interrupts|by apply keeps_ret].
Qed.

Lemma keeps_set_bits (f : app -> Z * Z * Z) :
  (forall a, typed a -> is_bytes3 (f a)) ->
  keeps (set_statics (fun a => set_bits (f a).1.1 (f a).1.2 (f a).2 a) : drv W app unit) any.
Proof.
  intros Hf. apply keeps_set_statics. intros a Ha. pose proof (Hf a Ha) as Hb.
  destruct Ha as (Hc & Hk & Hkb & Ht & _). by do 4 (split; [done|]).
Qed.

Lemma keeps_mouse_enable_data : keeps (mouse_enable_data : io W Z) any.
Proof. unfold mouse_enable_data. ty. Qed.

Lemma keeps_mouse_disable_data : keeps (mouse_disable_data : io W Z) any.
Proof. unfold mouse_disable_data. ty. Qed.

(** One subscription, whose bit number goes to a field. *)
Lemma keeps_subscribed (f : app -> Z * Z * Z) k :
  (forall a, typed a -> is_bytes3 (f a)) -> keeps k any ->
  keeps (set_statics (fun a => set_bits (f a).1.1 (f a).1.2 (f a).2 a) ;; k : drv W app Z) any.
Proof. intros Hf Hk. eapply keeps_bind; [by apply keeps_set_bits|]. by intros [] _. Qed.

Lemma keeps_proj_init : keeps (proj_init : drv W app Z) any.
Proof.
  unfold proj_init. eapply keeps_bind; [apply keeps_statics|]. intros a _.
  eapply keeps_bind; [apply (keeps_on_kbd _ _ (keeps_keyboard_subscribe _))|]. intros [r b] Hb.
  apply (keeps_subscribed (fun a => (timer_bit_no a, b, mouse_bit_no a))).
  { intros a' (_ & _ & _ & _ & ? & ? & ?). by split; [|split]. }
  apply keeps_if; intros _; [by apply keeps_ret|].
  eapply keeps_bind; [apply keeps_on_timer, keeps_timer_subscribe|]. intros [r1 b1] Hb1.
  apply (keeps_subscribed (fun a => (b1, kbc_bit_no a, mouse_bit_no a))).
  { intros a' (_ & _ & _ & _ & ? & ? & ?). by split; [|split]. }
  apply keeps_if; intros _; [by apply keeps_ret|].
  eapply keeps_bind; [apply keeps_on_cursor, keeps_on_driver, keeps_mouse_subscribe|].
  intros [r2 b2] Hb2.
  apply (keeps_subscribed (fun a => (timer_bit_no a, kbc_bit_no a, b2))).
  { intros a' (_ & _ & _ & _ & ? & ? & ?). by split; [|split]. }
  apply keeps_if; intros _; [by apply keeps_ret|].
  assert (keeps (gpu_set_mode GRAPHICS_MODE : io W Z) any) as Hmode by (unfold gpu_set_mode; ty).
  ty.
  - apply keeps_mouse_enable_data.
  - apply keeps_on_app_front, keeps_on_ui, keeps_on_gfx, keeps_on_gpu, keeps_gpu_init.
  - apply keeps_on_cursor, keeps_Mouse_init.
  - apply keeps_set_statics. intros a' (Hc & Hk & Ha). split; [done|]. split; [|done].
    unfold typed, typed_keys. cbn. by rewrite length_insert.
  - apply keeps_on_app_front, keeps_Gamestate_init.
Qed.

Lemma keeps_proj_shutdown : keeps (proj_shutdown : drv W app Z) any.
Proof.
  unfold proj_shutdown. ty.
  - apply keeps_mouse_disable_data.
  - apply keeps_on_kbd, keeps_keyboard_unsubscribe.
  - apply keeps_on_timer, keeps_timer_unsubscribe.
  - apply keeps_on_cursor, keeps_on_driver, keeps_mouse_unsubscribe.
Qed.

Lemma keeps_proj_main_loop rounds : keeps (proj_main_loop rounds : drv W app Z) any.
Proof.
  unfold proj_main_loop. eapply keeps_bind; [apply keeps_proj_init|]. intros r _.
  apply keeps_if; intros _; [by apply keeps_ret|].
  eapply keeps_bind; [apply keeps_proj_loop|]. intros [] _.
  eapply keeps_bind; [apply keeps_proj_shutdown|]. intros r' _. ty.
Qed.
End Program.

Lemma typed_store_empty {A} `{Typed A} : typed (store_empty : store A).
Proof. intros p a E. cbn [cells store_empty] in E. by rewrite lookup_empty in E. Qed.

Lemma typed_app_zero : typed app_zero.
Proof.
  assert (typed gpu_zero) as Hg.
  { do 4 (split; [by repeat split|]). split; by apply Forall_nil. }
  assert (typed packet0) as Hp by by repeat split.
  split; [|by repeat split]. split; [|split; [by repeat split|split; [done|by repeat split]]].
  split; [|done]. split; [by split; [|apply typed_store_empty]|].
  split; [apply typed_store_empty|by split; apply typed_store_empty].
Qed.

(** ** The theorem *)

(** C25: whatever the devices send, as long as the VBE block, the mapped memory, the
    loaded images and the hook numbers the kernel gives have the types of their
    headers, every integer, string of bytes and table of the program's static
    variables and heap objects holds values of its C type, the drivers' hook
    numbers and the images' sizes included: the initial statics do, start-up and every interrupt keep it, and so does a run of the whole
    program, so the narrowing assignments of the code (to [uint8_t], [uint16_t],
    [int16_t], [uint32_t]) and its checked [int]s lose track of no value. *)
Theorem program_keeps_types {W} `{DeviceTypes W, !Files W, !Ipc W} :
  typed app_zero /\
  (forall a io, typed a ->
     match proj_init (a, io) with Ok (_, (a', _)) => typed a' | Fault _ => True end) /\
  (forall mask skip a io, typed a ->
     match handle_interrupts mask skip (a, io) with
     | Ok (_, (a', _)) => typed a'
     | Fault _ => True
     end) /\
  (forall rounds io,
     match proj_main_loop rounds (app_zero, io) with
     | Ok (_, (a', _)) => typed a'
     | Fault _ => True
     end).
Proof.
  assert (forall A (m : drv W app A) a io, keeps m any -> typed a ->
    match m (a, io) with Ok (_, (a', _)) => typed a' | Fault _ => True end) as Hrun.
  { intros A m a io Hm Ha. specialize (Hm (a, io) (conj Ha I)).
    destruct (m (a, io)) as [[x [a' io']]|]; [|done]. by destruct Hm as [_ [? _]]. }
  split; [apply typed_app_zero|]. split; [|split]; intros; apply Hrun; auto using
    keeps_proj_init, keeps_handle_interrupts, keeps_proj_main_loop, typed_app_zero.
Qed.

#[export] Instance demo_types {X} : DeviceTypes (demo X).
Proof.
  constructor.
  - intros irq policy hook w r h w' E. cbn in E. unfold in_room, beside in E. cbn in E.
    repeat case_match; simplify_eq; apply i32_range.
  - intros mode w r vmi w' [= <- <- <-]. repeat split; cbn; lia.
  - intros base n w vm w' [= <- <-]. apply Forall_replicate. ints.
  - intros map ty w ok image w' E. cbn in E. destruct (xpm_dims map) as [[[wd ht] n]|].
    + destruct (Z.leb_spec 0 wd), (Z.leb_spec 0 ht), (Z.ltb_spec wd 65536), (Z.ltb_spec ht 65536);
        cbn in E; injection E as <- <- <-; try (by repeat split; try apply Forall_nil_2).
      do 2 (split; [done|]). split; [split; cbn; nia|]. apply Forall_replicate. ints.
    + injection E as <- <- <-. by repeat split; try apply Forall_nil_2.
Qed.

Lemma program_keeps_types_witness :
  match proj_main_loop 5 (app_zero, demo_power_on) with
  | Ok (_, (a', _)) => typed a'
  | Fault _ => True
  end.
Proof.
  pose proof (program_keeps_types (W := demo (list message))) as (_ & _ & _ & Hm).
  exact (Hm 5%nat demo_power_on).
Defined.
